(* ===== verification/_CoqProject ===== *)
-Q . S2P
Prelude.v
BitOps.v
BitAlloc.v
Str.v
Queue.v
Shapes.v
Vga.v
Memory.v
Paging.v
Process.v
Spaces.v
Scheduler.v
Interrupts.v
Switch.v
Sysenter.v
Apic.v
Ata.v
Tar.v
Elf.v
Ps2.v
Objects.v
Gui.v
Windows.v
Events.v
Workers.v
Loop.v
Syscall.v
Files.v
Loader.v
Boot.v
Terminal.v
Shell.v
Session.v
Desktop.v
Start.v
Started.v
Rounds.v
