(* ===== verification/Prelude.v ===== *)
(** * Shipwreck OS

    Shipwreck is a hobby operating system for 32-bit PCs: a kernel with paging,
    user processes and threads, a window manager and an event system, drivers for
    the VESA frame buffer, the PS/2 controller and ATA disks, a tar file system,
    and a user-space library with an ELF loader.  This library models the C++
    sources (paths below are relative to [src/src/]) and proves what their parts
    promise.

    ** How the parts interact

    The machine starts in [Start], [_start] of the kernel: memory ([Boot],
    [Paging]), the interrupt table ([Interrupts]), the process table ([Process]),
    the kernel's windows and the wallpaper ([Desktop]), the event system, the
    devices.  Interrupts enter through the stubs of [Switch]: the timer saves the
    current thread, lets the scheduler choose ([Scheduler]) and resumes another; a
    write to a shared page makes a private copy ([Paging]); keyboard and mouse
    ([Ps2], routed by [Apic]) put events into shared queues ([Queue]).  A kernel
    thread sleeps on a monitor and drains them ([Events], [Workers], [Loop]): it
    moves and raises windows ([Gui], [Windows]), redraws ([Vga], [Shapes]), makes
    new processes ([Boot], in address spaces of [Spaces]) and forwards events to
    the queue of the process that owns the window on top ([Process]); there the
    [Shell] passes keys to its terminal ([Terminal]) and answers its user
    ([Session]).  Processes enter the kernel through [Sysenter] and [Syscall],
    which reaches memory ([Memory], on the bit allocator of [BitAlloc]), locks and
    monitors ([Process]), files ([Files], of [Tar] on [Ata]) and windows ([Gui], on
    the shared objects of [Objects]).  [Elf] loads programs in user space, through
    the calls of the kernel ([Loader]).  [Str] and [BitOps] are the common code.

    ** Files

    - [Prelude]: machine integers, bits, C arrays, loops (this file).
    - [BitOps]: [include/std/bitops.h], [atomic.h], [random.h].
    - [BitAlloc]: [include/std/bitset.h], [pool.h].
    - [Str]: [include/std/string.h], [system/string.cpp], [console.h], [kprint.h].
    - [Queue]: [include/std/queue.h]; enqueue and the consumer's round are also
      given step by step, for the interleavings.
    - [Shapes], [Vga]: [include/gui/shapes.h], [colors.h], [devices/vga.cpp],
      [devices/terminal.cpp].
    - [Memory]: [system/memory.cpp], [page.h], on a physical memory and the page
      walk of the processor; [Paging]: the start of paging and the page fault
      handler against their specification.
    - [Process]: [system/process.cpp], [threads.cpp], [locks.cpp]; [Spaces]: the
      address space of a new process; [Scheduler]: [system/scheduler.cpp].
    - [Interrupts]: [system/interrupts.cpp], [interrupts.h]; [Switch]: the entry
      and exit of an interrupt, instruction by instruction; [Sysenter]: those of a
      system call ([include/system.h], [system/syscall.cpp]).
    - [Apic]: [devices/apic.h], [apic.cpp] and the start of the scheduler.
    - [Ata], [Tar]: [devices/ata.h], [devices/tar.h].
    - [Elf]: [system/include/elfparser.h]; [Loader]: the loader as a client of
      the system calls.
    - [Ps2]: [devices/ps2.cpp], [devices/ps2.h], [include/std/events.h].
    - [Objects], [Gui]: [include/gui/objects.h], [system/gui.cpp], [gui.h];
      [Windows]: the windows of a process as a forest.
    - [Events]: [system/events.cpp]; [Workers]: its queues as lists and the rounds
      that serve them; [Loop]: [enter_event_loop] as a step relation.
    - [Syscall]: [system/syscall.cpp], [include/system.h],
      [system/api/system.cpp]; [Files]: [include/std/file.h] and the objects that
      the calls reach.
    - [Boot]: the memory, the interrupt table and the first process of
      [system/main.cpp]; [Desktop]: the wallpaper, the pointer and [init_gui] of
      [system/gui.cpp], [init_events], the kernel's windows of [main.cpp] and the
      tag the timer draws; [Start]: [_start] as a whole; [Started]: the state it
      leaves; [Rounds]: the first round of the event thread in that state.
    - [Terminal]: [include/gui/terminal.h]; [Shell], [Session]: [user/shell.cpp].

    A definition has the name of the function it models.  Its state is a record
    with the source's members; a function that changes state returns the new one.
    [None] is undefined behaviour, a fault or a halt of the source, or fuel that
    ran out; theorems state that the result is [Some].

    ** What the theorems show

    - The whole system: from any content of memory [_start] returns with a kernel
      that is set up ([start_ready]), and the first round of its event thread makes
      the first process and draws the screen ([power_on_to_first_process]).
    - Memory: [initialize_memory] builds an address space that satisfies the
      memory invariant ([initialize_memory_spec]), the boot code extends it to the
      frame buffer and the controllers ([boot_memory_spec]); an allocation maps
      the range it returns to distinct frames that were free, and a mapping
      translates ([virt_alloc_pages_maps], [map_to_translates]); a write to a
      copy-on-write page gets a private copy and disturbs nothing else
      ([copy_on_write_spec]); a new process has an address space and stacks of its
      own ([spawn_spec]); the bit allocator below sets the bits it claims and no
      other ([lock_bit_range_spec]).
    - Concurrency: every interleaving of producers with the consumer hands each
      accepted message over once ([shared_queue_exactly_once]); a timer interrupt
      at any instruction resumes exactly the registers of the thread it switches
      to ([timer_keeps_contexts]); the lock-free pointer bump gives disjoint
      ranges ([atomic_add_limit_exclusive]); locks are FIFO
      ([lock_refines_fifo]); threads take turns ([round_robin]).
    - Events: the queue of a worker is a list that is served in order, ten at a
      time ([user_events_refine_list]); the event thread sleeps, is woken by the
      timer and serves what came ([event_thread_serves]), although [notify] alone
      can lose a wake-up ([monitor_notify_race]).
    - Calls: a system call enters the kernel and returns to its caller
      ([system_call_roundtrip]), and the dispatcher decodes what the user library
      encodes ([do_syscall_spec]); the registers of the local APIC have their
      places ([lapic_layout]).
    - Windows: the stack of windows is a list ([winstack_refines_list]); the
      windows of a process are displayed as the forest its slots describe
      ([gui_update_proc_spec]); after a redraw the pick buffer names the window on
      top at each pixel ([redraw_pick_buffer]); a click raises it
      ([left_down_raises]); the wallpaper is drawn inside its image
      ([load_background_tga_spec]).
    - Input: the mouse bytes are decoded by a sliding window that never leaves
      the screen ([mouse_stream_spec]) and the button events follow a protocol
      ([button_protocol]).
    - Terminal and shell: a text box is a log ([textbox_holds_log]); [read] is a
      line editor under every interleaving of keys and reads
      ([read_edits_line]); the event thread types the keys of its queue
      ([shell_event_round_spec], on [mq_fifo]); what a command prints, and the
      length at which printing leaves its buffer ([shell_command_spec]); what the
      user of a session sees ([shell_transcript]).
    - Files and programs: a file opened, sought and read through the system calls
      gives its bytes ([open_seek_read], on [tar_read_spec] and
      [find_file_sector_spec]); a program is in memory as its file says before it
      is linked ([elf_exec_loads]); symbols are found ([getSymbolIndex_spec]).
    - Common code: [strncmp_zero_iff], [sprint_radix_parse].
    - Outside the list of properties are [rect_fill_spec], [lock_next_bit_lowest],
      [boot_idt_well_formed], [irq_route_spec], [adjustRelocations_spec] and what
      the models exhibit as errors: [unlock_forgets_running],
      [module_room_ignores_first], [keyboard_prefix_sticks], [mq_overwrites],
      [sq_enqueue_wrapped] and [kprint_overflow].

    ** Bounds and fuel

    Integers are [Z] with the wrap-around of their C type written out; signed
    sums that cannot overflow for on-screen values are left plain where the file
    says so.  A [for] loop with a counter is [for_each] or [for_range]; the long
    bounded polls and the gather loop run on [iter_until], by binary bound.  Fuel
    appears where the data drives the loop: the 33 rounds of a block of frames (a
    round sets one of 32 bits), one round per block of the allocator, 256 rounds
    of the list of waiting threads (all there are), 257 levels of windows (256
    windows in a hierarchy without cycles), the length of a name or of a hash
    chain, one round per block of the wallpaper's file.  The theorems prove these
    sufficient.

    ** What is not modelled

    Debug output ([dump], [debug]) and base types; the real-mode and
    protected-mode stubs in assembly files, the lazy binding's patch of its own
    stack frame, the jump to a program's entry point.  A system call that waits
    answers where it stands: its wait is a step of [Process] or [Loop] and the
    switch between is in [Switch], but no theorem runs the three together.  The
    bytes of a program are a flat memory ([Str.mem]); pages and frames are the
    words of [Memory.machine]: that every page a program touches is mapped is
    assumed where the two meet ([Files], [Loader], [Desktop]).  Parameters of the
    models: the screen size, the BIOS font, the drive, the time stamp counter,
    what compiled code does to registers between the pieces of assembly, the
    function a callback points to, addresses chosen by the linker. *)
From stdpp Require Export prelude list list_numbers gmap.
From Stdlib Require Export ZArith Lia Btauto.
#[export] Set Warnings "-notation-overridden".
Open Scope Z_scope.

(** ** Machine integers

    The program is compiled for i386 ([-m32]): [uint] is 32 bits, [ushort] 16,
    [uchar] 8, [int] is a 32-bit two's complement integer.  A machine integer
    is the [Z] it denotes and the wrap-around is written out. *)

Definition u32 (x : Z) : Z := x mod 4294967296.
Definition u16 (x : Z) : Z := x mod 65536.
Definition u8 (x : Z) : Z := x mod 256.
Definition s32 (x : Z) : Z := (x + 2147483648) mod 4294967296 - 2147483648.
Definition s16 (x : Z) : Z := (x + 32768) mod 65536 - 32768.
Definition s8 (x : Z) : Z := (x + 128) mod 256 - 128.

(** The all-ones word, which is both [(uint) -1] and [0xFFFFFFFF]. *)
Definition all_ones : Z := 4294967295.

Declare Scope word_scope.
Delimit Scope word_scope with word.
(** Unsigned 32-bit arithmetic.  An i386 shift takes its count modulo 32. *)
Notation "x +w y" := (u32 (x + y)) (at level 50, left associativity) : word_scope.
Notation "x -w y" := (u32 (x - y)) (at level 50, left associativity) : word_scope.
Notation "x *w y" := (u32 (x * y)) (at level 40, left associativity) : word_scope.
Notation "x <<w y" := (u32 (Z.shiftl x (y mod 32))) (at level 30, no associativity) : word_scope.
Notation "x >>w y" := (Z.shiftr x (y mod 32)) (at level 30, no associativity) : word_scope.
Notation "~w x" := (u32 (Z.lnot x)) (at level 35, right associativity) : word_scope.
Open Scope word_scope.

Definition is_u32 (x : Z) : Prop := 0 <= x < 4294967296.
Definition is_s32 (x : Z) : Prop := -2147483648 <= x < 2147483648.
Definition is_u16 (x : Z) : Prop := 0 <= x < 65536.
Definition is_u8 (x : Z) : Prop := 0 <= x < 256.

Create HintDb word.
Create Rewrite HintDb word.

Ltac zdm := Z.div_mod_to_equations; lia.

Lemma u32_range x : is_u32 (u32 x).
Proof. unfold is_u32, u32. apply Z.mod_pos_bound. lia. Qed.

Lemma u32_small x : is_u32 x -> u32 x = x.
Proof. apply Z.mod_small. Qed.

Lemma u32_idem x : u32 (u32 x) = u32 x.
Proof. apply u32_small, u32_range. Qed.

Lemma u16_range x : is_u16 (u16 x).
Proof. unfold is_u16, u16. apply Z.mod_pos_bound. lia. Qed.

Lemma u16_small x : is_u16 x -> u16 x = x.
Proof. apply Z.mod_small. Qed.

Lemma u8_range x : is_u8 (u8 x).
Proof. unfold is_u8, u8. apply Z.mod_pos_bound. lia. Qed.

Lemma u8_small x : is_u8 x -> u8 x = x.
Proof. apply Z.mod_small. Qed.

Lemma s32_range x : is_s32 (s32 x).
Proof. unfold is_s32, s32. pose proof (Z.mod_pos_bound (x + 2147483648) 4294967296). lia. Qed.

Lemma s32_small x : is_s32 x -> s32 x = x.
Proof. unfold is_s32, s32. intros. rewrite Z.mod_small; lia. Qed.

Lemma u32_s32 x : u32 (s32 x) = u32 x.
Proof. unfold u32, s32. zdm. Qed.

Lemma s32_u32 x : s32 (u32 x) = s32 x.
Proof. unfold u32, s32. zdm. Qed.

#[export] Hint Resolve u32_range u16_range u8_range s32_range : word.
#[export] Hint Rewrite u32_idem u32_s32 s32_u32 : word.

(** ** Bits *)

Lemma u32_testbit x i :
  0 <= i -> Z.testbit (u32 x) i = (i <? 32) && Z.testbit x i.
Proof.
  intros Hi. unfold u32. change 4294967296 with (2 ^ 32).
  destruct (Z.ltb_spec i 32).
  - by rewrite Z.mod_pow2_bits_low.
  - rewrite Z.mod_pow2_bits_high; lia.
Qed.

Lemma all_ones_testbit i : 0 <= i -> Z.testbit all_ones i = (i <? 32).
Proof.
  intros Hi. change all_ones with (Z.ones 32).
  destruct (Z.ltb_spec i 32).
  - apply Z.ones_spec_low. lia.
  - apply Z.ones_spec_high. lia.
Qed.

Lemma is_u32_testbit_high x i : is_u32 x -> 32 <= i -> Z.testbit x i = false.
Proof. intros Hx Hi. rewrite <- (u32_small x Hx), u32_testbit by lia.
  destruct (Z.ltb_spec i 32); [lia|done]. Qed.

(** Two words are equal when their low 32 bits are. *)
Lemma u32_bits_inj x y :
  is_u32 x -> is_u32 y -> (forall i, 0 <= i < 32 -> Z.testbit x i = Z.testbit y i) -> x = y.
Proof.
  intros Hx Hy H. apply Z.bits_inj'. intros i Hi.
  destruct (Z.lt_ge_cases i 32); [by apply H|].
  by rewrite !is_u32_testbit_high.
Qed.

(** A non-negative integer without bits above [n] is below [2^n]. *)
Lemma below_pow2 x n :
  0 <= n -> 0 <= x -> (forall i, n <= i -> Z.testbit x i = false) -> x < 2 ^ n.
Proof.
  intros Hn Hx H. destruct (Z.eq_dec x 0) as [->|]; [lia|].
  apply Z.log2_lt_pow2; [lia|]. apply Z.lt_nge. intros Hle.
  pose proof (H _ Hle) as Hb. rewrite Z.bit_log2 in Hb; [done|lia].
Qed.

Lemma is_u32_lor x y : is_u32 x -> is_u32 y -> is_u32 (Z.lor x y).
Proof.
  intros Hx Hy. assert (0 <= Z.lor x y) by (apply Z.lor_nonneg; unfold is_u32 in *; lia).
  split; [done|]. apply (below_pow2 _ 32); [lia|done|].
  intros i Hi. by rewrite Z.lor_spec, !is_u32_testbit_high.
Qed.

Lemma is_u32_land x y : is_u32 x -> 0 <= y -> is_u32 (Z.land x y).
Proof.
  intros Hx Hy. assert (0 <= Z.land x y) by (apply Z.land_nonneg; by right).
  split; [done|]. apply (below_pow2 _ 32); [lia|done|].
  intros i Hi. by rewrite Z.land_spec, (is_u32_testbit_high x).
Qed.

Lemma is_u32_all_ones : is_u32 all_ones.
Proof. unfold is_u32, all_ones. lia. Qed.

Lemma pow2_testbit n i : 0 <= n -> 0 <= i -> Z.testbit (Z.shiftl 1 n) i = (i =? n).
Proof.
  intros Hn Hi. rewrite Z.shiftl_1_l. destruct (Z.eqb_spec i n) as [->|].
  - by apply Z.pow2_bits_true.
  - apply Z.pow2_bits_false. lia.
Qed.

(** [1 << n], computed in 32 bits, has exactly bit [n]. *)
Lemma bit_mask_testbit n i :
  0 <= n < 32 -> 0 <= i -> Z.testbit (1 <<w n) i = (i =? n).
Proof.
  intros Hn Hi. rewrite (Z.mod_small n 32), u32_testbit, pow2_testbit by lia.
  destruct (Z.ltb_spec i 32), (Z.eqb_spec i n); auto; lia.
Qed.

#[export] Hint Resolve is_u32_lor is_u32_land is_u32_all_ones : word.
Create Rewrite HintDb bits.
#[export] Hint Rewrite Z.lor_spec Z.land_spec Z.lxor_spec Z.ldiff_spec : bits.
#[export] Hint Rewrite u32_testbit all_ones_testbit Z.lnot_spec Z.shiftl_spec Z.shiftr_spec
  Z.testbit_0_l using lia : bits.

(** Decide every comparison of indices in the goal, then close it. *)
Ltac split_ltb :=
  repeat match goal with
    | |- context [?a <? ?b] => destruct (Z.ltb_spec a b)
    | |- context [?a <=? ?b] => destruct (Z.leb_spec a b)
    | |- context [?a =? ?b] => destruct (Z.eqb_spec a b)
    end.

(** Bitwise equality of two words. *)
Ltac bits_eq :=
  apply u32_bits_inj; [auto with word..|]; intros ?i ?Hi;
  autorewrite with bits; split_ltb; try lia; try btauto.

(** A step that succeeds; nothing else is evaluated. *)
Lemma bind_ok {A B} (c : option A) (f : A -> option B) x : c = Some x -> (y ← c; f y) = f x.
Proof. by intros ->. Qed.

(** ** C arrays: an access out of range is undefined behaviour ([None]) *)

Section array.
  Context {A : Type}.
  Implicit Types (l : list A).

Definition arr_get l (i : Z) : option A :=
    if 0 <=? i then l !! Z.to_nat i else None.

Definition arr_set l (i : Z) (v : A) : option (list A) :=
    if (0 <=? i) && (i <? Z.of_nat (length l)) then Some (<[Z.to_nat i := v]> l) else None.

Lemma arr_get_Some l i : 0 <= i < Z.of_nat (length l) -> is_Some (arr_get l i).
  Proof.
    intros Hi. unfold arr_get. destruct (Z.leb_spec 0 i); [|lia].
    apply lookup_lt_is_Some. lia.
  Qed.

Lemma arr_get_Some_1 l i v : arr_get l i = Some v -> 0 <= i < Z.of_nat (length l).
  Proof.
    unfold arr_get. destruct (Z.leb_spec 0 i); [|done].
    intros ?%lookup_lt_Some. lia.
  Qed.

Lemma arr_set_Some l i v :
    0 <= i < Z.of_nat (length l) -> arr_set l i v = Some (<[Z.to_nat i := v]> l).
  Proof.
    intros Hi. unfold arr_set.
    destruct (Z.leb_spec 0 i), (Z.ltb_spec i (Z.of_nat (length l))); done || lia.
  Qed.

Lemma arr_set_inv l i v l' :
    arr_set l i v = Some l' ->
    0 <= i < Z.of_nat (length l) /\ l' = <[Z.to_nat i := v]> l.
  Proof.
    unfold arr_set.
    destruct (Z.leb_spec 0 i), (Z.ltb_spec i (Z.of_nat (length l))); intros; simplify_eq/=; lia || done.
  Qed.

Lemma arr_set_length l i v l' : arr_set l i v = Some l' -> length l' = length l.
  Proof. intros [_ ->]%arr_set_inv. apply length_insert. Qed.

Lemma arr_get_set l i v l' j :
    arr_set l i v = Some l' ->
    arr_get l' j = if decide (i = j) then Some v else arr_get l j.
  Proof.
    intros [Hi ->]%arr_set_inv. unfold arr_get.
    destruct (Z.leb_spec 0 j); case_decide; subst; try lia; try done.
    - apply list_lookup_insert_eq. lia.
    - apply list_lookup_insert_ne. lia.
  Qed.

Lemma arr_get_app_l l l' i v : arr_get l i = Some v -> arr_get (l ++ l') i = Some v.
  Proof. unfold arr_get. destruct (0 <=? i); [|done]. intros H. by apply lookup_app_l_Some. Qed.
End array.

(** ** Counted loops

    [for_each n i body s] is the C loop [for (; n more times; i++) body] on the
    state [s]; [None] is undefined behaviour of the body. *)

Section loops.
  Context {S : Type}.

Fixpoint for_each (n : nat) (i : Z) (body : Z -> S -> option S) (s : S) : option S :=
    match n with
    | O => Some s
    | Datatypes.S n => s' ← body i s; for_each n (i + 1) body s'
    end.

  (** The loop rule: an invariant kept by the body holds at the end, and the
      loop has no undefined behaviour. *)
Lemma for_each_inv (P : Z -> S -> Prop) n i body s :
    P i s ->
    (forall j s, i <= j < i + Z.of_nat n -> P j s ->
       exists s', body j s = Some s' /\ P (j + 1) s') ->
    exists s', for_each n i body s = Some s' /\ P (i + Z.of_nat n) s'.
  Proof.
    revert i s. induction n as [|n IH]; intros i s H0 Hb; simpl.
    - exists s. by rewrite Z.add_0_r.
    - destruct (Hb i s) as (s1 & -> & H1); [lia|done|]. simpl.
      destruct (IH (i + 1) s1) as (s2 & Hs2 & H2); [done|intros; apply Hb; [lia|done]|].
      exists s2. split; [done|]. by replace (i + Z.of_nat (Datatypes.S n)) with (i + 1 + Z.of_nat n) by lia.
  Qed.
End loops.

(** A boolean test that holds on every integer of a range, by evaluation. *)
Lemma seqZ_forallb (f : Z -> bool) lo n :
  forallb f (seqZ lo n) = true -> forall i, lo <= i < lo + n -> f i = true.
Proof.
  rewrite forallb_forall. intros H i Hi. apply H.
  apply list_elem_of_In, elem_of_seqZ. lia.
Qed.

(** An assertion that every step of [R] keeps holds in every reachable state. *)
Lemma rtc_inv {A} (R : relation A) (P : A -> Prop) x y :
  (forall a b, R a b -> P a -> P b) -> rtc R x y -> P x -> P y.
Proof. intros HR Hxy. induction Hxy; eauto. Qed.

(** ** Loops with a large bound

    [iter_until p f s] runs [f] at most [p] times, until it answers [inr]; the
    recursion is on the binary bound, so that a loop of the source bounded by a
    32-bit integer still evaluates. *)
Section until.
Context {St R : Type} (f : St -> St + R).

Definition and_then (x : St + R) (k : St -> St + R) : St + R :=
  match x with inl s => k s | inr r => inr r end.

Fixpoint iter_until_pos (p : positive) (s : St) : St + R :=
  match p with
  | xH => f s
  | xO p => and_then (iter_until_pos p s) (iter_until_pos p)
  | xI p => and_then (f s) (fun s => and_then (iter_until_pos p s) (iter_until_pos p))
  end.

Definition iter_until (n : Z) (s : St) : St + R :=
  match n with Z.pos p => iter_until_pos p s | _ => inl s end.

(** The same loop, one round at a time. *)
Fixpoint iter_until_nat (n : nat) (s : St) : St + R :=
  match n with O => inl s | S n => and_then (f s) (iter_until_nat n) end.

Lemma iter_until_nat_add n k s :
  iter_until_nat (n + k) s = and_then (iter_until_nat n s) (iter_until_nat k).
Proof.
  revert s. induction n as [|n IH]; intros s; cbn; [done|].
  destruct (f s); cbn; [apply IH|done].
Qed.

Lemma iter_until_pos_nat p s : iter_until_pos p s = iter_until_nat (Pos.to_nat p) s.
Proof.
  revert s. induction p as [p IH|p IH|]; intros s; cbn [iter_until_pos].
  - rewrite Pos2Nat.inj_xI. cbn [iter_until_nat]. destruct (f s) as [s1|r]; cbn; [|done].
    replace (2 * Pos.to_nat p)%nat with (Pos.to_nat p + Pos.to_nat p)%nat by lia.
    rewrite iter_until_nat_add, IH. destruct (iter_until_nat _ s1); cbn; rewrite ?Nat.add_0_r; [apply IH|done].
  - rewrite Pos2Nat.inj_xO. replace (2 * Pos.to_nat p)%nat with (Pos.to_nat p + Pos.to_nat p)%nat by lia.
    rewrite iter_until_nat_add, IH. destruct (iter_until_nat _ s) as [s1|]; cbn; rewrite ?Nat.add_0_r; [apply IH|done].
  - change (Pos.to_nat 1) with 1%nat. cbn [iter_until_nat]. destruct (f s); reflexivity.
Qed.

Lemma iter_until_unfold n s : iter_until n s = iter_until_nat (Z.to_nat n) s.
Proof. destruct n as [|p|p]; cbn [iter_until]; [done| |done]. apply iter_until_pos_nat. Qed.
End until.
