(* ===== verification/BitOps.v ===== *)
(** * Bit operations, the pseudo-random generator and atomic addition

    [src/include/std/bitops.h], [src/include/std/random.h] and
    [src/include/std/atomic.h].  [atomic_add_limit] is given as the sequence of
    its atomic steps ([add_step]), so that the same definition is run alone
    ([atomic_add_limit]) and interleaved with others ([adders_step]). *)
From S2P Require Import Prelude.

(** ** bitops.h *)

Definition rotleft (val bits : Z) : Z :=
  let b32 := Z.land bits 0x1F in
  Z.lor (val <<w b32) (val >>w (32 - b32)).

Definition rotright (val bits : Z) : Z :=
  let b32 := Z.land bits 0x1F in
  Z.lor (val >>w b32) (val <<w (32 - b32)).

(** The [bsf] instruction: the index of the lowest set bit; its destination is
    undefined when the source is zero. *)
Fixpoint bsf (n : nat) (i data : Z) : option Z :=
  match n with
  | O => None
  | S n => if Z.testbit data i then Some i else bsf n (i + 1) data
  end.

Definition bitscan_forward (data : Z) : option Z := bsf 32 0 data.

Definition high_ones (num_bits : Z) : Z :=
  let invbits := s32 (32 - num_bits) in
  let halfbits := Z.shiftr invbits 1 in
  let mask := s32 (Z.shiftl 1 (halfbits mod 32)) in
  let mask := s32 (Z.shiftl mask ((invbits - halfbits) mod 32)) in
  s32 (- mask).

Definition low_ones (num_bits : Z) : Z :=
  let halfbits := Z.shiftr num_bits 1 in
  let mask := s32 (Z.shiftl 1 (halfbits mod 32)) in
  let mask := s32 (Z.shiftl mask ((num_bits - halfbits) mod 32)) in
  s32 (mask - 1).

(** ** random.h *)

(** [*(uint * ) "blah"] on a little-endian machine. *)
Definition blah : Z := 0x68616C62.

(** The new seed, which is also the value returned. *)
Definition prand (prand_seed : Z) : Z := Z.lxor (rotleft prand_seed prand_seed) blah.

(** ** atomic.h *)

(** [xchg]: the old value and the new content of [dst]. *)
Definition atomic_swap (dst src : Z) : Z * Z := (dst, src).

(** [__sync_val_compare_and_swap]: the value found and the new content. *)
Definition val_compare_and_swap (val oldval newval : Z) : Z * Z :=
  (val, if val =? oldval then newval else val).

Definition MAX_ADD_TRIES : Z := 10.

(** The program point of a call of [atomic_add_limit] between two atomic steps. *)
Inductive add_pc :=
  | AddStart                    (** about to read [val] *)
  | AddTry (i myval : Z)        (** at the head of iteration [i] *)
  | AddDone (ret : Z).          (** returned [ret] *)

Record adder := { add_diff : Z; add_limit : Z; add_at : add_pc }.

Definition add_goto (a : adder) (pc : add_pc) : adder :=
  {| add_diff := add_diff a; add_limit := add_limit a; add_at := pc |}.

(** One atomic step of a call: the read of [val], or one iteration of the
    loop, whose only access to [val] is its compare-and-swap. *)
Definition add_step (val : Z) (a : adder) : Z * adder :=
  match add_at a with
  | AddStart => (val, add_goto a (AddTry 0 val))
  | AddTry i myval =>
      if negb (i <? MAX_ADD_TRIES) then (val, add_goto a (AddDone (add_limit a))) else
      if (add_limit a -w myval) <? add_diff a then (val, add_goto a (AddDone (add_limit a))) else
      let newval := myval +w add_diff a in
      let oldval := myval in
      let '(myval, val) := val_compare_and_swap val oldval newval in
      if myval =? oldval then (val, add_goto a (AddDone oldval))
      else (val, add_goto a (AddTry (i + 1) myval))
  | AddDone _ => (val, a)
  end.

Definition new_adder (diff limit : Z) : adder :=
  {| add_diff := diff; add_limit := limit; add_at := AddStart |}.

Fixpoint add_run (fuel : nat) (val : Z) (a : adder) : Z * adder :=
  match fuel with
  | O => (val, a)
  | S n => let '(val, a) := add_step val a in add_run n val a
  end.

(** A call that no other thread interrupts: the new [val] and the result. *)
Definition atomic_add_limit (val diff limit : Z) : Z * Z :=
  match add_run 12 val (new_adder diff limit) with
  | (val, {| add_at := AddDone ret |}) => (val, ret)
  | (val, _) => (val, limit)
  end.

(** Any number of threads inside [atomic_add_limit] on the same [val]: at each
    step one of them, whichever the scheduler chooses, makes its next atomic step. *)
Inductive adders_step : Z * list adder -> Z * list adder -> Prop :=
  | adders_step_one val l t a val' a' :
      l !! t = Some a -> add_step val a = (val', a') ->
      adders_step (val, l) (val', <[t := a']> l).

(** What a call that returned successfully has reserved. *)
Definition reserved (a : adder) : option (Z * Z) :=
  match add_at a with
  | AddDone ret => if ret =? add_limit a then None else Some (ret, ret + add_diff a)
  | _ => None
  end.

(** ** Lemmas *)

Lemma bsf_spec n i data b :
  bsf n i data = Some b ->
  i <= b < i + Z.of_nat n /\ Z.testbit data b = true /\
  forall j, i <= j < b -> Z.testbit data j = false.
Proof.
  revert i. induction n as [|n IH]; intros i; simpl; [done|].
  destruct (Z.testbit data i) eqn:Hi; intros H.
  - simplify_eq. repeat split; try done || lia.
  - destruct (IH _ H) as (? & ? & Hlow). repeat split; try done || lia.
    intros j Hj. destruct (Z.eq_dec j i) as [->|]; [done|]. apply Hlow. lia.
Qed.

Lemma bsf_complete n i data j :
  i <= j < i + Z.of_nat n -> Z.testbit data j = true -> is_Some (bsf n i data).
Proof.
  revert i. induction n as [|n IH]; intros i Hj Ht; simpl; [lia|].
  destruct (Z.testbit data i) eqn:Hi; [done|].
  apply IH; [|done]. destruct (Z.eq_dec i j); [congruence|lia].
Qed.

(** The bit found by [bitscan_forward(~bits)] is a clear bit of [bits]. *)
Lemma bitscan_free bits b :
  is_u32 bits -> bitscan_forward (~w bits) = Some b ->
  0 <= b < 32 /\ Z.testbit bits b = false.
Proof.
  intros Hb H. apply bsf_spec in H as (Hr & Ht & _). simpl in Hr.
  split; [lia|]. rewrite u32_testbit, Z.lnot_spec in Ht by lia.
  destruct (Z.testbit bits b); [|done]. rewrite andb_false_r in Ht. done.
Qed.

Lemma bitscan_free_complete bits :
  is_u32 bits -> bits <> all_ones -> is_Some (bitscan_forward (~w bits)).
Proof.
  intros Hb Hne. destruct (bitscan_forward (~w bits)) eqn:E; [by eexists|].
  exfalso. apply Hne, u32_bits_inj; [auto with word..|]. intros i Hi.
  rewrite all_ones_testbit by lia. destruct (Z.ltb_spec i 32); [|lia].
  destruct (Z.testbit bits i) eqn:Hti; [done|].
  assert (is_Some (bitscan_forward (~w bits))) as [? ?]; [|congruence].
  apply (bsf_complete 32 0 _ i); [lia|].
  autorewrite with bits. rewrite Hti. destruct (Z.ltb_spec i 32); [done|lia].
Qed.

Lemma bitscan_full : bitscan_forward (~w all_ones) = None.
Proof. reflexivity. Qed.

(** The masks [high_ones] and [low_ones] build. *)
Lemma high_ones_testbit n i :
  0 <= n <= 32 -> 0 <= i ->
  Z.testbit (u32 (high_ones n)) i = (32 - n <=? i) && (i <? 32).
Proof.
  intros Hn Hi. rewrite u32_testbit by done.
  destruct (Z.ltb_spec i 32); [|by rewrite andb_false_r]. rewrite andb_true_r. simpl.
  assert (E : forallb (fun n => forallb (fun i => Bool.eqb (Z.testbit (high_ones n) i)
    (32 - n <=? i)) (seqZ 0 32)) (seqZ 0 33) = true) by (vm_compute; reflexivity).
  pose proof (seqZ_forallb _ _ _ E n ltac:(lia)) as E'. cbv beta in E'.
  apply Bool.eqb_prop, (seqZ_forallb _ _ _ E' i). lia.
Qed.

Lemma low_ones_testbit n i :
  0 <= n <= 32 -> 0 <= i -> Z.testbit (u32 (low_ones n)) i = (i <? n).
Proof.
  intros Hn Hi. rewrite u32_testbit by done.
  destruct (Z.ltb_spec i 32); [|destruct (Z.ltb_spec i n); [lia|done]]. simpl.
  assert (E : forallb (fun n => forallb (fun i => Bool.eqb (Z.testbit (low_ones n) i)
    (i <? n)) (seqZ 0 32)) (seqZ 0 33) = true) by (vm_compute; reflexivity).
  pose proof (seqZ_forallb _ _ _ E n ltac:(lia)) as E'. cbv beta in E'.
  apply Bool.eqb_prop, (seqZ_forallb _ _ _ E' i). lia.
Qed.

Lemma land_1F b : Z.land b 0x1F = b mod 32.
Proof. change 0x1F with (Z.ones 5). by rewrite Z.land_ones. Qed.

Lemma prand_range seed : is_u32 seed -> is_u32 (prand seed).
Proof.
  intros Hs. unfold prand.
  assert (is_u32 (rotleft seed seed)) as Hr.
  { unfold rotleft. apply is_u32_lor; [auto with word|].
    split; [apply Z.shiftr_nonneg; unfold is_u32 in Hs; lia|].
    apply (below_pow2 _ 32); [lia|apply Z.shiftr_nonneg; unfold is_u32 in Hs; lia|].
    intros i Hi. rewrite Z.shiftr_spec by lia. apply is_u32_testbit_high; [done|].
    pose proof (Z.mod_pos_bound (32 - Z.land seed 31) 32). lia. }
  assert (0 <= Z.lxor (rotleft seed seed) blah) by (apply Z.lxor_nonneg; unfold is_u32, blah in *; lia).
  split; [done|]. apply (below_pow2 _ 32); [lia|done|].
  intros i Hi. rewrite Z.lxor_spec, (is_u32_testbit_high _ _ Hr) by lia.
  rewrite (is_u32_testbit_high blah); [done|unfold is_u32, blah; lia|done].
Qed.

(** A rotation only moves bits: bit [i] of the result is bit [i - n] (mod 32). *)
Lemma rot_mod i n : 0 <= i < 32 -> 0 <= n < 32 ->
  (i - n) mod 32 = if n <=? i then i - n else i - n + 32.
Proof. intros. destruct (Z.leb_spec n i); zdm. Qed.

Lemma rotleft_testbit val bits i :
  is_u32 val -> 0 <= i < 32 ->
  Z.testbit (rotleft val bits) i = Z.testbit val ((i - bits) mod 32).
Proof.
  intros Hv Hi. unfold rotleft. rewrite land_1F.
  rewrite <- (Zminus_mod_idemp_r i bits 32).
  pose proof (Z.mod_pos_bound bits 32 ltac:(lia)) as Hn.
  set (n := bits mod 32) in *. clearbody n.
  rewrite (Z.mod_small n 32), (rot_mod i n) by lia.
  autorewrite with bits.
  destruct (Z.ltb_spec i 32); [|lia]. simpl.
  destruct (Z.leb_spec n i).
  - destruct (Z.eq_dec n 0) as [->|].
    + change ((32 - 0) mod 32) with 0.
      by rewrite Z.sub_0_r, Z.add_0_r, orb_diag.
    + rewrite (Z.mod_small (32 - n)) by lia.
      rewrite (is_u32_testbit_high val (i + (32 - n))) by (done || lia).
      by rewrite orb_false_r.
  - rewrite (Z.mod_small (32 - n)) by lia.
    rewrite Z.testbit_neg_r by lia. simpl. f_equal. lia.
Qed.

Lemma rotright_testbit val bits i :
  is_u32 val -> 0 <= i < 32 ->
  Z.testbit (rotright val bits) i = Z.testbit val ((i + bits) mod 32).
Proof.
  intros Hv Hi. unfold rotright. rewrite land_1F.
  rewrite <- (Zplus_mod_idemp_r bits i 32).
  pose proof (Z.mod_pos_bound bits 32 ltac:(lia)) as Hn.
  set (n := bits mod 32) in *. clearbody n.
  rewrite (Z.mod_small n 32) by lia.
  autorewrite with bits.
  destruct (Z.ltb_spec i 32); [|lia]. simpl.
  destruct (Z.lt_ge_cases (i + n) 32).
  - rewrite (Z.mod_small (i + n)) by lia.
    destruct (Z.eq_dec n 0) as [->|].
    + change ((32 - 0) mod 32) with 0.
      by rewrite Z.add_0_r, Z.sub_0_r, orb_diag.
    + rewrite (Z.mod_small (32 - n)), (Z.testbit_neg_r _ (i - _)) by lia.
      by rewrite orb_false_r.
  - rewrite (is_u32_testbit_high val (i + n)) by (done || lia).
    rewrite (Z.mod_small (32 - n)) by lia. simpl. f_equal. zdm.
Qed.

Lemma rotleft_range val bits : is_u32 val -> is_u32 (rotleft val bits).
Proof.
  intros Hv. unfold rotleft. apply is_u32_lor; [auto with word|].
  split; [apply Z.shiftr_nonneg; unfold is_u32 in Hv; lia|].
  apply (below_pow2 _ 32); [lia|apply Z.shiftr_nonneg; unfold is_u32 in Hv; lia|].
  intros i Hi. rewrite Z.shiftr_spec by lia. apply is_u32_testbit_high; [done|].
  pose proof (Z.mod_pos_bound (32 - Z.land bits 31) 32). lia.
Qed.

Lemma rotright_range val bits : is_u32 val -> is_u32 (rotright val bits).
Proof.
  intros Hv. unfold rotright. apply is_u32_lor; [|auto with word].
  split; [apply Z.shiftr_nonneg; unfold is_u32 in Hv; lia|].
  apply (below_pow2 _ 32); [lia|apply Z.shiftr_nonneg; unfold is_u32 in Hv; lia|].
  intros i Hi. rewrite Z.shiftr_spec by lia. apply is_u32_testbit_high; [done|].
  pose proof (Z.mod_pos_bound (Z.land bits 31) 32). lia.
Qed.

(** [rotright] undoes [rotleft] for every word and every rotation count,
    the counts 0 and above 31 included: the generator [prand] built on it loses
    no state. *)
Theorem rotright_rotleft val bits :
  is_u32 val -> rotright (rotleft val bits) bits = val.
Proof.
  intros Hv.
  apply u32_bits_inj; [auto using rotright_range, rotleft_range|done|].
  intros i Hi. rewrite rotright_testbit, rotleft_testbit by
    (try apply rotleft_range; done || apply Z.mod_pos_bound; lia).
  f_equal. zdm.
Qed.

Lemma rotright_rotleft_witness :
  is_u32 0xDEADBEEF /\ rotright (rotleft 0xDEADBEEF 45) 45 = 0xDEADBEEF.
Proof. assert (H : is_u32 0xDEADBEEF) by (unfold is_u32; lia).
  split; [exact H|]. exact (rotright_rotleft 0xDEADBEEF 45 H). Defined.

(** ** Atomic addition *)

Lemma atomic_add_limit_spec val diff limit :
  0 <= val <= limit -> is_u32 limit -> 0 <= diff ->
  atomic_add_limit val diff limit =
    if diff <=? limit - val then (val + diff, val) else (val, limit).
Proof.
  intros Hv Hl Hd. unfold atomic_add_limit.
  change (add_run 12 val (new_adder diff limit))
    with (add_run 11 val (add_goto (new_adder diff limit) (AddTry 0 val))).
  cbn [add_run add_step add_at add_goto new_adder add_limit add_diff negb].
  change (negb (0 <? MAX_ADD_TRIES)) with false. cbn iota.
  unfold is_u32 in Hl. rewrite (u32_small (limit - val)) by (unfold is_u32; lia).
  destruct (Z.ltb_spec (limit - val) diff), (Z.leb_spec diff (limit - val)); try lia; [done|].
  unfold val_compare_and_swap. rewrite Z.eqb_refl. cbn iota beta.
  rewrite u32_small by (unfold is_u32; lia). reflexivity.
Qed.

Definition range_disj (r1 r2 : Z * Z) : Prop := snd r1 <= fst r2 \/ snd r2 <= fst r1.

(** What holds of one call between the atomic steps: it has the common limit
    and a non-negative amount, its snapshot is a value the cell may have had, and
    its range lies below the cell. *)
Definition adder_ok (val0 limit val : Z) (a : adder) : Prop :=
  add_limit a = limit /\ 0 <= add_diff a /\
  match add_at a with AddTry _ v => val0 <= v <= limit | _ => True end /\
  match reserved a with Some r => val0 <= fst r /\ snd r <= val | None => True end.

Definition adders_inv (val0 limit : Z) (s : Z * list adder) : Prop :=
  val0 <= fst s <= limit /\
  (forall t a, snd s !! t = Some a -> adder_ok val0 limit (fst s) a) /\
  (forall t u a1 a2 r1 r2, t <> u -> snd s !! t = Some a1 -> snd s !! u = Some a2 ->
     reserved a1 = Some r1 -> reserved a2 = Some r2 -> range_disj r1 r2).

(** One step of one call: either nothing is reserved and the cell stays, or the
    range from the old content to the new one is. *)
Lemma add_step_cases val a val' a' val0 limit :
  0 <= val0 -> is_u32 limit -> val0 <= val <= limit -> adder_ok val0 limit val a ->
  add_step val a = (val', a') ->
  adder_ok val0 limit val' a' /\
  ((val' = val /\ (reserved a' = None \/ reserved a' = reserved a)) \/
   (val <= val' <= limit /\ (reserved a' = None \/ reserved a' = Some (val, val')))).
Proof.
  intros H0 Hl Hv (Ea & Hd & Hpc & Hr). unfold add_step, adder_ok, reserved in *.
  unfold is_u32 in Hl.
  destruct (add_at a) as [|i v|ret] eqn:Epc.
  - intros [= <- <-]. simpl. repeat split; try done || lia. left. auto.
  - destruct (Z.ltb_spec i MAX_ADD_TRIES); simpl.
    2: { intros [= <- <-]. simpl. rewrite Z.eqb_refl. repeat split; auto. }
    rewrite u32_small by (unfold is_u32; lia).
    destruct (Z.ltb_spec (add_limit a - v) (add_diff a)); simpl.
    { intros [= <- <-]. simpl. rewrite Z.eqb_refl. repeat split; auto. }
    unfold val_compare_and_swap.
    destruct (Z.eqb_spec val v) as [->|Hne]; intros E; simplify_eq/=.
    + rewrite u32_small by (unfold is_u32; lia).
      split; [|right; split; [lia|]]; destruct (Z.eqb_spec v (add_limit a)); simpl; auto with lia.
    + repeat split; try done || lia. left. auto.
  - intros [= <- <-]. rewrite Epc. repeat split; auto.
Qed.

Lemma adders_inv_step val0 limit s s' :
  0 <= val0 -> is_u32 limit -> adders_step s s' ->
  adders_inv val0 limit s -> adders_inv val0 limit s'.
Proof.
  intros H0 Hl Hs (Hv & Hok & Hdj). destruct Hs as [val l t a val' a' Ht Hstep]; simpl in *.
  destruct (add_step_cases _ _ _ _ val0 limit H0 Hl Hv (Hok _ _ Ht) Hstep) as [Hok' Hc].
  assert (val <= val' <= limit) as Hmono by lia.
  assert (Hdj' : forall u a2 r1 r2, t <> u -> l !! u = Some a2 ->
    reserved a' = Some r1 -> reserved a2 = Some r2 -> range_disj r1 r2).
  { intros u a2 r1 r2 Htu Hu Hr1 Hr2. destruct Hc as [(-> & [E|E])|(_ & [E|E])].
    - congruence.
    - rewrite E in Hr1. by eapply (Hdj t u).
    - congruence.
    - rewrite E in Hr1. simplify_eq. pose proof (Hok _ _ Hu) as (_ & _ & _ & Hb).
      rewrite Hr2 in Hb. right. simpl. lia. }
  split; [simpl; lia|]. split; simpl.
  - intros u b Hu. destruct (decide (t = u)) as [<-|Htu].
    + rewrite list_lookup_insert_eq in Hu by (by eapply lookup_lt_Some). by simplify_eq.
    + rewrite list_lookup_insert_ne in Hu by done.
      destruct (Hok _ _ Hu) as (? & ? & ? & Hb). unfold adder_ok.
      destruct (reserved b); repeat split; try done || lia.
  - intros u w a1 a2 r1 r2 Huw Hu Hw Hr1 Hr2. apply lookup_lt_Some in Ht as Hlt.
    destruct (decide (t = u)) as [<-|Htu]; [|destruct (decide (t = w)) as [<-|Htw]].
    + rewrite list_lookup_insert_eq in Hu by done. rewrite list_lookup_insert_ne in Hw by done.
      simplify_eq. by eapply Hdj'.
    + rewrite list_lookup_insert_eq in Hw by done. rewrite list_lookup_insert_ne in Hu by done.
      simplify_eq. destruct (Hdj' u a1 r2 r1); [done..|right|left]; done.
    + rewrite list_lookup_insert_ne in Hu, Hw by done. by eapply (Hdj u w).
Qed.

(** C29: whatever the interleaving, threads that allocate through
    [atomic_add_limit] never get overlapping ranges and never move the pointer
    past the limit: in every state reachable from calls about to start, the
    ranges [ret, ret + diff) of two different successful calls are disjoint. *)
Theorem atomic_add_limit_exclusive val0 limit diffs s :
  0 <= val0 <= limit -> is_u32 limit -> Forall (fun d => 0 <= d) diffs ->
  rtc adders_step (val0, (fun d => new_adder d limit) <$> diffs) s ->
  val0 <= fst s <= limit /\
  forall t u a1 a2 r1 r2, t <> u -> snd s !! t = Some a1 -> snd s !! u = Some a2 ->
    reserved a1 = Some r1 -> reserved a2 = Some r2 -> range_disj r1 r2.
Proof.
  intros Hv Hl Hd Hs. unfold is_u32 in Hl.
  assert (adders_inv val0 limit s) as (? & _ & ?); [|done].
  eapply rtc_inv; [|exact Hs|].
  - intros a b Hab. apply adders_inv_step; done || lia.
  - split; [simpl; lia|]. split; simpl.
    + intros t a (d & -> & Hin)%list_lookup_fmap_Some.
      repeat split; simpl; try done. by eapply Forall_lookup in Hd.
    + intros t u a1 a2 r1 r2 _ (d & -> & _)%list_lookup_fmap_Some. done.
Qed.

(** Two threads reserve 4096 and 8192 bytes below 65536, their steps interleaved
    so that the first one loses its first compare-and-swap. *)
Definition two_adders : Z * list adder :=
  (0x1000, [new_adder 0x1000 0x10000; new_adder 0x2000 0x10000]).

Ltac adder_turn t :=
  eapply rtc_l; [eapply (adders_step_one _ _ t); reflexivity|]; cbn.

Lemma atomic_add_limit_exclusive_witness :
  exists s, rtc adders_step two_adders s /\
    (reserved <$> snd s) = [Some (0x3000, 0x4000); Some (0x1000, 0x3000)] /\
    0x1000 <= fst s <= 0x10000.
Proof.
  eexists. assert (rtc adders_step two_adders
    (0x4000, [add_goto (new_adder 0x1000 0x10000) (AddDone 0x3000);
              add_goto (new_adder 0x2000 0x10000) (AddDone 0x1000)])) as H.
  { adder_turn 0%nat. adder_turn 1%nat. adder_turn 1%nat. adder_turn 0%nat. adder_turn 0%nat.
    apply rtc_refl. }
  split; [exact H|]. split; [reflexivity|].
  refine (proj1 (atomic_add_limit_exclusive 0x1000 0x10000 [0x1000; 0x2000] _ _ _ _ H)).
  - lia.
  - unfold is_u32; lia.
  - repeat constructor; lia.
Defined.
