(* ===== verification/BitAlloc.v ===== *)
(** * Bit allocator and pool allocator

    [src/include/std/bitset.h] ([BitAllocator]) and [src/include/std/pool.h]
    ([PoolAllocator]).  The bit set is the array [bitset_blocks] of 32-bit words
    as a list; an access out of range is undefined behaviour ([None]).  The
    abstract state is the set of used bits, [bit_used]. *)
From S2P Require Import Prelude BitOps.

Record BitAllocator := {
  max_blocks : Z;
  max_bits : Z;
  bitset_blocks : list Z
}.

Definition with_blocks (ba : BitAllocator) (l : list Z) : BitAllocator :=
  {| max_blocks := max_blocks ba; max_bits := max_bits ba; bitset_blocks := l |}.

Definition set_block (ba : BitAllocator) (i v : Z) : option BitAllocator :=
  l ← arr_set (bitset_blocks ba) i v; Some (with_blocks ba l).

(** The constructor [BitAllocator<N>()]: the [memset] clears every block. *)
Definition new_BitAllocator (N : Z) : BitAllocator :=
  {| max_blocks := (N + 31) / 32; max_bits := N;
     bitset_blocks := replicate (Z.to_nat ((N + 31) / 32)) 0 |}.

Definition get_block_index (bit_index : Z) : Z := bit_index / 32.

Definition lock_block (ba : BitAllocator) (block_index : Z) : option (Z * BitAllocator) :=
  v ← arr_get (bitset_blocks ba) block_index;
  let '(old, v) := atomic_swap v all_ones in
  ba ← set_block ba block_index v;
  Some (old, ba).

(** The loop [for (i = ...; i < max_blocks; i++)], [n] iterations left. *)
Fixpoint lock_next_block_from (n : nat) (ba : BitAllocator) (locked_bits i : Z)
    : option (Z * Z * BitAllocator) :=
  match n with
  | O => Some (0, locked_bits, ba)
  | S n =>
      '(locked_bits, ba) ← lock_block ba i;
      if negb (locked_bits =? all_ones) then Some (i, locked_bits, ba)
      else lock_next_block_from n ba locked_bits (i + 1)
  end.

(** Returns the block index and the new content of [*locked_bits], which is the
    argument when the loop makes no iteration. *)
Definition lock_next_block (ba : BitAllocator) (locked_bits start_block_index : Z)
    : option (Z * Z * BitAllocator) :=
  lock_next_block_from (Z.to_nat (max_blocks ba - start_block_index)) ba locked_bits start_block_index.

(** What the inner loop of [lock_next_bit] does: return, or go on with the next block. *)
Inductive tries := TriesReturn (r : Z) | TriesNext.

Fixpoint lock_bit_tries (n : nat) (ba : BitAllocator) (i block_index bits : Z)
    : option (tries * BitAllocator) :=
  match n with
  | O => Some (TriesNext, ba)
  | S n =>
      if bits =? all_ones then Some (TriesNext, ba) else
      bit_index ← bitscan_forward (~w bits);
      let final_index := bit_index +w (i *w 32) in
      if max_bits ba <=? final_index then Some (TriesReturn (-1), ba) else
      let new_bits := Z.lor bits (1 <<w bit_index) in
      let old_bits := bits in
      cur ← arr_get (bitset_blocks ba) block_index;
      let '(bits, cur) := val_compare_and_swap cur bits new_bits in
      ba ← set_block ba block_index cur;
      if old_bits =? bits then Some (TriesReturn (s32 (bit_index + block_index * 32)), ba)
      else lock_bit_tries n ba i block_index bits
  end.

Fixpoint lock_next_bit_loop (n : nat) (ba : BitAllocator) (i : Z) : option (Z * BitAllocator) :=
  match n with
  | O => Some (-1, ba)
  | S n =>
      let block_index := i mod max_blocks ba in
      bits ← arr_get (bitset_blocks ba) block_index;
      '(r, ba) ← lock_bit_tries 32 ba i block_index bits;
      match r with
      | TriesReturn r => Some (r, ba)
      | TriesNext => lock_next_bit_loop n ba (i + 1)
      end
  end.

Definition lock_next_bit_from (ba : BitAllocator) (start_block_index : Z) : option (Z * BitAllocator) :=
  lock_next_bit_loop
    (Z.to_nat ((start_block_index +w max_blocks ba) - start_block_index)) ba start_block_index.

(** [lock_next_bit()]: the generator gives the first block; [% 0] is undefined. *)
Definition lock_next_bit (seed : Z) (ba : BitAllocator) : option (Z * Z * BitAllocator) :=
  if max_blocks ba =? 0 then None else
  let seed := prand seed in
  '(r, ba) ← lock_next_bit_from ba (seed mod max_blocks ba);
  Some (r, seed, ba).

Definition unlock_bit (ba : BitAllocator) (bit_index : Z) : option BitAllocator :=
  let block_index := get_block_index bit_index in
  let bit_in_block := Z.land bit_index 0x1F in
  v ← arr_get (bitset_blocks ba) block_index;
  set_block ba block_index (Z.land v (~w (1 <<w bit_in_block))).

Definition unlock_block (ba : BitAllocator) (new_bits block_index : Z) : option BitAllocator :=
  set_block ba block_index new_bits.

Definition lock_bitmask (ba : BitAllocator) (block_index bitmask : Z) : option (Z * BitAllocator) :=
  if bitmask =? 0 then Some (0, ba) else
  v ← arr_get (bitset_blocks ba) block_index;
  let '(locked_bitmask, v) := atomic_swap v all_ones in
  ba ← set_block ba block_index v;
  if locked_bitmask =? all_ones then Some (-1, ba) else
  let new_locked_bits := Z.land (~w locked_bitmask) bitmask in
  ba ← set_block ba block_index (Z.lor locked_bitmask bitmask);
  Some (s32 new_locked_bits, ba).

Definition lock_bit_range (ba : BitAllocator) (start size : Z) : option BitAllocator :=
  let start_index := get_block_index start in
  let end_index := get_block_index (start +w size) in
  let head_bits := 32 -w (start mod 32) in
  let head_mask := u32 (high_ones head_bits) in
  let tail_bits := (size +w 32 -w head_bits) mod 32 in
  let tail_mask := u32 (low_ones tail_bits) in
  if start_index =? end_index then
    '(_, ba) ← lock_bitmask ba start_index (Z.land head_mask tail_mask);
    Some ba
  else
    (* head *)
    '(_, ba) ← lock_bitmask ba start_index head_mask;
    (* body *)
    ba ← for_each (Z.to_nat (end_index - (start_index + 1))) (start_index + 1)
           (fun i ba => '(_, ba) ← lock_bitmask ba i all_ones; Some ba) ba;
    (* tail *)
    '(_, ba) ← lock_bitmask ba end_index tail_mask;
    Some ba.

(** ** pool.h *)

(** [pool_base] is [&pool], [pool_elt] is [sizeof(T)]. *)
Record PoolAllocator := {
  pool_max : Z;
  pool_base : Z;
  pool_elt : Z;
  allocator : BitAllocator
}.

Definition with_allocator (p : PoolAllocator) (ba : BitAllocator) : PoolAllocator :=
  {| pool_max := pool_max p; pool_base := pool_base p; pool_elt := pool_elt p; allocator := ba |}.

Definition new_PoolAllocator (N base elt : Z) : PoolAllocator :=
  {| pool_max := N; pool_base := base; pool_elt := elt; allocator := new_BitAllocator N |}.

Definition alloc_index (seed : Z) (p : PoolAllocator) : option (Z * Z * PoolAllocator) :=
  '(i, seed, ba) ← lock_next_bit seed (allocator p);
  Some (i, seed, with_allocator p ba).

(** [nullptr] is 0. *)
Definition pool_alloc (seed : Z) (p : PoolAllocator) : option (Z * Z * PoolAllocator) :=
  '(new_index, seed, p) ← alloc_index seed p;
  if new_index <? 0 then Some (0, seed, p)
  else Some (pool_base p +w (new_index * pool_elt p), seed, p).

Definition index_of (p : PoolAllocator) (ptr : Z) : Z :=
  s32 ((ptr -w pool_base p) / pool_elt p).

Definition pool_free (p : PoolAllocator) (ptr : Z) : option PoolAllocator :=
  let index := index_of p ptr in
  if (index <? 0) || (pool_max p <=? index) then Some p else
  ba ← unlock_bit (allocator p) index;
  Some (with_allocator p ba).

(** ** The abstract state: which bits are used *)

Definition bit_used (ba : BitAllocator) (b : Z) : bool :=
  match arr_get (bitset_blocks ba) (b / 32) with
  | Some w => Z.testbit w (b mod 32)
  | None => false
  end.

Record alloc_wf (ba : BitAllocator) : Prop := {
  wf_words : Forall is_u32 (bitset_blocks ba);
  wf_blocks : max_blocks ba = Z.of_nat (length (bitset_blocks ba));
  wf_bits : 0 <= max_bits ba <= 32 * max_blocks ba;
  wf_size : 32 * max_blocks ba < 2147483648
}.

(** ** Lemmas *)

Lemma set_block_Some ba i v :
  alloc_wf ba -> 0 <= i < max_blocks ba ->
  set_block ba i v = Some (with_blocks ba (<[Z.to_nat i := v]> (bitset_blocks ba))).
Proof.
  intros Hwf Hi. unfold set_block. rewrite arr_set_Some; [done|].
  rewrite <- (wf_blocks _ Hwf). done.
Qed.

Lemma set_block_inv ba i v ba' :
  set_block ba i v = Some ba' ->
  max_blocks ba' = max_blocks ba /\ max_bits ba' = max_bits ba /\
  arr_set (bitset_blocks ba) i v = Some (bitset_blocks ba').
Proof.
  unfold set_block. intros (l & Hl & [= <-])%bind_Some. done.
Qed.

Lemma set_block_wf ba i v ba' :
  alloc_wf ba -> is_u32 v -> set_block ba i v = Some ba' -> alloc_wf ba'.
Proof.
  intros [Hw Hb Hbi Hs] Hv (Em & Eb & Hset)%set_block_inv.
  apply arr_set_length in Hset as Hlen. apply arr_set_inv in Hset as [_ El].
  split; rewrite ?Em, ?Eb, ?Hlen; try done.
  rewrite El. apply Forall_insert; done.
Qed.

Lemma block_lookup ba i :
  alloc_wf ba -> 0 <= i < max_blocks ba ->
  exists w, arr_get (bitset_blocks ba) i = Some w /\ is_u32 w.
Proof.
  intros Hwf Hi. destruct (arr_get_Some (bitset_blocks ba) i) as [w Hw].
  { rewrite <- (wf_blocks _ Hwf). done. }
  exists w. split; [done|]. unfold arr_get in Hw. destruct (0 <=? i); [|done].
  by eapply Forall_lookup in Hw; [|apply (wf_words _ Hwf)].
Qed.

Lemma block_eq ba i w b :
  arr_get (bitset_blocks ba) i = Some w -> b / 32 = i -> bit_used ba b = Z.testbit w (b mod 32).
Proof. unfold bit_used. intros H ->. by rewrite H. Qed.

Lemma bit_used_set ba i v ba' b :
  set_block ba i v = Some ba' ->
  bit_used ba' b = if b / 32 =? i then Z.testbit v (b mod 32) else bit_used ba b.
Proof.
  intros (_ & _ & Hset)%set_block_inv. unfold bit_used.
  rewrite (arr_get_set _ _ _ _ _ Hset).
  destruct (Z.eqb_spec (b / 32) i) as [->|]; case_decide; done || congruence.
Qed.

(** Writing a block in range: everything at once. *)
Lemma set_block_ok ba i v :
  alloc_wf ba -> 0 <= i < max_blocks ba -> is_u32 v ->
  exists ba', set_block ba i v = Some ba' /\ alloc_wf ba' /\
    max_blocks ba' = max_blocks ba /\ max_bits ba' = max_bits ba /\
    forall b, bit_used ba' b = if b / 32 =? i then Z.testbit v (b mod 32) else bit_used ba b.
Proof.
  intros Hwf Hi Hv. pose proof (set_block_Some ba i v Hwf Hi) as Hs.
  eexists. split_and!; [exact Hs|by eapply set_block_wf|done|done|].
  intros b. by eapply bit_used_set.
Qed.

Lemma bit_block_range ba b : 0 <= b < 32 * max_blocks ba -> 0 <= b / 32 < max_blocks ba.
Proof. intros. zdm. Qed.

Lemma bit_index_split b : b = 32 * (b / 32) + b mod 32.
Proof. zdm. Qed.

Lemma full_block_used ba i b :
  arr_get (bitset_blocks ba) i = Some all_ones -> b / 32 = i -> bit_used ba b = true.
Proof.
  intros H Hb. rewrite (block_eq _ _ _ _ H Hb), all_ones_testbit by (apply Z.mod_pos_bound; lia).
  apply Z.ltb_lt, Z.mod_pos_bound. lia.
Qed.

(** Two well-formed allocators of one size with the same used bits are equal. *)
Lemma alloc_ext ba1 ba2 :
  alloc_wf ba1 -> alloc_wf ba2 ->
  max_blocks ba1 = max_blocks ba2 -> max_bits ba1 = max_bits ba2 ->
  (forall b, 0 <= b < 32 * max_blocks ba1 -> bit_used ba1 b = bit_used ba2 b) -> ba1 = ba2.
Proof.
  intros Hw1 Hw2 Em Eb H. destruct ba1 as [m1 b1 l1], ba2 as [m2 b2 l2]; simpl in *. subst.
  f_equal. pose proof (wf_blocks _ Hw1) as E1. pose proof (wf_blocks _ Hw2) as E2. simpl in *.
  apply list_eq_same_length with (length l1); [lia..|].
  intros n x y Hn Hx Hy.
  assert (is_u32 x /\ is_u32 y) as [Ux Uy].
  { split; [apply (Forall_lookup_1 _ _ _ _ (wf_words _ Hw1) Hx)
           |apply (Forall_lookup_1 _ _ _ _ (wf_words _ Hw2) Hy)]. }
  apply u32_bits_inj; [done..|]. intros i Hi.
  specialize (H (32 * Z.of_nat n + i)).
  assert (E32 : (32 * Z.of_nat n + i) / 32 = Z.of_nat n) by zdm.
  rewrite (block_eq _ (Z.of_nat n) x), (block_eq _ (Z.of_nat n) y) in H; try done;
    try (unfold arr_get; simpl; destruct (Z.leb_spec 0 (Z.of_nat n)); [by rewrite Nat2Z.id|lia]).
  replace ((32 * Z.of_nat n + i) mod 32) with i in H by zdm. apply H. lia.
Qed.

(** *** lock_next_block *)

Definition block_full (ba : BitAllocator) (i : Z) : Prop :=
  arr_get (bitset_blocks ba) i = Some all_ones.

Lemma lock_block_spec ba i :
  alloc_wf ba -> 0 <= i < max_blocks ba ->
  exists w ba', lock_block ba i = Some (w, ba') /\ arr_get (bitset_blocks ba) i = Some w /\
    is_u32 w /\ set_block ba i all_ones = Some ba' /\ alloc_wf ba'.
Proof.
  intros Hwf Hi. destruct (block_lookup _ _ Hwf Hi) as (w & Hw & Uw).
  pose proof (set_block_Some ba i all_ones Hwf Hi) as Hs.
  eexists w, _. split_and!; [|done..|exact Hs|].
  - unfold lock_block. rewrite Hw. simpl. by rewrite Hs.
  - eapply set_block_wf; [exact Hwf|apply is_u32_all_ones|exact Hs].
Qed.

(** Writing back what is already there changes nothing. *)
Lemma set_block_same ba i w :
  arr_get (bitset_blocks ba) i = Some w -> set_block ba i w = Some ba.
Proof.
  intros H. apply arr_get_Some_1 in H as Hi. unfold set_block. rewrite arr_set_Some by done.
  simpl. unfold arr_get in H. destruct (Z.leb_spec 0 i); [|done].
  rewrite list_insert_id by done. by destruct ba.
Qed.

(** [lock_next_block] swaps every full block it meets with itself, and stops at
    the first block with a free bit, which it leaves locked (all ones). *)
Lemma lock_next_block_spec ba lb start :
  alloc_wf ba -> 0 <= start ->
  exists r w ba', lock_next_block ba lb start = Some (r, w, ba') /\
   ((start <= r < max_blocks ba /\ arr_get (bitset_blocks ba) r = Some w /\ is_u32 w /\
     w <> all_ones /\ set_block ba r all_ones = Some ba' /\ alloc_wf ba' /\
     (forall i, start <= i < r -> block_full ba i)) \/
    (r = 0 /\ ba' = ba /\ w = (if start <? max_blocks ba then all_ones else lb) /\
     (forall i, start <= i < max_blocks ba -> block_full ba i))).
Proof.
  intros Hwf H0. unfold lock_next_block.
  remember (Z.to_nat (max_blocks ba - start)) as n eqn:Hn.
  revert lb start H0 Hn. induction n as [|n IH]; intros lb start H0 Hn; simpl.
  { exists 0, lb, ba. split; [done|]. right. destruct (Z.ltb_spec start (max_blocks ba)); [lia|].
    split_and!; try done; intros; lia. }
  destruct (lock_block_spec ba start) as (w & ba1 & -> & Hw & Uw & Hset & Hwf1); [done|lia|].
  simpl. destruct (Z.eqb_spec w all_ones) as [->|Hne]; simpl.
  2: { exists start, w, ba1. split; [done|]. left. split_and!; try done; intros; lia. }
  rewrite set_block_same in Hset by done. simplify_eq.
  destruct (IH all_ones (start + 1)) as (r & w & ba' & -> & Hcase); [lia..|].
  exists r, w, ba'. split; [done|].
  destruct Hcase as [(Hr & ? & ? & ? & ? & ? & Hfull)|(-> & -> & -> & Hfull)]; [left|right].
  - split_and!; try done; try lia. intros i Hi. destruct (Z.eq_dec i start) as [->|]; [done|].
    apply Hfull. lia.
  - destruct (Z.ltb_spec start (max_blocks ba1)); [|lia].
    split_and!; [done|done|by destruct (start + 1 <? max_blocks ba1)|]. intros i Hi.
    destruct (Z.eq_dec i start) as [->|]; [done|]. apply Hfull. lia.
Qed.

(** *** lock_bitmask and lock_bit_range *)

(** [ba'] is [ba] with the bits of [P] used as well. *)
Definition marks (P : Z -> bool) (ba ba' : BitAllocator) : Prop :=
  alloc_wf ba' /\ max_blocks ba' = max_blocks ba /\ max_bits ba' = max_bits ba /\
  forall b, 0 <= b -> bit_used ba' b = bit_used ba b || P b && (b <? 32 * max_blocks ba).

Lemma marks_refl ba P : alloc_wf ba -> (forall b, 0 <= b < 32 * max_blocks ba -> P b = true -> bit_used ba b = true) ->
  marks P ba ba.
Proof.
  intros Hwf HP. split_and!; try done. intros b Hb.
  destruct (P b) eqn:E; simpl; [|by rewrite orb_false_r].
  destruct (Z.ltb_spec b (32 * max_blocks ba)); [|by rewrite orb_false_r].
  rewrite HP by (done || lia). done.
Qed.

Lemma marks_trans P Q ba1 ba2 ba3 :
  marks P ba1 ba2 -> marks Q ba2 ba3 -> marks (fun b => P b || Q b) ba1 ba3.
Proof.
  intros (_ & E1 & F1 & H1) (Hwf & E2 & F2 & H2). split_and!; [done|congruence..|].
  intros b Hb. rewrite H2, H1, E1 by done. btauto.
Qed.

Lemma marks_ext P Q ba ba' :
  (forall b, 0 <= b < 32 * max_blocks ba -> P b = Q b) -> marks P ba ba' -> marks Q ba ba'.
Proof.
  intros HPQ (Hwf & E & F & H). split_and!; try done. intros b Hb. rewrite H by done.
  destruct (Z.ltb_spec b (32 * max_blocks ba)); [|by rewrite !andb_false_r].
  by rewrite HPQ.
Qed.

Lemma lock_bitmask_spec ba i mask :
  alloc_wf ba -> (mask = 0 \/ 0 <= i < max_blocks ba) -> is_u32 mask ->
  exists r ba', lock_bitmask ba i mask = Some (r, ba') /\
    marks (fun b => (b / 32 =? i) && Z.testbit mask (b mod 32)) ba ba'.
Proof.
  intros Hwf Hi Um. unfold lock_bitmask.
  destruct (Z.eqb_spec mask 0) as [->|Hm0].
  { exists 0, ba. split; [done|]. apply marks_refl; [done|]. intros b _.
    by rewrite Z.testbit_0_l, andb_false_r. }
  destruct Hi as [?|Hi]; [done|].
  destruct (block_lookup _ _ Hwf Hi) as (w & Hw & Uw). rewrite Hw. simpl.
  destruct (set_block_ok ba i all_ones) as (ba1 & Hs1 & Hwf1 & E1 & F1 & U1); [done..|apply is_u32_all_ones|].
  rewrite Hs1. simpl. destruct (Z.eqb_spec w all_ones) as [->|Hne].
  - rewrite set_block_same in Hs1 by done. simplify_eq.
    eexists _, _. split; [done|]. apply marks_refl; [done|]. intros b _ [Hb _]%andb_prop.
    apply Z.eqb_eq in Hb. by eapply full_block_used.
  - destruct (set_block_ok ba1 i (Z.lor w mask)) as (ba2 & -> & Hwf2 & E2 & F2 & U2);
      [done|lia|auto with word|]. simpl.
    eexists _, _. split; [done|]. split_and!; [done|congruence..|].
    intros b Hb. rewrite U2, U1.
    destruct (Z.eqb_spec (b / 32) i) as [Hbi|]; simpl; [|by rewrite orb_false_r].
    rewrite (block_eq _ _ _ _ Hw Hbi), Z.lor_spec.
    destruct (Z.ltb_spec b (32 * max_blocks ba)); [by rewrite andb_true_r|zdm].
Qed.

(** Locking the whole of a block. *)
Lemma lock_block_body_spec ba i :
  alloc_wf ba -> 0 <= i < max_blocks ba ->
  exists r ba', lock_bitmask ba i all_ones = Some (r, ba') /\ marks (fun b => b / 32 =? i) ba ba'.
Proof.
  intros Hwf Hi. destruct (lock_bitmask_spec ba i all_ones) as (r & ba' & E & H);
    [done|by right|apply is_u32_all_ones|].
  exists r, ba'. split; [done|]. eapply marks_ext; [|exact H]. intros b Hb. simpl.
  rewrite all_ones_testbit by (apply Z.mod_pos_bound; lia).
  destruct (Z.ltb_spec (b mod 32) 32); [by rewrite andb_true_r|zdm].
Qed.

Lemma lock_body_spec n ba i :
  alloc_wf ba -> 0 <= i -> i + Z.of_nat n <= max_blocks ba ->
  exists ba', for_each n i (fun i ba => '(_, ba) ← lock_bitmask ba i all_ones; Some ba) ba = Some ba' /\
    marks (fun b => (i <=? b / 32) && (b / 32 <? i + Z.of_nat n)) ba ba'.
Proof.
  intros Hwf Hi Hn. revert ba i Hwf Hi Hn. induction n as [|n IH]; intros ba i Hwf Hi Hn; simpl.
  { exists ba. split; [done|]. apply marks_refl; [done|]. intros b _ [?%Z.leb_le ?%Z.ltb_lt]%andb_prop. lia. }
  destruct (lock_block_body_spec ba i) as (r & ba1 & -> & H1); [done|lia|]. simpl.
  pose proof H1 as (Hwf1 & E1 & _).
  destruct (IH ba1 (i + 1)) as (ba2 & -> & H2); [done|lia|lia|].
  exists ba2. split; [done|]. eapply marks_ext; [|exact (marks_trans _ _ _ _ _ H1 H2)].
  intros b _. cbv beta. split_ltb; simpl; done || lia.
Qed.

(** The head mask: the bits of a block from bit [s] on. *)
Lemma head_mask_testbit s j :
  0 <= s < 32 -> 0 <= j < 32 -> Z.testbit (u32 (high_ones (32 -w s))) j = (s <=? j).
Proof.
  intros Hs Hj. rewrite (u32_small (32 - s)) by (unfold is_u32; lia).
  rewrite high_ones_testbit by lia. replace (32 - (32 - s)) with s by lia.
  destruct (Z.ltb_spec j 32); [by rewrite andb_true_r|lia].
Qed.

(** The number of tail bits is where the range ends in its last block. *)
Lemma tail_bits_eq start size :
  0 <= start -> 0 <= size -> start + size < 4294967296 - 32 ->
  (size +w 32 -w (32 -w (start mod 32))) mod 32 = (start + size) mod 32.
Proof.
  intros. pose proof (Z.mod_pos_bound start 32).
  rewrite (u32_small (32 - _)), (u32_small (size + 32)), u32_small by (unfold is_u32; lia). zdm.
Qed.

(** [lock_bit_range] marks its range. *)
Lemma lock_bit_range_marks ba start size :
  alloc_wf ba -> 0 <= start -> 0 <= size -> start + size <= 32 * max_blocks ba ->
  exists ba', lock_bit_range ba start size = Some ba' /\
    marks (fun b => (start <=? b) && (b <? start + size)) ba ba'.
Proof.
  intros Hwf Hst Hsz Hend. pose proof (wf_size _ Hwf) as Hm.
  unfold lock_bit_range, get_block_index. rewrite tail_bits_eq by lia.
  rewrite (u32_small (start + size)) by (unfold is_u32; lia).
  pose proof (Z.mod_pos_bound start 32 ltac:(lia)) as Hs.
  pose proof (Z.mod_pos_bound (start + size) 32 ltac:(lia)) as He.
  assert (Hhead : forall b, 0 <= b -> Z.testbit (u32 (high_ones (32 -w start mod 32))) (b mod 32)
    = (start mod 32 <=? b mod 32)) by (intros; apply head_mask_testbit; [lia|apply Z.mod_pos_bound; lia]).
  assert (Htail : forall b, 0 <= b -> Z.testbit (u32 (low_ones ((start + size) mod 32))) (b mod 32)
    = (b mod 32 <? (start + size) mod 32)) by (intros; apply low_ones_testbit; [lia|apply Z.mod_pos_bound; lia]).
  destruct (Z.eqb_spec (start / 32) ((start + size) / 32)) as [Heq|Hneq].
  - destruct (lock_bitmask_spec ba (start / 32)
      (Z.land (u32 (high_ones (32 -w start mod 32))) (u32 (low_ones ((start + size) mod 32)))))
      as (r & ba' & -> & H); [done| |apply is_u32_land; [auto with word|apply u32_range]|].
    { destruct (Z.eq_dec size 0) as [->|]; [left|right; zdm].
      apply u32_bits_inj; [apply is_u32_land; [auto with word|apply u32_range]|unfold is_u32; lia|].
      intros i Hi. rewrite Z.land_spec, Z.testbit_0_l, head_mask_testbit, low_ones_testbit by lia.
      rewrite Z.add_0_r. destruct (Z.leb_spec (start mod 32) i), (Z.ltb_spec i (start mod 32)); done || lia. }
    simpl. eexists. split; [done|]. eapply marks_ext; [|exact H]. intros b Hb. cbv beta.
    rewrite Z.land_spec, Hhead, Htail by lia. split_ltb; simpl; try done; zdm.
  - destruct (lock_bitmask_spec ba (start / 32) (u32 (high_ones (32 -w start mod 32))))
      as (r1 & ba1 & -> & H1); [done|right; zdm|auto with word|].
    simpl. pose proof H1 as (Hwf1 & E1 & _).
    destruct (lock_body_spec (Z.to_nat ((start + size) / 32 - (start / 32 + 1))) ba1 (start / 32 + 1))
      as (ba2 & -> & H2); [done|zdm|zdm|].
    simpl. pose proof H2 as (Hwf2 & E2 & _).
    destruct (lock_bitmask_spec ba2 ((start + size) / 32) (u32 (low_ones ((start + size) mod 32))))
      as (r3 & ba3 & -> & H3); [done| |auto with word|].
    { destruct (Z.eq_dec ((start + size) mod 32) 0) as [->|]; [by left|right; zdm]. }
    simpl. eexists. split; [done|].
    eapply marks_ext; [|exact (marks_trans _ _ _ _ _ (marks_trans _ _ _ _ _ H1 H2) H3)].
    intros b Hb. cbv beta. rewrite Hhead, Htail by lia. clear H1 H2 H3 Hhead Htail.
    split_ltb; simpl; try done; zdm.
Qed.

(** C27: [lock_bit_range] marks exactly the bits of [start .. start + size - 1],
    whatever the alignment of the two ends and whatever was used before, and
    never leaves the array, even when the range ends at the end of the last block. *)
Theorem lock_bit_range_spec ba start size :
  alloc_wf ba -> 0 <= start -> 0 <= size -> start + size <= 32 * max_blocks ba ->
  exists ba', lock_bit_range ba start size = Some ba' /\
    marks (fun b => (start <=? b) && (b <? start + size)) ba ba'.
Proof. apply lock_bit_range_marks. Qed.

Definition small_alloc : BitAllocator :=
  {| max_blocks := 4; max_bits := 128; bitset_blocks := [0; 0xF0; 0; 0] |}.

Lemma small_alloc_wf : alloc_wf small_alloc.
Proof. split; simpl; try done || lia. repeat constructor; unfold is_u32; lia. Qed.

Lemma lock_bit_range_spec_witness :
  alloc_wf small_alloc /\ exists ba', lock_bit_range small_alloc 30 98 = Some ba' /\
    bitset_blocks ba' = [0xC0000000; all_ones; all_ones; all_ones] /\
    marks (fun b => (30 <=? b) && (b <? 128)) small_alloc ba'.
Proof.
  split; [exact small_alloc_wf|].
  destruct (lock_bit_range_spec small_alloc 30 98 small_alloc_wf) as (ba' & E & H);
    [lia|lia|simpl; lia|].
  exists ba'. split; [exact E|]. split; [|exact H].
  vm_compute in E. injection E as <-. reflexivity.
Defined.

(** *** lock_next_bit *)

(** One round of the inner loop on a block with a free bit: its compare-and-swap
    meets the value just read and succeeds. *)
Lemma lock_bit_tries_spec ba i bi bits :
  alloc_wf ba -> 0 <= bi < max_blocks ba -> 0 <= i -> 32 * i + 32 < 4294967296 ->
  arr_get (bitset_blocks ba) bi = Some bits -> bits <> all_ones ->
  exists b, 0 <= b < 32 /\ Z.testbit bits b = false /\
    (forall j, 0 <= j < b -> Z.testbit bits j = true) /\
    if max_bits ba <=? 32 * i + b
    then lock_bit_tries 32 ba i bi bits = Some (TriesReturn (-1), ba)
    else exists ba', lock_bit_tries 32 ba i bi bits = Some (TriesReturn (32 * bi + b), ba') /\
      marks (fun c => c =? 32 * bi + b) ba ba'.
Proof.
  intros Hwf Hbi Hi Hi32 Hbits Hne. pose proof (wf_size _ Hwf) as Hsz.
  destruct (block_lookup _ _ Hwf Hbi) as (w & Hw & Uw). rewrite Hbits in Hw. simplify_eq.
  destruct (bitscan_free_complete w Uw Hne) as [b Hb].
  destruct (bitscan_free _ _ Uw Hb) as [Hb32 Hfree].
  exists b. split; [done|]. split; [done|]. split.
  { intros j Hj. apply bsf_spec in Hb as (_ & _ & Hlow). specialize (Hlow j Hj).
    rewrite u32_testbit, Z.lnot_spec in Hlow by lia.
    destruct (Z.testbit w j); [done|]. destruct (Z.ltb_spec j 32); [done|lia]. }
  cbn [lock_bit_tries]. destruct (Z.eqb_spec w all_ones); [done|]. rewrite Hb. cbn.
  rewrite (u32_small (i * 32)), (u32_small (b + i * 32)) by (unfold is_u32; lia).
  replace (b + i * 32) with (32 * i + b) by lia.
  destruct (Z.leb_spec (max_bits ba) (32 * i + b)); [done|].
  rewrite Hbits. cbn. unfold val_compare_and_swap. rewrite Z.eqb_refl.
  destruct (set_block_ok ba bi (Z.lor w (1 <<w b))) as (ba' & -> & Hwf' & E & F & U);
    [done..|auto with word|].
  cbn. rewrite s32_small by (unfold is_s32; lia).
  exists ba'. split; [do 3 f_equal; lia|]. split_and!; try done.
  intros c Hc. rewrite U. destruct (Z.eqb_spec (c / 32) bi) as [Hcb|].
  - rewrite (block_eq _ _ _ _ Hbits Hcb), Z.lor_spec, bit_mask_testbit
      by (lia || apply Z.mod_pos_bound; lia).
    split_ltb; simpl; try done; zdm.
  - destruct (Z.eqb_spec c (32 * bi + b)); [zdm|]. simpl. by rewrite orb_false_r.
Qed.

Lemma full_below ba start i b :
  (forall k, start <= k < i -> block_full ba k) -> 0 <= start -> 32 * start <= b < 32 * i -> bit_used ba b = true.
Proof. intros H H0 Hb. eapply (full_block_used ba (b / 32)); [apply H; zdm|done]. Qed.

(** A non-full block at or after the scan position decides the result. *)
Lemma lock_next_bit_loop_spec n ba start i :
  alloc_wf ba -> 0 <= start < max_blocks ba -> start <= i ->
  i + Z.of_nat n = start + max_blocks ba ->
  (forall k, start <= k < i -> k < max_blocks ba -> block_full ba k) ->
  exists r ba', lock_next_bit_loop n ba i = Some (r, ba') /\
   ((32 * start <= r < max_bits ba /\ bit_used ba r = false /\
     (forall b, 32 * start <= b < r -> bit_used ba b = true) /\ marks (fun b => b =? r) ba ba') \/
    (r = -1 /\ ba' = ba /\ forall b, 32 * start <= b < max_bits ba -> bit_used ba b = true)).
Proof.
  intros Hwf Hst. revert i. pose proof (wf_size _ Hwf) as Hsz. pose proof (wf_bits _ Hwf) as Hbits.
  induction n as [|n IH]; intros i Hi Hn Hfull; cbn [lock_next_bit_loop].
  { exists (-1), ba. split; [done|]. right. split_and!; try done. intros b Hb.
    eapply (full_below ba start (max_blocks ba)); [intros k ?; apply Hfull; lia|lia|lia]. }
  pose proof (Z.mod_pos_bound i (max_blocks ba) ltac:(lia)) as Hbi.
  destruct (block_lookup _ _ Hwf Hbi) as (w & Hw & Uw). rewrite Hw. cbn [mbind option_bind].
  destruct (Z.eq_dec w all_ones) as [->|Hne].
  - cbn [lock_bit_tries]. rewrite Z.eqb_refl. cbn. apply IH; [lia..|].
    intros k Hk Hkm. destruct (Z.eq_dec k i) as [->|]; [|apply Hfull; lia].
    rewrite Z.mod_small in Hw by lia. exact Hw.
  - destruct (lock_bit_tries_spec ba i (i mod max_blocks ba) w) as (b & Hb & Hfree & Hlow & Hcase);
      [done|done|lia|lia|done|done|].
    assert (Husedlow : forall c, 32 * start <= c -> c < 32 * i + b -> c < max_bits ba -> bit_used ba c = true).
    { intros c Hc1 Hc2 Hc3. destruct (Z.lt_ge_cases c (32 * i)).
      - destruct (Z.lt_ge_cases i (max_blocks ba)).
        + eapply (full_below ba start i); [intros k ?; apply Hfull; lia|lia|lia].
        + eapply (full_below ba start (max_blocks ba)); [intros k ?; apply Hfull; lia|lia|lia].
      - assert (i mod max_blocks ba = i) as E by (apply Z.mod_small; lia).
        rewrite E in Hw. rewrite (block_eq _ _ _ _ Hw) by zdm. apply Hlow. zdm. }
    destruct (Z.leb_spec (max_bits ba) (32 * i + b)).
    + rewrite Hcase. cbn. exists (-1), ba. split; [done|]. right. split_and!; try done.
      intros c Hc. apply Husedlow; lia.
    + destruct Hcase as (ba' & -> & Hm). cbn.
      assert (i mod max_blocks ba = i) as E by (apply Z.mod_small; lia). rewrite E in *.
      exists (32 * i + b), ba'. split; [done|]. left. split_and!; try done; try lia.
      * rewrite (block_eq _ i _ _ Hw) by zdm. replace ((32 * i + b) mod 32) with b by zdm. done.
      * intros c Hc. apply Husedlow; lia.
Qed.

(** [lock_next_bit(start)] returns the lowest free bit at or after block
    [start] and marks exactly that bit; when there is none it returns -1 and
    changes nothing.  (The blocks before [start], which the modulo of the source
    goes round to, are scanned but never give a bit.) *)
Theorem lock_next_bit_lowest ba start :
  alloc_wf ba -> 0 <= start < max_blocks ba ->
  exists r ba', lock_next_bit_from ba start = Some (r, ba') /\
   ((32 * start <= r < max_bits ba /\ bit_used ba r = false /\
     (forall b, 32 * start <= b < r -> bit_used ba b = true) /\ marks (fun b => b =? r) ba ba') \/
    (r = -1 /\ ba' = ba /\ forall b, 32 * start <= b < max_bits ba -> bit_used ba b = true)).
Proof.
  intros Hwf Hst. pose proof (wf_size _ Hwf). unfold lock_next_bit_from.
  rewrite u32_small by (unfold is_u32; lia).
  apply lock_next_bit_loop_spec; [done|done|lia|lia|]. intros; lia.
Qed.

(** The scan starts in block 1, all used; bit 0 is free and -1 is returned. *)
Lemma lock_next_bit_lowest_witness :
  let ba := {| max_blocks := 2; max_bits := 64; bitset_blocks := [0; all_ones] |} in
  lock_next_bit_from ba 1 = Some (-1, ba) /\ bit_used ba 0 = false /\
  exists r ba', lock_next_bit_from ba 0 = Some (r, ba') /\ r = 0 /\
    marks (fun b => b =? r) ba ba'.
Proof.
  intros ba. split; [vm_compute; reflexivity|]. split; [reflexivity|].
  assert (Hwf : alloc_wf ba).
  { split; simpl; try done || lia. repeat constructor; unfold is_u32, all_ones; lia. }
  destruct (lock_next_bit_lowest ba 0 Hwf) as (r & ba' & E & [(Hr & _ & _ & Hm)|(Hr & _ & Hfull)]).
  - simpl. lia.
  - exists r, ba'. split; [exact E|]. split; [|exact Hm].
    vm_compute in E. congruence.
  - vm_compute in E. congruence.
Defined.

(** *** unlock_bit *)

Lemma unlock_bit_spec ba b :
  alloc_wf ba -> 0 <= b < 32 * max_blocks ba ->
  exists ba', unlock_bit ba b = Some ba' /\ alloc_wf ba' /\
    max_blocks ba' = max_blocks ba /\ max_bits ba' = max_bits ba /\
    forall c, 0 <= c -> bit_used ba' c = bit_used ba c && negb (c =? b).
Proof.
  intros Hwf Hb. unfold unlock_bit, get_block_index.
  pose proof (bit_block_range _ _ Hb) as Hbi.
  destruct (block_lookup _ _ Hwf Hbi) as (w & Hw & Uw). rewrite Hw. cbn.
  destruct (set_block_ok ba (b / 32) (Z.land w (~w (1 <<w Z.land b 31))))
    as (ba' & -> & Hwf' & E & F & U);
    [done..|apply is_u32_land; [done|apply u32_range]|].
  exists ba'. split_and!; try done. intros c Hc. rewrite U, (land_1F b).
  pose proof (Z.mod_pos_bound b 32 ltac:(lia)). pose proof (Z.mod_pos_bound c 32 ltac:(lia)).
  destruct (Z.eqb_spec (c / 32) (b / 32)) as [Hcb|].
  - rewrite (block_eq _ _ _ _ Hw Hcb), Z.land_spec, u32_testbit, Z.lnot_spec, bit_mask_testbit by lia.
    split_ltb; simpl; try btauto; zdm.
  - destruct (Z.eqb_spec c b); [congruence|]. by rewrite andb_true_r.
Qed.

(** *** The pool *)

Record pool_wf (p : PoolAllocator) : Prop := {
  pool_alloc_wf : alloc_wf (allocator p);
  pool_max_bits : pool_max p = max_bits (allocator p);
  pool_nonempty : 0 < max_blocks (allocator p);
  pool_place : 0 < pool_base p /\ 0 < pool_elt p /\
    pool_base p + pool_max p * pool_elt p < 4294967296
}.

(** [index_of] finds the slot of a pointer [&pool[k]]. *)
Lemma index_of_slot p k :
  pool_wf p -> 0 <= k < pool_max p -> index_of p (pool_base p +w (k * pool_elt p)) = k.
Proof.
  intros [Hwf Hmax _ (Hb & He & Hfit)] Hk. unfold index_of.
  pose proof (wf_bits _ Hwf). pose proof (wf_size _ Hwf).
  rewrite (u32_small (_ + _)) by (unfold is_u32; nia).
  rewrite u32_small by (unfold is_u32; nia).
  replace (pool_base p + k * pool_elt p - pool_base p) with (k * pool_elt p) by lia.
  rewrite Z.div_mul by lia. apply s32_small. unfold is_s32. lia.
Qed.

(** [PoolAllocator::alloc] returns the address of a slot that was not in use
    and marks that slot alone, or [nullptr] and leaves the pool as it was; and
    [free] of the pointer obtained puts the pool back exactly as before. *)
Theorem pool_alloc_free seed p :
  pool_wf p -> is_u32 seed ->
  exists ptr seed' p', pool_alloc seed p = Some (ptr, seed', p') /\
   ((ptr = 0 /\ p' = p) \/
    exists k, 0 <= k < pool_max p /\ ptr = pool_base p +w (k * pool_elt p) /\ ptr <> 0 /\
      bit_used (allocator p) k = false /\ marks (fun b => b =? k) (allocator p) (allocator p') /\
      pool_free p' ptr = Some p).
Proof.
  intros Hp Hs. pose proof Hp as [Hwf Hmax Hne (Hb & He & Hfit)].
  pose proof (wf_bits _ Hwf). pose proof (wf_size _ Hwf).
  unfold pool_alloc, alloc_index, lock_next_bit. destruct (Z.eqb_spec (max_blocks (allocator p)) 0); [lia|].
  pose proof (Z.mod_pos_bound (prand seed) (max_blocks (allocator p)) ltac:(lia)) as Hst.
  unfold lock_next_bit_from. rewrite u32_small by (unfold is_u32; lia).
  destruct (lock_next_bit_loop_spec
    (Z.to_nat (prand seed mod max_blocks (allocator p) + max_blocks (allocator p) - prand seed mod max_blocks (allocator p)))
    (allocator p) (prand seed mod max_blocks (allocator p)) (prand seed mod max_blocks (allocator p)))
    as (r & ba' & -> & Hcase); [done|done|lia|lia|intros; lia|]. cbn.
  destruct Hcase as [(Hr & Hfree & _ & Hm)|(-> & -> & _)].
  2: { eexists _, _, _. split; [done|]. left. split; [done|]. by destruct p. }
  destruct (Z.ltb_spec r 0); [lia|]. eexists _, _, _. split; [done|]. right.
  exists r. split_and!; [lia|lia|done| |done|done|].
  { rewrite u32_small by (unfold is_u32; nia). nia. }
  unfold pool_free. rewrite (index_of_slot (with_allocator p ba')) by
    (done || lia || (split; cbn; try done; destruct Hm as (? & ? & ? & ?); try done; lia)). cbn.
  destruct (Z.ltb_spec r 0), (Z.leb_spec (pool_max p) r); try lia. cbn.
  destruct Hm as (Hwf' & E' & F' & U').
  destruct (unlock_bit_spec ba' r) as (ba2 & -> & Hwf2 & E2 & F2 & U2); [done|lia|]. cbn.
  f_equal. destruct p as [mx bs el al]; unfold with_allocator; cbn in *. f_equal.
  apply alloc_ext; [done..|congruence|congruence|].
  intros c Hc. rewrite U2, U' by lia. destruct (Z.eqb_spec c r) as [->|]; cbn.
  - by rewrite andb_false_r, Hfree.
  - by rewrite andb_true_r, orb_false_r.
Qed.

Lemma pool_alloc_free_witness :
  let p := new_PoolAllocator 64 0x8000 8 in
  pool_wf p /\ exists ptr seed' p', pool_alloc 1 p = Some (ptr, seed', p') /\
    ptr = 0x8000 /\ pool_free p' ptr = Some p.
Proof.
  intros p.
  assert (Hp : pool_wf p).
  { split; [|reflexivity|reflexivity|cbn; lia].
    split; [|reflexivity|split; vm_compute; discriminate|reflexivity]. repeat constructor; unfold is_u32; lia. }
  split; [exact Hp|].
  destruct (pool_alloc_free 1 p Hp) as (ptr & seed' & p' & E & H); [unfold is_u32; lia|].
  exists ptr, seed', p'. split; [exact E|]. vm_compute in E. injection E as <- <- <-.
  split; [reflexivity|].
  destruct H as [[H _]|(k & _ & _ & _ & _ & _ & H)]; [discriminate H|exact H].
Defined.
