(* ===== verification/Str.v ===== *)
(** * Strings, memory blocks and the print functions

    [src/system/string.cpp], [src/include/std/string.h], and the two users of
    [sprint], [print] of [src/include/console.h] and [kprint] of
    [src/system/include/kprint.h].

    Memory is a total function from addresses to bytes ([0 .. 255]); a [char] is
    the signed reading [s8] of its byte.  An object never wraps around the
    address space, so an address is a plain [Z]. *)
From S2P Require Import Prelude.

Definition mem := Z -> Z.

Definition mupd (m : mem) (a v : Z) : mem := fun x => if x =? a then v else m x.

(** A dword, little-endian. *)
Definition rd32 (m : mem) (a : Z) : Z :=
  m a + 256 * m (a + 1) + 65536 * m (a + 2) + 16777216 * m (a + 3).

Definition wr32 (m : mem) (a v : Z) : mem :=
  mupd (mupd (mupd (mupd m a (u8 v)) (a + 1) (u8 (Z.shiftr v 8)))
    (a + 2) (u8 (Z.shiftr v 16))) (a + 3) (u8 (Z.shiftr v 24)).

(** ** string.cpp *)

Fixpoint strnlen_from (n : nat) (m : mem) (s i : Z) : Z :=
  match n with
  | O => i
  | S n => if m (s + i) =? 0 then i else strnlen_from n m s (i + 1)
  end.

Definition strnlen (m : mem) (s len : Z) : Z := strnlen_from (Z.to_nat len) m s 0.

(** The dword loop: the first non-zero difference, or none. *)
Fixpoint strncmp_dwords (n : nat) (m : mem) (a b i : Z) : option Z :=
  match n with
  | O => None
  | S n =>
      let diff := rd32 m (a + 4 * i) -w rd32 m (b + 4 * i) in
      if negb (diff =? 0) then Some diff else strncmp_dwords n m a b (i + 1)
  end.

Fixpoint strncmp_chars (n : nat) (m : mem) (a b i : Z) : Z :=
  match n with
  | O => 0
  | S n =>
      let diff := s8 (m (a + i)) - s8 (m (b + i)) in
      if negb (u32 diff =? 0) then s32 (u32 diff)
      else if m (a + i) =? 0 then 0
      else strncmp_chars n m a b (i + 1)
  end.

Definition strncmp (m : mem) (a b len : Z) : Z :=
  let a_len := strnlen m a len in
  let dwords := a_len / 4 in
  match strncmp_dwords (Z.to_nat dwords) m a b 0 with
  | Some diff => s32 diff
  | None =>
      let i := dwords * 4 in
      strncmp_chars (Z.to_nat (len - i)) m a b i
  end.

(** A loop that only updates memory. *)
Fixpoint mem_loop (n : nat) (i : Z) (body : Z -> mem -> mem) (m : mem) : mem :=
  match n with
  | O => m
  | S n => mem_loop n (i + 1) body (body i m)
  end.

Definition memcpy (m : mem) (dst src num : Z) : mem :=
  let num_dwords := num / 4 in
  let m := mem_loop (Z.to_nat num_dwords) 0
             (fun i m => wr32 m (dst + 4 * i) (rd32 m (src + 4 * i))) m in
  let i := num_dwords * 4 in
  mem_loop (Z.to_nat (num - i)) i (fun i m => mupd m (dst + i) (m (src + i))) m.

Definition memset (m : mem) (buffer value num_chars : Z) : mem :=
  let ch4 := Z.land value 0xFF in
  let ch4 := Z.lor ch4 (ch4 <<w 16) in
  let ch4 := Z.lor ch4 (ch4 <<w 8) in
  let num_dwords := num_chars >>w 2 in
  let m := mem_loop (Z.to_nat num_dwords) 0 (fun i m => wr32 m (buffer + 4 * i) ch4) m in
  let i := num_dwords <<w 2 in
  mem_loop (Z.to_nat (num_chars - i)) i (fun i m => mupd m (buffer + i) (u8 value)) m.

(** ** string.h: the print functions

    [pchar &dst, int &len] are the two fields of the output cursor. *)

Record out := { o_mem : mem; o_dst : Z; o_len : Z }.

(** Each function returns the number of characters printed and the new cursor. *)
Definition sprint_char (o : out) (c : Z) : Z * out :=
  if o_len o <=? 0 then (0, o) else
  (1, {| o_mem := mupd (o_mem o) (o_dst o) (u8 c); o_dst := o_dst o + 1; o_len := o_len o - 1 |}).

(** [for (; str[i] && (i < len); i++) dst[i] = str[i];] *)
Fixpoint sprint_str_loop (n : nat) (m : mem) (dst str i : Z) : Z * mem :=
  match n with
  | O => (i, m)
  | S n => if m (str + i) =? 0 then (i, m)
           else sprint_str_loop n (mupd m (dst + i) (m (str + i))) dst str (i + 1)
  end.

Definition sprint_str (o : out) (str : Z) : Z * out :=
  if o_len o <=? 0 then (0, o) else
  let '(i, m) := sprint_str_loop (Z.to_nat (o_len o)) (o_mem o) (o_dst o) str 0 in
  (i, {| o_mem := m; o_dst := o_dst o + i; o_len := o_len o - i |}).

(** "0123456789ABCDEF" and its terminator. *)
Definition radix_digits : list Z :=
  [48; 49; 50; 51; 52; 53; 54; 55; 56; 57; 65; 66; 67; 68; 69; 70; 0].

(** The [do ... while (num)] loop fills [tmp_str], least significant digit first. *)
Fixpoint radix_loop (fuel : nat) (num radix : Z) (tmp_str : list Z) (digits_printed : Z)
    : option (list Z * Z) :=
  match fuel with
  | O => None
  | S fuel =>
      let digit := num mod radix in
      let num := num / radix in
      c ← arr_get radix_digits digit;
      tmp_str ← arr_set tmp_str digits_printed c;
      let digits_printed := digits_printed + 1 in
      if negb (num =? 0) then radix_loop fuel num radix tmp_str digits_printed
      else Some (tmp_str, digits_printed)
  end.

Definition sprint_radix (o : out) (num radix : Z) : option (Z * out) :=
  if o_len o <=? 0 then Some (0, o) else
  '(tmp_str, digits_printed) ← radix_loop 33 num radix (replicate 32 0) 0;
  let digits_printed := if o_len o <? digits_printed then o_len o else digits_printed in
  m ← for_each (Z.to_nat digits_printed) 0
        (fun i m => c ← arr_get tmp_str (digits_printed - i - 1); Some (mupd m (o_dst o + i) c))
        (o_mem o);
  Some (digits_printed,
        {| o_mem := m; o_dst := o_dst o + digits_printed; o_len := o_len o - digits_printed |}).

Definition sprint_dec (o : out) (num : Z) : option (Z * out) := sprint_radix o num 10.
Definition sprint_hex (o : out) (num : Z) : option (Z * out) := sprint_radix o num 16.

Definition sprint_int (o : out) (num : Z) : option (Z * out) :=
  if num <? 0 then
    let '(prefix, o) := sprint_char o 45 (* '-' *) in
    '(n, o) ← sprint_dec o (u32 (s32 (- num)));
    Some (prefix + n, o)
  else sprint_dec o (u32 num).

(** [sprint(dst, len, hex num)]; the prefix is the literal "0x". *)
Definition sprint_hexarg (o : out) (num : Z) : option (Z * out) :=
  if o_len o <=? 0 then Some (0, o) else
  let '(p0, o) := sprint_char o 48 in
  let '(p1, o) := sprint_char o 120 in
  '(n, o) ← sprint_hex o (u32 num);
  Some (p0 + p1 + n, o).

(** The overloads, by the type of the argument. *)
Inductive sarg :=
  | AChar (c : Z) | AStr (str : Z) | APtr (ptr : Z) | AUint (num : Z)
  | AShort (num : Z) | AUshort (num : Z) | AInt (num : Z) | AHex (num : Z).

Definition sprint_arg (o : out) (x : sarg) : option (Z * out) :=
  match x with
  | AChar c => Some (sprint_char o c)
  | AStr str => Some (sprint_str o str)
  | APtr ptr => sprint_radix o ptr 16
  | AUint num => sprint_dec o num
  | AShort num => sprint_dec o (u32 num)
  | AUshort num => sprint_dec o num
  | AInt num => sprint_int o num
  | AHex num => sprint_hexarg o num
  end.

(** The variadic template, by recursion on the arguments. *)
Fixpoint sprint (o : out) (args : list sarg) : option (Z * out) :=
  match args with
  | [] => Some (0, o)
  | first :: rest =>
      '(first_len, o) ← sprint_arg o first;
      '(rest_len, o) ← sprint o rest;
      Some (first_len + rest_len, o)
  end.

Definition MAX_PRINT_CHARS : Z := 64.

(** [print] and [kprint] format into the local array [print_buffer] at [buf];
    the file that receives the text (the terminal, or the [write] system call) is
    the parameter [write].  The store of the terminator out of the array is
    undefined. *)
Definition kprint {F} (write : F -> mem -> Z -> Z -> Z * F) (f : F) (m : mem) (buf : Z)
    (args : list sarg) : option (Z * mem * F) :=
  '(len, o) ← sprint {| o_mem := m; o_dst := buf; o_len := MAX_PRINT_CHARS |} args;
  if negb ((0 <=? len) && (len <? MAX_PRINT_CHARS)) then None else
  let m := mupd (o_mem o) (buf + len) 0 in
  if 0 <? len then
    let '(r, f) := write f m buf len in Some (r, m, f)
  else Some (len, m, f).

(** [print] returns the length whatever the write returns. *)
Definition print {F} (write : F -> mem -> Z -> Z -> Z * F) (f : F) (m : mem) (buf : Z)
    (args : list sarg) : option (Z * mem * F) :=
  '(len, o) ← sprint {| o_mem := m; o_dst := buf; o_len := MAX_PRINT_CHARS |} args;
  if negb ((0 <=? len) && (len <? MAX_PRINT_CHARS)) then None else
  let m := mupd (o_mem o) (buf + len) 0 in
  let f := if 0 <? len then snd (write f m buf len) else f in
  Some (len, m, f).

(** ** Comparison *)

Definition bytes (m : mem) : Prop := forall a, is_u8 (m a).

Lemma strnlen_from_spec n m s i :
  let r := strnlen_from n m s i in
  i <= r <= i + Z.of_nat n /\ (forall j, i <= j < r -> m (s + j) <> 0) /\
  (r < i + Z.of_nat n -> m (s + r) = 0).
Proof.
  revert i. induction n as [|n IH]; intros i; cbn -[Z.of_nat].
  - split_and!; intros; lia.
  - destruct (Z.eqb_spec (m (s + i)) 0).
    + split_and!; try lia; intros; done || lia.
    + destruct (IH (i + 1)) as (? & H1 & H2). split_and!; [lia|lia| |intros; apply H2; lia].
      intros j Hj. destruct (Z.eq_dec j i) as [->|]; [done|apply H1; lia].
Qed.

(** [strnlen] is the distance to the first NUL, at most [len]. *)
Lemma strnlen_spec m s len :
  0 <= len ->
  let r := strnlen m s len in
  0 <= r <= len /\ (forall j, 0 <= j < r -> m (s + j) <> 0) /\ (r < len -> m (s + r) = 0).
Proof.
  intros Hl. unfold strnlen. destruct (strnlen_from_spec (Z.to_nat len) m s 0) as (? & ? & H).
  split_and!; [lia|lia|done|]. intros. apply H. lia.
Qed.

Lemma rd32_range m a : bytes m -> is_u32 (rd32 m a).
Proof.
  intros Hm. unfold rd32, is_u32. pose proof (Hm a). pose proof (Hm (a + 1)).
  pose proof (Hm (a + 2)). pose proof (Hm (a + 3)). unfold is_u8 in *. lia.
Qed.

Lemma rd32_eq m a b :
  bytes m -> (rd32 m a = rd32 m b <-> forall j, 0 <= j < 4 -> m (a + j) = m (b + j)).
Proof.
  intros Hm. unfold rd32. split.
  - intros H. pose proof (Hm a). pose proof (Hm (a + 1)). pose proof (Hm (a + 2)). pose proof (Hm (a + 3)).
    pose proof (Hm b). pose proof (Hm (b + 1)). pose proof (Hm (b + 2)). pose proof (Hm (b + 3)).
    unfold is_u8 in *. intros j Hj.
    assert (j = 0 \/ j = 1 \/ j = 2 \/ j = 3) as [->|[->|[->| ->]]] by lia; rewrite ?Z.add_0_r; lia.
  - intros H. pose proof (H 0 ltac:(lia)) as H0. rewrite !Z.add_0_r in H0.
    rewrite H0, (H 1), (H 2), (H 3) by lia. done.
Qed.

Lemma strncmp_dwords_spec n m a b i :
  bytes m ->
  match strncmp_dwords n m a b i with
  | Some d => 0 < d < 4294967296 /\ exists j, 4 * i <= j < 4 * (i + Z.of_nat n) /\ m (a + j) <> m (b + j)
  | None => forall j, 4 * i <= j < 4 * (i + Z.of_nat n) -> m (a + j) = m (b + j)
  end.
Proof.
  intros Hm. revert i. induction n as [|n IH]; intros i; cbn -[Z.of_nat]; [intros; lia|].
  pose proof (rd32_range m (a + 4 * i) Hm) as Ra. pose proof (rd32_range m (b + 4 * i) Hm) as Rb.
  unfold is_u32 in *.
  destruct (Z.eqb_spec (rd32 m (a + 4 * i) -w rd32 m (b + 4 * i)) 0) as [E|E]; cbn -[Z.of_nat].
  - assert (rd32 m (a + 4 * i) = rd32 m (b + 4 * i)) as Eq by (unfold u32 in E; zdm).
    rewrite rd32_eq in Eq by done. specialize (IH (i + 1)).
    assert (Hq : forall j, 4 * i <= j < 4 * i + 4 -> m (a + j) = m (b + j)).
    { intros j Hj. specialize (Eq (j - 4 * i) ltac:(lia)).
      by replace (a + 4 * i + (j - 4 * i)) with (a + j) in Eq by lia;
         replace (b + 4 * i + (j - 4 * i)) with (b + j) in Eq by lia. }
    destruct (strncmp_dwords n m a b (i + 1)).
    + destruct IH as (? & j & Hj & ?). split; [done|]. exists j. split; [lia|done].
    + intros j Hj. destruct (Z.lt_ge_cases j (4 * i + 4)); [apply Hq; lia|apply IH; lia].
  - pose proof (u32_range (rd32 m (a + 4 * i) - rd32 m (b + 4 * i))) as R. unfold is_u32 in R.
    split; [lia|]. assert (Hn : ~ forall j, 0 <= j < 4 -> m (a + 4 * i + j) = m (b + 4 * i + j)).
    { rewrite <- rd32_eq by done. intros Eq. apply E. rewrite Eq, Z.sub_diag. done. }
    destruct (decide (m (a + 4 * i) = m (b + 4 * i))) as [e0|?]; [|exists (4 * i); split; [lia|done]].
    destruct (decide (m (a + (4 * i + 1)) = m (b + (4 * i + 1)))) as [e1|?]; [|exists (4 * i + 1); split; [lia|done]].
    destruct (decide (m (a + (4 * i + 2)) = m (b + (4 * i + 2)))) as [e2|?]; [|exists (4 * i + 2); split; [lia|done]].
    destruct (decide (m (a + (4 * i + 3)) = m (b + (4 * i + 3)))) as [e3|?]; [|exists (4 * i + 3); split; [lia|done]].
    exfalso. apply Hn. intros j Hj. rewrite <- !Z.add_assoc.
    assert (j = 0 \/ j = 1 \/ j = 2 \/ j = 3) as [->|[->|[->| ->]]] by lia; rewrite ?Z.add_0_r; done.
Qed.

(** The two C strings agree up to [len] characters: position by position, up to
    and including the first NUL of [a]. *)
Definition str_agree (m : mem) (a b i len : Z) : Prop :=
  forall k, i <= k < len -> (forall j, i <= j < k -> m (a + j) <> 0) -> m (a + k) = m (b + k).

Lemma s8_inj x y : is_u8 x -> is_u8 y -> s8 x = s8 y -> x = y.
Proof. unfold is_u8, s8. intros. zdm. Qed.

Lemma strncmp_chars_spec n m a b i :
  bytes m -> (strncmp_chars n m a b i = 0 <-> str_agree m a b i (i + Z.of_nat n)).
Proof.
  intros Hm. revert i. induction n as [|n IH]; intros i; cbn -[Z.of_nat].
  { split; [intros _ k Hk; lia|done]. }
  pose proof (Hm (a + i)) as Ra. pose proof (Hm (b + i)) as Rb.
  assert (-255 <= s8 (m (a + i)) - s8 (m (b + i)) <= 255) as Rd by (unfold is_u8, s8 in *; zdm).
  destruct (Z.eqb_spec (u32 (s8 (m (a + i)) - s8 (m (b + i)))) 0) as [E|E]; cbn -[Z.of_nat].
  - assert (m (a + i) = m (b + i)) as Eq.
    { apply s8_inj; [done..|]. unfold u32 in E. zdm. }
    destruct (Z.eqb_spec (m (a + i)) 0) as [Z0|NZ].
    + split; [|done]. intros _ k Hk Hj. destruct (Z.eq_dec k i) as [->|]; [done|].
      exfalso. apply (Hj i); [lia|done].
    + rewrite IH. split.
      * intros H k Hk Hj. destruct (Z.eq_dec k i) as [->|]; [done|].
        apply H; [lia|]. intros j Hj'. apply Hj. lia.
      * intros H k Hk Hj. apply H; [lia|]. intros j Hj'.
        destruct (Z.eq_dec j i) as [->|]; [done|]. apply Hj. lia.
  - split; intros H.
    + exfalso. apply E. rewrite s32_u32, s32_small in H by (unfold is_s32; lia). rewrite H. done.
    + exfalso. apply E. rewrite (H i); [by rewrite Z.sub_diag|lia|intros; lia].
Qed.

Lemma strncmp_agree m a b len :
  bytes m -> 0 <= len < 2147483648 -> (strncmp m a b len = 0 <-> str_agree m a b 0 len).
Proof.
  intros Hm Hl. unfold strncmp. destruct (strnlen_spec m a len) as (Hr & Hnz & _); [lia|].
  set (r := strnlen m a len) in *.
  pose proof (strncmp_dwords_spec (Z.to_nat (r / 4)) m a b 0 Hm) as Hd.
  assert (0 <= r / 4) as Hq by (apply Z.div_pos; lia).
  assert (4 * (r / 4) <= r) as Hle by zdm.
  rewrite Z2Nat.id in Hd by done.
  destruct (strncmp_dwords _ m a b 0) as [d|].
  - destruct Hd as (Hd & j & Hj & Hne). split; intros H.
    + exfalso. unfold s32 in H. zdm.
    + exfalso. apply Hne, H; [lia|]. intros i Hi. apply Hnz. lia.
  - rewrite strncmp_chars_spec by done. rewrite Z2Nat.id by lia.
    replace (r / 4 * 4 + (len - r / 4 * 4)) with len by lia. split; intros H k Hk Hj.
    + destruct (Z.lt_ge_cases k (4 * (r / 4))); [apply Hd; lia|].
      apply H; [lia|]. intros j Hj'. apply Hj. lia.
    + apply H; [lia|]. intros j Hj'.
      destruct (Z.lt_ge_cases j (4 * (r / 4))); [apply Hnz; lia|apply Hj; lia].
Qed.

(** C28: [strncmp(a, b, len)] is 0 exactly when the two C strings agree up to
    [len] characters, although it compares the body four bytes at a time. *)
Theorem strncmp_zero_iff m a b len :
  bytes m -> 0 <= len < 2147483648 -> (strncmp m a b len = 0 <-> str_agree m a b 0 len).
Proof. apply strncmp_agree. Qed.

(** A C string of the non-null bytes [s] at [a]. *)
Definition str_at (m : mem) (a : Z) (s : list Z) : Prop :=
  (forall k c, s !! k = Some c -> c <> 0 /\ m (a + Z.of_nat k) = c) /\ m (a + Z.of_nat (length s)) = 0.

(** A test of the same. *)
Definition str_test (m : mem) (a : Z) (s : list Z) : bool :=
  forallb (fun k => negb (nth k s 0 =? 0) && (m (a + Z.of_nat k) =? nth k s 0)) (seq 0 (length s)) &&
  (m (a + Z.of_nat (length s)) =? 0).

Lemma chars_test m a s :
  forallb (fun k => negb (nth k s 0 =? 0) && (m (a + Z.of_nat k) =? nth k s 0)) (seq 0 (length s)) = true ->
  forall k c, s !! k = Some c -> c <> 0 /\ m (a + Z.of_nat k) = c.
Proof.
  intros H k c Hk. rewrite forallb_forall in H. specialize (H k).
  rewrite in_seq in H. pose proof (lookup_lt_Some _ _ _ Hk). specialize (H ltac:(lia)).
  rewrite (nth_lookup_Some _ _ 0 _ Hk) in H. apply andb_true_iff in H as [H1 H2].
  split; [|by apply Z.eqb_eq]. by destruct (Z.eqb_spec c 0).
Qed.

Lemma str_test_true m a s : str_test m a s = true -> str_at m a s.
Proof.
  unfold str_test. rewrite andb_true_iff. intros [H1 H2]. split; [by apply chars_test|by apply Z.eqb_eq].
Qed.

Lemma str_at_cons m a c s : str_at m a (c :: s) -> c <> 0 /\ m a = c /\ str_at m (a + 1) s.
Proof.
  intros [H H0]. destruct (H 0%nat c eq_refl) as [Hc E]. rewrite Z.add_0_r in E.
  split; [done|]. split; [done|]. split.
  - intros k d Hk. destruct (H (S k) d Hk) as [? <-]. split; [done|]. f_equal. lia.
  - rewrite <- H0. f_equal. cbn [length]. lia.
Qed.

(** Two strings that agree up to the first NUL are the same list. *)
Lemma str_agree_eq m a b s t len :
  str_at m a s -> str_at m b t -> Z.of_nat (length s) < len -> (str_agree m a b 0 len <-> s = t).
Proof.
  intros [Ha Ha0] [Hb Hb0] Hl. split.
  - intros H. apply list_eq_same_length with (length s); [|done|].
    + destruct (Nat.lt_trichotomy (length s) (length t)) as [Hlt|[He|Hlt]]; [|done|].
      * exfalso. destruct (lookup_lt_is_Some_2 t (length s) Hlt) as [c Hc].
        destruct (Hb _ _ Hc) as [Hn E]. apply Hn. rewrite <- E, <- H, Ha0; [done|lia|].
        intros j Hj. destruct (lookup_lt_is_Some_2 s (Z.to_nat j) ltac:(lia)) as [d Hd].
        destruct (Ha _ _ Hd) as [Hdn Ed]. rewrite Z2Nat.id in Ed by lia. by rewrite Ed.
      * exfalso. destruct (lookup_lt_is_Some_2 s (length t) Hlt) as [c Hc].
        destruct (Ha _ _ Hc) as [Hn E]. apply Hn. rewrite <- E, H, Hb0; [done|lia|].
        intros j Hj. destruct (lookup_lt_is_Some_2 s (Z.to_nat j) ltac:(lia)) as [d Hd].
        destruct (Ha _ _ Hd) as [Hdn Ed]. rewrite Z2Nat.id in Ed by lia. by rewrite Ed.
    + intros i x y _ Hx Hy. destruct (Ha _ _ Hx) as [_ <-], (Hb _ _ Hy) as [_ <-].
      apply H; [apply lookup_lt_Some in Hx; lia|]. intros j Hj.
      destruct (lookup_lt_is_Some_2 s (Z.to_nat j)) as [d Hd]; [apply lookup_lt_Some in Hx; lia|].
      destruct (Ha _ _ Hd) as [Hdn Ed]. rewrite Z2Nat.id in Ed by lia. by rewrite Ed.
  - intros <- k Hk Hj. destruct (decide (Z.to_nat k < length s)%nat) as [Hlt|Hge].
    + destruct (lookup_lt_is_Some_2 s (Z.to_nat k) Hlt) as [d Hd].
      destruct (Ha _ _ Hd) as [_ E1], (Hb _ _ Hd) as [_ E2]. rewrite Z2Nat.id in E1, E2 by lia. congruence.
    + destruct (Z.eq_dec k (Z.of_nat (length s))) as [->|]; [by rewrite Ha0, Hb0|].
      exfalso. apply (Hj (Z.of_nat (length s))); [lia|done].
Qed.

(** [strncmp] against a literal, of the length of the literal: a prefix test. *)
Lemma str_agree_prefix m a b s t :
  str_at m a s -> str_at m b t -> (str_agree m a b 0 (Z.of_nat (length t)) <-> take (length t) s = t).
Proof.
  revert a b s. induction t as [|c t IH]; intros a b s Hs Ht; cbn [length take].
  { split; [by rewrite take_0|]. intros _ k Hk. cbn in Hk. lia. }
  destruct (str_at_cons _ _ _ _ Ht) as (Hc & Eb & Ht'). split.
  - intros H. assert (m a = c) as Ea.
    { rewrite <- Eb. specialize (H 0). rewrite !Z.add_0_r in H. apply H; lia. }
    destruct s as [|d s].
    { destruct Hs as [_ H0]. cbn in H0. rewrite Z.add_0_r in H0. congruence. }
    destruct (str_at_cons _ _ _ _ Hs) as (Hd & Ed & Hs'). cbn [take]. f_equal; [congruence|].
    apply (IH (a + 1) (b + 1)); [done|done|]. intros k Hk Hj.
    replace (a + 1 + k) with (a + (k + 1)) by lia. replace (b + 1 + k) with (b + (k + 1)) by lia.
    apply H; [lia|]. intros j Hjk. destruct (Z.eq_dec j 0) as [->|]; [rewrite Z.add_0_r; congruence|].
    replace (a + j) with (a + 1 + (j - 1)) by lia. apply Hj. lia.
  - intros E. destruct s as [|d s]; [done|]. cbn [take] in E. injection E as -> E.
    destruct (str_at_cons _ _ _ _ Hs) as (_ & Ea & Hs'). intros k Hk Hj.
    destruct (Z.eq_dec k 0) as [->|]; [rewrite !Z.add_0_r; congruence|].
    replace (a + k) with (a + 1 + (k - 1)) by lia. replace (b + k) with (b + 1 + (k - 1)) by lia.
    apply (IH (a + 1) (b + 1) s Hs' Ht'); [done|lia|]. intros j Hjk.
    replace (a + 1 + j) with (a + (j + 1)) by lia. apply Hj. lia.
Qed.

(** A memory holding a list of bytes at an address, zero elsewhere. *)
Definition mem_of (a : Z) (l : list Z) : mem :=
  fun x => if (a <=? x) && (x <? a + Z.of_nat (length l)) then u8 (nth (Z.to_nat (x - a)) l 0) else 0.

Lemma mem_of_bytes a l : bytes (mem_of a l).
Proof. intros x. unfold mem_of. destruct (_ && _); [apply u8_range|unfold is_u8; lia]. Qed.

(** "shell" at 16 and "shell2" at 32. *)
Definition two_names : mem :=
  mem_of 16 [115; 104; 101; 108; 108; 0; 0; 0; 0; 0; 0; 0; 0; 0; 0; 0; 115; 104; 101; 108; 108; 50; 0].

Lemma strncmp_zero_iff_witness :
  (strncmp two_names 16 32 5 = 0 <-> str_agree two_names 16 32 0 5) /\
  strncmp two_names 16 32 5 = 0 /\ strncmp two_names 16 32 100 <> 0.
Proof.
  split; [|split; [reflexivity|vm_compute; discriminate]].
  refine (strncmp_zero_iff two_names 16 32 5 (mem_of_bytes _ _) _). lia.
Defined.

(** ** Memory blocks *)

Lemma mem_loop_inv (P : Z -> mem -> Prop) n i body m :
  P i m -> (forall j m, i <= j < i + Z.of_nat n -> P j m -> P (j + 1) (body j m)) ->
  P (i + Z.of_nat n) (mem_loop n i body m).
Proof.
  revert i m. induction n as [|n IH]; intros i m H0 Hb; cbn [mem_loop].
  - by rewrite Z.add_0_r.
  - replace (i + Z.of_nat (S n)) with (i + 1 + Z.of_nat n) by lia.
    apply IH; [apply Hb; [lia|done]|]. intros j m' Hj. apply Hb. lia.
Qed.

Lemma wr32_spec m a v x :
  wr32 m a v x = if (a <=? x) && (x <? a + 4) then u8 (Z.shiftr v (8 * (x - a))) else m x.
Proof.
  unfold wr32, mupd.
  destruct (Z.eqb_spec x (a + 3)) as [->|].
  { destruct (Z.leb_spec a (a + 3)), (Z.ltb_spec (a + 3) (a + 4)); try lia. cbn. do 2 f_equal. lia. }
  destruct (Z.eqb_spec x (a + 2)) as [->|].
  { destruct (Z.leb_spec a (a + 2)), (Z.ltb_spec (a + 2) (a + 4)); try lia. cbn. do 2 f_equal. lia. }
  destruct (Z.eqb_spec x (a + 1)) as [->|].
  { destruct (Z.leb_spec a (a + 1)), (Z.ltb_spec (a + 1) (a + 4)); try lia. cbn. do 2 f_equal. lia. }
  destruct (Z.eqb_spec x a) as [->|].
  { destruct (Z.leb_spec a a), (Z.ltb_spec a (a + 4)); try lia. cbn.
    replace (8 * (a - a)) with 0 by lia. by rewrite Z.shiftr_0_r. }
  destruct (Z.leb_spec a x), (Z.ltb_spec x (a + 4)); try lia; done.
Qed.

Lemma rd32_byte m a k : bytes m -> 0 <= k < 4 -> u8 (Z.shiftr (rd32 m a) (8 * k)) = m (a + k).
Proof.
  intros Hm Hk. rewrite Z.shiftr_div_pow2 by lia. unfold rd32, u8.
  pose proof (Hm a) as H0. pose proof (Hm (a + 1)) as H1. pose proof (Hm (a + 2)) as H2.
  pose proof (Hm (a + 3)) as H3. unfold is_u8 in *.
  assert (k = 0 \/ k = 1 \/ k = 2 \/ k = 3) as [->|[->|[->| ->]]] by lia; cbn [Z.mul Z.pow Z.pow_pos Pos.iter Pos.mul];
    change (Z.pow_pos 2 8) with 256; change (Z.pow_pos 2 16) with 65536; change (Z.pow_pos 2 24) with 16777216;
    rewrite ?Z.add_0_r, ?Z.div_1_r; zdm.
Qed.

Lemma wr32_bytes m a v : bytes m -> bytes (wr32 m a v).
Proof. intros Hm x. rewrite wr32_spec. destruct (_ && _); [apply u8_range|apply Hm]. Qed.

Lemma wr32_ne m a v x : x < a \/ a + 4 <= x -> wr32 m a v x = m x.
Proof. intros Hx. rewrite wr32_spec. split_ltb; cbn; done || lia. Qed.

Lemma rd32_ext m m' a : (forall j, 0 <= j < 4 -> m' (a + j) = m (a + j)) -> rd32 m' a = rd32 m a.
Proof.
  intros H. unfold rd32. pose proof (H 0 ltac:(lia)) as H0. rewrite !Z.add_0_r in H0.
  rewrite H0, (H 1), (H 2), (H 3) by lia. done.
Qed.

Lemma rd32_wr32 m a v : is_u32 v -> rd32 (wr32 m a v) a = v.
Proof.
  unfold is_u32, rd32. intros Hv. rewrite !wr32_spec, !Z.shiftr_div_pow2 by lia.
  split_ltb; try lia. cbn [andb].
  replace (a - a) with 0 by lia. replace (a + 1 - a) with 1 by lia.
  replace (a + 2 - a) with 2 by lia. replace (a + 3 - a) with 3 by lia.
  change (2 ^ (8 * 0)) with 1. change (2 ^ (8 * 1)) with 256.
  change (2 ^ (8 * 2)) with 65536. change (2 ^ (8 * 3)) with 16777216. unfold u8. zdm.
Qed.

Lemma rd32_wr32_ne m a v b : a + 4 <= b \/ b + 4 <= a -> rd32 (wr32 m a v) b = rd32 m b.
Proof. intros H. apply rd32_ext. intros j Hj. apply wr32_ne. lia. Qed.

(** What has been copied after [k] bytes. *)
Definition copied (m0 : mem) (dst src k : Z) (m : mem) : Prop :=
  forall x, m x = if (dst <=? x) && (x <? dst + k) then m0 (src + (x - dst)) else m0 x.

Lemma copied_rd32 m0 dst src i m num :
  (dst <= src \/ src + num <= dst) -> 0 <= i -> 4 * i + 4 <= num ->
  copied m0 dst src (4 * i) m -> rd32 m (src + 4 * i) = rd32 m0 (src + 4 * i).
Proof.
  intros Hov Hi Hn Hc.
  assert (Hq : forall y, src + 4 * i <= y < src + 4 * i + 4 -> m y = m0 y).
  { intros y Hy. rewrite Hc. destruct (Z.leb_spec dst y), (Z.ltb_spec y (dst + 4 * i)); done || lia. }
  unfold rd32. by rewrite !Hq by lia.
Qed.

(** [memcpy] moves [num] bytes, whatever the remainder of [num] by 4, when
    the blocks do not overlap or the destination starts below the source, and
    changes no other byte. *)
Theorem memcpy_spec m dst src num :
  bytes m -> 0 <= num < 4294967296 -> (dst <= src \/ src + num <= dst) ->
  copied m dst src num (memcpy m dst src num).
Proof.
  intros Hm Hn Hov. unfold memcpy.
  set (body1 := fun (i : Z) (m : mem) => wr32 m (dst + 4 * i) (rd32 m (src + 4 * i))).
  assert (0 <= num / 4) as Hq by (apply Z.div_pos; lia).
  assert (4 * (num / 4) <= num) as Hle by zdm.
  assert (H1 : copied m dst src (4 * (num / 4)) (mem_loop (Z.to_nat (num / 4)) 0 body1 m)).
  { assert (H := mem_loop_inv (fun i m' => copied m dst src (4 * i) m') (Z.to_nat (num / 4)) 0 body1 m).
    cbv beta in H. rewrite Z2Nat.id, Z.add_0_l in H by done. apply H; clear H.
    - intros x. destruct (Z.leb_spec dst x), (Z.ltb_spec x (dst + 4 * 0)); done || lia.
    - intros j m' Hj Hc x. unfold body1. rewrite wr32_spec, (copied_rd32 m dst src j m' num) by (done || lia).
      destruct (Z.leb_spec (dst + 4 * j) x), (Z.ltb_spec x (dst + 4 * j + 4)); cbn.
      2-4: rewrite Hc; split_ltb; done || lia.
      rewrite rd32_byte by (done || lia). destruct (Z.leb_spec dst x), (Z.ltb_spec x (dst + 4 * (j + 1))); try lia.
      cbn. f_equal. lia. }
  set (m1 := mem_loop _ 0 body1 m) in *.
  assert (H := mem_loop_inv (fun i m' => copied m dst src i m') (Z.to_nat (num - num / 4 * 4)) (num / 4 * 4)
    (fun i m => mupd m (dst + i) (m (src + i))) m1).
  cbv beta in H. rewrite Z2Nat.id in H by lia.
  replace (num / 4 * 4 + (num - num / 4 * 4)) with num in H by lia. apply H; clear H.
  - by replace (num / 4 * 4) with (4 * (num / 4)) by lia.
  - intros j m' Hj Hc x. unfold mupd. destruct (Z.eqb_spec x (dst + j)) as [->|Hx].
    + rewrite Hc. destruct (Z.leb_spec dst (dst + j)), (Z.ltb_spec (dst + j) (dst + (j + 1))); try lia. cbn.
      replace (src + (dst + j - dst)) with (src + j) by lia.
      destruct (Z.leb_spec dst (src + j)), (Z.ltb_spec (src + j) (dst + j)); cbn; done || lia.
    + rewrite Hc. split_ltb; done || lia.
Qed.

Lemma memcpy_spec_witness :
  copied two_names 100 16 7 (memcpy two_names 100 16 7) /\
  (memcpy two_names 100 16 7) 104 = 108 /\ (memcpy two_names 100 16 7) 99 = 0.
Proof.
  split; [|split; reflexivity].
  refine (memcpy_spec two_names 100 16 7 (mem_of_bytes _ _) _ _); lia.
Defined.

(** The dword [memset] builds holds the byte four times. *)
Lemma memset_dword value k :
  0 <= k < 4 ->
  let ch4 := Z.land value 0xFF in
  let ch4 := Z.lor ch4 (ch4 <<w 16) in
  let ch4 := Z.lor ch4 (ch4 <<w 8) in
  u8 (Z.shiftr ch4 (8 * k)) = u8 value.
Proof.
  intros Hk. cbv zeta. change 0xFF with (Z.ones 8). rewrite Z.land_ones by lia.
  change (value mod 2 ^ 8) with (u8 value).
  pose proof (u8_range value) as Hv. unfold is_u8 in Hv. set (b := u8 value) in *. clearbody b.
  assert (E : forallb (fun b => forallb (fun k =>
    u8 (Z.shiftr (Z.lor (Z.lor b (b <<w 16)) (Z.lor b (b <<w 16) <<w 8)) (8 * k)) =? b) (seqZ 0 4)) (seqZ 0 256) = true)
    by (vm_compute; reflexivity).
  pose proof (seqZ_forallb _ _ _ E b ltac:(lia)) as E'. cbv beta in E'.
  apply Z.eqb_eq, (seqZ_forallb _ _ _ E' k). lia.
Qed.

(** [memset] stores the low byte of [value] in each of the [num_chars]
    bytes, whatever their number, and changes no other byte. *)
Theorem memset_spec m buffer value num_chars :
  0 <= num_chars < 2147483648 ->
  forall x, memset m buffer value num_chars x =
    if (buffer <=? x) && (x <? buffer + num_chars) then u8 value else m x.
Proof.
  intros Hn. unfold memset. rewrite (Z.mod_small 2 32) by lia.
  rewrite Z.shiftr_div_pow2, Z.shiftl_mul_pow2 by lia. change (2 ^ 2) with 4.
  pose proof (memset_dword value) as Hdw. cbv zeta in Hdw.
  set (ch4 := Z.lor _ (_ <<w 8)) in *. clearbody ch4.
  assert (0 <= num_chars / 4) as Hq by (apply Z.div_pos; lia).
  assert (4 * (num_chars / 4) <= num_chars) as Hle by zdm.
  rewrite u32_small by (unfold is_u32; lia).
  set (filled := fun (k : Z) (m' : mem) => forall x, m' x =
    if (buffer <=? x) && (x <? buffer + k) then u8 value else m x).
  assert (H1 : filled (4 * (num_chars / 4))
    (mem_loop (Z.to_nat (num_chars / 4)) 0 (fun i m => wr32 m (buffer + 4 * i) ch4) m)).
  { assert (H := mem_loop_inv (fun i m' => filled (4 * i) m') (Z.to_nat (num_chars / 4)) 0
      (fun i m => wr32 m (buffer + 4 * i) ch4) m).
    cbv beta in H. rewrite Z2Nat.id, Z.add_0_l in H by done. apply H; clear H.
    - intros x. destruct (Z.leb_spec buffer x), (Z.ltb_spec x (buffer + 4 * 0)); done || lia.
    - intros j m' Hj Hc x. rewrite wr32_spec.
      destruct (Z.leb_spec (buffer + 4 * j) x), (Z.ltb_spec x (buffer + 4 * j + 4)); cbn.
      2-4: rewrite Hc; split_ltb; done || lia.
      rewrite Hdw by lia. destruct (Z.leb_spec buffer x), (Z.ltb_spec x (buffer + 4 * (j + 1))); done || lia. }
  set (m1 := mem_loop _ 0 _ m) in *.
  assert (H := mem_loop_inv filled (Z.to_nat (num_chars - num_chars / 4 * 4)) (num_chars / 4 * 4)
    (fun i m => mupd m (buffer + i) (u8 value)) m1).
  rewrite Z2Nat.id in H by lia.
  replace (num_chars / 4 * 4 + (num_chars - num_chars / 4 * 4)) with num_chars in H by lia. apply H; clear H.
  - by replace (num_chars / 4 * 4) with (4 * (num_chars / 4)) by lia.
  - intros j m' Hj Hc x. unfold mupd. rewrite Hc. split_ltb; done || lia.
Qed.

Lemma memset_spec_witness :
  (0 <= 11 < 2147483648) /\ memset two_names 20 0x1AB 11 30 =
    (if (20 <=? 30) && (30 <? 20 + 11) then u8 0x1AB else two_names 30) /\
  memset two_names 20 0x1AB 11 30 = 0xAB.
Proof.
  assert (H : 0 <= 11 < 2147483648) by lia.
  split; [exact H|]. split; [exact (memset_spec two_names 20 0x1AB 11 H 30)|reflexivity].
Defined.

(** ** Printing *)

(** [o'] is [o] after [n] characters: [n] is at most the room there was, the
    cursor moved by [n], and no byte outside the [n] printed ones changed. *)
Definition advanced (o : out) (n : Z) (o' : out) : Prop :=
  0 <= n <= o_len o /\ o_dst o' = o_dst o + n /\ o_len o' = o_len o - n /\
  forall x, x < o_dst o \/ o_dst o + n <= x -> o_mem o' x = o_mem o x.

Lemma advanced_refl o : 0 <= o_len o -> advanced o 0 o.
Proof. intros. unfold advanced. split_and!; done || lia. Qed.

Lemma advanced_trans o1 n1 o2 n2 o3 :
  advanced o1 n1 o2 -> advanced o2 n2 o3 -> advanced o1 (n1 + n2) o3.
Proof.
  intros (H1 & D1 & L1 & M1) (H2 & D2 & L2 & M2). split_and!; try lia.
  intros x Hx. rewrite M2, M1; [done|lia|lia].
Qed.

(** The typing of the arguments: each number fits its C type. *)
Definition sarg_ok (x : sarg) : Prop :=
  match x with
  | AChar _ | AStr _ => True
  | APtr n | AUint n => is_u32 n
  | AShort n | AInt n | AHex n => is_s32 n
  | AUshort n => is_u16 n
  end.

Lemma sprint_char_advanced o c :
  0 <= o_len o -> advanced o (fst (sprint_char o c)) (snd (sprint_char o c)).
Proof.
  intros Ho. unfold sprint_char. destruct (Z.leb_spec (o_len o) 0); [by apply advanced_refl|].
  cbn. split_and!; cbn; try lia. intros x Hx. unfold mupd. destruct (Z.eqb_spec x (o_dst o)); lia || done.
Qed.

Lemma sprint_str_loop_spec n m dst str i :
  let '(k, m') := sprint_str_loop n m dst str i in
  i <= k <= i + Z.of_nat n /\ forall x, x < dst + i \/ dst + k <= x -> m' x = m x.
Proof.
  revert m i. induction n as [|n IH]; intros m i; cbn [sprint_str_loop]; [split; [lia|done]|].
  destruct (m (str + i) =? 0); [split; [lia|done]|].
  specialize (IH (mupd m (dst + i) (m (str + i))) (i + 1)).
  destruct (sprint_str_loop _ _ _ _ _) as [k m']. destruct IH as [Hk Hm]. split; [lia|].
  intros x Hx. rewrite Hm by lia. unfold mupd. destruct (Z.eqb_spec x (dst + i)); lia || done.
Qed.

Lemma sprint_str_advanced o str :
  0 <= o_len o -> advanced o (fst (sprint_str o str)) (snd (sprint_str o str)).
Proof.
  intros Ho. unfold sprint_str. destruct (Z.leb_spec (o_len o) 0); [by apply advanced_refl|].
  pose proof (sprint_str_loop_spec (Z.to_nat (o_len o)) (o_mem o) (o_dst o) str 0) as H1.
  destruct (sprint_str_loop _ _ _ _ _) as [k m']. destruct H1 as [Hk Hm]. cbn.
  split_and!; cbn; try lia. intros x Hx. apply Hm. lia.
Qed.

(** The loop copies a string up to its end or to the room there is; it lies clear
    of the output. *)
Lemma sprint_str_loop_text s n m dst str i :
  (forall k c, s !! k = Some c -> c <> 0 /\ m (str + i + Z.of_nat k) = c) -> m (str + i + Z.of_nat (length s)) = 0 ->
  (forall k, (k <= length s)%nat -> ~ dst + i <= str + i + Z.of_nat k < dst + i + Z.of_nat n) ->
  let '(k, m') := sprint_str_loop n m dst str i in
  k = i + Z.of_nat (Nat.min n (length s)) /\
  forall x, m' x = if (dst + i <=? x) && (x <? dst + k) then nth (Z.to_nat (x - dst - i)) s 0 else m x.
Proof.
  revert s m i. induction n as [|n IH]; intros s m i Hs H0 Hd; cbn [sprint_str_loop Nat.min].
  { split; [lia|]. intros x. destruct (Z.leb_spec (dst + i) x), (Z.ltb_spec x (dst + i)); cbn; lia || done. }
  destruct s as [|c s].
  - cbn [length] in H0. rewrite Z.add_0_r in H0. rewrite H0. cbn. split; [lia|]. intros x.
    destruct (Z.leb_spec (dst + i) x), (Z.ltb_spec x (dst + i)); cbn; lia || done.
  - destruct (Hs 0%nat c eq_refl) as [Hc Ec]. rewrite Z.add_0_r in Ec. rewrite Ec.
    destruct (Z.eqb_spec c 0); [done|]. cbn [length] in *.
    assert (forall k, (k <= length s)%nat -> mupd m (dst + i) c (str + (i + 1) + Z.of_nat k) = m (str + i + Z.of_nat (S k))) as Hm.
    { intros k Hk. unfold mupd. specialize (Hd (S k)). destruct (Z.eqb_spec (str + (i + 1) + Z.of_nat k) (dst + i)); [lia|].
      f_equal. lia. }
    specialize (IH s (mupd m (dst + i) c) (i + 1)).
    destruct (sprint_str_loop n _ dst str (i + 1)) as [k m'] eqn:El.
    destruct IH as [Hk Hm'].
    { intros k' c' Hk'. rewrite Hm by (apply lookup_lt_Some in Hk'; lia). by apply (Hs (S k')). }
    { rewrite Hm by lia. rewrite <- H0. f_equal. }
    { intros k' Hk'. specialize (Hd (S k')). lia. }
    split; [lia|]. intros x. rewrite Hm'. unfold mupd.
    destruct (Z.leb_spec (dst + (i + 1)) x), (Z.leb_spec (dst + i) x), (Z.ltb_spec x (dst + k)), (Z.eqb_spec x (dst + i)); cbn [andb];
      try lia; try done.
    + replace (Z.to_nat (x - dst - i)) with (S (Z.to_nat (x - dst - (i + 1)))) by lia. done.
    + replace (Z.to_nat (x - dst - i)) with 0%nat by lia. done.
Qed.

(** Strings printed one after the other: what fits of their concatenation. *)
Definition clear_of (dst n : Z) (p : Z * list Z) : Prop :=
  forall k, (k <= length p.2)%nat -> ~ dst <= p.1 + Z.of_nat k < dst + n.

Lemma sprint_str_text o a s :
  str_at (o_mem o) a s -> clear_of (o_dst o) (o_len o) (a, s) -> 0 <= o_len o ->
  let n := Z.min (o_len o) (Z.of_nat (length s)) in
  exists m', sprint_str o a = (n, {| o_mem := m'; o_dst := o_dst o + n; o_len := o_len o - n |}) /\
    forall x, m' x = if (o_dst o <=? x) && (x <? o_dst o + n) then nth (Z.to_nat (x - o_dst o)) s 0 else o_mem o x.
Proof.
  intros [Hs H0] Hc Ho n. unfold sprint_str. destruct (Z.leb_spec (o_len o) 0).
  - destruct o as [m dst len]. cbn in *. assert (n = 0) as -> by lia. exists m. rewrite Z.add_0_r, Z.sub_0_r.
    split; [done|]. intros x. destruct (Z.leb_spec dst x), (Z.ltb_spec x dst); cbn; lia || done.
  - pose proof (sprint_str_loop_text s (Z.to_nat (o_len o)) (o_mem o) (o_dst o) a 0) as H1. rewrite !Z.add_0_r in H1.
    specialize (H1 Hs H0). destruct (sprint_str_loop _ _ _ _ _) as [k m'].
    destruct H1 as [Hk Hm]; [intros k' Hk'; specialize (Hc k' Hk'); cbn in Hc; lia|].
    assert (k = n) as -> by lia. exists m'. split; [done|]. intros x. rewrite Hm, Z.sub_0_r. done.
Qed.

Lemma sprint_strs ss o :
  Forall (fun p => str_at (o_mem o) p.1 p.2 /\ clear_of (o_dst o) (o_len o) p) ss -> 0 <= o_len o ->
  let s := concat (map snd ss) in
  let n := Z.min (o_len o) (Z.of_nat (length s)) in
  exists m', sprint o (map (fun p => AStr p.1) ss) = Some (n, {| o_mem := m'; o_dst := o_dst o + n; o_len := o_len o - n |}) /\
    forall x, m' x = if (o_dst o <=? x) && (x <? o_dst o + n) then nth (Z.to_nat (x - o_dst o)) s 0 else o_mem o x.
Proof.
  revert o. induction ss as [|[a s] ss IH]; intros o Hss Ho s0 n; cbn [map concat sprint] in *.
  - assert (n = 0) as -> by (subst s0; cbn in *; lia). destruct o as [m dst len]. cbn. exists m. rewrite Z.add_0_r, Z.sub_0_r.
    split; [done|]. intros x. destruct (Z.leb_spec dst x), (Z.ltb_spec x dst); cbn; lia || done.
  - apply Forall_cons in Hss as [[H1 H2] Hss]. cbn [sprint_arg fst snd].
    destruct (sprint_str_text o a s H1 H2 Ho) as (m1 & E1 & Hm1). cbn [fst snd] in *.
    set (n1 := Z.min (o_len o) (Z.of_nat (length s))) in *. rewrite E1. cbn [mbind option_bind].
    destruct (IH {| o_mem := m1; o_dst := o_dst o + n1; o_len := o_len o - n1 |}) as (m2 & E2 & Hm2); cbn [o_mem o_dst o_len].
    { eapply Forall_impl; [exact Hss|]. intros [b t] [[Hb Hb0] Hcl]. cbn [fst snd] in *.
      assert (forall k, (k <= length t)%nat -> m1 (b + Z.of_nat k) = o_mem o (b + Z.of_nat k)) as Hsame.
      { intros k Hk. rewrite Hm1. specialize (Hcl k Hk). cbn in Hcl.
        destruct (Z.leb_spec (o_dst o) (b + Z.of_nat k)), (Z.ltb_spec (b + Z.of_nat k) (o_dst o + n1)); cbn; lia || done. }
      split; [split|].
      - intros k c Hk. rewrite Hsame by (apply lookup_lt_Some in Hk; lia). by apply Hb.
      - by rewrite Hsame by lia.
      - intros k Hk. specialize (Hcl k Hk). cbn in *. lia. }
    { lia. }
    cbn [o_mem o_dst o_len] in *. rewrite E2. cbn [mbind option_bind].
    set (s2 := concat (map snd ss)) in *. set (n2 := Z.min (o_len o - n1) (Z.of_nat (length s2))) in *.
    assert (n1 + n2 = n) as En by (unfold n, s0, n2, n1; rewrite length_app; lia).
    exists m2. split; [by rewrite <- En, Z.add_assoc, Z.sub_add_distr|]. intros x. rewrite Hm2, Hm1.
    destruct (Z.leb_spec (o_dst o + n1) x), (Z.leb_spec (o_dst o) x), (Z.ltb_spec x (o_dst o + n1 + n2)),
      (Z.ltb_spec x (o_dst o + n1)), (Z.ltb_spec x (o_dst o + n)); cbn [andb]; try lia; try done; subst s0.
    + rewrite app_nth2 by lia. f_equal. lia.
    + rewrite app_nth1 by lia. done.
Qed.

(** The value of a digit character, and of digits read from the last one. *)
Definition digit_val (c : Z) : Z := if c <? 58 then c - 48 else c - 55.

Definition lsd_value (radix : Z) (ds : list Z) : Z :=
  foldr (fun c acc => digit_val c + radix * acc) 0 ds.

(** Reading a printed number back. *)
Definition parse_radix (radix : Z) (l : list Z) : Z :=
  fold_left (fun acc c => acc * radix + digit_val c) l 0.

Lemma parse_radix_rev radix ds : parse_radix radix (rev ds) = lsd_value radix ds.
Proof.
  unfold parse_radix, lsd_value. rewrite <- fold_left_rev_right, rev_involutive.
  induction ds as [|d ds IH]; cbn; [done|]. rewrite IH. lia.
Qed.

Lemma radix_digit d : 0 <= d < 16 -> exists c, arr_get radix_digits d = Some c /\ digit_val c = d.
Proof.
  intros Hd. assert (E : forallb (fun d => match arr_get radix_digits d with
    | Some c => digit_val c =? d | None => false end) (seqZ 0 16) = true) by (vm_compute; reflexivity).
  pose proof (seqZ_forallb _ _ _ E d ltac:(lia)) as E'. cbv beta in E'.
  destruct (arr_get radix_digits d) as [c|]; [|done]. exists c. split; [done|]. by apply Z.eqb_eq.
Qed.

(** The digit loop: it ends within [k] rounds when [num < radix ^ k], and the
    digits stored from position [d] on are those of [num]. *)
Lemma radix_loop_spec fuel k num radix tmp d :
  2 <= radix <= 16 -> 0 <= num < radix ^ Z.of_nat k -> (0 < k)%nat -> (k <= fuel)%nat ->
  length tmp = 32%nat -> 0 <= d -> d + Z.of_nat k <= 32 ->
  exists tmp' ds, radix_loop fuel num radix tmp d = Some (tmp', d + Z.of_nat (length ds)) /\
    (0 < length ds <= k)%nat /\ lsd_value radix ds = num /\ length tmp' = 32%nat /\
    (forall j c, ds !! j = Some c -> arr_get tmp' (d + Z.of_nat j) = Some c) /\
    (forall j, j < d -> arr_get tmp' j = arr_get tmp j).
Proof.
  intros Hr. revert k num tmp d. induction fuel as [|fuel IH]; intros k num tmp d Hnum Hk Hf Hlen Hd Hdk; [lia|].
  destruct k as [|k]; [lia|]. cbn [radix_loop].
  destruct (radix_digit (num mod radix)) as (c & -> & Hc).
  { pose proof (Z.mod_pos_bound num radix). lia. }
  cbn [mbind option_bind]. rewrite arr_set_Some by lia. cbn [mbind option_bind].
  set (tmp1 := <[Z.to_nat d:=c]> tmp).
  assert (Hset : arr_set tmp d c = Some tmp1) by (apply arr_set_Some; lia).
  assert (Hlen1 : length tmp1 = 32%nat) by (unfold tmp1; by rewrite length_insert).
  pose proof (Z.div_mod num radix ltac:(lia)) as Hdm.
  destruct (Z.eqb_spec (num / radix) 0) as [E0|Hne]; cbn [negb].
  - exists tmp1, [c]. cbn [length lsd_value foldr]. split_and!; try lia; try done.
    + intros j c' Hj. destruct j as [|j]; [|done]. simplify_eq/=. rewrite Z.add_0_r.
      rewrite (arr_get_set _ _ _ _ _ Hset). by rewrite decide_True.
    + intros j Hj. rewrite (arr_get_set _ _ _ _ _ Hset). rewrite decide_False; [done|lia].
  - assert (0 < num / radix < radix ^ Z.of_nat k) as Hq.
    { split; [pose proof (Z.div_pos num radix); lia|].
      apply Z.div_lt_upper_bound; [lia|]. rewrite Nat2Z.inj_succ, Z.pow_succ_r in Hnum by lia. lia. }
    assert (0 < k)%nat as Hk0 by (destruct k; [cbn in Hq; lia|lia]).
    destruct (IH k (num / radix) tmp1 (d + 1)) as (tmp' & ds & -> & Hds & Hv & Hl & Hget & Hlow); try lia; try done.
    exists tmp', (c :: ds). cbn [length lsd_value foldr].
    split_and!; try lia; try done.
    + do 2 f_equal. lia.
    + fold (lsd_value radix ds). lia.
    + intros [|j] c' Hj; simplify_eq/=.
      * rewrite Z.add_0_r, Hlow, (arr_get_set _ _ _ _ _ Hset) by lia. by rewrite decide_True.
      * rewrite <- (Hget j c' Hj). f_equal. lia.
    + intros j Hj. rewrite Hlow, (arr_get_set _ _ _ _ _ Hset) by lia. rewrite decide_False; [done|lia].
Qed.

(** The characters at [dst .. dst + n - 1]. *)
Definition text (m : mem) (dst n : Z) : list Z := (fun i => m (dst + i)) <$> seqZ 0 n.

(** What was printed, read back from the buffer once it is terminated. *)
Lemma text_printed m m1 buf s :
  (forall x, m1 x = if (buf <=? x) && (x <? buf + Z.of_nat (length s)) then nth (Z.to_nat (x - buf)) s 0 else m x) ->
  text (mupd m1 (buf + Z.of_nat (length s)) 0) buf (Z.of_nat (length s)) = s.
Proof.
  intros Hm. apply list_eq_same_length with (length s); [done|unfold text; by rewrite length_fmap, length_seqZ, Nat2Z.id|].
  intros i x y Hi Hx Hy. unfold text in Hx. rewrite list_lookup_fmap, lookup_seqZ_lt in Hx by lia.
  cbn in Hx. injection Hx as <-. unfold mupd. rewrite Hm, !Z.add_0_l.
  destruct (Z.eqb_spec (buf + Z.of_nat i) (buf + Z.of_nat (length s))); [lia|].
  destruct (Z.leb_spec buf (buf + Z.of_nat i)), (Z.ltb_spec (buf + Z.of_nat i) (buf + Z.of_nat (length s))); try lia.
  cbn [andb]. replace (Z.to_nat (buf + Z.of_nat i - buf)) with i by lia. by apply nth_lookup_Some.
Qed.

(** [sprint_radix] on a buffer with room: what it prints is the digits, most
    significant first; without room, the digits that fit are the last ones. *)
Lemma sprint_radix_spec o num radix :
  2 <= radix <= 16 -> is_u32 num -> 0 < o_len o ->
  exists ds o', sprint_radix o num radix = Some (Z.min (o_len o) (Z.of_nat (length ds)), o') /\
    (0 < length ds <= 32)%nat /\ lsd_value radix ds = num /\
    advanced o (Z.min (o_len o) (Z.of_nat (length ds))) o' /\
    (Z.of_nat (length ds) <= o_len o -> text (o_mem o') (o_dst o) (Z.of_nat (length ds)) = rev ds).
Proof.
  intros Hr Hnum Ho. unfold sprint_radix. destruct (Z.leb_spec (o_len o) 0); [lia|].
  destruct (radix_loop_spec 33 32 num radix (replicate 32 0) 0) as (tmp & ds & -> & Hds & Hv & Hlen & Hget & _);
    try done; try lia.
  { unfold is_u32 in Hnum. pose proof (Z.pow_le_mono_l 2 radix 32). change (2 ^ 32) with 4294967296 in *.
    change (Z.of_nat 32) with 32. lia. }
  cbn [mbind option_bind]. rewrite Z.add_0_l.
  replace (if o_len o <? Z.of_nat (length ds) then o_len o else Z.of_nat (length ds))
    with (Z.min (o_len o) (Z.of_nat (length ds))) by (destruct (Z.ltb_spec (o_len o) (Z.of_nat (length ds))); lia).
  set (n := Z.min (o_len o) (Z.of_nat (length ds))).
  destruct (for_each_inv (fun j (m : mem) => forall x, (x < o_dst o \/ o_dst o + j <= x -> m x = o_mem o x) /\
      (o_dst o <= x < o_dst o + j -> ds !! Z.to_nat (n - (x - o_dst o) - 1) = Some (m x)))
    (Z.to_nat n) 0 (fun i m => c ← arr_get tmp (n - i - 1); Some (mupd m (o_dst o + i) c)) (o_mem o))
    as (m' & -> & Hm').
  { intros x. split; [done|lia]. }
  { intros j m Hj Hm. destruct (lookup_lt_is_Some_2 ds (Z.to_nat (n - j - 1))) as [c Hc]; [lia|].
    pose proof (Hget _ _ Hc) as Hg. rewrite Z.add_0_l, Z2Nat.id in Hg by lia. rewrite Hg. cbn.
    eexists. split; [done|]. intros x. unfold mupd. destruct (Z.eqb_spec x (o_dst o + j)) as [->|]; split; intros Hx.
    - lia.
    - rewrite <- Hc. f_equal. lia.
    - apply Hm. lia.
    - apply Hm. lia. }
  cbn [mbind option_bind]. rewrite Z2Nat.id, Z.add_0_l in Hm' by lia.
  exists ds. eexists. split; [done|]. split; [lia|]. split; [done|]. split.
  - split_and!; cbn; try lia. intros x Hx. apply Hm'. lia.
  - intros Hfit. cbn. unfold text. apply list_eq_same_length with (length ds).
    { by rewrite length_rev. } { rewrite length_fmap, length_seqZ. lia. }
    intros i x y Hi Hx Hy. rewrite list_lookup_fmap, lookup_seqZ_lt in Hx by lia. simplify_eq/=.
    destruct (Hm' (o_dst o + (0 + Z.of_nat i))) as [_ Hin]. specialize (Hin ltac:(lia)).
    rewrite rev_alt in Hy. change (rev_append ds []) with (reverse ds) in Hy.
    rewrite reverse_lookup in Hy by done.
    replace (Z.to_nat (n - (o_dst o + (0 + Z.of_nat i) - o_dst o) - 1)) with (length ds - S i)%nat in Hin by lia.
    rewrite Z.add_0_l in *. congruence.
Qed.

(** C39: a number printed in base 10 or 16 (any base from 2 to 16) into a buffer
    with room for it reads back as the same number. *)
Theorem sprint_radix_parse o num radix :
  2 <= radix <= 16 -> is_u32 num -> 32 <= o_len o ->
  exists n o', sprint_radix o num radix = Some (n, o') /\
    parse_radix radix (text (o_mem o') (o_dst o) n) = num.
Proof.
  intros Hr Hnum Ho. destruct (sprint_radix_spec o num radix) as (ds & o' & E & Hds & Hv & _ & Ht);
    [done|done|lia|].
  exists (Z.min (o_len o) (Z.of_nat (length ds))), o'. split; [done|].
  rewrite Z.min_r, Ht, parse_radix_rev by lia. done.
Qed.

Definition empty_out : out := {| o_mem := fun _ => 0; o_dst := 0x100; o_len := 64 |}.

Lemma sprint_radix_parse_witness :
  exists n o', sprint_radix empty_out 0xDEADBEEF 16 = Some (n, o') /\
    text (o_mem o') 0x100 n = [68; 69; 65; 68; 66; 69; 69; 70] /\
    parse_radix 16 (text (o_mem o') (o_dst empty_out) n) = 0xDEADBEEF.
Proof.
  destruct (sprint_radix_parse empty_out 0xDEADBEEF 16) as (n & o' & E & H);
    [lia|unfold is_u32; lia|cbn; lia|].
  exists n, o'. split; [exact E|]. split; [|exact H].
  vm_compute in E. injection E as <- <-. reflexivity.
Defined.

Lemma sprint_radix_advanced o num radix :
  2 <= radix <= 16 -> is_u32 num -> 0 <= o_len o ->
  exists n o', sprint_radix o num radix = Some (n, o') /\ advanced o n o'.
Proof.
  intros Hr Hn Ho. destruct (Z.eq_dec (o_len o) 0) as [E|].
  - exists 0, o. unfold sprint_radix. rewrite E. split; [done|by apply advanced_refl].
  - destruct (sprint_radix_spec o num radix) as (ds & o' & E & _ & _ & Ha & _); [done|done|lia|]. eauto.
Qed.

Lemma sprint_arg_advanced o x :
  sarg_ok x -> 0 <= o_len o -> exists n o', sprint_arg o x = Some (n, o') /\ advanced o n o'.
Proof.
  intros Hx Ho. destruct x as [c|s|p|n|n|n|n|n]; cbn in Hx |- *.
  - eexists _, _. split; [f_equal; apply surjective_pairing|by apply sprint_char_advanced].
  - eexists _, _. split; [f_equal; apply surjective_pairing|by apply sprint_str_advanced].
  - apply sprint_radix_advanced; done || lia.
  - apply sprint_radix_advanced; done || lia.
  - apply sprint_radix_advanced; [lia|apply u32_range|done].
  - apply sprint_radix_advanced; [lia|unfold is_u16, is_u32 in *; lia|done].
  - unfold sprint_int. destruct (Z.ltb_spec n 0).
    + pose proof (sprint_char_advanced o 45 Ho) as H1. destruct (sprint_char o 45) as [p o1]. cbn in H1.
      destruct (sprint_radix_advanced o1 (u32 (s32 (- n))) 10) as (k & o2 & E & H2);
        [lia|apply u32_range|destruct H1; lia|].
      unfold sprint_dec. rewrite E. cbn. eexists _, _. split; [done|by eapply advanced_trans].
    + apply sprint_radix_advanced; [lia|apply u32_range|done].
  - unfold sprint_hexarg. destruct (Z.leb_spec (o_len o) 0).
    { exists 0, o. split; [done|by apply advanced_refl]. }
    pose proof (sprint_char_advanced o 48 Ho) as H1. destruct (sprint_char o 48) as [p0 o1]. cbn in H1.
    pose proof (sprint_char_advanced o1 120 ltac:(destruct H1; lia)) as H2.
    destruct (sprint_char o1 120) as [p1 o2]. cbn in H2.
    destruct (sprint_radix_advanced o2 (u32 n) 16) as (k & o3 & E & H3);
      [lia|apply u32_range|destruct H2; lia|].
    unfold sprint_hex. rewrite E. cbn. eexists _, _. split; [done|].
    eauto using advanced_trans.
Qed.

Lemma sprint_advanced args o :
  Forall sarg_ok args -> 0 <= o_len o ->
  exists n o', sprint o args = Some (n, o') /\ advanced o n o'.
Proof.
  intros Hargs. revert o. induction Hargs as [|x args Hx _ IH]; intros o Ho; cbn [sprint].
  { exists 0, o. split; [done|by apply advanced_refl]. }
  destruct (sprint_arg_advanced o x Hx Ho) as (n1 & o1 & -> & H1). cbn.
  destruct (IH o1) as (n2 & o2 & -> & H2); [destruct H1; lia|]. cbn.
  eexists _, _. split; [done|by eapply advanced_trans].
Qed.

(** [sprint], on any arguments of its overloads, returns the number of
    characters it printed, which is at most [len], moves the cursor by as many,
    and changes no byte outside the buffer. *)
Theorem sprint_bounds o args :
  Forall sarg_ok args -> 0 <= o_len o ->
  exists n o', sprint o args = Some (n, o') /\ advanced o n o'.
Proof. apply sprint_advanced. Qed.

Lemma sprint_bounds_witness :
  Forall sarg_ok [AStr 16; AInt (-2147483648); AHex (-1)] /\
  exists n o', sprint {| o_mem := two_names; o_dst := 0x100; o_len := 20 |}
      [AStr 16; AInt (-2147483648); AHex (-1)] = Some (n, o') /\ n = 20 /\
    advanced {| o_mem := two_names; o_dst := 0x100; o_len := 20 |} n o'.
Proof.
  assert (H : Forall sarg_ok [AStr 16; AInt (-2147483648); AHex (-1)]).
  { repeat constructor; cbn; lia. }
  split; [exact H|].
  destruct (sprint_bounds {| o_mem := two_names; o_dst := 0x100; o_len := 20 |} _ H) as (n & o' & E & Ha);
    [cbn; lia|].
  exists n, o'. split; [exact E|]. split; [|exact Ha].
  vm_compute in E. injection E as <- _. reflexivity.
Defined.

(** [kprint] is safe except on a text of 64 characters or more: the store
    of the terminator falls outside [print_buffer] exactly when [sprint] fills the
    whole buffer, and in every other case [kprint] returns. *)
Theorem kprint_overflow {F} (write : F -> mem -> Z -> Z -> Z * F) f m buf args :
  Forall sarg_ok args ->
  (kprint write f m buf args = None <->
   exists o', sprint {| o_mem := m; o_dst := buf; o_len := MAX_PRINT_CHARS |} args
     = Some (MAX_PRINT_CHARS, o')).
Proof.
  intros Hargs.
  destruct (sprint_advanced args {| o_mem := m; o_dst := buf; o_len := MAX_PRINT_CHARS |} Hargs)
    as (n & o' & E & (Hn & _)); [cbn; unfold MAX_PRINT_CHARS; lia|].
  unfold kprint. rewrite E. cbn -[Z.leb Z.ltb] in *.
  destruct (Z.leb_spec 0 n); [|lia]. destruct (Z.ltb_spec n MAX_PRINT_CHARS); cbn.
  - split; [|intros (o & ?); simplify_eq; lia].
    destruct (0 <? n); [|done]. by destruct (write f (mupd (o_mem o') (buf + n) 0) buf n).
  - split; [|done]. intros _. exists o'. repeat f_equal. lia.
Qed.

(** A message of 64 letters, as the kernel's [debug] calls may print. *)
Definition long_line : mem := mem_of 0x1000 (replicate 64 65 ++ [0]).

Lemma kprint_overflow_witness :
  Forall sarg_ok [AStr 0x1000] /\
  kprint (fun (f : unit) _ _ len => (len, f)) tt long_line 0x2000 [AStr 0x1000] = None.
Proof.
  assert (H : Forall sarg_ok [AStr 0x1000]) by (repeat constructor).
  split; [exact H|].
  apply (kprint_overflow (fun (f : unit) _ _ len => (len, f)) tt long_line 0x2000 _ H).
  eexists. vm_compute. reflexivity.
Defined.
