(* ===== verification/Queue.v ===== *)
(** * Message queues: [src/include/std/queue.h]

    [MsgQueue] is the queue of a user process, [SharedQueue] the ring shared by
    interrupt handlers (producers) and a kernel worker (consumer).  The indices
    are [ushort]s that wrap; a difference of two of them is an [int], which the
    source then stores in a [uint].  Every shared access of [SharedQueue] that
    may be interrupted is a step of its own ([enq_step], [con_step]). *)
From S2P Require Import Prelude BitOps.

Definition MAX_RACE_TRIES : Z := 10.

Record Message := { msg_id : Z; msg_data : Z }.

Record QueueRange := { qr_head : Z; qr_tail : Z }.

(** The union: [head] is the low half of [ival]. *)
Definition ival (q : QueueRange) : Z := qr_head q + 65536 * qr_tail q.
Definition of_ival (i : Z) : QueueRange := {| qr_head := u16 i; qr_tail := u16 (Z.shiftr i 16) |}.

(** [tail - head] promotes both to [int] and converts the result to [uint]. *)
Definition qr_size (q : QueueRange) : Z := u32 (qr_tail q - qr_head q).

Definition set_head (q : QueueRange) (h : Z) : QueueRange := {| qr_head := u16 h; qr_tail := qr_tail q |}.
Definition set_tail (q : QueueRange) (t : Z) : QueueRange := {| qr_head := qr_head q; qr_tail := u16 t |}.

Definition qr_zero : QueueRange := {| qr_head := 0; qr_tail := 0 |}.

(** ** MsgQueue *)

Record MsgQueue := {
  mq_max_size : Z;
  mq_locked : QueueRange;
  mq_safe : QueueRange;
  mq_queue : list Message
}.

(** The constructor; the array keeps whatever the memory held. *)
Definition new_MsgQueue (N : Z) (memory : list Message) : MsgQueue :=
  {| mq_max_size := N; mq_locked := qr_zero; mq_safe := qr_zero; mq_queue := memory |}.

Definition mq_get (q : MsgQueue) (i : Z) : option Message :=
  arr_get (mq_queue q) (u32 i mod mq_max_size q).

Definition mq_size (q : MsgQueue) : Z := qr_size (mq_safe q).

Definition mq_enqueue (q : MsgQueue) (msg : Message) : option MsgQueue :=
  let tail := qr_tail (mq_locked q) mod mq_max_size q in
  l ← arr_set (mq_queue q) tail msg;
  let locked := set_tail (mq_locked q) (qr_tail (mq_locked q) + 1) in
  Some {| mq_max_size := mq_max_size q; mq_locked := locked;
          mq_safe := set_tail (mq_safe q) (qr_tail locked); mq_queue := l |}.

Definition mq_dequeue (q : MsgQueue) (num : Z) : QueueRange * MsgQueue :=
  if qr_size (mq_safe q) =? 0 then (qr_zero, q) else
  let my_num := if qr_size (mq_safe q) <? num then qr_size (mq_safe q) else num in
  let old_head := qr_head (mq_safe q) in
  let safe := set_head (mq_safe q) (qr_head (mq_safe q) + my_num) in
  ({| qr_head := old_head; qr_tail := qr_head safe |},
   {| mq_max_size := mq_max_size q; mq_locked := mq_locked q; mq_safe := safe; mq_queue := mq_queue q |}).

Definition mq_release (q : MsgQueue) (num : Z) : MsgQueue :=
  if u32 (qr_head (mq_safe q) - qr_head (mq_locked q)) <? num then q else
  {| mq_max_size := mq_max_size q;
     mq_locked := set_head (mq_locked q) (qr_head (mq_locked q) + num);
     mq_safe := mq_safe q; mq_queue := mq_queue q |}.

(** ** SharedQueue

    An element type whose first [int] is the mark of a written slot. *)
Class Slot (T : Type) := {
  slot_mark : T -> Z;
  slot_clear : T -> T;
  slot_mark_clear x : slot_mark (slot_clear x) = 0
}.

#[export, refine]
Instance Message_Slot : Slot Message := {
  slot_mark := msg_id;
  slot_clear := fun m => {| msg_id := 0; msg_data := msg_data m |}
}.
Proof. done. Defined.

Record SharedQueue (T : Type) := {
  sq_max_size : Z;
  q_locked : QueueRange;
  q_safe : QueueRange;
  safe_tail_mtx : Z;
  locked_head_mtx : Z;
  sq_queue : list T
}.
Arguments sq_max_size {T}. Arguments q_locked {T}. Arguments q_safe {T}.
Arguments safe_tail_mtx {T}. Arguments locked_head_mtx {T}. Arguments sq_queue {T}.

Section shared.
Context {T : Type} `{Slot T}.
Implicit Types (q : SharedQueue T).

Definition with_locked q (r : QueueRange) : SharedQueue T :=
  {| sq_max_size := sq_max_size q; q_locked := r; q_safe := q_safe q;
     safe_tail_mtx := safe_tail_mtx q; locked_head_mtx := locked_head_mtx q; sq_queue := sq_queue q |}.
Definition with_safe q (r : QueueRange) : SharedQueue T :=
  {| sq_max_size := sq_max_size q; q_locked := q_locked q; q_safe := r;
     safe_tail_mtx := safe_tail_mtx q; locked_head_mtx := locked_head_mtx q; sq_queue := sq_queue q |}.
Definition with_mtx q (s l : Z) : SharedQueue T :=
  {| sq_max_size := sq_max_size q; q_locked := q_locked q; q_safe := q_safe q;
     safe_tail_mtx := s; locked_head_mtx := l; sq_queue := sq_queue q |}.
Definition with_queue q (l : list T) : SharedQueue T :=
  {| sq_max_size := sq_max_size q; q_locked := q_locked q; q_safe := q_safe q;
     safe_tail_mtx := safe_tail_mtx q; locked_head_mtx := locked_head_mtx q; sq_queue := l |}.

(** [queue[i % max_size]]. *)
Definition sq_get q (i : Z) : option T := arr_get (sq_queue q) (u32 i mod sq_max_size q).

Definition sq_put q (i : Z) (x : T) : option (SharedQueue T) :=
  l ← arr_set (sq_queue q) (u32 i mod sq_max_size q) x; Some (with_queue q l).

(** [*(int * ) &queue[i % max_size]] and its store of 0. *)
Definition slot_free q (i : Z) : option bool :=
  x ← sq_get q i; Some (slot_mark x =? 0).

Definition free_slot (i : Z) q : option (SharedQueue T) :=
  x ← sq_get q i; sq_put q i (slot_clear x).

Definition sq_release q (r : QueueRange) : option (SharedQueue T) :=
  for_each (Z.to_nat (qr_tail r - qr_head r)) (qr_head r) free_slot q.

(** The constructor; [release({0, 0})] runs no iteration, so the slots keep what
    the memory held. *)
Definition new_SharedQueue (N : Z) (memory : list T) : option (SharedQueue T) :=
  sq_release {| sq_max_size := N; q_locked := qr_zero; q_safe := qr_zero;
                safe_tail_mtx := 0; locked_head_mtx := 0; sq_queue := memory |} qr_zero.

(** [size()] *)
Definition sq_size q : Z := qr_size (q_safe q).

(** *** Producers: [enqueue] *)

Inductive enq_pc :=
  | EnqTry (i : Z)                       (** at the head of iteration [i] *)
  | EnqCas (i : Z) (q_tmp : QueueRange)  (** about to compare-and-swap *)
  | EnqStore (my_index : Z)              (** about to store in its slot *)
  | EnqDone (ret : Z).

Record producer := { p_msg : T; p_pc : enq_pc }.

Definition p_goto (p : producer) (pc : enq_pc) : producer := {| p_msg := p_msg p; p_pc := pc |}.

(** One uninterruptible step of [enqueue(msg)]. *)
Definition enq_step q (p : producer) : option (SharedQueue T * producer) :=
  match p_pc p with
  | EnqTry i =>
      if negb (i <? MAX_RACE_TRIES) then Some (q, p_goto p (EnqDone (-1))) else
      (* snapshot of the locked range *)
      let q_tmp := q_locked q in
      let my_length := qr_size q_tmp in
      if sq_max_size q <? my_length +w 1 then Some (q, p_goto p (EnqDone (-1)))
      else Some (q, p_goto p (EnqCas i q_tmp))
  | EnqCas i q_tmp =>
      let q_new := set_tail q_tmp (qr_tail q_tmp + 1) in
      let '(found, now) := val_compare_and_swap (ival (q_locked q)) (ival q_tmp) (ival q_new) in
      let q := with_locked q (of_ival now) in
      if ival q_tmp =? found then Some (q, p_goto p (EnqStore (qr_tail q_tmp)))
      else Some (q, p_goto p (EnqTry (i + 1)))
  | EnqStore my_index =>
      q ← sq_put q my_index (p_msg p);
      Some (q, p_goto p (EnqDone my_index))
  | EnqDone ret => Some (q, p)
  end.

Fixpoint enq_run (fuel : nat) q (p : producer) : option (SharedQueue T * producer) :=
  match fuel with
  | O => Some (q, p)
  | S n => '(q, p) ← enq_step q p; enq_run n q p
  end.

(** A call nobody interrupts: its result and the queue. *)
Definition sq_enqueue q (msg : T) : option (Z * SharedQueue T) :=
  '(q, p) ← enq_run 32 q {| p_msg := msg; p_pc := EnqTry 0 |};
  match p_pc p with EnqDone ret => Some (ret, q) | _ => None end.

(** *** The consumer *)

(** The loop of [gather_new_data]: [new_found] and the queue, until a free slot. *)
Definition gather_round (s : Z * SharedQueue T) : Z * SharedQueue T + option (Z * SharedQueue T) :=
  let '(new_found, q) := s in
  match slot_free q (qr_tail (q_safe q)) with
  | None => inr None
  | Some true => inr (Some (new_found, q))
  | Some false => inl (new_found + 1, with_safe q (set_tail (q_safe q) (qr_tail (q_safe q) + 1)))
  end.

Definition gather_new_data q : option (Z * SharedQueue T) :=
  let my_tail_mtx := safe_tail_mtx q in
  let q := with_mtx q 1 (locked_head_mtx q) in
  if my_tail_mtx =? 0 then
    let q_size := qr_tail (q_locked q) - qr_tail (q_safe q) in
    '(new_found, q) ← match iter_until gather_round (u32 q_size) (0, q) with
      | inl s => Some s
      | inr r => r
      end;
    Some (new_found, with_mtx q 0 (locked_head_mtx q))
  else Some (0, q).

(** The loop of [dequeue(num)]. *)
Fixpoint dequeue_tries (n : nat) q (q_tmp : QueueRange) (num : Z) : QueueRange * SharedQueue T :=
  match n with
  | O => (qr_zero, q)
  | S n =>
      let my_length := qr_size q_tmp in
      if my_length <=? 0 then (qr_zero, q) else
      let num := if my_length <? num then my_length else num in
      let q_new := set_head q_tmp (qr_head q_tmp + num) in
      let q_old := q_tmp in
      let '(found, now) := val_compare_and_swap (ival (q_safe q)) (ival q_tmp) (ival q_new) in
      let q := with_safe q (of_ival now) in
      let q_tmp := of_ival found in
      if ival q_old =? ival q_tmp
      then ({| qr_head := qr_head q_tmp; qr_tail := qr_head q_new |}, q)
      else dequeue_tries n q q_tmp num
  end.

Definition sq_dequeue q (num : Z) : QueueRange * SharedQueue T :=
  dequeue_tries (Z.to_nat MAX_RACE_TRIES) q (q_safe q) num.

(** The loop of [garbage_collect]. *)
Fixpoint gc_loop (n : nat) q : option (SharedQueue T) :=
  match n with
  | O => Some q
  | S n =>
      free ← slot_free q (qr_head (q_locked q));
      if negb free then Some q
      else gc_loop n (with_locked q (set_head (q_locked q) (qr_head (q_locked q) + 1)))
  end.

Definition garbage_collect q : option (Z * SharedQueue T) :=
  let my_head_mtx := locked_head_mtx q in
  let q := with_mtx q (safe_tail_mtx q) 1 in
  if my_head_mtx =? 0 then
    let q_size := qr_head (q_safe q) - qr_head (q_locked q) in
    q ← gc_loop (Z.to_nat q_size) q;
    Some (1, with_mtx q (safe_tail_mtx q) 0)
  else Some (0, q).

(** *** The consumer's steps

    The round of a worker ([events.cpp]): gather, dequeue, read each message,
    release, collect; [dequeue] only touches [q_safe], which no producer writes,
    and is one step. *)
Inductive con_pc :=
  | ConIdle
  | ConGather (new_found q_size : Z)
  | ConDequeue
  | ConRead (i : Z) (qr : QueueRange)
  | ConRelease (i : Z) (qr : QueueRange)
  | ConCollect (i q_size : Z).

(** One uninterruptible step: the queue, the next point and what was read. *)
Definition con_step (num : Z) q (pc : con_pc) : option (SharedQueue T * con_pc * list T) :=
  match pc with
  | ConIdle =>
      let my_tail_mtx := safe_tail_mtx q in
      let q := with_mtx q 1 (locked_head_mtx q) in
      if my_tail_mtx =? 0
      then Some (q, ConGather 0 (u32 (qr_tail (q_locked q) - qr_tail (q_safe q))), [])
      else Some (q, ConDequeue, [])
  | ConGather new_found q_size =>
      let finish := (with_mtx q 0 (locked_head_mtx q), ConDequeue, []) in
      if new_found <? q_size then
        free ← slot_free q (qr_tail (q_safe q));
        if (free : bool) then Some finish
        else Some (with_safe q (set_tail (q_safe q) (qr_tail (q_safe q) + 1)), ConGather (new_found + 1) q_size, [])
      else Some finish
  | ConDequeue =>
      let '(qr, q) := sq_dequeue q num in Some (q, ConRead (qr_head qr) qr, [])
  | ConRead i qr =>
      if i <? qr_tail qr then x ← sq_get q i; Some (q, ConRead (i + 1) qr, [x])
      else Some (q, ConRelease (qr_head qr) qr, [])
  | ConRelease i qr =>
      if i <? qr_tail qr then q ← free_slot i q; Some (q, ConRelease (i + 1) qr, [])
      else
        let my_head_mtx := locked_head_mtx q in
        let q := with_mtx q (safe_tail_mtx q) 1 in
        if my_head_mtx =? 0
        then Some (q, ConCollect 0 (qr_head (q_safe q) - qr_head (q_locked q)), [])
        else Some (q, ConIdle, [])
  | ConCollect i q_size =>
      let finish := (with_mtx q (safe_tail_mtx q) 0, ConIdle, []) in
      if i <? q_size then
        free ← slot_free q (qr_head (q_locked q));
        if negb free then Some finish
        else Some (with_locked q (set_head (q_locked q) (qr_head (q_locked q) + 1)), ConCollect (i + 1) q_size, [])
      else Some finish
  end.

(** Any number of producers and one consumer.  [s_log] lists the messages in the
    order in which their producers won the compare-and-swap, [s_seen] what the
    consumer read. *)
Record system := {
  s_queue : SharedQueue T;
  s_producers : list producer;
  s_consumer : con_pc;
  s_log : list T;
  s_seen : list T
}.

(** The message whose index the step from [p] to [p'] reserves. *)
Definition newly_reserved (p p' : producer) : list T :=
  match p_pc p, p_pc p' with EnqCas _ _, EnqStore _ => [p_msg p] | _, _ => [] end.

Definition system_step (num : Z) (actor : option nat) (s : system) : option system :=
  match actor with
  | Some k =>
      p ← s_producers s !! k;
      '(q, p') ← enq_step (s_queue s) p;
      Some {| s_queue := q; s_producers := <[k := p']> (s_producers s); s_consumer := s_consumer s;
              s_log := s_log s ++ newly_reserved p p'; s_seen := s_seen s |}
  | None =>
      '(q, pc, read) ← con_step num (s_queue s) (s_consumer s);
      Some {| s_queue := q; s_producers := s_producers s; s_consumer := pc;
              s_log := s_log s; s_seen := s_seen s ++ read |}
  end.

(** A schedule names the actor of each step. *)
Fixpoint run_schedule (num : Z) (schedule : list (option nat)) (s : system) : option system :=
  match schedule with
  | [] => Some s
  | a :: rest => s ← system_step num a s; run_schedule num rest s
  end.

Definition system_start (N : Z) (memory msgs : list T) : option system :=
  q ← new_SharedQueue N memory;
  Some {| s_queue := q; s_producers := map (fun m => {| p_msg := m; p_pc := EnqTry 0 |}) msgs;
          s_consumer := ConIdle; s_log := []; s_seen := [] |}.
End shared.
Arguments producer : clear implicits.
Arguments system : clear implicits.

(** ** Lemmas: ranges and slots *)

Definition is_range (r : QueueRange) : Prop := is_u16 (qr_head r) /\ is_u16 (qr_tail r).

Lemma of_ival_ival r : is_range r -> of_ival (ival r) = r.
Proof.
  destruct r as [h t]. unfold is_range, is_u16, of_ival, ival. cbn [qr_head qr_tail]. intros [Hh Ht].
  unfold u16. f_equal; [zdm|]. rewrite Z.shiftr_div_pow2 by lia. change (2 ^ 16) with 65536. zdm.
Qed.

Lemma ival_inj r r' : is_range r -> is_range r' -> ival r = ival r' -> r = r'.
Proof. intros H H' E. by rewrite <- (of_ival_ival r H), E, of_ival_ival. Qed.

Lemma is_range_set_head r h : is_range r -> is_range (set_head r h).
Proof. intros [_ Ht]. split; [apply u16_range|exact Ht]. Qed.

Lemma is_range_set_tail r t : is_range r -> is_range (set_tail r t).
Proof. intros [Hh _]. split; [exact Hh|apply u16_range]. Qed.

Lemma qr_size_ordered r : is_range r -> qr_head r <= qr_tail r -> qr_size r = qr_tail r - qr_head r.
Proof. unfold is_range, is_u16, qr_size. intros. apply u32_small. unfold is_u32. lia. Qed.

(** Two indices of a window of [N] use different slots. *)
Lemma slots_distinct N lo j k :
  0 < N -> lo <= j < lo + N -> lo <= k < lo + N -> j mod N = k mod N -> j = k.
Proof.
  intros HN Hj Hk E.
  pose proof (Z.div_mod j N ltac:(lia)) as Ej. pose proof (Z.div_mod k N ltac:(lia)) as Ek.
  rewrite E in Ej. assert (j / N = k / N) as Eq; [|rewrite Eq in Ej; lia].
  destruct (Z.lt_trichotomy (j / N) (k / N)) as [?|[?|?]]; [|done|]; exfalso; nia.
Qed.

Section slots.
Context {T : Type} `{HS : Slot T}.
Implicit Types (q : SharedQueue T).

Definition sq_wf N q : Prop :=
  0 < N < 4294967296 /\ sq_max_size q = N /\ Z.of_nat (length (sq_queue q)) = N.

Lemma sq_get_total N q k : sq_wf N q -> is_Some (sq_get q k).
Proof.
  intros (HN & Hm & Hl). apply arr_get_Some. rewrite Hm, Hl. apply Z.mod_pos_bound. lia.
Qed.

Lemma sq_put_spec N q k x :
  sq_wf N q -> is_u32 k ->
  exists q', sq_put q k x = Some q' /\ sq_wf N q' /\
    q_locked q' = q_locked q /\ q_safe q' = q_safe q /\
    safe_tail_mtx q' = safe_tail_mtx q /\ locked_head_mtx q' = locked_head_mtx q /\
    forall j, is_u32 j -> sq_get q' j = if decide (k mod N = j mod N) then Some x else sq_get q j.
Proof.
  intros (HN & Hm & Hl) Hk. unfold sq_put. rewrite Hm, (u32_small k Hk).
  pose proof (Z.mod_pos_bound k N ltac:(lia)) as Hb.
  destruct (arr_set (sq_queue q) (k mod N) x) as [l|] eqn:Hs; [|rewrite arr_set_Some in Hs by lia; done].
  eexists. split; [reflexivity|]. split_and!; try done.
  - unfold sq_wf. cbn [with_queue sq_queue sq_max_size].
    rewrite (arr_set_length _ _ _ _ Hs). done.
  - intros j Hj. unfold sq_get. cbn [with_queue sq_queue sq_max_size].
    rewrite Hm, (u32_small j Hj). apply (arr_get_set _ _ _ _ _ Hs).
Qed.

Lemma slot_free_true q k : slot_free q k = Some true <-> exists x, sq_get q k = Some x /\ slot_mark x = 0.
Proof.
  unfold slot_free. destruct (sq_get q k) as [x|]; cbn; [|naive_solver].
  destruct (Z.eqb_spec (slot_mark x) 0); naive_solver.
Qed.

Lemma slot_free_false q k : slot_free q k = Some false <-> exists x, sq_get q k = Some x /\ slot_mark x <> 0.
Proof.
  unfold slot_free. destruct (sq_get q k) as [x|]; cbn; [|naive_solver].
  destruct (Z.eqb_spec (slot_mark x) 0); naive_solver.
Qed.

Lemma free_slot_spec N q k :
  sq_wf N q -> is_u32 k ->
  exists q', free_slot k q = Some q' /\ sq_wf N q' /\
    q_locked q' = q_locked q /\ q_safe q' = q_safe q /\
    safe_tail_mtx q' = safe_tail_mtx q /\ locked_head_mtx q' = locked_head_mtx q /\
    slot_free q' k = Some true /\
    forall j, is_u32 j -> k mod N <> j mod N -> sq_get q' j = sq_get q j.
Proof.
  intros Hwf Hk. unfold free_slot.
  destruct (sq_get_total N q k Hwf) as [x ->]. cbn [mbind option_bind].
  destruct (sq_put_spec N q k (slot_clear x) Hwf Hk) as (q' & -> & Hwf' & E1 & E2 & E3 & E4 & Hg).
  exists q'. split_and!; try done.
  - apply slot_free_true. exists (slot_clear x). rewrite (Hg k Hk), decide_True by done.
    split; [done|apply slot_mark_clear].
  - intros j Hj Hne. by rewrite (Hg j Hj), decide_False.
Qed.

(** The ring between the four cursors: read but not released, reserved and
    written, reserved and not yet written ([pend]), free. *)
Definition ring_ok N q (log : list T) (LH F ST LT : Z) (pend : Z -> Prop) : Prop :=
  (forall k, F <= k < ST -> sq_get q k = log !! Z.to_nat k) /\
  (forall k, ST <= k < LT ->
     sq_get q k = log !! Z.to_nat k \/ (slot_free q k = Some true /\ pend k)) /\
  (forall k, LH <= k < F \/ LT <= k < LH + N -> slot_free q k = Some true) /\
  (forall k, pend k -> ST <= k < LT /\ slot_free q k = Some true).

Lemma ring_ok_ext N q q' log LH F ST LT pend pend' :
  sq_max_size q' = sq_max_size q -> sq_queue q' = sq_queue q -> (forall k, pend k <-> pend' k) ->
  ring_ok N q log LH F ST LT pend -> ring_ok N q' log LH F ST LT pend'.
Proof.
  intros E1 E2 Hp (H1 & H2 & H3 & H4).
  assert (Hg : forall k, sq_get q' k = sq_get q k) by (intros; unfold sq_get; by rewrite E1, E2).
  assert (Hf : forall k, slot_free q' k = slot_free q k) by (intros; unfold slot_free; by rewrite Hg).
  split_and!; intros k Hk; rewrite ?Hg, ?Hf.
  - by apply H1.
  - destruct (H2 k Hk) as [?|[? ?]]; [by left|right]. by rewrite <- Hp.
  - by apply H3.
  - apply H4. by apply Hp.
Qed.

(** A producer reserves index [LT]. *)
Lemma ring_reserve N q log LH F ST LT pend m :
  0 <= LH <= F -> F <= ST <= LT -> LT + 1 <= LH + N -> LT = Z.of_nat (length log) ->
  ring_ok N q log LH F ST LT pend ->
  ring_ok N q (log ++ [m]) LH F ST (LT + 1) (fun k => pend k \/ k = LT).
Proof.
  intros B1 B2 B3 HL (H1 & H2 & H3 & H4).
  assert (Hlt : forall k, 0 <= k < LT -> (log ++ [m]) !! Z.to_nat k = log !! Z.to_nat k)
    by (intros; apply lookup_app_l; lia).
  split_and!; intros k Hk.
  - rewrite Hlt by lia. by apply H1.
  - destruct (decide (k = LT)) as [->|].
    + right. split; [apply H3; lia|by right].
    + rewrite Hlt by lia. destruct (H2 k ltac:(lia)) as [?|[? ?]]; [by left|right]. auto.
  - apply H3. lia.
  - destruct Hk as [Hk| ->]; [destruct (H4 k Hk); split; [lia|done]|].
    split; [lia|]. apply H3. lia.
Qed.

(** The producer of index [k] stores its message. *)
Lemma ring_store N q q' log LH F ST LT pend k m :
  0 < N -> 0 <= LH <= F -> F <= ST <= LT -> LT <= LH + N -> LT <= 65536 -> LH + N < 4294967296 -> 
  ring_ok N q log LH F ST LT pend -> pend k -> log !! Z.to_nat k = Some m ->
  (forall j, is_u32 j -> sq_get q' j = if decide (k mod N = j mod N) then Some m else sq_get q j) ->
  ring_ok N q' log LH F ST LT (fun j => pend j /\ j <> k).
Proof.
  intros HN B1 B2 B3 B4 B5 (H1 & H2 & H3 & H4) Hk Hm Hg.
  destruct (H4 k Hk) as [Bk _].
  assert (Hne : forall j, LH <= j < LH + N -> j <> k -> sq_get q' j = sq_get q j).
  { intros j Hj Hn. rewrite Hg by (unfold is_u32; lia). rewrite decide_False; [done|].
    intros E. apply Hn. symmetry. apply (slots_distinct N LH); lia. }
  assert (Hnf : forall j, LH <= j < LH + N -> j <> k -> slot_free q' j = slot_free q j)
    by (intros; unfold slot_free; by rewrite Hne).
  split_and!.
  - intros j Hj. rewrite Hne by lia. by apply H1.
  - intros j Hj. destruct (decide (j = k)) as [->|].
    + left. rewrite Hg, decide_True by (unfold is_u32; lia || done). done.
    + rewrite Hne, Hnf by lia. destruct (H2 j Hj) as [?|[? ?]]; auto.
  - intros j Hj. rewrite Hnf by lia. by apply H3.
  - intros j [Hj Hn]. destruct (H4 j Hj). rewrite Hnf by lia. done.
Qed.

(** [gather_new_data] moves the safe tail over a written slot. *)
Lemma ring_gather N q log LH F ST LT pend :
  F <= ST -> ST < LT -> slot_free q ST = Some false ->
  ring_ok N q log LH F ST LT pend -> ring_ok N q log LH F (ST + 1) LT pend.
Proof.
  intros B1 B2 Hf (H1 & H2 & H3 & H4). split_and!; intros k Hk.
  - destruct (decide (k = ST)) as [->|]; [|apply H1; lia].
    destruct (H2 ST ltac:(lia)) as [?|[Hc _]]; [done|congruence].
  - apply H2. lia.
  - by apply H3.
  - destruct (H4 k Hk) as [? Hc]. split; [|done].
    assert (k <> ST) by congruence. lia.
Qed.

(** [release] frees the slot of index [F]. *)
Lemma ring_release N q q' log LH F ST LT pend :
  0 < N -> 0 <= LH <= F -> F < ST -> ST <= LT -> LT <= LH + N -> LH + N < 4294967296 ->
  slot_free q' F = Some true ->
  (forall j, is_u32 j -> F mod N <> j mod N -> sq_get q' j = sq_get q j) ->
  ring_ok N q log LH F ST LT pend -> ring_ok N q' log LH (F + 1) ST LT pend.
Proof.
  intros HN B1 B2 B3 B4 B5 Hf Hg (H1 & H2 & H3 & H4).
  assert (Hne : forall j, LH <= j < LH + N -> j <> F -> sq_get q' j = sq_get q j).
  { intros j Hj Hn. apply Hg; [unfold is_u32; lia|].
    intros E. apply Hn. symmetry. apply (slots_distinct N LH); lia. }
  assert (Hnf : forall j, LH <= j < LH + N -> j <> F -> slot_free q' j = slot_free q j)
    by (intros; unfold slot_free; by rewrite Hne).
  split_and!; intros k Hk.
  - rewrite Hne by lia. apply H1. lia.
  - rewrite Hne, Hnf by lia. apply H2. lia.
  - destruct (decide (k = F)) as [->|]; [done|]. rewrite Hnf by lia. apply H3. lia.
  - destruct (H4 k Hk). rewrite Hnf by lia. done.
Qed.

(** [garbage_collect] gives the slot of index [LH] back to the producers. *)
Lemma ring_collect N q log LH F ST LT pend :
  sq_wf N q -> 0 <= LH -> LH < F -> F <= LT -> LH + N < 4294967296 ->
  ring_ok N q log LH F ST LT pend -> ring_ok N q log (LH + 1) F ST LT pend.
Proof.
  intros (HN & Hm & Hl) B0 B1 B2 B3 (H1 & H2 & H3 & H4). split_and!; auto.
  intros k Hk. destruct (decide (k = LH + N)) as [->|]; [|apply H3; lia].
  assert (sq_get q (LH + N) = sq_get q LH) as E.
  { unfold sq_get. rewrite Hm, !u32_small by (unfold is_u32; lia).
    f_equal. rewrite <- (Z.mul_1_l N) at 1. apply Z.mod_add. lia. }
  unfold slot_free. rewrite E. apply H3. lia.
Qed.
End slots.

(** ** The invariant of the producers and the consumer *)

Fixpoint count {A} (f : A -> bool) (l : list A) : nat :=
  match l with [] => 0 | x :: l => Nat.b2n (f x) + count f l end.

Lemma count_insert {A} (f : A -> bool) l i x y :
  l !! i = Some x -> (count f (<[i := y]> l) + Nat.b2n (f x) = count f l + Nat.b2n (f y))%nat.
Proof.
  revert i. induction l as [|z l IH]; intros [|i] Hi; simplify_eq/=.
  - destruct (f x), (f y); simpl; lia.
  - specialize (IH i Hi). destruct (f x), (f y), (f z); simpl in *; lia.
Qed.

Lemma count_le {A} (f : A -> bool) l : (count f l <= length l)%nat.
Proof. induction l as [|x l IH]; cbn; [lia|]. destruct (f x); cbn; lia. Qed.

Section system.
Context {T : Type} `{HS : Slot T}.
Implicit Types (q : SharedQueue T) (p : producer T).

(** Has not reserved an index yet. *)
Definition waiting p : bool :=
  match p_pc p with EnqTry _ | EnqCas _ _ => true | _ => false end.

(** The index a producer owns. *)
Definition claim_of p : option Z :=
  match p_pc p with
  | EnqStore k => Some k
  | EnqDone r => if r =? -1 then None else Some r
  | _ => None
  end.

Definition pending (ps : list (producer T)) (k : Z) : Prop :=
  exists i p, ps !! i = Some p /\ p_pc p = EnqStore k.

Definition producer_ok (N : Z) (log : list T) p : Prop :=
  match p_pc p with
  | EnqTry _ => True
  | EnqCas _ r => is_range r /\ qr_size r +w 1 <= N
  | _ => forall k, claim_of p = Some k -> 0 <= k /\ log !! Z.to_nat k = Some (p_msg p)
  end.

(** Read and released, from the consumer's program point. *)
Definition released q (pc : con_pc) : Z :=
  match pc with
  | ConRead _ r => qr_head (q_safe q) - (qr_tail r - qr_head r)
  | ConRelease i r => qr_head (q_safe q) - (qr_tail r - i)
  | _ => qr_head (q_safe q)
  end.

Definition consumed q (pc : con_pc) : Z :=
  match pc with
  | ConRead i r => qr_head (q_safe q) - (qr_tail r - i)
  | _ => qr_head (q_safe q)
  end.

Definition consumer_ok q (pc : con_pc) : Prop :=
  match pc with
  | ConGather n size => 0 <= n /\ qr_tail (q_safe q) + (size - n) <= qr_tail (q_locked q)
  | ConRead i r | ConRelease i r =>
      0 <= qr_head r <= i /\ i <= qr_tail r /\
      (qr_tail r = qr_head (q_safe q) \/ qr_head r = qr_tail r)
  | ConCollect i size => 0 <= i /\ qr_head (q_locked q) + (size - i) <= qr_head (q_safe q)
  | _ => True
  end.

Record system_inv (N : Z) (msgs : list T) (s : system T) : Prop := {
  inv_wf : sq_wf N (s_queue s);
  inv_small : N < 65536;
  inv_ranges : is_range (q_locked (s_queue s)) /\ is_range (q_safe (s_queue s));
  inv_heads : qr_head (q_locked (s_queue s)) <= released (s_queue s) (s_consumer s)
              <= qr_head (q_safe (s_queue s));
  inv_safe : qr_head (q_safe (s_queue s)) <= qr_tail (q_safe (s_queue s));
  inv_tails : qr_tail (q_safe (s_queue s)) <= qr_tail (q_locked (s_queue s))
              <= qr_head (q_locked (s_queue s)) + N;
  inv_log : qr_tail (q_locked (s_queue s)) = Z.of_nat (length (s_log s));
  inv_marks : Forall (fun x => slot_mark x <> 0) (s_log s);
  inv_count : Z.of_nat (length (s_log s) + count waiting (s_producers s)) <= 65535;
  inv_ring : ring_ok N (s_queue s) (s_log s) (qr_head (q_locked (s_queue s)))
               (released (s_queue s) (s_consumer s)) (qr_tail (q_safe (s_queue s)))
               (qr_tail (q_locked (s_queue s))) (pending (s_producers s));
  inv_producers : forall i p, s_producers s !! i = Some p -> producer_ok N (s_log s) p;
  inv_distinct : forall i j p p' k, s_producers s !! i = Some p -> s_producers s !! j = Some p' ->
                   claim_of p = Some k -> claim_of p' = Some k -> i = j;
  inv_owner : forall k x, s_log s !! k = Some x ->
                exists i p, s_producers s !! i = Some p /\ claim_of p = Some (Z.of_nat k);
  inv_msgs : map p_msg (s_producers s) = msgs;
  inv_consumer : consumer_ok (s_queue s) (s_consumer s);
  inv_seen : s_seen s = take (Z.to_nat (consumed (s_queue s) (s_consumer s))) (s_log s)
}.

Lemma released_safe q q' pc : q_safe q' = q_safe q -> released q' pc = released q pc.
Proof. intros E. destruct pc; cbn; by rewrite E. Qed.

Lemma consumed_safe q q' pc : q_safe q' = q_safe q -> consumed q' pc = consumed q pc.
Proof. intros E. destruct pc; cbn; by rewrite E. Qed.

Lemma sq_dequeue_spec q num :
  is_range (q_safe q) -> 0 <= num -> qr_head (q_safe q) <= qr_tail (q_safe q) ->
  let n := Z.min num (qr_tail (q_safe q) - qr_head (q_safe q)) in
  sq_dequeue q num =
    if qr_tail (q_safe q) =? qr_head (q_safe q) then (qr_zero, q)
    else ({| qr_head := qr_head (q_safe q); qr_tail := qr_head (q_safe q) + n |},
          with_safe q {| qr_head := qr_head (q_safe q) + n; qr_tail := qr_tail (q_safe q) |}).
Proof.
  intros Hr Hn Hle n. unfold sq_dequeue. change (Z.to_nat MAX_RACE_TRIES) with (S 9).
  generalize 9%nat as k. intros k. cbn [dequeue_tries]. unfold val_compare_and_swap. rewrite (qr_size_ordered _ Hr Hle), !Z.eqb_refl.
  destruct (Z.eqb_spec (qr_tail (q_safe q)) (qr_head (q_safe q))) as [E|E].
  { rewrite E, Z.sub_diag. done. }
  destruct (Z.leb_spec (qr_tail (q_safe q) - qr_head (q_safe q)) 0); [lia|].
  rewrite (of_ival_ival _ Hr), Z.eqb_refl.
  set (m := if _ <? num then _ else _).
  assert (m = n) as -> by (unfold m, n; split_ltb; lia).
  rewrite (of_ival_ival _ (is_range_set_head _ _ Hr)).
  destruct Hr as [Hh Ht]. unfold is_u16 in Hh, Ht.
  unfold set_head. cbn [qr_head qr_tail].
  rewrite (u16_small (_ + _)) by (unfold is_u16, n; lia). done.
Qed.

Lemma pending_insert (ps : list (producer T)) i p p' k :
  ps !! i = Some p ->
  pending (<[i := p']> ps) k <->
  p_pc p' = EnqStore k \/ exists j pj, j <> i /\ ps !! j = Some pj /\ p_pc pj = EnqStore k.
Proof.
  intros Hi. pose proof (lookup_lt_Some _ _ _ Hi). split.
  - intros (j & pj & Hj & E). destruct (decide (j = i)) as [->|].
    + rewrite list_lookup_insert_eq in Hj by done. simplify_eq. by left.
    + rewrite list_lookup_insert_ne in Hj by done. right. eauto.
  - intros [E|(j & pj & Hn & Hj & E)].
    + exists i, p'. by rewrite list_lookup_insert_eq.
    + exists j, pj. by rewrite list_lookup_insert_ne.
Qed.

Lemma distinct_insert (ps : list (producer T)) i p' :
  (forall a b p p' k, ps !! a = Some p -> ps !! b = Some p' ->
     claim_of p = Some k -> claim_of p' = Some k -> a = b) ->
  (forall j pj k, ps !! j = Some pj -> claim_of p' = Some k -> claim_of pj = Some k -> j = i) ->
  forall a b p1 p2 k, <[i := p']> ps !! a = Some p1 -> <[i := p']> ps !! b = Some p2 ->
     claim_of p1 = Some k -> claim_of p2 = Some k -> a = b.
Proof.
  intros Hd Hn a b p1 p2 k Ha Hb C1 C2.
  apply list_lookup_insert_Some in Ha, Hb.
  destruct Ha as [(-> & -> & _)|(Na & Ha)], Hb as [(-> & -> & _)|(Nb & Hb)]; eauto.
  symmetry. eauto.
Qed.

Lemma owner_insert (ps : list (producer T)) i p' k :
  (exists j pj, j <> i /\ ps !! j = Some pj /\ claim_of pj = Some k) ->
  exists j pj, <[i := p']> ps !! j = Some pj /\ claim_of pj = Some k.
Proof. intros (j & pj & Hn & Hj & E). exists j, pj. by rewrite list_lookup_insert_ne. Qed.

(** A producer moves without touching the queue. *)
Lemma inv_goto N msgs s i p p' :
  system_inv N msgs s -> s_producers s !! i = Some p ->
  p_msg p' = p_msg p -> (Nat.b2n (waiting p') <= Nat.b2n (waiting p))%nat ->
  claim_of p' = None -> claim_of p = None -> producer_ok N (s_log s) p' ->
  system_inv N msgs {| s_queue := s_queue s; s_producers := <[i := p']> (s_producers s);
                       s_consumer := s_consumer s; s_log := s_log s; s_seen := s_seen s |}.
Proof.
  intros [] Hi Hm Hw Hc Hc0 Hok. split; cbn [s_queue s_producers s_consumer s_log s_seen]; auto.
  - pose proof (count_insert waiting _ _ _ p' Hi). lia.
  - eapply ring_ok_ext; [..|exact inv_ring0]; [done..|].
    intros k. rewrite (pending_insert _ _ p p' k Hi). split.
    + intros (j & pj & Hj & E). right. exists j, pj. split_and!; [|done..].
      intros ->. rewrite Hi in Hj. simplify_eq. unfold claim_of in Hc0. by rewrite E in Hc0.
    + intros [E|(j & pj & _ & Hj & E)]; [unfold claim_of in Hc; by rewrite E in Hc|by exists j, pj].
  - intros j pj Hj. apply list_lookup_insert_Some in Hj as [(-> & -> & _)|(_ & Hj)]; eauto.
  - apply distinct_insert; [done|]. intros j pj k _ E. congruence.
  - intros k x Hx. apply owner_insert. destruct (inv_owner0 k x Hx) as (j & pj & Hj & E).
    exists j, pj. split_and!; [|done..]. intros ->. congruence.
  - rewrite <- inv_msgs0, list_fmap_insert, Hm. apply list_insert_id.
    by rewrite list_lookup_fmap, Hi.
Qed.

Lemma count_pos {A} (f : A -> bool) l i x : l !! i = Some x -> f x = true -> (1 <= count f l)%nat.
Proof.
  revert i. induction l as [|y l IH]; intros [|i] Hi Hf; simplify_eq/=; [rewrite Hf; simpl; lia|].
  specialize (IH i Hi Hf). lia.
Qed.

(** A producer wins the compare-and-swap. *)
Lemma inv_reserve N msgs s i p c :
  system_inv N msgs s -> s_producers s !! i = Some p -> slot_mark (p_msg p) <> 0 ->
  p_pc p = EnqCas c (q_locked (s_queue s)) ->
  system_inv N msgs
    {| s_queue := with_locked (s_queue s)
         (set_tail (q_locked (s_queue s)) (qr_tail (q_locked (s_queue s)) + 1));
       s_producers := <[i := p_goto p (EnqStore (qr_tail (q_locked (s_queue s))))]> (s_producers s);
       s_consumer := s_consumer s; s_log := s_log s ++ [p_msg p]; s_seen := s_seen s |}.
Proof.
  intros Hinv Hi Hmark Hpc. pose proof Hinv as [].
  pose proof (inv_producers0 i p Hi) as Hok. unfold producer_ok in Hok. rewrite Hpc in Hok.
  destruct Hok as [_ Hsize], inv_ranges0 as [Hr1 Hr2], inv_wf0 as (HN & Hm & Hl).
  set (q := s_queue s) in *. set (LT := qr_tail (q_locked q)) in *.
  set (p' := p_goto p (EnqStore LT)).
  pose proof (count_insert waiting _ _ _ p' Hi) as Hc.
  pose proof (count_pos waiting _ _ _ Hi ltac:(unfold waiting; by rewrite Hpc)) as Hc1.
  assert (waiting p = true /\ waiting p' = false) as [Ew Ew'] by (unfold waiting; by rewrite Hpc).
  rewrite Ew, Ew' in Hc. cbn [Nat.b2n] in Hc.
  assert (released q (s_consumer s) <= LT) by lia.
  assert (0 <= qr_head (q_locked q)) by (destruct Hr1 as [Hh _]; unfold is_u16 in Hh; lia).
  rewrite (qr_size_ordered _ Hr1 ltac:(fold LT; lia)) in Hsize. fold LT in Hsize.
  rewrite u32_small in Hsize by (unfold is_u32; lia).
  assert (set_tail (q_locked q) (LT + 1) = {| qr_head := qr_head (q_locked q); qr_tail := LT + 1 |}) as Eset.
  { unfold set_tail. rewrite u16_small by (unfold is_u16; lia). done. }
  split; cbn [s_queue s_producers s_consumer s_log s_seen]; rewrite ?Eset;
    rewrite ?(released_safe q), ?(consumed_safe q) by done;
    cbn [with_locked q_locked q_safe qr_head qr_tail].
  - done.
  - done.
  - split; [|done]. split; cbn; [apply Hr1|unfold is_u16; lia].
  - done.
  - done.
  - lia.
  - rewrite length_app. cbn [length]. lia.
  - apply Forall_app. by repeat constructor.
  - rewrite length_app. cbn [length]. lia.
  - eapply ring_ok_ext; [done|done| |apply ring_reserve; [..|exact inv_ring0]; lia].
    intros k. rewrite (pending_insert _ _ p p' k Hi). split.
    + intros [(j & pj & Hj & E)| ->]; [right|by left].
      exists j, pj. split_and!; [|done..]. intros ->. congruence.
    + intros [E|(j & pj & _ & Hj & E)]; [right; by simplify_eq/=|left; by exists j, pj].
  - intros j pj Hj. apply list_lookup_insert_Some in Hj as [(<- & <- & _)|(_ & Hj)].
    + unfold producer_ok, p'. cbn [p_goto p_pc]. intros k [= <-]. split; [lia|].
      cbn [p_goto p_msg]. rewrite lookup_app_r by lia.
      replace (_ - _)%nat with 0%nat by lia. done.
    + specialize (inv_producers0 j pj Hj). unfold producer_ok in *.
      destruct (p_pc pj); try done; intros k Hk; destruct (inv_producers0 k Hk);
      (split; [done|by apply lookup_app_l_Some]).
  - apply distinct_insert; [done|]. intros j pj k Hj [= <-] Hcl. exfalso.
    specialize (inv_producers0 j pj Hj). unfold producer_ok, claim_of in *.
    destruct (p_pc pj) as [| |k|r]; try done.
    + destruct (inv_producers0 LT Hcl) as [_ Hlk%lookup_lt_Some]. lia.
    + destruct (inv_producers0 LT Hcl) as [_ Hlk%lookup_lt_Some]. lia.
  - intros k x Hx. apply lookup_app_Some in Hx as [Hx|[Hle Hx]].
    + apply owner_insert. destruct (inv_owner0 k x Hx) as (j & pj & Hj & E).
      exists j, pj. split_and!; [|done..]. intros ->.
      unfold claim_of in E. rewrite Hi in Hj. simplify_eq. by rewrite Hpc in E.
    + apply lookup_lt_Some in Hx. cbn [length] in Hx.
      exists i, p'. rewrite list_lookup_insert_eq by (by eapply lookup_lt_Some).
      split; [done|]. unfold p', claim_of. cbn [p_goto p_pc]. f_equal. lia.
  - rewrite <- inv_msgs0, list_fmap_insert. apply list_insert_id.
    by rewrite list_lookup_fmap, Hi.
  - destruct (s_consumer s); cbn in *; try done; lia.
  - rewrite inv_seen0. symmetry. apply take_app_le.
    assert (consumed q (s_consumer s) <= qr_head (q_safe q)); [|unfold q in *; lia].
    destruct (s_consumer s); cbn in *; lia.
Qed.

(** A producer stores its message. *)
Lemma inv_store N msgs s i p k :
  system_inv N msgs s -> s_producers s !! i = Some p -> p_pc p = EnqStore k ->
  exists q', sq_put (s_queue s) k (p_msg p) = Some q' /\
  system_inv N msgs
    {| s_queue := q'; s_producers := <[i := p_goto p (EnqDone k)]> (s_producers s);
       s_consumer := s_consumer s; s_log := s_log s; s_seen := s_seen s |}.
Proof.
  intros Hinv Hi Hpc. pose proof Hinv as [].
  pose proof (inv_producers0 i p Hi) as Hok. unfold producer_ok in Hok. rewrite Hpc in Hok.
  assert (claim_of p = Some k) as Hcl by (unfold claim_of; by rewrite Hpc).
  destruct (Hok k Hcl) as [Hk Hlog].
  assert (pending (s_producers s) k) as Hpend by (by exists i, p).
  pose proof (proj2 (proj2 (proj2 inv_ring0)) k Hpend) as [Hkr _].
  pose proof (lookup_lt_Some _ _ _ Hlog) as Hklt.
  assert (0 <= qr_head (q_locked (s_queue s)))
    by (destruct inv_ranges0 as [[Hh _] _]; unfold is_u16 in Hh; lia).
  destruct (sq_put_spec N (s_queue s) k (p_msg p) inv_wf0) as (q' & Eq & Hwf' & E1 & E2 & _ & _ & Hg);
    [unfold is_u32; lia|].
  exists q'. split; [done|].
  set (p' := p_goto p (EnqDone k)).
  assert (claim_of p' = Some k) as Hcl' by (cbn; destruct (Z.eqb_spec k (-1)); [lia|done]).
  split; cbn [s_queue s_producers s_consumer s_log s_seen];
    rewrite ?(released_safe _ _ _ E2), ?(consumed_safe _ _ _ E2), ?E1, ?E2; auto.
  - pose proof (count_insert waiting _ _ _ p' Hi).
    assert (waiting p = false /\ waiting p' = false) as [Ew Ew'] by (unfold waiting; by rewrite Hpc).
    rewrite Ew, Ew' in *. lia.
  - eapply ring_ok_ext; [done|done| |apply (ring_store N (s_queue s)) with (k := k) (m := p_msg p);
      [..|exact inv_ring0|done|done|exact Hg]; destruct inv_wf0; lia].
    intros j. rewrite (pending_insert _ _ p p' j Hi). split.
    + intros [(a & pa & Ha & E) Hn]. right. exists a, pa. split_and!; [|done..].
      intros ->. congruence.
    + intros [E|(a & pa & Hn & Ha & E)]; [done|]. split; [by exists a, pa|].
      intros ->. apply Hn. apply (inv_distinct0 a i pa p k); auto. unfold claim_of. by rewrite E.
  - intros j pj Hj. apply list_lookup_insert_Some in Hj as [(<- & <- & _)|(_ & Hj)]; [|eauto].
    unfold producer_ok, p'. cbn [p_goto p_pc]. intros j' Hj'. fold p' in Hj'.
    rewrite Hcl' in Hj'. by simplify_eq.
  - apply distinct_insert; [done|]. intros j pj j' Hj E E'. rewrite Hcl' in E. simplify_eq.
    apply (inv_distinct0 j i pj p j'); done.
  - intros k' x Hx. destruct (inv_owner0 k' x Hx) as (j & pj & Hj & E).
    destruct (decide (j = i)) as [->|].
    + exists i, p'. rewrite list_lookup_insert_eq by (by eapply lookup_lt_Some). split; [done|].
      congruence.
    + apply owner_insert. by exists j, pj.
  - rewrite <- inv_msgs0, list_fmap_insert. apply list_insert_id. by rewrite list_lookup_fmap, Hi.
  - destruct (s_consumer s); cbn in *; rewrite ?E1, ?E2; done.
Qed.

(** Every step a producer can take keeps the invariant, and is defined. *)
Lemma inv_producer_step num N msgs s i p :
  Forall (fun x => slot_mark x <> 0) msgs ->
  system_inv N msgs s -> s_producers s !! i = Some p ->
  exists s', system_step num (Some i) s = Some s' /\ system_inv N msgs s'.
Proof.
  intros Hmsgs Hinv Hi.
  assert (slot_mark (p_msg p) <> 0) as Hmark.
  { rewrite <- (inv_msgs _ _ _ Hinv) in Hmsgs. rewrite Forall_map, Forall_lookup in Hmsgs. by apply (Hmsgs i). }
  pose proof (inv_producers _ _ _ Hinv i p Hi) as Hok.
  pose proof (inv_ranges _ _ _ Hinv) as [Hr _]. pose proof (inv_wf _ _ _ Hinv) as (_ & HN & _).
  unfold system_step. rewrite Hi. cbn [mbind option_bind].
  unfold enq_step, newly_reserved. unfold producer_ok in Hok.
  destruct (p_pc p) as [c|c r|k|r] eqn:Hpc.
  - rewrite HN. destruct (c <? MAX_RACE_TRIES); cbn [negb].
    + destruct (Z.ltb_spec N (qr_size (q_locked (s_queue s)) +w 1));
        (eexists; split; [cbn; reflexivity|]); rewrite app_nil_r;
        apply (inv_goto _ _ _ _ p); try done; unfold waiting, claim_of, producer_ok; cbn; rewrite ?Hpc; auto with lia.
    + eexists; split; [cbn; reflexivity|]. rewrite app_nil_r.
      apply (inv_goto _ _ _ _ p); try done; unfold waiting, claim_of, producer_ok; cbn; rewrite ?Hpc; auto with lia.
  - destruct Hok as [Hr' Hs]. unfold val_compare_and_swap.
    destruct (Z.eqb_spec (ival (q_locked (s_queue s))) (ival r)) as [E|E].
    + apply (ival_inj _ _ Hr Hr') in E. subst r. rewrite Z.eqb_refl.
      rewrite of_ival_ival by (apply is_range_set_tail; done).
      eexists. split; [cbn; reflexivity|]. by apply (inv_reserve _ _ _ _ _ c).
    + destruct (Z.eqb_spec (ival r) (ival (q_locked (s_queue s)))); [congruence|].
      rewrite of_ival_ival by done. eexists. split; [cbn; reflexivity|]. rewrite app_nil_r.
      replace (with_locked (s_queue s) (q_locked (s_queue s))) with (s_queue s) by (by destruct (s_queue s)).
      apply (inv_goto _ _ _ _ p); try done; unfold waiting, claim_of, producer_ok; cbn; rewrite ?Hpc; auto with lia.
  - destruct (inv_store _ _ _ _ _ _ Hinv Hi Hpc) as (q' & -> & Hinv').
    eexists. split; [cbn; reflexivity|]. by rewrite app_nil_r.
  - eexists. split; [cbn; reflexivity|]. rewrite app_nil_r, list_insert_id by done. by destruct s.
Qed.

(** What a consumer step has to establish. *)
Lemma inv_consumer_intro N msgs s q' pc' read :
  system_inv N msgs s ->
  sq_wf N q' -> is_range (q_locked q') -> is_range (q_safe q') ->
  qr_tail (q_locked q') = qr_tail (q_locked (s_queue s)) ->
  qr_head (q_locked q') <= released q' pc' <= qr_head (q_safe q') ->
  qr_head (q_safe q') <= qr_tail (q_safe q') <= qr_tail (q_locked q') ->
  qr_tail (q_locked q') <= qr_head (q_locked q') + N ->
  ring_ok N q' (s_log s) (qr_head (q_locked q')) (released q' pc') (qr_tail (q_safe q'))
    (qr_tail (q_locked q')) (pending (s_producers s)) ->
  consumer_ok q' pc' ->
  s_seen s ++ read = take (Z.to_nat (consumed q' pc')) (s_log s) ->
  system_inv N msgs {| s_queue := q'; s_producers := s_producers s; s_consumer := pc';
                       s_log := s_log s; s_seen := s_seen s ++ read |}.
Proof.
  intros []. intros. split; cbn [s_queue s_producers s_consumer s_log s_seen]; auto; [lia|lia|congruence].
Qed.

Lemma ring_mtx N q a b log LH F ST LT pend :
  ring_ok N q log LH F ST LT pend -> ring_ok N (with_mtx q a b) log LH F ST LT pend.
Proof. by apply ring_ok_ext. Qed.

(** The consumer is able to take a step, after which the invariant holds. *)
Definition consumer_keeps (num N : Z) (msgs : list T) (s : system T) : Prop :=
  exists s', system_step num None s = Some s' /\ system_inv N msgs s'.

Ltac consumer_start Hinv Hpc :=
  pose proof Hinv as []; unfold consumer_keeps, system_step; rewrite Hpc in *;
  match goal with
  | R : is_range ?l /\ is_range ?r |- _ =>
      pose proof (proj1 R); pose proof (proj2 R);
      destruct R as [[? ?] [? ?]]; unfold is_u16 in *
  end;
  cbn [con_step released consumed consumer_ok] in *.
Ltac consumer_next :=
  eexists; split; [cbn; reflexivity|]; apply inv_consumer_intro; cbn; rewrite ?app_nil_r;
  auto using ring_mtx; try lia.

Lemma inv_idle_step num N msgs s :
  system_inv N msgs s -> s_consumer s = ConIdle -> consumer_keeps num N msgs s.
Proof.
  intros Hinv Hpc. consumer_start Hinv Hpc.
  destruct (safe_tail_mtx (s_queue s) =? 0); consumer_next.
  rewrite u32_small by (unfold is_u32; lia). lia.
Qed.

Lemma slot_free_total N q k : sq_wf N q -> exists b, slot_free q k = Some b.
Proof.
  intros Hwf. destruct (sq_get_total N q k Hwf) as [x Hx].
  exists (slot_mark x =? 0). unfold slot_free. by rewrite Hx.
Qed.

Lemma inv_gather_step num N msgs s n size :
  system_inv N msgs s -> s_consumer s = ConGather n size -> consumer_keeps num N msgs s.
Proof.
  intros Hinv Hpc. consumer_start Hinv Hpc.
  destruct (Z.ltb_spec n size) as [Hn|Hn]; [|consumer_next].
  destruct (slot_free_total N (s_queue s) (qr_tail (q_safe (s_queue s))) inv_wf0) as [[] Hf];
    rewrite Hf; [consumer_next|].
  assert (u16 (qr_tail (q_safe (s_queue s)) + 1) = qr_tail (q_safe (s_queue s)) + 1) as Eu
    by (apply u16_small; unfold is_u16; lia).
  consumer_next; rewrite ?Eu; try lia.
  - split; cbn; unfold is_u16; lia.
  - eapply ring_ok_ext; [done..|]. apply ring_gather; auto; lia.
Qed.

Lemma inv_dequeue_step num N msgs s :
  0 <= num -> system_inv N msgs s -> s_consumer s = ConDequeue -> consumer_keeps num N msgs s.
Proof.
  intros Hnum Hinv Hpc. consumer_start Hinv Hpc.
  rewrite sq_dequeue_spec by (done || lia). cbv zeta.
  destruct (Z.eqb_spec (qr_tail (q_safe (s_queue s))) (qr_head (q_safe (s_queue s)))) as [E|E].
  - consumer_next; rewrite Z.sub_0_r; auto; lia.
  - set (k := Z.min num _) in *.
    assert (0 <= k <= qr_tail (q_safe (s_queue s)) - qr_head (q_safe (s_queue s))) by lia.
    consumer_next.
    + split; cbn; unfold is_u16; lia.
    + replace (_ - _) with (qr_head (q_safe (s_queue s))) by lia. by eapply ring_ok_ext.
    + replace (_ - _) with (qr_head (q_safe (s_queue s))) by lia. done.
Qed.

Lemma inv_read_step num N msgs s i r :
  system_inv N msgs s -> s_consumer s = ConRead i r -> consumer_keeps num N msgs s.
Proof.
  intros Hinv Hpc. consumer_start Hinv Hpc.
  destruct (Z.ltb_spec i (qr_tail r)) as [Hi|Hi].
  - assert (qr_tail r = qr_head (q_safe (s_queue s))) as E by lia.
    destruct (sq_get_total _ _ i inv_wf0) as [x Hx]. rewrite Hx. consumer_next.
    rewrite inv_seen0.
    replace (qr_head (q_safe (s_queue s)) - (qr_tail r - i)) with i by lia.
    replace (Z.to_nat (_ - _)) with (S (Z.to_nat i)) by lia.
    symmetry. apply take_S_r. rewrite <- Hx. symmetry. apply (proj1 inv_ring0). lia.
  - consumer_next. rewrite inv_seen0. f_equal. f_equal. lia.
Qed.

Lemma inv_release_step num N msgs s i r :
  system_inv N msgs s -> s_consumer s = ConRelease i r -> consumer_keeps num N msgs s.
Proof.
  intros Hinv Hpc. consumer_start Hinv Hpc.
  destruct (Z.ltb_spec i (qr_tail r)) as [Hi|Hi].
  - assert (qr_tail r = qr_head (q_safe (s_queue s))) as E by lia.
    replace (qr_head (q_safe (s_queue s)) - (qr_tail r - i)) with i in * by lia.
    destruct (free_slot_spec N (s_queue s) i inv_wf0) as (q' & -> & Hwf & E1 & E2 & _ & _ & Hf & Hg);
      [unfold is_u32; lia|].
    consumer_next; rewrite ?E1, ?E2; auto; try lia.
    replace (qr_head (q_safe (s_queue s)) - (qr_tail r - (i + 1))) with (i + 1) by lia.
    apply (ring_release N (s_queue s)); auto; destruct inv_wf0; lia.
  - assert (qr_head (q_safe (s_queue s)) - (qr_tail r - i) = qr_head (q_safe (s_queue s))) as E by lia.
    rewrite E in *. destruct (locked_head_mtx (s_queue s) =? 0); consumer_next.
Qed.

Lemma inv_collect_step num N msgs s i size :
  system_inv N msgs s -> s_consumer s = ConCollect i size -> consumer_keeps num N msgs s.
Proof.
  intros Hinv Hpc. consumer_start Hinv Hpc.
  destruct (Z.ltb_spec i size) as [Hi|Hi]; [|consumer_next].
  destruct (slot_free_total N (s_queue s) (qr_head (q_locked (s_queue s))) inv_wf0) as [[] Hf];
    rewrite Hf; [|consumer_next].
  assert (u16 (qr_head (q_locked (s_queue s)) + 1) = qr_head (q_locked (s_queue s)) + 1) as Eu
    by (apply u16_small; unfold is_u16; lia).
  consumer_next; rewrite ?Eu; try lia.
  - split; cbn; unfold is_u16; lia.
  - eapply ring_ok_ext; [done..|]. apply ring_collect; auto; destruct inv_wf0; lia.
Qed.

(** Every step of the consumer keeps the invariant, and is defined. *)
Lemma inv_consumer_step num N msgs s :
  0 <= num -> system_inv N msgs s -> consumer_keeps num N msgs s.
Proof.
  intros Hnum Hinv. destruct (s_consumer s) eqn:Hpc;
  eauto using inv_idle_step, inv_gather_step, inv_dequeue_step, inv_read_step, inv_release_step,
    inv_collect_step.
Qed.

Lemma system_start_inv N memory msgs :
  0 < N < 65536 -> Z.of_nat (length memory) = N -> Z.of_nat (length msgs) < 65536 ->
  Forall (fun x => slot_mark x = 0) memory ->
  exists s, system_start N memory msgs = Some s /\ system_inv N msgs s.
Proof.
  intros HN Hmem Hmsgs Hz. unfold system_start, new_SharedQueue, sq_release. cbn.
  eexists. split; [reflexivity|].
  assert (forall i p, map (fun m => {| p_msg := m; p_pc := EnqTry 0 |}) msgs !! i = Some p ->
            p_pc p = EnqTry 0) as Hpc.
  { intros i p. rewrite list_lookup_fmap. destruct (msgs !! i); cbn; intros; by simplify_eq. }
  split; cbn [s_queue s_producers s_consumer s_log s_seen q_locked q_safe qr_head qr_tail qr_zero
    length released consumed consumer_ok]; try done; try (unfold is_range, is_u16; cbn; lia); try lia.
  - unfold sq_wf. cbn. lia.
  - pose proof (count_le waiting (map (fun m => {| p_msg := m; p_pc := EnqTry 0 |}) msgs)) as Hc.
    rewrite length_map in Hc. lia.
  - split_and!; intros k Hk; try lia.
    + apply slot_free_true. unfold sq_get. cbn.
      pose proof (Z.mod_pos_bound (u32 k) N ltac:(lia)) as Hb.
      destruct (arr_get_Some memory (u32 k mod N)) as [x Hx]; [lia|].
      exists x. split; [done|]. unfold arr_get in Hx. destruct (0 <=? _); [|done].
      by eapply Forall_lookup_1 in Hz.
    + destruct Hk as (i & p & Hi & E). by rewrite (Hpc i p Hi) in E.
  - intros i p Hi. unfold producer_ok. by rewrite (Hpc i p Hi).
  - intros i j p p' k Hi Hj C1. unfold claim_of in C1. by rewrite (Hpc i p Hi) in C1.
  - rewrite map_map. cbn. apply map_id.
Qed.

(** From a state of the invariant every schedule runs, to such a state; a
    schedule names producers that exist. *)
Definition actor_ok (n : nat) (a : option nat) : Prop :=
  match a with Some k => (k < n)%nat | None => True end.

Lemma run_schedule_inv num N msgs sched s :
  0 <= num -> Forall (fun x => slot_mark x <> 0) msgs ->
  Forall (actor_ok (length msgs)) sched -> system_inv N msgs s ->
  exists s', run_schedule num sched s = Some s' /\ system_inv N msgs s'.
Proof.
  intros Hnum Hmsgs Hs. revert s. induction Hs as [|a sched Ha Hs IH]; intros s Hinv.
  - by exists s.
  - cbn [run_schedule]. destruct a as [k|].
    + destruct (s_producers s !! k) as [p|] eqn:Hp.
      * destruct (inv_producer_step num N msgs s k p Hmsgs Hinv Hp) as (s1 & -> & Hinv1). by apply IH.
      * apply lookup_ge_None in Hp. rewrite <- (inv_msgs _ _ _ Hinv), length_map in Ha. cbn in Ha. lia.
    + destruct (inv_consumer_step num N msgs s Hnum Hinv) as (s1 & -> & Hinv1). by apply IH.
Qed.
End system.

(** ** The properties *)


(** Two producers, the second interrupting the first between its snapshot and
    its compare-and-swap, then the consumer. *)
Definition two_messages : list Message := [{| msg_id := 7; msg_data := 1 |}; {| msg_id := 8; msg_data := 2 |}].
Definition free_slots : list Message := [{| msg_id := 0; msg_data := 0 |}; {| msg_id := 0; msg_data := 0 |}].

Definition interrupted : list (option nat) :=
  [Some 0; Some 1; Some 1; Some 1; Some 0; Some 0; Some 0; Some 0]%nat ++ replicate 7 None.


Lemma enq_run_done {T} (n : nat) (q : SharedQueue T) p r :
  p_pc p = EnqDone r -> enq_run n q p = Some (q, p).
Proof. intros E. induction n as [|n IH]; [done|]. cbn [enq_run]. unfold enq_step. by rewrite E. Qed.

Lemma enq_run_step {T} (n : nat) (q : SharedQueue T) p q' p' :
  enq_step q p = Some (q', p') -> enq_run (S n) q p = enq_run n q' p'.
Proof. intros E. cbn [enq_run]. by rewrite E. Qed.

(** The first step of a call. *)
Lemma enq_try {T} N (q : SharedQueue T) msg :
  sq_max_size q = N ->
  enq_step q {| p_msg := msg; p_pc := EnqTry 0 |} =
    Some (q, {| p_msg := msg; p_pc := if N <? qr_size (q_locked q) +w 1 then EnqDone (-1)
                                      else EnqCas 0 (q_locked q) |}).
Proof. intros <-. unfold enq_step. cbn [p_pc]. by destruct (_ <? _ +w 1). Qed.

(** An uninterrupted [enqueue]: it returns -1 and leaves the queue alone
    exactly when the locked range is full, and otherwise returns the old tail,
    stores the whole message at that index and changes no other index. *)
Theorem sq_enqueue_spec {T} `{Slot T} N (q : SharedQueue T) msg :
  sq_wf N q -> is_range (q_locked q) -> qr_head (q_locked q) <= qr_tail (q_locked q) < 65535 ->
  if N <? qr_tail (q_locked q) - qr_head (q_locked q) + 1 then sq_enqueue q msg = Some (-1, q)
  else exists q', sq_enqueue q msg = Some (qr_tail (q_locked q), q') /\ sq_wf N q' /\
    q_safe q' = q_safe q /\ safe_tail_mtx q' = safe_tail_mtx q /\ locked_head_mtx q' = locked_head_mtx q /\
    q_locked q' = {| qr_head := qr_head (q_locked q); qr_tail := qr_tail (q_locked q) + 1 |} /\
    forall j, is_u32 j -> sq_get q' j =
      if decide (qr_tail (q_locked q) mod N = j mod N) then Some msg else sq_get q j.
Proof.
  intros Hwf Hr Hle. pose proof Hwf as (HN & Hm & Hl). unfold sq_enqueue.
  assert (0 <= qr_head (q_locked q)) as Hh0 by (destruct Hr as [Hh _]; unfold is_u16 in Hh; lia).
  rewrite (enq_run_step 31 _ _ _ _ (enq_try N q msg Hm)), (qr_size_ordered _ Hr) by lia.
  rewrite u32_small by (unfold is_u32; lia). destruct (N <? _); [by rewrite (enq_run_done _ _ _ (-1))|].
  erewrite (enq_run_step 30).
  2: { unfold enq_step. cbn [p_pc p_msg]. unfold val_compare_and_swap. rewrite !Z.eqb_refl.
       rewrite (of_ival_ival _ (is_range_set_tail _ _ Hr)). reflexivity. }
  set (q1 := with_locked q _).
  assert (sq_wf N q1) as Hwf1 by done.
  destruct (sq_put_spec N q1 (qr_tail (q_locked q)) msg Hwf1) as (q2 & E2 & Hwf2 & E1 & Es & Em1 & Em2 & Hg);
    [unfold is_u32; lia|].
  erewrite (enq_run_step 29); [|unfold enq_step; cbn [p_goto p_pc p_msg]; rewrite E2; reflexivity].
  rewrite (enq_run_done _ _ _ (qr_tail (q_locked q))) by done.
  exists q2. split_and!; auto.
  rewrite E1. unfold q1, set_tail. cbn [with_locked q_locked qr_head]. f_equal.
  apply u16_small. unfold is_u16. lia.
Qed.

(** Whatever the queue holds, an uninterrupted [enqueue] returns. *)
Lemma sq_enqueue_total {T} `{Slot T} N (q : SharedQueue T) msg :
  sq_wf N q -> is_range (q_locked q) -> exists r q', sq_enqueue q msg = Some (r, q') /\ sq_wf N q' /\ is_range (q_locked q').
Proof.
  intros Hwf Hr. pose proof Hwf as (HN & Hm & Hl). unfold sq_enqueue.
  rewrite (enq_run_step 31 _ _ _ _ (enq_try N q msg Hm)).
  destruct (N <? _); [rewrite (enq_run_done _ _ _ (-1)) by done; by exists (-1), q|].
  erewrite (enq_run_step 30).
  2: { unfold enq_step. cbn [p_pc p_msg]. unfold val_compare_and_swap. rewrite !Z.eqb_refl. reflexivity. }
  set (q1 := with_locked q _).
  assert (sq_wf N q1) as Hwf1 by done. destruct Hr as [_ Ht]. unfold is_u16 in Ht.
  destruct (sq_put_spec N q1 (qr_tail (q_locked q)) msg Hwf1) as (q2 & E2 & Hwf2 & E & _); [unfold is_u32; lia|].
  erewrite (enq_run_step 29); [|unfold enq_step; cbn [p_goto p_pc p_msg]; rewrite E2; reflexivity].
  rewrite (enq_run_done _ _ _ (qr_tail (q_locked q))) by done. eexists _, q2. split; [done|]. split; [done|].
  rewrite E. unfold is_range, is_u16, q1, of_ival, u16. cbn [with_locked q_locked qr_head qr_tail]. zdm.
Qed.

Definition small_queue (h t : Z) : SharedQueue Message :=
  {| sq_max_size := 2; q_locked := {| qr_head := h; qr_tail := t |}; q_safe := {| qr_head := h; qr_tail := h |};
     safe_tail_mtx := 0; locked_head_mtx := 0; sq_queue := free_slots |}.

Lemma sq_enqueue_spec_witness :
  (sq_enqueue (small_queue 3 5) {| msg_id := 7; msg_data := 1 |} = Some (-1, small_queue 3 5)) /\
  exists q', sq_enqueue (small_queue 3 4) {| msg_id := 7; msg_data := 1 |} = Some (4, q').
Proof.
  split.
  - apply (sq_enqueue_spec 2 (small_queue 3 5)); [unfold sq_wf; cbn|unfold is_range, is_u16; cbn|cbn]; lia.
  - destruct (sq_enqueue_spec 2 (small_queue 3 4) {| msg_id := 7; msg_data := 1 |}) as (q' & E & _);
      [unfold sq_wf; cbn; lia|unfold is_range, is_u16; cbn; lia|cbn; lia|by exists q'].
Defined.

(** The indices do not survive their wrap: [tail - head] is an [int]
    difference, so once the 16-bit tail has wrapped and the head has not, the
    length is close to 2^32 and [enqueue] answers "full" whatever the queue
    holds, and [size] of the safe range reads close to 2^32. *)
Theorem sq_enqueue_wrapped {T} `{Slot T} N (q : SharedQueue T) msg :
  sq_wf N q -> N < 65536 -> is_range (q_locked q) -> qr_tail (q_locked q) + 1 < qr_head (q_locked q) ->
  sq_enqueue q msg = Some (-1, q) /\ qr_size (q_locked q) >= 4294967296 - 65536.
Proof.
  intros (HN & Hm & Hl) Hsm [Hh Ht] Hw. unfold is_u16 in *.
  assert (qr_size (q_locked q) = qr_tail (q_locked q) - qr_head (q_locked q) + 4294967296) as E.
  { unfold qr_size, u32. rewrite <- (Z.mod_add _ 1) by lia. apply Z.mod_small. lia. }
  split; [|lia]. unfold sq_enqueue. rewrite (enq_run_step 31 _ _ _ _ (enq_try N q msg Hm)), E.
  rewrite u32_small by (unfold is_u32; lia).
  destruct (Z.ltb_spec N (qr_tail (q_locked q) - qr_head (q_locked q) + 4294967296 + 1)); [|lia].
  by rewrite (enq_run_done _ _ _ (-1)).
Qed.

Lemma sq_enqueue_wrapped_witness :
  sq_enqueue (small_queue 65535 0) {| msg_id := 7; msg_data := 1 |} = Some (-1, small_queue 65535 0).
Proof.
  apply (sq_enqueue_wrapped 2 (small_queue 65535 0));
    [unfold sq_wf; cbn|cbn|unfold is_range, is_u16; cbn|cbn]; lia.
Defined.

(** ** [MsgQueue] as a FIFO list *)

(** The queue of capacity [N] holds the unread messages [l]; [k] messages were
    dequeued and not released. *)
Definition mq_holds (N k : Z) (q : MsgQueue) (l : list Message) : Prop :=
  0 < N < 65536 /\ mq_max_size q = N /\ Z.of_nat (length (mq_queue q)) = N /\
  is_range (mq_locked q) /\ is_range (mq_safe q) /\
  qr_tail (mq_locked q) = qr_tail (mq_safe q) /\
  0 <= k /\ qr_head (mq_safe q) - qr_head (mq_locked q) = k /\
  k + Z.of_nat (length l) <= N /\
  qr_tail (mq_safe q) = qr_head (mq_safe q) + Z.of_nat (length l) /\
  forall i, 0 <= i < Z.of_nat (length l) -> mq_get q (qr_head (mq_safe q) + i) = l !! Z.to_nat i.

(** What a client reads from the range [dequeue] gave it. *)
Definition mq_read (q : MsgQueue) (r : QueueRange) : list (option Message) :=
  map (fun i => mq_get q i) (seqZ (qr_head r) (qr_tail r - qr_head r)).

Lemma mq_enqueue_step q msg N :
  mq_max_size q = N -> 0 < N -> Z.of_nat (length (mq_queue q)) = N -> is_range (mq_locked q) ->
  qr_tail (mq_locked q) < 65535 ->
  exists q', mq_enqueue q msg = Some q' /\ mq_max_size q' = N /\ length (mq_queue q') = length (mq_queue q) /\
    mq_locked q' = {| qr_head := qr_head (mq_locked q); qr_tail := qr_tail (mq_locked q) + 1 |} /\
    mq_safe q' = {| qr_head := qr_head (mq_safe q); qr_tail := qr_tail (mq_locked q) + 1 |} /\
    forall j, is_u32 j ->
      mq_get q' j = if decide (qr_tail (mq_locked q) mod N = j mod N) then Some msg else mq_get q j.
Proof.
  intros Hm HN Hl [Hh Ht] Hb. unfold is_u16 in *. unfold mq_enqueue. rewrite Hm.
  pose proof (Z.mod_pos_bound (qr_tail (mq_locked q)) N HN).
  destruct (arr_set (mq_queue q) (qr_tail (mq_locked q) mod N) msg) as [l|] eqn:Hs;
    [|rewrite arr_set_Some in Hs by lia; done].
  cbn [mbind option_bind]. eexists. split; [reflexivity|].
  cbn [mq_max_size mq_queue mq_locked mq_safe]. unfold set_tail. cbn [qr_head qr_tail].
  rewrite !u16_small by (unfold is_u16; rewrite ?u16_small by (unfold is_u16; lia); lia).
  split_and!; auto; [by eapply arr_set_length|].
  intros j Hj. unfold mq_get. cbn [mq_queue mq_max_size]. rewrite Hm, (u32_small j Hj).
  apply (arr_get_set _ _ _ _ _ Hs).
Qed.

Lemma mq_enqueue_fifo N k q l :
  mq_holds N k q l ->
  forall msg, k + Z.of_nat (length l) < N -> qr_tail (mq_safe q) < 65535 ->
    exists q', mq_enqueue q msg = Some q' /\ mq_holds N k q' (l ++ [msg]).
Proof.
  intros (HN & Hm & Hl & Hr1 & Hr2 & Et & Hk & Ek & Hfit & Els & Hget).
  pose proof Hr1 as [Hlh Hlt]. pose proof Hr2 as [Hsh Hst]. unfold is_u16 in Hlh, Hlt, Hsh, Hst.
  intros msg Hroom Hb.
  destruct (mq_enqueue_step q msg N) as (q' & E & E1 & E2 & E3 & E4 & Hg); try done; try lia.
  exists q'. split; [done|]. unfold mq_holds. rewrite E3, E4, length_app. cbn [length qr_head qr_tail].
  split_and!; try done; try lia; [unfold is_range, is_u16; cbn; lia..|].
  intros i Hi. rewrite Hg by (unfold is_u32; lia). case_decide as Hc.
  + rewrite lookup_app_r; [|apply (slots_distinct N (qr_head (mq_safe q))) in Hc; lia].
    apply (slots_distinct N (qr_head (mq_safe q))) in Hc; [|lia..].
    replace (_ - _)%nat with 0%nat by lia. done.
  + destruct (decide (i = Z.of_nat (length l))) as [->|]; [exfalso; apply Hc; f_equal; lia|].
    rewrite lookup_app_l by lia. apply Hget. lia.
Qed.

Lemma mq_dequeue_fifo N k q l :
  mq_holds N k q l ->
  forall num, is_u32 num ->
    let n := Z.min num (Z.of_nat (length l)) in
    let '(r, q') := mq_dequeue q num in
    mq_read q' r = map Some (take (Z.to_nat n) l) /\ mq_holds N (k + n) q' (drop (Z.to_nat n) l).
Proof.
  intros (HN & Hm & Hl & Hr1 & Hr2 & Et & Hk & Ek & Hfit & Els & Hget).
  pose proof Hr1 as [Hlh Hlt]. pose proof Hr2 as [Hsh Hst]. unfold is_u16 in Hlh, Hlt, Hsh, Hst.
  intros num Hnum n. unfold mq_dequeue. rewrite (qr_size_ordered _ Hr2) by lia.
  replace (qr_tail (mq_safe q) - qr_head (mq_safe q)) with (Z.of_nat (length l)) by lia.
  destruct (Z.eqb_spec (Z.of_nat (length l)) 0) as [E0|E0].
  { destruct l; [|cbn in E0; lia]. rewrite take_nil, drop_nil. split; [done|].
    replace (k + n) with k by (unfold n, is_u32 in *; cbn; lia). unfold mq_holds. auto 20. }
  set (m := if _ <? num then _ else _).
  assert (m = n) as -> by (unfold m, n; split_ltb; lia).
  assert (0 <= n <= Z.of_nat (length l)) by (unfold n, is_u32 in *; lia).
  unfold set_head. cbn [qr_head qr_tail]. rewrite (u16_small (qr_head _ + n)) by (unfold is_u16; lia).
  split.
  + unfold mq_read. cbn [qr_head qr_tail]. rewrite Z.add_simpl_l.
    apply list_eq. intros i. rewrite !list_lookup_fmap.
    destruct (decide (Z.of_nat i < n)) as [Hi|Hi].
    * rewrite lookup_seqZ_lt by lia. rewrite lookup_take_lt by lia. cbn.
      change (mq_get _ ?j) with (mq_get q j). rewrite Hget by lia. rewrite Nat2Z.id.
      destruct (l !! i) eqn:Hli; [done|]. apply lookup_ge_None in Hli. lia.
    * rewrite lookup_seqZ_ge by lia. rewrite lookup_take_ge by lia. done.
  + unfold mq_holds. cbn [mq_max_size mq_queue mq_locked mq_safe qr_head qr_tail].
    rewrite length_drop. split_and!; try done; try lia; [unfold is_range, is_u16; cbn; lia..|].
    intros i Hi. change (mq_get _ ?j) with (mq_get q j). rewrite lookup_drop, <- Z.add_assoc, Hget by lia.
    f_equal. lia.
Qed.

Lemma mq_dequeue_size N k q l num :
  mq_holds N k q l -> is_u32 num ->
  qr_tail (fst (mq_dequeue q num)) - qr_head (fst (mq_dequeue q num)) = Z.min num (Z.of_nat (length l)).
Proof.
  intros (HN & Hm & Hl & Hr1 & Hr2 & Et & Hk & Ek & Hfit & Els & Hget) Hnum.
  pose proof Hr2 as [Hsh Hst]. unfold is_u16, is_u32 in *. unfold mq_dequeue. rewrite (qr_size_ordered _ Hr2) by lia.
  replace (qr_tail (mq_safe q) - qr_head (mq_safe q)) with (Z.of_nat (length l)) by lia.
  destruct (Z.eqb_spec (Z.of_nat (length l)) 0) as [E0|E0]; [cbn; lia|].
  unfold set_head. cbn [fst qr_head qr_tail]. split_ltb; rewrite u16_small by (unfold is_u16; lia); lia.
Qed.

Lemma mq_release_fifo N k q l :
  mq_holds N k q l -> forall num, 0 <= num <= k -> mq_holds N (k - num) (mq_release q num) l.
Proof.
  intros (HN & Hm & Hl & Hr1 & Hr2 & Et & Hk & Ek & Hfit & Els & Hget).
  pose proof Hr1 as [Hlh Hlt]. pose proof Hr2 as [Hsh Hst]. unfold is_u16 in Hlh, Hlt, Hsh, Hst.
  intros num Hnum. unfold mq_release. rewrite u32_small by (unfold is_u32; lia).
  destruct (Z.ltb_spec (qr_head (mq_safe q) - qr_head (mq_locked q)) num); [lia|].
  unfold mq_holds, set_head. cbn [mq_max_size mq_queue mq_locked mq_safe qr_head qr_tail].
  rewrite u16_small by (unfold is_u16; lia).
  split_and!; try done; try lia. unfold is_range, is_u16; cbn; lia.
Qed.


Definition mq_small : MsgQueue :=
  {| mq_max_size := 2; mq_locked := {| qr_head := 3; qr_tail := 4 |};
     mq_safe := {| qr_head := 3; qr_tail := 4 |}; mq_queue := two_messages |}.


(** [enqueue] of a process queue has no full test: with [N] unread messages
    it overwrites the oldest one. *)
Theorem mq_overwrites N q l msg :
  mq_holds N 0 q l -> Z.of_nat (length l) = N -> qr_tail (mq_safe q) < 65535 ->
  exists q', mq_enqueue q msg = Some q' /\ mq_size q' = N + 1 /\
    mq_get q' (qr_head (mq_safe q')) = Some msg.
Proof.
  intros (HN & Hm & Hl & Hr1 & Hr2 & Et & Hk & Ek & Hfit & Els & Hget) Hfull Hb.
  pose proof Hr2 as [Hsh _]. unfold is_u16 in Hsh.
  destruct (mq_enqueue_step q msg N) as (q' & E & E1 & E2 & E3 & E4 & Hg); try done; try lia.
  exists q'. split_and!; [done|..].
  - unfold mq_size. rewrite qr_size_ordered; rewrite E4; cbn; [lia|unfold is_range, is_u16; cbn; lia|lia].
  - rewrite E4. cbn [qr_head]. rewrite Hg, decide_True; [done| |unfold is_u32; lia].
    rewrite Et, Els, Hfull, <- (Z.mul_1_l N) at 1. rewrite Z.mod_add; lia.
Qed.

Lemma mq_overwrites_witness :
  exists q', mq_enqueue {| mq_max_size := 2; mq_locked := {| qr_head := 3; qr_tail := 5 |};
                 mq_safe := {| qr_head := 3; qr_tail := 5 |}; mq_queue := two_messages |}
               {| msg_id := 9; msg_data := 9 |} = Some q' /\ mq_size q' = 2 + 1 /\
    mq_get q' (qr_head (mq_safe q')) = Some {| msg_id := 9; msg_data := 9 |}.
Proof.
  apply (mq_overwrites 2 _ [{| msg_id := 8; msg_data := 2 |}; {| msg_id := 7; msg_data := 1 |}]); [|cbn; lia..].
  unfold mq_holds. split_and!; try (unfold is_range, is_u16; cbn; lia).
  intros i Hi. cbn in Hi. assert (i = 0 \/ i = 1) as [-> | ->] by lia; reflexivity.
Defined.
