(* ===== verification/Shapes.v ===== *)
(** * Geometry and colours: [include/gui/shapes.h], [include/gui/colors.h]

    Rectangles are half-open: [rl <= x < rr], [rt <= y < rb].  Coordinates are
    [int]s; the sums below never overflow for on-screen values and signed
    overflow is undefined in the source, so they are plain integers here. *)
From S2P Require Import Prelude.

Definition CHAR_WIDTH : Z := 8.
Definition CHAR_HEIGHT : Z := 16.
Definition CHAR_SPACING_X : Z := 8.
Definition CHAR_SPACING_Y : Z := 20.

Definition MIN (x y : Z) : Z := if x <? y then x else y.
Definition MAX (x y : Z) : Z := if y <? x then x else y.

Record Rect := { rl : Z; rt : Z; rr : Z; rb : Z }.

#[export]
Instance Rect_eq_dec : EqDecision Rect.
Proof. solve_decision. Defined.

(** [clamp_in_to_rect(x, y, rect)]: the new [x] and [y]. *)
Definition clamp_in_to_rect (x y : Z) (rect : Rect) : Z * Z :=
  (if x <? rl rect then rl rect else if rr rect <=? x then rr rect else x,
   if y <? rt rect then rt rect else if rb rect <=? y then rb rect else y).

(** [rect_intersect(src, dst)]: the answer and the new [*dst]. *)
Definition rect_intersect (src dst : Rect) : bool * Rect :=
  let l' := MAX (rl src) (rl dst) in
  let r' := MIN (rr src) (rr dst) in
  if r' <? l' then (false, dst) else
  let t' := MAX (rt src) (rt dst) in
  let b' := MIN (rb src) (rb dst) in
  if b' <? t' then (false, dst) else (true, {| rl := l'; rt := t'; rr := r'; rb := b' |}).

(** [rect_union(A, B, dst)]: the rectangles of [dst] that are returned. *)
Definition rect_union (A B : Rect) : list Rect :=
  if negb (fst (rect_intersect A B)) then [A; B] else
  let '(hi, lo) := if rt A <? rt B then (A, B) else (B, A) in
  let dst0 := {| rl := rl hi; rt := rt hi; rr := rr hi; rb := rt lo |} in
  let dst1_t := rt lo in
  let '(hi, lo) := if rb A <? rb B then (A, B) else (B, A) in
  let dst1 := {| rl := if rl A <? rl B then rl A else rl B; rt := dst1_t;
                 rr := if rr B <? rr A then rr A else rr B; rb := rb hi |} in
  let dst2 := {| rl := rl lo; rt := rb hi; rr := rr lo; rb := rb lo |} in
  [dst0; dst1; dst2].

(** ** Colours: 5-5-5 pixels, a 3-bit alpha in bits 16 to 18 *)

Definition BLACK : Z := 0.
Definition GREY : Z := 0x3DEF.
Definition WHITE : Z := 0x7FFF.
Definition RED : Z := 0x7C00.
Definition BLUE : Z := 0x01F.
Definition YELLOW : Z := 0x7FE0.
Definition DARK_RED : Z := 0x3C00.
Definition DARK_GREEN : Z := 0x01E0.
Definition DARK_BLUE : Z := 0x0F.

Definition GET_ALPHA (C : Z) : Z := Z.land C (Z.shiftl 7 16).
Definition SET_ALPHA (C : Z) : Z := Z.shiftl (Z.land C 7) 16.

Definition fast_blend (x y : Z) : Z :=
  let x := Z.land x 31711 in
  let y := Z.land y 31711 in
  u16 (Z.shiftr (x + y) 1).

Definition fast_blend_factor (x y factor : Z) : Z :=
  let maskbits := (1 <<w factor) -w 1 in
  let mask := ~w (maskbits +w (maskbits <<w 5) +w (maskbits <<w 10)) in
  let x := u16 (Z.land x mask) in
  let y := u16 (Z.land y mask) in
  u16 (((x *w maskbits) +w y) >>w factor).

(** ** Points of rectangles *)

Definition in_rect (x y : Z) (R : Rect) : bool :=
  (rl R <=? x) && (x <? rr R) && (rt R <=? y) && (y <? rb R).

Lemma in_rect_true x y R : in_rect x y R = true <-> rl R <= x < rr R /\ rt R <= y < rb R.
Proof. unfold in_rect. rewrite !andb_true_iff, !Z.leb_le, !Z.ltb_lt. lia. Qed.

Lemma in_rect_spec x y R : reflect (rl R <= x < rr R /\ rt R <= y < rb R) (in_rect x y R).
Proof. apply iff_reflect. by rewrite in_rect_true. Qed.

Lemma MIN_spec x y : MIN x y = Z.min x y.
Proof. unfold MIN. split_ltb; lia. Qed.

Lemma MAX_spec x y : MAX x y = Z.max x y.
Proof. unfold MAX. split_ltb; lia. Qed.

(** [rect_intersect] computes the common points; when it answers [false] there
    are none and [dst] is untouched. *)
Lemma rect_intersect_spec A B x y :
  let '(ok, R) := rect_intersect A B in
  (ok = false -> R = B) /\
  (in_rect x y A && in_rect x y B = true <-> ok = true /\ in_rect x y R = true).
Proof.
  unfold rect_intersect. rewrite !MIN_spec, !MAX_spec.
  destruct (Z.ltb_spec (Z.min (rr A) (rr B)) (Z.max (rl A) (rl B)));
    [|destruct (Z.ltb_spec (Z.min (rb A) (rb B)) (Z.max (rt A) (rt B)))];
    (split; [done|]); rewrite andb_true_iff, !in_rect_true; cbn [rl rt rr rb]; lia.
Qed.

Lemma rect_intersect_ordered A B :
  fst (rect_intersect A B) = true ->
  rl A <= rr B /\ rl B <= rr A /\ rt A <= rb B /\ rt B <= rb A /\ rl A <= rr A /\ rl B <= rr B /\ rt A <= rb A /\ rt B <= rb B.
Proof.
  unfold rect_intersect. rewrite !MIN_spec, !MAX_spec.
  destruct (Z.ltb_spec (Z.min (rr A) (rr B)) (Z.max (rl A) (rl B))); [done|].
  destruct (Z.ltb_spec (Z.min (rb A) (rb B)) (Z.max (rt A) (rt B))); [done|]. lia.
Qed.

(** The rectangles of [rect_union] cover both arguments, no point lies in
    two of them, and none leaves the bounding box; a point they cover without
    being in [A] or [B] is in a row the two share (the result is not the exact
    union its comment announces). *)
Theorem rect_union_cover A B x y :
  rl A <= rr A -> rl B <= rr B -> rt A <= rb A -> rt B <= rb B ->
  let U := rect_union A B in
  (in_rect x y A || in_rect x y B = true -> existsb (in_rect x y) U = true) /\
  (length (List.filter (in_rect x y) U) <= 1)%nat /\
  (existsb (in_rect x y) U = true -> in_rect x y A || in_rect x y B = false ->
     Z.max (rt A) (rt B) <= y < Z.min (rb A) (rb B) /\ Z.min (rl A) (rl B) <= x < Z.max (rr A) (rr B)).
Proof.
  intros H1 H2 H3 H4. cbv zeta. unfold rect_union.
  pose proof (rect_intersect_spec A B x y) as Hi. pose proof (rect_intersect_ordered A B) as Ho.
  destruct (rect_intersect A B) as [[] R]; cbn [fst negb] in *.
  - destruct Hi as [_ _]. specialize (Ho eq_refl).
    destruct (Z.ltb_spec (rt A) (rt B)), (Z.ltb_spec (rb A) (rb B)), (Z.ltb_spec (rl A) (rl B)),
      (Z.ltb_spec (rr B) (rr A)); cbn [existsb List.filter];
    destruct (in_rect_spec x y A), (in_rect_spec x y B);
    repeat match goal with |- context [in_rect x y ?R] => destruct (in_rect_spec x y R) end;
    cbn in *; try (split_and!; intros; lia || discriminate).
  - destruct Hi as [_ Hi]. cbn [existsb List.filter]. rewrite orb_false_r.
    destruct (in_rect x y A), (in_rect x y B); cbn in *; split_and!; intros; try (lia || done).
Qed.

Lemma rect_union_cover_witness :
  let U := rect_union {| rl := 0; rt := 0; rr := 4; rb := 4 |} {| rl := 2; rt := 1; rr := 6; rb := 5 |} in
  U = [ {| rl := 0; rt := 0; rr := 4; rb := 1 |}; {| rl := 0; rt := 1; rr := 6; rb := 4 |};
        {| rl := 2; rt := 4; rr := 6; rb := 5 |} ] /\
  existsb (in_rect 3 2) U = true.
Proof.
  split; [reflexivity|].
  apply (rect_union_cover {| rl := 0; rt := 0; rr := 4; rb := 4 |} {| rl := 2; rt := 1; rr := 6; rb := 5 |} 3 2);
    cbn; (lia || reflexivity).
Defined.
