(* ===== verification/Vga.v ===== *)
(** * Drawing and the text terminal: [system/devices/vga.cpp],
    [system/devices/terminal.cpp]

    The frame buffer is the function from pixel indices to 16-bit pixels that
    [GET_PIXEL]/[SET_PIXEL] index with [VGA_PIXEL_OFFSET]; the resolution and the
    BIOS font ([ASCII_MAP], signed characters) are parameters.  An index outside
    [0 .. W * H - 1] is memory that is not the screen. *)
From S2P Require Import Prelude Shapes.

Definition TERMINAL_WIDTH : Z := 80.
Definition TERMINAL_HEIGHT : Z := 25.

(** [for (int i = lo; i < hi; i++) body]. *)
Definition for_range {St} (lo hi : Z) (body : Z -> St -> St) (s : St) : St :=
  foldl (fun s i => body i s) s (seqZ lo (hi - lo)).

Definition framebuffer := Z -> Z.

Section vga.
Context (VGA_WIDTH VGA_HEIGHT : Z) (ASCII_MAP : Z -> Z).
Implicit Types (fb : framebuffer).

Definition screen_rect : Rect := {| rl := 0; rt := 0; rr := s32 VGA_WIDTH; rb := s32 VGA_HEIGHT |}.

(** [(int) (Y * VGA_WIDTH + X)], in unsigned arithmetic. *)
Definition VGA_PIXEL_OFFSET (x y : Z) : Z := s32 ((u32 y *w VGA_WIDTH) +w u32 x).

Definition GET_PIXEL fb (x y : Z) : Z := fb (VGA_PIXEL_OFFSET x y).
Definition SET_PIXEL (x y c : Z) fb : framebuffer :=
  fun i => if i =? VGA_PIXEL_OFFSET x y then u16 c else fb i.

Definition clip_to_screen (x y : Z) : Z * Z := clamp_in_to_rect x y screen_rect.

Definition pset (x y col : Z) fb : framebuffer :=
  let '(x, y) := clip_to_screen x y in
  let alpha := GET_ALPHA col in
  if negb (alpha =? 0)
  then SET_PIXEL x y (fast_blend_factor (GET_PIXEL fb x y) (u16 col) (Z.shiftr alpha 16)) fb
  else SET_PIXEL x y col fb.

Definition row_line (y left right col : Z) fb : framebuffer :=
  for_range left right (fun x => SET_PIXEL x y col) fb.

Definition column_line (x top bottom col : Z) fb : framebuffer :=
  for_range top bottom (fun y => SET_PIXEL x y col) fb.

(** The rectangle after [clip_to_screen] of both corners. *)
Definition clip_corners (rect : Rect) : Rect :=
  let '(l, t) := clip_to_screen (rl rect) (rt rect) in
  let '(r, b) := clip_to_screen (rr rect) (rb rect) in
  {| rl := l; rt := t; rr := r; rb := b |}.

Definition rect_fill (rect : Rect) (col : Z) fb : framebuffer :=
  let rect := clip_corners rect in
  let alpha := Z.land col 0x00070000 in
  if negb (alpha =? 0) then
    for_range (rt rect) (rb rect) (fun y => for_range (rl rect) (rr rect) (fun x fb =>
      SET_PIXEL x y (fast_blend_factor (GET_PIXEL fb x y) (u16 col) (Z.shiftr alpha 16)) fb)) fb
  else
    for_range (rt rect) (rb rect) (fun y => for_range (rl rect) (rr rect) (fun x =>
      SET_PIXEL x y col)) fb.

Definition rect_line (rect : Rect) (col : Z) fb : framebuffer :=
  let rect := clip_corners rect in
  let fb := row_line (rt rect) (rl rect) (rr rect) col fb in
  let fb := row_line (rb rect) (rl rect) (rr rect) col fb in
  let fb := column_line (rl rect) (rt rect) (rb rect) col fb in
  column_line (rr rect) (rt rect) (rb rect) col fb.

(** The inner loop of [render_char_xy_clipped]: the shifted bits and the pixels. *)
Definition render_row (x y cy color : Z) (textrect : Rect) (bits : Z) fb : framebuffer :=
  snd (for_range (rl textrect) (rr textrect) (fun cx '(bits, fb) =>
    let fb := if negb (Z.land bits 0x80 =? 0) then SET_PIXEL (x + cx) (y + cy) color fb else fb in
    (s8 (Z.shiftl bits 1), fb)) (bits, fb)).

Definition render_char_xy_clipped (c x y color : Z) (clip : Rect) fb : framebuffer :=
  let textrect := {| rl := 0; rt := 0; rr := CHAR_WIDTH; rb := CHAR_HEIGHT |} in
  let cliprect := {| rl := rl clip - x; rt := rt clip - y; rr := rr clip - x; rb := rb clip - y |} in
  let '(ok, textrect) := rect_intersect cliprect textrect in
  if negb ok then fb else
  let map_index := c * CHAR_HEIGHT in
  for_range (rt textrect) (rb textrect) (fun cy =>
    render_row x y cy color textrect (s8 (Z.shiftl (ASCII_MAP (map_index + cy)) (rl textrect)))) fb.

Definition render_char_xy (c x y color : Z) fb : framebuffer :=
  render_char_xy_clipped c x y color screen_rect fb.

(** [render_text_xy_clipped] on the [len] characters of [str]: their number and the pixels. *)
Definition render_text_xy_clipped (str : list Z) (x y color : Z) (clip : Rect) fb : Z * framebuffer :=
  foldl (fun '(i, fb) c => (i + 1, render_char_xy_clipped c (x + i * CHAR_SPACING_X) y color clip fb)) (0, fb) str.

Definition render_text_xy (str : list Z) (x y color : Z) fb : Z * framebuffer :=
  foldl (fun '(i, fb) c => (i + 1, render_char_xy c (x + i * CHAR_SPACING_X) y color fb)) (0, fb) str.

(** A [ushort [w][h]] buffer. *)
Definition get_pixels (start_x start_y w h : Z) fb (dst : Z -> Z -> Z) : Z -> Z -> Z :=
  for_range 0 w (fun x => for_range 0 h (fun y dst =>
    fun i j => if (i =? x) && (j =? y) then GET_PIXEL fb (x + start_x) (y + start_y) else dst i j)) dst.

Definition put_pixels (start_x start_y w h : Z) (src : Z -> Z -> Z) fb : framebuffer :=
  for_range 0 w (fun x => for_range 0 h (fun y fb =>
    if negb (src x y =? 1) then SET_PIXEL (x + start_x) (y + start_y) (src x y) fb else fb)) fb.

(** ** The terminal *)

Record TerminalCursor := { cur_x : Z; cur_y : Z }.

Definition wrap (c : TerminalCursor) : TerminalCursor :=
  let y := cur_y c +w cur_x c / TERMINAL_WIDTH in
  {| cur_x := cur_x c mod TERMINAL_WIDTH; cur_y := y mod TERMINAL_HEIGHT |}.

Record VGATerminal := { terminal_color : Z; cursor : TerminalCursor; screen : framebuffer }.

Definition with_cursor (T : VGATerminal) (c : TerminalCursor) : VGATerminal :=
  {| terminal_color := terminal_color T; cursor := c; screen := screen T |}.
Definition with_color (T : VGATerminal) (col : Z) : VGATerminal :=
  {| terminal_color := col; cursor := cursor T; screen := screen T |}.
Definition with_screen (T : VGATerminal) fb : VGATerminal :=
  {| terminal_color := terminal_color T; cursor := cursor T; screen := fb |}.

Definition terminal_init fb : VGATerminal :=
  {| terminal_color := DARK_GREEN; cursor := {| cur_x := 0; cur_y := 0 |}; screen := fb |}.

Definition render_char (c : Z) (T : VGATerminal) : VGATerminal :=
  let T := with_cursor T (wrap (cursor T)) in
  let pixel_x := s32 (cur_x (cursor T) *w CHAR_SPACING_X) in
  let pixel_y := s32 (cur_y (cursor T) *w CHAR_SPACING_Y) in
  let T := with_screen T (rect_fill {| rl := pixel_x; rt := pixel_y; rr := pixel_x + CHAR_SPACING_X;
                                       rb := pixel_y + CHAR_SPACING_Y |} BLACK (screen T)) in
  let T := with_screen T (render_char_xy c pixel_x pixel_y (terminal_color T) (screen T)) in
  let T := with_cursor T {| cur_x := cur_x (cursor T) +w 1; cur_y := cur_y (cursor T) |} in
  with_cursor T (wrap (cursor T)).

Definition render_newline (T : VGATerminal) : VGATerminal :=
  let T := with_cursor T (wrap (cursor T)) in
  let T := for_range (s32 (cur_x (cursor T))) (TERMINAL_WIDTH - 1) (fun _ => render_char 32) T in
  let T := with_cursor T {| cur_x := 0; cur_y := cur_y (cursor T) +w 1 |} in
  let old_cursor_y := cur_y (cursor T) in
  let old_terminal_color := terminal_color T in
  let T := with_color T DARK_RED in
  let T := for_range 1 TERMINAL_WIDTH (fun _ => render_char 61) T in
  let T := with_color T old_terminal_color in
  let T := with_cursor T {| cur_x := 0; cur_y := old_cursor_y |} in
  with_cursor T (wrap (cursor T)).

(** [render_text(buffer, length)] on the characters of the buffer: the result
    and the terminal. *)
Fixpoint render_text (buffer : list Z) (T : VGATerminal) : Z * VGATerminal :=
  match buffer with
  | [] => (0, T)
  | c :: rest =>
      if c =? 0 then (0, T) else
      let '(i, T) := render_text rest (if c =? 10 then render_newline T else render_char c T) in
      (i + 1, T)
  end.

Definition terminal_seek (offset : Z) : Z := -1.
Definition terminal_read (length : Z) : Z := -1.
Definition terminal_write (buffer : list Z) (T : VGATerminal) : Z * VGATerminal := render_text buffer T.
End vga.

(** ** Lemmas *)

Lemma for_range_empty {St} lo hi body (s : St) : hi <= lo -> for_range lo hi body s = s.
Proof. intros H. unfold for_range. by rewrite seqZ_nil by lia. Qed.

Lemma for_range_inv {St} (P : Z -> St -> Prop) lo hi body s :
  P lo s -> lo <= hi -> (forall i s, lo <= i < hi -> P i s -> P (i + 1) (body i s)) ->
  P hi (for_range lo hi body s).
Proof.
  intros H0 Hle Hb. unfold for_range.
  remember (Z.to_nat (hi - lo)) as n eqn:Hn. revert lo s H0 Hle Hb Hn.
  induction n as [|n IH]; intros lo s H0 Hle Hb Hn.
  - rewrite seqZ_nil by lia. cbn. by replace hi with lo by lia.
  - rewrite seqZ_cons by lia. cbn [foldl].
    replace (Z.pred (hi - lo)) with (hi - (lo + 1)) by lia. rewrite <- Z.add_1_r.
    apply IH; [apply Hb; [lia|done]|lia|intros; apply Hb; [lia|done]|lia].
Qed.

(** A loop nest whose body at [(u, v)] updates the cell [(u, v)] alone updates
    every cell of the range once. *)
Lemma nest_spec {St V} (at_ : St -> Z -> Z -> V) (dom : Z -> Z -> Prop) (g : Z -> Z -> V -> V)
    (body : Z -> Z -> St -> St) a b c d s :
  (forall u v s i j, a <= u < b -> c <= v < d -> dom i j ->
     at_ (body u v s) i j = if (i =? u) && (j =? v) then g u v (at_ s i j) else at_ s i j) ->
  forall i j, dom i j ->
    at_ (for_range a b (fun u => for_range c d (body u)) s) i j =
      if (a <=? i) && (i <? b) && (c <=? j) && (j <? d) then g i j (at_ s i j) else at_ s i j.
Proof.
  intros Hbody i j Hd.
  assert (forall u s, a <= u < b -> at_ (for_range c d (body u) s) i j =
    if (i =? u) && (c <=? j) && (j <? d) then g i j (at_ s i j) else at_ s i j) as Hrow.
  { intros u s0 Hu. destruct (Z.le_gt_cases d c) as [Hle|Hlt].
    { rewrite for_range_empty by done. split_ltb; cbn; done || lia. }
    apply (for_range_inv (fun v s => at_ s i j =
      if (i =? u) && (c <=? j) && (j <? v) then g i j (at_ s0 i j) else at_ s0 i j)); [|lia|].
    - split_ltb; cbn; done || lia.
    - intros v s1 Hv IH. rewrite Hbody, IH by done.
      destruct (Z.eqb_spec i u) as [->|]; [|done].
      split_ltb; cbn; subst; done || lia. }
  destruct (Z.le_gt_cases b a) as [Hle|Hlt].
  { rewrite for_range_empty by done. split_ltb; cbn; done || lia. }
  apply (for_range_inv (fun u s' => at_ s' i j =
    if (a <=? i) && (i <? u) && (c <=? j) && (j <? d) then g i j (at_ s i j) else at_ s i j)); [|lia|].
  - split_ltb; cbn; done || lia.
  - intros u s' Hu IH. rewrite Hrow, IH by done. split_ltb; cbn; subst; done || lia.
Qed.

Section pixels.
Context (W H : Z) (HW : 0 < W) (HH : 0 < H) (HWH : (H + 1) * W < 2147483648).
Implicit Types (fb : framebuffer).

Lemma offset_eq x y : 0 <= x <= W -> 0 <= y <= H -> x + y * W < 2147483648 ->
  VGA_PIXEL_OFFSET W x y = y * W + x.
Proof.
  intros Hx Hy Hs. unfold VGA_PIXEL_OFFSET.
  assert (y * W <= H * W) by nia.
  rewrite (u32_small y), (u32_small x), (u32_small (y * W)) by (unfold is_u32; nia).
  rewrite u32_small by (unfold is_u32; nia). rewrite s32_small by (unfold is_s32; nia). lia.
Qed.

Lemma pixel_inj x y x' y' : 0 <= x < W -> 0 <= x' < W -> y * W + x = y' * W + x' -> x = x' /\ y = y'.
Proof.
  intros Hx Hx' E. assert (y = y'); [|subst; lia].
  destruct (Z.lt_trichotomy y y') as [?|[?|?]]; [exfalso; nia|done|exfalso; nia].
Qed.

Lemma set_pixel_at c fb x y px py :
  0 <= px < W -> 0 <= x < W -> 0 <= y < H ->
  SET_PIXEL W x y c fb (py * W + px) = if (px =? x) && (py =? y) then u16 c else fb (py * W + px).
Proof.
  intros Hp Hx Hy. unfold SET_PIXEL. rewrite offset_eq by (try lia; nia).
  destruct (Z.eqb_spec (py * W + px) (y * W + x)) as [E|E].
  - apply pixel_inj in E as [-> ->]; [|done..]. by rewrite !Z.eqb_refl.
  - destruct (Z.eqb_spec px x), (Z.eqb_spec py y); subst; done.
Qed.

Lemma clamp_coord v M :
  0 <= M ->
  exists c, (if v <? 0 then 0 else if M <=? v then M else v) = c /\ 0 <= c <= M /\
    forall p, 0 <= p < M -> (c <=? p) = (v <=? p) /\ (p <? c) = (p <? v).
Proof.
  intros HM. eexists. split; [reflexivity|]. split; [split_ltb; lia|].
  intros p Hp. destruct (Z.ltb_spec v 0), (Z.leb_spec M v); split; split_ltb; lia.
Qed.

Lemma clip_corners_spec R x y : 0 <= x < W -> W < 2147483648 -> H < 2147483648 ->
  let C := clip_corners W H R in
  0 <= rl C <= W /\ 0 <= rr C <= W /\ 0 <= rt C <= H /\ 0 <= rb C <= H /\
  in_rect x y C = in_rect x y R && (0 <=? y) && (y <? H).
Proof.
  intros Hx HbW HbH. unfold clip_corners, clip_to_screen, clamp_in_to_rect, screen_rect, in_rect.
  cbn [rl rt rr rb]. rewrite !s32_small by (unfold is_s32; lia).
  destruct (clamp_coord (rl R) W) as (c1 & -> & B1 & E1); [lia|].
  destruct (clamp_coord (rr R) W) as (c2 & -> & B2 & E2); [lia|].
  destruct (clamp_coord (rt R) H) as (c3 & -> & B3 & E3); [lia|].
  destruct (clamp_coord (rb R) H) as (c4 & -> & B4 & E4); [lia|].
  cbn [rl rt rr rb]. split_and!; try lia.
  destruct (E1 x Hx) as [-> _], (E2 x Hx) as [_ ->].
  destruct (Z.leb_spec 0 y), (Z.ltb_spec y H); rewrite ?andb_false_r, ?andb_true_r.
  - destruct (E3 y (conj H0 H1)) as [-> _], (E4 y (conj H0 H1)) as [_ ->]. done.
  - destruct (Z.ltb_spec y c4); [lia|]. by rewrite andb_false_r.
  - destruct (Z.leb_spec c3 y); [lia|]. by rewrite andb_false_r.
  - lia.
Qed.
End pixels.

(** ** The properties *)

Lemma u16_blend x y k : u16 (fast_blend_factor x y k) = fast_blend_factor x y k.
Proof. unfold fast_blend_factor. cbv zeta. apply u16_small, u16_range. Qed.

(** The pixel [rect_fill] leaves where there was [old]. *)
Definition fill_pixel (col old : Z) : Z :=
  if GET_ALPHA col =? 0 then u16 col else fast_blend_factor old (u16 col) (Z.shiftr (GET_ALPHA col) 16).

(** [rect_fill] stores the colour (or blends it, once) in exactly the pixels
    of the screen that lie in the rectangle; no other index of the frame buffer
    changes, on the screen or beyond it. *)
Theorem rect_fill_spec W H rect col fb x y :
  0 < W -> 0 < H -> (H + 1) * W < 2147483648 -> 0 <= x < W ->
  rect_fill W H rect col fb (y * W + x) =
    if in_rect x y rect && (0 <=? y) && (y <? H) then fill_pixel col (fb (y * W + x))
    else fb (y * W + x).
Proof.
  intros HW HH HWH Hx.
  destruct (clip_corners_spec W H HW HH rect x y Hx ltac:(nia) ltac:(nia)) as (B1 & B2 & B3 & B4 & E).
  rewrite <- E. unfold rect_fill, fill_pixel. change (Z.land col 458752) with (GET_ALPHA col).
  set (R := clip_corners W H rect) in *. clearbody R.
  assert (in_rect x y R = (rt R <=? y) && (y <? rb R) && (rl R <=? x) && (x <? rr R)) as ->
    by (unfold in_rect; btauto).
  destruct (Z.eqb_spec (GET_ALPHA col) 0) as [Ha|Ha]; cbn [negb].
  - apply (nest_spec (fun s y x => s (y * W + x)) (fun _ x => 0 <= x < W) (fun _ _ _ => u16 col)
      (fun y x => SET_PIXEL W x y col)); [|done].
    intros py px s j i Hpy Hpx Hi. rewrite (set_pixel_at W H) by lia. by rewrite andb_comm.
  - apply (nest_spec (fun s y x => s (y * W + x)) (fun _ x => 0 <= x < W)
      (fun _ _ old => fast_blend_factor old (u16 col) (Z.shiftr (GET_ALPHA col) 16))
      (fun y x fb => SET_PIXEL W x y
         (fast_blend_factor (GET_PIXEL W fb x y) (u16 col) (Z.shiftr (GET_ALPHA col) 16)) fb)); [|done].
    intros py px s j i Hpy Hpx Hi. rewrite (set_pixel_at W H) by lia. rewrite andb_comm, u16_blend.
    destruct (Z.eqb_spec j py), (Z.eqb_spec i px); cbn [andb]; subst; try done.
    unfold GET_PIXEL. by rewrite (offset_eq W H) by nia.
Qed.

Lemma rect_fill_spec_witness :
  rect_fill 4 3 {| rl := -1; rt := 1; rr := 2; rb := 9 |} RED (fun _ => 0) (2 * 4 + 1) = RED.
Proof. by rewrite (rect_fill_spec 4 3 _ RED (fun _ => 0) 1 2) by lia. Defined.

(** [pset] clamps its point to the inclusive bounds [0..W], [0..H]: for a
    point of the screen it stores that pixel alone, and for a point below the
    screen it stores outside the frame buffer. *)
Theorem pset_spec W H x y col fb :
  0 < W -> 0 < H -> (H + 1) * W + W < 2147483648 ->
  let X := Z.max 0 (Z.min x W) in let Y := Z.max 0 (Z.min y H) in
  pset W H x y col fb (Y * W + X) = fill_pixel col (fb (Y * W + X)) /\
  (forall i, i <> Y * W + X -> pset W H x y col fb i = fb i) /\
  (0 <= Y * W + X < W * H <-> Y < H /\ (X < W \/ Y + 1 < H)).
Proof.
  intros HW HH HWH X Y.
  assert (clip_to_screen W H x y = (X, Y)) as E.
  { unfold clip_to_screen, clamp_in_to_rect, screen_rect. cbn [rl rt rr rb].
    rewrite !s32_small by (unfold is_s32; nia). unfold X, Y. f_equal; split_ltb; lia. }
  assert (VGA_PIXEL_OFFSET W X Y = Y * W + X) as Eo by (apply (offset_eq W H); nia).
  unfold pset. rewrite E. unfold fill_pixel, SET_PIXEL, GET_PIXEL. rewrite Eo. split_and!.
  - destruct (_ =? 0); cbn [negb]; rewrite Z.eqb_refl; [done|apply u16_blend].
  - intros i Hi. destruct (_ =? 0); cbn [negb]; by destruct (Z.eqb_spec i (Y * W + X)).
  - split.
    + intros Hb. assert (Y < H) by nia.
      destruct (Z.lt_ge_cases X W); [lia|]. split; [lia|right]. assert (X = W) by lia. nia.
    + assert (0 <= Y /\ 0 <= X <= W) by lia. intros [Hy Hx]. destruct Hx; nia.
Qed.

Lemma pset_spec_witness :
  pset 4 3 2 7 RED (fun _ => 0) (3 * 4 + 2) = RED.
Proof. apply (pset_spec 4 3 2 7 RED (fun _ => 0)); lia. Defined.

(** [put_pixels] of a buffer [get_pixels] filled restores the region, except
    where the saved pixel was 1, the value [put_pixels] takes for transparent:
    there the pixel drawn since stays. *)
Theorem put_get_pixels W H sx sy w h fb fb1 buf x y :
  0 < W -> 0 < H -> (H + 1) * W < 2147483648 ->
  0 <= sx -> sx + w <= W -> 0 <= sy -> sy + h <= H -> 0 <= x < W -> (forall i, is_u16 (fb i)) ->
  let region := {| rl := sx; rt := sy; rr := sx + w; rb := sy + h |} in
  put_pixels W sx sy w h (get_pixels W sx sy w h fb buf) fb1 (y * W + x) =
    if in_rect x y region && negb (fb (y * W + x) =? 1) then fb (y * W + x) else fb1 (y * W + x).
Proof.
  intros HW HH HWH Hsx Hw Hsy Hh Hx Hfb region.
  pose proof (nest_spec (fun d i j => d i j) (fun _ _ => True)
    (fun u v _ => GET_PIXEL W fb (u + sx) (v + sy))
    (fun x y dst i j => if (i =? x) && (j =? y) then GET_PIXEL W fb (x + sx) (y + sy) else dst i j)
    0 w 0 h buf ltac:(done)) as Hget.
  pose proof (nest_spec (fun s i j => s ((j + sy) * W + (i + sx))) (fun i _ => 0 <= i + sx < W)
    (fun u v old => let p := get_pixels W sx sy w h fb buf u v in if negb (p =? 1) then u16 p else old)
    (fun x y fb' => let p := get_pixels W sx sy w h fb buf x y in
       if negb (p =? 1) then SET_PIXEL W (x + sx) (y + sy) p fb' else fb') 0 w 0 h fb1) as Hput.
  specialize (Hput ltac:(intros u v s i j Hu Hv Hi; cbv beta zeta in *;
    destruct (get_pixels W sx sy w h fb buf u v =? 1); cbn [negb];
      [by destruct (_ && _)|rewrite (set_pixel_at W H) by lia];
    destruct (Z.eqb_spec (i + sx) (u + sx)), (Z.eqb_spec i u), (Z.eqb_spec (j + sy) (v + sy)), (Z.eqb_spec j v);
      done || lia) (x - sx) (y - sy) ltac:(cbv beta; lia)).
  specialize (Hget (x - sx) (y - sy) I). cbv zeta beta in Hput, Hget.
  rewrite !Z.sub_add in Hput, Hget. etransitivity; [exact Hput|]. clear Hput.
  change (for_range 0 w _ buf) with (get_pixels W sx sy w h fb buf) in Hget. rewrite Hget. clear Hget.
  assert ((0 <=? x - sx) && (x - sx <? w) && (0 <=? y - sy) && (y - sy <? h) = in_rect x y region) as ->
    by (unfold in_rect; cbn [rl rt rr rb region]; split_ltb; cbn; done || lia).
  destruct (in_rect_spec x y region) as [[Ix Iy]|]; cbn [andb]; [|done].
  cbn [rl rt rr rb region] in Ix, Iy. unfold GET_PIXEL. rewrite (offset_eq W H) by nia.
  rewrite u16_small by apply Hfb. done.
Qed.

Lemma put_get_pixels_witness :
  put_pixels 4 1 1 2 2 (get_pixels 4 1 1 2 2 (fun i => u16 i) (fun _ _ => 0)) (fun _ => 99) (2 * 4 + 2) = 10.
Proof.
  rewrite (put_get_pixels 4 3 1 1 2 2 (fun i => u16 i) (fun _ => 99) (fun _ _ => 0) 2 2);
    try lia; [reflexivity|]. intros i. apply u16_range.
Defined.

Definition cursor_ok (c : TerminalCursor) : Prop := 0 <= cur_x c < TERMINAL_WIDTH /\ 0 <= cur_y c < TERMINAL_HEIGHT.

(** The cell after a character, as cells of the page numbered row by row. *)
Definition cell (c : TerminalCursor) : Z := cur_y c * TERMINAL_WIDTH + cur_x c.

Definition next_cell (p c : Z) : Z :=
  if c =? 10 then (p / TERMINAL_WIDTH + 1) mod TERMINAL_HEIGHT * TERMINAL_WIDTH
  else (p + 1) mod (TERMINAL_WIDTH * TERMINAL_HEIGHT).

Section terminal.
Context (W H : Z) (font : Z -> Z).

Lemma wrap_small x y : 0 <= x <= TERMINAL_WIDTH -> 0 <= y <= TERMINAL_HEIGHT ->
  wrap {| cur_x := x; cur_y := y |} = {| cur_x := x mod TERMINAL_WIDTH; cur_y := (y + x / TERMINAL_WIDTH) mod TERMINAL_HEIGHT |}.
Proof.
  unfold wrap, TERMINAL_WIDTH, TERMINAL_HEIGHT. intros Hx Hy. cbn [cur_x cur_y].
  rewrite u32_small; [done|]. unfold is_u32. zdm.
Qed.

Lemma wrap_ok c : cursor_ok c -> wrap c = c.
Proof.
  destruct c as [x y]. unfold cursor_ok. cbn [cur_x cur_y]. intros [Hx Hy]. rewrite wrap_small by lia.
  by rewrite Z.div_small, Z.add_0_r, !Z.mod_small by done.
Qed.

Lemma render_char_cursor c T :
  cursor_ok (cursor T) ->
  cursor (render_char W H font c T) = wrap {| cur_x := cur_x (cursor T) + 1; cur_y := cur_y (cursor T) |} /\
  terminal_color (render_char W H font c T) = terminal_color T.
Proof.
  intros Hc. unfold render_char. cbn [with_cursor with_screen cursor terminal_color].
  rewrite (wrap_ok _ Hc). split; [|done]. destruct Hc as [Hx _].
  rewrite u32_small; [done|]. unfold is_u32, TERMINAL_WIDTH in *. lia.
Qed.

Lemma render_char_cell c T :
  cursor_ok (cursor T) ->
  cursor_ok (cursor (render_char W H font c T)) /\
  cell (cursor (render_char W H font c T)) = (cell (cursor T) + 1) mod (TERMINAL_WIDTH * TERMINAL_HEIGHT).
Proof.
  intros Hc. destruct (render_char_cursor c T Hc) as [-> _]. destruct (cursor T) as [x y], Hc as [Hx Hy].
  unfold cursor_ok, cell. cbn [cur_x cur_y] in *. rewrite wrap_small by lia. cbn [cur_x cur_y].
  unfold TERMINAL_WIDTH, TERMINAL_HEIGHT in *. change (80 * 25) with 2000. zdm.
Qed.

(** Blanks up to the last column leave the line and the colour alone. *)
Lemma blanks_cursor T x y :
  cursor T = {| cur_x := x; cur_y := y |} -> 0 <= x -> 0 <= y < TERMINAL_HEIGHT ->
  let T' := for_range x (TERMINAL_WIDTH - 1) (fun _ => render_char W H font 32) T in
  cur_y (cursor T') = y /\ terminal_color T' = terminal_color T.
Proof.
  intros ET Hx Hy T'. subst T'.
  destruct (Z.le_gt_cases (TERMINAL_WIDTH - 1) x) as [|Hlt]; [rewrite for_range_empty, ET by done; done|].
  enough (cursor (for_range x (TERMINAL_WIDTH - 1) (fun _ => render_char W H font 32) T)
          = {| cur_x := TERMINAL_WIDTH - 1; cur_y := y |} /\
          terminal_color (for_range x (TERMINAL_WIDTH - 1) (fun _ => render_char W H font 32) T) = terminal_color T)
    as [-> ->] by done.
  apply (for_range_inv (fun i T' => cursor T' = {| cur_x := i; cur_y := y |} /\ terminal_color T' = terminal_color T));
    [done|lia|].
  intros i T' Hi [EC EL]. destruct (render_char_cursor 32 T') as [-> ->].
  - rewrite EC. split; cbn; lia.
  - rewrite EC. cbn [cur_x cur_y]. split; [|done]. apply wrap_ok. split; cbn; lia.
Qed.

Lemma render_newline_cell T :
  cursor_ok (cursor T) ->
  cursor_ok (cursor (render_newline W H font T)) /\
  cell (cursor (render_newline W H font T)) = next_cell (cell (cursor T)) 10 /\
  terminal_color (render_newline W H font T) = terminal_color T.
Proof.
  intros Hc. unfold render_newline. rewrite (wrap_ok _ Hc).
  destruct (cursor T) as [x y] eqn:ET. destruct Hc as [Hx Hy].
  cbn [cur_x cur_y with_cursor with_color cursor terminal_color] in *.
  rewrite (s32_small x) by (unfold is_s32, TERMINAL_WIDTH in *; lia).
  match goal with |- context [for_range x _ _ ?T0] =>
    destruct (blanks_cursor T0 x y eq_refl ltac:(lia) Hy) as [-> ->] end.
  cbn [terminal_color]. rewrite u32_small by (unfold is_u32, TERMINAL_HEIGHT in *; lia).
  rewrite wrap_small by (unfold TERMINAL_WIDTH, TERMINAL_HEIGHT in *; lia).
  unfold cursor_ok, cell, next_cell. cbn [cur_x cur_y]. unfold TERMINAL_WIDTH, TERMINAL_HEIGHT in *.
  change (10 =? 10) with true. cbn iota. split_and!; try done; zdm.
Qed.
End terminal.

(** The characters before the terminator. *)
Fixpoint before_nul (s : list Z) : list Z :=
  match s with [] => [] | c :: s => if c =? 0 then [] else c :: before_nul s end.

(** [render_text] answers the number of characters before the terminator,
    and leaves the cursor in the page, one cell further for each of them and at
    the start of the next line for a newline, the page wrapping around; the
    colour survives the ruled line a newline draws. *)
Theorem render_text_spec W H font buffer T :
  cursor_ok (cursor T) ->
  let '(n, T') := render_text W H font buffer T in
  n = Z.of_nat (length (before_nul buffer)) /\ cursor_ok (cursor T') /\
  cell (cursor T') = foldl next_cell (cell (cursor T)) (before_nul buffer) /\
  terminal_color T' = terminal_color T.
Proof.
  revert T. induction buffer as [|c rest IH]; intros T Hc; cbn [render_text before_nul].
  - cbn. done.
  - destruct (Z.eqb_spec c 0) as [|Hn]; [cbn; done|].
    set (T1 := if c =? 10 then _ else _).
    assert (cursor_ok (cursor T1) /\ cell (cursor T1) = next_cell (cell (cursor T)) c /\
            terminal_color T1 = terminal_color T) as (H1 & H2 & H3).
    { unfold T1. destruct (Z.eqb_spec c 10) as [->|Hc10]; [by apply render_newline_cell|].
      destruct (render_char_cell W H font c T Hc) as [? ->].
      destruct (render_char_cursor W H font c T Hc) as [_ ->].
      split_and!; [done| |done]. unfold next_cell. by destruct (Z.eqb_spec c 10). }
    specialize (IH T1 H1). destruct (render_text W H font rest T1) as [n T'].
    destruct IH as (-> & Hok & Hcell & Hcol). cbn [length foldl]. rewrite <- H2, <- H3.
    split_and!; [lia|done..].
Qed.

Lemma render_text_spec_witness :
  let '(n, T') := render_text 640 480 (fun _ => 0) [72; 10; 73] (terminal_init (fun _ => 0)) in
  n = 3 /\ cursor_ok (cursor T') /\ cell (cursor T') = 81 /\ terminal_color T' = DARK_GREEN.
Proof.
  apply (render_text_spec 640 480 (fun _ => 0) [72; 10; 73] (terminal_init (fun _ => 0))).
  unfold cursor_ok. cbn. unfold TERMINAL_WIDTH, TERMINAL_HEIGHT. lia.
Defined.
