(* ===== verification/Memory.v ===== *)
(** * Memory: [system/memory.cpp], [system/include/page.h]

    Physical memory is a function from addresses to dwords; [walk] is the i386
    two-level page walk from [cr3].  The kernel reaches the page tables through
    directory entry [PDIR_SELF_INDEX], which points to the directory itself, so
    every access to a table below is a load or store of a virtual address; an
    access that faults is [None].  Kernel code runs with write protection off
    and does not use large pages.  Pages are [BYTES_PER_PAGE] long. *)
From S2P Require Import Prelude BitOps BitAlloc.

Definition BYTES_PER_PAGE : Z := 4096.
Definition PAGE_PRESENT : Z := 1.
Definition PAGE_WRITE : Z := 2.
Definition PAGE_USER : Z := 4.
Definition PAGE_WRITETHROUGH : Z := 8.
Definition PAGE_CACHEDISABLED : Z := 16.
Definition PAGE_ACCESSED : Z := 32.
Definition PAGE_LARGE : Z := 128.
Definition PAGE_GLOBAL : Z := 256.
Definition PAGE_KERNEL_DATA : Z := Z.lor PAGE_WRITE PAGE_PRESENT.
Definition PAGE_GLOBAL_DATA : Z := Z.lor PAGE_GLOBAL (Z.lor PAGE_WRITE PAGE_PRESENT).
Definition PAGE_GLOBAL_RO : Z := Z.lor PAGE_GLOBAL PAGE_PRESENT.
Definition PAGE_USER_DATA : Z := Z.lor PAGE_USER (Z.lor PAGE_WRITE PAGE_PRESENT).
Definition PAGE_COW : Z := Z.lor PAGE_CACHEDISABLED (Z.lor PAGE_USER PAGE_PRESENT).

Definition PAGE_BITMAP_BITS : Z := Z.shiftl 1 20.
Definition PAGE_BITMAP_BYTES : Z := PAGE_BITMAP_BITS / 8.
Definition PDIR_SELF_INDEX : Z := 1.

(** [PageMapEntry]: the bit fields of [val]. *)
Definition pme_present (val : Z) : bool := Z.testbit val 0.
Definition pme_page (val : Z) : Z := Z.shiftr val 12.
Definition pme_set_page (val page : Z) : Z := Z.lor (Z.land val 0xFFF) (u32 (Z.shiftl page 12)).
Definition pme_set_write (val : Z) : Z := Z.lor val PAGE_WRITE.
Definition page_of (a : Z) : Z := Z.land a 0xFFFFF000.

(** The processor's view of memory and the globals of [memory.cpp]. *)
Record machine := {
  phys : Z -> Z;
  cr3 : Z;
  paging : bool;
  page_tables : Z;
  page_dir : Z;
  page_allocator : BitAllocator;
  seed : Z;
  virt_alloc_ptr : Z;
  static_alloc_ptr : Z;
  static_alloc_limit : Z;
  page_copy_ptr : Z
}.

Definition with_phys (m : machine) (p : Z -> Z) : machine :=
  {| phys := p; cr3 := cr3 m; paging := paging m; page_tables := page_tables m; page_dir := page_dir m;
     page_allocator := page_allocator m; seed := seed m; virt_alloc_ptr := virt_alloc_ptr m;
     static_alloc_ptr := static_alloc_ptr m; static_alloc_limit := static_alloc_limit m;
     page_copy_ptr := page_copy_ptr m |}.
Definition with_alloc (m : machine) (ba : BitAllocator) (s : Z) : machine :=
  {| phys := phys m; cr3 := cr3 m; paging := paging m; page_tables := page_tables m; page_dir := page_dir m;
     page_allocator := ba; seed := s; virt_alloc_ptr := virt_alloc_ptr m;
     static_alloc_ptr := static_alloc_ptr m; static_alloc_limit := static_alloc_limit m;
     page_copy_ptr := page_copy_ptr m |}.
Definition with_ptrs (m : machine) (v s : Z) : machine :=
  {| phys := phys m; cr3 := cr3 m; paging := paging m; page_tables := page_tables m; page_dir := page_dir m;
     page_allocator := page_allocator m; seed := seed m; virt_alloc_ptr := v;
     static_alloc_ptr := s; static_alloc_limit := static_alloc_limit m;
     page_copy_ptr := page_copy_ptr m |}.

(** The physical address of a virtual one; [None] is a page fault. *)
Definition walk (m : machine) (va : Z) : option Z :=
  if negb (paging m) then Some va else
  let pde := phys m (page_of (cr3 m) + 4 * Z.shiftr va 22) in
  if negb (pme_present pde) then None else
  let pte := phys m (page_of pde + 4 * (Z.shiftr va 12 mod 1024)) in
  if negb (pme_present pte) then None else Some (page_of pte + va mod 4096).

(** Kernel operations: a fault is [None]. *)
Definition K (A : Type) : Type := machine -> option (A * machine).
Definition kret {A} (x : A) : K A := fun m => Some (x, m).
Definition kbind {A B} (c : K A) (k : A -> K B) : K B :=
  fun m => match c m with Some (x, m) => k x m | None => None end.
Notation "'let!' x ':=' c 'in' k" := (kbind c (fun x => k)) (at level 10, x pattern, c at level 100, k at level 200).
Notation "'do!' c 'in' k" := (kbind c (fun _ => k)) (at level 10, c at level 100, k at level 200).
Definition kget {A} (f : machine -> A) : K A := fun m => Some (f m, m).

Definition vload (va : Z) : K Z := fun m => a ← walk m va; Some (phys m a, m).
Definition vstore (va v : Z) : K unit := fun m =>
  a ← walk m va; Some (tt, with_phys m (fun i => if i =? a then u32 v else phys m i)).

(** [prand() % n]. *)
Definition krand (n : Z) : K Z := fun m =>
  let s := prand (seed m) in Some (s mod n, with_alloc m (page_allocator m) s).

Definition klock_next_block (locked_bits start : Z) : K (Z * Z) := fun m =>
  '(r, bits, ba) ← lock_next_block (page_allocator m) locked_bits start;
  Some ((r, bits), with_alloc m ba (seed m)).
Definition kunlock_block (bits i : Z) : K unit := fun m =>
  ba ← unlock_block (page_allocator m) bits i; Some (tt, with_alloc m ba (seed m)).

(** ** Virtual address space *)

Definition next_virtual_pages (pages : Z) : K Z := fun m =>
  let '(ptr, newval) := atomic_add_limit (virt_alloc_ptr m) (pages *w BYTES_PER_PAGE) all_ones in
  let m := with_ptrs m ptr (static_alloc_ptr m) in
  if newval =? all_ones then Some (0, m) else Some (newval, m).

Definition next_virtual_page : K Z := next_virtual_pages 1.

Definition static_alloc_pages (pages : Z) : K Z := fun m =>
  let '(ptr, newval) := atomic_add_limit (static_alloc_ptr m) (pages *w BYTES_PER_PAGE) (static_alloc_limit m) in
  let m := with_ptrs m (virt_alloc_ptr m) ptr in
  if newval =? static_alloc_limit m then Some (0, m) else Some (newval, m).

(** ** Page table entries *)

Definition get_pde_index (vaddr : Z) : Z := Z.shiftr vaddr 22.
Definition get_pde (m : machine) (vaddr : Z) : Z := page_dir m +w 4 * get_pde_index vaddr.
Definition get_pte_index (vaddr : Z) : Z := Z.shiftr vaddr 12.
Definition get_pte (m : machine) (vaddr : Z) : Z := page_tables m +w 4 * get_pte_index vaddr.

(** The index of the page that was locked, 0 on failure. *)
Definition lock_next_page : K Z :=
  let! start_block_index := krand 256 in
  let! (locked_index, locked_bits) := klock_next_block 0 start_block_index in
  if locked_bits =? all_ones then kret 0 else
  fun m =>
  bit_index ← bitscan_forward (~w locked_bits);
  let bitmask := 1 <<w bit_index in
  (do! kunlock_block (Z.lor locked_bits bitmask) locked_index in
   kret ((locked_index *w 32) +w bit_index)) m.

Definition phys_alloc_page : K Z :=
  let! n := lock_next_page in kret (n *w BYTES_PER_PAGE).

Definition ensure_pte (vaddr attributes : Z) : K Z :=
  let! pde := kget (fun m => get_pde m vaddr) in
  let! val := vload pde in
  if negb (pme_present val) then
    let! page := phys_alloc_page in
    do! vstore pde (Z.lor page attributes) in
    kget (fun m => get_pte m vaddr)
  else kget (fun m => get_pte m vaddr).

Definition map_to (vaddr p_addr attributes : Z) : K Z :=
  let! pte := ensure_pte vaddr attributes in
  do! vstore pte (Z.lor p_addr attributes) in
  kret vaddr.

Definition get_physical (vaddr : Z) : K Z :=
  let! pte := kget (fun m => get_pte m vaddr) in
  if pte =? 0 then kret 0 else
  let! val := vload pte in kret (page_of val).

(** ** [virt_alloc_pages] *)

(** The inner loop: [inl] returns from the function, [inr] goes on with the next
    block.  33 rounds are enough, since a round sets its bit of [locked_bits]. *)
Fixpoint alloc_from_block (n : nat) (attributes block_index : Z)
    (virt_addr_ptr phys_addr_ptr locked_bits testbit pages_left : Z) : K (unit + Z * Z) :=
  match n with
  | O => fun _ => None
  | S n =>
      if locked_bits =? all_ones then kret (inr (virt_addr_ptr, pages_left)) else
      if Z.land locked_bits testbit =? 0 then
        do! map_to virt_addr_ptr phys_addr_ptr attributes in
        let locked_bits := Z.lor locked_bits testbit in
        let virt_addr_ptr := virt_addr_ptr +w BYTES_PER_PAGE in
        let pages_left := pages_left -w 1 in
        if pages_left <=? 0 then do! kunlock_block locked_bits block_index in kret (inl tt)
        else alloc_from_block n attributes block_index virt_addr_ptr (phys_addr_ptr +w BYTES_PER_PAGE)
               locked_bits (testbit <<w 1) pages_left
      else alloc_from_block n attributes block_index virt_addr_ptr (phys_addr_ptr +w BYTES_PER_PAGE)
             locked_bits (testbit <<w 1) pages_left
  end.

(** The outer loop; a round fills a block, so there are at most as many as blocks. *)
Fixpoint alloc_blocks (n : nat) (address attributes : Z)
    (virt_addr_ptr locked_bits block_index pages_left : Z) : K Z :=
  match n with
  | O => fun _ => None
  | S n =>
      let! (block_index, locked_bits) := klock_next_block locked_bits block_index in
      if block_index =? 0 then kret 0 else
      let phys_addr_ptr := block_index *w 32 *w 4096 in
      let! r := alloc_from_block 33 attributes block_index virt_addr_ptr phys_addr_ptr locked_bits 1 pages_left in
      match r with
      | inl _ => kret address
      | inr (virt_addr_ptr, pages_left) =>
          alloc_blocks n address attributes virt_addr_ptr all_ones block_index pages_left
      end
  end.

Definition virt_alloc_pages_at (pages address attributes : Z) : K Z :=
  let! block_index := krand 256 in
  let! blocks := kget (fun m => max_blocks (page_allocator m)) in
  alloc_blocks (S (Z.to_nat blocks)) address attributes address 0 block_index pages.

Definition virt_alloc_pages (pages attributes : Z) : K Z :=
  let! vaddr := next_virtual_pages pages in
  virt_alloc_pages_at pages vaddr attributes.

Definition virt_alloc_page (attributes : Z) : K Z := virt_alloc_pages 1 attributes.
Definition virt_alloc_page_at (address attributes : Z) : K Z := virt_alloc_pages_at 1 address attributes.

(** ** The page fault handler: [true] when the fault was a write to a
    copy-on-write page and the thread goes on, [false] when the thread stops. *)

Fixpoint copy_dwords (n : nat) (i dst src : Z) : K unit :=
  match n with
  | O => kret tt
  | S n =>
      let! v := vload (src + 4 * i) in
      do! vstore (dst + 4 * i) v in
      copy_dwords n (i + 1) dst src
  end.

Definition page_fault_handler (code cr2 : Z) : K bool :=
  if code =? 7 then
    let! pte := kget (fun m => get_pte m cr2) in
    let! val := vload pte in
    if Z.land val 0xFFF =? PAGE_COW then
      let cr2_page := page_of cr2 in
      let! new_phys_page := phys_alloc_page in
      let! copy := kget page_copy_ptr in
      do! map_to copy new_phys_page PAGE_USER_DATA in
      do! copy_dwords 1024 0 copy cr2_page in
      let! val := vload pte in
      do! vstore pte (pme_set_page val (Z.shiftr new_phys_page 12)) in
      let! val := vload pte in
      do! vstore pte (pme_set_write val) in
      kret true
    else kret false
  else kret false.

(** ** [initialize_memory]: paging is off until the tables are built *)

Fixpoint kfor (n : nat) (i : Z) (body : Z -> K unit) : K unit :=
  match n with
  | O => kret tt
  | S n => do! body i in kfor n (i + 1) body
  end.

Definition kmap (f : machine -> option machine) : K unit := fun m => m ← f m; Some (tt, m).

Definition initialize_memory (phys_base_free : Z) : K Z :=
  let page_tables0 := phys_base_free in
  let page_dir0 := page_tables0 +w PDIR_SELF_INDEX * 4096 in
  let phys_alloc_ptr := phys_base_free +w 2 * 4096 in
  let bitset := phys_alloc_ptr in
  let phys_alloc_ptr := phys_alloc_ptr +w PAGE_BITMAP_BYTES in
  do! kmap (fun m => Some {| phys := phys m; cr3 := cr3 m; paging := false; page_tables := page_tables0;
                             page_dir := page_dir0; page_allocator := new_BitAllocator PAGE_BITMAP_BITS;
                             seed := seed m; virt_alloc_ptr := virt_alloc_ptr m;
                             static_alloc_ptr := static_alloc_ptr m;
                             static_alloc_limit := static_alloc_limit m; page_copy_ptr := page_copy_ptr m |}) in
  let bit_start := bitset / 4096 in
  let bit_end := (bitset +w PAGE_BITMAP_BYTES +w 4095) / 4096 in
  do! kmap (fun m => ba ← lock_bit_range (page_allocator m) bit_start (bit_end -w bit_start);
                     Some (with_alloc m ba (seed m))) in
  do! kfor 1024 0 (fun t => vstore (page_dir0 +w 4 * t) 0) in
  do! vstore page_dir0 (Z.lor page_tables0 (Z.lor PAGE_GLOBAL_DATA PAGE_USER)) in
  do! vstore (page_dir0 +w 4 * PDIR_SELF_INDEX) (Z.lor page_dir0 PAGE_KERNEL_DATA) in
  do! kmap (fun m => ba ← lock_bit_range (page_allocator m) 0 1024; Some (with_alloc m ba (seed m))) in
  let users := get_pte_index phys_alloc_ptr in
  do! kfor (Z.to_nat users) 0 (fun i =>
        do! map_to (4096 * i) (4096 * i) (Z.lor PAGE_GLOBAL_DATA PAGE_USER) in kret tt) in
  do! kfor (Z.to_nat (1024 - users)) users (fun i =>
        do! map_to (4096 * i) (4096 * i) PAGE_GLOBAL_DATA in kret tt) in
  let v_ptables := PDIR_SELF_INDEX * 4096 * 1024 in
  do! kmap (fun m => Some {| phys := phys m; cr3 := page_dir0; paging := true; page_tables := v_ptables;
                             page_dir := v_ptables + PDIR_SELF_INDEX * 4096;
                             page_allocator := page_allocator m; seed := seed m;
                             virt_alloc_ptr := v_ptables +w 4096 * 1024;
                             static_alloc_ptr := page_of (phys_alloc_ptr +w 4095);
                             static_alloc_limit := v_ptables; page_copy_ptr := page_copy_ptr m |}) in
  let! copy := static_alloc_pages 1 in
  do! kmap (fun m => Some {| phys := phys m; cr3 := cr3 m; paging := paging m; page_tables := page_tables m;
                             page_dir := page_dir m; page_allocator := page_allocator m; seed := seed m;
                             virt_alloc_ptr := virt_alloc_ptr m; static_alloc_ptr := static_alloc_ptr m;
                             static_alloc_limit := static_alloc_limit m; page_copy_ptr := copy |}) in
  kret 1.

(** ** Lemmas: pages and the recursive mapping *)

Lemma page_of_eq a : is_u32 a -> page_of a = 4096 * (a / 4096).
Proof.
  intros Ha. unfold page_of.
  assert (Z.land a 0xFFFFF000 = Z.shiftl (Z.shiftr a 12) 12) as ->.
  { apply Z.bits_inj'. intros i Hi. rewrite Z.land_spec.
    destruct (Z.lt_ge_cases i 12).
    - rewrite Z.shiftl_spec_low by done. change 0xFFFFF000 with (Z.shiftl 0xFFFFF 12).
      by rewrite Z.shiftl_spec_low, andb_false_r.
    - rewrite Z.shiftl_spec_high, Z.shiftr_spec by lia. replace (i - 12 + 12) with i by lia.
      destruct (Z.lt_ge_cases i 32); [|by rewrite is_u32_testbit_high].
      change 0xFFFFF000 with (Z.shiftl (Z.ones 20) 12).
      rewrite Z.shiftl_spec_high, Z.ones_spec_low, andb_true_r by lia. done. }
  rewrite Z.shiftl_mul_pow2, Z.shiftr_div_pow2 by lia. change (2 ^ 12) with 4096. lia.
Qed.

Lemma page_of_aligned a : is_u32 a -> exists k, page_of a = 4096 * k /\ 0 <= k < 1048576.
Proof. intros Ha. exists (a / 4096). split; [by apply page_of_eq|]. unfold is_u32 in Ha. zdm. Qed.

(** Address and attributes of an entry do not mix. *)
Lemma entry_split pa attr :
  is_u32 pa -> pa mod 4096 = 0 -> 0 <= attr < 4096 ->
  page_of (Z.lor pa attr) = pa /\ pme_present (Z.lor pa attr) = Z.testbit attr 0 /\
  is_u32 (Z.lor pa attr) /\ Z.land (Z.lor pa attr) 0xFFF = attr.
Proof.
  intros Hpa Hm Ha.
  assert (Z.lor pa attr = pa + attr) as E.
  { rewrite <- Z.lxor_lor, <- Z.add_nocarry_lxor; try done;
    (apply Z.bits_inj'; intros i Hi; rewrite Z.land_spec, Z.bits_0;
     destruct (Z.lt_ge_cases i 12);
     [rewrite (Z.div_mod pa 4096), Hm, Z.add_0_r, Z.mul_comm by lia; change 4096 with (2 ^ 12);
      by rewrite Z.mul_pow2_bits_low
     |rewrite <- (Z.mod_small attr 4096) by lia; change 4096 with (2 ^ 12);
      by rewrite Z.mod_pow2_bits_high, andb_false_r by lia]). }
  assert (is_u32 (pa + attr)) as Hu by (unfold is_u32 in *; zdm).
  rewrite E. split_and!; [|..].
  - rewrite page_of_eq by done. zdm.
  - unfold pme_present. rewrite <- E, Z.lor_spec.
    replace (Z.testbit pa 0) with false; [done|].
    rewrite Z.bit0_odd. symmetry. rewrite <- Z.negb_even, negb_false_iff. apply Z.even_spec.
    exists (2048 * (pa / 4096)). zdm.
  - done.
  - change 0xFFF with (Z.ones 12). rewrite Z.land_ones by lia. change (2 ^ 12) with 4096. zdm.
Qed.

Section paging.
Implicit Types (m : machine).

Definition pde m (i : Z) : Z := phys m (cr3 m + 4 * i).
Definition table m (i : Z) : Z := page_of (pde m i).
Definition pte_at m (va : Z) : Z := table m (va / 4194304) + 4 * (va / 4096 mod 1024).

(** The invariant [initialize_memory] establishes and the operations keep: the
    directory maps itself, and the tables are distinct frames the allocator has
    marked. *)
Record memory_wf m : Prop := {
  wf_paging : paging m = true;
  wf_cr3 : is_u32 (cr3 m) /\ cr3 m mod 4096 = 0;
  wf_self : pme_present (pde m 1) = true /\ table m 1 = cr3 m;
  wf_tables : page_tables m = 0x400000;
  wf_dir : page_dir m = 0x401000;
  wf_phys : forall a, is_u32 (phys m a);
  wf_alloc : alloc_wf (page_allocator m) /\ max_blocks (page_allocator m) = 32768;
  wf_marked : forall i, 0 <= i < 1024 -> pme_present (pde m i) = true ->
                bit_used (page_allocator m) (table m i / 4096) = true;
  wf_zero : bit_used (page_allocator m) 0 = true;
  wf_distinct : forall i j, 0 <= i < 1024 -> 0 <= j < 1024 -> pme_present (pde m i) = true ->
                pme_present (pde m j) = true -> table m i = table m j -> i = j
}.

Lemma table_aligned m i : memory_wf m -> exists k, table m i = 4096 * k /\ 0 <= k < 1048576.
Proof. intros Hwf. apply page_of_aligned, (wf_phys _ Hwf). Qed.

Lemma walk_eq m va :
  memory_wf m -> is_u32 va ->
  walk m va =
    if negb (pme_present (pde m (va / 4194304))) then None
    else if negb (pme_present (phys m (pte_at m va))) then None
    else Some (page_of (phys m (pte_at m va)) + va mod 4096).
Proof.
  intros Hwf Hva. unfold walk. rewrite (wf_paging _ Hwf). cbn [negb].
  destruct (wf_cr3 _ Hwf) as [Hu Ha]. rewrite (page_of_eq (cr3 m)) by done.
  replace (4096 * (cr3 m / 4096)) with (cr3 m) by zdm.
  rewrite !Z.shiftr_div_pow2 by lia. done.
Qed.

(** Through directory entry 1 the tables appear as one array of entries. *)
Lemma walk_self m k :
  memory_wf m -> 0 <= k < 1048576 ->
  walk m (0x400000 + 4 * k) =
    if negb (pme_present (pde m (k / 1024))) then None else Some (table m (k / 1024) + 4 * (k mod 1024)).
Proof.
  intros Hwf Hk. rewrite walk_eq by (done || unfold is_u32; lia).
  replace ((0x400000 + 4 * k) / 4194304) with 1 by zdm.
  destruct (wf_self _ Hwf) as [Hp Ht]. rewrite Hp. cbn [negb].
  unfold pte_at. replace ((0x400000 + 4 * k) / 4194304) with 1 by zdm. rewrite Ht.
  replace ((0x400000 + 4 * k) / 4096 mod 1024) with (k / 1024) by zdm.
  fold (pde m (k / 1024)). fold (table m (k / 1024)).
  replace ((0x400000 + 4 * k) mod 4096) with (4 * (k mod 1024)) by zdm. done.
Qed.

Lemma get_pte_eq m va : memory_wf m -> is_u32 va -> get_pte m va = 0x400000 + 4 * (va / 4096).
Proof.
  intros Hwf Hva. unfold get_pte, get_pte_index. rewrite (wf_tables _ Hwf), Z.shiftr_div_pow2 by lia.
  change (2 ^ 12) with 4096. apply u32_small. unfold is_u32 in *. zdm.
Qed.

Lemma get_pde_eq m va : memory_wf m -> is_u32 va -> get_pde m va = 0x400000 + 4 * (1024 + va / 4194304).
Proof.
  intros Hwf Hva. unfold get_pde, get_pde_index. rewrite (wf_dir _ Hwf), Z.shiftr_div_pow2 by lia.
  change (2 ^ 22) with 4194304. rewrite u32_small; [lia|]. unfold is_u32 in *. zdm.
Qed.

Lemma walk_pde m va :
  memory_wf m -> is_u32 va -> walk m (get_pde m va) = Some (cr3 m + 4 * (va / 4194304)).
Proof.
  intros Hwf Hva. rewrite get_pde_eq, walk_self by (done || unfold is_u32 in *; zdm).
  replace ((1024 + va / 4194304) / 1024) with 1 by (unfold is_u32 in *; zdm).
  destruct (wf_self _ Hwf) as [-> ->]. cbn [negb].
  replace ((1024 + va / 4194304) mod 1024) with (va / 4194304) by (unfold is_u32 in *; zdm). done.
Qed.

Lemma walk_pte m va :
  memory_wf m -> is_u32 va ->
  walk m (get_pte m va) = if negb (pme_present (pde m (va / 4194304))) then None else Some (pte_at m va).
Proof.
  intros Hwf Hva. rewrite get_pte_eq, walk_self by (done || unfold is_u32 in *; zdm).
  replace (va / 4096 / 1024) with (va / 4194304) by zdm. done.
Qed.

Lemma dir_range va : is_u32 va -> 0 <= va / 4194304 < 1024.
Proof. unfold is_u32. intros. zdm. Qed.

(** The table entry of an address, when its table is present. *)
Definition entry m (va : Z) : option Z :=
  if pme_present (pde m (va / 4194304)) then Some (phys m (pte_at m va)) else None.

Definition entry_target (e va : Z) : option Z :=
  if pme_present e then Some (page_of e + va mod 4096) else None.

Lemma walk_entry m va :
  memory_wf m -> is_u32 va -> walk m va = e ← entry m va; entry_target e va.
Proof.
  intros Hwf Hva. rewrite walk_eq by done. unfold entry, entry_target.
  destruct (pme_present (pde m (va / 4194304))); cbn [negb mbind option_bind]; [|done].
  by destruct (pme_present (phys m (pte_at m va))).
Qed.

Definition set_word m (a v : Z) : machine :=
  with_phys m (fun i => if i =? a then u32 v else phys m i).

Lemma pte_at_inj m va va' :
  memory_wf m -> is_u32 va -> is_u32 va' -> entry m va <> None -> entry m va' <> None ->
  pte_at m va = pte_at m va' -> va / 4096 = va' / 4096.
Proof.
  intros Hwf Hva Hva' He He' E. unfold pte_at, entry in *. unfold is_u32 in *.
  destruct (table_aligned m (va / 4194304) Hwf) as (k & Ek & _).
  destruct (table_aligned m (va' / 4194304) Hwf) as (k' & Ek' & _).
  destruct (pme_present (pde m (va / 4194304))) eqn:Hp; [|done].
  destruct (pme_present (pde m (va' / 4194304))) eqn:Hp'; [|done].
  pose proof (Z.mod_pos_bound (va / 4096) 1024 ltac:(lia)).
  pose proof (Z.mod_pos_bound (va' / 4096) 1024 ltac:(lia)).
  assert (table m (va / 4194304) = table m (va' / 4194304)) as Et by lia.
  assert (va / 4194304 = va' / 4194304) as Ed by (apply (wf_distinct _ Hwf); done || by apply dir_range).
  clear - E Et Ed H H0. zdm.
Qed.

(** The entry of an address outside the tables' own 4 MB is not a directory word. *)
Lemma pte_not_pde m va i :
  memory_wf m -> is_u32 va -> va / 4194304 <> 1 -> entry m va <> None -> 0 <= i < 1024 ->
  pte_at m va <> cr3 m + 4 * i.
Proof.
  intros Hwf Hva Hn He Hi E. unfold pte_at, entry in *. unfold is_u32 in *.
  destruct (table_aligned m (va / 4194304) Hwf) as (k & Ek & _).
  destruct (pme_present (pde m (va / 4194304))) eqn:Hp; [|done].
  destruct (wf_self _ Hwf) as [Hp1 Ht1]. destruct (wf_cr3 _ Hwf) as [_ Hc].
  apply Hn. apply (wf_distinct _ Hwf (va / 4194304) 1); try done; [by apply dir_range|]. rewrite Ht1.
  pose proof (Z.mod_pos_bound (va / 4096) 1024 ltac:(lia)). pose proof (Z.div_mod (cr3 m) 4096 ltac:(lia)). lia.
Qed.

Lemma set_pte_pde m va v i :
  memory_wf m -> is_u32 va -> va / 4194304 <> 1 -> entry m va <> None -> 0 <= i < 1024 ->
  pde (set_word m (pte_at m va) v) i = pde m i.
Proof.
  intros Hwf Hva Hn He Hi. unfold pde, set_word. cbn [with_phys phys cr3].
  destruct (Z.eqb_spec (cr3 m + 4 * i) (pte_at m va)) as [E|]; [|done].
  by destruct (pte_not_pde m va i Hwf Hva Hn He Hi).
Qed.

Lemma set_pte_wf m va v :
  memory_wf m -> is_u32 va -> va / 4194304 <> 1 -> entry m va <> None ->
  memory_wf (set_word m (pte_at m va) v).
Proof.
  intros Hwf Hva Hn He.
  assert (forall i, 0 <= i < 1024 -> pde (set_word m (pte_at m va) v) i = pde m i) as Ep
    by (intros; by apply set_pte_pde).
  assert (forall i, 0 <= i < 1024 -> table (set_word m (pte_at m va) v) i = table m i) as Et
    by (intros; unfold table; by rewrite Ep).
  destruct Hwf as [? ? [? ?] ? ? Hph ? Hmk ? Hd]. split; try done; cbn [set_word with_phys cr3 page_allocator].
  - rewrite Ep, Et by lia. done.
  - intros a. cbn. destruct (_ =? _); [apply u32_range|apply Hph].
  - intros i Hi. rewrite Ep, Et by done. by apply Hmk.
  - intros i j Hi Hj. rewrite !Ep, !Et by done. by apply Hd.
Qed.

(** Storing an entry changes the entry of that page alone. *)
Lemma set_pte_entry m va v va' :
  memory_wf m -> is_u32 va -> va / 4194304 <> 1 -> entry m va <> None -> is_u32 v ->
  is_u32 va' -> va' / 4194304 <> 1 ->
  entry (set_word m (pte_at m va) v) va' = if va' / 4096 =? va / 4096 then Some v else entry m va'.
Proof.
  intros Hwf Hva Hn He Hv Hva' Hn'. unfold entry at 1.
  pose proof (dir_range va' Hva').
  rewrite set_pte_pde by done.
  assert (table (set_word m (pte_at m va) v) (va' / 4194304) = table m (va' / 4194304)) as Et
    by (unfold table; by rewrite set_pte_pde).
  assert (pte_at (set_word m (pte_at m va) v) va' = pte_at m va') as ->
    by (unfold pte_at at 1; by rewrite Et).
  cbn [set_word with_phys phys]. destruct (Z.eqb_spec (va' / 4096) (va / 4096)) as [E|E].
  - assert (va' / 4194304 = va / 4194304) as E2 by zdm.
    unfold entry in He. rewrite E2. destruct (pme_present (pde m (va / 4194304))); [|done].
    replace (pte_at m va') with (pte_at m va) by (unfold pte_at; by rewrite E2, E).
    by rewrite Z.eqb_refl, u32_small.
  - unfold entry. destruct (pme_present (pde m (va' / 4194304))) eqn:Hp; [|done].
    destruct (Z.eqb_spec (pte_at m va') (pte_at m va)) as [E2|]; [|done].
    exfalso. apply E. apply (pte_at_inj m); try done. unfold entry. by rewrite Hp.
Qed.

(** [map_to] when the table is present: one dword store. *)
Lemma map_to_present m va pa attr :
  memory_wf m -> is_u32 va -> entry m va <> None ->
  map_to va pa attr m = Some (va, set_word m (pte_at m va) (Z.lor pa attr)).
Proof.
  intros Hwf Hva He. unfold map_to, ensure_pte, kbind, kget, vload, vstore.
  rewrite walk_pde by done. cbn [mbind option_bind]. fold (pde m (va / 4194304)).
  pose proof (walk_pte m va Hwf Hva) as Hw. unfold entry in He.
  destruct (pme_present (pde m (va / 4194304))); [|done]. cbn [negb] in *.
  rewrite Hw. done.
Qed.

(** The allocator hands out an unused page, or 0 when every block from the
    random start on is full. *)
Lemma lock_next_page_spec m :
  alloc_wf (page_allocator m) -> max_blocks (page_allocator m) = 32768 ->
  exists n m', lock_next_page m = Some (n, m') /\
    phys m' = phys m /\ cr3 m' = cr3 m /\ paging m' = paging m /\ page_tables m' = page_tables m /\
    page_dir m' = page_dir m /\ page_copy_ptr m' = page_copy_ptr m /\
    ((0 <= n < 1048576 /\ bit_used (page_allocator m) n = false /\
      marks (fun b => b =? n) (page_allocator m) (page_allocator m')) \/
     (n = 0 /\ page_allocator m' = page_allocator m /\
      exists start, 0 <= start < 256 /\
        forall b, 32 * start <= b < 1048576 -> bit_used (page_allocator m) b = true)).
Proof.
  intros Hwf Hmb. unfold lock_next_page, krand, klock_next_block, kunlock_block, kbind, kret.
  cbn [with_alloc page_allocator seed].
  set (start := prand (seed m) mod 256). assert (0 <= start < 256) by (apply Z.mod_pos_bound; lia).
  destruct (lock_next_block_spec (page_allocator m) 0 start Hwf) as (r & w & ba & -> & Hcase); [lia|].
  cbn [mbind option_bind].
  destruct Hcase as [(Hr & Hw & Uw & Hne & Hset & Hwf' & _)|(-> & -> & -> & Hfull)].
  - destruct (Z.eqb_spec w all_ones) as [|_]; [done|].
    destruct (bitscan_free_complete w Uw Hne) as [b Hb]. destruct (bitscan_free w b Uw Hb) as [Hbr Hbit]. rewrite Hb. cbn [mbind option_bind].
    destruct (set_block_ok ba r (Z.lor w (1 <<w b))) as (ba' & Hs & Hwf2 & E1 & E2 & U2).
    { done. } { apply set_block_inv in Hset as (-> & _ & _). lia. } { auto with word. }
    unfold unlock_block. cbn [with_alloc page_allocator seed]. rewrite Hs. cbn [mbind option_bind].
    pose proof Hset as (F1 & F2 & _)%set_block_inv.
    assert (is_u32 (32 * r + b)) by (unfold is_u32; lia).
    exists ((r *w 32) +w b). rewrite (u32_small (r * 32)), u32_small by (unfold is_u32; lia).
    eexists. split; [reflexivity|]. split_and!; try done. left.
    cbn [with_alloc page_allocator]. split_and!; [lia|lia| |].
    + rewrite (block_eq _ _ _ _ Hw) by zdm. by replace ((r * 32 + b) mod 32) with b by zdm.
    + unfold marks. split_and!; [done|congruence|congruence|]. intros c Hc. rewrite U2.
      rewrite (bit_used_set _ _ _ _ c Hset).
      destruct (Z.eqb_spec (c / 32) r) as [Ec|Ec].
      * rewrite (block_eq _ _ _ _ Hw Ec), Z.lor_spec, bit_mask_testbit by (zdm || lia).
        split_ltb; cbn; rewrite ?orb_false_r; try done; zdm.
      * destruct (Z.eqb_spec c (r * 32 + b)); [zdm|]. cbn. by rewrite orb_false_r.
  - rewrite Hmb. destruct (Z.ltb_spec start 32768); [|lia]. rewrite Z.eqb_refl.
    exists 0. eexists. split; [reflexivity|]. split_and!; try done. right. split_and!; try done.
    exists start. split; [done|]. intros b Hb. apply (full_block_used _ (b / 32)); [|done].
    apply Hfull. zdm.
Qed.

(** Two machines that differ in the allocator at most. *)
Definition same_memory m m' : Prop :=
  phys m' = phys m /\ cr3 m' = cr3 m /\ paging m' = paging m /\ page_tables m' = page_tables m /\
  page_dir m' = page_dir m.

(** A new table: the directory word of [va] points to the frame [n], which was
    not in use. *)
Lemma new_table_wf m m1 va n attr :
  memory_wf m -> is_u32 va -> entry m va = None ->
  same_memory m m1 -> marks (fun b => b =? n) (page_allocator m) (page_allocator m1) ->
  0 <= n < 1048576 -> bit_used (page_allocator m) n = false -> 0 <= attr < 4096 -> Z.testbit attr 0 = true ->
  let m2 := set_word m1 (cr3 m + 4 * (va / 4194304)) (Z.lor (n * 4096) attr) in
  memory_wf m2 /\ table m2 (va / 4194304) = n * 4096 /\ pme_present (pde m2 (va / 4194304)) = true /\
  (forall i, 0 <= i < 1024 -> i <> va / 4194304 -> pde m2 i = pde m i) /\
  (forall a, a <> cr3 m + 4 * (va / 4194304) -> phys m2 a = phys m a).
Proof.
  intros Hwf Hva He (E1 & E2 & E3 & E4 & E5) (Wa & Wm & Wb & Wu) Hn Hfree Hattr Hodd m2.
  pose proof (dir_range va Hva) as Hd.
  destruct (entry_split (n * 4096) attr) as (S1 & S2 & S3 & _);
    [unfold is_u32; lia|by rewrite Z.mod_mul|done|].
  assert (forall i, 0 <= i < 1024 -> i <> va / 4194304 -> pde m2 i = pde m i) as Hother.
  { intros i Hi Hne. unfold m2, pde, set_word. cbn [with_phys phys cr3]. rewrite E2, E1.
    destruct (Z.eqb_spec (cr3 m + 4 * i) (cr3 m + 4 * (va / 4194304))); [lia|done]. }
  assert (pde m2 (va / 4194304) = Z.lor (n * 4096) attr) as Hthis.
  { unfold m2, pde, set_word. cbn [with_phys phys cr3]. rewrite E2, Z.eqb_refl. by apply u32_small. }
  assert (table m2 (va / 4194304) = n * 4096) as Ht by (unfold table; by rewrite Hthis).
  assert (pme_present (pde m2 (va / 4194304)) = true) as Hp by (by rewrite Hthis, S2).
  assert (va / 4194304 <> 1) as Hn1.
  { intros E. unfold entry in He. rewrite E in He. destruct (wf_self _ Hwf) as [Hp1 _]. by rewrite Hp1 in He. }
  assert (forall i, 0 <= i < 1024 -> i <> va / 4194304 -> table m2 i = table m i) as Htother
    by (intros; unfold table; by rewrite Hother).
  assert (forall i, 0 <= i < 1024 -> i <> va / 4194304 -> pme_present (pde m i) = true -> table m i <> n * 4096) as Hfresh.
  { intros i Hi Hne Hpi Heq. pose proof (wf_marked _ Hwf i Hi Hpi) as Hm. rewrite Heq, Z.div_mul in Hm by lia.
    congruence. }
  split_and!; try done.
  - split; cbn [m2 set_word with_phys paging cr3 page_tables page_dir page_allocator];
      rewrite ?E2, ?E3, ?E4, ?E5; try apply Hwf.
    + split; [rewrite Hother by lia|rewrite Htother by lia]; apply Hwf.
    + intros a. cbn. destruct (_ =? _); [apply u32_range|]. rewrite E1. apply Hwf.
    + split; [done|]. rewrite Wm. apply Hwf.
    + intros i Hi Hpi. fold m2 in Hpi |- *. destruct (decide (i = va / 4194304)) as [->|Hne].
      * rewrite Ht, Z.div_mul, Wu by lia. rewrite Z.eqb_refl. cbn [andb].
        destruct (wf_alloc _ Hwf) as [_ ->]. destruct (Z.ltb_spec n (32 * 32768)); [apply orb_true_r|lia].
      * rewrite Htother by done. rewrite Hother in Hpi by done. destruct (table_aligned m i Hwf) as (k & Ek & Hk).
        rewrite Wu by (rewrite Ek, Z.mul_comm, Z.div_mul; lia). by rewrite (wf_marked _ Hwf i Hi Hpi).
    + rewrite Wu by lia. by rewrite (wf_zero _ Hwf).
    + intros i j Hi Hj Hpi Hpj Heq. fold m2 in Hpi, Hpj, Heq.
      destruct (decide (i = va / 4194304)) as [->|Hni], (decide (j = va / 4194304)) as [->|Hnj]; try done.
      * rewrite Ht, (Htother j Hj Hnj) in Heq. rewrite (Hother j Hj Hnj) in Hpj.
        by destruct (Hfresh j Hj Hnj Hpj).
      * rewrite Ht, (Htother i Hi Hni) in Heq. rewrite (Hother i Hi Hni) in Hpi.
        by destruct (Hfresh i Hi Hni Hpi).
      * rewrite (Htother i Hi Hni), (Htother j Hj Hnj) in Heq. rewrite (Hother i Hi Hni) in Hpi.
        rewrite (Hother j Hj Hnj) in Hpj. by apply (wf_distinct _ Hwf).
  - intros a Ha. unfold m2, set_word. cbn [with_phys phys]. rewrite E1.
    by destruct (Z.eqb_spec a (cr3 m + 4 * (va / 4194304))).
Qed.

Lemma walk_same m m' va : same_memory m m' -> walk m' va = walk m va.
Proof. intros (E1 & E2 & E3 & _). unfold walk. by rewrite E1, E2, E3. Qed.

Lemma entry_present m va : entry m va = None <-> pme_present (pde m (va / 4194304)) = false.
Proof. unfold entry. by destruct (pme_present _). Qed.

(** A frame that holds a page table (or the directory, which is table 1). *)
Definition is_table m (f : Z) : Prop :=
  exists i, 0 <= i < 1024 /\ pme_present (pde m i) = true /\ table m i = 4096 * f.

(** A frame the allocator had free is not a table. *)
Lemma free_not_table m f : memory_wf m -> bit_used (page_allocator m) f = false -> ~ is_table m f.
Proof.
  intros Hwf Hf (i & Hi & Hp & Ht). pose proof (wf_marked _ Hwf i Hi Hp) as Hm.
  rewrite Ht, Z.mul_comm, Z.div_mul in Hm by lia. congruence.
Qed.

Lemma pte_in_table m va : memory_wf m -> is_u32 va -> entry m va <> None -> is_table m (pte_at m va / 4096).
Proof.
  intros Hwf Hva He. exists (va / 4194304). split; [by apply dir_range|]. split.
  - unfold entry in He. by destruct (pme_present _).
  - unfold pte_at. destruct (table_aligned m (va / 4194304) Hwf) as (k & -> & _). zdm.
Qed.

Lemma pde_in_table m i : memory_wf m -> 0 <= i < 1024 -> is_table m ((cr3 m + 4 * i) / 4096).
Proof.
  intros Hwf Hi. exists 1. destruct (wf_self _ Hwf) as [Hp ->]. destruct (wf_cr3 _ Hwf) as [_ Hc].
  split; [lia|]. split; [done|]. zdm.
Qed.

Lemma is_table_kept m m' f :
  (forall i, 0 <= i < 1024 -> pme_present (pde m i) = true -> pde m' i = pde m i) -> is_table m f -> is_table m' f.
Proof. intros H (i & Hi & Hp & Ht). exists i. unfold table. by rewrite H. Qed.

(** [map_to] when the table is absent: the allocator's page becomes the table,
    with whatever it held. *)
Lemma map_to_absent m va pa attr :
  memory_wf m -> is_u32 va -> entry m va = None -> 0 <= attr < 4096 -> Z.testbit attr 0 = true ->
  (exists b, 8192 <= b < 1048576 /\ bit_used (page_allocator m) b = false) ->
  exists n m1, 0 <= n < 1048576 /\ bit_used (page_allocator m) n = false /\
    same_memory m m1 /\ marks (fun b => b =? n) (page_allocator m) (page_allocator m1) /\
    let m2 := set_word m1 (cr3 m + 4 * (va / 4194304)) (Z.lor (n * 4096) attr) in
    map_to va pa attr m = Some (va, set_word m2 (pte_at m2 va) (Z.lor pa attr)).
Proof.
  intros Hwf Hva He Hattr Hodd (b & Hb & Hfree). destruct (wf_alloc _ Hwf) as [Hwa Hmb].
  destruct (lock_next_page_spec m Hwa Hmb) as (n & m1 & El & E1 & E2 & E3 & E4 & E5 & _ & Hcase).
  assert (same_memory m m1) as Hsame by done.
  destruct Hcase as [(Hn & Hnf & Hmarks)|(_ & _ & start & Hs & Hfull)];
    [|rewrite Hfull in Hfree by lia; done].
  exists n, m1. do 4 (split; [done|]). cbv zeta.
  destruct (new_table_wf m m1 va n attr) as (Hwf2 & Ht & Hp & _ & _); try done.
  unfold map_to, ensure_pte, phys_alloc_page, kbind, kget, vload, vstore.
  rewrite walk_pde by done. cbn [mbind option_bind]. fold (pde m (va / 4194304)).
  apply entry_present in He as Hpf. rewrite Hpf. cbn [negb]. rewrite El. unfold kret.
  rewrite (walk_same m m1) by done. rewrite walk_pde by done. cbn [mbind option_bind].
  unfold BYTES_PER_PAGE. rewrite (u32_small (n * 4096)) by (unfold is_u32; lia).
  fold (set_word m1 (cr3 m + 4 * (va / 4194304)) (Z.lor (n * 4096) attr)).
  set (m2 := set_word m1 _ _) in *. rewrite walk_pte by done. rewrite Hp. done.
Qed.
End paging.

(** C11: [map_to] through the recursive mapping: afterwards every address of the
    page translates to the frame with its offset, the invariant holds, and every
    other page keeps its translation, except that when the 4 MB region had no
    table yet its other pages now translate as the stale content of the fresh
    frame says, because [ensure_pte] does not clear it. *)
Theorem map_to_translates m va pa attr :
  memory_wf m -> is_u32 va -> va / 4194304 <> 1 -> is_u32 pa -> pa mod 4096 = 0 ->
  0 <= attr < 4096 -> Z.testbit attr 0 = true ->
  (exists b, 8192 <= b < 1048576 /\ bit_used (page_allocator m) b = false) ->
  exists m', map_to va pa attr m = Some (va, m') /\ memory_wf m' /\
    (forall a, is_u32 a -> a / 4096 = va / 4096 -> walk m' a = Some (pa + a mod 4096)) /\
    (forall a, is_u32 a -> a / 4194304 <> 1 -> a / 4096 <> va / 4096 ->
       a / 4194304 <> va / 4194304 \/ entry m va <> None -> walk m' a = walk m a) /\
    (entry m va = None -> exists n, bit_used (page_allocator m) n = false /\
       forall a, is_u32 a -> a / 4096 <> va / 4096 -> a / 4194304 = va / 4194304 ->
         walk m' a = entry_target (phys m (n * 4096 + 4 * (a / 4096 mod 1024))) a).
Proof.
  intros Hwf Hva Hn1 Hpa Hpm Hattr Hodd Hfree.
  destruct (entry_split pa attr Hpa Hpm Hattr) as (S1 & S2 & S3 & _). rewrite Hodd in S2.
  assert (forall a, a / 4096 = va / 4096 -> entry_target (Z.lor pa attr) a = Some (pa + a mod 4096)) as Htgt
    by (intros; unfold entry_target; by rewrite S2, S1).
  destruct (entry m va) as [e|] eqn:He.
  - rewrite map_to_present by (done || by rewrite He). eexists. split; [reflexivity|].
    assert (entry m va <> None) as He' by (by rewrite He).
    pose proof (set_pte_wf m va (Z.lor pa attr) Hwf Hva Hn1 He') as Hwf'. split; [done|]. split_and!.
    + intros a Ha Ea. rewrite walk_entry, set_pte_entry by (done || zdm). rewrite Ea, Z.eqb_refl. by apply Htgt.
    + intros a Ha Hna Hp _. rewrite !walk_entry, set_pte_entry by done. by destruct (Z.eqb_spec (a / 4096) (va / 4096)).
    + done.
  - destruct (map_to_absent m va pa attr Hwf Hva He Hattr Hodd Hfree) as (n & m1 & Hn & Hnf & Hsame & Hmarks & Hm).
    cbv zeta in Hm. rewrite Hm. clear Hm.
    destruct (new_table_wf m m1 va n attr Hwf Hva He Hsame Hmarks Hn Hnf Hattr Hodd) as (Hwf2 & Ht & Hp & Hop & Hoph).
    set (m2 := set_word m1 _ _) in *. eexists. split; [reflexivity|].
    assert (entry m2 va <> None) as He2 by (rewrite entry_present; congruence).
    pose proof (set_pte_wf m2 va (Z.lor pa attr) Hwf2 Hva Hn1 He2) as Hwf'. split; [done|]. split_and!.
    + intros a Ha Ea. rewrite walk_entry, set_pte_entry by (done || zdm). rewrite Ea, Z.eqb_refl. by apply Htgt.
    + intros a Ha Hna Hpa' [Hd|]; [|done]. rewrite walk_entry, set_pte_entry by done.
      destruct (Z.eqb_spec (a / 4096) (va / 4096)); [done|]. rewrite walk_entry by done.
      assert (entry m2 a = entry m a) as ->; [|done].
      pose proof (dir_range a Ha). unfold entry, pte_at, table. rewrite Hop by done.
      destruct (pme_present (pde m (a / 4194304))) eqn:Hpp; [|done]. rewrite Hoph; [done|].
      fold (table m (a / 4194304)). fold (pte_at m a).
      apply pte_not_pde; try done; [by rewrite entry_present, Hpp|by apply dir_range].
    + intros _. exists n. split; [done|]. intros a Ha Hpg Hd.
      rewrite walk_entry, set_pte_entry by (done || congruence).
      destruct (Z.eqb_spec (a / 4096) (va / 4096)); [done|].
      unfold entry. rewrite Hd, Hp. cbn [mbind option_bind]. unfold pte_at. rewrite Hd, Ht.
      rewrite Hoph; [done|]. pose proof (dir_range va Hva).
      destruct (wf_cr3 _ Hwf) as [_ Hc]. pose proof (Z.mod_pos_bound (a / 4096) 1024 ltac:(lia)) as Hb.
      destruct (wf_self _ Hwf) as [Hp1 Ht1]. pose proof (wf_marked _ Hwf 1 ltac:(lia) Hp1) as Hmk.
      rewrite Ht1 in Hmk. pose proof (Z.div_mod (cr3 m) 4096 ltac:(lia)) as Ec.
      intros Eq. assert (cr3 m / 4096 = n) as En by lia. congruence.
Qed.

(** ** [virt_alloc_pages] *)

(** More than [n] frames are free in the part of the allocator that every search
    for a frame reaches. *)
Definition frames_left (m : machine) (n : Z) : Prop :=
  exists pool, NoDup pool /\ Forall (fun b => 8192 <= b < 1048576 /\ bit_used (page_allocator m) b = false) pool /\
    n < Z.of_nat (length pool).

Lemma pool_left pool taken :
  NoDup pool -> (length taken < length pool)%nat -> exists b : Z, b ∈ pool /\ b ∉ taken.
Proof.
  intros Hnd Hlen. destruct (decide (Forall (fun b => b ∈ taken) pool)) as [Hall|Hn].
  - exfalso. rewrite Forall_forall in Hall.
    assert (length pool <= length taken)%nat; [|lia]. by apply submseteq_length, NoDup_submseteq.
  - apply not_Forall_Exists in Hn; [|apply _]. apply Exists_exists in Hn as (b & Hb & Hnb). by exists b.
Qed.

Section virt_alloc.
Implicit Types (m : machine) (fs ts : list Z).
Context (m0 : machine) (address attr pages : Z).
Context (Hwf0 : memory_wf m0) (Hattr : 0 <= attr < 4096) (Hodd : Z.testbit attr 0 = true).
Context (Hal : address mod 4096 = 0) (Hlo : 0 <= address) (Hhi : address + 4096 * pages <= 4294967296).
Context (Hself : forall i, 0 <= i < pages -> (address + 4096 * i) / 4194304 <> 1).
Context (Htab : (forall i, 0 <= i < pages -> entry m0 (address + 4096 * i) <> None) \/ frames_left m0 (2 * pages + 32)).

Definition page_va (k : Z) : Z := address + 4096 * k.

(** The frame of the page of an address, among those mapped so far. *)
Definition page_frame fs (a : Z) : option Z :=
  if address / 4096 <=? a / 4096 then fs !! Z.to_nat (a / 4096 - address / 4096) else None.

(** The frames [fs] are mapped in order at [address], and [ts] are the frames of
    the tables that were missing. *)
Record mapped m fs ts : Prop := {
  mp_wf : memory_wf m;
  mp_cr3 : cr3 m = cr3 m0;
  mp_pde : forall i, 0 <= i < 1024 -> pde m i = pde m0 i \/
    pme_present (pde m0 i) = false /\ (exists k, 0 <= k < Z.of_nat (length fs) /\ page_va k / 4194304 = i) /\
      exists t, t ∈ ts /\ pde m i = Z.lor (4096 * t) attr;
  mp_len : Z.of_nat (length fs) <= pages;
  mp_tabs : (length ts <= length fs)%nat;
  mp_nodup : NoDup (fs ++ ts);
  mp_fresh : forall f, f ∈ fs ++ ts -> 0 <= f < 1048576 /\ bit_used (page_allocator m0) f = false;
  mp_phys : forall a, phys m a = phys m0 a \/ is_table m (a / 4096);
  mp_entry : forall a, is_u32 a -> a / 4194304 <> 1 ->
    match page_frame fs a with
    | Some f => entry m a = Some (Z.lor (4096 * f) attr)
    | None => entry m0 a <> None -> entry m a = entry m0 a
    end
}.

Definition frame_used fs ts (b : Z) : bool := bit_used (page_allocator m0) b || bool_decide (b ∈ fs ++ ts).

Lemma page_va_range k : 0 <= k < pages -> is_u32 (page_va k) /\ page_va k / 4096 = address / 4096 + k.
Proof. unfold page_va, is_u32. intros. split; [lia|]. zdm. Qed.

(** While block [r] is locked, its content is in [bits]. *)
Definition block_locked m fs ts (r bits : Z) : Prop :=
  alloc_wf (page_allocator m) /\ max_blocks (page_allocator m) = 32768 /\ 0 <= r < 32768 /\ is_u32 bits /\
  (forall j, 0 <= j < 32 -> Z.testbit bits j = frame_used fs ts (32 * r + j)) /\
  (forall b, 0 <= b -> bit_used (page_allocator m) b = if b / 32 =? r then true else frame_used fs ts b).

Definition allocated m fs ts : Prop :=
  alloc_wf (page_allocator m) /\ max_blocks (page_allocator m) = 32768 /\
  forall b, 0 <= b -> bit_used (page_allocator m) b = frame_used fs ts b.

Lemma block_locked_full m fs ts r : block_locked m fs ts r all_ones -> allocated m fs ts.
Proof.
  intros (Hwf & Hm & Hr & _ & Hb & Hu). split_and!; [done..|]. intros b Hb0. rewrite Hu by done.
  destruct (Z.eqb_spec (b / 32) r) as [E|]; [|done].
  pose proof (Z.mod_pos_bound b 32 ltac:(lia)) as Hmod.
  replace b with (32 * r + b mod 32) by zdm. rewrite <- Hb, all_ones_testbit by lia.
  symmetry. apply Z.ltb_lt. lia.
Qed.

Lemma frame_used_add (us : list Z) fs ts f b :
  (forall x, x ∈ us <-> x ∈ fs ++ ts \/ x = f) ->
  bit_used (page_allocator m0) b || bool_decide (b ∈ us) = frame_used fs ts b || (b =? f).
Proof.
  intros Hus. unfold frame_used. rewrite <- orb_assoc. f_equal.
  destruct (Z.eqb_spec b f) as [->|Hn].
  - rewrite orb_true_r. apply bool_decide_eq_true, Hus. by right.
  - rewrite orb_false_r. apply bool_decide_ext. rewrite Hus. tauto.
Qed.

Lemma frame_used_snoc fs ts f b : frame_used (fs ++ [f]) ts b = frame_used fs ts b || (b =? f).
Proof. apply frame_used_add. intros x. rewrite !elem_of_app, list_elem_of_singleton. tauto. Qed.

Lemma frame_used_table fs ts n b : frame_used fs (ts ++ [n]) b = frame_used fs ts b || (b =? n).
Proof. apply frame_used_add. intros x. rewrite !elem_of_app, list_elem_of_singleton. tauto. Qed.

(** Taking frame [j] of the locked block. *)
Lemma block_locked_take m m' fs ts r bits j :
  block_locked m fs ts r bits -> page_allocator m' = page_allocator m -> 0 <= j < 32 ->
  block_locked m' (fs ++ [32 * r + j]) ts r (Z.lor bits (1 <<w j)).
Proof.
  intros (Hwf & Hm & Hr & Hu32 & Hb & Hu) E Hj. unfold block_locked. rewrite E. split_and!; try done; try lia.
  - auto with word.
  - intros i Hi. rewrite Z.lor_spec, bit_mask_testbit, Hb, frame_used_snoc by lia.
    f_equal. split_ltb; lia || done.
  - intros b Hb0. rewrite Hu by done. destruct (Z.eqb_spec (b / 32) r) as [|Hn]; [done|].
    rewrite frame_used_snoc. destruct (Z.eqb_spec b (32 * r + j)); [zdm|]. by rewrite orb_false_r.
Qed.

(** A frame for a table, found while block [r] is locked, is in another block. *)
Lemma block_locked_table m m' fs ts r bits n :
  block_locked m fs ts r bits -> 0 <= n < 1048576 -> bit_used (page_allocator m) n = false ->
  marks (fun b => b =? n) (page_allocator m) (page_allocator m') ->
  block_locked m' fs (ts ++ [n]) r bits /\ n / 32 <> r /\ frame_used fs ts n = false.
Proof.
  intros (Hwf & Hm & Hr & Hu32 & Hb & Hu) Hn Hfree (Wa & Wm & _ & Wu).
  assert (n / 32 <> r /\ frame_used fs ts n = false) as [Hnr Hfu].
  { rewrite Hu in Hfree by lia. destruct (Z.eqb_spec (n / 32) r); [done|]. by split. }
  split; [|done]. split; [done|]. split; [congruence|]. do 2 (split; [done|]). split.
  - intros j Hj. rewrite frame_used_table, <- Hb by done. destruct (Z.eqb_spec (32 * r + j) n); [zdm|]. by rewrite orb_false_r.
  - intros b Hb0. rewrite Wu, Hu, frame_used_table by done. rewrite Hm.
    destruct (Z.eqb_spec (b / 32) r); [done|]. destruct (Z.eqb_spec b n) as [->|]; cbn [andb]; [|done].
    by destruct (Z.ltb_spec n (32 * 32768)); [|lia].
Qed.

(** Some frame is left for a table. *)
Lemma table_frame m fs ts r bits :
  mapped m fs ts -> block_locked m fs ts r bits -> frames_left m0 (2 * pages + 32) ->
  exists b, 8192 <= b < 1048576 /\ bit_used (page_allocator m) b = false.
Proof.
  intros Hmap (_ & _ & Hr & _ & _ & Hu) (pool & Hnd & Hpool & Hlen). rewrite Forall_forall in Hpool.
  destruct (pool_left pool (fs ++ ts ++ seqZ (32 * r) 32)) as (b & Hb & Hn).
  { done. }
  { pose proof (mp_len _ _ _ Hmap). pose proof (mp_tabs _ _ _ Hmap). rewrite !length_app, length_seqZ. lia. }
  destruct (Hpool b Hb) as [Hbr Hfree]. exists b. split; [done|]. rewrite Hu by lia.
  rewrite !elem_of_app, elem_of_seqZ in Hn. destruct (Z.eqb_spec (b / 32) r).
  - exfalso. apply Hn. right. right. zdm.
  - unfold frame_used. rewrite Hfree. apply bool_decide_eq_false. rewrite elem_of_app. tauto.
Qed.

(** A present table: the entry of the next page is stored. *)
Lemma mapped_store m fs ts f :
  mapped m fs ts -> Z.of_nat (length fs) < pages -> 0 <= f < 1048576 -> frame_used fs ts f = false ->
  entry m (page_va (Z.of_nat (length fs))) <> None ->
  mapped (set_word m (pte_at m (page_va (Z.of_nat (length fs)))) (Z.lor (4096 * f) attr)) (fs ++ [f]) ts.
Proof.
  intros [Hwf Hcr Hpde Hlen Htabs Hnd Hfresh Hphys Hent] Hlt Hf [Hu Hnin%bool_decide_eq_false]%orb_false_elim He.
  set (k := Z.of_nat (length fs)) in *.
  destruct (page_va_range k ltac:(lia)) as [Hva Hpg]. pose proof (Hself k ltac:(lia)) as Hn1. fold (page_va k) in Hn1.
  destruct (entry_split (4096 * f) attr) as (S1 & S2 & S3 & _);
    [unfold is_u32; lia|by rewrite Z.mul_comm, Z.mod_mul|done|].
  assert (length (fs ++ [f]) = S (length fs)) as El by (rewrite length_app; cbn [length]; lia).
  split; rewrite ?El.
  - by apply set_pte_wf.
  - first [exact Hcr|destruct Hsame as (_ & E2 & _); cbn [set_word with_phys cr3]; unfold m2; cbn [set_word with_phys cr3]; congruence].
  - intros i Hi. rewrite set_pte_pde by done. destruct (Hpde i Hi) as [|(Hp & (j & Hj & Ej) & Ht)]; [by left|right].
    split; [done|]. split; [|done]. exists j. split; [lia|done].
  - lia.
  - lia.
  - rewrite <- app_assoc. apply NoDup_app. apply NoDup_app in Hnd as (N1 & N2 & N3). rewrite elem_of_app in Hnin.
    split; [done|]. split.
    + intros x Hx [-> |Hx']%elem_of_cons; [tauto|by apply (N2 x)].
    + constructor; [tauto|done].
  - intros x Hx. destruct (decide (x = f)) as [->|]; [done|]. apply Hfresh.
    rewrite !elem_of_app, list_elem_of_singleton in *. tauto.
  - intros a. assert (forall g, is_table m g -> is_table (set_word m (pte_at m (page_va k)) (Z.lor (4096 * f) attr)) g) as Hkt
      by (intros g; apply is_table_kept; intros i Hi _; by apply set_pte_pde).
    cbn [set_word with_phys phys]. destruct (Z.eqb_spec a (pte_at m (page_va k))) as [->|].
    + right. by apply Hkt, pte_in_table.
    + destruct (Hphys a) as [->|]; [by left|right; by apply Hkt].
  - intros a Ha Hna. specialize (Hent a Ha Hna). rewrite set_pte_entry by done. rewrite Hpg. unfold page_frame in *.
    destruct (Z.eqb_spec (a / 4096) (address / 4096 + k)) as [->|Hne].
    + destruct (Z.leb_spec (address / 4096) (address / 4096 + k)); [|lia].
      rewrite lookup_app_r by lia. by replace (_ - _)%nat with 0%nat by lia.
    + destruct (Z.leb_spec (address / 4096) (a / 4096)); [|done].
      destruct (decide (a / 4096 - address / 4096 < k)).
      * by rewrite lookup_app_l by lia.
      * rewrite lookup_ge_None_2 in Hent |- * by (rewrite ?El; lia). done.
Qed.

(** A new element at the end of each half. *)
Lemma NoDup_snoc_both {A} (l k : list A) x y : NoDup (l ++ k) -> x ∉ l ++ k -> y ∉ l ++ k -> x <> y -> NoDup ((l ++ [x]) ++ k ++ [y]).
Proof.
  intros Hnd Hx Hy Hne. rewrite <- app_assoc. rewrite elem_of_app in Hx, Hy.
  assert (Permutation (l ++ [x] ++ k ++ [y]) (x :: y :: l ++ k)) as ->.
  { cbn [app]. rewrite <- Permutation_middle, (app_assoc l k). by rewrite <- Permutation_cons_append. }
  apply NoDup_cons. split; [|apply NoDup_cons; split; [|exact Hnd]].
  - rewrite elem_of_cons, elem_of_app. tauto.
  - rewrite elem_of_app. tauto.
Qed.

(** A missing table: the frame [n] becomes the table of the next page. *)
Lemma mapped_table m m1 fs ts n :
  mapped m fs ts -> Z.of_nat (length fs) < pages -> 0 <= n < 1048576 -> frame_used fs ts n = false ->
  bit_used (page_allocator m) n = false -> entry m (page_va (Z.of_nat (length fs))) = None ->
  same_memory m m1 -> marks (fun b => b =? n) (page_allocator m) (page_allocator m1) ->
  let va := page_va (Z.of_nat (length fs)) in
  let m2 := set_word m1 (cr3 m + 4 * (va / 4194304)) (Z.lor (n * 4096) attr) in
  forall f, 0 <= f < 1048576 -> frame_used fs ts f = false -> f <> n ->
  mapped (set_word m2 (pte_at m2 va) (Z.lor (4096 * f) attr)) (fs ++ [f]) (ts ++ [n]).
Proof.
  intros [Hwf Hcr Hpde Hlen Htabs Hnd Hfresh Hphys Hent] Hlt Hn Hfn Hnf He Hsame Hmarks va m2 f Hf Hff Hne.
  destruct (page_va_range _ (conj (Nat2Z.is_nonneg (length fs)) Hlt)) as [Hva Hpg]. fold va in Hva, Hpg, He.
  pose proof (Hself (Z.of_nat (length fs)) ltac:(lia)) as Hn1. fold (page_va (Z.of_nat (length fs))) in Hn1. fold va in Hn1.
  destruct (new_table_wf m m1 va n attr Hwf Hva He Hsame Hmarks Hn Hnf Hattr Hodd) as (Hwf2 & Ht & Hp & Hop & Hoph).
  fold m2 in Hwf2, Ht, Hp, Hop, Hoph.
  assert (entry m2 va <> None) as He2 by (rewrite entry_present; congruence).
  destruct (entry_split (4096 * f) attr) as (S1 & S2 & S3 & _);
    [unfold is_u32; lia|by rewrite Z.mul_comm, Z.mod_mul|done|].
  pose proof (dir_range va Hva) as Hd.
  apply orb_false_elim in Hfn as [Hun Hnin%bool_decide_eq_false]. apply orb_false_elim in Hff as [Huf Hfin%bool_decide_eq_false].
  assert (length (fs ++ [f]) = S (length fs)) as El by (rewrite length_app; cbn [length]; lia).
  assert (forall a, is_u32 a -> a / 4194304 <> 1 -> a / 4194304 <> va / 4194304 -> entry m2 a = entry m a) as Hkeep.
  { intros a Ha Hna Hdir. pose proof (dir_range a Ha). unfold entry, pte_at, table. rewrite Hop by done.
    destruct (pme_present (pde m (a / 4194304))) eqn:Hpp; [|done]. rewrite Hoph; [done|].
    fold (table m (a / 4194304)). fold (pte_at m a). apply pte_not_pde; try done. by rewrite entry_present, Hpp. }
  split; rewrite ?El.
  - by apply set_pte_wf.
  - first [exact Hcr|destruct Hsame as (_ & E2 & _); cbn [set_word with_phys cr3]; unfold m2; cbn [set_word with_phys cr3]; congruence].
  - intros i Hi. rewrite set_pte_pde by done. destruct (decide (i = va / 4194304)) as [->|Hi'].
    + right. split; [|split].
      * apply entry_present in He. destruct (Hpde _ Hd) as [<-|[? _]]; done.
      * exists (Z.of_nat (length fs)). split; [lia|done].
      * exists n. split; [apply elem_of_app; right; by apply list_elem_of_singleton|].
        destruct Hsame as (E1 & E2 & _). unfold m2, pde, set_word. cbn [with_phys phys cr3]. rewrite E2, Z.eqb_refl.
        rewrite (Z.mul_comm n). apply u32_small. rewrite (Z.mul_comm 4096 n).
        apply (entry_split (n * 4096) attr); [unfold is_u32; lia|by rewrite Z.mod_mul|done].
    + rewrite Hop by done. destruct (Hpde i Hi) as [|(Hpi & (j & Hj & Ej) & t & Hti & Hpt)]; [by left|right].
      split; [done|]. split; [exists j; split; [lia|done]|]. exists t. split; [apply elem_of_app; by left|done].
  - lia.
  - rewrite length_app. cbn [length]. lia.
  - by apply NoDup_snoc_both.
  - intros x Hx. destruct (decide (x = f)) as [->|]; [done|]. destruct (decide (x = n)) as [->|]; [done|]. apply Hfresh.
    rewrite !elem_of_app, !list_elem_of_singleton in *. tauto.
  - intros a. set (m3 := set_word m2 _ _).
    assert (forall g, is_table m2 g -> is_table m3 g) as H23
      by (intros g; apply is_table_kept; intros i Hi _; by apply set_pte_pde).
    destruct (decide (a = pte_at m2 va)) as [->|Ha3]; [right; by apply H23, pte_in_table|].
    assert (phys m3 a = phys m2 a) as -> by (unfold m3, set_word; cbn [with_phys phys]; by destruct (Z.eqb_spec a (pte_at m2 va))).
    destruct (decide (a = cr3 m + 4 * (va / 4194304))) as [->|Ha2].
    + right. apply H23. destruct Hsame as (_ & E2 & _). replace (cr3 m) with (cr3 m2) by done. by apply pde_in_table.
    + rewrite Hoph by done. destruct (Hphys a) as [->|Ht3]; [by left|right]. apply H23. revert Ht3. apply is_table_kept.
      intros i Hi Hpi. apply Hop; [done|]. intros ->. apply entry_present in He. congruence.
  - intros a Ha Hna. specialize (Hent a Ha Hna). rewrite set_pte_entry by done. rewrite Hpg. unfold page_frame in *.
    destruct (Z.eqb_spec (a / 4096) (address / 4096 + Z.of_nat (length fs))) as [->|Hpa].
    + destruct (Z.leb_spec (address / 4096) (address / 4096 + Z.of_nat (length fs))); [|lia].
      rewrite lookup_app_r by lia. by replace (_ - _)%nat with 0%nat by lia.
    + assert (forall o, entry m a = o -> o <> None -> entry m2 a = o) as Hsome.
      { intros o Ho Hno. rewrite <- Ho. apply Hkeep; [done..|]. intros Hdir. apply Hno. rewrite <- Ho.
        apply entry_present in He. apply entry_present. by rewrite Hdir. }
      destruct (Z.leb_spec (address / 4096) (a / 4096)); [|intros Hsm; apply Hsome; auto].
      destruct (decide (a / 4096 - address / 4096 < Z.of_nat (length fs))).
      * rewrite lookup_app_l by lia.
        destruct (fs !! Z.to_nat (a / 4096 - address / 4096)) as [g|] eqn:Eg; [by apply Hsome|].
        apply lookup_ge_None_1 in Eg. lia.
      * rewrite lookup_ge_None_2 in Hent |- * by (rewrite ?El; lia). intros Hsm. apply Hsome; auto.
Qed.

Definition more_used m m' : Prop :=
  forall b, 0 <= b -> bit_used (page_allocator m) b = true -> bit_used (page_allocator m') b = true.

(** One page more: frame [j] of the locked block. *)
Lemma mapped_step m fs ts r bits j :
  mapped m fs ts -> block_locked m fs ts r bits -> Z.of_nat (length fs) < pages -> 0 <= j < 32 ->
  Z.testbit bits j = false ->
  exists m' ts', map_to (page_va (Z.of_nat (length fs))) (4096 * (32 * r + j)) attr m =
      Some (page_va (Z.of_nat (length fs)), m') /\
    mapped m' (fs ++ [32 * r + j]) ts' /\ block_locked m' (fs ++ [32 * r + j]) ts' r (Z.lor bits (1 <<w j)) /\
    more_used m m'.
Proof.
  intros Hmap Hlock Hlt Hj Hbit. pose proof Hlock as (_ & _ & Hr & _ & Hb & _). rewrite Hb in Hbit by done.
  destruct (page_va_range _ (conj (Nat2Z.is_nonneg (length fs)) Hlt)) as [Hva _].
  pose proof (mp_wf _ _ _ Hmap) as Hwf.
  destruct (entry m (page_va (Z.of_nat (length fs)))) as [e|] eqn:He.
  - assert (entry m (page_va (Z.of_nat (length fs))) <> None) as He' by congruence.
    exists (set_word m (pte_at m (page_va (Z.of_nat (length fs)))) (Z.lor (4096 * (32 * r + j)) attr)), ts.
    split; [by apply map_to_present|]. split; [apply mapped_store; try done; lia|]. split; [by eapply block_locked_take|by intros ? _].
  - assert (frames_left m0 (2 * pages + 32)) as Hleft.
    { destruct Htab as [Hp|]; [|done]. exfalso. pose proof (Hp (Z.of_nat (length fs)) ltac:(lia)) as H0.
      pose proof (mp_entry _ _ _ Hmap _ Hva (Hself (Z.of_nat (length fs)) ltac:(lia))) as Hent.
      unfold page_frame in Hent. destruct (page_va_range _ (conj (Nat2Z.is_nonneg (length fs)) Hlt)) as [_ Hpg].
      rewrite Hpg in Hent. destruct (Z.leb_spec (address / 4096) (address / 4096 + Z.of_nat (length fs))); [|lia].
      rewrite lookup_ge_None_2 in Hent by lia. rewrite He in Hent. apply H0. symmetry. exact (Hent H0). }
    destruct (map_to_absent m _ (4096 * (32 * r + j)) attr Hwf Hva He Hattr Hodd (table_frame _ _ _ _ _ Hmap Hlock Hleft))
      as (n & m1 & Hn & Hnf & Hsame & Hmarks & E). cbv zeta in E.
    destruct (block_locked_table m m1 fs ts r bits n Hlock Hn Hnf Hmarks) as (Hlock1 & Hnr & Hfn).
    eexists _, (ts ++ [n]). split; [exact E|]. split.
    + eapply mapped_table; try done; [lia|]. intros <-. apply Hnr. zdm.
    + split; [eapply block_locked_take; [exact Hlock1|done|done]|]. intros b Hb0 Hu. cbn [set_word with_phys page_allocator].
      destruct Hmarks as (_ & _ & _ & ->); [|done]. by rewrite Hu.
Qed.

(** Giving the block back. *)
Lemma unlock_block_spec m fs ts r bits :
  block_locked m fs ts r bits ->
  exists m', kunlock_block bits r m = Some (tt, m') /\ allocated m' fs ts /\ same_memory m m'.
Proof.
  intros (Hwf & Hm & Hr & Hu32 & Hb & Hu). unfold kunlock_block, unlock_block.
  destruct (set_block_ok (page_allocator m) r bits) as (ba & -> & Hwf' & E1 & E2 & U); [done|lia|done|].
  eexists. split; [reflexivity|]. split_and!; try done. unfold allocated. cbn [with_alloc page_allocator].
  split_and!; [done|congruence|]. intros b Hb0. rewrite U, Hu by done.
  destruct (Z.eqb_spec (b / 32) r) as [E|]; [|done].
  rewrite Hb by (apply Z.mod_pos_bound; lia). f_equal. zdm.
Qed.

Lemma frame_used_mono fs ts b : bit_used (page_allocator m0) b = true -> frame_used fs ts b = true.
Proof. unfold frame_used. by intros ->. Qed.

(** The frames of the tables are in use. *)
Lemma mapped_marked m fs ts i :
  mapped m fs ts -> 0 <= i < 1024 -> pme_present (pde m i) = true -> frame_used fs ts (table m i / 4096) = true.
Proof.
  intros Hmap Hi Hp. destruct (mp_pde _ _ _ Hmap i Hi) as [E|(_ & _ & t & Ht & E)]; unfold table; rewrite E in *.
  - apply frame_used_mono. by apply (wf_marked _ Hwf0).
  - destruct (mp_fresh _ _ _ Hmap t) as [Htr _]; [apply elem_of_app; by right|].
    destruct (entry_split (4096 * t) attr) as (-> & _); [unfold is_u32; lia|by rewrite Z.mul_comm, Z.mod_mul|done|].
    rewrite Z.mul_comm, Z.div_mul by lia. unfold frame_used. apply orb_true_iff. right.
    apply bool_decide_eq_true, elem_of_app. by right.
Qed.

(** Only the allocator changes, and keeps what is in use. *)
Lemma mapped_alloc m m' fs ts :
  mapped m fs ts -> same_memory m m' -> alloc_wf (page_allocator m') -> max_blocks (page_allocator m') = 32768 ->
  (forall b, 0 <= b -> frame_used fs ts b = true -> bit_used (page_allocator m') b = true) ->
  mapped m' fs ts.
Proof.
  intros Hmap (E1 & E2 & E3 & E4 & E5) Ha Hm Hmono. pose proof Hmap as [Hwf Hcr Hpde Hlen Htabs Hnd Hfresh Hphys Hent].
  assert (forall i, pde m' i = pde m i) as Ep by (intros; unfold pde; by rewrite E1, E2).
  assert (forall i, table m' i = table m i) as Et by (intros; unfold table; by rewrite Ep).
  assert (memory_wf m') as Hwf'.
  { destruct Hwf as [W1 W2 W3 W4 W5 W6 W7 W8 W9 W10].
    split; rewrite ?E1, ?E2, ?E3, ?E4, ?E5, ?Ep, ?Et; try done.
    - intros i Hi. rewrite Ep, Et. intros Hp. apply Hmono.
      + destruct (table_aligned m i (mp_wf _ _ _ Hmap)) as (k & -> & Hk). zdm.
      + by apply (mapped_marked m).
    - apply Hmono; [done|]. apply frame_used_mono. apply (wf_zero _ Hwf0).
    - intros i j. rewrite !Ep, !Et. apply W10. }
  split; try done; [congruence| | |].
  - intros i Hi. rewrite Ep. by apply Hpde.
  - intros a. rewrite E1. destruct (Hphys a) as [|Ht3]; [by left|right]. revert Ht3. by apply is_table_kept.
  - intros a Ha' Hn. assert (entry m' a = entry m a) as -> by (unfold entry, pte_at; by rewrite Ep, Et, E1).
    by apply Hent.
Qed.

Context (Hpages : 1 <= pages < 4294967296).

(** The frames taken after a run of the loops. *)
Definition pages_done (res : option (Z * Z)) m : Prop :=
  exists fs ts, mapped m fs ts /\ allocated m fs ts /\
    match res with
    | None => Z.of_nat (length fs) = pages
    | Some (va, rest) => Z.of_nat (length fs) < pages /\ va = page_va (Z.of_nat (length fs)) /\
        rest = pages - Z.of_nat (length fs)
    end.

Definition block_result (r : unit + Z * Z) : option (Z * Z) :=
  match r with inl _ => None | inr s => Some s end.

Lemma page_va_next k : 0 <= k -> k + 1 < pages -> page_va k +w BYTES_PER_PAGE = page_va (k + 1).
Proof. intros Hk Hb. unfold BYTES_PER_PAGE, page_va. rewrite u32_small; [lia|]. unfold is_u32. lia. Qed.

Lemma testbit_next j : 0 <= j < 32 -> (if j =? 31 then 0 else 1 <<w (j + 1)) = (1 <<w j) <<w 1.
Proof.
  intros Hj.
  pose proof (seqZ_forallb (fun j => (if j =? 31 then 0 else 1 <<w (j + 1)) =? ((1 <<w j) <<w 1)) 0 32
    ltac:(vm_compute; reflexivity) j Hj) as E. by apply Z.eqb_eq in E.
Qed.

(** The word of the block the loop holds is all ones in memory. *)
Lemma block_locked_stays m fs ts r bits : block_locked m fs ts r bits -> block_full (page_allocator m) r.
Proof.
  intros (Hwf & Hm & Hr & _ & _ & Hu). unfold block_full.
  destruct (block_lookup (page_allocator m) r Hwf) as (w & Hw & Uw); [lia|]. rewrite Hw. f_equal.
  apply u32_bits_inj; auto with word. intros i Hi. rewrite all_ones_testbit by lia.
  pose proof (Hu (32 * r + i) ltac:(lia)) as Hbit. replace ((32 * r + i) / 32) with r in Hbit by zdm.
  rewrite Z.eqb_refl, (block_eq _ _ _ _ Hw) in Hbit by zdm.
  replace ((32 * r + i) mod 32) with i in Hbit by zdm. rewrite Hbit. symmetry. apply Z.ltb_lt. lia.
Qed.

Lemma land_bit_zero x j : 0 <= j < 32 -> (Z.land x (1 <<w j) =? 0) = negb (Z.testbit x j).
Proof.
  intros Hj. destruct (Z.testbit x j) eqn:E; cbn [negb].
  - apply Z.eqb_neq. intros H0. assert (Z.testbit (Z.land x (1 <<w j)) j = true) as Hc; [|by rewrite H0, Z.bits_0 in Hc].
    rewrite Z.land_spec, bit_mask_testbit, E, Z.eqb_refl by lia. done.
  - apply Z.eqb_eq, Z.bits_inj'. intros i Hi. rewrite Z.land_spec, bit_mask_testbit, Z.bits_0 by lia.
    destruct (Z.eqb_spec i j) as [->|]; [by rewrite E|apply andb_false_r].
Qed.

Lemma alloc_from_block_spec n j m fs ts r bits :
  Z.of_nat n = 33 - j -> 0 <= j <= 32 -> mapped m fs ts -> block_locked m fs ts r bits ->
  (forall i, 0 <= i < j -> Z.testbit bits i = true) -> Z.of_nat (length fs) < pages ->
  exists res m', alloc_from_block n attr r (page_va (Z.of_nat (length fs))) (u32 (4096 * (32 * r + j))) bits
      (if j =? 32 then 0 else 1 <<w j) (pages - Z.of_nat (length fs)) m = Some (res, m') /\
    pages_done (block_result res) m' /\
    (block_result res <> None -> block_full (page_allocator m') r /\ more_used m m').
Proof.
  revert j m fs ts bits. induction n as [|n IH]; intros j m fs ts bits Hn Hj Hmap Hlock Hbits Hlen; [lia|].
  cbn [alloc_from_block]. destruct (Z.eqb_spec bits all_ones) as [->|Hne].
  { exists (inr (page_va (Z.of_nat (length fs)), pages - Z.of_nat (length fs))), m. split; [done|]. split.
    - exists fs, ts. split; [done|]. split; [by eapply block_locked_full|]. done.
    - intros _. split; [by eapply block_locked_stays|by intros ? _]. }
  pose proof Hlock as (Hwa & Hmb & Hr & Hu32 & Hb & Hu).
  assert (j < 32) as Hj32.
  { destruct (Z.lt_ge_cases j 32); [done|]. destruct Hne. apply u32_bits_inj; auto with word.
    intros i Hi. rewrite Hbits, all_ones_testbit by lia. symmetry. apply Z.ltb_lt. lia. }
  assert (forall b', (forall i, 0 <= i < j -> Z.testbit b' i = true) -> Z.testbit b' j = true ->
            forall i, 0 <= i < j + 1 -> Z.testbit b' i = true) as Hnext.
  { intros b' Hb' Hbj i Hi. destruct (decide (i = j)) as [->|]; [done|]. apply Hb'. lia. }
  assert (u32 (4096 * (32 * r + j)) +w BYTES_PER_PAGE = u32 (4096 * (32 * r + (j + 1)))) as Ephys.
  { unfold BYTES_PER_PAGE, u32. rewrite Z.add_mod_idemp_l by lia. f_equal. lia. }
  assert (((if j =? 32 then 0 else 1 <<w j) <<w 1) = (if j + 1 =? 32 then 0 else 1 <<w (j + 1))) as Etb.
  { destruct (Z.eqb_spec j 32); [lia|]. rewrite <- testbit_next by lia. split_ltb; lia || done. }
  rewrite Etb, Ephys. destruct (Z.eqb_spec j 32) as [|_]; [lia|].
  rewrite land_bit_zero by lia. destruct (Z.testbit bits j) eqn:Ej; cbn [negb].
  - apply (IH (j + 1) m fs ts bits); try done; try lia. by apply Hnext.
  - destruct (mapped_step m fs ts r bits j Hmap Hlock Hlen) as (m1 & ts1 & Em & Hmap1 & Hlock1 & Hmore); [lia|done|].
    unfold kbind at 1. rewrite u32_small by (unfold is_u32; lia). rewrite Em.
    assert (Z.of_nat (length (fs ++ [32 * r + j])) = Z.of_nat (length fs) + 1) as Elen
      by (rewrite length_app; cbn [length]; lia).
    rewrite (u32_small (pages - _ - 1)) by (unfold is_u32; lia).
    destruct (Z.leb_spec (pages - Z.of_nat (length fs) - 1) 0) as [Hd|Hd].
    + destruct (unlock_block_spec m1 _ _ r _ Hlock1) as (m2 & E2 & Hall & Hsame).
      unfold kbind. rewrite E2. exists (inl tt), m2. split; [done|]. split; [|done].
      exists (fs ++ [32 * r + j]), ts1. split_and!; [|done|cbn [block_result]; lia].
      destruct Hall as (W1 & W2 & W3). apply (mapped_alloc m1); try done. intros b Hb0. by rewrite W3.
    + rewrite page_va_next by lia. rewrite <- Elen.
      replace (pages - Z.of_nat (length fs) - 1) with (pages - Z.of_nat (length (fs ++ [32 * r + j]))) by lia.
      destruct (IH (j + 1) m1 (fs ++ [32 * r + j]) ts1 (Z.lor bits (1 <<w j))) as (res & m2 & E2 & Hdone & Hfull);
        try done; try lia.
      { apply Hnext; [intros i Hi; by rewrite Z.lor_spec, Hbits|].
        by rewrite Z.lor_spec, bit_mask_testbit, Z.eqb_refl, orb_true_r by lia. }
      exists res, m2. split; [exact E2|]. split; [done|]. intros Hres. destruct (Hfull Hres) as [? Hmore2].
      split; [done|]. intros b Hb0 Hub. by apply Hmore2, Hmore.
Qed.

(** Every frame from block [start] on is in use. *)
Definition exhausted m (start : Z) : Prop :=
  forall b, 32 * start <= b < 1048576 -> bit_used (page_allocator m) b = true.

(** [lock_next_block] on the frames taken so far. *)
Lemma klock_spec m fs ts lb start :
  mapped m fs ts -> allocated m fs ts -> 0 <= start -> start < 32768 ->
  (forall b, 0 <= b < 32 -> frame_used fs ts b = true) ->
  exists r bits m1, klock_next_block lb start m = Some ((r, bits), m1) /\
    ((start <= r < 32768 /\ r <> 0 /\ bits <> all_ones /\ mapped m1 fs ts /\ block_locked m1 fs ts r bits /\
      ~ block_full (page_allocator m) r /\ more_used m m1 /\
      (forall b, 32 * start <= b < 32 * r -> bit_used (page_allocator m) b = true)) \/
     (r = 0 /\ m1 = m /\ exhausted m start)).
Proof.
  intros Hmap (Hwa & Hmb & Hu) H0 Hs Hlow. unfold klock_next_block.
  destruct (lock_next_block_spec (page_allocator m) lb start Hwa H0) as (r & w & ba & -> & Hcase).
  exists r, w, (with_alloc m ba (seed m)). split; [done|].
  destruct Hcase as [(Hr & Hw & Uw & Hne & Hset & Hwf' & Hbetween)|(-> & -> & _ & Hfull)].
  - left. rewrite Hmb in Hr.
    assert (r <> 0) as Hr0.
    { intros ->. apply Hne. apply u32_bits_inj; auto with word. intros i Hi. rewrite all_ones_testbit by lia.
      specialize (Hlow i Hi). rewrite <- Hu in Hlow by lia. rewrite (block_eq _ _ _ _ Hw) in Hlow by zdm.
      rewrite Z.mod_small in Hlow by lia. rewrite Hlow. symmetry. apply Z.ltb_lt. lia. }
    pose proof Hset as (F1 & F2 & _)%set_block_inv.
    assert (forall b, 0 <= b -> bit_used ba b = if b / 32 =? r then true else frame_used fs ts b) as Hbits.
    { intros b Hb. rewrite (bit_used_set _ _ _ _ b Hset), Hu by done.
      destruct (Z.eqb_spec (b / 32) r); [|done]. rewrite all_ones_testbit by (apply Z.mod_pos_bound; lia).
      apply Z.ltb_lt, Z.mod_pos_bound. lia. }
    split_and!; try done; try lia.
    + apply (mapped_alloc m); try done; cbn [with_alloc page_allocator]; try congruence.
      intros b Hb Hbu. rewrite Hbits by done. by destruct (_ =? _).
    + unfold block_locked. cbn [with_alloc page_allocator]. split_and!; try done; try lia; try congruence.
      intros j Hj. rewrite <- Hu by lia. rewrite (block_eq _ _ _ _ Hw) by zdm. f_equal. zdm.
    + unfold block_full. congruence.
    + intros b Hb Hbu. cbn [with_alloc page_allocator]. rewrite Hbits by done. destruct (_ =? _); [done|]. by rewrite <- Hu.
    + intros b Hb. apply (full_block_used _ (b / 32)); [|done]. apply Hbetween. zdm.
  - right. split_and!; [done|by destruct m|]. intros b Hb.
    apply (full_block_used _ (b / 32)); [|done]. apply Hfull. rewrite Hmb. zdm.
Qed.

Lemma alloc_blocks_spec n m fs ts lb start lo s0 :
  32768 - lo < Z.of_nat n -> 0 <= start <= lo -> start < 32768 -> lo <= start + 1 ->
  (lo = start + 1 -> block_full (page_allocator m) start) ->
  (forall b, 32 * s0 <= b < 32 * lo -> bit_used (page_allocator m) b = true) -> 0 <= s0 ->
  mapped m fs ts -> allocated m fs ts -> Z.of_nat (length fs) < pages ->
  (forall b, 0 <= b < 32 -> bit_used (page_allocator m0) b = true) ->
  exists r m', alloc_blocks n address attr (page_va (Z.of_nat (length fs))) lb start
      (pages - Z.of_nat (length fs)) m = Some (r, m') /\
    ((r = address /\ pages_done None m') \/
     (r = 0 /\ exists fs' ts', mapped m' fs' ts' /\ allocated m' fs' ts' /\ exhausted m' s0)).
Proof.
  revert m fs ts lb start lo.
  induction n as [|n IH]; intros m fs ts lb start lo Hn Hs Hs2 Hlo2 Hfull Hpre Hs0 Hmap Hall Hlen Hlow; [lia|].
  cbn [alloc_blocks].
  destruct (klock_spec m fs ts lb start Hmap Hall ltac:(lia) Hs2) as (r & bits & m1 & El & Hcase).
  { intros b Hb. by apply frame_used_mono, Hlow. }
  unfold kbind at 1. rewrite El.
  destruct Hcase as [(Hr & Hr0 & Hne & Hmap1 & Hlock & Hnf & Hm1 & Hbetween)|(-> & -> & Hex)].
  - destruct (Z.eqb_spec r 0) as [|_]; [done|].
    destruct (alloc_from_block_spec 33 0 m1 fs ts r bits) as (res & m2 & Eb & Hdone & Hfull2);
      [done|lia|done|done|lia|done|].
    assert (r *w 32 *w 4096 = u32 (4096 * (32 * r + 0))) as ->.
    { rewrite (u32_small (r * 32)) by (unfold is_u32; lia). f_equal. lia. }
    change (if 0 =? 32 then 0 else 1 <<w 0) with 1 in Eb.
    unfold kbind. rewrite Eb. destruct res as [[]|[va rest]]; cbn [block_result] in *.
    + exists address, m2. split; [done|]. left. split; [done|exact Hdone].
    + destruct Hdone as (fs' & ts' & Hmap2 & Hall2 & Hlen2 & -> & ->).
      assert (r <> start \/ lo = start) as Hcases by (destruct (decide (lo = start + 1)) as [E|];
        [left; intros ->; apply Hnf, Hfull, E|right; lia]).
      destruct (Hfull2 ltac:(done)) as [Hf2 Hm2].
      apply (IH m2 fs' ts' all_ones r (r + 1)); try done; try lia. intros b Hb.
      destruct (decide (32 * r <= b)); [apply (full_block_used _ r); [done|zdm]|]. apply Hm2; [lia|]. apply Hm1; [lia|].
      destruct (decide (32 * start <= b)); [apply Hbetween|apply Hpre]; lia.
  - rewrite Z.eqb_refl. exists 0, m. split; [done|]. right. split; [done|]. exists fs, ts. split_and!; [done..|].
    intros b Hb. destruct (decide (32 * start <= b)); [apply Hex; lia|apply Hpre; lia].
Qed.

(** [virt_alloc_pages_at] in terms of [mapped]. *)
Lemma virt_alloc_pages_at_ok :
  (forall b, 0 <= b < 32 -> bit_used (page_allocator m0) b = true) ->
  exists r m' fs ts, virt_alloc_pages_at pages address attr m0 = Some (r, m') /\ mapped m' fs ts /\ allocated m' fs ts /\
    (r = address /\ Z.of_nat (length fs) = pages \/ r = 0 /\ exists start, start < 256 /\ exhausted m' start).
Proof.
  intros Hlow. unfold virt_alloc_pages_at, krand, kget, kbind.
  set (s := prand (seed m0) mod 256). assert (0 <= s < 256) as Hs by (apply Z.mod_pos_bound; lia).
  cbn [with_alloc page_allocator].
  set (m1 := with_alloc m0 (page_allocator m0) (prand (seed m0))).
  pose proof (wf_alloc _ Hwf0) as [Hwa Hmb].
  assert (forall b, frame_used [] [] b = bit_used (page_allocator m0) b) as Hnone.
  { intros b. unfold frame_used. rewrite bool_decide_eq_false_2; [by rewrite orb_false_r|apply not_elem_of_nil]. }
  assert (mapped m1 [] []) as Hmap.
  { apply (mapped_alloc m0); try done; [|intros b _; by rewrite Hnone]. split; try done.
    - by left.
    - cbn. lia.
    - constructor.
    - intros f Hf. by apply elem_of_nil in Hf.
    - by left.
    - intros a _ _. unfold page_frame. rewrite lookup_nil. by destruct (_ <=? _). }
  assert (allocated m1 [] []) as Hall by (split_and!; [done..|]; intros b _; by rewrite Hnone).
  destruct (alloc_blocks_spec (S (Z.to_nat (max_blocks (page_allocator m0)))) m1 [] [] 0 s s s) as (r & m' & E & Hres);
    try done; try lia.
  { cbn. lia. }
  cbn [length Z.of_nat] in E. rewrite Z.sub_0_r in E. unfold page_va in E at 1. rewrite Z.mul_0_r, Z.add_0_r in E.
  exists r, m'. rewrite E.
  destruct Hres as [(-> & fs & ts & ? & ? & ?)|(-> & fs & ts & ? & ? & ?)]; exists fs, ts; split_and!; try done.
  - by left.
  - right. split; [done|]. exists s. split; [lia|done].
Qed.

(** With enough frames left it succeeds. *)
Lemma virt_alloc_succeeds :
  (forall b, 0 <= b < 32 -> bit_used (page_allocator m0) b = true) -> frames_left m0 (2 * pages + 32) ->
  exists m' fs ts, virt_alloc_pages_at pages address attr m0 = Some (address, m') /\ mapped m' fs ts /\
    allocated m' fs ts /\ Z.of_nat (length fs) = pages.
Proof.
  intros Hlow (pool & Hnd & Hpool & Hlen). rewrite Forall_forall in Hpool.
  destruct (virt_alloc_pages_at_ok Hlow) as (r & m' & fs & ts & E & Hmap & Hall & [[-> Hl]|(-> & start & Hs & Hex)]).
  - by exists m', fs, ts.
  - exfalso. destruct (pool_left pool (fs ++ ts)) as (b & Hb & Hn); [done| |].
    { pose proof (mp_len _ _ _ Hmap). pose proof (mp_tabs _ _ _ Hmap). rewrite length_app. lia. }
    destruct (Hpool b Hb) as [Hr Hfree]. destruct Hall as (_ & _ & Hu).
    specialize (Hex b ltac:(lia)). rewrite Hu in Hex by lia. unfold frame_used in Hex. rewrite Hfree in Hex.
    apply bool_decide_eq_true in Hex. done.
Qed.
End virt_alloc.


(** A machine with the directory at page 1, a table for the low 4 MB at page 2
    and block 0 of the frames in use. *)
Definition small_machine : machine :=
  {| phys := fun a => if a =? 0x1000 then 0x2003 else if a =? 0x1004 then 0x1003 else 0;
     cr3 := 0x1000; paging := true; page_tables := 0x400000; page_dir := 0x401000;
     page_allocator := {| max_blocks := 32768; max_bits := 1048576;
                          bitset_blocks := all_ones :: replicate (Z.to_nat 32767) 0 |};
     seed := 1; virt_alloc_ptr := 0x800000; static_alloc_ptr := 0x300000; static_alloc_limit := 0x400000;
     page_copy_ptr := 0x2FF000 |}.

Lemma small_machine_bits b :
  0 <= b < 1048576 -> bit_used (page_allocator small_machine) b = (b <? 32).
Proof.
  intros Hb. destruct (Z.ltb_spec b 32).
  - apply (full_block_used _ 0); [done|zdm].
  - rewrite (block_eq _ (b / 32) 0 b); [apply Z.bits_0| |done].
    unfold arr_get. cbn [page_allocator small_machine bitset_blocks].
    destruct (Z.leb_spec 0 (b / 32)) as [_|]; [|zdm].
    replace (Z.to_nat (b / 32)) with (S (Z.to_nat (b / 32 - 1))) by zdm. cbn [lookup list_lookup].
    apply lookup_replicate. split; [done|]. zdm.
Qed.

Lemma small_machine_pde i :
  0 <= i < 1024 -> pme_present (pde small_machine i) = true -> i = 0 \/ i = 1.
Proof.
  intros Hi. unfold pde. cbn [phys cr3 small_machine].
  destruct (Z.eqb_spec (0x1000 + 4 * i) 0x1000); [lia|].
  destruct (Z.eqb_spec (0x1000 + 4 * i) 0x1004); [lia|done].
Qed.

Lemma small_alloc_ok : alloc_wf (page_allocator small_machine).
Proof.
  split; cbn [page_allocator small_machine bitset_blocks max_blocks max_bits].
  - constructor; [apply is_u32_all_ones|]. apply Forall_replicate. unfold is_u32. lia.
  - cbn [length]. rewrite length_replicate. lia.
  - lia.
  - lia.
Qed.

Lemma small_machine_wf : memory_wf small_machine.
Proof.
  split; try done.
  - intros a. cbn [phys small_machine]. unfold is_u32. repeat case_match; lia.
  - split; [apply small_alloc_ok|done].
  - intros i Hi Hp. destruct (small_machine_pde i Hi Hp) as [-> | ->]; rewrite small_machine_bits; done.
  - intros i j Hi Hj Hpi Hpj.
    destruct (small_machine_pde i Hi Hpi) as [-> | ->], (small_machine_pde j Hj Hpj) as [-> | ->]; done.
Qed.

Lemma map_to_translates_witness :
  exists m', map_to 0x8000 0x30000 PAGE_USER_DATA small_machine = Some (0x8000, m') /\
    walk m' 0x8123 = Some 0x30123.
Proof.
  destruct (map_to_translates small_machine 0x8000 0x30000 PAGE_USER_DATA small_machine_wf)
    as (m' & E & _ & Hw & _);
    [unfold is_u32; lia|vm_compute; congruence|unfold is_u32; lia|reflexivity|vm_compute; split; congruence|reflexivity| |].
  - exists 8192. split; [lia|]. rewrite small_machine_bits by lia. reflexivity.
  - exists m'. split; [exact E|]. apply (Hw 0x8123); [unfold is_u32; lia|reflexivity].
Defined.

Lemma small_machine_room n : n < 1000 -> frames_left small_machine n.
Proof.
  intros Hn. exists (seqZ 8192 1000). split; [apply NoDup_seqZ|]. rewrite length_seqZ. split; [|lia].
  apply Forall_forall. intros b Hb%elem_of_seqZ. split; [lia|]. rewrite small_machine_bits by lia. apply Z.ltb_ge. lia.
Qed.

