(* ===== verification/Paging.v ===== *)
(** * What the memory manager sets up: [initialize_memory], copy on write and the
    mappings of the boot sequence

    Theorems on the operations of [Memory]: the page tables [initialize_memory]
    builds satisfy the invariant the other operations rely on, and the page fault
    handler gives the faulting page a private copy. *)
From S2P Require Import Prelude BitOps BitAlloc Memory.

(** ** Stores with paging off *)

Lemma walk_off m va : paging m = false -> walk m va = Some va.
Proof. intros H. unfold walk. by rewrite H. Qed.

Lemma vstore_off m va v : paging m = false -> vstore va v m = Some (tt, set_word m va v).
Proof. intros H. unfold vstore. by rewrite walk_off. Qed.

Lemma vload_off m va : paging m = false -> vload va m = Some (phys m va, m).
Proof. intros H. unfold vload. by rewrite walk_off. Qed.

(** The loop rule of [kfor]. *)
Lemma kfor_inv (P : Z -> machine -> Prop) n i body m :
  P i m ->
  (forall j m, i <= j < i + Z.of_nat n -> P j m -> exists m', body j m = Some (tt, m') /\ P (j + 1) m') ->
  exists m', kfor n i body m = Some (tt, m') /\ P (i + Z.of_nat n) m'.
Proof.
  revert i m. induction n as [|n IH]; intros i m H0 Hb; cbn [kfor].
  - exists m. split; [done|]. by rewrite Z.add_0_r.
  - destruct (Hb i m) as (m1 & E1 & H1); [lia|done|]. unfold kbind. rewrite E1.
    destruct (IH (i + 1) m1 H1) as (m2 & E2 & H2); [intros; apply Hb; [lia|done]|].
    exists m2. split; [exact E2|]. by replace (i + Z.of_nat (S n)) with (i + 1 + Z.of_nat n) by lia.
Qed.

Lemma kbind_ok {A B} (c : K A) (k : A -> K B) m x m' : c m = Some (x, m') -> kbind c k m = k x m'.
Proof. intros H. unfold kbind. by rewrite H. Qed.

Section init.
Context (base : Z) (Hal : base mod 4096 = 0) (Hbase : 0 <= base <= 0x3DD000).
Implicit Types (m : machine).

Definition low_attr (j : Z) : Z :=
  if j <? base / 4096 + 34 then Z.lor PAGE_GLOBAL_DATA PAGE_USER else PAGE_GLOBAL_DATA.

(** The directory word [j] before the tables are filled. *)
Definition dir_word (j : Z) : Z :=
  if j =? 0 then Z.lor base (Z.lor PAGE_GLOBAL_DATA PAGE_USER)
  else if j =? 1 then Z.lor (base + 4096) PAGE_KERNEL_DATA else 0.

(** The words of the directory and the first [i] of the table, in a machine that
    differs from [m0] in its memory. *)
Definition built (m0 : machine) (i : Z) m : Prop :=
  (exists p, m = with_phys m0 p) /\ (forall a, is_u32 (phys m a)) /\
  (forall j, 0 <= j < 1024 -> phys m (base + 4096 + 4 * j) = dir_word j) /\
  (forall j, 0 <= j < i -> phys m (base + 4 * j) = Z.lor (4096 * j) (low_attr j)).

(** One entry of the identity map. *)
Lemma built_step m0 i m attr :
  paging m0 = false -> page_tables m0 = base -> page_dir m0 = base + 4096 ->
  built m0 i m -> 0 <= i < 1024 -> attr = low_attr i ->
  exists m', map_to (4096 * i) (4096 * i) attr m = Some (4096 * i, m') /\ built m0 (i + 1) m'.
Proof.
  intros Hp Ht Hd ((p & Em) & Hu & Hdir & Htab) Hi ->.
  assert (paging m = false) as Hpm by (by rewrite Em).
  assert (get_pde m (4096 * i) = base + 4096) as Epde.
  { unfold get_pde, get_pde_index. rewrite Em. cbn [with_phys page_dir]. rewrite Hd, Z.shiftr_div_pow2 by lia.
    change (2 ^ 22) with 4194304. rewrite u32_small by (unfold is_u32; zdm). zdm. }
  assert (get_pte m (4096 * i) = base + 4 * i) as Epte.
  { unfold get_pte, get_pte_index. rewrite Em. cbn [with_phys page_tables]. rewrite Ht, Z.shiftr_div_pow2 by lia.
    change (2 ^ 12) with 4096. replace (4096 * i / 4096) with i by zdm. apply u32_small. unfold is_u32. lia. }
  assert (pme_present (phys m (base + 4096)) = true) as Hpres.
  { specialize (Hdir 0 ltac:(lia)). rewrite Z.add_0_r in Hdir. rewrite Hdir. unfold dir_word. cbn [Z.eqb].
    unfold pme_present. rewrite Z.lor_spec. apply orb_true_r. }
  unfold map_to, ensure_pte, kbind, kget, kret. rewrite vload_off, Epde, Hpres by done. cbn [negb].
  rewrite Epte, vstore_off by done. eexists. split; [reflexivity|].
  split; [|split; [|split]].
  - rewrite Em. by eexists.
  - intros a. cbn. destruct (_ =? _); [apply u32_range|apply Hu].
  - intros j Hj. cbn. destruct (Z.eqb_spec (base + 4096 + 4 * j) (base + 4 * i)); [lia|by apply Hdir].
  - intros j Hj. cbn. destruct (Z.eqb_spec (base + 4 * j) (base + 4 * i)).
    + assert (j = i) as -> by lia. apply u32_small. apply is_u32_lor; [unfold is_u32; lia|].
      unfold low_attr. destruct (_ <? _); vm_compute; split; congruence.
    + apply Htab. lia.
Qed.

(** The directory is cleared and its first two words are set. *)
Lemma clear_dir m :
  paging m = false -> (forall a, is_u32 (phys m a)) ->
  exists m', (do! kfor 1024 0 (fun t => vstore ((base + 4096) +w 4 * t) 0) in
     do! vstore (base + 4096) (Z.lor base (Z.lor PAGE_GLOBAL_DATA PAGE_USER)) in
     vstore ((base + 4096) +w 4 * PDIR_SELF_INDEX) (Z.lor (base + 4096) PAGE_KERNEL_DATA)) m = Some (tt, m') /\
    built m 0 m'.
Proof.
  intros Hp Hu.
  destruct (kfor_inv (fun i m' => (exists p, m' = with_phys m p) /\ (forall a, is_u32 (phys m' a)) /\
      forall j, 0 <= j < i -> phys m' (base + 4096 + 4 * j) = 0)
    1024 0 (fun t => vstore ((base + 4096) +w 4 * t) 0) m) as (m1 & E1 & (p1 & Em1) & Hu1 & Hz).
  - split; [exists (phys m); by destruct m|]. split; [done|lia].
  - intros j m' Hj ((p & Em) & Hu' & Hz). rewrite vstore_off by (by rewrite Em). eexists. split; [reflexivity|].
    split; [rewrite Em; by eexists|]. split.
    + intros a. cbn. destruct (_ =? _); [apply u32_range|apply Hu'].
    + intros i Hi. cbn. rewrite u32_small by (unfold is_u32; lia).
      destruct (Z.eqb_spec (base + 4096 + 4 * i) (base + 4096 + 4 * j)); [done|apply Hz; lia].
  - rewrite (kbind_ok _ _ _ _ _ E1). change (0 + Z.of_nat 1024) with 1024 in Hz.
    assert (paging m1 = false) as Hp1 by (by rewrite Em1).
    rewrite (kbind_ok _ _ _ _ _ (vstore_off m1 _ _ Hp1)), vstore_off by done.
    eexists. split; [reflexivity|]. split; [rewrite Em1; by eexists|]. split; [|split; [|lia]].
    + intros a. cbn. do 2 (destruct (_ =? _); [apply u32_range|]). apply Hu1.
    + intros j Hj. cbn. unfold PDIR_SELF_INDEX. rewrite (u32_small (base + 4096 + _)) by (unfold is_u32; lia).
      unfold dir_word.
      destruct (Z.eqb_spec (base + 4096 + 4 * j) (base + 4096 + 4 * 1)).
      * assert (j = 1) as -> by lia. cbn [Z.eqb Pos.eqb]. apply u32_small.
        apply is_u32_lor; [unfold is_u32; lia|vm_compute; split; congruence].
      * destruct (Z.eqb_spec (base + 4096 + 4 * j) (base + 4096)).
        -- assert (j = 0) as -> by lia. cbn [Z.eqb]. apply u32_small.
           apply is_u32_lor; [unfold is_u32; lia|vm_compute; split; congruence].
        -- destruct (Z.eqb_spec j 0), (Z.eqb_spec j 1); try lia. apply Hz. lia.
Qed.

(** The two loops over the low 4 MB. *)
Lemma identity_map m0 m :
  paging m0 = false -> page_tables m0 = base -> page_dir m0 = base + 4096 -> built m0 0 m ->
  let users := base / 4096 + 34 in
  exists m', (do! kfor (Z.to_nat users) 0 (fun i =>
        do! map_to (4096 * i) (4096 * i) (Z.lor PAGE_GLOBAL_DATA PAGE_USER) in kret tt) in
     kfor (Z.to_nat (1024 - users)) users (fun i =>
        do! map_to (4096 * i) (4096 * i) PAGE_GLOBAL_DATA in kret tt)) m = Some (tt, m') /\ built m0 1024 m'.
Proof.
  intros Hp Ht Hd H0 users. assert (34 <= users <= 1023) as Hus by (unfold users; zdm).
  destruct (kfor_inv (built m0) (Z.to_nat users) 0 (fun i =>
        do! map_to (4096 * i) (4096 * i) (Z.lor PAGE_GLOBAL_DATA PAGE_USER) in kret tt) m H0) as (m1 & E1 & H1).
  { intros j m' Hj Hb. destruct (built_step m0 j m' (Z.lor PAGE_GLOBAL_DATA PAGE_USER) Hp Ht Hd Hb) as (m2 & E & Hb2);
      [lia| |].
    - unfold low_attr. destruct (Z.ltb_spec j (base / 4096 + 34)); [done|unfold users in *; lia].
    - exists m2. by rewrite (kbind_ok _ _ _ _ _ E). }
  rewrite (kbind_ok _ _ _ _ _ E1). replace (0 + Z.of_nat (Z.to_nat users)) with users in H1 by lia.
  destruct (kfor_inv (built m0) (Z.to_nat (1024 - users)) users (fun i =>
        do! map_to (4096 * i) (4096 * i) PAGE_GLOBAL_DATA in kret tt) m1 H1) as (m2 & E2 & H2).
  { intros j m' Hj Hb. destruct (built_step m0 j m' PAGE_GLOBAL_DATA Hp Ht Hd Hb) as (m2 & E & Hb2);
      [lia| |].
    - unfold low_attr. destruct (Z.ltb_spec j (base / 4096 + 34)); [unfold users in *; lia|done].
    - exists m2. by rewrite (kbind_ok _ _ _ _ _ E). }
  exists m2. split; [done|]. by replace 1024 with (users + Z.of_nat (Z.to_nat (1024 - users))) by lia.
Qed.

(** The tables the loops leave, once paging is on. *)
Lemma built_wf m0 m m' :
  built m0 1024 m -> phys m' = phys m -> paging m' = true -> cr3 m' = base + 4096 -> page_tables m' = 0x400000 ->
  page_dir m' = 0x401000 -> alloc_wf (page_allocator m') -> max_blocks (page_allocator m') = 32768 ->
  (forall b, 0 <= b < 1024 -> bit_used (page_allocator m') b = true) ->
  memory_wf m' /\ (forall a, 0 <= a < 0x400000 -> entry m' a = Some (Z.lor (4096 * (a / 4096)) (low_attr (a / 4096)))) /\
  (forall a, is_u32 a -> 0x800000 <= a -> entry m' a = None) /\
  Z.testbit (pde m' 0) 8 = true /\ (forall i, 2 <= i < 1024 -> pme_present (pde m' i) = false).
Proof.
  intros (_ & Hu & Hdir & Htab) Eph Hpg Hcr Ept Epd Hwa Hmb Hused.
  assert (forall i, 0 <= i < 1024 -> pde m' i = dir_word i) as Hpde.
  { intros i Hi. unfold pde. rewrite Hcr, Eph. by apply Hdir. }
  destruct (entry_split base (Z.lor PAGE_GLOBAL_DATA PAGE_USER)) as (S1 & S2 & _);
    [unfold is_u32; lia|done|vm_compute; split; congruence|].
  destruct (entry_split (base + 4096) PAGE_KERNEL_DATA) as (T1 & T2 & _);
    [unfold is_u32; lia|zdm|vm_compute; split; congruence|].
  assert (pde m' 0 = Z.lor base (Z.lor PAGE_GLOBAL_DATA PAGE_USER)) as P0 by (by rewrite Hpde).
  assert (pde m' 1 = Z.lor (base + 4096) PAGE_KERNEL_DATA) as P1 by (by rewrite Hpde).
  assert (forall i, 0 <= i < 1024 -> pme_present (pde m' i) = true -> i = 0 \/ i = 1) as Honly.
  { intros i Hi. rewrite Hpde by done. unfold dir_word.
    destruct (Z.eqb_spec i 0), (Z.eqb_spec i 1); auto. done. }
  assert (table m' 0 = base) as T0 by (unfold table; by rewrite P0).
  assert (table m' 1 = base + 4096) as Tb1 by (unfold table; by rewrite P1).
  split; [|split; [|split; [|split]]].
  - split; try done.
    + rewrite Hcr. split; [unfold is_u32; lia|zdm].
    + split; [by rewrite P1, T2|by rewrite Tb1].
    + intros a. by rewrite Eph.
    + intros i Hi Hp. destruct (Honly i Hi Hp) as [-> | ->]; rewrite ?T0, ?Tb1; apply Hused; zdm.
    + by apply Hused.
    + intros i j Hi Hj Hpi Hpj. destruct (Honly i Hi Hpi) as [-> | ->], (Honly j Hj Hpj) as [-> | ->];
        rewrite ?T0, ?Tb1; done || lia.
  - intros a Ha. unfold entry, pte_at. replace (a / 4194304) with 0 by zdm. rewrite P0, S2.
    change (Z.testbit (Z.lor PAGE_GLOBAL_DATA PAGE_USER) 0) with true. rewrite T0, Eph.
    replace (a / 4096 mod 1024) with (a / 4096) by zdm. rewrite Htab by zdm. done.
  - intros a Ha Hge. unfold entry. pose proof (dir_range a Ha) as Hr. rewrite Hpde by done. unfold dir_word.
    destruct (Z.eqb_spec (a / 4194304) 0); [zdm|]. destruct (Z.eqb_spec (a / 4194304) 1); [zdm|]. done.
  - rewrite P0, Z.lor_spec. change (Z.testbit (Z.lor PAGE_GLOBAL_DATA PAGE_USER) 8) with true. apply orb_true_r.
  - intros i Hi. destruct (pme_present (pde m' i)) eqn:Hp; [|done]. destruct (Honly i ltac:(lia) Hp); lia.
Qed.
End init.

Lemma low_attr_eq base a :
  base mod 4096 = 0 ->
  low_attr base (a / 4096) = if a <? base + 34 * 4096 then Z.lor PAGE_GLOBAL_DATA PAGE_USER else PAGE_GLOBAL_DATA.
Proof.
  intros Hal. unfold low_attr.
  destruct (Z.ltb_spec (a / 4096) (base / 4096 + 34)), (Z.ltb_spec a (base + 34 * 4096)); reflexivity || (exfalso; zdm).
Qed.

Lemma low_entry_target a attr :
  0 <= a < 0x400000 -> 0 <= attr < 4096 -> Z.testbit attr 0 = true ->
  entry_target (Z.lor (4096 * (a / 4096)) attr) a = Some a.
Proof.
  intros Ha Hattr Hodd. unfold entry_target.
  destruct (entry_split (4096 * (a / 4096)) attr) as (-> & -> & _); [unfold is_u32; zdm|zdm|done|].
  rewrite Hodd. f_equal. zdm.
Qed.

(** The allocator [initialize_memory] starts from: a million free frames. *)
Lemma new_frames N :
  0 <= N < 2147483616 ->
  alloc_wf (new_BitAllocator N) /\ max_blocks (new_BitAllocator N) = (N + 31) / 32 /\
  forall b, bit_used (new_BitAllocator N) b = false.
Proof.
  intros HN. split; [|split; [done|]].
  - split; cbn [new_BitAllocator bitset_blocks max_blocks max_bits].
    + apply Forall_replicate. unfold is_u32. lia.
    + rewrite length_replicate. zdm.
    + zdm.
    + zdm.
  - intros b. unfold bit_used, arr_get. cbn [new_BitAllocator bitset_blocks].
    destruct (0 <=? b / 32); [|done]. destruct (_ !! _) eqn:E; [|done].
    apply lookup_replicate in E as [-> _]. apply Z.bits_0.
Qed.

Lemma seq_tail {A} (a1 a2 a3 : K unit) (k : unit -> K A) m m' :
  (do! a1 in do! a2 in a3) m = Some (tt, m') -> (do! a1 in do! a2 in kbind a3 k) m = k tt m'.
Proof.
  unfold kbind. destruct (a1 m) as [[? m1]|]; [|done]. destruct (a2 m1) as [[? m2]|]; [|done]. by intros ->.
Qed.

Lemma seq_tail2 {A B C} (a1 : K B) (a2 : K C) (k : C -> K A) m x m' :
  (do! a1 in a2) m = Some (x, m') -> (do! a1 in kbind a2 k) m = k x m'.
Proof. unfold kbind. destruct (a1 m) as [[? m1]|]; [|done]. by intros ->. Qed.

(** The frames [initialize_memory] marks: the bitmap's own are below 4 MB. *)
Lemma first_frames base ba1 ba2 :
  base mod 4096 = 0 -> 0 <= base <= 0x3DD000 ->
  marks (fun b => ((base + 2 * 4096) / 4096 <=? b) && (b <? (base + 2 * 4096) / 4096 +
    ((base + 2 * 4096 + 131072 + 4095) / 4096 -w (base + 2 * 4096) / 4096)))
    (new_BitAllocator PAGE_BITMAP_BITS) ba1 ->
  marks (fun b => (0 <=? b) && (b <? 0 + 1024)) ba1 ba2 ->
  alloc_wf ba2 /\ max_blocks ba2 = 32768 /\
  forall b, 0 <= b < 1048576 -> bit_used ba2 b = (b <? 1024).
Proof.
  intros Hal Hb (_ & Hm1 & _ & U1) (Hw2 & Hm2 & _ & U2).
  destruct (new_frames PAGE_BITMAP_BITS ltac:(vm_compute; split; congruence)) as (_ & Hm0 & Hfree).
  change ((PAGE_BITMAP_BITS + 31) / 32) with 32768 in Hm0. split; [done|]. split; [congruence|].
  intros b Hbb. rewrite U2, U1, Hfree, Hm1, Hm0 by lia. cbn [orb].
  replace ((base + 2 * 4096) / 4096) with (base / 4096 + 2) by zdm.
  replace ((base + 2 * 4096 + 131072 + 4095) / 4096) with (base / 4096 + 34) by zdm.
  assert (0 <= base / 4096 <= 989) as Hq by zdm. rewrite (u32_small (_ - _)) by (unfold is_u32; lia).
  clear - Hbb Hq. revert Hq. generalize (base / 4096). intros q Hq.
  destruct (Z.leb_spec 0 b); [|lia]. destruct (Z.ltb_spec b (32 * 32768)); [|lia].
  destruct (Z.ltb_spec b (0 + 1024)), (Z.ltb_spec b 1024), (Z.leb_spec (q + 2) b),
    (Z.ltb_spec b (q + 2 + (q + 34 - (q + 2)))); cbn [andb orb]; reflexivity || lia.
Qed.

(** The end of [initialize_memory], from the loads of the control registers on. *)
Definition start_paging (base : Z) : K Z :=
  do! kmap (fun m => Some {| phys := phys m; cr3 := base + 4096; paging := true; page_tables := 4096 * 1024;
                             page_dir := 4096 * 1024 + 4096;
                             page_allocator := page_allocator m; seed := seed m;
                             virt_alloc_ptr := 4096 * 1024 +w 4096 * 1024;
                             static_alloc_ptr := page_of (base + 2 * 4096 + 131072 + 4095);
                             static_alloc_limit := 4096 * 1024; page_copy_ptr := page_copy_ptr m |}) in
  let! copy := static_alloc_pages 1 in
  do! kmap (fun m => Some {| phys := phys m; cr3 := cr3 m; paging := paging m; page_tables := page_tables m;
                             page_dir := page_dir m; page_allocator := page_allocator m; seed := seed m;
                             virt_alloc_ptr := virt_alloc_ptr m; static_alloc_ptr := static_alloc_ptr m;
                             static_alloc_limit := static_alloc_limit m; page_copy_ptr := copy |}) in
  kret 1.

Lemma initialize_tables base m :
  base mod 4096 = 0 -> 0 <= base <= 0x3DD000 -> (forall a, is_u32 (phys m a)) ->
  exists m0 m', initialize_memory base m = start_paging base m' /\ built base m0 1024 m' /\
    alloc_wf (page_allocator m') /\ max_blocks (page_allocator m') = 32768 /\
    forall b, 0 <= b < 1048576 -> bit_used (page_allocator m') b = (b <? 1024).
Proof.
  intros Hal Hb Hu. unfold initialize_memory.
  destruct (new_frames PAGE_BITMAP_BITS ltac:(vm_compute; split; congruence)) as (Hw0 & Hm0 & _).
  change ((PAGE_BITMAP_BITS + 31) / 32) with 32768 in Hm0.
  change PAGE_BITMAP_BYTES with 131072.
  rewrite (u32_small (base + PDIR_SELF_INDEX * 4096)) by (unfold is_u32, PDIR_SELF_INDEX; lia).
  rewrite (u32_small (base + 2 * 4096)) by (unfold is_u32; lia).
  rewrite !(u32_small (base + 2 * 4096 + 131072)) by (unfold is_u32; lia).
  rewrite !(u32_small (base + 2 * 4096 + 131072 + 4095)) by (unfold is_u32; lia).
  change (PDIR_SELF_INDEX * 4096) with 4096.
  erewrite kbind_ok by reflexivity.
  destruct (lock_bit_range_marks (new_BitAllocator PAGE_BITMAP_BITS) ((base + 2 * 4096) / 4096)
    (((base + 2 * 4096 + 131072 + 4095) / 4096) -w ((base + 2 * 4096) / 4096))) as (ba1 & E1 & M1);
    [done|zdm|apply u32_range|rewrite Hm0, u32_small by (unfold is_u32; zdm); zdm|].
  pose proof M1 as (Hw1 & Hm1 & _).
  erewrite kbind_ok by (unfold kmap; cbn [page_allocator]; rewrite E1; reflexivity).
  set (m0 := with_alloc _ ba1 _).
  destruct (clear_dir base Hb m0) as (m1 & E2 & B1); [done|done|].
  rewrite (seq_tail _ _ _ _ _ _ E2).
  destruct B1 as ((p1 & Em1) & B1').
  destruct (lock_bit_range_marks ba1 0 1024) as (ba2 & E3 & M2); [done|lia|lia|rewrite Hm1, Hm0; lia|].
  erewrite kbind_ok by (unfold kmap; rewrite Em1; cbn [with_phys page_allocator m0 with_alloc]; rewrite E3; reflexivity).
  rewrite <- Em1. set (m2 := with_alloc m1 ba2 _).
  replace (get_pte_index (base + 2 * 4096 + 131072)) with (base / 4096 + 34)
    by (unfold get_pte_index; rewrite Z.shiftr_div_pow2 by lia; change (2 ^ 12) with 4096; zdm).
  destruct (identity_map base Hal Hb m2 m2) as (m3 & E4 & B3); [by unfold m2; rewrite Em1..| |].
  { split; [by exists (phys m2)|exact B1']. }
  rewrite (seq_tail2 _ _ _ _ _ _ E4). exists m2, m3. split; [reflexivity|]. split; [exact B3|].
  destruct B3 as ((p3 & ->) & _). by apply (first_frames base ba1 ba2).
Qed.

(** What [initialize_memory] leaves. *)
Lemma initialize_memory_ok base m :
  base mod 4096 = 0 -> 0 <= base <= 0x3DD000 -> (forall a, is_u32 (phys m a)) ->
  let top := base + 34 * 4096 in
  exists m', initialize_memory base m = Some (1, m') /\ memory_wf m' /\
    (forall a, 0 <= a < 0x400000 -> walk m' a = Some a /\
       entry m' a = Some (Z.lor (4096 * (a / 4096)) (if a <? top then Z.lor PAGE_GLOBAL_DATA PAGE_USER else PAGE_GLOBAL_DATA))) /\
    (forall a, is_u32 a -> 0x800000 <= a -> walk m' a = None) /\
    (forall b, 0 <= b < 1048576 -> bit_used (page_allocator m') b = (b <? 1024)) /\
    page_copy_ptr m' = top /\ static_alloc_ptr m' = top + 4096 /\ static_alloc_limit m' = 0x400000 /\
    virt_alloc_ptr m' = 0x800000 /\
    Z.testbit (pde m' 0) 8 = true /\ (forall i, 2 <= i < 1024 -> pme_present (pde m' i) = false) /\ cr3 m' = base + 4096.
Proof.
  intros Hal Hb Hu top. destruct (initialize_tables base m Hal Hb Hu) as (m0 & m3 & -> & B3 & Hw & Hmb & Hused).
  unfold start_paging. erewrite kbind_ok by reflexivity.
  assert (page_of (base + 2 * 4096 + 131072 + 4095) = top) as Etop.
  { rewrite page_of_eq by (unfold is_u32; lia). unfold top. zdm. }
  erewrite kbind_ok; [|unfold static_alloc_pages; cbn [static_alloc_ptr static_alloc_limit];
    change (1 *w BYTES_PER_PAGE) with 4096; rewrite Etop, atomic_add_limit_spec by (unfold top, is_u32; lia);
    destruct (Z.leb_spec 4096 (4096 * 1024 - top)); [|unfold top in *; lia];
    cbn [with_ptrs static_alloc_limit];
    destruct (Z.eqb_spec top (4096 * 1024)); [unfold top in *; lia|reflexivity]].
  erewrite kbind_ok by reflexivity. unfold with_ptrs, kret. eexists. split; [reflexivity|].
  cbn [phys cr3 paging page_tables page_dir page_allocator seed virt_alloc_ptr static_alloc_ptr static_alloc_limit].
  match goal with |- memory_wf ?r /\ _ => set (m' := r) end.
  destruct (built_wf base Hal Hb m0 m3 m') as (Hwf & Hlow & Hhigh & Hg0 & Habs);
    [exact B3|reflexivity|reflexivity|reflexivity|reflexivity|reflexivity|exact Hw|exact Hmb| |].
  { intros b Hbb. cbn. rewrite Hused by lia. apply Z.ltb_lt. lia. }
  split; [exact Hwf|]. split; [|split; [|split; [|split; [|split; [|split; [|split; [|split; [|split]]]]]]]];
    [| | |reflexivity|reflexivity|reflexivity|reflexivity|exact Hg0|exact Habs|reflexivity];
    clearbody m'; clear - Hal Hb Hwf Hlow Hhigh Hused.
  - intros a Ha. pose proof (low_attr_eq base a Hal : _ = if a <? top then _ else _) as El.
    rewrite walk_entry, Hlow by (done || unfold is_u32; lia). rewrite El. split; [|done]. cbn [mbind option_bind].
    apply low_entry_target; [done|destruct (a <? top); vm_compute; split; congruence|by destruct (a <? top)].
  - intros a Ha Hge. rewrite walk_entry, Hhigh by done. done.
  - intros b Hbb. by rewrite Hused.
Qed.

(** C25: [initialize_memory] starts the memory manager in a good state from any
    content of memory: it returns 1 with paging on; the directory maps itself and
    the page tables satisfy the invariant every other operation keeps; the low
    4 MB are mapped to themselves, readable by user code up to the end of the
    frame bitmap only; no address above the page tables is mapped; exactly the
    first 1024 frames are in use; and the static heap, the page for copies and
    the virtual heap start where the tables end. *)
Theorem initialize_memory_spec base m :
  base mod 4096 = 0 -> 0 <= base <= 0x3DD000 -> (forall a, is_u32 (phys m a)) ->
  let top := base + 34 * 4096 in
  exists m', initialize_memory base m = Some (1, m') /\ memory_wf m' /\
    (forall a, 0 <= a < 0x400000 -> walk m' a = Some a /\
       entry m' a = Some (Z.lor (4096 * (a / 4096)) (if a <? top then Z.lor PAGE_GLOBAL_DATA PAGE_USER else PAGE_GLOBAL_DATA))) /\
    (forall a, is_u32 a -> 0x800000 <= a -> walk m' a = None) /\
    (forall b, 0 <= b < 1048576 -> bit_used (page_allocator m') b = (b <? 1024)) /\
    page_copy_ptr m' = top /\ static_alloc_ptr m' = top + 4096 /\ static_alloc_limit m' = 0x400000 /\
    virt_alloc_ptr m' = 0x800000.
Proof.
  intros Hal Hb Hu. destruct (initialize_memory_ok base m Hal Hb Hu) as (m' & E & Hwf & Hl & Hh & Hub & H1 & H2 & H3 & H4 & _).
  exists m'. split; [exact E|]. split; [exact Hwf|]. split; [exact Hl|]. split; [exact Hh|]. split; [exact Hub|].
  split; [exact H1|]. split; [exact H2|]. split; [exact H3|exact H4].
Qed.

Lemma initialize_memory_spec_witness :
  exists m', initialize_memory 0x100000 small_machine = Some (1, m') /\ memory_wf m' /\ walk m' 0xB8000 = Some 0xB8000.
Proof.
  destruct (initialize_memory_spec 0x100000 small_machine) as (m' & E & Hwf & Hlow & _); [reflexivity|lia| |].
  - intros a. cbn [phys small_machine]. unfold is_u32. repeat case_match; lia.
  - exists m'. split; [exact E|]. split; [exact Hwf|]. apply Hlow. lia.
Defined.

(** ** Copy on write *)

Section cow.
Implicit Types (m : machine).

(** Machines that differ in the words of other frames and in the allocator, which
    has lost no frame. *)
Definition same_tables m m' : Prop :=
  cr3 m' = cr3 m /\ paging m' = paging m /\ page_tables m' = page_tables m /\ page_dir m' = page_dir m /\
  (forall a, is_table m (a / 4096) -> phys m' a = phys m a) /\
  (forall a, is_u32 (phys m' a)) /\
  alloc_wf (page_allocator m') /\ max_blocks (page_allocator m') = 32768 /\
  (forall b, 0 <= b < 1048576 -> bit_used (page_allocator m) b = true -> bit_used (page_allocator m') b = true).

Lemma same_tables_refl m : memory_wf m -> same_tables m m.
Proof. intros Hwf. do 5 (split; [done|]). split; [apply Hwf|]. split; [apply Hwf|]. split; [apply Hwf|done]. Qed.

Lemma same_tables_pde m m' i : memory_wf m -> same_tables m m' -> 0 <= i < 1024 -> pde m' i = pde m i.
Proof.
  intros Hwf (E1 & _ & _ & _ & Ht & _) Hi. unfold pde. rewrite E1. apply Ht.
  destruct (wf_self _ Hwf) as [Hp Hs]. destruct (wf_cr3 _ Hwf) as [_ Hc].
  exists 1. split; [lia|]. split; [done|]. rewrite Hs. zdm.
Qed.

Lemma same_tables_entry m m' va :
  memory_wf m -> same_tables m m' -> is_u32 va -> entry m' va = entry m va /\ pte_at m' va = pte_at m va.
Proof.
  intros Hwf Hs Hva. pose proof (dir_range va Hva) as Hd.
  assert (pde m' (va / 4194304) = pde m (va / 4194304)) as Ep by by apply same_tables_pde.
  assert (pte_at m' va = pte_at m va) as Ea by (unfold pte_at, table; by rewrite Ep).
  split; [|done]. unfold entry. rewrite Ep, Ea. destruct (pme_present (pde m (va / 4194304))) eqn:Hp; [|done].
  f_equal. destruct Hs as (_ & _ & _ & _ & Ht & _). apply Ht. exists (va / 4194304). split; [done|]. split; [done|].
  unfold pte_at. destruct (table_aligned m (va / 4194304) Hwf) as (k & -> & _). zdm.
Qed.

Lemma same_tables_wf m m' : memory_wf m -> same_tables m m' -> memory_wf m'.
Proof.
  intros Hwf Hs. pose proof (same_tables_pde m m') as Hp.
  assert (forall i, 0 <= i < 1024 -> table m' i = table m i) as Ht by (intros; unfold table; by rewrite Hp).
  pose proof Hs as (E1 & E2 & E3 & E4 & _ & Hu & Ha & Hm & Hused). split; rewrite ?E1, ?E2, ?E3, ?E4; try apply Hwf; try done.
  - rewrite Hp, Ht by (done || lia). apply Hwf.
  - intros i Hi. rewrite Hp, Ht by done. intros Hpi. destruct (table_aligned m i Hwf) as (k & Ek & Hk).
    apply Hused; [zdm|]. by apply (wf_marked _ Hwf).
  - apply Hused; [lia|]. apply Hwf.
  - intros i j Hi Hj. rewrite !Hp, !Ht by done. by apply (wf_distinct _ Hwf).
Qed.

Lemma same_tables_walk m m' va : memory_wf m -> same_tables m m' -> is_u32 va -> walk m' va = walk m va.
Proof.
  intros Hwf Hs Hva. rewrite !walk_entry by (done || by eapply same_tables_wf).
  by destruct (same_tables_entry m m' va Hwf Hs Hva) as [-> _].
Qed.

(** The other addresses of a page. *)
Lemma walk_in_page m va f o :
  memory_wf m -> is_u32 va -> va mod 4096 = 0 -> walk m va = Some (4096 * f) -> 0 <= o < 4096 ->
  walk m (va + o) = Some (4096 * f + o).
Proof.
  intros Hwf Hva Hvm Hw Ho. assert (is_u32 (va + o)) as Hu by (unfold is_u32 in *; zdm).
  rewrite walk_entry in Hw by done. rewrite walk_entry by done.
  assert (entry m (va + o) = entry m va) as ->.
  { unfold entry, pte_at. replace ((va + o) / 4194304) with (va / 4194304) by zdm.
    by replace ((va + o) / 4096) with (va / 4096) by zdm. }
  destruct (entry m va) as [e|]; [|done]. cbn in *. unfold entry_target in *.
  destruct (pme_present e); [|done]. rewrite Hvm in Hw. f_equal.
  assert (page_of e + 0 = 4096 * f) by congruence. zdm.
Qed.

(** A store outside the tables. *)
Lemma same_tables_store m m' a v :
  same_tables m m' -> ~ is_table m (a / 4096) -> same_tables m (set_word m' a v).
Proof.
  intros (E1 & E2 & E3 & E4 & Ht & Hu & Hrest) Ha. do 4 (split; [done|]). split; [|split; [|done]].
  - intros x Hx. cbn. destruct (Z.eqb_spec x a) as [->|]; [done|by apply Ht].
  - intros x. cbn. destruct (_ =? _); [apply u32_range|apply Hu].
Qed.

(** The copy loop: the words [j < i] of the new frame have their value, the rest
    of memory has not changed. *)
Definition copied_words m (dst src i : Z) m' : Prop :=
  same_tables m m' /\ page_allocator m' = page_allocator m /\ page_copy_ptr m' = page_copy_ptr m /\
  (forall a, (forall j, 0 <= j < i -> a <> dst + 4 * j) -> phys m' a = phys m a) /\
  (forall j, 0 <= j < i -> phys m' (dst + 4 * j) = phys m (src + 4 * j)).

Lemma copy_dwords_spec m vdst vsrc dst src k :
  memory_wf m -> is_u32 vdst -> is_u32 vsrc -> vdst mod 4096 = 0 -> vsrc mod 4096 = 0 ->
  walk m vdst = Some (4096 * dst) -> walk m vsrc = Some (4096 * src) -> ~ is_table m dst -> dst <> src ->
  forall n i m', Z.of_nat n + i = k -> 0 <= i -> k <= 1024 ->
  copied_words m (4096 * dst) (4096 * src) i m' ->
  exists m2, copy_dwords n i vdst vsrc m' = Some (tt, m2) /\ copied_words m (4096 * dst) (4096 * src) k m2.
Proof.
  intros Hwf Hd Hs Hda Hsa Wd Ws Hnt Hne. induction n as [|n IH]; intros i m' Hk Hi Hk2 Hc; cbn [copy_dwords].
  - exists m'. split; [done|]. by replace k with i by lia.
  - pose proof Hc as (Hst & Hal & Hcp & Hsame & Hdone).
    assert (forall va f, is_u32 va -> va mod 4096 = 0 -> walk m va = Some (4096 * f) ->
      walk m' (va + 4 * i) = Some (4096 * f + 4 * i)) as Hwalk.
    { intros va f Hva Hvm Hw. rewrite (same_tables_walk m m') by (done || (unfold is_u32 in *; zdm)).
      apply walk_in_page; try done. lia. }
    unfold kbind at 1, vload. rewrite (Hwalk vsrc src) by done. cbn [mbind option_bind].
    unfold kbind, vstore. rewrite (Hwalk vdst dst) by done. cbn [mbind option_bind].
    fold (set_word m' (4096 * dst + 4 * i) (phys m' (4096 * src + 4 * i))).
    apply (IH (i + 1)); [lia|lia|done|]. split; [|split; [done|split; [done|split]]].
    + apply same_tables_store; [done|]. by replace ((4096 * dst + 4 * i) / 4096) with dst by zdm.
    + intros a Ha. cbn. destruct (Z.eqb_spec a (4096 * dst + 4 * i)) as [->|].
      * by destruct (Ha i); [lia|].
      * apply Hsame. intros j Hj. apply Ha. lia.
    + intros j Hj. cbn. destruct (Z.eqb_spec (4096 * dst + 4 * j) (4096 * dst + 4 * i)).
      * assert (j = i) as -> by lia. rewrite u32_small by apply Hst. apply Hsame. intros j' Hj'. lia.
      * apply Hdone. lia.
Qed.

(** The frame for the copy, and the machine where it is locked. *)
Lemma fresh_frame m :
  memory_wf m -> (exists b, 8192 <= b < 1048576 /\ bit_used (page_allocator m) b = false) ->
  exists n m1, phys_alloc_page m = Some (4096 * n, m1) /\ 0 <= n < 1048576 /\
    bit_used (page_allocator m) n = false /\ bit_used (page_allocator m1) n = true /\
    same_tables m m1 /\ phys m1 = phys m /\ page_copy_ptr m1 = page_copy_ptr m.
Proof.
  intros Hwf (b & Hb & Hfree). destruct (wf_alloc _ Hwf) as [Hwa Hmb].
  destruct (lock_next_page_spec m Hwa Hmb) as (n & m1 & El & E1 & E2 & E3 & E4 & E5 & E6 & Hcase).
  destruct Hcase as [(Hn & Hnf & Hm)|(_ & _ & start & Hs & Hfull)]; [|rewrite Hfull in Hfree by lia; done].
  destruct Hm as (Hw1 & Hm1 & _ & U1). exists n, m1. split.
  { unfold phys_alloc_page, kbind. rewrite El. unfold kret, BYTES_PER_PAGE. rewrite u32_small by (unfold is_u32; lia).
    by rewrite Z.mul_comm. }
  do 2 (split; [done|]). split.
  { rewrite U1, Z.eqb_refl, Hmb by lia. destruct (Z.ltb_spec n (32 * 32768)); [apply orb_true_r|lia]. }
  split; [|done]. do 4 (split; [done|]). split; [by rewrite E1|]. split; [rewrite E1; apply Hwf|].
  split; [done|]. split; [congruence|]. intros x Hx Hu. rewrite U1, Hu by lia. done.
Qed.

Lemma vload_entry m va e :
  memory_wf m -> is_u32 va -> entry m va = Some e -> vload (get_pte m va) m = Some (e, m).
Proof.
  intros Hwf Hva He. unfold vload. rewrite walk_pte by done. unfold entry in He.
  destruct (pme_present (pde m (va / 4194304))); [|done]. cbn. by simplify_eq.
Qed.

(** The loads and stores of the faulting page's entry at the end of the handler. *)
Lemma entry_update m va e n :
  memory_wf m -> is_u32 va -> va / 4194304 <> 1 -> entry m va = Some e -> 0 <= n < 1048576 ->
  let e' := pme_set_write (pme_set_page e (Z.shiftr (4096 * n) 12)) in
  is_u32 e' ->
  exists m1 m2, (let! val := vload (get_pte m va) in
     do! vstore (get_pte m va) (pme_set_page val (Z.shiftr (4096 * n) 12)) in
     let! val := vload (get_pte m va) in
     do! vstore (get_pte m va) (pme_set_write val) in kret true) m = Some (true, m2) /\
    m1 = set_word m (pte_at m va) (pme_set_page e (Z.shiftr (4096 * n) 12)) /\
    m2 = set_word m1 (pte_at m1 va) e' /\ pte_at m1 va = pte_at m va /\ memory_wf m2 /\
    entry m2 va = Some e' /\
    forall a, is_u32 a -> a / 4194304 <> 1 -> a / 4096 <> va / 4096 -> entry m2 a = entry m a.
Proof.
  intros Hwf Hva Hn1 He Hn e' He'. set (v := pme_set_page e (Z.shiftr (4096 * n) 12)) in *.
  assert (is_u32 v) as Hv.
  { pose proof (wf_phys _ Hwf (pte_at m va)). unfold v, pme_set_page. apply is_u32_lor; [|apply u32_range].
    apply is_u32_land; [|lia]. unfold entry in He. destruct (pme_present (pde m (va / 4194304))); by simplify_eq. }
  assert (entry m va <> None) as Hne by congruence.
  assert (pme_present (pde m (va / 4194304)) = true) as Hp.
  { unfold entry in He. by destruct (pme_present _). }
  assert (phys m (pte_at m va) = e) as Eph by (unfold entry in He; rewrite Hp in He; congruence).
  pose proof (walk_pte m va Hwf Hva) as Hw. rewrite Hp in Hw. cbn [negb] in Hw.
  set (m1 := set_word m (pte_at m va) v).
  assert (memory_wf m1) as Hwf1 by by apply set_pte_wf.
  assert (entry m1 va = Some v) as He1 by (unfold m1; rewrite set_pte_entry, Z.eqb_refl by done; done).
  assert (pme_present (pde m1 (va / 4194304)) = true) as Hp1.
  { unfold entry in He1. by destruct (pme_present (pde m1 _)). }
  assert (pte_at m1 va = pte_at m va) as Ept.
  { unfold pte_at, table. unfold m1. by rewrite set_pte_pde by (done || by apply dir_range). }
  pose proof (walk_pte m1 va Hwf1 Hva) as Hw1. rewrite Hp1 in Hw1. cbn [negb] in Hw1.
  assert (get_pte m1 va = get_pte m va) as Eg by done. rewrite Eg in Hw1.
  exists m1, (set_word m1 (pte_at m1 va) e'). split.
  { unfold kbind, vload, vstore, kret. rewrite Hw. cbn [mbind option_bind]. rewrite Eph, Hw. cbn [mbind option_bind].
    fold v. fold (set_word m (pte_at m va) v). fold m1. rewrite Hw1. cbn [mbind option_bind].
    rewrite Hw1. cbn [mbind option_bind]. replace (phys m1 (pte_at m1 va)) with v; [done|].
    unfold entry in He1. rewrite Hp1 in He1. congruence. }
  do 2 (split; [done|]). split; [done|].
  assert (entry m1 va <> None) as Hne1 by congruence.
  split; [by apply set_pte_wf|]. split.
  - by rewrite set_pte_entry, Z.eqb_refl.
  - intros a Ha Han Hap. rewrite set_pte_entry by done. destruct (Z.eqb_spec (a / 4096) (va / 4096)); [done|].
    unfold m1. rewrite set_pte_entry by done. by destruct (Z.eqb_spec (a / 4096) (va / 4096)).
Qed.

(** [map_to(page_copy_ptr, frame)] and the copy through it. *)
Lemma copy_frame m copy vsrc n old :
  memory_wf m -> is_u32 copy -> copy mod 4096 = 0 -> copy / 4194304 <> 1 -> entry m copy <> None ->
  is_u32 vsrc -> vsrc mod 4096 = 0 -> vsrc / 4194304 <> 1 -> vsrc / 4096 <> copy / 4096 ->
  walk m vsrc = Some (4096 * old) -> 0 <= n < 1048576 -> ~ is_table m n -> ~ is_table m old -> n <> old ->
  exists m', (do! map_to copy (4096 * n) PAGE_USER_DATA in copy_dwords 1024 0 copy vsrc) m = Some (tt, m') /\
    memory_wf m' /\ page_allocator m' = page_allocator m /\
    (forall i, 0 <= i < 1024 -> pde m' i = pde m i) /\
    (forall a, is_u32 a -> a / 4194304 <> 1 -> a / 4096 <> copy / 4096 -> entry m' a = entry m a) /\
    (forall j, 0 <= j < 1024 -> phys m' (4096 * n + 4 * j) = phys m (4096 * old + 4 * j)) /\
    (forall a, a / 4096 <> n -> ~ is_table m (a / 4096) -> phys m' a = phys m a).
Proof.
  intros Hwf Hc Hcm Hc1 Hce Hs Hsm Hs1 Hne Hw Hn Hnt Hot Hno.
  destruct (entry_split (4096 * n) PAGE_USER_DATA) as (S1 & S2 & S3 & _);
    [unfold is_u32; lia|zdm|vm_compute; split; congruence|].
  unfold kbind. rewrite map_to_present by done. set (m2 := set_word m (pte_at m copy) _).
  assert (memory_wf m2) as Hwf2 by by apply set_pte_wf.
  assert (forall i, 0 <= i < 1024 -> pde m2 i = pde m i) as Hpde by (intros; by apply set_pte_pde).
  assert (forall f, is_table m2 f <-> is_table m f) as Htab.
  { intros f. unfold is_table, table. split; intros (i & Hi & H); exists i; (split; [done|]);
      [rewrite <- (Hpde i Hi)|rewrite (Hpde i Hi)]; done. }
  assert (forall a, is_u32 a -> a / 4194304 <> 1 -> a / 4096 <> copy / 4096 -> entry m2 a = entry m a) as Hent.
  { intros a Ha Ha1 Hac. unfold m2. rewrite set_pte_entry by done. by destruct (Z.eqb_spec (a / 4096) (copy / 4096)). }
  assert (walk m2 copy = Some (4096 * n)) as Wc.
  { rewrite walk_entry by done. unfold m2. rewrite set_pte_entry, Z.eqb_refl by done. cbn [mbind option_bind].
    unfold entry_target. rewrite S2, S1, Hcm. change (Z.testbit PAGE_USER_DATA 0) with true. f_equal. lia. }
  assert (walk m2 vsrc = Some (4096 * old)) as Ws by (rewrite walk_entry, Hent, <- walk_entry by done; done).
  destruct (copy_dwords_spec m2 copy vsrc n old 1024 Hwf2 Hc Hs Hcm Hsm Wc Ws) with (n := 1024%nat) (i := 0) (m' := m2) as (m3 & E3 & Hst3 & Ea3 & _ & Hsame & Hdone); [by rewrite Htab|done|lia|lia|lia| |].
  { split; [by apply same_tables_refl|]. do 2 (split; [done|]). split; [done|lia]. }
  exists m3. split; [exact E3|]. split; [by eapply same_tables_wf|]. split; [by rewrite Ea3|].
  split; [intros i Hi; rewrite <- Hpde by done; by apply (same_tables_pde m2)|].
  split; [intros a Ha Ha1 Hac; rewrite <- Hent by done; by apply (same_tables_entry m2)|].
  assert (forall a, ~ is_table m (a / 4096) -> phys m2 a = phys m a) as Hph.
  { intros a Ha. cbn. destruct (Z.eqb_spec a (pte_at m copy)) as [->|]; [|done].
    by destruct Ha; apply pte_in_table. }
  split.
  - intros j Hj. rewrite Hdone by done. apply Hph. by replace ((4096 * old + 4 * j) / 4096) with old by zdm.
  - intros a Han Hat. rewrite Hsame by (intros j Hj ->; apply Han; zdm). by apply Hph.
Qed.
End cow.

(** The words of a copy-on-write page: its entry, the entry of its private copy, the start of the page. *)
Lemma cow_entry_words e n : is_u32 e -> Z.land e 0xFFF = PAGE_COW -> 0 <= n < 1048576 ->
  page_of e = 4096 * (page_of e / 4096) /\ pme_present e = true /\
  pme_set_write (pme_set_page e (Z.shiftr (4096 * n) 12)) = Z.lor (4096 * n) (Z.lor PAGE_CACHEDISABLED PAGE_USER_DATA).
Proof.
  intros He Hcow Hn. split; [|split].
  - destruct (page_of_aligned e) as (k & Ek & _); [done|]. rewrite Ek. zdm.
  - unfold pme_present. assert (Z.testbit (Z.land e 0xFFF) 0 = true) as H by by rewrite Hcow.
    rewrite Z.land_spec in H. by apply andb_prop in H as [H _].
  - unfold pme_set_write, pme_set_page. rewrite Hcow, Z.shiftr_div_pow2, Z.shiftl_mul_pow2 by lia.
    change (2 ^ 12) with 4096. replace (4096 * n / 4096 * 4096) with (4096 * n) by zdm.
    rewrite u32_small by (unfold is_u32; lia). by rewrite (Z.lor_comm PAGE_COW), <- Z.lor_assoc.
Qed.

Lemma page_of_page a : is_u32 a ->
  is_u32 (page_of a) /\ page_of a mod 4096 = 0 /\ page_of a / 4096 = a / 4096 /\ page_of a / 4194304 = a / 4194304.
Proof. intros Ha. rewrite page_of_eq by done. unfold is_u32 in *. zdm. Qed.

Lemma same_tables_table m m1 f : memory_wf m -> same_tables m m1 -> is_table m1 f <-> is_table m f.
Proof.
  intros Hwf Hst. unfold is_table, table. split; intros (i & Hi & H); exists i; (split; [done|]);
    [rewrite <- (same_tables_pde m m1 i Hwf Hst Hi)|rewrite (same_tables_pde m m1 i Hwf Hst Hi)]; done.
Qed.

(** The entry of a mapped page is in a page table. *)
Lemma entry_in_table m a e : memory_wf m -> is_u32 a -> entry m a = Some e -> is_table m (pte_at m a / 4096).
Proof.
  intros Hwf Ha He. destruct (pte_in_table m a Hwf Ha) as (i & Hi & Hti); [congruence|]. exists i. by split.
Qed.

(** The page of a private copy. *)
Lemma private_entry n : 0 <= n < 1048576 -> let e := Z.lor (4096 * n) (Z.lor PAGE_CACHEDISABLED PAGE_USER_DATA) in
  page_of e = 4096 * n /\ pme_present e = true /\ is_u32 e.
Proof.
  intros Hn. destruct (entry_split (4096 * n) (Z.lor PAGE_CACHEDISABLED PAGE_USER_DATA)) as (S1 & S2 & S3 & _);
    [unfold is_u32; lia|zdm|vm_compute; split; congruence|]. by split_and!.
Qed.

Lemma walk_private m a b n : memory_wf m -> is_u32 a -> a / 4096 = b / 4096 -> 0 <= n < 1048576 ->
  entry m b = Some (Z.lor (4096 * n) (Z.lor PAGE_CACHEDISABLED PAGE_USER_DATA)) -> walk m a = Some (4096 * n + a mod 4096).
Proof.
  intros Hwf Ha Hab Hn He.
  destruct (private_entry n Hn) as (S1 & S2 & S3). rewrite walk_entry by done. replace (entry m a) with (entry m b).
  - rewrite He. cbn. unfold entry_target. by rewrite S1, S2.
  - unfold entry, pte_at. by replace (a / 4194304) with (b / 4194304) by zdm; rewrite Hab.
Qed.


(** [small_machine] with frame 5 shared copy-on-write at 0x300000. *)
Definition cow_machine : machine := set_word small_machine (pte_at small_machine 0x300000) 0x5015.

Lemma cow_entry : entry small_machine 0x300000 <> None.
Proof. vm_compute. congruence. Qed.

Lemma cow_machine_wf : memory_wf cow_machine.
Proof.
  apply set_pte_wf; [apply small_machine_wf|unfold is_u32; lia|vm_compute; congruence|apply cow_entry].
Qed.


(** ** Mappings made before the first process *)

(** Only frames change hands and tables are filled: the globals of [memory.cpp]
    that the mappings leave alone, and the directory. *)
Definition same_heaps (m m' : machine) : Prop :=
  static_alloc_ptr m' = static_alloc_ptr m /\ static_alloc_limit m' = static_alloc_limit m /\
  virt_alloc_ptr m' = virt_alloc_ptr m /\ page_copy_ptr m' = page_copy_ptr m /\ cr3 m' = cr3 m.

Lemma same_heaps_trans m1 m2 m3 : same_heaps m1 m2 -> same_heaps m2 m3 -> same_heaps m1 m3.
Proof. intros (? & ? & ? & ? & ?) (? & ? & ? & ? & ?). unfold same_heaps. split_and!; congruence. Qed.

Lemma lock_next_page_heaps m n m' : lock_next_page m = Some (n, m') -> same_heaps m m'.
Proof.
  unfold lock_next_page, krand, klock_next_block, kunlock_block, kbind, kret.
  destruct (lock_next_block _ _ _) as [[[r w] ba]|]; cbn [mbind option_bind]; [|done].
  destruct (w =? all_ones); [by intros [= _ <-]|].
  destruct (bitscan_forward _) as [b|]; cbn [mbind option_bind]; [|done].
  destruct (unlock_block _ _ _) as [ba'|]; cbn [mbind option_bind]; [|done]. by intros [= _ <-].
Qed.

(** The directory after the table of [va] is ensured: only a missing entry is set,
    with the attributes. *)
Definition table_ensured m m' (va attr : Z) : Prop :=
  (forall i, 0 <= i < 1024 -> i <> va / 4194304 \/ pme_present (pde m i) = true -> pde m' i = pde m i) /\
  (pme_present (pde m (va / 4194304)) = false -> Z.testbit (pde m' (va / 4194304)) 8 = Z.testbit attr 8).

(** [ensure_pte]: afterwards the region of [va] has a table; the regions that had
    one are unchanged, and at most one frame has been taken. *)
Lemma ensure_pte_ok m va attr :
  memory_wf m -> is_u32 va -> va / 4194304 <> 1 -> 0 <= attr < 4096 -> Z.testbit attr 0 = true ->
  (exists b, 8192 <= b < 1048576 /\ bit_used (page_allocator m) b = false) ->
  exists m' n, ensure_pte va attr m = Some (get_pte m va, m') /\ memory_wf m' /\ same_heaps m m' /\
    pme_present (pde m' (va / 4194304)) = true /\
    (forall a, is_u32 a -> a / 4194304 <> 1 -> entry m a <> None -> entry m' a = entry m a) /\
    (forall b, 0 <= b < 1048576 -> bit_used (page_allocator m') b = true ->
       bit_used (page_allocator m) b = true \/ b = n) /\
    more_used m m' /\ table_ensured m m' va attr.
Proof.
  intros Hwf Hva Hn1 Hattr Hodd (b & Hb & Hfree). destruct (wf_alloc _ Hwf) as [Hwa Hmb].
  unfold ensure_pte, kbind, kget, vload, vstore. rewrite walk_pde by done. cbn [mbind option_bind].
  fold (pde m (va / 4194304)). destruct (pme_present (pde m (va / 4194304))) eqn:Hp; cbn [negb].
  { exists m, 0. split; [done|]. do 3 (split; [done|]). split; [done|]. split; [intros; by left|]. split; [by intros ? _|]. split; [done|congruence]. }
  destruct (lock_next_page_spec m Hwa Hmb) as (n & m1 & El & E1 & E2 & E3 & E4 & E5 & _ & Hcase).
  assert (same_memory m m1) as Hsame by done.
  destruct Hcase as [(Hn & Hnf & Hmarks)|(_ & _ & start & Hs & Hfull)]; [|rewrite Hfull in Hfree by lia; done].
  apply entry_present in Hp as He.
  destruct (new_table_wf m m1 va n attr) as (Hwf2 & Ht & Hp2 & Hop & Hoph); try done.
  unfold phys_alloc_page, kbind. rewrite El. unfold kret. rewrite (walk_same m m1), walk_pde by done. cbn [mbind option_bind].
  unfold BYTES_PER_PAGE. rewrite (u32_small (n * 4096)) by (unfold is_u32; lia).
  fold (set_word m1 (cr3 m + 4 * (va / 4194304)) (Z.lor (n * 4096) attr)).
  set (m2 := set_word m1 _ _) in *. exists m2, n. split.
  { by rewrite !get_pte_eq by done. }
  split; [done|]. split; [exact (lock_next_page_heaps m n m1 El)|]. split; [done|]. split.
  - intros a Ha Ha1 Hne. pose proof (dir_range a Ha). rewrite entry_present in Hne.
    assert (a / 4194304 <> va / 4194304) as Hreg by congruence.
    unfold entry, pte_at, table. rewrite Hop by done. destruct (pme_present (pde m (a / 4194304))) eqn:Hpa; [|done].
    f_equal. apply Hoph. fold (table m (a / 4194304)). fold (pte_at m a).
    apply pte_not_pde; try done; [by rewrite entry_present, Hpa|by apply dir_range].
  - destruct Hmarks as (_ & _ & _ & U). split; [|split; [|split]].
    + intros c Hc. cbn. rewrite U by lia. intros [?|[Hcn%Z.eqb_eq _]%andb_prop]%orb_prop; auto.
    + intros c Hc Hu. cbn. by rewrite U, Hu.
    + intros i Hi [?|?]; apply Hop; congruence.
    + intros _. unfold m2, pde, set_word. cbn [with_phys phys cr3]. rewrite E2, Z.eqb_refl.
      destruct (entry_split (n * 4096) attr) as (_ & _ & Hw & _); [unfold is_u32; lia|by rewrite Z.mod_mul|done|].
      rewrite u32_small, Z.lor_spec by done. replace (n * 4096) with (n * 2 ^ 12) by lia.
      by rewrite Z.mul_pow2_bits_low by lia.
Qed.
