(* ===== verification/Process.v ===== *)
(** * Processes, threads, locks and monitors: [system/process.cpp],
    [system/threads.cpp], [system/locks.cpp] and their headers

    A thread is named by [tref], its place in the process table
    ([pid * MAX_PROC_THREADS + index]); a null thread pointer is [None].  An
    operation between [cli] and [sti] is one transition of [kernel]; an operation
    that yields is split at the yield, and [Process::monitor], which [lock] leaves
    with interrupts enabled, is a list of program points ([mon_pc]). *)
From S2P Require Import Prelude BitOps BitAlloc Memory Queue.

Definition MAX_PROC_LOCKS : Z := 64.
Definition MAX_PROC_MONITORS : Z := 64.
Definition MAX_PROC_THREADS : Z := 16.
Definition MAX_PROCS : Z := 16.
Definition MAX_PROC_FILES : Z := 16.
Definition MSG_MONITOR : Z := 0.

Definition tref := Z.

Inductive ThreadRunState := NULL | RUNNING | WAITING | DONE.

#[export]
Instance ThreadRunState_eq_dec : EqDecision ThreadRunState.
Proof. solve_decision. Defined.

(** [InterruptParams], at the end of the saved [ThreadState]. *)
Record InterruptParams := { eip : Z; cs : Z; eflags : Z; esp3 : Z; ss3 : Z }.

(** [signal_wait] points to the signal of a monitor: process and handle. *)
Record Thread := {
  cpuState : Z;
  runState : ThreadRunState;
  stack : Z;
  stack_bytes : Z;
  lock_next : option tref;
  signal_wait : option (Z * Z);
  intParams : InterruptParams;
  syscall_stack : Z;
  syscall_stack_bytes : Z;
  syscall_esp : Z
}.

Record Lock := { owner : option tref; next : option tref }.
Record Monitor := { mon_lock : Lock; signal : Z }.

(** [files] holds file pointers, 0 when free; [msgQueue] is that of [env]. *)
Record Process := {
  p_cr3 : Z;
  thread_index : Z;
  num_running_threads : Z;
  files : Z -> Z;
  locks : Z -> Lock;
  monitors : Z -> Monitor;
  env : Z;
  userEnv : Z;
  msgQueue : MsgQueue
}.

Record kernel := {
  procs : Z -> Process;
  threads : tref -> Thread;
  num_procs : Z;
  proc_id : Z;
  thisThread : tref;
  esp0 : Z;
  cr3_reg : Z
}.

Definition upd {A} (f : Z -> A) (i : Z) (x : A) : Z -> A := fun j => if j =? i then x else f j.

Definition set_process (k : kernel) (pid : Z) (p : Process) : kernel :=
  {| procs := upd (procs k) pid p; threads := threads k; num_procs := num_procs k; proc_id := proc_id k;
     thisThread := thisThread k; esp0 := esp0 k; cr3_reg := cr3_reg k |}.
Definition set_thread_at (k : kernel) (t : tref) (th : Thread) : kernel :=
  {| procs := procs k; threads := upd (threads k) t th; num_procs := num_procs k; proc_id := proc_id k;
     thisThread := thisThread k; esp0 := esp0 k; cr3_reg := cr3_reg k |}.

Definition with_running (p : Process) (n : Z) : Process :=
  {| p_cr3 := p_cr3 p; thread_index := thread_index p; num_running_threads := n; files := files p;
     locks := locks p; monitors := monitors p; env := env p; userEnv := userEnv p; msgQueue := msgQueue p |}.
Definition with_index (p : Process) (i : Z) : Process :=
  {| p_cr3 := p_cr3 p; thread_index := i; num_running_threads := num_running_threads p; files := files p;
     locks := locks p; monitors := monitors p; env := env p; userEnv := userEnv p; msgQueue := msgQueue p |}.
Definition with_files (p : Process) (f : Z -> Z) : Process :=
  {| p_cr3 := p_cr3 p; thread_index := thread_index p; num_running_threads := num_running_threads p; files := f;
     locks := locks p; monitors := monitors p; env := env p; userEnv := userEnv p; msgQueue := msgQueue p |}.
Definition with_locks (p : Process) (l : Z -> Lock) (m : Z -> Monitor) : Process :=
  {| p_cr3 := p_cr3 p; thread_index := thread_index p; num_running_threads := num_running_threads p; files := files p;
     locks := l; monitors := m; env := env p; userEnv := userEnv p; msgQueue := msgQueue p |}.
Definition with_msgs (p : Process) (q : MsgQueue) : Process :=
  {| p_cr3 := p_cr3 p; thread_index := thread_index p; num_running_threads := num_running_threads p; files := files p;
     locks := locks p; monitors := monitors p; env := env p; userEnv := userEnv p; msgQueue := q |}.

Definition with_runState (t : Thread) (s : ThreadRunState) : Thread :=
  {| cpuState := cpuState t; runState := s; stack := stack t; stack_bytes := stack_bytes t;
     lock_next := lock_next t; signal_wait := signal_wait t; intParams := intParams t;
     syscall_stack := syscall_stack t; syscall_stack_bytes := syscall_stack_bytes t; syscall_esp := syscall_esp t |}.
Definition with_lock_next (t : Thread) (n : option tref) : Thread :=
  {| cpuState := cpuState t; runState := runState t; stack := stack t; stack_bytes := stack_bytes t;
     lock_next := n; signal_wait := signal_wait t; intParams := intParams t;
     syscall_stack := syscall_stack t; syscall_stack_bytes := syscall_stack_bytes t; syscall_esp := syscall_esp t |}.
Definition with_signal_wait (t : Thread) (s : option (Z * Z)) : Thread :=
  {| cpuState := cpuState t; runState := runState t; stack := stack t; stack_bytes := stack_bytes t;
     lock_next := lock_next t; signal_wait := s; intParams := intParams t;
     syscall_stack := syscall_stack t; syscall_stack_bytes := syscall_stack_bytes t; syscall_esp := syscall_esp t |}.

Definition set_lock_next (k : kernel) (t : tref) (n : option tref) : kernel :=
  set_thread_at k t (with_lock_next (threads k t) n).
Definition set_runState (k : kernel) (t : tref) (s : ThreadRunState) : kernel :=
  set_thread_at k t (with_runState (threads k t) s).
Definition set_signal_wait (k : kernel) (t : tref) (s : option (Z * Z)) : kernel :=
  set_thread_at k t (with_signal_wait (threads k t) s).
(** [num_running_threads += d], a [uint]. *)
Definition add_running (k : kernel) (pid d : Z) : kernel :=
  set_process k pid (with_running (procs k pid) (num_running_threads (procs k pid) +w d)).

(** A pointer to a lock: one of a process, or that of a monitor.  The handle is
    an [int] and [%] keeps its sign: a negative remainder is outside the array. *)
Inductive lockref := LockOf (pid h : Z) | MonitorOf (pid h : Z).

#[export]
Instance lockref_eq_dec : EqDecision lockref.
Proof. solve_decision. Defined.

Definition get_lock (pid l_h : Z) : option lockref :=
  let i := Z.rem l_h MAX_PROC_LOCKS in if i <? 0 then None else Some (LockOf pid i).
Definition get_monitor (m_h : Z) : option Z :=
  let i := Z.rem m_h MAX_PROC_MONITORS in if i <? 0 then None else Some i.

Definition read_lock (k : kernel) (l : lockref) : Lock :=
  match l with
  | LockOf pid h => locks (procs k pid) h
  | MonitorOf pid h => mon_lock (monitors (procs k pid) h)
  end.
Definition write_lock (k : kernel) (l : lockref) (v : Lock) : kernel :=
  match l with
  | LockOf pid h =>
      let p := procs k pid in set_process k pid (with_locks p (upd (locks p) h v) (monitors p))
  | MonitorOf pid h =>
      let p := procs k pid in
      set_process k pid (with_locks p (locks p)
        (upd (monitors p) h {| mon_lock := v; signal := signal (monitors p h) |}))
  end.
Definition write_signal (k : kernel) (pid h v : Z) : kernel :=
  let p := procs k pid in
  set_process k pid (with_locks p (locks p) (upd (monitors p) h {| mon_lock := mon_lock (monitors p h); signal := v |})).

(** ** [Process::lock] and [Process::unlock] *)

(** The loop that finds the last waiting thread; every thread of the table may
    wait, so [MAX_PROCS * MAX_PROC_THREADS] rounds are enough. *)
Fixpoint last_waiting (n : nat) (k : kernel) (tnode : tref) : option tref :=
  match n with
  | O => None
  | S n =>
      match lock_next (threads k tnode) with
      | None => Some tnode
      | Some t => last_waiting n k t
      end
  end.

Definition max_threads : nat := Z.to_nat (MAX_PROCS * MAX_PROC_THREADS).

Inductive outcome := Returns | Yields.

(** [this->lock(lock)] up to its return or its call of [yield]. *)
Definition lock_enter (this : Z) (lock : lockref) (k : kernel) : option (outcome * kernel) :=
  let l := read_lock k lock in
  let me := thisThread k in
  if bool_decide (owner l = Some me) || bool_decide (owner l = None) then
    Some (Returns, write_lock k lock {| owner := Some me; next := next l |})
  else
    let k := set_lock_next k me None in
    k ← match next l with
        | None => Some (write_lock k lock {| owner := owner l; next := Some me |})
        | Some first =>
            tnode ← last_waiting max_threads k first;
            Some (set_lock_next k tnode (Some me))
        end;
    let k := set_runState k me WAITING in
    Some (Yields, add_running k this (-1)).

Definition unlock (lock : lockref) (k : kernel) : kernel :=
  let l := read_lock k lock in
  match next l with
  | None => write_lock k lock {| owner := None; next := next l |}
  | Some o =>
      let k := set_runState k o RUNNING in
      let k := write_lock k lock {| owner := Some o; next := lock_next (threads k o) |} in
      set_lock_next k o None
  end.

(** ** Monitors *)

(** [notify]: [this] process, handle, [diff]. *)
Definition notify (this monitor_h diff : Z) (k : kernel) : option kernel :=
  h ← get_monitor monitor_h;
  let s := s32 (signal (monitors (procs k this) h) + diff) in
  let k := write_signal k this h s in
  if 0 <? s then
    match owner (mon_lock (monitors (procs k this) h)) with
    | Some o =>
        if bool_decide (signal_wait (threads k o) = Some (this, h)) then
          let k := set_signal_wait k o None in
          let k := set_runState k o RUNNING in
          Some (add_running k this 1)
        else Some k
    | None => Some k
    end
  else Some k.

(** [unmonitor] takes the monitor of the current process, whatever [this] is. *)
Definition unmonitor (monitor_h : Z) (k : kernel) : option kernel :=
  h ← get_monitor monitor_h; Some (unlock (MonitorOf (proc_id k) h) k).

(** [monitor]: between two points other threads and interrupts may run; [lock]
    has enabled interrupts, so the test of the signal and the store of
    [signal_wait] are apart. *)
Inductive mon_pc :=
  | MonEnter                  (** about to call [lock] *)
  | MonYield1                 (** in the [yield] of [lock] *)
  | MonCheck                  (** [lock] returned: about to test the owner and the signal *)
  | MonArm                    (** the signal was not positive: about to store [signal_wait] *)
  | MonYield2                 (** in the [yield] *)
  | MonConsume                (** about to subtract from the signal *)
  | MonDone.

Definition monitor_step (this monitor_h diff : Z) (pc : mon_pc) (k : kernel) : option (mon_pc * kernel) :=
  h ← get_monitor monitor_h;
  let mon := monitors (procs k this) h in
  let me := thisThread k in
  match pc with
  | MonEnter =>
      '(o, k) ← lock_enter this (MonitorOf this h) k;
      Some (match o with Returns => MonCheck | Yields => MonYield1 end, k)
  | MonYield1 =>
      Some (if bool_decide (runState (threads k me) = RUNNING) then MonCheck else MonYield1, k)
  | MonCheck =>
      if negb (bool_decide (owner (mon_lock mon) = Some me)) then Some (MonDone, k) else
      Some (if signal mon <=? 0 then MonArm else MonConsume, k)
  | MonArm =>
      let k := set_signal_wait k me (Some (this, h)) in
      let k := set_runState k me WAITING in
      Some (MonYield2, add_running k this (-1))
  | MonYield2 =>
      Some (if bool_decide (runState (threads k me) = RUNNING) then MonConsume else MonYield2, k)
  | MonConsume =>
      let s := s32 (signal mon - diff) in
      Some (MonDone, write_signal k this h (if s <? 0 then 0 else s))
  | MonDone => Some (MonDone, k)
  end.

Definition send_msg (this : Z) (msg : Message) (k : kernel) : option kernel :=
  q ← mq_enqueue (msgQueue (procs k this)) msg;
  let k := set_process k this (with_msgs (procs k this) q) in
  Some (write_signal k this MSG_MONITOR (s32 (signal (monitors (procs k this) MSG_MONITOR) + 1))).

(** ** Threads *)

(** [sizeof(ThreadState)]: eight registers and [intArgs[32]]. *)
Definition sizeof_ThreadState : Z := 64.

Definition setStack (t : Thread) (stk bytes : Z) : Thread :=
  {| cpuState := cpuState t; runState := runState t; stack := stk; stack_bytes := bytes;
     lock_next := lock_next t; signal_wait := signal_wait t; intParams := intParams t;
     syscall_stack := syscall_stack t; syscall_stack_bytes := syscall_stack_bytes t; syscall_esp := syscall_esp t |}.
Definition initCPUState (t : Thread) : Thread :=
  {| cpuState := u32 (stack t + stack_bytes t - sizeof_ThreadState); runState := runState t; stack := stack t;
     stack_bytes := stack_bytes t; lock_next := lock_next t; signal_wait := signal_wait t; intParams := intParams t;
     syscall_stack := syscall_stack t; syscall_stack_bytes := syscall_stack_bytes t; syscall_esp := syscall_esp t |}.
Definition with_intParams (t : Thread) (p : InterruptParams) : Thread :=
  {| cpuState := cpuState t; runState := runState t; stack := stack t; stack_bytes := stack_bytes t;
     lock_next := lock_next t; signal_wait := signal_wait t; intParams := p;
     syscall_stack := syscall_stack t; syscall_stack_bytes := syscall_stack_bytes t; syscall_esp := syscall_esp t |}.
Definition setFunction (t : Thread) (function : Z) : Thread :=
  let p := intParams t in
  with_intParams t {| eip := function; cs := cs p; eflags := eflags p; esp3 := esp3 p; ss3 := ss3 p |}.

Definition KernelThread_init (t : Thread) (function stk bytes : Z) : Thread :=
  let t := initCPUState (setStack t stk bytes) in
  let p := intParams t in
  with_intParams t {| eip := function; cs := 0x08; eflags := 0x202; esp3 := esp3 p; ss3 := ss3 p |}.

Definition UserThread_init (t : Thread) (function stk bytes : Z) : Thread :=
  let t := initCPUState (setStack t stk bytes) in
  with_intParams t {| eip := function; cs := 0x1B; eflags := 0x202; esp3 := cpuState t -w 32; ss3 := 0x23 |}.

Definition with_syscall_stack (t : Thread) (stk bytes : Z) : Thread :=
  {| cpuState := cpuState t; runState := runState t; stack := stack t; stack_bytes := stack_bytes t;
     lock_next := lock_next t; signal_wait := signal_wait t; intParams := intParams t;
     syscall_stack := stk; syscall_stack_bytes := bytes; syscall_esp := stk +w bytes |}.

(** The first thread of the process whose state is [NULL]. *)
Fixpoint free_thread (n : nat) (pid i : Z) (k : kernel) : option Z :=
  match n with
  | O => None
  | S n =>
      if bool_decide (runState (threads k (pid * MAX_PROC_THREADS + i)) = NULL) then Some i
      else free_thread n pid (i + 1) k
  end.

(** [new_user_thread]: the new thread, [None] for null, the kernel and the
    memory; [None] outside is a fault of the allocation. *)
Definition new_user_thread (function stack_bytes stack : Z) (k : kernel) (m : machine)
    : option (option tref * kernel * machine) :=
  match free_thread (Z.to_nat MAX_PROC_THREADS) (proc_id k) 0 k with
  | None => Some (None, k, m)
  | Some i =>
      let t := proc_id k * MAX_PROC_THREADS + i in
      let stack_bytes := if stack_bytes =? 0 then 16 * 4096 else stack_bytes in
      let stack_pages := (stack_bytes +w 4095) / 4096 in
      '(stack, m) ← if stack =? 0 then virt_alloc_pages stack_pages PAGE_USER_DATA m else Some (stack, m);
      let newThread := UserThread_init (threads k t) function stack stack_bytes in
      '(sys_stack, m) ← virt_alloc_pages 16 PAGE_KERNEL_DATA m;
      let newThread := with_syscall_stack newThread sys_stack (16 * 4096) in
      let newThread := with_signal_wait (with_lock_next newThread None) None in
      let newThread := with_runState newThread RUNNING in
      Some (Some t, add_running (set_thread_at k t newThread) (proc_id k) 1, m)
  end.

(** ** [init_processes] and [new_user_process] *)

Definition no_thread : Thread :=
  {| cpuState := 0; runState := NULL; stack := 0; stack_bytes := 0; lock_next := None; signal_wait := None;
     intParams := {| eip := 0; cs := 0; eflags := 0; esp3 := 0; ss3 := 0 |};
     syscall_stack := 0; syscall_stack_bytes := 0; syscall_esp := 0 |}.

(** What the table loops leave in a process: the rest of the fresh memory [old]
    is untouched. *)
Definition init_process (old : Process) : Process :=
  {| p_cr3 := p_cr3 old; thread_index := 0; num_running_threads := 0; files := fun _ => 0;
     locks := locks old; monitors := monitors old; env := env old; userEnv := userEnv old; msgQueue := msgQueue old |}.

Definition init_processes (proc_pages : Z) (k : kernel) (m : machine) : option (kernel * machine) :=
  '(_, m) ← static_alloc_pages proc_pages m;
  let procs0 := fun p => if (0 <=? p) && (p <? MAX_PROCS) then init_process (procs k p) else procs k p in
  let threads0 := fun t => if (0 <=? t) && (t <? MAX_PROCS * MAX_PROC_THREADS)
                           then with_runState (threads k t) NULL else threads k t in
  '(cr3, m) ← get_physical (page_dir m) m;
  '(env_page, m) ← static_alloc_pages 1 m;
  let p := procs0 0 in
  let p := {| p_cr3 := cr3; thread_index := 0; num_running_threads := 1; files := files p; locks := locks p;
              monitors := monitors p; env := env_page; userEnv := env_page; msgQueue := msgQueue p |} in
  Some ({| procs := upd procs0 0 p; threads := upd threads0 0 (with_runState (threads0 0) RUNNING);
           num_procs := 1; proc_id := 0; thisThread := 0; esp0 := esp0 k; cr3_reg := cr3_reg k |}, m).

Fixpoint free_process (n : nat) (pid : Z) (k : kernel) : option Z :=
  match n with
  | O => None
  | S n => if p_cr3 (procs k pid) =? 0 then Some pid else free_process n (pid + 1) k
  end.

(** The copy of the directory: global entries only. *)
Definition copy_directory (new_pdir : Z) : K unit :=
  kfor 1024 0 (fun i =>
    let! e := (fun m => vload (page_dir m + 4 * i) m) in
    if Z.testbit e 8 then vstore (new_pdir + 4 * i) e else vstore (new_pdir + 4 * i) 0).

(** [nullfile] is the address of the static null file.  [None] as the process is
    the halt of the two error branches. *)
Definition new_user_process (nullfile : Z) (k : kernel) (m : machine)
    : option (option Z * kernel * machine) :=
  match free_process (Z.to_nat MAX_PROCS) 0 k with
  | None => Some (None, k, m)
  | Some new_pid =>
      if new_pid =? 0 then Some (None, k, m) else
      '(new_pdir, m) ← virt_alloc_page PAGE_USER_DATA m;
      '(cr3, m) ← get_physical new_pdir m;
      '(_, m) ← copy_directory new_pdir m;
      '(_, m) ← vstore (new_pdir + 4 * PDIR_SELF_INDEX) (Z.lor cr3 PAGE_KERNEL_DATA) m;
      let m := {| phys := phys m; cr3 := cr3; paging := paging m; page_tables := page_tables m;
                  page_dir := page_dir m; page_allocator := page_allocator m; seed := seed m;
                  virt_alloc_ptr := virt_alloc_ptr m; static_alloc_ptr := static_alloc_ptr m;
                  static_alloc_limit := static_alloc_limit m; page_copy_ptr := page_copy_ptr m |} in
      '(env_page, m) ← static_alloc_pages 1 m;
      let p := procs k new_pid in
      let f := upd (upd (upd (files p) 0 nullfile) 1 (files (procs k 0) 1)) 2 (files (procs k 0) 2) in
      let p := {| p_cr3 := cr3; thread_index := thread_index p; num_running_threads := num_running_threads p;
                  files := f; locks := locks p; monitors := monitors p; env := env_page; userEnv := 0;
                  msgQueue := new_MsgQueue 64 (mq_queue (msgQueue p)) |} in
      Some (Some new_pid,
        {| procs := upd (procs k) new_pid p; threads := threads k; num_procs := num_procs k +w 1;
           proc_id := new_pid; thisThread := thisThread k; esp0 := esp0 k; cr3_reg := cr3 |}, m)
  end.

(** ** Locks as FIFO queues *)

Section locks.
Implicit Types (k : kernel) (lk : lockref) (q : list tref).

(** The waiting threads, linked by [lock_next]. *)
Fixpoint chain k (s : option tref) q : Prop :=
  match q with
  | [] => s = None
  | t :: q => s = Some t /\ chain k (lock_next (threads k t)) q
  end.

Definition valid_thread (t : tref) : Prop := 0 <= t < MAX_PROCS * MAX_PROC_THREADS.

(** The lock has the owner [own] and the waiting threads [q], in order. *)
Definition lock_holds k lk (own : option tref) q : Prop :=
  owner (read_lock k lk) = own /\ chain k (next (read_lock k lk)) q /\ NoDup q /\
  Forall valid_thread q /\ (own = None -> q = []).

Lemma upd_same {A} (f : Z -> A) i x : upd f i x i = x.
Proof. unfold upd. by rewrite Z.eqb_refl. Qed.

Lemma upd_other {A} (f : Z -> A) i j x : j <> i -> upd f i x j = f j.
Proof. unfold upd. intros. by destruct (Z.eqb_spec j i). Qed.

Lemma read_write_lock k lk v lk' :
  read_lock (write_lock k lk v) lk' = if decide (lk = lk') then v else read_lock k lk'.
Proof.
  destruct lk as [p h|p h], lk' as [p' h'|p' h']; case_decide as E; simplify_eq/=;
    unfold upd; rewrite ?Z.eqb_refl; cbn; rewrite ?Z.eqb_refl; try done;
    destruct (Z.eqb_spec p' p) as [->|]; try done; cbn; try (destruct (Z.eqb_spec h' h); congruence || done).
Qed.

Lemma read_lock_thread k t th lk : read_lock (set_thread_at k t th) lk = read_lock k lk.
Proof. by destruct lk. Qed.

Lemma read_lock_running k p d lk : read_lock (add_running k p d) lk = read_lock k lk.
Proof. destruct lk as [p' h|p' h]; cbn; unfold upd; destruct (Z.eqb_spec p' p) as [->|]; done. Qed.

Lemma threads_write_lock k lk v : threads (write_lock k lk v) = threads k.
Proof. by destruct lk. Qed.

(** A chain depends on the links of its threads alone. *)
Lemma chain_ext k k' s q :
  (forall t, t ∈ q -> lock_next (threads k' t) = lock_next (threads k t)) -> chain k s q -> chain k' s q.
Proof.
  revert s. induction q as [|t q IH]; intros s E Hc; cbn in *; [done|]. destruct Hc as [-> Hc]. split; [done|].
  rewrite E by apply list_elem_of_here. apply IH; [|done]. intros t' Ht'. apply E. by apply list_elem_of_further.
Qed.

Lemma waiting_bound q : NoDup q -> Forall valid_thread q -> (length q <= max_threads)%nat.
Proof.
  intros Hnd Hv. change max_threads with (length (seqZ 0 256)).
  apply submseteq_length, NoDup_submseteq; [done|]. intros t Ht. apply elem_of_seqZ.
  rewrite Forall_forall in Hv. apply (Hv t Ht).
Qed.

(** The search ends at the last waiting thread. *)
Lemma last_waiting_spec k t q n :
  chain k (Some t) (t :: q) -> (length (t :: q) <= n)%nat ->
  exists l, last_waiting n k t = Some l /\ last (t :: q) = Some l.
Proof.
  revert t n. induction q as [|t' q IH]; intros t n [_ Hc] Hn; destruct n as [|n]; cbn in Hn; try lia;
    cbn [last_waiting chain] in *.
  - rewrite Hc. by exists t.
  - destruct Hc as [-> Hc]. destruct (IH t' n) as (l & -> & Hl); [by split|cbn; lia|]. by exists l.
Qed.

(** Linking a thread that waits nowhere behind the last one. *)
Lemma chain_snoc k s q l me :
  chain k s q -> NoDup q -> last q = Some l -> me ∉ q -> lock_next (threads k me) = None ->
  chain (set_lock_next k l (Some me)) s (q ++ [me]).
Proof.
  revert s. induction q as [|t q IH]; intros s Hc Hnd Hl Hme Hn; [done|].
  apply NoDup_cons in Hnd as [Ht Hnd]. apply not_elem_of_cons in Hme as [Hne Hme].
  destruct Hc as [-> Hc]. cbn [app chain]. split; [done|]. destruct q as [|t' q].
  - cbn in Hl. simplify_eq. cbn. rewrite upd_same. cbn. split; [done|]. rewrite upd_other by done. done.
  - assert (l <> t) as Hlt.
    { intros ->. apply Ht. by apply last_Some_elem_of. }
    cbn [set_lock_next set_thread_at threads]. rewrite upd_other by done. by apply IH.
Qed.

(** The state of a lock, abstractly: its owner and the threads that wait. *)
Definition abs_lock : Type := option tref * list tref.

Definition abs_enter (me : tref) (a : abs_lock) : outcome * abs_lock :=
  let '(own, q) := a in
  if bool_decide (own = Some me) || bool_decide (own = None) then (Returns, (Some me, q))
  else (Yields, (own, q ++ [me])).

Definition abs_unlock (a : abs_lock) : abs_lock := (head (snd a), tail (snd a)).

(** Who a step may have touched: the caller and the queue. *)
Definition others_kept k k' (touched : list tref) lk : Prop :=
  (forall t, t ∉ touched -> threads k' t = threads k t) /\
  (forall lk', lk' <> lk -> read_lock k' lk' = read_lock k lk').

(** [k2] is [k] with the caller linked at the end of the queue: going to sleep
    leaves the lock with one waiting thread more. *)
Lemma lock_waits this lk own q k k2 :
  let me := thisThread k in
  let first := match q with [] => Some me | _ => next (read_lock k lk) end in
  own <> None -> NoDup q -> Forall valid_thread q -> me ∉ q -> valid_thread me ->
  (forall lk', read_lock k2 lk' =
     if decide (lk = lk') then {| owner := own; next := first |} else read_lock k lk') ->
  chain k2 first (q ++ [me]) ->
  (forall t, t <> me -> runState (threads k2 t) = runState (threads k t)) ->
  (forall t, t ∉ me :: q -> threads k2 t = threads k t) ->
  num_running_threads (procs k2 this) = num_running_threads (procs k this) ->
  let k3 := add_running (set_runState k2 me WAITING) this (-1) in
  lock_holds k3 lk own (q ++ [me]) /\ others_kept k k3 (me :: q) lk /\
  (own <> None -> own <> Some me -> runState (threads k3 me) = WAITING /\
    num_running_threads (procs k3 this) = num_running_threads (procs k this) -w 1 /\
    forall t, t <> me -> runState (threads k3 t) = runState (threads k t)).
Proof.
  intros me first Hown Hnd Hv Hme Hvme R2 C2 S2 T2 N2 k3.
  assert (forall lk', read_lock k3 lk' = read_lock k2 lk') as R3
    by (intros; unfold k3, set_runState; by rewrite read_lock_running, read_lock_thread).
  split_and!.
  - unfold lock_holds. rewrite R3, R2, decide_True by done. cbn [owner next]. split_and!; try done.
    + apply (chain_ext k2); [|done]. intros t _. cbn. unfold upd. by destruct (Z.eqb_spec t me) as [->|].
    + apply NoDup_app. split_and!; [done| |apply NoDup_singleton].
      intros x Hx ->%list_elem_of_singleton. done.
    + apply Forall_app. split; [done|]. by apply Forall_singleton.
  - split.
    + intros t Ht. cbn. rewrite upd_other by (intros ->; apply Ht, list_elem_of_here). by apply T2.
    + intros lk' Hn. rewrite R3, R2, decide_False by congruence. done.
  - intros _ _. cbn. rewrite !upd_same. cbn. rewrite N2. split_and!; [done|f_equal|].
    intros t Ht. rewrite upd_other by done. by apply S2.
Qed.

Lemma lock_enter_fifo this lk own q k :
  lock_holds k lk own q -> thisThread k ∉ q -> valid_thread (thisThread k) ->
  exists k', lock_enter this lk k = Some (fst (abs_enter (thisThread k) (own, q)), k') /\
    lock_holds k' lk (fst (snd (abs_enter (thisThread k) (own, q)))) (snd (snd (abs_enter (thisThread k) (own, q)))) /\
    others_kept k k' (thisThread k :: q) lk /\
    (own <> None -> own <> Some (thisThread k) -> runState (threads k' (thisThread k)) = WAITING /\
       num_running_threads (procs k' this) = num_running_threads (procs k this) -w 1 /\
       forall t, t <> thisThread k -> runState (threads k' t) = runState (threads k t)).
Proof.
  intros (Hown & Hc & Hnd & Hv & Hemp) Hme Hvme. set (me := thisThread k) in *.
  unfold lock_enter, abs_enter. fold me. rewrite Hown.
  destruct (bool_decide (own = Some me) || bool_decide (own = None)) eqn:Hfree; cbn [fst snd].
  - eexists. split; [reflexivity|]. split_and!.
    + unfold lock_holds. rewrite read_write_lock, decide_True by done. cbn. split_and!; try done.
      apply (chain_ext k); [|done]. intros t _. by rewrite threads_write_lock.
    + split; [by destruct lk|]. intros lk' Hn. rewrite read_write_lock. by rewrite decide_False.
    + intros H1 H2. apply orb_prop in Hfree as [?%bool_decide_eq_true|?%bool_decide_eq_true]; congruence.
  - apply orb_false_elim in Hfree as [H1%bool_decide_eq_false H2%bool_decide_eq_false].
    set (k1 := set_lock_next k me None).
    assert (chain k1 (next (read_lock k lk)) q) as Hc1.
    { apply (chain_ext k); [|done]. intros t Ht. cbn. rewrite upd_other; [done|]. congruence. }
    assert (lock_next (threads k1 me) = None) as Hm1 by (cbn; by rewrite upd_same).
    assert (k1 = set_lock_next k me None) as Ek1 by done.
    destruct q as [|first q].
    + cbn [chain] in Hc. rewrite Hc. cbn [mbind option_bind]. eexists. split; [reflexivity|].
      apply lock_waits; try done; fold me.
      * intros lk'. rewrite read_write_lock. case_decide; [done|]. unfold k1, set_lock_next. by rewrite read_lock_thread.
      * cbn [app chain]. split; [done|]. destruct lk; done.
      * intros t Ht. destruct lk; cbn; by rewrite upd_other.
      * intros t Ht. apply not_elem_of_cons in Ht as [Ht _]. destruct lk; cbn; by rewrite upd_other.
      * destruct lk as [p h|p h]; cbn; unfold upd; by destruct (Z.eqb_spec this p) as [->|].
    + cbn [chain] in Hc1. destruct Hc1 as [Ef Hc1]. rewrite Ef.
      destruct (last_waiting_spec k1 first q max_threads) as (l & El & Hl); [by split|by apply waiting_bound|].
      fold k1. rewrite El. cbn [mbind option_bind]. eexists. split; [reflexivity|].
      assert (l <> me) as Hlm by (intros ->; apply Hme; by apply last_Some_elem_of).
      apply lock_waits; try done; fold me.
      * intros lk'. unfold k1, set_lock_next. rewrite !read_lock_thread.
        case_decide as E; [subst lk'|done]. rewrite <- Hown. by destruct (read_lock k lk).
      * rewrite Ef. by apply chain_snoc.
      * intros t Ht. cbn. unfold upd. destruct (Z.eqb_spec t l) as [->|]; cbn;
        [destruct (Z.eqb_spec l me)|destruct (Z.eqb_spec t me)]; done.
      * intros t Ht. apply not_elem_of_cons in Ht as [Ht Htq]. cbn. rewrite upd_other.
        -- cbn. by rewrite upd_other.
        -- intros ->. apply Htq. by apply last_Some_elem_of.
Qed.

Lemma unlock_fifo lk own q k :
  lock_holds k lk own q ->
  let k' := unlock lk k in
  lock_holds k' lk (head q) (tail q) /\ others_kept k k' q lk /\
  (forall t, runState (threads k' t) = if bool_decide (head q = Some t) then RUNNING else runState (threads k t)) /\
  (forall p, num_running_threads (procs k' p) = num_running_threads (procs k p)) /\
  thisThread k' = thisThread k.
Proof.
  intros (Hown & Hc & Hnd & Hv & Hemp) k'. subst k'. unfold unlock. destruct q as [|o q]; cbn [chain head tail] in *.
  - rewrite Hc. split_and!.
    + unfold lock_holds. rewrite read_write_lock, decide_True by done. done.
    + split; [by destruct lk|]. intros lk' Hn. by rewrite read_write_lock, decide_False.
    + intros t. rewrite bool_decide_eq_false_2 by done. by destruct lk.
    + intros p. destruct lk as [p' h|p' h]; cbn; unfold upd; by destruct (Z.eqb_spec p p') as [->|].
    + by destruct lk.
  - destruct Hc as [-> Hc]. apply NoDup_cons in Hnd as [Ho Hnd]. apply Forall_cons in Hv as [Hvo Hv].
    set (k1 := set_runState k o RUNNING).
    assert (lock_next (threads k1 o) = lock_next (threads k o)) as El by (cbn; by rewrite upd_same).
    rewrite El. split_and!.
    + unfold lock_holds, set_lock_next. rewrite read_lock_thread, read_write_lock, decide_True by done.
      cbn [owner next]. split_and!; try done. apply (chain_ext k); [|done].
      intros t Ht. destruct lk; cbn; unfold upd; (destruct (Z.eqb_spec t o) as [->|]; [done|]); by cbn.
    + split.
      * intros t Ht. apply not_elem_of_cons in Ht as [Ht _]. destruct lk; cbn; by rewrite !upd_other.
      * intros lk' Hn. unfold set_lock_next. rewrite read_lock_thread, read_write_lock, decide_False by congruence.
        apply read_lock_thread.
    + intros t. destruct lk; cbn; unfold upd; (destruct (Z.eqb_spec t o) as [->|Hn];
        [rewrite bool_decide_eq_true_2 by done; cbn; by rewrite Z.eqb_refl
        |rewrite bool_decide_eq_false_2 by congruence; done]).
    + intros p. destruct lk as [p' h|p' h]; cbn; unfold upd; by destruct (Z.eqb_spec p p') as [->|].
    + by destruct lk.
Qed.

(** One call by a thread: [lock] or [unlock]. *)
Inductive lock_op := OpLock | OpUnlock.

Definition as_thread k (t : tref) : kernel :=
  {| procs := procs k; threads := threads k; num_procs := num_procs k; proc_id := proc_id k;
     thisThread := t; esp0 := esp0 k; cr3_reg := cr3_reg k |}.

Lemma lock_holds_as_thread k t lk own q : lock_holds k lk own q -> lock_holds (as_thread k t) lk own q.
Proof.
  assert (read_lock (as_thread k t) lk = read_lock k lk) as Er by (by destruct lk).
  unfold lock_holds. rewrite Er. intros (? & Hc & ? & ? & ?). split_and!; try done. by apply (chain_ext k).
Qed.

Definition lock_step (this : Z) lk (c : tref * lock_op) k : option kernel :=
  let k := as_thread k (fst c) in
  match snd c with
  | OpLock => '(_, k) ← lock_enter this lk k; Some k
  | OpUnlock => Some (unlock lk k)
  end.

Definition abs_step (a : abs_lock) (c : tref * lock_op) : abs_lock :=
  match snd c with OpLock => snd (abs_enter (fst c) a) | OpUnlock => abs_unlock a end.

Fixpoint lock_run (this : Z) lk (cs : list (tref * lock_op)) k : option kernel :=
  match cs with
  | [] => Some k
  | c :: cs => k ← lock_step this lk c k; lock_run this lk cs k
  end.

(** A thread that waits makes no call. *)
Fixpoint calls_ok (a : abs_lock) (cs : list (tref * lock_op)) : Prop :=
  match cs with
  | [] => True
  | c :: cs => valid_thread (fst c) /\ (fst c ∉ snd a) /\ calls_ok (abs_step a c) cs
  end.
End locks.

(** C10: a lock implements an owner and a FIFO queue: whatever calls of [lock] and
    [unlock] the threads make (those that wait make none), each call is defined,
    its list traversal ends, and the owner and the threads linked in the lock are
    those of the abstract queue: [lock] takes a free lock or joins the end,
    [unlock] hands the lock to the thread that waited longest. *)
Theorem lock_refines_fifo this lk calls k own q :
  lock_holds k lk own q -> calls_ok (own, q) calls ->
  exists k', lock_run this lk calls k = Some k' /\
    let '(own', q') := foldl abs_step (own, q) calls in lock_holds k' lk own' q'.
Proof.
  revert k own q. induction calls as [|[t op] calls IH]; intros k own q Hh Hok; [by exists k|].
  destruct Hok as (Hv & Hnin & Hok). cbn [lock_run foldl].
  pose proof (lock_holds_as_thread k t lk own q Hh) as Hh'.
  destruct op; cbn [lock_step fst snd].
  - destruct (lock_enter_fifo this lk own q (as_thread k t) Hh') as (k1 & E & Hh1 & _); [done..|].
    unfold lock_step. cbn [fst snd]. rewrite E. cbn [mbind option_bind].
    cbn [thisThread as_thread] in *. unfold abs_step in *. cbn [fst snd] in *.
    destruct (abs_enter t (own, q)) as [o [own1 q1]]. cbn [fst snd] in *. by apply IH.
  - destruct (unlock_fifo lk own q (as_thread k t) Hh') as (Hh1 & _). unfold lock_step. cbn [fst snd mbind option_bind].
    by apply IH.
Qed.

(** A kernel of two processes with fresh tables, for examples. *)
Definition idle_process : Process :=
  {| p_cr3 := 0; thread_index := 0; num_running_threads := 2; files := fun _ => 0;
     locks := fun _ => {| owner := None; next := None |};
     monitors := fun _ => {| mon_lock := {| owner := None; next := None |}; signal := 0 |};
     env := 0; userEnv := 0; msgQueue := new_MsgQueue 64 [] |}.
Definition small_kernel : kernel :=
  {| procs := fun _ => idle_process; threads := fun _ => with_runState no_thread RUNNING; num_procs := 2;
     proc_id := 1; thisThread := 16; esp0 := 0; cr3_reg := 0 |}.

Lemma lock_refines_fifo_witness :
  exists k', lock_run 1 (LockOf 1 0)
      [(16, OpLock); (17, OpLock); (18, OpLock); (16, OpUnlock)] small_kernel = Some k' /\
    lock_holds k' (LockOf 1 0) (Some 17) [18].
Proof.
  apply (lock_refines_fifo 1 (LockOf 1 0) [(16, OpLock); (17, OpLock); (18, OpLock); (16, OpUnlock)]
    small_kernel None []).
  - split_and!; try done. constructor.
  - cbn. unfold valid_thread, MAX_PROCS, MAX_PROC_THREADS.
    repeat (split; [lia|]; split; [cbn; set_solver|]). done.
Defined.

(** [lock] counts a thread out of [num_running_threads] when it waits and
    [unlock] does not count it in: after a contended lock has been handed over
    every thread is in the state it was in before, and the process counts one
    running thread less. *)
Theorem unlock_forgets_running this lk k a b :
  lock_holds k lk (Some a) [] -> thisThread k = b -> b <> a -> valid_thread b ->
  runState (threads k b) = RUNNING ->
  exists k1, lock_enter this lk k = Some (Yields, k1) /\
    let k2 := unlock lk (as_thread k1 a) in
    lock_holds k2 lk (Some b) [] /\
    (forall t, runState (threads k2 t) = runState (threads k t)) /\
    num_running_threads (procs k2 this) = num_running_threads (procs k this) -w 1.
Proof.
  intros Hh Hme Hne Hv Hrun.
  destruct (lock_enter_fifo this lk (Some a) [] k) as (k1 & E & Hh1 & _ & Hw);
    [done|by apply not_elem_of_nil|by rewrite Hme|].
  rewrite Hme in *. unfold abs_enter in E, Hh1.
  rewrite !bool_decide_eq_false_2 in E by congruence. rewrite !bool_decide_eq_false_2 in Hh1 by congruence.
  cbn [orb fst snd app] in E, Hh1. destruct Hw as (Hwait & Hnum & Hother); [done|congruence|].
  exists k1. split; [done|].
  destruct (unlock_fifo lk (Some a) [b] (as_thread k1 a)) as (Hh2 & _ & Hst & Hn & _).
  { by apply lock_holds_as_thread. }
  cbn [head tail] in *. split_and!; [done| |by rewrite Hn].
  intros t. rewrite Hst. cbn [as_thread threads].
  destruct (decide (t = b)) as [->|Hn'].
  - by rewrite bool_decide_eq_true_2.
  - rewrite bool_decide_eq_false_2 by congruence. by apply Hother.
Qed.

Lemma unlock_forgets_running_witness :
  exists k1, lock_enter 1 (LockOf 1 0) (write_lock small_kernel (LockOf 1 0) {| owner := Some 17; next := None |})
      = Some (Yields, k1) /\
    num_running_threads (procs (unlock (LockOf 1 0) (as_thread k1 17)) 1) = 1.
Proof.
  destruct (unlock_forgets_running 1 (LockOf 1 0)
    (write_lock small_kernel (LockOf 1 0) {| owner := Some 17; next := None |}) 17 16)
    as (k1 & E & _ & _ & Hn); [|done|done|unfold valid_thread; vm_compute; split; congruence|done|].
  - split_and!; try done; constructor.
  - exists k1. split; [exact E|]. rewrite Hn. reflexivity.
Defined.

(** C38: the wake-up protocol of a monitor.  If the waiting thread has stored
    [signal_wait] when the signal is raised, [notify] makes it runnable again;
    but [Process::lock] has enabled interrupts, so [notify] can come between the
    test of the signal and that store: then the thread goes to sleep with the
    signal positive and nobody is left to wake it. *)
Theorem monitor_notify_race k this h diff d :
  let me := thisThread k in
  let mon := monitors (procs k this) h in
  0 <= h < MAX_PROC_MONITORS -> owner (mon_lock mon) = Some me -> signal mon <= 0 ->
  signal_wait (threads k me) = None -> 0 < signal mon + d < 2147483648 ->
  monitor_step this h diff MonCheck k = Some (MonArm, k) /\
  (* the store, then the signal *)
  (exists k1 k2, monitor_step this h diff MonArm k = Some (MonYield2, k1) /\ notify this h d k1 = Some k2 /\
     runState (threads k2 me) = RUNNING /\ signal_wait (threads k2 me) = None /\
     monitor_step this h diff MonYield2 k2 = Some (MonConsume, k2)) /\
  (* the signal, then the store *)
  (exists k1 k2, notify this h d k = Some k1 /\ monitor_step this h diff MonArm k1 = Some (MonYield2, k2) /\
     runState (threads k2 me) = WAITING /\ 0 < signal (monitors (procs k2 this) h) /\
     monitor_step this h diff MonYield2 k2 = Some (MonYield2, k2)).
Proof.
  intros me mon Hh Ho Hs Hw Hd.
  assert (get_monitor h = Some h) as Eh.
  { unfold get_monitor, MAX_PROC_MONITORS in *. rewrite Z.rem_small by lia. by destruct (Z.ltb_spec h 0); [lia|]. }
  assert (s32 (signal mon + d) = signal mon + d) as Es by (apply s32_small; unfold is_s32; lia).
  unfold monitor_step, notify. rewrite Eh. cbn [mbind option_bind]. fold me mon. split_and!.
  - rewrite Ho, bool_decide_eq_true_2 by done. cbn [negb]. destruct (Z.leb_spec (signal mon) 0); [done|lia].
  - eexists _, _. split; [reflexivity|]. cbn [set_runState set_signal_wait add_running set_thread_at set_process
      procs threads write_signal thisThread]. rewrite !upd_same. cbn [with_running monitors with_locks].
    fold mon. rewrite Es, upd_same. destruct (Z.ltb_spec 0 (signal mon + d)); [|lia].
    cbn [mon_lock]. rewrite Ho, upd_same. cbn [with_runState with_signal_wait signal_wait].
    rewrite bool_decide_eq_true_2 by done. split; [reflexivity|].
    cbn [set_runState set_signal_wait add_running set_thread_at set_process procs threads thisThread].
    rewrite !upd_same. cbn [with_runState with_signal_wait runState signal_wait].
    fold me. rewrite ?upd_same. cbn [with_runState runState]. done.
  - eexists _, _. split.
    { cbn [set_process write_signal procs threads]. rewrite upd_same. cbn [with_locks monitors]. fold mon.
      rewrite upd_same, Es. destruct (Z.ltb_spec 0 (signal mon + d)); [|lia]. cbn [mon_lock]. rewrite Ho.
      cbn [set_process threads]. rewrite Hw, bool_decide_eq_false_2 by done. reflexivity. }
    split; [reflexivity|].
    cbn [set_runState set_signal_wait add_running set_thread_at set_process procs threads write_signal thisThread].
    fold me. rewrite !upd_same. cbn [with_runState runState with_running monitors with_locks].
    rewrite !upd_same. cbn [signal]. split_and!; [done|lia|done].
Qed.

Lemma monitor_notify_race_witness :
  exists k1 k2, notify 1 3 1 (write_lock small_kernel (MonitorOf 1 3) {| owner := Some 16; next := None |}) = Some k1 /\
    monitor_step 1 3 1 MonArm k1 = Some (MonYield2, k2) /\ runState (threads k2 16) = WAITING.
Proof.
  destruct (monitor_notify_race (write_lock small_kernel (MonitorOf 1 3) {| owner := Some 16; next := None |}) 1 3 1 1)
    as (_ & _ & k1 & k2 & E1 & E2 & E3 & _); try (cbn; unfold MAX_PROC_MONITORS; lia); try done.
  by exists k1, k2.
Defined.
