(* ===== verification/Spaces.v ===== *)
(** * The address spaces of processes: [new_user_process] of [system/process.cpp]
    and [new_user_thread] of [system/threads.cpp] on the memory of [Memory]

    What the operations of [Process] that allocate do to the page tables: the
    directory of a new process, the stacks of a new thread, and both together in
    [spawn] of [system/main.cpp]. *)
From S2P Require Import Prelude BitOps BitAlloc Memory Paging Queue Process.

(** ** The heaps' pointers *)

(** Operations that leave the bounds of the heaps alone. *)
Definition keeps_heaps {A} (c : K A) : Prop := forall m x m', c m = Some (x, m') -> same_heaps m m'.

Create HintDb heaps.

Lemma keeps_ret {A} (x : A) : keeps_heaps (kret x).
Proof. intros m y m' E. by injection E as _ <-. Qed.

Lemma keeps_bind {A B} (c : K A) (k : A -> K B) :
  keeps_heaps c -> (forall x, keeps_heaps (k x)) -> keeps_heaps (kbind c k).
Proof.
  intros Hc Hk m y m' E. unfold kbind in E. destruct (c m) as [[x m1]|] eqn:E1; [|done].
  eapply same_heaps_trans; [by eapply Hc|by eapply Hk].
Qed.

Lemma keeps_get {A} (f : machine -> A) : keeps_heaps (kget f).
Proof. intros m y m' E. by injection E as _ <-. Qed.

Lemma keeps_none {A} : keeps_heaps (fun _ : machine => @None (A * machine)).
Proof. done. Qed.

Lemma keeps_load va : keeps_heaps (vload va).
Proof. intros m y m' E. unfold vload in E. destruct (walk m va); [|done]. by injection E as _ <-. Qed.

Lemma keeps_store va v : keeps_heaps (vstore va v).
Proof. intros m y m' E. unfold vstore in E. destruct (walk m va); [|done]. by inversion_clear E. Qed.

Lemma keeps_rand n : keeps_heaps (krand n).
Proof. intros m y m' E. by injection E as _ <-. Qed.

Lemma keeps_lock l i : keeps_heaps (klock_next_block l i).
Proof.
  intros m y m' E. unfold klock_next_block in E. destruct (lock_next_block _ _ _) as [[[r b] ba]|]; [|done].
  by injection E as _ <-.
Qed.

Lemma keeps_unlock b i : keeps_heaps (kunlock_block b i).
Proof. intros m y m' E. unfold kunlock_block in E. destruct (unlock_block _ _ _); [|done]. by inversion_clear E. Qed.

#[export] Hint Resolve keeps_ret keeps_bind keeps_get keeps_none keeps_load keeps_store keeps_rand keeps_lock keeps_unlock : heaps.

Lemma keeps_lock_page : keeps_heaps lock_next_page.
Proof. exact lock_next_page_heaps. Qed.
#[export] Hint Resolve keeps_lock_page : heaps.

Lemma keeps_ensure va attr : keeps_heaps (ensure_pte va attr).
Proof.
  unfold ensure_pte, phys_alloc_page. apply keeps_bind; [auto with heaps|intros pde].
  apply keeps_bind; [auto with heaps|intros val]. destruct (negb _); [|auto with heaps].
  repeat (apply keeps_bind; [auto with heaps|intros]). auto with heaps.
Qed.
#[export] Hint Resolve keeps_ensure : heaps.

Lemma keeps_map_to va pa attr : keeps_heaps (map_to va pa attr).
Proof. unfold map_to. auto with heaps. Qed.
#[export] Hint Resolve keeps_map_to : heaps.

Lemma keeps_from_block n attr r va pa lb tb p : keeps_heaps (alloc_from_block n attr r va pa lb tb p).
Proof.
  revert va pa lb tb p. induction n as [|n IH]; intros va pa lb tb p; cbn [alloc_from_block]; [auto with heaps|].
  destruct (_ =? _); [auto with heaps|]. destruct (_ =? _); [|apply IH].
  apply keeps_bind; [auto with heaps|]. intros _. destruct (_ <=? _); [|apply IH]. auto with heaps.
Qed.

Lemma keeps_blocks n address attr va lb b p : keeps_heaps (alloc_blocks n address attr va lb b p).
Proof.
  revert va lb b p. induction n as [|n IH]; intros va lb b p; cbn [alloc_blocks]; [auto with heaps|].
  apply keeps_bind; [auto with heaps|]. intros [r bits]. destruct (_ =? _); [auto with heaps|].
  apply keeps_bind; [apply keeps_from_block|]. intros [[]|[va' p']]; [auto with heaps|apply IH].
Qed.

Lemma virt_alloc_heaps pages address attr : keeps_heaps (virt_alloc_pages_at pages address attr).
Proof.
  unfold virt_alloc_pages_at. apply keeps_bind; [auto with heaps|intros b]. apply keeps_bind; [auto with heaps|intros n].
  apply keeps_blocks.
Qed.

(** ** Allocation at the end of the virtual heap *)

Section spaces.
Implicit Types (m : machine) (fs ts : list Z).

Definition low_used m : Prop := forall b, 0 <= b < 32 -> bit_used (page_allocator m) b = true.

Lemma frames_left_after m address attr pages m' fs ts n :
  mapped m address attr pages m' fs ts -> allocated m m' fs ts ->
  frames_left m (n + 2 * pages) -> frames_left m' n.
Proof.
  intros Hmap (_ & _ & Hu) (pool & Hnd & Hpool & Hlen). rewrite Forall_forall in Hpool.
  exists (list_difference pool (fs ++ ts)). split; [by apply NoDup_list_difference|]. split.
  - apply Forall_forall. intros b [Hb Hn]%list_elem_of_difference. destruct (Hpool b Hb) as [Hr Hfree]. split; [done|].
    rewrite Hu by lia. unfold frame_used. rewrite Hfree. by apply bool_decide_eq_false.
  - assert (length pool <= length (list_difference pool (fs ++ ts) ++ (fs ++ ts)))%nat as Hle.
    { apply submseteq_length, NoDup_submseteq; [done|]. intros b Hb. rewrite elem_of_app, list_elem_of_difference.
      destruct (decide (b ∈ fs ++ ts)); tauto. }
    pose proof (mp_len _ _ _ _ _ _ _ Hmap). pose proof (mp_tabs _ _ _ _ _ _ _ Hmap).
    rewrite !length_app in Hle. lia.
Qed.

Lemma allocated_low m m' fs ts : allocated m m' fs ts -> low_used m -> low_used m'.
Proof. intros (_ & _ & Hu) Hlow b Hb. rewrite Hu by lia. by apply frame_used_mono, Hlow. Qed.

(** [virt_alloc_pages] with enough frames and address space. *)
Lemma virt_alloc_pages_ok m pages attr :
  let v := virt_alloc_ptr m in
  memory_wf m -> low_used m -> 1 <= pages < 1048576 -> 0 < v -> v mod 4096 = 0 -> v + 4096 * pages < 4294967296 ->
  0 <= attr < 4096 -> Z.testbit attr 0 = true -> 0x800000 <= v -> frames_left m (2 * pages + 32) ->
  exists m' fs ts, virt_alloc_pages pages attr m = Some (v, m') /\ mapped m v attr pages m' fs ts /\
    allocated m m' fs ts /\ Z.of_nat (length fs) = pages /\ virt_alloc_ptr m' = v + 4096 * pages /\
    static_alloc_ptr m' = static_alloc_ptr m /\ static_alloc_limit m' = static_alloc_limit m /\
    page_copy_ptr m' = page_copy_ptr m.
Proof.
  intros v Hwf Hlow Hp Hv0 Hvm Hvp Hattr Hodd Hv Hleft. unfold virt_alloc_pages, kbind, next_virtual_pages. fold v.
  unfold BYTES_PER_PAGE. rewrite u32_small by (unfold is_u32; lia). change all_ones with 4294967295.
  rewrite atomic_add_limit_spec by (unfold is_u32; lia).
  destruct (Z.leb_spec (pages * 4096) (4294967295 - v)); [|lia]. destruct (Z.eqb_spec v 4294967295); [lia|].
  set (m0 := with_ptrs m _ _).
  assert (memory_wf m0) as Hwf0 by (destruct Hwf; by split).
  destruct (virt_alloc_succeeds m0 v attr pages) as (m' & fs & ts & E & Hmap & Hall & Hl); try done; try lia.
  { intros i Hi. zdm. }
  { by right. }
  exists m', fs, ts. split; [exact E|]. split; [destruct Hmap; by split|]. split; [exact Hall|]. split; [done|].
  destruct (virt_alloc_heaps _ _ _ _ _ _ E) as (-> & -> & -> & -> & _). cbn [m0 with_ptrs virt_alloc_ptr static_alloc_ptr static_alloc_limit page_copy_ptr].
  split; [lia|done].
Qed.

(** ** The directory of a new process *)

(** The word of entry [i] in the copy of the directory. *)
Definition dir_copy m (i : Z) : Z := if Z.testbit (pde m i) 8 then pde m i else 0.

(** The words below [i] are copied to the frame [n]. *)
Definition dir_copied m (n i : Z) m' : Prop :=
  same_tables m m' /\ m' = with_phys m (phys m') /\
  (forall j, 0 <= j < i -> phys m' (4096 * n + 4 * j) = dir_copy m j) /\
  (forall a, a / 4096 <> n -> phys m' a = phys m a).

Lemma dir_copied_store m n i j v m' :
  dir_copied m n i m' -> ~ is_table m n -> 0 <= j < 1024 -> is_u32 v ->
  let m2 := set_word m' (4096 * n + 4 * j) v in
  same_tables m m2 /\ m2 = with_phys m (phys m2) /\ (forall a, a / 4096 <> n -> phys m2 a = phys m a) /\
  phys m2 (4096 * n + 4 * j) = v /\
  (forall k, 0 <= k < i -> k <> j -> phys m2 (4096 * n + 4 * k) = dir_copy m k).
Proof.
  intros (Hst & Ewith & Hdone & Hout) Hnt Hj Hv m2. split; [apply same_tables_store; [done|]|].
  { by replace ((4096 * n + 4 * j) / 4096) with n by zdm. }
  split; [unfold m2; by rewrite Ewith|]. split; [|split].
  - intros a Ha. cbn [m2 set_word with_phys phys]. destruct (Z.eqb_spec a (4096 * n + 4 * j)); [zdm|by apply Hout].
  - cbn [m2 set_word with_phys phys]. rewrite Z.eqb_refl. by apply u32_small.
  - intros k Hk Hne. cbn [m2 set_word with_phys phys]. destruct (Z.eqb_spec (4096 * n + 4 * k) (4096 * n + 4 * j)); [lia|].
    by apply Hdone.
Qed.

Lemma copy_directory_ok m v n :
  memory_wf m -> is_u32 v -> v mod 4096 = 0 -> walk m v = Some (4096 * n) -> ~ is_table m n ->
  exists m', copy_directory v m = Some (tt, m') /\ dir_copied m n 1024 m'.
Proof.
  intros Hwf Hv Hvm Hw Hnt. unfold copy_directory. pose proof (wf_dir _ Hwf) as Hpd.
  apply (kfor_inv (dir_copied m n) 1024 0).
  - split; [by apply same_tables_refl|]. split; [by destruct m|]. split; [lia|done].
  - intros j m' Hj Hc. pose proof Hc as (Hst & Ewith & _ & Hout). change (0 + Z.of_nat 1024) with 1024 in Hj.
    assert (phys m' (cr3 m + 4 * j) = pde m j) as Epde.
    { rewrite <- (same_tables_pde m m') by (done || lia). unfold pde. by rewrite Ewith. }
    assert (walk m' (page_dir m' + 4 * j) = Some (cr3 m + 4 * j)) as Hwd.
    { rewrite (same_tables_walk m m') by (done || (rewrite Ewith; cbn [with_phys page_dir]; rewrite Hpd; unfold is_u32; lia)).
      rewrite Ewith. cbn [with_phys page_dir]. rewrite Hpd.
      replace (0x401000 + 4 * j) with (0x400000 + 4 * (1024 + j)) by lia. rewrite walk_self by (done || lia).
      replace ((1024 + j) / 1024) with 1 by zdm. replace ((1024 + j) mod 1024) with j by zdm.
      destruct (wf_self _ Hwf) as [-> ->]. done. }
    assert (walk m' (v + 4 * j) = Some (4096 * n + 4 * j)) as Hwv.
    { rewrite (same_tables_walk m m') by (done || (unfold is_u32 in *; zdm)). apply walk_in_page; (done || lia). }
    assert (is_u32 (pde m j)) as Hpu by apply (wf_phys _ Hwf).
    assert (forall w, w = dir_copy m j -> exists m2, vstore (v + 4 * j) w m' = Some (tt, m2) /\ dir_copied m n (j + 1) m2) as Hst2.
    { intros w Ew. unfold vstore. rewrite Hwv. cbn [mbind option_bind]. eexists. split; [reflexivity|].
      fold (set_word m' (4096 * n + 4 * j) w).
      destruct (dir_copied_store m n j j w m' Hc Hnt ltac:(lia)) as (H1 & H2 & H3 & H4 & H5).
      { rewrite Ew. unfold dir_copy. destruct (Z.testbit _ _); [done|unfold is_u32; lia]. }
      split; [done|]. split; [done|]. split; [|done]. intros k Hk. destruct (decide (k = j)) as [->|]; [by rewrite H4|].
      apply H5; lia. }
    unfold kbind, vload. rewrite Hwd. cbn [mbind option_bind]. rewrite Epde.
    unfold dir_copy in Hst2. destruct (Z.testbit (pde m j) 8); by apply Hst2.
Qed.

Definition with_cr3 m (d : Z) : machine :=
  {| phys := phys m; cr3 := d; paging := paging m; page_tables := page_tables m; page_dir := page_dir m;
     page_allocator := page_allocator m; seed := seed m; virt_alloc_ptr := virt_alloc_ptr m;
     static_alloc_ptr := static_alloc_ptr m; static_alloc_limit := static_alloc_limit m;
     page_copy_ptr := page_copy_ptr m |}.

(** The address space of the copy: the global tables of the old one, and itself. *)
Record new_space m (n : Z) m' : Prop := {
  ns_wf : memory_wf m';
  ns_cr3 : cr3 m' = 4096 * n;
  ns_alloc : page_allocator m' = page_allocator m;
  ns_heaps : static_alloc_ptr m' = static_alloc_ptr m /\ static_alloc_limit m' = static_alloc_limit m /\
    virt_alloc_ptr m' = virt_alloc_ptr m /\ page_copy_ptr m' = page_copy_ptr m;
  ns_pde : forall i, 0 <= i < 1024 -> i <> 1 -> pde m' i = dir_copy m i;
  ns_entry : forall a, is_u32 a -> a / 4194304 <> 1 ->
    entry m' a = if Z.testbit (pde m (a / 4194304)) 8 then entry m a else None;
  ns_phys : forall a, a / 4096 <> n -> phys m' a = phys m a
}.

Lemma dir_copy_present m i : pme_present (dir_copy m i) = Z.testbit (pde m i) 8 && pme_present (pde m i).
Proof. unfold dir_copy. by destruct (Z.testbit _ _). Qed.

Lemma new_space_ok m n m1 :
  memory_wf m -> dir_copied m n 1024 m1 -> ~ is_table m n -> bit_used (page_allocator m) n = true -> 0 <= n < 1048576 ->
  new_space m n (with_cr3 (set_word m1 (4096 * n + 4 * PDIR_SELF_INDEX) (Z.lor (4096 * n) PAGE_KERNEL_DATA)) (4096 * n)).
Proof.
  intros Hwf Hc Hnt Hn Hnr. set (self := Z.lor (4096 * n) PAGE_KERNEL_DATA).
  destruct (entry_split (4096 * n) PAGE_KERNEL_DATA) as (S1 & S2 & S3 & _);
    [unfold is_u32; lia|by rewrite Z.mul_comm, Z.mod_mul|vm_compute; split; congruence|]. fold self in S1, S2, S3.
  destruct (dir_copied_store m n 1024 1 self m1 Hc Hnt ltac:(lia) S3) as (Hst & Ewith & Hout & Hself & Hdone).
  change (4 * PDIR_SELF_INDEX) with (4 * 1). set (m2 := set_word m1 (4096 * n + 4 * 1) self) in *.
  clearbody m2. remember (phys m2) as ph eqn:Eph. clear Eph. subst m2. set (m3 := with_cr3 (with_phys m ph) (4096 * n)).
  assert (forall i, 0 <= i < 1024 -> i <> 1 -> pde m3 i = dir_copy m i) as Hpde by (intros; apply Hdone; lia).
  assert (table m3 1 = 4096 * n) as Ht1 by (unfold table, pde; cbn [m3 with_cr3 with_phys phys cr3]; by rewrite Hself).
  assert (pme_present (pde m3 1) = true) as Hp1 by (unfold pde; cbn [m3 with_cr3 with_phys phys cr3]; by rewrite Hself, S2).
  assert (forall i, 0 <= i < 1024 -> i <> 1 -> pme_present (pde m3 i) = true ->
    pme_present (pde m i) = true /\ table m3 i = table m i /\ Z.testbit (pde m i) 8 = true) as Hold.
  { intros i Hi Hn1. rewrite Hpde, dir_copy_present by done. intros [Hg Hp]%andb_true_iff. split; [done|]. split; [|done].
    unfold table. rewrite Hpde by done. unfold dir_copy. by rewrite Hg. }
  assert (forall i, 0 <= i < 1024 -> i <> 1 -> pme_present (pde m3 i) = true -> table m3 i <> 4096 * n) as Hne.
  { intros i Hi Hn1 Hp Heq. destruct (Hold i Hi Hn1 Hp) as (Hpm & Et & _). apply Hnt. exists i. by rewrite <- Et. }
  assert (memory_wf m3) as Hwf3.
  { destruct Hwf as [W1 W2 W3 W4 W5 W6 W7 W8 W9 W10]. split; try done.
    - split; [unfold is_u32; cbn [m3 with_cr3 cr3]; lia|]. cbn [m3 with_cr3 cr3]. by rewrite Z.mul_comm, Z.mod_mul.
    - apply Hst.
    - intros i Hi Hp. change (page_allocator m3) with (page_allocator m). destruct (decide (i = 1)) as [->|Hn1].
      + by rewrite Ht1, Z.mul_comm, Z.div_mul by lia.
      + destruct (Hold i Hi Hn1 Hp) as (Hpm & -> & _). by apply W8.
    - intros i j Hi Hj Hpi Hpj Heq. destruct (decide (i = 1)) as [->|Hi1], (decide (j = 1)) as [->|Hj1]; try done.
      + rewrite Ht1 in Heq. by destruct (Hne j Hj Hj1 Hpj).
      + rewrite Ht1 in Heq. by destruct (Hne i Hi Hi1 Hpi).
      + destruct (Hold i Hi Hi1 Hpi) as (? & Ei & _), (Hold j Hj Hj1 Hpj) as (? & Ej & _). rewrite Ei, Ej in Heq. by apply W10. }
  split; try done.
  - intros a Ha Hn1. pose proof (dir_range a Ha) as Hd.
    unfold entry. rewrite (Hpde _ Hd Hn1), dir_copy_present. destruct (Z.testbit (pde m (a / 4194304)) 8) eqn:Hg; [|done].
    cbn [andb]. destruct (pme_present (pde m (a / 4194304))) eqn:Hp; [|done].
    assert (pte_at m3 a = pte_at m a) as -> by (unfold pte_at, table; rewrite Hpde by done; unfold dir_copy; by rewrite Hg).
    f_equal. apply Hst. apply pte_in_table; [done..|]. by rewrite entry_present, Hp.
Qed.

(** ** What allocation leaves of the address space *)

Lemma mapped_tables m v attr pages m' fs ts f :
  0 <= attr < 4096 -> mapped m v attr pages m' fs ts -> is_table m' f -> is_table m f \/ f ∈ ts.
Proof.
  intros Hattr Hmap (i & Hi & Hp & Ht). destruct (mp_pde _ _ _ _ _ _ _ Hmap i Hi) as [E|(_ & _ & t & Hin & E)].
  - left. exists i. unfold table in *. by rewrite <- E.
  - right. destruct (mp_fresh _ _ _ _ _ _ _ Hmap t) as [Hr _]; [apply elem_of_app; by right|].
    unfold table in Ht. rewrite E in Ht.
    destruct (entry_split (4096 * t) attr) as (S1 & _); [unfold is_u32; lia|by rewrite Z.mul_comm, Z.mod_mul|done|].
    rewrite S1 in Ht. by assert (f = t) as -> by lia.
Qed.

(** Words of frames that were in use and are no table stay. *)
Definition keeps_data m m' : Prop :=
  forall a, 0 <= a -> bit_used (page_allocator m) (a / 4096) = true -> ~ is_table m (a / 4096) -> phys m' a = phys m a.

Lemma mapped_data m v attr pages m' fs ts :
  0 <= attr < 4096 -> mapped m v attr pages m' fs ts -> keeps_data m m'.
Proof.
  intros Hattr Hmap a _ Hu Hnt. destruct (mp_phys _ _ _ _ _ _ _ Hmap a) as [|Ht]; [done|].
  destruct (mapped_tables _ _ _ _ _ _ _ _ Hattr Hmap Ht) as [|Hin]; [done|].
  destruct (mp_fresh _ _ _ _ _ _ _ Hmap (a / 4096)) as [_ Hf]; [apply elem_of_app; by right|congruence].
Qed.

Lemma allocated_more m m' fs ts : allocated m m' fs ts -> more_used m m'.
Proof. intros (_ & _ & Hu) b Hb H. rewrite Hu by done. by apply frame_used_mono. Qed.

(** The pages of [v] on are not in tables that processes share. *)
Definition private_pages m (v pages : Z) : Prop :=
  forall a, v <= a < v + 4096 * pages -> pme_present (pde m (a / 4194304)) = true -> Z.testbit (pde m (a / 4194304)) 8 = false.

Lemma mapped_page m v attr pages m' fs ts i f :
  0 <= v -> v mod 4096 = 0 -> 0x800000 <= v -> v + 4096 * pages <= 4294967296 ->
  mapped m v attr pages m' fs ts -> fs !! i = Some f ->
  let a := v + 4096 * Z.of_nat i in
  is_u32 a /\ a / 4194304 <> 1 /\ entry m' a = Some (Z.lor (4096 * f) attr) /\ 0 <= f < 1048576.
Proof.
  intros Hv Hvm Hlo Hhi Hmap Hf a. pose proof (lookup_lt_Some _ _ _ Hf). pose proof (mp_len _ _ _ _ _ _ _ Hmap).
  assert (is_u32 a) as Ha by (unfold a, is_u32; lia). assert (a / 4194304 <> 1) as Hn1 by (unfold a; zdm).
  split; [done|]. split; [done|]. split.
  - pose proof (mp_entry _ _ _ _ _ _ _ Hmap a Ha Hn1) as He. unfold page_frame in He.
    replace (a / 4096) with (v / 4096 + Z.of_nat i) in He by (unfold a; zdm).
    destruct (Z.leb_spec (v / 4096) (v / 4096 + Z.of_nat i)); [|lia]. replace (Z.to_nat _) with i in He by lia.
    by rewrite Hf in He.
  - apply (mp_fresh _ _ _ _ _ _ _ Hmap). apply elem_of_app. left. by eapply list_elem_of_lookup_2.
Qed.

(** Allocation in private pages does not reach the global entries. *)
Lemma mapped_global m v attr pages m' fs ts a :
  0 <= attr < 4096 -> Z.testbit attr 8 = false -> v mod 4096 = 0 -> 0x800000 <= v -> v + 4096 * pages <= 4294967296 ->
  private_pages m v pages -> mapped m v attr pages m' fs ts -> is_u32 a -> a / 4194304 <> 1 ->
  (if Z.testbit (pde m' (a / 4194304)) 8 then entry m' a else None) =
  (if Z.testbit (pde m (a / 4194304)) 8 then entry m a else None).
Proof.
  intros Hattr Hglob Hvm Hlo Hhi Hpriv Hmap Ha Hn1. pose proof (dir_range a Ha) as Hd.
  destruct (mp_pde _ _ _ _ _ _ _ Hmap _ Hd) as [E|(Hp & _ & t & Hin & E)].
  - rewrite E. destruct (Z.testbit (pde m (a / 4194304)) 8) eqn:Hg; [|done].
    pose proof (mp_entry _ _ _ _ _ _ _ Hmap a Ha Hn1) as He. destruct (page_frame v fs a) as [f|] eqn:Ef.
    + exfalso. unfold page_frame in Ef. destruct (Z.leb_spec (v / 4096) (a / 4096)); [|done].
      pose proof (lookup_lt_Some _ _ _ Ef). pose proof (mp_len _ _ _ _ _ _ _ Hmap).
      assert (Z.testbit (pde m (a / 4194304)) 8 = false); [|congruence]. apply Hpriv; [zdm|].
      rewrite <- E. destruct (pme_present (pde m' (a / 4194304))) eqn:Hp; [done|]. apply entry_present in Hp. congruence.
    + destruct (entry m a) as [e|] eqn:Ea; [by apply He|]. apply entry_present. rewrite E. by apply entry_present.
  - assert (Z.testbit (pde m' (a / 4194304)) 8 = false) as ->.
    { destruct (mp_fresh _ _ _ _ _ _ _ Hmap t) as [Hr _]; [apply elem_of_app; by right|]. rewrite E, Z.lor_spec, Hglob, orb_false_r.
      replace (4096 * t) with (t * 2 ^ 12) by lia. by apply Z.mul_pow2_bits_low. }
    destruct (Z.testbit (pde m (a / 4194304)) 8); [|reflexivity]. symmetry. by apply entry_present.
Qed.

(** One page of the static heap. *)
Lemma static_page m ptr :
  static_alloc_ptr m = ptr -> 0 <= ptr -> ptr + 4096 <= static_alloc_limit m < 4294967296 ->
  static_alloc_pages 1 m = Some (ptr, with_ptrs m (virt_alloc_ptr m) (ptr + 4096)).
Proof.
  intros Hp H0 Hl. unfold static_alloc_pages. change (1 *w BYTES_PER_PAGE) with 4096.
  rewrite Hp, atomic_add_limit_spec by (unfold is_u32; lia).
  destruct (Z.leb_spec 4096 (static_alloc_limit m - ptr)); [|lia].
  cbn [with_ptrs static_alloc_limit]. destruct (Z.eqb_spec ptr (static_alloc_limit m)); [lia|done].
Qed.


(** The first free process. *)
Lemma free_process_first n i k pid :
  i <= pid < i + Z.of_nat n -> p_cr3 (procs k pid) = 0 -> (forall q, i <= q < pid -> p_cr3 (procs k q) <> 0) ->
  free_process n i k = Some pid.
Proof.
  revert i. induction n as [|n IH]; intros i Hi Hp Hq; [lia|]. cbn [free_process].
  destruct (Z.eqb_spec (p_cr3 (procs k i)) 0) as [E|Hne].
  - destruct (decide (i = pid)) as [->|]; [done|]. by destruct (Hq i); [lia|].
  - apply IH; [|done|intros; apply Hq; lia]. destruct (decide (i = pid)) as [->|]; [done|lia].
Qed.

Lemma mapped_keeps m v attr pages m' fs ts a :
  v mod 4096 = 0 -> mapped m v attr pages m' fs ts -> is_u32 a -> a / 4194304 <> 1 ->
  ~ v <= a < v + 4096 * pages -> entry m a <> None -> entry m' a = entry m a.
Proof.
  intros Hvm Hmap Ha Hn1 Hout He. pose proof (mp_entry _ _ _ _ _ _ _ Hmap a Ha Hn1) as H.
  assert (page_frame v fs a = None) as E; [|rewrite E in H; by apply H].
  unfold page_frame. destruct (Z.leb_spec (v / 4096) (a / 4096)); [|done].
  apply lookup_ge_None_2. pose proof (mp_len _ _ _ _ _ _ _ Hmap). zdm.
Qed.

(** The pages of tables that every process shares. *)
Definition shared_page m (a : Z) : Prop := entry m a <> None /\ Z.testbit (pde m (a / 4194304)) 8 = true.

(** What the heaps must have left: [pages] of address space, in private tables,
    and [statics] pages of the static heap. *)
Record heap_room m (pages statics : Z) : Prop := {
  hr_lo : 0x800000 <= virt_alloc_ptr m;
  hr_page : virt_alloc_ptr m mod 4096 = 0;
  hr_hi : virt_alloc_ptr m + 4096 * pages < 4294967296;
  hr_private : private_pages m (virt_alloc_ptr m) pages;
  hr_static : 0 <= static_alloc_ptr m /\ static_alloc_ptr m + 4096 * statics <= static_alloc_limit m < 4294967296
}.

Lemma get_physical_ok m va e : memory_wf m -> is_u32 va -> entry m va = Some e -> get_physical va m = Some (page_of e, m).
Proof.
  intros Hwf Hva He. unfold get_physical, kbind, kget.
  assert ((get_pte m va =? 0) = false) as ->.
  { apply Z.eqb_neq. rewrite get_pte_eq by done. unfold is_u32 in Hva. zdm. }
  by rewrite (vload_entry _ _ _ Hwf Hva He).
Qed.

(** [new_user_process] makes the new address space [m'] of frame [n]. *)
Record process_made (nullfile : Z) (k : kernel) m (pid n : Z) (k' : kernel) m' : Prop := {
  pm_wf : memory_wf m';
  pm_low : low_used m';
  pm_frame : 0 <= n < 1048576 /\ bit_used (page_allocator m) n = false /\ bit_used (page_allocator m') n = true;
  pm_more : more_used m m';
  pm_left : forall x, frames_left m (x + 2) -> frames_left m' x;
  pm_cr3 : cr3 m' = 4096 * n /\ p_cr3 (procs k' pid) = 4096 * n /\ cr3_reg k' = 4096 * n;
  pm_entry : forall a, is_u32 a -> a / 4194304 <> 1 ->
    entry m' a = if Z.testbit (pde m (a / 4194304)) 8 then entry m a else None;
  pm_pde : forall i, 0 <= i < 1024 -> i <> 1 -> pme_present (pde m' i) = true -> Z.testbit (pde m' i) 8 = true /\ pde m' i = pde m i;
  pm_data : keeps_data m m';
  pm_ptrs : virt_alloc_ptr m' = virt_alloc_ptr m + 4096 /\ static_alloc_ptr m' = static_alloc_ptr m + 4096 /\
    static_alloc_limit m' = static_alloc_limit m /\ page_copy_ptr m' = page_copy_ptr m;
  pm_proc : proc_id k' = pid /\ num_procs k' = num_procs k +w 1 /\ threads k' = threads k /\ thisThread k' = thisThread k /\
    (forall q, q <> pid -> procs k' q = procs k q);
  pm_new : env (procs k' pid) = static_alloc_ptr m /\ userEnv (procs k' pid) = 0 /\
    files (procs k' pid) 0 = nullfile /\ files (procs k' pid) 1 = files (procs k 0) 1 /\
    thread_index (procs k' pid) = thread_index (procs k pid) /\
    num_running_threads (procs k' pid) = num_running_threads (procs k pid)
}.

(** The frame of one new page. *)
Lemma new_page_frame m v m1 n ts : memory_wf m -> mapped m v PAGE_USER_DATA 1 m1 [n] ts -> allocated m m1 [n] ts ->
  is_u32 v -> v mod 4096 = 0 -> 0 <= n < 1048576 -> entry m1 v = Some (Z.lor (4096 * n) PAGE_USER_DATA) ->
  get_physical v m1 = Some (4096 * n, m1) /\ walk m1 v = Some (4096 * n) /\ bit_used (page_allocator m) n = false /\
  bit_used (page_allocator m1) n = true /\ ~ is_table m1 n.
Proof.
  intros Hwf Hmap Hall Hv Hvm Hn He. pose proof (mp_wf _ _ _ _ _ _ _ Hmap) as Hwf1.
  destruct (entry_split (4096 * n) PAGE_USER_DATA) as (S1 & S2 & S3 & _);
    [unfold is_u32; lia|by rewrite Z.mul_comm, Z.mod_mul|vm_compute; split; congruence|].
  assert (bit_used (page_allocator m) n = false) as Hfree.
  { apply (mp_fresh _ _ _ _ _ _ _ Hmap). apply elem_of_app. left. by apply list_elem_of_singleton. }
  split; [by rewrite (get_physical_ok m1 v _ Hwf1 Hv He), S1|]. split; [|split; [exact Hfree|split]].
  - rewrite walk_entry, He by done. cbn [mbind option_bind]. unfold entry_target. rewrite S1, S2.
    change (Z.testbit PAGE_USER_DATA 0) with true. cbn iota. f_equal. lia.
  - destruct Hall as (_ & _ & ->); [|lia]. unfold frame_used. apply orb_true_iff. right. apply bool_decide_eq_true.
    apply elem_of_app. left. by apply list_elem_of_singleton.
  - intros Ht. destruct (mapped_tables m v PAGE_USER_DATA 1 m1 [n] ts n ltac:(vm_compute; split; congruence) Hmap Ht) as [Ht'|Hin].
    + by apply (free_not_table m n).
    + pose proof (mp_nodup _ _ _ _ _ _ _ Hmap) as Hnd. cbn [app] in Hnd. by inversion_clear Hnd.
Qed.

Lemma new_user_process_ok nullfile k m pid :
  memory_wf m -> low_used m -> frames_left m 34 -> heap_room m 1 1 ->
  0 < pid < MAX_PROCS -> p_cr3 (procs k pid) = 0 -> (forall q, 0 <= q < pid -> p_cr3 (procs k q) <> 0) ->
  exists n k' m', new_user_process nullfile k m = Some (Some pid, k', m') /\ process_made nullfile k m pid n k' m'.
Proof.
  intros Hwf Hlow Hleft [Hlo Hvm Hhi Hpriv Hst] Hpid Hp0 Hpq. unfold new_user_process.
  rewrite (free_process_first _ 0 k pid) by (done || (unfold MAX_PROCS in *; lia)).
  destruct (Z.eqb_spec pid 0) as [|_]; [lia|]. unfold virt_alloc_page.
  set (v := virt_alloc_ptr m) in *.
  destruct (virt_alloc_pages_ok m 1 PAGE_USER_DATA Hwf Hlow) as (m1 & fs & ts & -> & Hmap & Hall & Hl & Ev & Es & El & Ec);
    [lia|lia|done|lia|vm_compute; split; congruence|done|lia|exact Hleft|]. fold v in Hmap, Ev |- *.
  destruct fs as [|n [|]]; [done| |cbn in Hl; lia]. cbn [mbind option_bind].
  destruct (mapped_page m v PAGE_USER_DATA 1 m1 [n] ts 0 n) as (Hv & Hn1 & He & Hn); try done; try lia.
  cbn [Z.of_nat] in *. rewrite Z.mul_0_r, Z.add_0_r in *.
  pose proof (mp_wf _ _ _ _ _ _ _ Hmap) as Hwf1.
  destruct (new_page_frame m v m1 n ts Hwf Hmap Hall Hv Hvm Hn He) as (-> & Hw & Hfree & Hused & Hnt). cbn [mbind option_bind].
  assert (0 <= PAGE_USER_DATA < 4096) as Hattr by (vm_compute; split; congruence).
  destruct (copy_directory_ok m1 v n Hwf1 Hv Hvm Hw Hnt) as (m2 & -> & Hc). cbn [mbind option_bind].
  assert (walk m2 (v + 4 * PDIR_SELF_INDEX) = Some (4096 * n + 4 * PDIR_SELF_INDEX)) as Hw2.
  { destruct Hc as (Hst2 & _). change (4 * PDIR_SELF_INDEX) with 4.
    rewrite (same_tables_walk m1 m2) by (done || (unfold is_u32 in *; zdm)). apply walk_in_page; (done || lia). }
  unfold vstore. rewrite Hw2. cbn [mbind option_bind].
  fold (set_word m2 (4096 * n + 4 * PDIR_SELF_INDEX) (Z.lor (4096 * n) PAGE_KERNEL_DATA)).
  pose proof (new_space_ok m1 n m2 Hwf1 Hc Hnt Hused Hn) as Hns. unfold with_cr3 in Hns.
  set (m3 := {| phys := _; cr3 := 4096 * n |}) in *. destruct Hns as [Hwf3 Hcr3 Hal3 (H1 & H2 & H3 & H4) Hpde3 Hent3 Hph3].
  rewrite (static_page m3 (static_alloc_ptr m)) by (clearbody m3; lia). cbn [mbind option_bind].
  do 3 eexists. split; [reflexivity|]. rewrite Ev, Es, El, Ec in *.
  assert (page_allocator (with_ptrs m3 (virt_alloc_ptr m3) (static_alloc_ptr m + 4096)) = page_allocator m1) as Ea by exact Hal3.
  split; rewrite ?Ea; cbn [procs proc_id num_procs threads thisThread cr3_reg with_ptrs virt_alloc_ptr static_alloc_ptr static_alloc_limit page_copy_ptr]; rewrite ?upd_same.
  - clearbody m3. destruct Hwf3. by split.
  - unfold low_used. rewrite Ea. by apply (allocated_low m m1 [n] ts).
  - done.
  - intros b Hb Hub. rewrite Ea. by apply (allocated_more m m1 [n] ts).
  - intros x Hx. unfold frames_left. rewrite Ea. by apply (frames_left_after m v PAGE_USER_DATA 1 m1 [n] ts).
  - done.
  - intros a Ha Hna. change (entry (with_ptrs m3 _ _) a) with (entry m3 a). rewrite Hent3 by done.
    apply (mapped_global m v PAGE_USER_DATA 1 m1 [n] ts); try done; lia.
  - intros i Hi Hni. change (pde (with_ptrs m3 _ _) i) with (pde m3 i). rewrite Hpde3, dir_copy_present by done.
    intros [Hg Hp]%andb_true_iff. unfold dir_copy. rewrite Hg. split; [done|].
    destruct (mp_pde _ _ _ _ _ _ _ Hmap i Hi) as [|(_ & _ & t & Hin & E)]; [done|]. exfalso. rewrite E, Z.lor_spec in Hg.
    destruct (mp_fresh _ _ _ _ _ _ _ Hmap t) as [Htr _]; [apply elem_of_app; by right|].
    replace (4096 * t) with (t * 2 ^ 12) in Hg by lia. by rewrite Z.mul_pow2_bits_low in Hg by lia.
  - intros a Ha Hub Hnta. cbn [with_ptrs phys]. rewrite Hph3.
    + by apply (mapped_data m v PAGE_USER_DATA 1 m1 [n] ts).
    + intros E. rewrite E in Hub. congruence.
  - clearbody m3. lia.
  - split; [done|]. split; [done|]. split; [done|]. split; [done|]. intros q Hq. by rewrite upd_other.
  - done.
Qed.

(** ** The stacks of a new thread *)

Lemma free_thread_first n i k pid t :
  i <= t < i + Z.of_nat n -> runState (threads k (pid * MAX_PROC_THREADS + t)) = NULL ->
  (forall q, i <= q < t -> runState (threads k (pid * MAX_PROC_THREADS + q)) <> NULL) -> free_thread n pid i k = Some t.
Proof.
  revert i. induction n as [|n IH]; intros i Hi Hp Hq; [lia|]. cbn [free_thread]. case_bool_decide as E.
  - destruct (decide (i = t)) as [->|]; [done|]. by destruct (Hq i); [lia|].
  - apply IH; [|done|intros; apply Hq; lia]. destruct (decide (i = t)) as [->|]; [done|lia].
Qed.

(** [pages] pages from [v] on are mapped with [attr] to the frames [fs]. *)
Definition maps m (v attr : Z) fs : Prop :=
  forall i f, fs !! i = Some f -> entry m (v + 4096 * Z.of_nat i) = Some (Z.lor (4096 * f) attr).

(** [m'] has the user stack of a new thread on the frames [fs] from [v] on, its
    stack for system calls on the frames [gs] behind, and the tables [ts] they
    needed. *)
Record stacks_made m (v : Z) fs gs ts m' : Prop := {
  sm_wf : memory_wf m';
  sm_len : length fs = 16%nat /\ length gs = 16%nat;
  sm_fresh : NoDup (fs ++ gs) /\ forall f, f ∈ fs ++ gs ++ ts -> 0 <= f < 1048576 /\ bit_used (page_allocator m) f = false;
  sm_user : maps m' v PAGE_USER_DATA fs;
  sm_sys : maps m' (v + 65536) PAGE_KERNEL_DATA gs;
  sm_used : forall b, 0 <= b -> bit_used (page_allocator m') b = bit_used (page_allocator m) b || bool_decide (b ∈ fs ++ gs ++ ts);
  sm_keeps : forall a, is_u32 a -> a / 4194304 <> 1 -> ~ v <= a < v + 131072 -> entry m a <> None -> entry m' a = entry m a;
  sm_pde : forall i, 0 <= i < 1024 -> pde m' i = pde m i \/ exists a, v <= a < v + 131072 /\ a / 4194304 = i;
  sm_cr3 : cr3 m' = cr3 m;
  sm_data : keeps_data m m';
  sm_ptrs : virt_alloc_ptr m' = v + 131072 /\ static_alloc_ptr m' = static_alloc_ptr m /\
    static_alloc_limit m' = static_alloc_limit m /\ page_copy_ptr m' = page_copy_ptr m
}.

(** The thread control block [new_user_thread] makes. *)
Record thread_made (function v : Z) (th : Thread) : Prop := {
  tm_run : runState th = RUNNING;
  tm_stack : stack th = v /\ stack_bytes th = 65536;
  tm_sys : syscall_stack th = v + 65536 /\ syscall_stack_bytes th = 65536 /\ syscall_esp th = v + 131072;
  tm_state : cpuState th = v + 65536 - 64;
  tm_int : intParams th = {| eip := function; cs := 0x1B; eflags := 0x202; esp3 := v + 65536 - 96; ss3 := 0x23 |};
  tm_wait : lock_next th = None /\ signal_wait th = None
}.

Lemma frames_left_le m n n' : n <= n' -> frames_left m n' -> frames_left m n.
Proof. intros Hn (pool & H1 & H2 & H3). exists pool. split; [done|]. split; [done|lia]. Qed.

Lemma mapped_maps m v attr pages m' fs ts :
  v mod 4096 = 0 -> 0x800000 <= v -> v + 4096 * pages <= 4294967296 -> mapped m v attr pages m' fs ts -> maps m' v attr fs.
Proof.
  intros Hvm Hlo Hhi Hmap i f Hf.
  by destruct (mapped_page m v attr pages m' fs ts i f) as (_ & _ & ? & _); try done; lia.
Qed.

(** The two allocations of [new_user_thread]. *)
Lemma two_stacks m :
  let v := virt_alloc_ptr m in
  memory_wf m -> low_used m -> frames_left m 96 -> heap_room m 32 0 ->
  exists m1 m' fs gs ts, virt_alloc_pages 16 PAGE_USER_DATA m = Some (v, m1) /\
    virt_alloc_pages 16 PAGE_KERNEL_DATA m1 = Some (v + 65536, m') /\ stacks_made m v fs gs ts m'.
Proof.
  intros v Hwf Hlow Hleft [Hlo Hvm Hhi _ _]. fold v in Hlo, Hvm, Hhi.
  assert (0 <= PAGE_USER_DATA < 4096) as Hu by (vm_compute; split; congruence).
  assert (0 <= PAGE_KERNEL_DATA < 4096) as Hk by (vm_compute; split; congruence).
  destruct (virt_alloc_pages_ok m 16 PAGE_USER_DATA Hwf Hlow) as (m1 & fs & ts & E1 & Hmap & Hall & Hl & Ev & Es & El & Ec);
    [lia|lia|done|lia|done|done|lia|by apply (frames_left_le m _ 96)|]. fold v in E1, Hmap, Ev.
  pose proof (mp_wf _ _ _ _ _ _ _ Hmap) as Hwf1.
  destruct (virt_alloc_pages_ok m1 16 PAGE_KERNEL_DATA Hwf1) as (m2 & gs & us & E2 & Hmap2 & Hall2 & Hl2 & Ev2 & Es2 & El2 & Ec2);
    [by apply (allocated_low m m1 fs ts)|lia|lia|zdm|lia|done|done|lia|by apply (frames_left_after m v PAGE_USER_DATA 16 m1 fs ts)|].
  rewrite Ev in *. change (4096 * 16) with 65536 in *.
  assert (forall b, 0 <= b -> bit_used (page_allocator m1) b = bit_used (page_allocator m) b || bool_decide (b ∈ fs ++ ts)) as Hu1
    by apply Hall.
  exists m1, m2, fs, gs, (ts ++ us). split; [exact E1|]. split; [exact E2|]. split.
  - apply (mp_wf _ _ _ _ _ _ _ Hmap2).
  - lia.
  - assert (forall f, f ∈ gs ++ us -> (0 <= f < 1048576 /\ bit_used (page_allocator m) f = false) /\ f ∉ fs ++ ts) as Hgs.
    { intros f Hf. destruct (mp_fresh _ _ _ _ _ _ _ Hmap2 f Hf) as [Hr Hb]. rewrite Hu1 in Hb by lia.
      apply orb_false_elim in Hb as [Hb Hn%bool_decide_eq_false]. done. }
    split.
    + pose proof (mp_nodup _ _ _ _ _ _ _ Hmap) as (N1 & _ & _)%NoDup_app.
      pose proof (mp_nodup _ _ _ _ _ _ _ Hmap2) as (N2 & _ & _)%NoDup_app.
      apply NoDup_app. split; [done|]. split; [|done]. intros f Hf Hg. destruct (Hgs f) as [_ Hn].
      * apply elem_of_app. by left.
      * apply Hn, elem_of_app. by left.
    + intros f Hf. rewrite !elem_of_app in Hf. destruct (decide (f ∈ fs ++ ts)) as [Hin|Hn].
      * by apply (mp_fresh _ _ _ _ _ _ _ Hmap).
      * apply Hgs. rewrite elem_of_app in *. tauto.
  - intros i f Hf. pose proof (lookup_lt_Some _ _ _ Hf) as Hi.
    destruct (mapped_page m v PAGE_USER_DATA 16 m1 fs ts i f) as (Ha & Hn1 & He & _); try done; try lia.
    rewrite (mapped_keeps m1 (v + 65536) PAGE_KERNEL_DATA 16 m2 gs us); try done; try lia; [zdm|congruence].
  - apply (mapped_maps m1 _ _ 16 m2 gs us); try done; try lia. zdm.
  - intros b Hb. destruct Hall2 as (_ & _ & ->); [|done]. unfold frame_used. rewrite Hu1 by done.
    rewrite <- orb_assoc. f_equal. rewrite <- bool_decide_or. apply bool_decide_ext. rewrite !elem_of_app. tauto.
  - intros a Ha Hn1 Hout He.
    assert (entry m1 a = entry m a) as E by (apply (mapped_keeps m v PAGE_USER_DATA 16 m1 fs ts); try done; lia).
    rewrite <- E. apply (mapped_keeps m1 (v + 65536) PAGE_KERNEL_DATA 16 m2 gs us); try done; [zdm|lia|congruence].
  - intros i Hi. destruct (mp_pde _ _ _ _ _ _ _ Hmap2 i Hi) as [->|(_ & (j & Hj & Ej) & _)].
    + destruct (mp_pde _ _ _ _ _ _ _ Hmap i Hi) as [|(_ & (j & Hj & Ej) & _)]; [by left|right].
      exists (v + 4096 * j). split; [lia|exact Ej].
    + right. exists (v + 65536 + 4096 * j). split; [lia|exact Ej].
  - rewrite (mp_cr3 _ _ _ _ _ _ _ Hmap2). apply (mp_cr3 _ _ _ _ _ _ _ Hmap).
  - intros a Ha Hb Hnt. rewrite (mapped_data m1 _ PAGE_KERNEL_DATA 16 m2 gs us Hk Hmap2).
    + by apply (mapped_data m v PAGE_USER_DATA 16 m1 fs ts).
    + done.
    + by apply (allocated_more m m1 fs ts); [|zdm|].
    + intros Ht. destruct (mapped_tables _ _ _ _ _ _ _ _ Hu Hmap Ht) as [|Hin]; [done|].
      destruct (mp_fresh _ _ _ _ _ _ _ Hmap (a / 4096)) as [_ Hf]; [apply elem_of_app; by right|congruence].
  - lia.
Qed.

Lemma new_user_thread_ok function k m i :
  let pid := proc_id k in
  let v := virt_alloc_ptr m in
  memory_wf m -> low_used m -> frames_left m 96 -> heap_room m 32 0 ->
  0 <= i < MAX_PROC_THREADS -> runState (threads k (pid * MAX_PROC_THREADS + i)) = NULL ->
  (forall q, 0 <= q < i -> runState (threads k (pid * MAX_PROC_THREADS + q)) <> NULL) ->
  let t := pid * MAX_PROC_THREADS + i in
  exists fs gs ts k' m', new_user_thread function 0 0 k m = Some (Some t, k', m') /\ stacks_made m v fs gs ts m' /\
    thread_made function v (threads k' t) /\ (forall u, u <> t -> threads k' u = threads k u) /\
    procs k' = upd (procs k) pid (with_running (procs k pid) (num_running_threads (procs k pid) +w 1)) /\
    num_procs k' = num_procs k /\ proc_id k' = pid /\ thisThread k' = thisThread k /\ cr3_reg k' = cr3_reg k.
Proof.
  intros pid v Hwf Hlow Hleft Hroom Hi Hnull Hfirst t.
  destruct (two_stacks m Hwf Hlow Hleft Hroom) as (m1 & m' & fs & gs & ts & E1 & E2 & Hm).
  destruct Hroom as [Hlo Hvm Hhi _ _]. fold v in E1, E2, Hlo, Hvm, Hhi, Hm.
  exists fs, gs, ts. unfold new_user_thread. fold pid.
  rewrite (free_thread_first _ 0 k pid i) by (done || (unfold MAX_PROC_THREADS in *; lia)). fold t.
  cbn [Z.eqb]. change ((16 * 4096 +w 4095) / 4096) with 16. rewrite E1. cbn [mbind option_bind]. rewrite E2. cbn [mbind option_bind].
  do 2 eexists. split; [reflexivity|]. split; [exact Hm|].
  cbn [add_running set_process set_thread_at threads procs num_procs proc_id thisThread cr3_reg]. rewrite upd_same.
  split; [|split; [|done]].
  - split; cbn.
    + done.
    + done.
    + rewrite (u32_small (_ + 16 * 4096)) by (unfold is_u32; lia). lia.
    + rewrite u32_small by (unfold is_u32, sizeof_ThreadState; lia). unfold sizeof_ThreadState. lia.
    + f_equal. unfold sizeof_ThreadState. rewrite !u32_small; unfold is_u32; rewrite ?u32_small; unfold is_u32; lia.
    + done.
  - intros u Hu. by apply upd_other.
Qed.
End spaces.
