(* ===== verification/Scheduler.v ===== *)
(** * The scheduler: [system/scheduler.cpp]

    The timer interrupt picks a process, then one of its threads.  The cr3 load
    of [set_proc] writes [cr3_reg]; the on-screen tag of [kprint_process_tag] and
    the APIC acknowledgement are left out. *)
From S2P Require Import Prelude Queue Memory Process.

(** The loop of [get_next_proc]: round [i] of [n]. *)
Fixpoint next_proc_loop (n : nat) (i : Z) (k : kernel) : option (Z * kernel) :=
  match n with
  | O => Some (0, k)
  | S n =>
      let next_proc_id := (u32 (proc_id k + i)) mod num_procs k in
      k ← notify next_proc_id MSG_MONITOR 0 k;
      if 0 <? num_running_threads (procs k next_proc_id) then Some (next_proc_id, k)
      else next_proc_loop n (i + 1) k
  end.

Definition get_next_proc (k : kernel) : option (Z * kernel) :=
  k ← notify 0 MSG_MONITOR 0 k;
  next_proc_loop (Z.to_nat (num_procs k - 1)) 1 k.

Definition set_proc (next_proc_id : Z) (k : kernel) : Z * kernel :=
  let cr3 := if negb (next_proc_id =? 0) then
               (if negb (cr3_reg k =? p_cr3 (procs k next_proc_id)) then p_cr3 (procs k next_proc_id) else cr3_reg k)
             else cr3_reg k in
  (proc_id k,
   {| procs := procs k; threads := threads k; num_procs := num_procs k; proc_id := next_proc_id;
      thisThread := thisThread k; esp0 := esp0 k; cr3_reg := cr3 |}).

(** The loop of [get_next_thread]: the index of the first running thread. *)
Fixpoint next_thread_loop (n : nat) (i : Z) (k : kernel) : option Z :=
  match n with
  | O => None
  | S n =>
      let next_index := i mod MAX_PROC_THREADS in
      if bool_decide (runState (threads k (proc_id k * MAX_PROC_THREADS + next_index)) = RUNNING)
      then Some next_index else next_thread_loop n (i + 1) k
  end.

Definition get_next_thread (k : kernel) : Z * kernel :=
  let this := procs k (proc_id k) in
  match next_thread_loop (Z.to_nat MAX_PROC_THREADS) (s32 (thread_index this + 1)) k with
  | Some i => (i, k)
  | None =>
      let k := set_process k (proc_id k) (with_running this 0) in
      if proc_id k =? 0 then (0, k) else (thread_index this, k)
  end.

Definition set_thread (next_index : Z) (k : kernel) : Z * kernel :=
  let this := procs k (proc_id k) in
  let t := proc_id k * MAX_PROC_THREADS + next_index in
  (thread_index this,
   {| procs := upd (procs k) (proc_id k) (with_index this next_index); threads := threads k;
      num_procs := num_procs k; proc_id := proc_id k; thisThread := t;
      esp0 := stack (threads k t) +w stack_bytes (threads k t); cr3_reg := cr3_reg k |}).

Definition timer_interrupt (k : kernel) : option kernel :=
  '(pid, k) ← get_next_proc k;
  let '(_, k) := set_proc pid k in
  let '(tid, k) := get_next_thread k in
  let '(_, k) := set_thread tid k in
  Some k.

(** ** Round robin *)

Section sched.
Implicit Types (k : kernel).

Definition thread_running k (pid i : Z) : Prop :=
  runState (threads k (pid * MAX_PROC_THREADS + i)) = RUNNING.

(** How many indices the search tries before index [t], from the current one. *)
Definition turns (cur t : Z) : Z := (t - cur - 1) mod MAX_PROC_THREADS.

Lemma next_thread_loop_spec n i k :
  0 <= i ->
  match next_thread_loop n i k with
  | Some r => exists d, 0 <= d < Z.of_nat n /\ r = (i + d) mod MAX_PROC_THREADS /\
      thread_running k (proc_id k) r /\
      forall e, 0 <= e < d -> ~ thread_running k (proc_id k) ((i + e) mod MAX_PROC_THREADS)
  | None => forall e, 0 <= e < Z.of_nat n -> ~ thread_running k (proc_id k) ((i + e) mod MAX_PROC_THREADS)
  end.
Proof.
  revert i. induction n as [|n IH]; intros i Hi; cbn [next_thread_loop]; [intros; lia|].
  case_bool_decide as E.
  - exists 0. rewrite Z.add_0_r. split_and!; [lia|lia|done|done|intros; lia].
  - specialize (IH (i + 1) ltac:(lia)). destruct (next_thread_loop n (i + 1) k) as [r|].
    + destruct IH as (d & Hd & -> & Hr & Hmin). exists (d + 1).
      replace (i + (d + 1)) with (i + 1 + d) by lia. split_and!; [lia|lia|done|done|].
      intros e He. destruct (decide (e = 0)) as [->|]; [by rewrite Z.add_0_r|].
      replace (i + e) with (i + 1 + (e - 1)) by lia. apply Hmin. lia.
    + intros e He. destruct (decide (e = 0)) as [->|]; [by rewrite Z.add_0_r|].
      replace (i + e) with (i + 1 + (e - 1)) by lia. apply IH. lia.
Qed.

Lemma turns_range cur t : 0 <= turns cur t < MAX_PROC_THREADS.
Proof. unfold turns. apply Z.mod_pos_bound. done. Qed.

Lemma turns_inv cur t : 0 <= t < MAX_PROC_THREADS -> (cur + 1 + turns cur t) mod MAX_PROC_THREADS = t.
Proof. unfold turns, MAX_PROC_THREADS. intros. zdm. Qed.
End sched.

(** C30: the threads of a process take turns: [get_next_thread] answers the first
    running thread after the current one in cyclic order, which is the current
    one only when no other runs; when a thread [t] runs, the answer is [t] or
    strictly closer to [t], so a running thread waits at most 15 choices of its
    process.  When none runs, the current thread (thread 0 of the kernel) stays
    and the count of running threads is reset. *)
Theorem round_robin k :
  let cur := thread_index (procs k (proc_id k)) in
  0 <= cur < MAX_PROC_THREADS ->
  let '(r, k') := get_next_thread k in
  0 <= r < MAX_PROC_THREADS /\
  ((thread_running k (proc_id k) r /\ k' = k /\
    (forall t, 0 <= t < MAX_PROC_THREADS -> thread_running k (proc_id k) t ->
       turns cur r <= turns cur t /\ (r = t \/ turns r t < turns cur t)))
   \/ ((forall t, 0 <= t < MAX_PROC_THREADS -> ~ thread_running k (proc_id k) t) /\
       r = (if proc_id k =? 0 then 0 else cur) /\
       k' = set_process k (proc_id k) (with_running (procs k (proc_id k)) 0))).
Proof.
  intros cur Hcur. unfold get_next_thread. fold cur.
  assert (s32 (cur + 1) = cur + 1) as -> by (apply s32_small; unfold is_s32, MAX_PROC_THREADS in *; lia).
  pose proof (next_thread_loop_spec (Z.to_nat MAX_PROC_THREADS) (cur + 1) k ltac:(lia)) as H.
  destruct (next_thread_loop _ _ k) as [r|].
  - destruct H as (d & Hd & -> & Hrun & Hmin). split; [apply Z.mod_pos_bound; done|]. left. split_and!; [done..|].
    intros t Ht Htr.
    assert (d <= turns cur t) as Hle.
    { destruct (Z.le_gt_cases d (turns cur t)) as [|Hlt]; [done|]. exfalso.
      apply (Hmin (turns cur t)); [pose proof (turns_range cur t); lia|]. by rewrite turns_inv. }
    change (Z.of_nat (Z.to_nat MAX_PROC_THREADS)) with 16 in Hd.
    pose proof (turns_inv cur t Ht). unfold turns, MAX_PROC_THREADS in *. split; [zdm|].
    destruct (decide ((cur + 1 + d) mod 16 = t)); [by left|right]. zdm.
  - assert (forall t, 0 <= t < MAX_PROC_THREADS -> ~ thread_running k (proc_id k) t) as Hno.
    { intros t Ht. rewrite <- (turns_inv cur t Ht). apply H. apply turns_range. }
    cbn [set_process proc_id]. destruct (Z.eqb_spec (proc_id k) 0); (split; [unfold MAX_PROC_THREADS in *; lia|]); by right.
Qed.

Lemma round_robin_witness :
  let '(r, k') := get_next_thread small_kernel in
  0 <= r < MAX_PROC_THREADS /\ thread_running small_kernel 1 1.
Proof.
  pose proof (round_robin small_kernel) as H. cbv zeta in H.
  specialize (H ltac:(unfold MAX_PROC_THREADS; cbn; lia)).
  destruct (get_next_thread small_kernel) as [r k']. split; [apply H|done].
Defined.
