(* ===== verification/Interrupts.v ===== *)
(** * Interrupts: [system/interrupts.cpp], [system/include/interrupts.h]

    The descriptor table and the handlers of the exceptions.  The addresses of the
    handlers are chosen by the linker; the code around a handler is in [Switch]. *)
From Stdlib Require Import String.
From S2P Require Import Prelude.

(** ** Descriptors *)

Record InterruptDescriptor := {
  low_offset : Z;
  code_segment : Z;
  zero : Z;
  type : Z;
  high_offset : Z
}.

Definition new_InterruptDescriptor : InterruptDescriptor :=
  {| low_offset := 0; code_segment := 0; zero := 0; type := 0; high_offset := 0 |}.

Definition set_address (addr : Z) (d : InterruptDescriptor) : InterruptDescriptor :=
  {| low_offset := u16 (Z.land addr 0xFFFF); code_segment := code_segment d; zero := zero d; type := type d;
     high_offset := u16 (addr >>w 16) |}.

(** [type] and [code_segment] are set first; [cs] is 0x08 by default. *)
Definition set_handler (address cs : Z) (d : InterruptDescriptor) : InterruptDescriptor :=
  set_address address
    {| low_offset := low_offset d; code_segment := u16 cs; zero := zero d; type := 142; high_offset := high_offset d |}.

(** The eight bytes of a descriptor, which the processor reads, in order. *)
Definition descriptor_bytes (d : InterruptDescriptor) : list Z :=
  [low_offset d mod 256; low_offset d / 256; code_segment d mod 256; code_segment d / 256; zero d; type d;
   high_offset d mod 256; high_offset d / 256].

(** ** The table *)

Inductive exception :=
  | unhandled_exception | divide_zero_interrupt | debug_interrupt | nmi_interrupt | breakpoint_interrupt
  | overflow_interrupt | bounds_interrupt | invalid_opcode_interrupt | coprocessor_interrupt
  | doublefault_interrupt | coprocessor_overrun_interrupt | tss_interrupt | segment_interrupt | stack_interrupt
  | gpf_interrupt.

(** What a handler prints: its message, then the saved parameters or registers;
    after that it spins for ever. *)
Inductive report := Message (s : string) | DumpParams | DumpState.

Definition exception_inner (e : exception) : list report :=
  match e with
  | unhandled_exception => [Message "UNCAUGHT EXCEPTION"; DumpState]
  | divide_zero_interrupt => [Message "DIVIDE BY ZERO INTERRUPT"]
  | debug_interrupt => [Message "DEBUG INTERRUPT"]
  | nmi_interrupt => [Message "NON MASKABLE INTERRUPT"]
  | breakpoint_interrupt => [Message "BREAKPOINT INTERRUPT"]
  | overflow_interrupt => [Message "OVERFLOW INTERRUPT"]
  | bounds_interrupt => [Message "BOUNDS INTERRUPT"]
  | invalid_opcode_interrupt => [Message "INVALID OPCODE"; DumpParams; DumpState]
  | coprocessor_interrupt => [Message "CO PROCESSOR NOT AVAILABLE INTERRUPT"]
  | doublefault_interrupt => [Message "DOUBLE FAULT INTERRUPT"]
  | coprocessor_overrun_interrupt => [Message "COPROCESSOR OVERRUN INTERRUPT"]
  | tss_interrupt => [Message "INVALID TSS INTERRUPT"]
  | segment_interrupt => [Message "SEGMENT NOT PRESENT INTERRUPT"]
  | stack_interrupt => [Message "STACK SEGMENT FAULT INTERRUPT"]
  | gpf_interrupt => [Message "GENERAL PROTECTION INTERRUPT"; DumpParams; DumpState]
  end%string.

Definition IDT := list InterruptDescriptor.
Definition new_IDT : IDT := replicate 256 new_InterruptDescriptor.

(** [idt->table[i].set_handler(address)]. *)
Definition idt_set (i address : Z) (t : IDT) : option IDT :=
  d ← arr_get t i; arr_set t i (set_handler address 8 d).

Record IDTR := { limit : Z; base_address : Z }.

(** The handlers of the vectors 0x00 to 0x0D, in the order they are stored. *)
Definition exception_table : list (Z * exception) :=
  [(0x00, divide_zero_interrupt); (0x01, debug_interrupt); (0x02, nmi_interrupt); (0x03, breakpoint_interrupt);
   (0x04, overflow_interrupt); (0x05, bounds_interrupt); (0x06, invalid_opcode_interrupt);
   (0x07, coprocessor_interrupt); (0x08, doublefault_interrupt); (0x09, coprocessor_overrun_interrupt);
   (0x0A, tss_interrupt); (0x0B, segment_interrupt); (0x0C, stack_interrupt); (0x0D, gpf_interrupt)].

Fixpoint set_exceptions (address : exception -> Z) (l : list (Z * exception)) (t : IDT) : option IDT :=
  match l with
  | [] => Some t
  | (i, e) :: l => t ← idt_set i (address e) t; set_exceptions address l t
  end.

(** [init_interrupts]: the table and the operand of [lidt]. *)
Definition init_interrupts (address : exception -> Z) : option (IDT * IDTR) :=
  let idtr := {| limit := u16 (256 * 8 - 1); base_address := 0x500 |} in
  let num_interrupts := (256 * 8) / 8 in
  t ← for_each (Z.to_nat num_interrupts) 0 (fun i => idt_set i (address unhandled_exception)) new_IDT;
  t ← set_exceptions address exception_table t;
  Some (t, idtr).

(** What the processor takes from a descriptor: an interrupt gate that is
    present, for ring 0, with the offset made of its two halves. *)
Definition gate_offset (d : InterruptDescriptor) : Z := low_offset d + Z.shiftl (high_offset d) 16.
Definition gate_present (d : InterruptDescriptor) : bool := Z.testbit (type d) 7.
Definition gate_dpl (d : InterruptDescriptor) : Z := Z.land (Z.shiftr (type d) 5) 3.
Definition gate_kind (d : InterruptDescriptor) : Z := Z.land (type d) 31.

Definition is_gate (d : InterruptDescriptor) (address : Z) : Prop :=
  gate_present d = true /\ gate_dpl d = 0 /\ gate_kind d = 14 /\ code_segment d = 8 /\ zero d = 0 /\
  gate_offset d = address.

(** A table the processor can use: every vector is such a gate. *)
Definition idt_ok (t : IDT) (address : Z -> Z) : Prop :=
  length t = 256%nat /\
  forall i, 0 <= i < 256 -> exists d, arr_get t i = Some d /\ is_gate d (address i).

Lemma set_handler_gate address d :
  is_u32 address -> zero d = 0 -> is_gate (set_handler address 8 d) address.
Proof.
  intros Ha Hz. unfold is_gate, gate_offset. cbn [set_handler set_address low_offset high_offset zero code_segment].
  do 4 (split; [done|]). split; [done|].
  change 0xFFFF with (Z.ones 16). rewrite Z.land_ones, Z.shiftl_mul_pow2 by lia.
  change (16 mod 32) with 16. rewrite Z.shiftr_div_pow2 by lia.
  unfold u16, is_u32 in *. zdm.
Qed.

Lemma idt_set_inv t i address t' :
  idt_set i address t = Some t' ->
  exists d, arr_get t i = Some d /\ arr_set t i (set_handler address 8 d) = Some t'.
Proof. unfold idt_set. destruct (arr_get t i) as [d|]; cbn; [eauto|done]. Qed.

(** The invariant of a table under construction: the vectors of [dom] are gates,
    the reserved byte of the others is still zero. *)
Definition idt_partial (t : IDT) (dom : Z -> Prop) (address : Z -> Z) : Prop :=
  length t = 256%nat /\
  forall i d, arr_get t i = Some d -> zero d = 0 /\ (dom i -> is_gate d (address i)).

Lemma idt_set_partial t dom f i a :
  idt_partial t dom f -> 0 <= i < 256 -> is_u32 a ->
  exists t', idt_set i a t = Some t' /\
    idt_partial t' (fun j => dom j \/ j = i) (fun j => if j =? i then a else f j).
Proof.
  intros [Hl Ht] Hi Ha. destruct (arr_get_Some t i) as [d Hd]; [lia|].
  unfold idt_set. rewrite Hd. cbn. rewrite arr_set_Some by lia.
  eexists. split; [done|]. split; [by rewrite length_insert|].
  intros j e He. rewrite (arr_get_set t i (set_handler a 8 d)) in He by (apply arr_set_Some; lia).
  case_decide as Hij; simplify_eq.
  - destruct (Ht _ _ Hd) as [Hz _]. rewrite Z.eqb_refl. split; [done|]. intros _. by apply set_handler_gate.
  - destruct (Ht _ _ He) as [Hz Hg]. split; [done|]. intros [Hj|Hj]; [|lia].
    destruct (Z.eqb_spec j i); [lia|]. by apply Hg.
Qed.

Lemma idt_partial_ok t dom f : (forall i, 0 <= i < 256 -> dom i) -> idt_partial t dom f -> idt_ok t f.
Proof.
  intros Hd [Hl Ht]. split; [done|]. intros i Hi. destruct (arr_get_Some t i) as [d Hg]; [lia|].
  exists d. split; [done|]. by apply (Ht _ _ Hg), Hd.
Qed.

Lemma idt_ok_partial t f : idt_ok t f -> idt_partial t (fun _ => True) f.
Proof.
  intros [Hl Ht]. split; [done|]. intros i d Hd. pose proof (arr_get_Some_1 _ _ _ Hd) as Hi.
  destruct (Ht i ltac:(lia)) as (e & He & Hg). simplify_eq. split; [apply Hg|done].
Qed.

(** A later [set_handler] keeps a usable table usable. *)
Lemma idt_set_ok t f i a :
  idt_ok t f -> 0 <= i < 256 -> is_u32 a ->
  exists t', idt_set i a t = Some t' /\ idt_ok t' (fun j => if j =? i then a else f j).
Proof.
  intros Ht Hi Ha. destruct (idt_set_partial t _ f i a (idt_ok_partial _ _ Ht) Hi Ha) as (t' & E & Hp).
  exists t'. split; [done|]. apply (idt_partial_ok t' _ _) in Hp; [done|]. intros. by left.
Qed.

(** The handler of a vector after [init_interrupts]. *)
Definition exception_at (i : Z) : exception :=
  match find (fun p => fst p =? i) exception_table with Some (_, e) => e | None => unhandled_exception end.

Lemma idt_ok_ext t f g : (forall i, 0 <= i < 256 -> f i = g i) -> idt_ok t f -> idt_ok t g.
Proof.
  intros H [Hl Ht]. split; [done|]. intros i Hi. destruct (Ht i Hi) as (d & Hd & Hg).
  exists d. split; [done|]. by rewrite <- H.
Qed.

Lemma set_exceptions_ok address l t f :
  (forall e, is_u32 (address e)) -> Forall (fun p => 0 <= fst p < 256) l -> idt_ok t f ->
  exists t', set_exceptions address l t = Some t' /\
    idt_ok t' (fun j => fold_left (fun f p => fun j => if j =? fst p then address (snd p) else f j) l f j).
Proof.
  intros Ha Hl. revert t f. induction Hl as [|[i e] l Hi Hl IH]; intros t f Ht; cbn [set_exceptions fold_left].
  - by exists t.
  - destruct (idt_set_ok t f i (address e) Ht Hi (Ha e)) as (t1 & -> & H1). cbn. apply (IH t1 _ H1).
Qed.

(** The table after [init_interrupts]. *)
Lemma init_interrupts_ok address :
  (forall e, is_u32 (address e)) ->
  exists t idtr, init_interrupts address = Some (t, idtr) /\
    limit idtr = 8 * 256 - 1 /\ idt_ok t (fun i => address (exception_at i)).
Proof.
  intros Ha. unfold init_interrupts.
  destruct (for_each_inv (fun i t => idt_partial t (fun j => 0 <= j < i) (fun _ => address unhandled_exception))
    (Z.to_nat ((256 * 8) / 8)) 0 (fun i => idt_set i (address unhandled_exception)) new_IDT) as (t & -> & Ht).
  - split; [done|]. intros i d Hd. unfold arr_get in Hd. destruct (0 <=? i); [|done].
    apply lookup_replicate in Hd as [-> _]. split; [done|lia].
  - intros j t Hj Ht. destruct (idt_set_partial _ _ _ j (address unhandled_exception) Ht) as (t' & E & Ht');
      [change (Z.of_nat (Z.to_nat ((256 * 8) / 8))) with 256 in Hj; lia|done|].
    exists t'. split; [done|]. destruct Ht' as [Hl Ht']. split; [done|]. intros i d Hd.
    destruct (Ht' i d Hd) as [Hz Hg]. split; [done|]. intros Hi. destruct (Z.eqb_spec i j); apply Hg; lia.
  - change (0 + Z.of_nat (Z.to_nat ((256 * 8) / 8))) with 256 in Ht. apply idt_partial_ok in Ht; [|done].
    destruct (set_exceptions_ok address exception_table t (fun _ => address unhandled_exception) Ha) as (t' & E & Ht'); [|exact Ht|].
    { unfold exception_table. repeat (constructor; [cbn [fst]; lia|]). constructor. }
    cbn [mbind option_bind]. rewrite E. cbn. do 2 eexists. split; [reflexivity|]. split; [done|].
    revert Ht'. apply idt_ok_ext. intros i Hi. unfold exception_at, exception_table. cbn [fold_left find fst snd].
    repeat match goal with |- context [i =? ?c] => destruct (Z.eqb_spec i c); [subst i; reflexivity|] end.
    repeat match goal with |- context [?c =? i] => destruct (Z.eqb_spec c i); [lia|] end. reflexivity.
Qed.
