(* ===== verification/Switch.v ===== *)
(** * Saving and restoring threads: the code around an interrupt handler

    [INTERRUPT_DEFINITION] of [system/include/interrupts.h], instruction by
    instruction, and what the processor does before and after it.  A thread's
    registers are pushed on its stack and popped from there when the scheduler
    comes back to it.

    Memory is seen through page directories: [vm d] is the memory in the address
    space of directory [d], and the addresses of [shared] are mapped alike by all
    of them, so that a store there is seen in every space. *)
From S2P Require Import Prelude Str Memory Queue Process Scheduler.

Record Cpu := {
  r_edi : Z; r_esi : Z; r_ebp : Z; r_esp : Z; r_ebx : Z; r_edx : Z; r_ecx : Z; r_eax : Z;
  r_eip : Z; r_cs : Z; r_eflags : Z; r_ss : Z; r_ds : Z
}.

Definition with_esp (c : Cpu) (e : Z) : Cpu :=
  {| r_edi := r_edi c; r_esi := r_esi c; r_ebp := r_ebp c; r_esp := e; r_ebx := r_ebx c; r_edx := r_edx c;
     r_ecx := r_ecx c; r_eax := r_eax c; r_eip := r_eip c; r_cs := r_cs c; r_eflags := r_eflags c; r_ss := r_ss c;
     r_ds := r_ds c |}.
Definition with_edx_ds (c : Cpu) (d s : Z) : Cpu :=
  {| r_edi := r_edi c; r_esi := r_esi c; r_ebp := r_ebp c; r_esp := r_esp c; r_ebx := r_ebx c; r_edx := d;
     r_ecx := r_ecx c; r_eax := r_eax c; r_eip := r_eip c; r_cs := r_cs c; r_eflags := r_eflags c; r_ss := r_ss c;
     r_ds := s |}.
Definition with_code (c : Cpu) (ip seg fl st : Z) : Cpu :=
  {| r_edi := r_edi c; r_esi := r_esi c; r_ebp := r_ebp c; r_esp := r_esp c; r_ebx := r_ebx c; r_edx := r_edx c;
     r_ecx := r_ecx c; r_eax := r_eax c; r_eip := ip; r_cs := seg; r_eflags := fl; r_ss := st; r_ds := r_ds c |}.

Definition with_cpuState (t : Thread) (p : Z) : Thread :=
  {| cpuState := p; runState := runState t; stack := stack t; stack_bytes := stack_bytes t;
     lock_next := lock_next t; signal_wait := signal_wait t; intParams := intParams t;
     syscall_stack := syscall_stack t; syscall_stack_bytes := syscall_stack_bytes t; syscall_esp := syscall_esp t |}.

Section stub.
(** The addresses every page directory maps alike, the top of the stack of the
    handlers, and what the compiled body of a handler does to the registers and
    to its stack. *)
Context (shared : Z -> bool) (interrupt_stack : Z).

Definition spaces := Z -> mem.

Definition store (s a v : Z) (vm : spaces) : spaces :=
  fun d x => if (d =? s) || shared x then wr32 (vm d) a v x else vm d x.

Fixpoint pushes (s : Z) (vs : list Z) (e : Z) (vm : spaces) : Z * spaces :=
  match vs with
  | [] => (e, vm)
  | v :: vs => let a := e -w 4 in pushes s vs a (store s a v vm)
  end.

(** Is the code in ring 3? *)
Definition user_mode (c : Cpu) : bool := Z.land (r_cs c) 3 =? 3.

(** The processor on an interrupt through a gate: from ring 3 it changes to the
    stack of the task state segment ([tss->ss0] is 0x10), then pushes the return
    point, and it masks interrupts. *)
Definition take_interrupt (handler : Z) (k : kernel) (c : Cpu) (vm : spaces) : Cpu * spaces :=
  let '(top, words) :=
    if user_mode c then (esp0 k, [r_ss c; r_esp c; r_eflags c; r_cs c; r_eip c])
    else (r_esp c, [r_eflags c; r_cs c; r_eip c]) in
  let '(e, vm) := pushes (cr3_reg k) words top vm in
  (with_code (with_esp c e) handler 0x08 (Z.clearbit (r_eflags c) 9) (if user_mode c then 0x10 else r_ss c), vm).

(** [pushal], [movw $0x10, %dx] and the loads of [ds] and [es], the store of
    [cpuState] and the change to [interrupt_stack]. *)
Definition stub_entry (c : Cpu) (k : kernel) (vm : spaces) : Cpu * kernel * spaces :=
  let '(e, vm) := pushes (cr3_reg k)
    [r_eax c; r_ecx c; r_edx c; r_ebx c; r_esp c; r_ebp c; r_esi c; r_edi c] (r_esp c) vm in
  let c := with_edx_ds c (Z.lor (Z.land (r_edx c) 0xFFFF0000) 0x10) 0x10 in
  let k := set_thread_at k (thisThread k) (with_cpuState (threads k (thisThread k)) e) in
  (with_esp c interrupt_stack, k, vm).

(** [popal]: the saved [esp] is skipped. *)
Definition popal (m : mem) (c : Cpu) : Cpu :=
  let e := r_esp c in
  {| r_edi := rd32 m e; r_esi := rd32 m (e +w 4); r_ebp := rd32 m (e +w 8); r_esp := e +w 32;
     r_ebx := rd32 m (e +w 16); r_edx := rd32 m (e +w 20); r_ecx := rd32 m (e +w 24); r_eax := rd32 m (e +w 28);
     r_eip := r_eip c; r_cs := r_cs c; r_eflags := r_eflags c; r_ss := r_ss c; r_ds := r_ds c |}.

(** [iret] from ring 0: to ring 3 it also pops the stack. *)
Definition iret (m : mem) (c : Cpu) : Cpu :=
  let e := r_esp c in
  let seg := u16 (rd32 m (e +w 4)) in
  let c' := with_code c (rd32 m e) seg (rd32 m (e +w 8)) (r_ss c) in
  if Z.land seg 3 =? 3 then
    with_esp (with_code c' (r_eip c') seg (r_eflags c') (u16 (rd32 m (e +w 16)))) (rd32 m (e +w 12))
  else with_esp c' (e +w 12).

(** The second [asm]: [thisThread] is read again. *)
Definition stub_exit (c : Cpu) (k : kernel) (vm : spaces) : Cpu :=
  let m := vm (cr3_reg k) in
  let c := with_esp c (cpuState (threads k (thisThread k))) in
  let c := if rd32 m (r_esp c +w 0x24) =? 0x1b
           then with_edx_ds c (Z.lor (Z.land (r_edx c) 0xFFFF0000) 0x23) 0x23 else c in
  iret m (popal m c).

(** [body] is the effect of [NAME_inner] on the kernel, [frame_use] that of its
    compiled code on the registers and on its stack. *)
Definition interrupt (handler : Z) (body : kernel -> option kernel) (frame_use : Cpu -> spaces -> Cpu * spaces)
    (c : Cpu) (k : kernel) (vm : spaces) : option (Cpu * kernel * spaces) :=
  let '(c, vm) := take_interrupt handler k c vm in
  let '(c, k, vm) := stub_entry c k vm in
  let '(c, vm) := frame_use c vm in
  k ← body k;
  Some (stub_exit c k vm, k, vm).

(** ** The words of a saved thread *)

(** The registers in their place from [cpuState] ([ThreadState]). *)
Definition frame (c : Cpu) : list (Z * Z) :=
  [(0, r_edi c); (4, r_esi c); (8, r_ebp c); (16, r_ebx c); (20, r_edx c); (24, r_ecx c); (28, r_eax c);
   (32, r_eip c); (36, r_cs c); (40, r_eflags c)] ++
  (if user_mode c then [(44, r_esp c); (48, r_ss c)] else []).

Definition frame_size (c : Cpu) : Z := if user_mode c then 52 else 44.

Definition saved (m : mem) (p : Z) (c : Cpu) : Prop :=
  Forall (fun w => rd32 m (p + fst w) = snd w) (frame c) /\
  (user_mode c = false -> r_esp c = p + 44).

(** The registers of running code: either ring 3 with the user segments, or
    ring 0 with those of the kernel. *)
Definition cpu_ok (c : Cpu) : Prop :=
  Forall is_u32 [r_edi c; r_esi c; r_ebp c; r_esp c; r_ebx c; r_edx c; r_ecx c; r_eax c; r_eip c; r_eflags c] /\
  ((r_cs c = 0x1B /\ r_ss c = 0x23 /\ r_ds c = 0x23) \/ (r_cs c = 0x08 /\ r_ss c = 0x10 /\ r_ds c = 0x10)).

Lemma store_same s a v vm d x :
  ~ ((d = s \/ shared x = true) /\ a <= x < a + 4) -> store s a v vm d x = vm d x.
Proof.
  intros H. unfold store. destruct (Z.eqb_spec d s), (shared x); cbn; try done; apply wr32_ne;
    destruct (decide (a <= x < a + 4)); [exfalso; apply H; tauto|lia|exfalso; apply H; tauto|lia|exfalso; apply H; tauto|lia].
Qed.

Lemma store_rd32 s a v vm d :
  d = s \/ (forall x, a <= x < a + 4 -> shared x = true) -> is_u32 v -> rd32 (store s a v vm d) a = v.
Proof.
  intros H Hv. rewrite <- (rd32_wr32 (vm d) a v Hv) at 2. apply rd32_ext. intros j Hj. unfold store.
  destruct (Z.eqb_spec d s); [done|]. destruct H as [?|H]; [done|]. by rewrite H by lia.
Qed.

(** Where the words of a run of pushes go, and that nothing else changes. *)
Lemma pushes_spec s vs e vm :
  4 * Z.of_nat (length vs) <= e < 4294967296 -> Forall is_u32 vs ->
  exists vm', pushes s vs e vm = (e - 4 * Z.of_nat (length vs), vm') /\
    (forall d x, ~ ((d = s \/ shared x = true) /\ e - 4 * Z.of_nat (length vs) <= x < e) -> vm' d x = vm d x) /\
    (forall d, d = s \/ (forall x, e - 4 * Z.of_nat (length vs) <= x < e -> shared x = true) ->
       forall i v, vs !! i = Some v -> rd32 (vm' d) (e - 4 * (Z.of_nat i + 1)) = v).
Proof.
  revert e vm. induction vs as [|v vs IH]; intros e vm He Hvs; cbn [pushes length] in *.
  - exists vm. rewrite Z.sub_0_r. split; [done|]. split; [done|]. intros d _ i v Hi. by rewrite lookup_nil in Hi.
  - inversion_clear Hvs as [|? ? Hv Hvs']. rewrite u32_small by (unfold is_u32; lia).
    destruct (IH (e - 4) (store s (e - 4) v vm)) as (vm' & -> & Hout & Hin); [lia|done|].
    exists vm'. split; [f_equal; lia|]. split.
    + intros d x Hx. rewrite Hout by (intros [? ?]; apply Hx; split; [done|lia]).
      apply store_same. intros [? ?]; apply Hx; split; [done|lia].
    + intros d Hd [|i] w Hi; cbn in Hi; simplify_eq.
      * rewrite (rd32_ext (store s (e - 4) w vm d) (vm' d)).
        -- replace (e - 4 * (Z.of_nat 0 + 1)) with (e - 4) by lia. apply store_rd32; [|done].
           destruct Hd as [|Hd]; [by left|right]. intros; apply Hd; lia.
        -- intros j Hj. apply Hout. intros [_ ?]. lia.
      * replace (e - 4 * (Z.of_nat (S i) + 1)) with (e - 4 - 4 * (Z.of_nat i + 1)) by lia.
        apply Hin; [|done]. destruct Hd as [|Hd]; [by left|right]. intros; apply Hd; lia.
Qed.

Lemma pushes_app s vs ws e vm :
  pushes s (vs ++ ws) e vm = let '(e, vm) := pushes s vs e vm in pushes s ws e vm.
Proof. revert e vm. induction vs as [|v vs IH]; intros e vm; cbn [pushes app]; [done|apply IH]. Qed.

(** The end of the area an interrupt pushes on. *)
Definition push_top (k : kernel) (c : Cpu) : Z := if user_mode c then esp0 k else r_esp c.

(** The words an interrupt pushes, first to last. *)
Definition pushed (k : kernel) (c : Cpu) : list Z :=
  (if user_mode c then [r_ss c; r_esp c; r_eflags c; r_cs c; r_eip c] else [r_eflags c; r_cs c; r_eip c]) ++
  [r_eax c; r_ecx c; r_edx c; r_ebx c;
   push_top k c - (frame_size c - 32); r_ebp c; r_esi c; r_edi c].

Lemma cpu_ok_mode c : cpu_ok c -> user_mode c = (r_cs c =? 0x1B).
Proof. intros [_ [(H & _)|(H & _)]]; unfold user_mode; by rewrite H. Qed.

Ltac cpu_cases H := let Hw := fresh "Hw" in
  pose proof (cpu_ok_mode _ H) as Hm; destruct H as [Hw [(Hcs & Hss & Hds)|(Hcs & Hss & Hds)]];
  rewrite Hcs in Hm; cbn in Hm; rewrite !Forall_cons in Hw;
  destruct Hw as (Hedi & Hesi & Hebp & Hesp & Hebx & Hedx & Hecx & Heax & Heip & Hfl & _).

Lemma entry_pushes handler k c vm :
  cpu_ok c -> frame_size c <= push_top k c < 4294967296 ->
  exists c' e vm', (let '(c1, vm1) := take_interrupt handler k c vm in stub_entry c1 k vm1) =
    (c', set_thread_at k (thisThread k) (with_cpuState (threads k (thisThread k)) e), vm') /\
    pushes (cr3_reg k) (pushed k c) (push_top k c) vm = (e, vm') /\ r_ds c' = 0x10 /\ r_ss c' = 0x10.
Proof.
  intros Hc Htop. unfold take_interrupt, pushed, push_top, frame_size in *. cpu_cases Hc; rewrite Hm in *.
  all: rewrite pushes_app; match goal with |- context [pushes ?s ?vs ?e ?v0] =>
    destruct (pushes_spec s vs e v0) as (vm1 & E & _); [cbn; lia| |rewrite E] end.
  1,3: rewrite Hcs, ?Hss; repeat (constructor; [done || (unfold is_u32; lia)|]); constructor.
  all: unfold stub_entry; cbn [with_code with_esp r_esp r_eax r_ecx r_edx r_ebx r_ebp r_esi r_edi length].
  1: change (4 * Z.of_nat 5) with (52 - 32). 2: change (4 * Z.of_nat 3) with (44 - 32).
  all: match goal with |- context [pushes ?s ?vs ?e ?v0] => destruct (pushes s vs e v0) as [e' vm'] eqn:E2 end;
    do 3 eexists; done.
Qed.

(** What an interrupt leaves in memory: the frame of the interrupted code below
    [push_top], and nothing else changed. *)
Lemma entry_spec handler k c vm :
  cpu_ok c -> frame_size c <= push_top k c < 4294967296 ->
  exists c' vm', (let '(c1, vm1) := take_interrupt handler k c vm in stub_entry c1 k vm1) =
    (c', set_thread_at k (thisThread k) (with_cpuState (threads k (thisThread k)) (push_top k c - frame_size c)), vm') /\
    r_ds c' = 0x10 /\ r_ss c' = 0x10 /\
    (forall d x, ~ ((d = cr3_reg k \/ shared x = true) /\ push_top k c - frame_size c <= x < push_top k c) ->
       vm' d x = vm d x) /\
    (forall d, d = cr3_reg k \/ (forall x, push_top k c - frame_size c <= x < push_top k c -> shared x = true) ->
       saved (vm' d) (push_top k c - frame_size c) c).
Proof.
  intros Hc Htop. destruct (entry_pushes handler k c vm Hc Htop) as (c' & e & vm' & E & Ep & Hd & Hs).
  assert (4 * Z.of_nat (length (pushed k c)) = frame_size c) as Hlen.
  { unfold pushed, frame_size. by destruct (user_mode c). }
  destruct (pushes_spec (cr3_reg k) (pushed k c) (push_top k c) vm) as (vm2 & Ep2 & Hout & Hin); [lia| |].
  { unfold pushed, push_top, frame_size in *. cpu_cases Hc; rewrite Hm in *; rewrite Hcs; cbn [app];
      repeat (constructor; [done || (unfold is_u32 in *; lia)|]); constructor. }
  rewrite Ep2, Hlen in Ep. simplify_eq. rewrite Hlen in Hout, Hin. exists c', vm'. do 4 (split; [done|]).
  intros d Hdd. specialize (Hin d Hdd). split.
  - unfold frame, pushed, frame_size in *. destruct (user_mode c); cbn [app] in *.
    all: repeat (constructor; [cbn [fst snd]; match goal with |- rd32 _ (?p - ?n + ?o) = ?v =>
      let i := eval vm_compute in (Z.to_nat ((n - o) / 4 - 1)) in
      replace (p - n + o) with (p - 4 * (Z.of_nat i + 1)) by lia; by apply (Hin i) end|]); constructor.
  - intros Hm. unfold push_top, frame_size. rewrite Hm. lia.
Qed.

(** The way back: the registers of the frame [cpuState] points to. *)
Lemma exit_spec k c0 c vm :
  let p := cpuState (threads k (thisThread k)) in
  cpu_ok c -> r_ds c0 = 0x10 -> r_ss c0 = 0x10 -> 0 <= p -> p + frame_size c < 4294967296 ->
  saved (vm (cr3_reg k)) p c -> stub_exit c0 k vm = c.
Proof.
  intros p Hc Hd0 Hs0 Hp Hsz [Hf Hk]. unfold stub_exit. fold p.
  unfold frame, frame_size in *. set (m := vm (cr3_reg k)) in *. clearbody m p.
  cpu_cases Hc; rewrite Hm in *; cbn [app] in Hf; rewrite !Forall_cons in Hf; cbn [fst snd] in Hf; destruct_and!.
  all: assert (forall o, 0 <= o <= 52 -> p + o < 4294967296 -> p +w o = p + o) as Ho
    by (intros; apply u32_small; unfold is_u32; lia).
  all: cbn [with_esp r_esp]; rewrite Ho by lia; match goal with H : rd32 _ (_ + 36) = _ |- _ => rewrite H, Hcs end.
  all: cbn [Z.eqb Pos.eqb].
  all: unfold iret, popal; cbn [with_esp with_edx_ds with_code r_esp r_edi r_esi r_ebp r_ebx r_edx r_ecx r_eax r_eip r_cs r_eflags r_ss r_ds].
  all: rewrite !(Ho 4), !(Ho 8), !(Ho 16), !(Ho 20), !(Ho 24), !(Ho 28), !(Ho 32) by lia.
  all: assert (forall o, 0 <= o -> p + 32 + o < 4294967296 -> p + 32 +w o = p + (32 + o)) as Ho2
    by (intros; rewrite u32_small by (unfold is_u32; lia); lia).
  all: rewrite !(Ho2 4), !(Ho2 8), !(Ho2 12) by lia; rewrite ?(Ho2 16) by lia; change (32 + 4) with 36; change (32 + 8) with 40;
    change (32 + 12) with 44; change (32 + 16) with 48.
  all: rewrite Z.add_0_r in *; repeat match goal with H : rd32 _ _ = _ |- _ => rewrite H end.
  all: rewrite ?Hcs, ?Hss; change (u16 27) with 27; change (u16 35) with 35; change (u16 8) with 8; change (Z.land 27 3 =? 3) with true; change (Z.land 8 3 =? 3) with false.
  all: try specialize (Hk eq_refl); destruct c; cbn in *; subst; try done; unfold with_esp, with_code; cbn; by rewrite Hd0, Hs0.
Qed.

Lemma frame_bounds c w : w ∈ frame c -> 0 <= fst w /\ fst w + 4 <= frame_size c.
Proof.
  intros Hw. assert (Forall (fun w : Z * Z => 0 <= fst w /\ fst w + 4 <= frame_size c) (frame c)) as H.
  { unfold frame_size, frame. destruct (user_mode c); repeat (constructor; [cbn; lia|]); constructor. }
  rewrite Forall_forall in H. by apply H.
Qed.

Lemma saved_ext m m' p c :
  (forall x, p <= x < p + frame_size c -> m' x = m x) -> saved m p c -> saved m' p c.
Proof.
  intros H [Hf Hk]. split; [|done]. rewrite Forall_forall in *. intros w Hw.
  rewrite <- (Hf w Hw). apply rd32_ext. intros j Hj. apply H. pose proof (frame_bounds c w Hw). lia.
Qed.

(** ** The threads' registers as an invariant *)

Definition pid_of (t : tref) : Z := t / MAX_PROC_THREADS.

Definition stack_mem (k : kernel) (t : tref) (x : Z) : Prop :=
  let th := threads k t in
  stack th <= x < stack th + stack_bytes th \/
  syscall_stack th <= x < syscall_stack th + syscall_stack_bytes th.

(** The page directories through which the stack of [t] is seen: the kernel's
    threads run in any of them. *)
Definition sees (k : kernel) (d : Z) (t : tref) : Prop := pid_of t = 0 \/ d = p_cr3 (procs k (pid_of t)).

(** The part of the tables a switch leaves alone. *)
Definition same_static (k k' : kernel) : Prop :=
  (forall t, stack (threads k' t) = stack (threads k t) /\
     stack_bytes (threads k' t) = stack_bytes (threads k t) /\
     syscall_stack (threads k' t) = syscall_stack (threads k t) /\
     syscall_stack_bytes (threads k' t) = syscall_stack_bytes (threads k t)) /\
  (forall p, p_cr3 (procs k' p) = p_cr3 (procs k p)).

#[export] Instance same_static_pre : PreOrder same_static.
Proof.
  split; [by split|]. intros k1 k2 k3 [H1 H2] [H3 H4]. split.
  - intros t. destruct (H3 t) as (-> & -> & -> & ->). apply H1.
  - intros p. by rewrite H4.
Qed.

Lemma same_static_stack k k' t x : same_static k k' -> stack_mem k' t x <-> stack_mem k t x.
Proof. intros [H _]. unfold stack_mem. by destruct (H t) as (-> & -> & -> & ->). Qed.

Lemma same_static_sees k k' d t : same_static k k' -> sees k' d t <-> sees k d t.
Proof. intros [_ H]. unfold sees. by rewrite H. Qed.

(** The stacks of the threads [D]: those of the kernel are in the shared part of
    memory, two that overlap are private to different page directories. *)
Record stacks_apart (D : tref -> Prop) (k : kernel) : Prop := {
  sa_shared t x : D t -> pid_of t = 0 -> stack_mem k t x -> shared x = true;
  sa_apart t t' x : D t -> D t' -> t <> t' -> stack_mem k t x -> stack_mem k t' x ->
    shared x = false /\ p_cr3 (procs k (pid_of t)) <> p_cr3 (procs k (pid_of t'))
}.

(** Where an interrupt of thread [t] in state [c] would push. *)
Definition thread_top (k : kernel) (t : tref) (c : Cpu) : Z :=
  if user_mode c then stack (threads k t) +w stack_bytes (threads k t) else r_esp c.

Definition room (k : kernel) (t : tref) (c : Cpu) : Prop :=
  frame_size c <= thread_top k t c < 4294967296 /\
  forall x, thread_top k t c - frame_size c <= x < thread_top k t c -> stack_mem k t x.

(** [ctx t] are the registers of thread [t]: those of the processor when [t] is
    the current thread, otherwise those saved in the frame of [t], whole in its
    stack, in every address space where that stack is seen. *)
Record contexts (D : tref -> Prop) (ctx : tref -> Cpu) (c : Cpu) (k : kernel) (vm : spaces) : Prop := {
  cx_current : c = ctx (thisThread k);
  cx_in : D (thisThread k);
  cx_esp0 : esp0 k = stack (threads k (thisThread k)) +w stack_bytes (threads k (thisThread k));
  cx_sees : sees k (cr3_reg k) (thisThread k);
  cx_ok t : D t -> cpu_ok (ctx t) /\ room k t (ctx t);
  cx_saved t : D t -> t <> thisThread k ->
    let p := cpuState (threads k t) in
    0 <= p /\ p + frame_size (ctx t) < 4294967296 /\
    (forall x, p <= x < p + frame_size (ctx t) -> stack_mem k t x) /\
    (forall d, sees k d t -> saved (vm d) p (ctx t))
}.

(** A handler may change the current thread and what the scheduler keeps, as long
    as the stack for interrupts and the page directory go with the thread. *)
Definition switch_ok (k k' : kernel) : Prop :=
  same_static k k' /\ (forall t, cpuState (threads k' t) = cpuState (threads k t)) /\
  esp0 k' = stack (threads k' (thisThread k')) +w stack_bytes (threads k' (thisThread k')) /\
  sees k' (cr3_reg k') (thisThread k').

(** Compiled code keeps the segments and writes only its own stack. *)
Definition frame_use_ok (D : tref -> Prop) (k : kernel) (frame_use : Cpu -> spaces -> Cpu * spaces) : Prop :=
  forall c vm, r_ds (fst (frame_use c vm)) = r_ds c /\ r_ss (fst (frame_use c vm)) = r_ss c /\
    forall t d x, D t -> stack_mem k t x -> snd (frame_use c vm) d x = vm d x.

Lemma same_static_room k k' t c : same_static k k' -> room k t c -> room k' t c.
Proof.
  intros Hst [H1 H2]. assert (thread_top k' t c = thread_top k t c) as E.
  { unfold thread_top. by destruct Hst as [H _]; destruct (H t) as (-> & -> & _). }
  split; rewrite E; [done|]. intros x Hx. rewrite same_static_stack by done. by apply H2.
Qed.

(** The bytes an interrupt writes for the current thread are in no frame that
    another thread can see. *)
Lemma pushes_apart D ctx c k vm t d x :
  stacks_apart D k -> contexts D ctx c k vm -> D t -> t <> thisThread k -> sees k d t -> stack_mem k t x ->
  ~ ((d = cr3_reg k \/ shared x = true) /\ push_top k c - frame_size c <= x < push_top k c).
Proof.
  intros Ha Hx Ht Hne Hs Hxs [Hdx Hr].
  assert (stack_mem k (thisThread k) x) as Hcur.
  { destruct (cx_ok _ _ _ _ _ Hx _ (cx_in _ _ _ _ _ Hx)) as [_ [_ Hroom]]. apply Hroom.
    revert Hr. unfold push_top, thread_top. by rewrite <- (cx_current _ _ _ _ _ Hx), (cx_esp0 _ _ _ _ _ Hx). }
  destruct (sa_apart _ _ Ha t (thisThread k) x Ht (cx_in _ _ _ _ _ Hx) Hne Hxs Hcur) as [Hsh Hcr].
  destruct Hdx as [->|]; [|congruence]. destruct Hs as [Hs|Hs].
  - rewrite (sa_shared _ _ Ha t x Ht Hs Hxs) in Hsh. done.
  - destruct (cx_sees _ _ _ _ _ Hx) as [Hs'|Hs'].
    + rewrite (sa_shared _ _ Ha _ x (cx_in _ _ _ _ _ Hx) Hs' Hcur) in Hsh. done.
    + congruence.
Qed.

Lemma current_push_top D ctx c k vm :
  contexts D ctx c k vm -> push_top k c = thread_top k (thisThread k) c.
Proof. intros Hx. unfold push_top, thread_top. by rewrite (cx_esp0 _ _ _ _ _ Hx). Qed.

Lemma save_static k p :
  same_static k (set_thread_at k (thisThread k) (with_cpuState (threads k (thisThread k)) p)).
Proof. split; [|done]. intros t. cbn. unfold upd. by destruct (Z.eqb_spec t (thisThread k)) as [->|]. Qed.

(** After the entry and the body, every thread of [D], the interrupted one
    included, has its registers saved. *)
Lemma entry_saves_all D ctx c k vm vm1 vm2 t :
  let p := push_top k c - frame_size c in
  let k0 := set_thread_at k (thisThread k) (with_cpuState (threads k (thisThread k)) p) in
  stacks_apart D k -> contexts D ctx c k vm -> D t ->
  (forall d x, ~ ((d = cr3_reg k \/ shared x = true) /\ p <= x < push_top k c) -> vm1 d x = vm d x) ->
  (forall d, d = cr3_reg k \/ (forall x, p <= x < push_top k c -> shared x = true) -> saved (vm1 d) p c) ->
  (forall t d x, D t -> stack_mem k t x -> vm2 d x = vm1 d x) ->
  let q := cpuState (threads k0 t) in
  0 <= q /\ q + frame_size (ctx t) < 4294967296 /\
  (forall x, q <= x < q + frame_size (ctx t) -> stack_mem k t x) /\
  (forall d, sees k d t -> saved (vm2 d) q (ctx t)).
Proof.
  intros p k0 Ha Hx Ht Hout Hsaved Hfu q. pose proof (cx_in _ _ _ _ _ Hx) as Hin.
  destruct (cx_ok _ _ _ _ _ Hx _ Hin) as [Hok [Hsz Hmem]].
  rewrite <- (cx_current _ _ _ _ _ Hx) in *. rewrite <- (current_push_top _ _ _ _ _ Hx) in *. fold p in Hmem.
  destruct (decide (t = thisThread k)) as [->|Hne].
  - assert (q = p) as -> by (unfold q, k0; cbn; unfold upd; by rewrite Z.eqb_refl).
    rewrite <- (cx_current _ _ _ _ _ Hx).
    assert (p + frame_size c = push_top k c) as -> by (unfold p; lia).
    split; [unfold p; lia|]. split; [lia|]. split; [done|]. intros d Hd.
    apply (saved_ext (vm1 d)); [|apply Hsaved].
    + intros x Hr. apply (Hfu (thisThread k)); [done|]. apply Hmem. unfold p in *. lia.
    + destruct (cx_sees _ _ _ _ _ Hx) as [H0|Hs]; [right|destruct Hd as [H0| ->]; [right|by left]];
        intros x Hr; eapply sa_shared; [done|exact Hin|done|by apply Hmem|done|exact Hin|done|by apply Hmem].
  - assert (q = cpuState (threads k t)) as ->
      by (unfold q, k0; cbn; unfold upd; by destruct (Z.eqb_spec t (thisThread k))).
    destruct (cx_saved _ _ _ _ _ Hx t Ht Hne) as (Hq & Hq2 & Hqm & Hqs). do 3 (split; [done|]).
    intros d Hd. apply (saved_ext (vm d)); [|by apply Hqs]. intros x Hr. rewrite (Hfu t) by (done || by apply Hqm).
    apply Hout. eapply pushes_apart; [done|exact Hx|exact Ht|done|done|by apply Hqm].
Qed.

(** The invariant is kept by an interrupt whose handler switches well. *)
Lemma interrupt_contexts D ctx handler body frame_use c k vm k1 :
  let p := push_top k c - frame_size c in
  let k0 := set_thread_at k (thisThread k) (with_cpuState (threads k (thisThread k)) p) in
  stacks_apart D k -> contexts D ctx c k vm -> frame_use_ok D k frame_use ->
  body k0 = Some k1 -> switch_ok k0 k1 -> D (thisThread k1) ->
  exists c' vm', interrupt handler body frame_use c k vm = Some (c', k1, vm') /\ contexts D ctx c' k1 vm'.
Proof.
  intros p k0 Ha Hx Hfu Hbody (Hst & Hcpu & He & Hse) HD. unfold interrupt.
  pose proof (cx_in _ _ _ _ _ Hx) as Hin. destruct (cx_ok _ _ _ _ _ Hx _ Hin) as [Hok [Hsz _]].
  rewrite <- (cx_current _ _ _ _ _ Hx), <- (current_push_top _ _ _ _ _ Hx) in *.
  destruct (entry_spec handler k c vm Hok Hsz) as (c1 & vm1 & E & Hds & Hss & Hout & Hsaved).
  destruct (take_interrupt handler k c vm) as [c0 vm0]. rewrite E. fold p k0.
  pose proof (Hfu c1 vm1) as (Hd2 & Hs2 & Hm2). destruct (frame_use c1 vm1) as [c2 vm2]. cbn [fst snd] in *.
  rewrite Hbody. cbn.
  assert (same_static k k1) as Hst1 by (etransitivity; [apply save_static|exact Hst]).
  assert (forall t, D t -> let q := cpuState (threads k1 t) in
    0 <= q /\ q + frame_size (ctx t) < 4294967296 /\
    (forall x, q <= x < q + frame_size (ctx t) -> stack_mem k1 t x) /\
    (forall d, sees k1 d t -> saved (vm2 d) q (ctx t))) as Hall.
  { intros t Ht. rewrite Hcpu. destruct (entry_saves_all D ctx c k vm vm1 vm2 t Ha Hx Ht Hout Hsaved Hm2) as (H1 & H2 & H3 & H4).
    do 2 (split; [done|]). split.
    - intros x Hr. rewrite same_static_stack by done. by apply H3.
    - intros d Hd. apply H4. by rewrite <- same_static_sees. }
  destruct (Hall _ HD) as (Hp & Hq & _ & Hsv). do 2 eexists. split; [reflexivity|].
  rewrite (exit_spec k1 c2 (ctx (thisThread k1)) vm2); try done; try congruence; [|by apply (cx_ok _ _ _ _ _ Hx)|by apply Hsv].
  split; try done.
  - intros t Ht. destruct (cx_ok _ _ _ _ _ Hx t Ht). split; [done|]. by eapply same_static_room.
  - intros t Ht _. by apply Hall.
Qed.
End stub.

(** ** The timer switches well *)

(** A thread that runs, or that a monitor may wake. *)
Definition may_run (k : kernel) (t : tref) : Prop :=
  runState (threads k t) = RUNNING \/ signal_wait (threads k t) <> None.

(** What [notify] leaves alone. *)
Record quiet (k k' : kernel) : Prop := {
  q_static : same_static k k';
  q_cpu t : cpuState (threads k' t) = cpuState (threads k t);
  q_index p : thread_index (procs k' p) = thread_index (procs k p);
  q_run t : may_run k' t -> may_run k t;
  q_this : thisThread k' = thisThread k;
  q_esp0 : esp0 k' = esp0 k;
  q_cr3 : cr3_reg k' = cr3_reg k;
  q_proc : proc_id k' = proc_id k;
  q_num : num_procs k' = num_procs k
}.

#[export] Instance quiet_pre : PreOrder quiet.
Proof.
  split; [by split|]. intros k1 k2 k3 H1 H2. pose proof (q_run _ _ H1). pose proof (q_run _ _ H2). split; auto.
  - transitivity k2; [apply H1|apply H2].
  - intros t. by rewrite (q_cpu _ _ H2), (q_cpu _ _ H1).
  - intros p. by rewrite (q_index _ _ H2), (q_index _ _ H1).
  - by rewrite (q_this _ _ H2), (q_this _ _ H1).
  - by rewrite (q_esp0 _ _ H2), (q_esp0 _ _ H1).
  - by rewrite (q_cr3 _ _ H2), (q_cr3 _ _ H1).
  - by rewrite (q_proc _ _ H2), (q_proc _ _ H1).
  - by rewrite (q_num _ _ H2), (q_num _ _ H1).
Qed.

(** A change of one process or thread that keeps those members. *)
Lemma quiet_process k i p :
  p_cr3 p = p_cr3 (procs k i) -> thread_index p = thread_index (procs k i) -> quiet k (set_process k i p).
Proof.
  intros H1 H2. split; try done; [split; [done|]|]; intros q; cbn; unfold upd; by destruct (Z.eqb_spec q i) as [->|].
Qed.

Lemma quiet_thread k t th :
  stack th = stack (threads k t) -> stack_bytes th = stack_bytes (threads k t) ->
  syscall_stack th = syscall_stack (threads k t) -> syscall_stack_bytes th = syscall_stack_bytes (threads k t) ->
  cpuState th = cpuState (threads k t) ->
  (runState th = RUNNING \/ signal_wait th <> None -> may_run k t) -> quiet k (set_thread_at k t th).
Proof.
  intros. split; try done; [split; [|done]| |]; intros q; unfold may_run; cbn; unfold upd;
    by destruct (Z.eqb_spec q t) as [->|].
Qed.

Lemma wake_quiet k o p d :
  signal_wait (threads k o) <> None -> quiet k (add_running (set_runState (set_signal_wait k o None) o RUNNING) p d).
Proof.
  intros Hw. transitivity (set_thread_at k o (with_runState (with_signal_wait (threads k o) None) RUNNING)).
  - apply quiet_thread; try done. intros _. by right.
  - unfold add_running. etransitivity; [|by apply quiet_process]. split; try done; [split; [|done]| |]; intros q;
      unfold may_run; cbn; unfold upd; destruct (Z.eqb_spec q o) as [->|]; rewrite ?Z.eqb_refl; done.
Qed.

Lemma notify_quiet p d k : exists k', notify p MSG_MONITOR d k = Some k' /\ quiet k k'.
Proof.
  unfold notify. change (get_monitor MSG_MONITOR) with (Some 0). cbn [mbind option_bind].
  assert (quiet k (write_signal k p 0 (s32 (signal (monitors (procs k p) 0) + d)))) as Hq by by apply quiet_process.
  destruct (0 <? _); [|by eexists]. destruct (owner _) as [o|]; [|by eexists].
  case_bool_decide as Hw; [|by eexists].
  eexists. split; [done|]. etransitivity; [exact Hq|apply wake_quiet]. by rewrite Hw.
Qed.

Lemma next_proc_loop_quiet n i k :
  0 < num_procs k ->
  exists r k', next_proc_loop n i k = Some (r, k') /\ quiet k k' /\ 0 <= r < num_procs k.
Proof.
  intros Hn. revert i k Hn. induction n as [|n IH]; intros i k Hn; cbn [next_proc_loop].
  { do 2 eexists. split; [done|]. split; [done|lia]. }
  destruct (notify_quiet ((u32 (proc_id k + i)) mod num_procs k) 0 k) as (k1 & -> & H1). cbn.
  destruct (0 <? _).
  { do 2 eexists. split; [done|]. split; [done|]. apply Z.mod_pos_bound. lia. }
  pose proof (q_num _ _ H1) as Hn1. destruct (IH (i + 1) k1) as (r & k2 & -> & H2 & Hr); [lia|].
  do 2 eexists. split; [done|]. split; [by etransitivity|lia].
Qed.

(** The scheduler's tables: indices in range, and the threads [D] hold every
    thread it may choose. *)
Record schedulable (D : tref -> Prop) (k : kernel) : Prop := {
  sc_procs : 0 < num_procs k;
  sc_index p : 0 <= thread_index (procs k p) < MAX_PROC_THREADS;
  sc_run t : may_run k t -> D t;
  sc_cur p : 0 <= p < num_procs k -> D (p * MAX_PROC_THREADS + thread_index (procs k p));
  sc_idle : D 0
}.

Lemma quiet_schedulable D k k' : quiet k k' -> schedulable D k -> schedulable D k'.
Proof.
  intros [] []. split; try done.
  - congruence.
  - intros p. by rewrite q_index0.
  - auto.
  - intros p Hp. rewrite q_index0. apply sc_cur0. congruence.
Qed.

Lemma get_next_thread_quiet D k :
  schedulable D k -> 0 <= proc_id k < num_procs k ->
  let '(r, k') := get_next_thread k in
  0 <= r < MAX_PROC_THREADS /\ quiet k k' /\ D (proc_id k * MAX_PROC_THREADS + r).
Proof.
  intros Hs Hpr. unfold get_next_thread. pose proof (sc_index _ _ Hs (proc_id k)) as Hp. unfold MAX_PROC_THREADS in Hp.
  rewrite s32_small by (unfold is_s32; lia).
  pose proof (next_thread_loop_spec (Z.to_nat MAX_PROC_THREADS) (thread_index (procs k (proc_id k)) + 1) k ltac:(lia)) as H.
  destruct (next_thread_loop _ _ k) as [r|].
  - destruct H as (d & _ & -> & Hrun & _). split; [by apply Z.mod_pos_bound|]. split; [done|].
    apply (sc_run _ _ Hs). by left.
  - cbn [set_process proc_id]. destruct (Z.eqb_spec (proc_id k) 0) as [E|];
      (split; [unfold MAX_PROC_THREADS; lia|]; split; [by apply quiet_process|]).
    + rewrite E. apply (sc_idle _ _ Hs).
    + by apply (sc_cur _ _ Hs).
Qed.

Lemma set_proc_spec pid k :
  let k' := snd (set_proc pid k) in
  procs k' = procs k /\ threads k' = threads k /\ num_procs k' = num_procs k /\ proc_id k' = pid /\
  (pid = 0 \/ cr3_reg k' = p_cr3 (procs k pid)).
Proof.
  cbn. do 4 (split; [done|]). destruct (Z.eqb_spec pid 0); [by left|right]. cbn.
  by destruct (Z.eqb_spec (cr3_reg k) (p_cr3 (procs k pid))).
Qed.

(** [set_thread] at the end of a quiet change. *)
Lemma set_thread_switch k0 k tid :
  same_static k0 k -> (forall t, cpuState (threads k t) = cpuState (threads k0 t)) ->
  0 <= tid < MAX_PROC_THREADS -> (proc_id k = 0 \/ cr3_reg k = p_cr3 (procs k (proc_id k))) ->
  switch_ok k0 (snd (set_thread tid k)).
Proof.
  intros Hst Hc Ht Hcr. split; [|split; [done|split; [done|]]].
  - destruct Hst as [A B]. split; [exact A|]. intros p. cbn. unfold upd.
    destruct (Z.eqb_spec p (proc_id k)) as [->|]; apply B.
  - unfold sees. cbn.
    assert (pid_of (proc_id k * MAX_PROC_THREADS + tid) = proc_id k) as -> by (unfold pid_of, MAX_PROC_THREADS in *; zdm).
    unfold upd. by rewrite Z.eqb_refl.
Qed.

Lemma set_thread_schedulable D k tid :
  schedulable D k -> 0 <= tid < MAX_PROC_THREADS -> D (proc_id k * MAX_PROC_THREADS + tid) ->
  schedulable D (snd (set_thread tid k)).
Proof.
  intros [] Ht HD. split; cbn; try done.
  - intros p. unfold upd. by destruct (Z.eqb_spec p (proc_id k)).
  - intros p Hp. unfold upd. destruct (Z.eqb_spec p (proc_id k)) as [->|]; [done|]. by apply sc_cur0.
Qed.

Lemma timer_switch D k :
  schedulable D k ->
  exists k', timer_interrupt k = Some k' /\ switch_ok k k' /\ schedulable D k' /\ D (thisThread k').
Proof.
  intros Hi. unfold timer_interrupt, get_next_proc.
  destruct (notify_quiet 0 0 k) as (k1 & -> & H1). cbn [mbind option_bind].
  pose proof (quiet_schedulable _ _ _ H1 Hi) as Hi1.
  destruct (next_proc_loop_quiet (Z.to_nat (num_procs k1 - 1)) 1 k1 (sc_procs _ _ Hi1)) as (pid & k2 & -> & H2 & Hpid).
  assert (quiet k k2) as Hq by by etransitivity. rewrite <- (q_num _ _ H2) in Hpid.
  pose proof (quiet_schedulable _ _ _ Hq Hi) as Hi2. clear H1 H2 Hi Hi1. cbn [mbind option_bind].
  pose proof (set_proc_spec pid k2) as (Ep & Et & En & Ei & Ecr). destruct (set_proc pid k2) as [old k3].
  cbn [snd] in *.
  assert (schedulable D k3) as Hi3.
  { destruct Hi2. split; unfold may_run in *; rewrite ?Ep, ?Et, ?En; auto. }
  pose proof (get_next_thread_quiet D k3 Hi3 ltac:(lia)) as H4. destruct (get_next_thread k3) as [tid k4].
  destruct H4 as (Ht & Hq4 & HD). pose proof (quiet_schedulable _ _ _ Hq4 Hi3) as Hi4.
  rewrite <- (q_proc _ _ Hq4) in HD. destruct (set_thread tid k4) as [old' k5] eqn:E5.
  assert (k5 = snd (set_thread tid k4)) as -> by by rewrite E5.
  eexists. split; [done|]. split; [|split; [by apply set_thread_schedulable|exact HD]].
  apply set_thread_switch; [| |done|].
  - transitivity k2; [apply Hq|]. transitivity k3; [split; [by rewrite Et|by rewrite Ep]|apply Hq4].
  - intros t. by rewrite (q_cpu _ _ Hq4), Et, (q_cpu _ _ Hq).
  - rewrite (q_proc _ _ Hq4), (q_cr3 _ _ Hq4), (proj2 (q_static _ _ Hq4)), Ei, Ep. done.
Qed.

(** Neither does the save of a stack pointer matter to the scheduler. *)
Lemma save_schedulable D k p :
  schedulable D k -> schedulable D (set_thread_at k (thisThread k) (with_cpuState (threads k (thisThread k)) p)).
Proof.
  intros []. split; try done. intros t Hr. apply sc_run0. revert Hr. unfold may_run. cbn. unfold upd.
  by destruct (Z.eqb_spec t (thisThread k)) as [->|].
Qed.

Lemma same_static_apart shared D k k' : same_static k k' -> stacks_apart shared D k -> stacks_apart shared D k'.
Proof.
  intros Hst []. split.
  - intros t x Ht H0. rewrite (same_static_stack k k') by done. eauto.
  - intros t t' x Ht Ht' Hne. rewrite !(same_static_stack k k') by done. rewrite !(proj2 Hst). eauto.
Qed.

(** C3: the threads keep their registers across timer interrupts.  [ctx t] gives
    the registers of thread [t]: in the processor when [t] runs, saved on its
    stack when not.  A timer interrupt at any instruction, in ring 3 or in the
    kernel, saves the current thread, lets the scheduler choose and resumes the
    chosen thread: it always returns, the processor then holds exactly the
    registers [ctx] gives the chosen thread, every other thread of [D] is still
    whole on its stack in each address space that shows it, and what the
    scheduler and the next interrupt rely on holds again. *)
Theorem timer_keeps_contexts shared interrupt_stack D ctx handler frame_use c k vm :
  contexts D ctx c k vm -> stacks_apart shared D k -> schedulable D k -> frame_use_ok D k frame_use ->
  exists c' k' vm',
    interrupt shared interrupt_stack handler timer_interrupt frame_use c k vm = Some (c', k', vm') /\
    c' = ctx (thisThread k') /\
    contexts D ctx c' k' vm' /\ stacks_apart shared D k' /\ schedulable D k' /\ frame_use_ok D k' frame_use.
Proof.
  intros Hx Ha Hs Hf.
  destruct (timer_switch D _ (save_schedulable D k (push_top k c - frame_size c) Hs)) as (k' & E & Hsw & Hs' & HD).
  destruct (interrupt_contexts shared interrupt_stack D ctx handler timer_interrupt frame_use c k vm k' Ha Hx Hf E Hsw HD)
    as (c' & vm' & E' & Hx').
  assert (same_static k k') as Hst by (etransitivity; [apply save_static|apply Hsw]).
  exists c', k', vm'. split; [done|]. split; [apply Hx'|]. split; [done|]. split; [by eapply same_static_apart|].
  split; [done|]. intros c2 vm2. destruct (Hf c2 vm2) as (H1 & H2 & H3). do 2 (split; [done|]).
  intros t d x Ht. rewrite (same_static_stack k k') by done. by apply H3.
Qed.

(** A user thread, 16, interrupted in ring 3 while the idle thread of the kernel
    is saved on its own stack. *)
Definition idle_cpu : Cpu :=
  {| r_edi := 1; r_esi := 2; r_ebp := 0x103FF0; r_esp := 0x103F00; r_ebx := 5; r_edx := 6; r_ecx := 7; r_eax := 8;
     r_eip := 0x8123; r_cs := 0x08; r_eflags := 0x202; r_ss := 0x10; r_ds := 0x10 |}.
Definition user_cpu : Cpu :=
  {| r_edi := 11; r_esi := 12; r_ebp := 13; r_esp := 0x80F000; r_ebx := 15; r_edx := 0xABCD1234; r_ecx := 17;
     r_eax := 18; r_eip := 0x400123; r_cs := 0x1B; r_eflags := 0x202; r_ss := 0x23; r_ds := 0x23 |}.
Definition two_ctx (t : tref) : Cpu := if t =? 0 then idle_cpu else user_cpu.

Definition stacked (t : Thread) (s st stk bytes sys sysb : Z) : Thread :=
  with_syscall_stack (setStack (with_cpuState (with_runState t (if s =? 0 then WAITING else RUNNING)) st) stk bytes) sys sysb.

Definition two_threads : kernel :=
  {| procs := fun p => with_running idle_process p;
     threads := fun t => if t =? 0 then stacked no_thread 0 (0x103F00 - 44) 0x100000 0x4000 0 0
                         else if t =? 16 then stacked no_thread 1 0 0x800000 0x10000 0x900000 0x10000
                         else no_thread;
     num_procs := 2; proc_id := 1; thisThread := 16; esp0 := 0x810000;
     cr3_reg := 0 |}.

Definition frame_mem (p : Z) (c : Cpu) : mem :=
  fold_right (fun w m => wr32 m (p + fst w) (snd w)) (fun _ => 0) (frame c).
Definition low_shared (x : Z) : bool := x <? 0x400000.

Lemma timer_keeps_contexts_witness :
  exists c' k' vm',
    interrupt low_shared 0x200000 0x9000 timer_interrupt (fun c vm => (with_esp c 0x1FFF00, vm)) user_cpu two_threads
      (fun _ => frame_mem (0x103F00 - 44) idle_cpu) = Some (c', k', vm') /\ c' = two_ctx (thisThread k').
Proof.
  destruct (timer_keeps_contexts low_shared 0x200000 (fun t => t = 0 \/ t = 16) two_ctx 0x9000
    (fun c vm => (with_esp c 0x1FFF00, vm)) user_cpu two_threads (fun _ => frame_mem (0x103F00 - 44) idle_cpu))
    as (c' & k' & vm' & E & Hc & _); [| | | |exists c', k', vm'; split; [exact E|exact Hc]].
  - split; [reflexivity|by right|reflexivity|by right| |].
    + intros t [-> | ->]; (split; [split; [repeat (constructor; [unfold is_u32; cbn; lia|]); constructor|]|]).
      1: by right. 2: by left. all: split; [vm_compute; split; congruence|].
      * change (thread_top two_threads 0 (two_ctx 0)) with 0x103F00. change (frame_size (two_ctx 0)) with 44.
        intros x; unfold stack_mem; cbn; lia.
      * change (thread_top two_threads 16 (two_ctx 16)) with 0x810000. change (frame_size (two_ctx 16)) with 52.
        intros x; unfold stack_mem; cbn; lia.
    + intros t [-> | ->] Hne; [|by destruct Hne]. cbn [two_threads threads Z.eqb stacked with_syscall_stack setStack with_cpuState cpuState].
      change (frame_size (two_ctx 0)) with 44.
      split; [lia|]. split; [lia|]. split; [intros x; unfold stack_mem; cbn; lia|].
      intros d _. split; [|intros _; reflexivity]. repeat (constructor; [vm_compute; reflexivity|]); constructor.
  - split.
    + intros t x [-> | ->]; [|intros Hp; vm_compute in Hp; discriminate]. intros _. unfold stack_mem, low_shared. cbn. intros. split_ltb; lia.
    + intros t t' x [-> | ->] [-> | ->] Hne; try (by destruct Hne); unfold stack_mem; cbn; lia.
  - split.
    + cbn. lia.
    + intros p. cbn. unfold MAX_PROC_THREADS. lia.
    + intros t. unfold may_run. cbn. destruct (Z.eqb_spec t 0); [by left|]. destruct (Z.eqb_spec t 16); [by right|].
      cbn. intros [?|?]; done.
    + intros p Hp. cbn in *. assert (p = 0 \/ p = 1) as [-> | ->] by lia; [by left|by right].
    + by left.
  - intros c2 vm2. split; [reflexivity|]. split; [reflexivity|]. intros t d x _ _. reflexivity.
Defined.
