(* ===== verification/Sysenter.v ===== *)
(** * The way into the kernel and back: [syscall] of [include/system.h],
    [enter_kernel] and [init_syscall] of [system/syscall.cpp]

    The assembly of a system call, instruction by instruction, on the processor
    and the address spaces of [Switch].  What [do_syscall] does is the parameter
    [body] (its decoding is that of [Syscall]); the addresses of labels and
    functions are the linker's. *)
From S2P Require Import Prelude Str Memory Queue Process Scheduler Switch.

(** The model-specific registers of [sysenter]. *)
Record Msrs := { sysenter_cs : Z; sysenter_esp : Z; sysenter_eip : Z }.

(** [init_syscall], to the table of calls. *)
Definition init_syscall (enter_kernel : Z) : K Msrs :=
  let syscall_stack_bytes := 4096 * 4 in
  let! syscall_stack := static_alloc_pages 4 in
  kret {| sysenter_cs := 0x08; sysenter_esp := syscall_stack +w syscall_stack_bytes; sysenter_eip := enter_kernel |}.

Definition with_gp (c : Cpu) (edi edx ecx esp ds : Z) : Cpu :=
  {| r_edi := edi; r_esi := r_esi c; r_ebp := r_ebp c; r_esp := esp; r_ebx := r_ebx c; r_edx := edx;
     r_ecx := ecx; r_eax := r_eax c; r_eip := r_eip c; r_cs := r_cs c; r_eflags := r_eflags c; r_ss := r_ss c;
     r_ds := ds |}.

(** [sysenter] and [sysexit]: ring 0 with the segments after [sysenter_cs],
    interrupts masked; ring 3 at [edx] with the stack at [ecx]. *)
Definition sysenter (msrs : Msrs) (c : Cpu) : Cpu :=
  let seg := Z.land (sysenter_cs msrs) 0xFFFC in
  with_code (with_esp c (sysenter_esp msrs)) (sysenter_eip msrs) seg (Z.clearbit (r_eflags c) 9) (seg + 8).

Definition sysexit (msrs : Msrs) (c : Cpu) : Cpu :=
  with_code (with_esp c (r_ecx c)) (r_edx c) (Z.lor (sysenter_cs msrs + 16) 3) (r_eflags c) (Z.lor (sysenter_cs msrs + 24) 3).

Section calls.
Context (shared : Z -> bool) (msrs : Msrs) (after_sysexit return_address : Z).
(** What the compiled code of [enter_kernel] does before the [asm], and
    [do_syscall] on the address of the caller's words. *)
Context (prologue : Cpu -> spaces -> Cpu * spaces).
Context (body : Z -> Cpu -> kernel -> spaces -> option (Cpu * kernel * spaces)).
Implicit Types (c : Cpu) (k : kernel) (vm : spaces).

(** The [asm] of [syscall] up to [sysenter]; [label] is the address of [1:]. *)
Definition syscall_stub (label fn_code data_ptr : Z) c k vm : Cpu * spaces :=
  let '(e, vm) := pushes shared (cr3_reg k) [data_ptr; fn_code; label] (r_esp c) vm in
  (with_gp c e (r_edx c) (r_ecx c) e (r_ds c), vm).

(** The first [asm] of [enter_kernel], with the call. *)
Definition enter_kernel c k vm : option (Cpu * kernel * spaces) :=
  let c := with_gp c (r_edi c) 0x10 (r_ecx c) (r_esp c) 0x10 in
  let thread := proc_id k * MAX_PROC_THREADS + thread_index (procs k (proc_id k)) in
  let '(e, vm) := pushes shared (cr3_reg k) [r_edi c; return_address] (syscall_esp (threads k thread)) vm in
  body (rd32 (vm (cr3_reg k)) (e +w 4)) (with_esp c e) k vm.

(** The second [asm], to the [ret] that runs in ring 3. *)
Definition leave_kernel c k vm : Cpu :=
  let m := vm (cr3_reg k) in
  let c := with_gp c (r_edi c) after_sysexit (rd32 m (r_esp c)) (r_esp c +w 4) 0x23 in
  let c := with_code c (r_eip c) (r_cs c) (Z.setbit (r_eflags c) 9) (r_ss c) in
  let c := sysexit msrs c in
  with_code (with_esp c (r_esp c +w 4)) (rd32 m (r_esp c)) (r_cs c) (r_eflags c) (r_ss c).

(** A system call: the processor, at [label] once the words are dropped. *)
Definition system_call (label fn_code data_ptr : Z) c k vm : option (Cpu * kernel * spaces) :=
  let '(c, vm) := syscall_stub label fn_code data_ptr c k vm in
  let '(c, vm) := prologue (sysenter msrs c) vm in
  '(c, k, vm) ← enter_kernel c k vm;
  let c := leave_kernel c k vm in
  Some (with_esp c (r_esp c +w 8), k, vm).

(** The three words on the caller's stack. *)
Definition call_words (m : mem) (user_args label fn_code data_ptr : Z) : Prop :=
  rd32 m user_args = label /\ rd32 m (user_args + 4) = fn_code /\ rd32 m (user_args + 8) = data_ptr.

(** Compiled code before the [asm] keeps [edi], the segments and the interrupt
    flag, and leaves the caller's words. *)
Definition prologue_ok (user_args : Z) : Prop := forall c vm,
  r_edi (fst (prologue c vm)) = r_edi c /\ r_cs (fst (prologue c vm)) = r_cs c /\ r_ss (fst (prologue c vm)) = r_ss c /\
  Z.testbit (r_eflags (fst (prologue c vm))) 9 = Z.testbit (r_eflags c) 9 /\
  forall d x, user_args <= x < user_args + 12 -> snd (prologue c vm) d x = vm d x.

(** [do_syscall] returns with its stack balanced, in the address space of the
    caller and with the kernel's data segment; it leaves its argument and the
    caller's return address. *)
Definition body_ok : Prop := forall a c k vm c' k' vm',
  body a c k vm = Some (c', k', vm') ->
  r_esp c' = r_esp c +w 4 /\ cr3_reg k' = cr3_reg k /\
  rd32 (vm' (cr3_reg k)) (r_esp c +w 4) = rd32 (vm (cr3_reg k)) (r_esp c +w 4) /\
  rd32 (vm' (cr3_reg k)) a = rd32 (vm (cr3_reg k)) a.

Lemma call_words_ext m m' a label fn data :
  (forall x, a <= x < a + 12 -> m' x = m x) -> call_words m a label fn data -> call_words m' a label fn data.
Proof.
  intros H (H1 & H2 & H3). split_and!; [rewrite <- H1|rewrite <- H2|rewrite <- H3]; apply rd32_ext; intros; apply H; lia.
Qed.

Lemma stub_words label fn data c k vm :
  12 <= r_esp c < 4294967296 -> Forall is_u32 [data; fn; label] ->
  exists vm', syscall_stub label fn data c k vm = (with_gp c (r_esp c - 12) (r_edx c) (r_ecx c) (r_esp c - 12) (r_ds c), vm') /\
    call_words (vm' (cr3_reg k)) (r_esp c - 12) label fn data.
Proof.
  intros He Hw. unfold syscall_stub.
  destruct (pushes_spec shared 0 (cr3_reg k) [data; fn; label] (r_esp c) vm) as (vm' & -> & _ & Hin); [cbn; lia|done|].
  change (4 * Z.of_nat (length [data; fn; label])) with 12 in *. exists vm'. split; [done|].
  specialize (Hin (cr3_reg k) (or_introl eq_refl)).
  split_and!; [rewrite <- (Hin 2%nat label eq_refl)|rewrite <- (Hin 1%nat fn eq_refl)|rewrite <- (Hin 0%nat data eq_refl)];
    f_equal; lia.
Qed.

(** The stack of the system calls of the current thread. *)
Definition syscall_top k : Z := syscall_esp (threads k (proc_id k * MAX_PROC_THREADS + thread_index (procs k (proc_id k)))).

Lemma system_call_returns label fn data c k vm :
  let a := r_esp c - 12 in
  12 <= r_esp c < 4294967296 -> Forall is_u32 [data; fn; label] -> is_u32 return_address -> sysenter_cs msrs = 8 ->
  8 <= syscall_top k < 4294967296 -> (syscall_top k <= a \/ a + 12 <= syscall_top k - 8) ->
  prologue_ok a -> body_ok ->
  exists c1 vm1, call_words (vm1 (cr3_reg k)) a label fn data /\ r_cs c1 = 8 /\ r_ss c1 = 16 /\ r_ds c1 = 16 /\
    Z.testbit (r_eflags c1) 9 = false /\ r_esp c1 = syscall_top k - 8 /\
    forall c2 k' vm2, body a c1 k vm1 = Some (c2, k', vm2) ->
      exists c', system_call label fn data c k vm = Some (c', k', vm2) /\
        r_eax c' = r_eax c2 /\ r_eip c' = label /\ r_esp c' = r_esp c /\ r_cs c' = 0x1B /\ r_ss c' = 0x23 /\ r_ds c' = 0x23 /\
        Z.testbit (r_eflags c') 9 = true.
Proof.
  intros a He Hw Hra Hcs Htop Hap Hpro Hbody. unfold system_call.
  destruct (stub_words label fn data c k vm He Hw) as (vm0 & -> & Hcw). fold a in Hcw |- *.
  set (c0 := sysenter msrs _). destruct (Hpro c0 vm0) as (Hedi & Hpcs & Hpss & Hpfl & Hmem).
  destruct (prologue c0 vm0) as [cp vmp]. cbn [fst snd] in *. subst c0.
  apply (call_words_ext _ _ _ _ _ _ (Hmem (cr3_reg k))) in Hcw. unfold enter_kernel. fold (syscall_top k).
  cbn [with_gp r_edi r_cs r_ss r_eflags r_esp r_ecx] in Hedi |- *. unfold sysenter in Hpcs, Hpss, Hpfl, Hedi. cbn [with_gp with_esp with_code r_edi r_cs r_ss r_eflags] in Hpcs, Hpss, Hpfl, Hedi.
  rewrite Hcs in Hpcs, Hpss. change (Z.land 8 65532) with 8 in *.
  rewrite Hedi. destruct (pushes_spec shared 0 (cr3_reg k) [a; return_address] (syscall_top k) vmp) as (vm1 & -> & Hout & Hin);
    [cbn; lia|constructor; [unfold is_u32, a; lia|by constructor]|].
  change (4 * Z.of_nat (length [a; return_address])) with 8 in *.
  specialize (Hin (cr3_reg k) (or_introl eq_refl)). pose proof (Hin 0%nat a eq_refl) as Harg.
  change (Z.of_nat 0 + 1) with 1 in Harg. replace (syscall_top k - 4 * 1) with (syscall_top k - 8 + 4) in Harg by lia.
  rewrite (u32_small (syscall_top k - 8 + 4)) by (unfold is_u32; lia). rewrite Harg.
  assert (call_words (vm1 (cr3_reg k)) a label fn data) as Hcw1.
  { apply (call_words_ext (vmp (cr3_reg k))); [|done]. intros x Hx. apply Hout. intros [_ ?]. lia. }
  exists (with_esp (with_gp cp a 16 (r_ecx cp) (r_esp cp) 16) (syscall_top k - 8)), vm1. split; [exact Hcw1|]. cbn [with_esp with_gp r_cs r_ss r_ds r_eflags r_esp].
  split; [exact Hpcs|]. split; [exact Hpss|]. split; [done|].
  split; [rewrite Hpfl, Z.clearbit_eqb; apply andb_false_r|]. split; [done|].
  intros c2 k' vm2 Hb. destruct (Hbody _ _ _ _ _ _ _ Hb) as (Hesp & Hcr3 & Hslot & Hret).
  cbn [with_esp with_gp r_esp] in Hesp, Hslot. rewrite u32_small in Hesp, Hslot by (unfold is_u32; lia).
  rewrite Hb. cbn [mbind option_bind]. eexists. split; [reflexivity|].
  unfold leave_kernel, sysexit. cbn [with_esp with_gp with_code r_esp r_eax r_eip r_cs r_ss r_ds r_eflags r_ecx r_edx].
  rewrite Hcr3, Hesp, Hslot, Harg, Hret, Hcs. destruct Hcw1 as [-> _].
  split; [done|]. split; [done|].
  split; [rewrite (u32_small (a + 4)) by (unfold is_u32, a; lia); rewrite u32_small; unfold is_u32, a; lia|].
  split; [done|]. split; [done|]. split; [done|]. rewrite Z.setbit_eqb by lia. done.
Qed.
End calls.

(** C24: a system call reaches the kernel and comes back.  From ring 3, the stub
    leaves the return address, the code and the argument on the caller's stack
    and [do_syscall] is entered with their address, in ring 0, with the kernel's
    segments, with interrupts masked and on the thread's own system call stack;
    when it returns, the caller resumes in ring 3 after the call with its stack
    pointer, its segments, interrupts enabled, and the answer in [eax]. *)
Theorem system_call_roundtrip shared msrs after_sysexit return_address prologue body label fn data c k vm :
  let a := r_esp c - 12 in
  12 <= r_esp c < 4294967296 -> Forall is_u32 [data; fn; label] -> is_u32 return_address -> sysenter_cs msrs = 8 ->
  8 <= syscall_top k < 4294967296 -> (syscall_top k <= a \/ a + 12 <= syscall_top k - 8) ->
  prologue_ok prologue a -> body_ok body ->
  exists c1 vm1, call_words (vm1 (cr3_reg k)) a label fn data /\ r_cs c1 = 8 /\ r_ss c1 = 16 /\ r_ds c1 = 16 /\
    Z.testbit (r_eflags c1) 9 = false /\ r_esp c1 = syscall_top k - 8 /\
    forall c2 k' vm2, body a c1 k vm1 = Some (c2, k', vm2) ->
      exists c', system_call shared msrs after_sysexit return_address prologue body label fn data c k vm = Some (c', k', vm2) /\
        r_eax c' = r_eax c2 /\ r_eip c' = label /\ r_esp c' = r_esp c /\ r_cs c' = 0x1B /\ r_ss c' = 0x23 /\ r_ds c' = 0x23 /\
        Z.testbit (r_eflags c') 9 = true.
Proof. apply system_call_returns. Qed.

(** A kernel that answers the code of the call. *)
Definition with_eax_esp (c : Cpu) (a e : Z) : Cpu :=
  {| r_edi := r_edi c; r_esi := r_esi c; r_ebp := r_ebp c; r_esp := e; r_ebx := r_ebx c; r_edx := r_edx c;
     r_ecx := r_ecx c; r_eax := a; r_eip := r_eip c; r_cs := r_cs c; r_eflags := r_eflags c; r_ss := r_ss c;
     r_ds := r_ds c |}.
Definition echo_body (a : Z) (c : Cpu) (k : kernel) (vm : spaces) : option (Cpu * kernel * spaces) :=
  Some (with_eax_esp c (rd32 (vm (cr3_reg k)) (a + 4)) (r_esp c +w 4), k, vm).

Lemma system_call_roundtrip_witness :
  exists c' k' vm',
    system_call low_shared {| sysenter_cs := 8; sysenter_esp := 0x200000; sysenter_eip := 0x9100 |} 0x9150 0x9130
      (fun c vm => (c, vm)) echo_body 0x400123 9 77 user_cpu two_threads (fun _ _ => 0) = Some (c', k', vm') /\
    r_eax c' = 9 /\ r_eip c' = 0x400123 /\ r_esp c' = r_esp user_cpu /\ r_cs c' = 0x1B.
Proof.
  destruct (system_call_roundtrip low_shared {| sysenter_cs := 8; sysenter_esp := 0x200000; sysenter_eip := 0x9100 |} 0x9150 0x9130
    (fun c vm => (c, vm)) echo_body 0x400123 9 77 user_cpu two_threads (fun _ _ => 0))
    as (c1 & vm1 & (_ & Hfn & _) & _ & _ & _ & _ & _ & H).
  - cbn. lia.
  - repeat (constructor; [unfold is_u32; lia|]). constructor.
  - unfold is_u32. lia.
  - reflexivity.
  - vm_compute. split; [discriminate|reflexivity].
  - right. vm_compute. discriminate.
  - intros c vm. repeat split.
  - intros a c k vm c' k' vm' E. injection E as <- <- <-. repeat split.
  - destruct (H _ _ _ eq_refl) as (c' & E & Ha & Hi & He & Hc & _).
    exists c', two_threads, vm1. split; [exact E|]. split; [|split; [exact Hi|split; [exact He|exact Hc]]].
    rewrite Ha. exact Hfn.
Defined.
