(* ===== verification/Apic.v ===== *)
(** * The interrupt controllers: [system/include/devices/apic.h],
    [system/devices/apic.cpp], and [init_scheduler] of [system/scheduler.cpp]

    The controllers are memory-mapped devices: a class gives the loads and stores
    of 32-bit words and the machine registers the code uses, and further classes
    state what the manuals document of the registers. *)
From S2P Require Import Prelude Interrupts.

Definition LAPIC_ADDRESS : Z := 0xFEE00000.
Definition IOAPIC_ADDRESS : Z := 0xFEC00000.
Definition TIMER_IDT : Z := 0xE0.

(** ** The registers of the local APIC *)

Inductive lapic_member :=
  | reserved1 | ID | version | reserved2 | TPR | APR | PPR | EOI | RRD | LDR | DFR | SIVR
  | ISR (i : Z) | TMR (i : Z) | IRR (i : Z) | error_status | reserved3 | CMCI | ICR (i : Z)
  | lvt_timer | lvt_thermal | lvt_perf | lvt_lint0 | lvt_lint1 | lvt_error | timer_init | timer_count
  | reserved4 | timer_div | reserved5.

#[export] Instance lapic_member_eq_dec : EqDecision lapic_member.
Proof. solve_decision. Defined.

(** [sizeof(reg128)]. *)
Definition reg128 : Z := 4 + 12.

(** The members of the packed struct [LAPIC] with their sizes. *)
Definition lapic_members : list (lapic_member * Z) :=
  [(reserved1, 0x20); (ID, reg128); (version, reg128); (reserved2, 0x40); (TPR, reg128); (APR, reg128);
   (PPR, reg128); (EOI, reg128); (RRD, reg128); (LDR, reg128); (DFR, reg128); (SIVR, reg128)] ++
  map (fun i => (ISR i, reg128)) (seqZ 0 8) ++ map (fun i => (TMR i, reg128)) (seqZ 0 8) ++
  map (fun i => (IRR i, reg128)) (seqZ 0 8) ++
  [(error_status, reg128); (reserved3, 0x60); (CMCI, reg128)] ++ map (fun i => (ICR i, reg128)) (seqZ 0 2) ++
  [(lvt_timer, reg128); (lvt_thermal, reg128); (lvt_perf, reg128); (lvt_lint0, reg128); (lvt_lint1, reg128);
   (lvt_error, reg128); (timer_init, reg128); (timer_count, reg128); (reserved4, 0x40); (timer_div, reg128);
   (reserved5, 4)].

Fixpoint offset_from (l : list (lapic_member * Z)) (m : lapic_member) (off : Z) : Z :=
  match l with
  | [] => off
  | (m', size) :: l => if bool_decide (m' = m) then off else offset_from l m (off + size)
  end.
Definition lapic_offset (m : lapic_member) : Z := offset_from lapic_members m 0.

(** ** The machine the code runs on *)

Class Machine (St : Type) := {
  mmio_read : Z -> St -> Z * St;
  mmio_write : Z -> Z -> St -> St;
  rdmsr : Z -> St -> (Z * Z) * St;
  wrmsr : Z -> Z -> Z -> St -> St
}.

Section code.
Context {St : Type} `{!Machine St}.

Definition lapic_read (m : lapic_member) : St -> Z * St := mmio_read (LAPIC_ADDRESS + lapic_offset m).
Definition lapic_write (m : lapic_member) (v : Z) : St -> St := mmio_write (LAPIC_ADDRESS + lapic_offset m) (u32 v).

(** The constructor [LAPIC()] (its debug output reads are left out). *)
Definition new_LAPIC (s : St) : St :=
  let '((eax, edx), s) := rdmsr 0x1B s in
  let eax := Z.lor eax 0x800 in
  let s := wrmsr 0x1B eax edx s in
  let '(v, s) := lapic_read SIVR s in
  let s := lapic_write SIVR (Z.lor (Z.land v 0xFFFFFF0F) 0x100 +w 0xF0) s in
  let s := lapic_write DFR 0xFFFFFFFF s in
  let '(v, s) := lapic_read LDR s in
  let s := lapic_write LDR (Z.lor (Z.land v 0x00FFFFFF) 1) s in
  let s := lapic_write TPR 0 s in
  lapic_write lvt_error 0xD0 s.

Definition set_timer_vector (vector : Z) (s : St) : St :=
  let '(v, s) := lapic_read lvt_timer s in
  lapic_write lvt_timer (Z.lor (Z.lor (Z.land v 0xFFF8FF00) 0x00020000) vector) s.

Definition set_timer (timeout : Z) : St -> St := lapic_write timer_init timeout.
Definition send_eoi : St -> St := lapic_write EOI 1.

(** [IOAPIC]: [regsel] at offset 0, [iowin] at offset 16. *)
Definition regsel : Z := IOAPIC_ADDRESS.
Definition iowin : Z := IOAPIC_ADDRESS + reg128.

Definition set_irq_vector (IRQ vector : Z) (s : St) : St :=
  let addr := IRQ *w 2 +w 0x10 in
  let s := mmio_write regsel addr s in
  let '(v, s) := mmio_read iowin s in
  let s := mmio_write iowin (Z.land v 0xFFFE0000 +w vector) s in
  let s := mmio_write regsel (addr +w 1) s in
  let '(v, s) := mmio_read iowin s in
  mmio_write iowin (Z.land v 0xFFFE0000 +w 0) s.

Definition init_lapic : St -> St := new_LAPIC.
Definition init_ioapic (s : St) : St := snd (mmio_read iowin (mmio_write regsel 1 s)).

(** [init_scheduler]: the time stamp is kept for the on-screen tag only. *)
Definition init_scheduler (timer_handler : Z) (t : IDT) (s : St) : option (IDT * St) :=
  t ← idt_set TIMER_IDT timer_handler t; Some (t, set_timer_vector TIMER_IDT s).
End code.

(** ** What the devices promise *)

(** The page of the local APIC. *)
Definition in_lapic (a : Z) : Prop := LAPIC_ADDRESS <= a < LAPIC_ADDRESS + 4096.

(** The words of the local APIC that the code sets keep what is written, and
    model-specific registers do too. *)
Class LapicDevice (St : Type) `{!Machine St} := {
  lapic_word : St -> Z -> Z;
  lapic_word_range s a : is_u32 (lapic_word s a);
  lapic_read_word a s : in_lapic a -> mmio_read a s = (lapic_word s a, s);
  lapic_write_word a v s b : in_lapic a -> in_lapic b ->
    lapic_word (mmio_write a v s) b = if b =? a then u32 v else lapic_word s b;
  rdmsr_word r s : exists v, rdmsr r s = (v, s);
  wrmsr_word r lo hi s a : lapic_word (wrmsr r lo hi s) a = lapic_word s a
}.

(** The I/O APIC: [regsel] selects the register that [iowin] shows. *)
Class IoapicDevice (St : Type) `{!Machine St} := {
  io_reg : St -> Z -> Z;
  io_sel : St -> Z;
  io_reg_range s i : is_u32 (io_reg s i);
  io_select v s : io_sel (mmio_write regsel v s) = Z.land v 0xFF /\
    forall i, io_reg (mmio_write regsel v s) i = io_reg s i;
  io_read s : fst (mmio_read iowin s) = io_reg s (io_sel s) /\
    io_sel (snd (mmio_read iowin s)) = io_sel s /\ forall i, io_reg (snd (mmio_read iowin s)) i = io_reg s i;
  io_write v s : io_sel (mmio_write iowin v s) = io_sel s /\
    forall i, io_reg (mmio_write iowin v s) i = if i =? io_sel s then u32 v else io_reg s i
}.

(** ** The layout *)

Definition is_register (m : lapic_member) : bool :=
  match m with
  | reserved1 | reserved2 | reserved3 | reserved4 | reserved5 => false
  | ISR i | TMR i | IRR i => (0 <=? i) && (i <? 8)
  | ICR i => (0 <=? i) && (i <? 2)
  | _ => true
  end.

Definition registers : list lapic_member := filter (fun m => is_register m = true) (map fst lapic_members).

Lemma register_in m : is_register m = true -> m ∈ registers.
Proof.
  intros H. unfold registers. apply list_elem_of_filter. split; [done|].
  destruct m; try discriminate H; try (vm_compute; repeat (first [apply list_elem_of_here | apply list_elem_of_further]); fail).
  all: cbn in H; apply andb_prop in H as [H1 H2]; apply Z.leb_le in H1; apply Z.ltb_lt in H2.
  all: assert (i = 0 \/ i = 1 \/ i = 2 \/ i = 3 \/ i = 4 \/ i = 5 \/ i = 6 \/ i = 7) as
    [-> | [-> | [-> | [-> | [-> | [-> | [-> | ->]]]]]]] by lia; try lia.
  all: vm_compute; repeat (first [apply list_elem_of_here | apply list_elem_of_further]).
Qed.

(** The register map of the processor manual. *)
Definition manual_offset (m : lapic_member) : Z :=
  match m with
  | ID => 0x20 | version => 0x30 | TPR => 0x80 | APR => 0x90 | PPR => 0xA0 | EOI => 0xB0 | RRD => 0xC0
  | LDR => 0xD0 | DFR => 0xE0 | SIVR => 0xF0
  | ISR i => 0x100 + 0x10 * i | TMR i => 0x180 + 0x10 * i | IRR i => 0x200 + 0x10 * i
  | error_status => 0x280 | CMCI => 0x2F0 | ICR i => 0x300 + 0x10 * i
  | lvt_timer => 0x320 | lvt_thermal => 0x330 | lvt_perf => 0x340 | lvt_lint0 => 0x350 | lvt_lint1 => 0x360
  | lvt_error => 0x370 | timer_init => 0x380 | timer_count => 0x390 | timer_div => 0x3E0
  | _ => 0
  end.

(** C36: the packed struct [LAPIC] puts every register at the offset of the
    processor manual: the members before it, the reserved ones included, add up
    to that offset.  So the registers are 16-byte aligned, lie in the one page
    that is mapped for the controller and no two of them overlap. *)
Theorem lapic_layout m :
  is_register m = true ->
  lapic_offset m = manual_offset m /\ lapic_offset m mod 16 = 0 /\ 0 <= lapic_offset m <= 4096 - reg128 /\
  forall m', is_register m' = true -> m' <> m -> lapic_offset m + reg128 <= lapic_offset m' \/
    lapic_offset m' + reg128 <= lapic_offset m.
Proof.
  intros Hm%register_in.
  assert (Forall (fun m => lapic_offset m = manual_offset m /\ lapic_offset m mod 16 = 0 /\
    0 <= lapic_offset m <= 4096 - reg128 /\
    Forall (fun m' => m' = m \/ lapic_offset m + reg128 <= lapic_offset m' \/
      lapic_offset m' + reg128 <= lapic_offset m) registers) registers) as H.
  { apply (bool_decide_unpack _). vm_compute. reflexivity. }
  rewrite Forall_forall in H. destruct (H m Hm) as (H1 & H2 & H3 & H4). do 3 (split; [done|]).
  intros m' Hm'%register_in Hne. rewrite Forall_forall in H4. by destruct (H4 m' Hm').
Qed.

Lemma lapic_layout_witness : lapic_offset lvt_timer = 0x320.
Proof. destruct (lapic_layout lvt_timer eq_refl) as [H _]. exact H. Defined.

Lemma register_page m : is_register m = true -> in_lapic (LAPIC_ADDRESS + lapic_offset m).
Proof.
  intros Hm%register_in.
  assert (Forall (fun m => 0 <= lapic_offset m < 4096) registers) as H.
  { apply (bool_decide_unpack _). vm_compute. reflexivity. }
  rewrite Forall_forall in H. specialize (H m Hm). unfold in_lapic. cbn beta in H. lia.
Qed.

Lemma offset_inj m m' :
  is_register m = true -> is_register m' = true ->
  (lapic_offset m' =? lapic_offset m) = bool_decide (m' = m).
Proof.
  intros Hm%register_in Hm'%register_in.
  assert (Forall (fun m => Forall (fun m' =>
    (lapic_offset m' =? lapic_offset m) = bool_decide (m' = m)) registers) registers) as H.
  { apply (bool_decide_unpack _). vm_compute. reflexivity. }
  rewrite Forall_forall in H. specialize (H m Hm). rewrite Forall_forall in H. by apply H.
Qed.

(** ** What the routines do to the registers *)

Lemma is_u8_testbit_high v i : is_u8 v -> 8 <= i -> Z.testbit v i = false.
Proof.
  intros Hv Hi. destruct (decide (v = 0)) as [->|]; [apply Z.bits_0|]. apply Z.bits_above_log2; [unfold is_u8 in Hv; lia|].
  apply Z.lt_le_trans with 8; [|done]. apply Z.log2_lt_pow2; unfold is_u8 in Hv; lia.
Qed.

(** A sum without carries is the bitwise or. *)
Lemma add_disjoint_testbit a b i :
  0 <= i -> (forall j, 0 <= j -> Z.testbit a j && Z.testbit b j = false) ->
  Z.testbit (a + b) i = Z.testbit a i || Z.testbit b i.
Proof.
  intros Hi H. rewrite Z.add_nocarry_lxor.
  - rewrite Z.lxor_spec. specialize (H i Hi). by destruct (Z.testbit a i), (Z.testbit b i).
  - apply Z.bits_inj'. intros j Hj. rewrite Z.land_spec, Z.bits_0. by apply H.
Qed.

(** A constant mask, bit by bit, by evaluation. *)
Ltac mask_bits := intros; apply eqb_prop;
  match goal with |- eqb (Z.testbit ?c ?i) ?b = true =>
    let f := eval pattern i in (eqb (Z.testbit c i) b) in
    match f with ?g _ => apply (seqZ_forallb g 0 32); [reflexivity|lia] end end.

Lemma mask_timer_testbit i : 0 <= i < 32 -> Z.testbit 0xFFF8FF00 i = (8 <=? i) && (i <? 16) || (19 <=? i).
Proof. mask_bits. Qed.
Lemma irq_mask_testbit i : 0 <= i < 32 -> Z.testbit 0xFFFE0000 i = (17 <=? i).
Proof. mask_bits. Qed.
Lemma sivr_mask_testbit i : 0 <= i < 32 -> Z.testbit 0xFFFFFF0F i = (i <? 4) || (8 <=? i).
Proof. mask_bits. Qed.
Lemma f0_testbit i : 0 <= i < 32 -> Z.testbit 0xF0 i = (4 <=? i) && (i <? 8).
Proof. mask_bits. Qed.
Lemma low24_testbit i : 0 <= i < 32 -> Z.testbit 0x00FFFFFF i = (i <? 24).
Proof. mask_bits. Qed.
Lemma bit0_testbit i : 0 <= i < 32 -> Z.testbit 1 i = (i =? 0).
Proof. mask_bits. Qed.
Lemma bit8_testbit i : 0 <= i < 32 -> Z.testbit 0x100 i = (i =? 8).
Proof. mask_bits. Qed.

(** Above bit 31 a mask has no bit. *)
Lemma disjoint32 a b :
  is_u32 b -> (forall j, 0 <= j < 32 -> Z.testbit a j && Z.testbit b j = false) ->
  forall j, 0 <= j -> Z.testbit a j && Z.testbit b j = false.
Proof.
  intros Hb H j Hj. destruct (Z.lt_ge_cases j 32); [by apply H|].
  by rewrite (is_u32_testbit_high b), andb_false_r.
Qed.

Lemma sivr_testbit v i :
  is_u32 v -> 0 <= i < 32 ->
  Z.testbit (Z.lor (Z.land v 0xFFFFFF0F) 0x100 +w 0xF0) i =
    if (4 <=? i) && (i <=? 8) then true else Z.testbit v i.
Proof.
  intros Hv Hi. rewrite u32_testbit, add_disjoint_testbit by (lia || (apply disjoint32; [unfold is_u32; lia|];
    intros j Hj; rewrite Z.lor_spec, Z.land_spec, sivr_mask_testbit, f0_testbit, bit8_testbit by lia;
    split_ltb; cbn; rewrite ?andb_false_r; done || lia)).
  rewrite Z.lor_spec, Z.land_spec, sivr_mask_testbit, f0_testbit, bit8_testbit by lia.
  split_ltb; cbn; rewrite ?andb_true_r, ?andb_false_r, ?orb_false_r, ?orb_true_r; done || lia.
Qed.

Lemma ldr_testbit v i :
  0 <= i < 32 -> Z.testbit (Z.lor (Z.land v 0x00FFFFFF) 1) i = (i =? 0) || (i <? 24) && Z.testbit v i.
Proof.
  intros Hi. rewrite Z.lor_spec, Z.land_spec, low24_testbit, bit0_testbit by lia.
  split_ltb; cbn; rewrite ?andb_true_r, ?andb_false_r, ?orb_false_r, ?orb_true_r; done || lia.
Qed.

Section lapic.
Context {St : Type} `{!Machine St} `{!LapicDevice St}.
Implicit Types (s : St).

(** A register of the local APIC. *)
Definition lapic_reg s (m : lapic_member) : Z := lapic_word s (LAPIC_ADDRESS + lapic_offset m).

Lemma lapic_read_reg m s : is_register m = true -> lapic_read m s = (lapic_reg s m, s).
Proof. intros. by apply lapic_read_word, register_page. Qed.

Lemma lapic_write_reg m v s m' :
  is_register m = true -> is_register m' = true ->
  lapic_reg (lapic_write m v s) m' = if bool_decide (m' = m) then u32 v else lapic_reg s m'.
Proof.
  intros Hm Hm'. unfold lapic_reg, lapic_write. rewrite lapic_write_word, <- (offset_inj m m') by (done || by apply register_page).
  rewrite (u32_small (u32 v)) by apply u32_range.
  destruct (Z.eqb_spec (lapic_offset m') (lapic_offset m)), (Z.eqb_spec (LAPIC_ADDRESS + lapic_offset m') (LAPIC_ADDRESS + lapic_offset m));
    done || lia.
Qed.

(** The timer's entry of the local vector table, bit by bit. *)
Definition timer_entry (old vector : Z) (i : Z) : bool :=
  if i <? 8 then Z.testbit vector i
  else if i =? 17 then true
  else ((i <? 16) || (19 <=? i)) && Z.testbit old i.

Lemma bit17_testbit i : 0 <= i -> Z.testbit 0x00020000 i = (i =? 17).
Proof. intros. change 0x00020000 with (Z.shiftl 1 17). by apply pow2_testbit. Qed.

Lemma set_timer_vector_reg vector s m :
  is_u8 vector -> is_register m = true ->
  lapic_reg (set_timer_vector vector s) m =
    if bool_decide (m = lvt_timer) then Z.lor (Z.lor (Z.land (lapic_reg s lvt_timer) 0xFFF8FF00) 0x00020000) vector
    else lapic_reg s m.
Proof.
  intros Hv Hm. unfold set_timer_vector. rewrite lapic_read_reg, lapic_write_reg by done.
  case_bool_decide; [|done]. apply u32_small. pose proof (lapic_word_range s (LAPIC_ADDRESS + lapic_offset lvt_timer)).
  repeat apply is_u32_lor; [|unfold is_u32; lia|unfold is_u8, is_u32 in *; lia]. by apply is_u32_land.
Qed.

(** [set_timer_vector] programs the timer entry of the local APIC: the vector
    field is the argument, bit 17 is set (periodic mode), the mask bit and bit 18
    are clear, bits 8 to 15 and from 19 on keep their value, and every other
    register is unchanged. *)
Theorem timer_vector_spec vector s :
  is_u8 vector ->
  let s' := set_timer_vector vector s in
  (forall i, 0 <= i < 32 -> Z.testbit (lapic_reg s' lvt_timer) i = timer_entry (lapic_reg s lvt_timer) vector i) /\
  Z.testbit (lapic_reg s' lvt_timer) 16 = false /\
  (forall m, is_register m = true -> m <> lvt_timer -> lapic_reg s' m = lapic_reg s m).
Proof.
  intros Hv s'. unfold s'.
  assert (forall i, 0 <= i < 32 ->
    Z.testbit (lapic_reg (set_timer_vector vector s) lvt_timer) i = timer_entry (lapic_reg s lvt_timer) vector i) as H.
  { intros i Hi. rewrite set_timer_vector_reg, bool_decide_true by done.
    rewrite !Z.lor_spec, Z.land_spec, mask_timer_testbit, bit17_testbit by lia. unfold timer_entry.
    destruct (Z.ltb_spec i 8); [split_ltb; cbn; rewrite ?andb_false_r; done || lia|].
    rewrite (is_u8_testbit_high vector) by done. split_ltb; cbn; rewrite ?andb_true_r, ?andb_false_r, ?orb_false_r; try done; lia. }
  split; [exact H|]. split; [rewrite H by lia; reflexivity|].
  intros m Hm Hne. by rewrite set_timer_vector_reg, bool_decide_false by done.
Qed.

(** [init_lapic] leaves the controller ready: the spurious-interrupt register
    has the enable bit, a vector of 0xF0 to 0xFF whose low half is kept, and its
    other bits; every priority is let through ([TPR] is 0), errors go to vector
    0xD0, all processors are in one flat group, the low 24 bits of [LDR] are kept
    with bit 0 set, and no other register changes. *)
Theorem init_lapic_spec s :
  let s' := init_lapic s in
  (forall i, 0 <= i < 32 -> Z.testbit (lapic_reg s' SIVR) i =
     if (4 <=? i) && (i <=? 8) then true else Z.testbit (lapic_reg s SIVR) i) /\
  lapic_reg s' TPR = 0 /\ lapic_reg s' lvt_error = 0xD0 /\ lapic_reg s' DFR = all_ones /\
  (forall i, 0 <= i < 32 -> Z.testbit (lapic_reg s' LDR) i =
     (i =? 0) || (i <? 24) && Z.testbit (lapic_reg s LDR) i) /\
  (forall m, is_register m = true -> m <> SIVR -> m <> TPR -> m <> lvt_error -> m <> DFR -> m <> LDR ->
     lapic_reg s' m = lapic_reg s m).
Proof.
  intros s'. unfold s', init_lapic, new_LAPIC. destruct (rdmsr_word 0x1B s) as [[eax edx] ->].
  set (s1 := wrmsr _ _ _ s). assert (forall m, lapic_reg s1 m = lapic_reg s m) as H1 by (intros m; apply wrmsr_word).
  clearbody s1. rewrite !lapic_read_reg by done. cbv iota beta.
  repeat (split; [intros; rewrite !lapic_write_reg by done; rewrite ?bool_decide_true, ?bool_decide_false by done; rewrite ?H1|]).
  - rewrite u32_idem. apply sivr_testbit; [apply lapic_word_range|lia].
  - done.
  - done.
  - done.
  - rewrite u32_small by (apply is_u32_lor; [apply is_u32_land; [apply lapic_word_range|lia]|unfold is_u32; lia]).
    apply ldr_testbit; lia.
  - intros m Hm ? ? ? ? ?. rewrite !lapic_write_reg by done. by rewrite !bool_decide_false, H1 by done.
Qed.
End lapic.

Section ioapic.
Context {St : Type} `{!Machine St} `{!IoapicDevice St}.
Implicit Types (s : St).

(** One half of [set_irq_vector]: select a register, keep its bits from 17 on. *)
Definition redirect (addr v : Z) s : St :=
  let s := mmio_write regsel addr s in
  let '(w, s) := mmio_read iowin s in
  mmio_write iowin (Z.land w 0xFFFE0000 +w v) s.

Lemma redirect_reg addr v s i :
  0 <= addr < 256 ->
  io_reg (redirect addr v s) i =
    if i =? addr then Z.land (io_reg s addr) 0xFFFE0000 +w v else io_reg s i.
Proof.
  intros Ha. unfold redirect. destruct (io_select addr s) as [Hs Hr].
  change 0xFF with (Z.ones 8) in Hs. rewrite Z.land_ones, Z.mod_small in Hs by (cbn; lia).
  destruct (io_read (mmio_write regsel addr s)) as (H1 & H2 & H3).
  destruct (mmio_read iowin _) as [w s2]. cbn [fst snd] in *.
  destruct (io_write (Z.land w 0xFFFE0000 +w v) s2) as [_ H4].
  rewrite H4, H2, Hs, u32_idem. destruct (Z.eqb_spec i addr) as [->|]; [by rewrite H1, Hs, Hr|by rewrite H3, Hr].
Qed.

Lemma set_irq_vector_eq IRQ vector s :
  set_irq_vector IRQ vector s =
    redirect (IRQ *w 2 +w 0x10 +w 1) 0 (redirect (IRQ *w 2 +w 0x10) vector s).
Proof. unfold set_irq_vector, redirect. by destruct (mmio_read iowin _). Qed.

Lemma irq_entry_testbit w v i :
  is_u32 w -> is_u8 v -> 0 <= i < 32 ->
  Z.testbit (Z.land w 0xFFFE0000 +w v) i = (i <? 8) && Z.testbit v i || (17 <=? i) && Z.testbit w i.
Proof.
  intros Hw Hv Hi. rewrite u32_testbit, add_disjoint_testbit.
  - rewrite Z.land_spec, irq_mask_testbit by lia. destruct (Z.ltb_spec i 8).
    + split_ltb; cbn; rewrite ?andb_false_r, ?orb_false_r; done || lia.
    + rewrite (is_u8_testbit_high v) by done. split_ltb; cbn; rewrite ?andb_true_r, ?andb_false_r, ?orb_false_r; done || lia.
  - lia.
  - apply disjoint32; [unfold is_u8, is_u32 in *; lia|]. intros j Hj. rewrite Z.land_spec, irq_mask_testbit by lia.
    destruct (Z.ltb_spec j 8); [split_ltb; cbn; rewrite ?andb_false_r; done || lia|].
    by rewrite (is_u8_testbit_high v), andb_false_r.
  - lia.
Qed.

(** [set_irq_vector] routes one line: of the redirection entry of [IRQ] (two
    registers of the I/O APIC, from 0x10) the low word has the vector, fixed
    delivery, edge trigger and no mask, with its bits from 17 on kept; the high
    word keeps its bits from 17 on, the destination among them, and loses the
    others; and the entry of every other line is untouched. *)
Theorem irq_route_spec IRQ vector s :
  0 <= IRQ < 120 -> is_u8 vector ->
  let s' := set_irq_vector IRQ vector s in
  (forall i, 0 <= i < 32 -> Z.testbit (io_reg s' (0x10 + 2 * IRQ)) i =
     (i <? 8) && Z.testbit vector i || (17 <=? i) && Z.testbit (io_reg s (0x10 + 2 * IRQ)) i) /\
  (forall i, 0 <= i < 32 -> Z.testbit (io_reg s' (0x10 + 2 * IRQ + 1)) i =
     (17 <=? i) && Z.testbit (io_reg s (0x10 + 2 * IRQ + 1)) i) /\
  (forall r, r <> 0x10 + 2 * IRQ -> r <> 0x10 + 2 * IRQ + 1 -> io_reg s' r = io_reg s r).
Proof.
  intros HI Hv s'. unfold s'. rewrite set_irq_vector_eq.
  assert (IRQ *w 2 +w 0x10 = 0x10 + 2 * IRQ) as ->
    by (rewrite (u32_small (IRQ * 2)) by (unfold is_u32; lia); rewrite u32_small by (unfold is_u32; lia); lia).
  rewrite (u32_small (0x10 + 2 * IRQ + 1)) by (unfold is_u32; lia).
  split; [|split].
  - intros i Hi. rewrite !redirect_reg by lia. destruct (Z.eqb_spec (16 + 2 * IRQ) (16 + 2 * IRQ + 1)); [lia|].
    rewrite Z.eqb_refl. apply irq_entry_testbit; [apply io_reg_range|done|done].
  - intros i Hi. rewrite !redirect_reg, Z.eqb_refl by lia. destruct (Z.eqb_spec (16 + 2 * IRQ + 1) (16 + 2 * IRQ)); [lia|].
    rewrite irq_entry_testbit by (apply io_reg_range || done || (unfold is_u8; lia)).
    by rewrite Z.bits_0, andb_false_r.
  - intros r H1 H2. rewrite !redirect_reg by lia. by destruct (Z.eqb_spec r (16 + 2 * IRQ + 1)), (Z.eqb_spec r (16 + 2 * IRQ)).
Qed.
End ioapic.

(** ** A board that keeps these promises *)

Record Board := { words : Z -> Z; selected : Z; lines : Z -> Z }.

#[export] Instance board_machine : Machine Board := {
  mmio_read a b := (if a =? iowin then u32 (lines b (selected b)) else u32 (words b a), b);
  mmio_write a v b :=
    if a =? regsel then {| words := words b; selected := Z.land v 0xFF; lines := lines b |}
    else if a =? iowin then
      {| words := words b; selected := selected b; lines := fun i => if i =? selected b then u32 v else lines b i |}
    else {| words := fun x => if x =? a then u32 v else words b x; selected := selected b; lines := lines b |};
  rdmsr r b := ((0xFEE00900, 0), b);
  wrmsr r lo hi b := b
}.

#[export] Instance board_ioapic : IoapicDevice Board.
Proof.
  refine {| io_reg := fun b i => u32 (lines b i); io_sel := selected |}.
  - intros. apply u32_range.
  - by intros v s.
  - by intros s.
  - intros v s. split; [done|]. intros i. cbn.
    change (iowin =? regsel) with false. change (iowin =? iowin) with true. cbn.
    destruct (i =? selected s); [apply u32_idem|done].
Defined.

#[export] Instance board_lapic : LapicDevice Board.
Proof.
  refine {| lapic_word := fun b a => u32 (words b a) |}.
  - intros. apply u32_range.
  - intros a s Ha. cbn. destruct (Z.eqb_spec a iowin) as [->|]; [|done].
    unfold in_lapic, iowin, IOAPIC_ADDRESS, LAPIC_ADDRESS, reg128 in Ha. lia.
  - intros a v s b Ha Hb. unfold in_lapic, LAPIC_ADDRESS in *. cbn.
    destruct (Z.eqb_spec a regsel); [unfold regsel, IOAPIC_ADDRESS in *; lia|].
    destruct (Z.eqb_spec a iowin); [unfold iowin, IOAPIC_ADDRESS, reg128 in *; lia|]. cbn.
    destruct (b =? a); [apply u32_idem|done].
  - intros r s. by eexists.
  - done.
Defined.

Definition blank_board : Board := {| words := fun _ => 0x10000; selected := 0; lines := fun _ => 0xABCDEF12 |}.

Lemma timer_vector_spec_witness : Z.testbit (lapic_reg (set_timer_vector 0xE0 blank_board) lvt_timer) 16 = false.
Proof. destruct (timer_vector_spec 0xE0 blank_board ltac:(unfold is_u8; lia)) as (_ & H & _). exact H. Defined.

Lemma irq_route_spec_witness :
  let b := blank_board in
  io_reg (set_irq_vector 1 0x41 b) 0x14 = 0xABCDEF12 /\ Z.testbit (io_reg (set_irq_vector 1 0x41 b) 0x12) 0 = true.
Proof.
  intros b. destruct (irq_route_spec 1 0x41 b ltac:(lia) ltac:(unfold is_u8; lia)) as (H1 & _ & H3).
  split; [rewrite H3 by lia; reflexivity|]. change 0x12 with (0x10 + 2 * 1). rewrite H1 by lia. reflexivity.
Defined.
