(* ===== verification/Ata.v ===== *)
(** * The ATA disk in PIO mode: [system/include/devices/ata.h],
    [system/include/devices/storage.h], port I/O of [devices/io.h]

    The drive is a parameter: a state [D] and what an [in] or [out] instruction
    does to it.  The bounded polls run on [iter_until]. *)
From S2P Require Import Prelude.

Definition ATA_BSY : Z := 0x80.
Definition ATA_DRQ : Z := 0x08.
Definition ATA_DATA_PORT : Z := 0x1F0.
Definition ATA_ERROR_PORT : Z := 0x1F1.
Definition ATA_SECTOR_COUNT_PORT : Z := 0x1F2.
Definition ATA_LBA0_PORT : Z := 0x1F3.
Definition ATA_LBA1_PORT : Z := 0x1F4.
Definition ATA_LBA2_PORT : Z := 0x1F5.
Definition ATA_DRIVE_PORT : Z := 0x1F6.
Definition ATA_STATUS_PORT : Z := 0x1F7.
Definition ATA_COMMAND_PORT : Z := 0x1F7.
Definition ATA_ALT_STATUS_PORT : Z := 0x3F6.
Definition ATA_CONTROL_PORT : Z := 0x3F6.

(** The ports of the machine, as the driver uses them. *)
Class Ports (D : Type) := {
  inb : Z -> D -> Z * D;
  inw : Z -> D -> Z * D;
  outb : Z -> Z -> D -> D
}.

Section ata.
Context {D : Type} `{Ports D}.
Implicit Types (d : D).

Definition get_status_byte d : Z * D := inb ATA_STATUS_PORT d.
Definition get_error_byte d : Z * D := inb ATA_ERROR_PORT d.

Definition is_busy d : bool * D :=
  let '(status, d) := get_status_byte d in (negb (Z.land status ATA_BSY =? 0), d).
Definition is_data_ready d : bool * D :=
  let '(status, d) := get_status_byte d in (negb (Z.land status ATA_DRQ =? 0), d).

Fixpoint delay_loop (n : nat) d : D :=
  match n with O => d | S n => delay_loop n (snd (inb ATA_ALT_STATUS_PORT d)) end.
Definition delay d : D := delay_loop 256 d.

(** The poll of a status condition, at most [0x100000] times. *)
Definition poll (stop : D -> bool * D) d : bool * D :=
  match iter_until (fun d => let '(b, d) := stop d in if b then inr d else inl d) 0x100000 d with
  | inl d => (false, d)
  | inr d => (true, d)
  end.

Definition wait_while_busy d : bool * D :=
  poll (fun d => let '(b, d) := is_busy d in (negb b, d)) (delay d).
Definition wait_until_data_ready d : bool * D := poll is_data_ready (delay d).

Definition send_command (command : Z) d : Z * D :=
  let '(ok, d) := wait_while_busy d in
  if negb ok then (0, d) else (1, outb ATA_COMMAND_PORT command d).

(** The 256 words of the data port, in the order of [dst]. *)
Fixpoint read_words (n : nat) d : list Z * D :=
  match n with
  | O => ([], d)
  | S n =>
      let '(w, d) := inw 0x1F0 d in
      let '(ws, d) := read_words n d in (w :: ws, d)
  end.

(** [readsector(dst, lba28)]: the result and what was stored at [dst]. *)
Definition readsector (lba28 : Z) d : Z * list Z * D :=
  let d := outb ATA_CONTROL_PORT 0x02 d in
  let d := outb ATA_CONTROL_PORT 0x0 d in
  let d := outb ATA_DRIVE_PORT (u8 (Z.lor 0xE0 (Z.land (Z.shiftr lba28 24) 0x0F))) d in
  let '(ok, d) := wait_while_busy d in
  if negb ok then (0, [], d) else
  let d := outb ATA_SECTOR_COUNT_PORT 1 d in
  let d := outb ATA_LBA0_PORT (u8 lba28) d in
  let d := outb ATA_LBA1_PORT (u8 (Z.shiftr lba28 8)) d in
  let d := outb ATA_LBA2_PORT (u8 (Z.shiftr lba28 16)) d in
  let '(sent, d) := send_command 0x20 d in
  if sent =? 0 then (0, [], d) else
  let '(ready, d) := wait_until_data_ready d in
  if negb ready then (0, [], d) else
  let '(ws, d) := read_words 256 d in (1, ws, d).
End ata.

(** ** What the drive is asked for *)

(** A log of the port writes: reads leave it alone, a write appends. *)
Class PortLog (D : Type) `{Ports D} (log : D -> list (Z * Z)) : Prop := {
  log_inb p d : log (snd (inb p d)) = log d;
  log_inw p d : log (snd (inw p d)) = log d;
  log_outb p v d : log (outb p v d) = log d ++ [(p, v)]
}.

Section asked.
Context {D : Type} `{HP : Ports D} (log : D -> list (Z * Z)) `{HL : !PortLog D log}.

Lemma log_delay_loop n d : log (delay_loop n d) = log d.
Proof. revert d. induction n as [|n IH]; intros d; cbn [delay_loop]; [done|]. by rewrite IH, log_inb. Qed.

Lemma log_poll stop d : (forall d, log (snd (stop d)) = log d) -> log (snd (poll stop d)) = log d.
Proof.
  intros Hs. unfold poll. rewrite iter_until_unfold. generalize (Z.to_nat 0x100000) as n. intros n.
  revert d. induction n as [|n IH]; intros d; cbn [iter_until_nat]; [done|].
  pose proof (Hs d) as E. destruct (stop d) as [[] d1]; cbn [and_then snd] in *; [done|]. by rewrite IH.
Qed.

Lemma log_busy d : log (snd (is_busy d)) = log d.
Proof. unfold is_busy, get_status_byte. pose proof (log_inb ATA_STATUS_PORT d). by destruct (inb _ d). Qed.

Lemma log_ready d : log (snd (is_data_ready d)) = log d.
Proof. unfold is_data_ready, get_status_byte. pose proof (log_inb ATA_STATUS_PORT d). by destruct (inb _ d). Qed.

Lemma log_wait_busy d : log (snd (wait_while_busy d)) = log d.
Proof.
  unfold wait_while_busy. rewrite log_poll; [apply log_delay_loop|].
  intros d'. pose proof (log_busy d'). by destruct (is_busy d').
Qed.

Lemma log_wait_ready d : log (snd (wait_until_data_ready d)) = log d.
Proof. unfold wait_until_data_ready. rewrite log_poll; [apply log_delay_loop|apply log_ready]. Qed.

Lemma read_words_spec n d : length (fst (read_words n d)) = n /\ log (snd (read_words n d)) = log d.
Proof.
  revert d. induction n as [|n IH]; intros d; cbn [read_words]; [done|].
  pose proof (log_inw 0x1F0 d) as E. destruct (inw 0x1F0 d) as [w d1]. destruct (IH d1) as [H1 H2].
  destruct (read_words n d1) as [ws d2]. cbn in *. by rewrite H1, H2, E.
Qed.

(** The sector the registers of a log name: the last write of each wins. *)
Definition reg (p : Z) (l : list (Z * Z)) : Z :=
  foldl (fun v '(q, x) => if q =? p then x else v) 0 l.
Definition addressed (l : list (Z * Z)) : Z :=
  reg ATA_LBA0_PORT l + 256 * reg ATA_LBA1_PORT l + 65536 * reg ATA_LBA2_PORT l
  + 16777216 * (reg ATA_DRIVE_PORT l mod 16).

Lemma reg_snoc p l q v : reg p (l ++ [(q, v)]) = if q =? p then v else reg p l.
Proof. unfold reg. by rewrite foldl_app. Qed.

Lemma addressed_bytes lba : 0 <= lba < 268435456 ->
  u8 lba + 256 * u8 (Z.shiftr lba 8) + 65536 * u8 (Z.shiftr lba 16)
  + 16777216 * (u8 (Z.lor 0xE0 (Z.land (Z.shiftr lba 24) 0x0F)) mod 16) = lba.
Proof.
  intros Hl. assert (u8 (Z.lor 0xE0 (Z.land (Z.shiftr lba 24) 0x0F)) mod 16 = lba / 16777216) as ->.
  { change 0x0F with (Z.ones 4). rewrite Z.land_ones, Z.shiftr_div_pow2 by lia.
    change (2 ^ 24) with 16777216. change (2 ^ 4) with 16. rewrite (Z.mod_small (lba / 16777216)) by zdm.
    pose proof (seqZ_forallb (fun x => u8 (Z.lor 0xE0 x) mod 16 =? x) 0 16 ltac:(vm_compute; reflexivity)
      (lba / 16777216) ltac:(zdm)) as E. by apply Z.eqb_eq in E. }
  rewrite !Z.shiftr_div_pow2 by lia. change (2 ^ 8) with 256. change (2 ^ 16) with 65536.
  unfold u8. zdm.
Qed.
End asked.

(** When [readsector] succeeds, the last commands sent to the drive are one
    read of one sector, the address registers hold the sector number asked for,
    and 256 words were stored; a failure stores nothing. *)
Theorem readsector_asks {D} `{HP : Ports D} (log : D -> list (Z * Z)) `{HL : !PortLog D log} lba d :
  0 <= lba < 268435456 ->
  let '(ok, ws, d') := readsector lba d in
  (ok = 1 /\ length ws = 256%nat /\ addressed (log d') = lba /\ reg ATA_SECTOR_COUNT_PORT (log d') = 1 /\
   exists l, log d' = l ++ [(ATA_COMMAND_PORT, 0x20)])
  \/ (ok = 0 /\ ws = []).
Proof.
  intros Hl. unfold readsector.
  set (d1 := outb ATA_DRIVE_PORT _ _).
  pose proof (log_wait_busy log d1) as L1. destruct (wait_while_busy d1) as [[] d2]; cbn [snd negb] in *; [|by right].
  set (d3 := outb ATA_LBA2_PORT _ _). unfold send_command.
  pose proof (log_wait_busy log d3) as L3. destruct (wait_while_busy d3) as [[] d4]; cbn [snd negb] in *; [|by right].
  change (1 =? 0) with false. cbn iota.
  pose proof (log_wait_ready log (outb ATA_COMMAND_PORT 0x20 d4)) as L4.
  destruct (wait_until_data_ready _) as [[] d5]; cbn [snd negb] in *; [|by right].
  pose proof (read_words_spec log 256 d5) as [Hn L5]. destruct (read_words 256 d5) as [ws d6]. cbn [fst snd] in *.
  left. rewrite L5, L4, log_outb, L3. unfold d3. rewrite !log_outb, L1. unfold d1. rewrite log_outb.
  unfold addressed. rewrite !reg_snoc. split_and!; try done; [|by eexists].
  by apply addressed_bytes.
Qed.

(** A drive that is always ready and answers word 7; its state is its log. *)
#[local]
Instance ready_drive : Ports (list (Z * Z)) := {
  inb := fun _ d => (ATA_DRQ, d);
  inw := fun _ d => (7, d);
  outb := fun p v d => d ++ [(p, v)]
}.

#[local]
Instance ready_drive_log : PortLog (list (Z * Z)) id.
Proof. by split. Qed.

Lemma readsector_asks_witness :
  let '(ok, ws, d') := readsector 0x123456 [] in
  (ok = 1 /\ length ws = 256%nat /\ addressed d' = 0x123456 /\ reg ATA_SECTOR_COUNT_PORT d' = 1 /\
   exists l, d' = l ++ [(ATA_COMMAND_PORT, 0x20)]) \/ (ok = 0 /\ ws = []).
Proof. apply (readsector_asks id 0x123456 []). lia. Defined.
