(* ===== verification/Tar.v ===== *)
(** * The tar file system: [system/include/devices/tar.h]

    The disk is a function from sectors to their 512 bytes ([readsector] of the
    device, which always fills the buffer).  Memory is that of [Str]; a local
    buffer is the bytes of the sector, and the copies out of it are the bytes
    [memcpy] moves ([Str.memcpy_spec]). *)
From S2P Require Import Prelude Str.

Definition BYTES_PER_SECTOR : Z := 512.

Record TarFile := { header_sector : Z; current_sector : Z; cursor : Z; size : Z }.

Definition with_sector (f : TarFile) (s : Z) : TarFile :=
  {| header_sector := header_sector f; current_sector := s; cursor := cursor f; size := size f |}.

(** [memcpy(dst, src, num)] from a buffer outside the memory. *)
Definition copy_in (dst : Z) (src : Z -> Z) (num : Z) (m : mem) : mem :=
  fun a => if (dst <=? a) && (a <? dst + num) then src (a - dst) else m a.

(** [parse_octal(str, len)]: [get] is the character at an index. *)
Fixpoint parse_octal_from (n : nat) (get : Z -> Z) (i result : Z) : Z :=
  match n with
  | O => result
  | S n =>
      if (48 <=? get i) && (get i <=? 57)
      then parse_octal_from n get (i + 1) ((result <<w 3) +w (get i - 48)) else result
  end.
Definition parse_octal (get : Z -> Z) (len : Z) : Z := parse_octal_from (Z.to_nat len) get 0 0.

(** The offsets of [TarHeader]. *)
Definition header_name : Z := 0.
Definition header_size : Z := 124.

Definition get_size (data : Z -> Z) : Z := parse_octal (fun i => data (header_size + i)) 12.

Section tar.
Context (disk : Z -> Z -> Z).
Implicit Types (f : TarFile) (m : mem).

Definition tar_seek (offset : Z) f : Z * TarFile :=
  if (offset <? 0) || (size f <=? u32 offset) then (0, f) else
  (1, {| header_sector := header_sector f;
         current_sector := u32 (header_sector f + 1 + offset / BYTES_PER_SECTOR);
         cursor := offset; size := size f |}).

(** The loop over whole sectors. *)
Fixpoint read_sectors (n : nat) (dstptr : Z) f m : Z * TarFile * mem :=
  match n with
  | O => (dstptr, f, m)
  | S n =>
      let m := copy_in dstptr (disk (current_sector f)) BYTES_PER_SECTOR m in
      read_sectors n (dstptr + BYTES_PER_SECTOR) (with_sector f (current_sector f +w 1)) m
  end.

(** [read(dst, length)]: the result, the file and the memory. *)
Definition tar_read (dst length : Z) f m : Z * TarFile * mem :=
  let len := s32 length in
  if size f <? u32 (cursor f + len) then (0, f, m) else
  let cursor_mod_512 := Z.land (cursor f) 0x1FF in
  let '(len, dstptr, f, m) :=
    if negb (cursor_mod_512 =? 0) then
      let tmp := disk (current_sector f) in
      let end_ := cursor_mod_512 + len in
      let max := if BYTES_PER_SECTOR <? end_ then BYTES_PER_SECTOR else end_ in
      let bytes_to_read := max - cursor_mod_512 in
      let m := copy_in dst (fun i => tmp (cursor_mod_512 + i)) (u32 bytes_to_read) m in
      (len - bytes_to_read, dst + bytes_to_read, with_sector f (current_sector f +w 1), m)
    else (len, dst, f, m) in
  let whole_sects := u32 (Z.quot len BYTES_PER_SECTOR) in
  let '(dstptr, f, m) := read_sectors (Z.to_nat whole_sects) dstptr f m in
  let end_mod_512 := Z.land len 0x1FF in
  let m := if negb (end_mod_512 =? 0) then copy_in dstptr (disk (current_sector f)) end_mod_512 m else m in
  (length,
   {| header_sector := header_sector f; current_sector := current_sector f;
      cursor := cursor f +w length; size := size f |}, m).

(** ** [TarFS] *)

Definition root_sector : Z := 1.
Definition max_files : Z := 16.

(** [alloc_file]: the index of the first file whose size is 0. *)
Fixpoint alloc_file_from (n : nat) (i : Z) (files : Z -> TarFile) : option Z :=
  match n with
  | O => None
  | S n => if size (files i) =? 0 then Some i else alloc_file_from n (i + 1) files
  end.
Definition alloc_file (files : Z -> TarFile) : option Z := alloc_file_from (Z.to_nat max_files) 0 files.

(** [free_file] only sets the device pointer again. *)
Definition free_file f : TarFile := f.

(** The search, one header per round; [hdr] is the address of [tar_header], which
    each round overwrites as a whole, in the memory [m] of the call.  The source
    loops until a header with an empty name: [None] is one more round than the
    fuel. *)
Fixpoint find_from (n : nat) (hdr name name_len sector : Z) m : option (Z * mem) :=
  match n with
  | O => None
  | S n =>
      let m1 := copy_in hdr (disk sector) 512 m in
      if m1 (hdr + header_name) =? 0 then Some (0, m1) else
      if strncmp m1 (hdr + header_name) name name_len =? 0 then Some (sector, m1) else
      find_from n hdr name name_len
        (sector +w (1 + (get_size (fun i => m1 (hdr + i)) +w BYTES_PER_SECTOR -w 1) / BYTES_PER_SECTOR)) m
  end.

Definition find_file_sector (fuel : nat) (hdr name : Z) m : option (Z * mem) :=
  let name_len := strnlen m name 0x100 in
  find_from fuel hdr name name_len root_sector m.

(** [open(name)]: the index of the file, [None] inside for null. *)
Definition tar_open (fuel : nat) (hdr name : Z) (files : Z -> TarFile) m
    : option (option Z * (Z -> TarFile) * mem) :=
  match alloc_file files with
  | None => Some (None, files, m)
  | Some i =>
      '(sector, m) ← find_file_sector fuel hdr name m;
      let f := {| header_sector := sector; current_sector := current_sector (files i);
                  cursor := cursor (files i); size := size (files i) |} in
      let put := fun f j => if j =? i then f else files j in
      if sector =? 0 then Some (None, put (free_file f), m) else
      let f := {| header_sector := sector; current_sector := current_sector f; cursor := cursor f;
                  size := get_size (fun k => m (hdr + k)) |} in
      Some (Some i, put (snd (tar_seek 0 f)), m)
  end.
End tar.

(** ** Lemmas *)

Lemma land_511 x : 0 <= x -> Z.land x 0x1FF = x mod 512.
Proof. intros. change 0x1FF with (Z.ones 9). by rewrite Z.land_ones by lia. Qed.

Section read.
Context (disk : Z -> Z -> Z).
Implicit Types (f : TarFile) (m : mem).

(** Byte [k] of the file whose header is at a sector. *)
Definition content (header k : Z) : Z := disk (header + 1 + k / 512) (k mod 512).

(** The sector of the file is the one of its cursor. *)
Definition in_sync f : Prop := current_sector f = header_sector f + 1 + cursor f / 512.

(** [m'] is [m] with the [n] bytes of the file from [k] on stored at [dst]. *)
Definition stored header k dst n m m' : Prop :=
  forall a, m' a = if (dst <=? a) && (a <? dst + n) then content header (k + (a - dst)) else m a.

Lemma stored_trans header k dst n1 n2 m m1 m2 :
  0 <= n1 -> 0 <= n2 -> stored header k dst n1 m m1 -> stored header (k + n1) (dst + n1) n2 m1 m2 ->
  stored header k dst (n1 + n2) m m2.
Proof.
  intros H1 H2 S1 S2 a. rewrite S2, S1. split_ltb; cbn; try lia; f_equal; lia.
Qed.

Lemma copy_in_stored header k dst n m :
  0 <= n -> k mod 512 + n <= 512 -> 
  stored header k dst n m (copy_in dst (fun i => disk (header + 1 + k / 512) (k mod 512 + i)) n m).
Proof.
  intros Hn Hb a. unfold copy_in, content. split_ltb; cbn; try done.
  f_equal; [f_equal|]; zdm.
Qed.

(** Whole sectors. *)
Lemma read_sectors_spec n dst f m header k :
  k mod 512 = 0 -> current_sector f = header + 1 + k / 512 -> 0 <= header -> 0 <= k ->
  header + 1 + k / 512 + Z.of_nat n < 4294967296 ->
  let '(dst', f', m') := read_sectors disk n dst f m in
  dst' = dst + 512 * Z.of_nat n /\ stored header k dst (512 * Z.of_nat n) m m' /\
  current_sector f' = header + 1 + (k + 512 * Z.of_nat n) / 512 /\
  header_sector f' = header_sector f /\ cursor f' = cursor f /\ size f' = size f.
Proof.
  revert dst f m k. induction n as [|n IH]; intros dst f m k Hk Hc Hh Hk0 Hb; cbn [read_sectors].
  - rewrite Z.mul_0_r, !Z.add_0_r. split_and!; try done. intros a. split_ltb; cbn; done || lia.
  - assert (current_sector f +w 1 = header + 1 + (k + 512) / 512) as E.
    { rewrite Hc, u32_small by (unfold is_u32; zdm). zdm. }
    set (m1 := copy_in dst (disk (current_sector f)) BYTES_PER_SECTOR m).
    assert (stored header k dst 512 m m1) as S1.
    { intros a. unfold m1, copy_in, content, BYTES_PER_SECTOR. rewrite Hc. split_ltb; cbn; try done. f_equal; zdm. }
    specialize (IH (dst + 512) (with_sector f (current_sector f +w 1)) m1 (k + 512) ltac:(zdm) E Hh ltac:(lia) ltac:(zdm)).
    change (dst + BYTES_PER_SECTOR) with (dst + 512). fold m1.
    destruct (read_sectors disk n (dst + 512) _ m1) as [[dst' f'] m'].
    destruct IH as (-> & S2 & C2 & E1 & E2 & E3). split_and!; try done; try lia.
    + replace (512 * Z.of_nat (S n)) with (512 + 512 * Z.of_nat n) by lia. by apply (stored_trans _ _ _ _ _ m m1); try lia.
    + rewrite C2. f_equal. f_equal. lia.
Qed.
End read.

(** The bytes up to the end of a started sector. *)
Lemma read_head disk dst length f m : let c := cursor f mod 512 in let head := if c =? 0 then 0 else Z.min length (512 - c) in
  in_sync f -> 0 <= header_sector f < 2147483648 -> 0 <= cursor f < 2147483648 -> 0 <= length ->
  exists f1 m1, (if negb (c =? 0) then
      (length - ((if 512 <? c + length then 512 else c + length) - c),
       dst + ((if 512 <? c + length then 512 else c + length) - c), with_sector f (current_sector f +w 1),
       copy_in dst (fun i => disk (current_sector f) (c + i)) (u32 ((if 512 <? c + length then 512 else c + length) - c)) m)
     else (length, dst, f, m)) = (length - head, dst + head, f1, m1) /\
     stored disk (header_sector f) (cursor f) dst head m m1 /\
     header_sector f1 = header_sector f /\ size f1 = size f /\ cursor f1 = cursor f /\
     current_sector f1 = current_sector f + (if c =? 0 then 0 else 1).
Proof.
  intros c head Hs Hh Hc Hl. unfold in_sync in Hs. assert (0 <= c < 512) as Hcr by (apply Z.mod_pos_bound; lia).
  unfold head. destruct (Z.eqb_spec c 0) as [Hc0|Hc0]; cbn [negb].
  - exists f, m. rewrite Z.sub_0_r, !Z.add_0_r. split_and!; try done. intros a. split_ltb; cbn; done || lia.
  - assert ((if 512 <? c + length then 512 else c + length) - c = Z.min length (512 - c)) as ->
      by (split_ltb; lia).
    rewrite (u32_small (Z.min length (512 - c))) by (unfold is_u32; lia).
    eexists _, _. split; [reflexivity|]. cbn. split_and!; try done.
    + rewrite Hs. apply copy_in_stored; unfold c in *; lia.
    + apply u32_small. unfold is_u32. zdm.
Qed.

(** The bytes of the last sector. *)
Lemma read_tail disk dst n sec m m1 header k : 0 <= k -> 0 <= n -> (k + n - n mod 512) mod 512 = 0 ->
  sec = header + 1 + (k + n - n mod 512) / 512 -> stored disk header k dst (n - n mod 512) m m1 ->
  stored disk header k dst n m (if negb (n mod 512 =? 0) then copy_in (dst + (n - n mod 512)) (disk sec) (n mod 512) m1 else m1).
Proof.
  intros Hk Hn Hal Hs S1. destruct (Z.eqb_spec (n mod 512) 0) as [Hz|Hz]; cbn [negb].
  - by rewrite Hz, Z.sub_0_r in S1.
  - replace n with (n - n mod 512 + n mod 512) at 1 by lia. apply (stored_trans _ _ _ _ _ _ m m1); [zdm|zdm|done|].
    intros a. unfold copy_in, content. rewrite Hs. split_ltb; cbn; try done; try lia. f_equal; zdm.
Qed.

(** A read inside the file. *)
Lemma tar_read_ok disk dst length f m :
  in_sync f -> 0 <= header_sector f -> 0 <= cursor f -> 0 <= length -> cursor f + length <= size f ->
  size f < 2147483648 -> header_sector f < 2147483648 ->
  let '(ret, f', m') := tar_read disk dst length f m in
  ret = length /\ stored disk (header_sector f) (cursor f) dst length m m' /\
  header_sector f' = header_sector f /\ size f' = size f /\ cursor f' = cursor f + length /\
  (in_sync f' <-> cursor f mod 512 = 0 \/ 512 <= cursor f mod 512 + length).
Proof.
  intros Hs Hh Hc Hl Hsz Hsm Hhm. unfold tar_read. rewrite s32_small by (unfold is_s32; lia).
  rewrite (u32_small (cursor f + length)) by (unfold is_u32; lia).
  destruct (Z.ltb_spec (size f) (cursor f + length)); [lia|].
  rewrite land_511 by done. unfold BYTES_PER_SECTOR.
  set (c := cursor f mod 512). assert (0 <= c < 512) as Hcr by (apply Z.mod_pos_bound; lia).
  set (head := if c =? 0 then 0 else Z.min length (512 - c)).
  destruct (read_head disk dst length f m Hs ltac:(lia) ltac:(lia) Hl) as (f1 & m1 & E0 & S1 & E1 & E2 & E3 & E4).
  fold c head in E0, S1, E4. rewrite E0. unfold in_sync in Hs.
  set (rest := length - head). assert (0 <= head <= length) as Hhead by (unfold head; split_ltb; lia).
  assert (rest = 0 \/ (cursor f + head) mod 512 = 0) as Hal by (unfold rest, head; split_ltb; unfold c in *; zdm).
  rewrite (Z.quot_div_nonneg rest 512) by lia. rewrite u32_small by (unfold is_u32; zdm).
  destruct Hal as [Hr0|Hal].
  - rewrite Hr0. cbn [Z.to_nat Z.div read_sectors]. change (Z.to_nat (0 / 512)) with 0%nat. cbn [read_sectors].
    change (Z.land 0 511) with 0. cbn [Z.eqb negb]. unfold in_sync. cbn [header_sector size cursor current_sector].
    rewrite E1, E2, E3, E4, Hs, u32_small by (unfold is_u32; lia).
    split_and!; try done; [by replace length with head by lia|].
    unfold rest, head in Hr0. destruct (Z.eqb_spec c 0) as [Hc0|]; unfold c in *; split; intros; zdm.
  - pose proof (read_sectors_spec disk (Z.to_nat (rest / 512)) (dst + head) f1 m1 (header_sector f) (cursor f + head)
      Hal) as Hrs.
    assert (0 <= rest / 512 <= 4194304) as Hw by zdm.
    assert (header_sector f + 1 + cursor f / 512 + (if c =? 0 then 0 else 1)
            = header_sector f + 1 + (cursor f + head) / 512) as Esec.
    { clear Hrs S1 E1 E2 E3 E4 Hs. unfold head, rest, c in *. destruct (Z.eqb_spec (cursor f mod 512) 0); zdm. }
    assert ((cursor f + head) / 512 <= 4194304) by zdm.
    rewrite E4, Hs in Hrs. specialize (Hrs Esec Hh ltac:(lia) ltac:(rewrite Z2Nat.id by lia; lia)).
    destruct (read_sectors disk _ (dst + head) f1 m1) as [[dst2 f2] m2].
    destruct Hrs as (-> & S2 & C2 & F1 & F2 & F3). rewrite Z2Nat.id in * by zdm.
    rewrite land_511 by lia. unfold in_sync. cbn [header_sector size cursor current_sector].
    rewrite F1, F2, F3, E1, E2, E3, C2, u32_small by (unfold is_u32; lia).
    split_and!; try done.
    + replace length with (head + rest) by (unfold rest; lia). apply (stored_trans _ _ _ _ _ _ m m1); [lia|lia|done|].
      replace (512 * (rest / 512)) with (rest - rest mod 512) in S2, C2 |- * by zdm.
      apply read_tail; [lia|lia|zdm| |exact S2]. f_equal. f_equal. lia.
    + unfold head, rest, c in *. split; intros; destruct (Z.eqb_spec (cursor f mod 512) 0); zdm.
Qed.

(** A read past the end reads nothing. *)
Lemma tar_read_eof disk dst length f m :
  0 <= cursor f -> 0 <= length -> cursor f + length < 2147483648 -> size f < cursor f + length ->
  tar_read disk dst length f m = (0, f, m).
Proof.
  intros Hc Hl Hs He. unfold tar_read. rewrite s32_small by (unfold is_s32; lia). rewrite u32_small by (unfold is_u32; lia).
  by destruct (Z.ltb_spec (size f) (cursor f + length)); [|lia].
Qed.

(** C17: [read] of a range inside the file, from a file whose sector is that of its
    cursor, stores exactly the bytes of the file at [dst], touches no other
    memory, answers the length and advances the cursor; the sector stays that of
    the cursor except when the range starts inside a sector and ends before its
    end: then it is one sector too far and the next read gets wrong data. *)
Theorem tar_read_spec disk dst length f m :
  in_sync f -> 0 <= header_sector f -> 0 <= cursor f -> 0 <= length -> cursor f + length <= size f ->
  size f < 2147483648 -> header_sector f < 2147483648 ->
  let '(ret, f', m') := tar_read disk dst length f m in
  ret = length /\ stored disk (header_sector f) (cursor f) dst length m m' /\
  header_sector f' = header_sector f /\ size f' = size f /\ cursor f' = cursor f + length /\
  (in_sync f' <-> cursor f mod 512 = 0 \/ 512 <= cursor f mod 512 + length).
Proof. apply tar_read_ok. Qed.

Definition abc_disk (s i : Z) : Z := u8 (s + i).
Definition abc_file : TarFile := {| header_sector := 1; current_sector := 2; cursor := 500; size := 2000 |}.

Lemma tar_read_spec_witness :
  let '(ret, f', m') := tar_read abc_disk 0x1000 1000 abc_file (fun _ => 0) in
  ret = 1000 /\ cursor f' = 1500 /\ m' 0x1000 = content abc_disk 1 500.
Proof.
  pose proof (tar_read_spec abc_disk 0x1000 1000 abc_file (fun _ => 0)) as H.
  destruct (tar_read abc_disk 0x1000 1000 abc_file (fun _ => 0)) as [[ret f'] m'].
  destruct H as (E1 & E2 & _ & _ & E3 & _); try (cbn; lia); [reflexivity|].
  split; [exact E1|]. split; [exact E3|]. apply E2.
Defined.

(** ** Sizes *)

(** The digits of a size, as an archiver writes them: [n] octal digits, most
    significant first. *)
Definition octal_digit (n i v : Z) : Z := 48 + Z.land (Z.shiftr v (3 * (n - 1 - i))) 7.

Lemma parse_octal_digits n get v k :
  0 <= v < 8 ^ Z.of_nat n -> Z.of_nat n <= 11 -> 0 <= k -> k * 8 ^ Z.of_nat n + v < 4294967296 ->
  forall i, (forall j, 0 <= j < Z.of_nat n -> get (i + j) = octal_digit (Z.of_nat n) j v) ->
  parse_octal_from n get i k = k * 8 ^ Z.of_nat n + v.
Proof.
  revert v k. induction n as [|n IH]; intros v k Hv Hn Hk Hb i Hget; cbn [parse_octal_from].
  { cbn in Hv. cbn. lia. }
  rewrite Nat2Z.inj_succ, Z.pow_succ_r in * by lia.
  assert (0 < 8 ^ Z.of_nat n) as Hp by (apply Z.pow_pos_nonneg; lia).
  set (P := 8 ^ Z.of_nat n) in *.
  assert (get i = 48 + v / P) as Hd.
  { rewrite <- (Z.add_0_r i), Hget by lia. unfold octal_digit. f_equal.
    replace (3 * (Z.succ (Z.of_nat n) - 1 - 0)) with (3 * Z.of_nat n) by lia.
    rewrite Z.shiftr_div_pow2, Z.pow_mul_r by lia. change (2 ^ 3) with 8. fold P.
    change 7 with (Z.ones 3). rewrite Z.land_ones by lia. apply Z.mod_small. change (2 ^ 3) with 8.
    split; [apply Z.div_pos; lia|]. apply Z.div_lt_upper_bound; lia. }
  assert (0 <= v / P < 8) as Hq by (split; [apply Z.div_pos; lia|apply Z.div_lt_upper_bound; lia]).
  rewrite Hd. destruct (Z.leb_spec 48 (48 + v / P)), (Z.leb_spec (48 + v / P) 57); try lia. cbn [andb].
  pose proof (Z.div_mod v P ltac:(lia)) as Ev. pose proof (Z.mod_pos_bound v P Hp) as Hm.
  assert ((k <<w 3) +w (48 + v / P - 48) = k * 8 + v / P) as ->.
  { change (3 mod 32) with 3. rewrite Z.shiftl_mul_pow2 by lia. change (2 ^ 3) with 8.
    rewrite (u32_small (k * 8)) by (unfold is_u32; nia). rewrite u32_small by (unfold is_u32; nia). lia. }
  rewrite (IH (v mod P) (k * 8 + v / P)); try lia.
  intros j Hj. replace (i + 1 + j) with (i + (1 + j)) by lia. rewrite Hget by lia. unfold octal_digit.
  f_equal. rewrite Z.shiftr_div_pow2, Z.shiftr_div_pow2 by lia.
  change 7 with (Z.ones 3). rewrite !Z.land_ones by lia. change (2 ^ 3) with 8.
  replace (Z.succ (Z.of_nat n) - 1 - (1 + j)) with (Z.of_nat n - 1 - j) by lia.
  replace (2 ^ (3 * (Z.of_nat n - 1 - j))) with (8 ^ (Z.of_nat n - 1 - j)) by (rewrite Z.pow_mul_r by lia; done).
  set (e := Z.of_nat n - 1 - j).
  assert (P = 8 ^ e * 8 * 8 ^ j) as EP.
  { unfold P. rewrite (Z.mul_comm _ 8), <- Z.pow_succ_r, <- Z.pow_add_r by lia. f_equal. lia. }
  assert (0 < 8 ^ e) by (apply Z.pow_pos_nonneg; lia). assert (0 < 8 ^ j) by (apply Z.pow_pos_nonneg; lia).
  rewrite Ev at 1. rewrite EP at 1.
  replace (8 ^ e * 8 * 8 ^ j * (v / P) + v mod P) with (v mod P + (8 * (8 ^ j * (v / P))) * 8 ^ e) by ring.
  rewrite Z.div_add by lia. rewrite (Z.mul_comm 8). by rewrite Z.mod_add by lia.
Qed.

(** [get_size] reads back the size an archiver wrote as eleven octal digits
    and a terminator, for every size the 32-bit result can hold. *)
Theorem get_size_roundtrip data v :
  0 <= v < 4294967296 -> (forall i, 0 <= i < 11 -> data (header_size + i) = octal_digit 11 i v) ->
  data (header_size + 11) = 0 -> get_size data = v.
Proof.
  intros Hv Hd Hz. unfold get_size, parse_octal. change (Z.to_nat 12) with (11 + 1)%nat.
  set (get := fun i => data (header_size + i)).
  assert (forall n k i r, (forall j, 0 <= j < Z.of_nat n -> 48 <= get (i + j) <= 57) ->
    get (i + Z.of_nat n) = 0 -> r = parse_octal_from n get i k -> parse_octal_from (n + 1) get i k = r) as Hstop.
  { induction n as [|n IH]; intros k i r Hj Hend ->.
    - rewrite Z.add_0_r in Hend. cbn. by rewrite Hend.
    - cbn [Nat.add parse_octal_from]. destruct (_ && _); [|done]. apply IH; [|by rewrite <- Hend; f_equal; lia|done].
      intros j Hj'. replace (i + 1 + j) with (i + (1 + j)) by lia. apply Hj. lia. }
  apply Hstop.
  - intros j Hj. unfold get. rewrite Z.add_0_l, Hd by lia. unfold octal_digit.
    change 7 with (Z.ones 3). rewrite Z.land_ones by lia. change (2 ^ 3) with 8. zdm.
  - done.
  - symmetry. rewrite (parse_octal_digits 11 get v 0); [lia|cbn; lia|cbn; lia|lia|cbn; lia|].
    intros j Hj. unfold get. rewrite Z.add_0_l. by apply Hd.
Qed.

Lemma get_size_roundtrip_witness :
  get_size (fun a => if a - header_size <? 11 then octal_digit 11 (a - header_size) 1234567 else 0) = 1234567.
Proof.
  apply (get_size_roundtrip (fun a => if a - header_size <? 11 then octal_digit 11 (a - header_size) 1234567 else 0)); [lia| |reflexivity].
  intros i Hi. rewrite Z.add_simpl_l. by destruct (Z.ltb_spec i 11); [|lia].
Defined.

(** ** Lookup *)

(** The headers of an archive, from a sector on: each has a name and is followed
    by the sectors of its file; the first empty name ends it. *)
Fixpoint archive (disk : Z -> Z -> Z) (sector : Z) (headers : list Z) : Prop :=
  match headers with
  | [] => disk sector header_name = 0
  | s :: rest => s = sector /\ disk s header_name <> 0 /\
      archive disk (s +w (1 + (get_size (disk s) +w BYTES_PER_SECTOR -w 1) / BYTES_PER_SECTOR)) rest
  end.

(** Whether [find_file_sector] takes the header at [s]. *)
Definition name_matches (disk : Z -> Z -> Z) (hdr name : Z) (m : mem) (s : Z) : bool :=
  strncmp (copy_in hdr (disk s) 512 m) (hdr + header_name) name (strnlen m name 0x100) =? 0.

Lemma parse_octal_ext n g g' i r :
  (forall j, i <= j < i + Z.of_nat n -> g j = g' j) -> parse_octal_from n g i r = parse_octal_from n g' i r.
Proof.
  revert i r. induction n as [|n IH]; intros i r E; cbn [parse_octal_from]; [done|].
  rewrite E by lia. destruct (_ && _); [|done]. apply IH. intros j Hj. apply E. lia.
Qed.

Lemma header_in_memory (disk : Z -> Z -> Z) s hdr m i : 0 <= i < 512 -> copy_in hdr (disk s) 512 m (hdr + i) = disk s i.
Proof. intros Hi. unfold copy_in. rewrite Z.add_simpl_l. split_ltb; cbn; done || lia. Qed.

Lemma find_from_spec disk hdr name len m headers n sector :
  archive disk sector headers -> (length headers < n)%nat ->
  exists s m', find_from disk n hdr name len sector m = Some (s, m') /\
    match find (fun s => strncmp (copy_in hdr (disk s) 512 m) (hdr + header_name) name len =? 0) headers with
    | Some s0 => s = s0 /\ m' = copy_in hdr (disk s0) 512 m
    | None => s = 0
    end.
Proof.
  revert n sector. induction headers as [|s0 rest IH]; intros n sector Ha Hn; (destruct n as [|n]; [cbn in Hn; lia|]);
    cbn [find_from archive find] in *.
  - rewrite header_in_memory by (unfold header_name; lia). rewrite Ha. cbn. by eexists _, _.
  - destruct Ha as (-> & Hne & Ha). rewrite header_in_memory by (unfold header_name; lia).
    destruct (Z.eqb_spec (disk sector header_name) 0) as [|_]; [done|].
    destruct (strncmp _ _ _ _ =? 0); [by eexists _, _|].
    assert (get_size (fun i => copy_in hdr (disk sector) 512 m (hdr + i)) = get_size (disk sector)) as ->.
    { unfold get_size, parse_octal. apply parse_octal_ext. intros j Hj. change (Z.of_nat (Z.to_nat 12)) with 12 in Hj.
      apply header_in_memory. unfold header_size. lia. }
    apply IH; [done|cbn in Hn; lia].
Qed.

(** [seek] to a byte of the file. *)
Lemma tar_seek_ok (s0 c cur sz off : Z) : 0 < s0 < 2147483648 -> 0 <= off < sz -> sz < 2147483648 ->
  tar_seek off {| header_sector := s0; current_sector := c; cursor := cur; size := sz |} =
    (1, {| header_sector := s0; current_sector := s0 + 1 + off / 512; cursor := off; size := sz |}).
Proof.
  intros Hs Ho Hz. unfold tar_seek. cbn [header_sector size]. rewrite (u32_small off) by (unfold is_u32; lia).
  destruct (Z.ltb_spec off 0), (Z.leb_spec sz off); cbn [orb]; try lia. unfold BYTES_PER_SECTOR.
  rewrite u32_small; [done|]. unfold is_u32. zdm.
Qed.

(** [open] of a name that is found, with a free file. *)
Lemma tar_open_found (disk : Z -> Z -> Z) fuel hdr name files m headers i s0 :
  archive disk root_sector headers -> (length headers < fuel)%nat -> alloc_file files = Some i ->
  find (name_matches disk hdr name m) headers = Some s0 -> 0 < s0 < 2147483648 -> 0 < get_size (disk s0) < 2147483648 ->
  tar_open disk fuel hdr name files m =
    Some (Some i, fun j => if j =? i then {| header_sector := s0; current_sector := s0 + 1; cursor := 0; size := get_size (disk s0) |} else files j,
          copy_in hdr (disk s0) 512 m).
Proof.
  intros Ha Hf Hi Hfind Hs0 Hsz. unfold tar_open. rewrite Hi. unfold find_file_sector.
  destruct (find_from_spec disk hdr name (strnlen m name 0x100) m headers fuel root_sector Ha Hf) as (s & m' & E & H).
  unfold name_matches in Hfind. rewrite Hfind in H. destruct H as [-> ->]. rewrite E. cbn [mbind option_bind].
  destruct (Z.eqb_spec s0 0); [lia|]. cbn [header_sector current_sector cursor].
  assert (get_size (fun k => copy_in hdr (disk s0) 512 m (hdr + k)) = get_size (disk s0)) as ->.
  { unfold get_size, parse_octal. apply parse_octal_ext. intros j Hj. change (Z.of_nat (Z.to_nat 12)) with 12 in Hj.
    apply header_in_memory. unfold header_size. lia. }
  unfold tar_seek. cbn [size header_sector]. rewrite u32_small by (unfold is_u32; lia).
  destruct (Z.leb_spec (get_size (disk s0)) 0); [lia|]. cbn [Z.ltb Z.compare orb snd].
  change (0 / BYTES_PER_SECTOR) with 0. rewrite Z.add_0_r.
  by rewrite u32_small by (unfold is_u32; lia).
Qed.

Lemma alloc_file_range n i files j : alloc_file_from n i files = Some j -> i <= j < i + Z.of_nat n /\ size (files j) = 0.
Proof.
  revert i. induction n as [|n IH]; intros i; cbn [alloc_file_from]; [done|].
  destruct (Z.eqb_spec (size (files i)) 0) as [E|_].
  - intros [= <-]. split; [lia|exact E].
  - intros [Hj E]%IH. split; [lia|exact E].
Qed.

(** C40: on a well-formed archive the search ends, after at most one round per
    header and one for the empty name, and answers the sector of the first header
    whose name agrees with the whole of [name] (so [name] may be a proper prefix
    of it), with that header in the buffer, or 0 when there is none. *)
Theorem find_file_sector_spec disk headers fuel hdr name m :
  archive disk root_sector headers -> (length headers < fuel)%nat ->
  exists s m', find_file_sector disk fuel hdr name m = Some (s, m') /\
    match find (name_matches disk hdr name m) headers with
    | Some s0 => s = s0 /\ m' = copy_in hdr (disk s0) 512 m
    | None => s = 0
    end.
Proof. intros Ha Hf. by apply find_from_spec. Qed.

(** An archive of two empty files, [ab] and [b]. *)
Definition two_files (s i : Z) : Z :=
  if s =? 1 then (if i =? 0 then 97 else if i =? 1 then 98 else if i =? 124 then 48 else 0)
  else if s =? 2 then (if i =? 0 then 98 else if i =? 124 then 48 else 0) else 0.

Lemma find_file_sector_spec_witness :
  exists m', find_file_sector two_files 3 0x2000 0x1000 (mem_of 0x1000 [97; 0]) = Some (1, m').
Proof.
  destruct (find_file_sector_spec two_files [1; 2] 3 0x2000 0x1000 (mem_of 0x1000 [97; 0]))
    as (s & m' & E & H); [vm_compute; intuition congruence|cbn; lia|].
  assert (find (name_matches two_files 0x2000 0x1000 (mem_of 0x1000 [97; 0])) [1; 2] = Some 1) as Hf
    by (vm_compute; reflexivity).
  rewrite Hf in H. destruct H as [-> _]. by exists m'.
Defined.
