(* ===== verification/Elf.v ===== *)
(** * The ELF loader and dynamic linker: [system/include/elfparser.h]

    It runs in user mode on the byte memory of [Str].  The structures of <elf.h>
    are read from memory at their ELF32 offsets; the system calls it makes are
    the interface [SysApi].  [SPINJMP], the halt of the error branches, is
    [None], and so is a loop that exceeds its fuel. *)
From S2P Require Import Prelude Str.

(** ** <elf.h> *)

Definition PT_LOAD : Z := 1.
Definition PT_DYNAMIC : Z := 2.
Definition DT_NEEDED : Z := 1.
Definition DT_PLTRELSZ : Z := 2.
Definition DT_PLTGOT : Z := 3.
Definition DT_HASH : Z := 4.
Definition DT_STRTAB : Z := 5.
Definition DT_SYMTAB : Z := 6.
Definition DT_SYMENT : Z := 11.
Definition DT_REL : Z := 17.
Definition DT_RELSZ : Z := 18.
Definition DT_JMPREL : Z := 23.
Definition MAX_PHDRS : Z := 0x20.
Definition MAX_SHARED_LIBS : Z := 0x20.
Definition sizeof_Ehdr : Z := 52.
Definition sizeof_Phdr : Z := 32.
Definition sizeof_Dyn : Z := 8.
Definition sizeof_Rel : Z := 8.
Definition sizeof_Sym : Z := 16.

Definition rd16 (m : mem) (a : Z) : Z := m a + 256 * m (a + 1).

Record Ehdr := { e_entry : Z; e_phoff : Z; e_phnum : Z }.
Record Phdr := { p_type : Z; p_offset : Z; p_vaddr : Z; p_filesz : Z; p_memsz : Z }.

Definition read_Ehdr (m : mem) (a : Z) : Ehdr :=
  {| e_entry := rd32 m (a + 24); e_phoff := rd32 m (a + 28); e_phnum := rd16 m (a + 44) |}.
Definition read_Phdr (m : mem) (a : Z) : Phdr :=
  {| p_type := rd32 m a; p_offset := rd32 m (a + 4); p_vaddr := rd32 m (a + 8);
     p_filesz := rd32 m (a + 16); p_memsz := rd32 m (a + 20) |}.

(** ** [elf_Hash] *)

Definition hash_step (h c : Z) : Z :=
  let h := (h <<w 4) +w c in
  let g := Z.land h 0xf0000000 in
  let h := if negb (g =? 0) then Z.lxor h (Z.shiftr g 24) else h in
  Z.land h (~w g).

(** The characters up to the terminator, [fuel] of them at most. *)
Fixpoint elf_Hash_from (fuel : nat) (m : mem) (name h : Z) : option Z :=
  match fuel with
  | O => None
  | S n => if m name =? 0 then Some h else elf_Hash_from n m (name + 1) (hash_step h (m name))
  end.
Definition elf_Hash (fuel : nat) (m : mem) (name : Z) : option Z := elf_Hash_from fuel m name 0.

(** ** [ElfModule]; the pointers are addresses, 0 for null *)

Record ElfModule := {
  module_base_vaddr : Z;
  module_size : Z;
  header : Ehdr;
  phdrs : list Phdr;
  dynamic : Z;
  num_dynamic : Z;
  relocs : Z;
  num_relocs : Z;
  jmp_relocs : Z;
  num_jmp_relocs : Z;
  dynsym : Z;
  sym_size : Z;
  num_buckets : Z;
  num_chains : Z;
  buckets : Z;
  chains : Z;
  strtab : Z;
  pltgot : Z
}.

(** [initialize()]: all zero. *)
Definition empty_module : ElfModule :=
  {| module_base_vaddr := 0; module_size := 0; header := {| e_entry := 0; e_phoff := 0; e_phnum := 0 |};
     phdrs := []; dynamic := 0; num_dynamic := 0; relocs := 0; num_relocs := 0; jmp_relocs := 0;
     num_jmp_relocs := 0; dynsym := 0; sym_size := 0; num_buckets := 0; num_chains := 0; buckets := 0;
     chains := 0; strtab := 0; pltgot := 0 |}.

Definition with_image (e : ElfModule) (base sz : Z) : ElfModule :=
  {| module_base_vaddr := base; module_size := sz; header := header e; phdrs := phdrs e; dynamic := dynamic e;
     num_dynamic := num_dynamic e; relocs := relocs e; num_relocs := num_relocs e; jmp_relocs := jmp_relocs e;
     num_jmp_relocs := num_jmp_relocs e; dynsym := dynsym e; sym_size := sym_size e; num_buckets := num_buckets e;
     num_chains := num_chains e; buckets := buckets e; chains := chains e; strtab := strtab e; pltgot := pltgot e |}.
Definition with_headers (e : ElfModule) (h : Ehdr) (ps : list Phdr) : ElfModule :=
  {| module_base_vaddr := module_base_vaddr e; module_size := module_size e; header := h; phdrs := ps;
     dynamic := dynamic e; num_dynamic := num_dynamic e; relocs := relocs e; num_relocs := num_relocs e;
     jmp_relocs := jmp_relocs e; num_jmp_relocs := num_jmp_relocs e; dynsym := dynsym e; sym_size := sym_size e;
     num_buckets := num_buckets e; num_chains := num_chains e; buckets := buckets e; chains := chains e;
     strtab := strtab e; pltgot := pltgot e |}.
Definition with_dynamic (e : ElfModule) (d n : Z) : ElfModule :=
  {| module_base_vaddr := module_base_vaddr e; module_size := module_size e; header := header e; phdrs := phdrs e;
     dynamic := d; num_dynamic := n; relocs := relocs e; num_relocs := num_relocs e; jmp_relocs := jmp_relocs e;
     num_jmp_relocs := num_jmp_relocs e; dynsym := dynsym e; sym_size := sym_size e; num_buckets := num_buckets e;
     num_chains := num_chains e; buckets := buckets e; chains := chains e; strtab := strtab e; pltgot := pltgot e |}.
Definition with_rel (e : ElfModule) (r n j k : Z) : ElfModule :=
  {| module_base_vaddr := module_base_vaddr e; module_size := module_size e; header := header e; phdrs := phdrs e;
     dynamic := dynamic e; num_dynamic := num_dynamic e; relocs := r; num_relocs := n; jmp_relocs := j;
     num_jmp_relocs := k; dynsym := dynsym e; sym_size := sym_size e; num_buckets := num_buckets e;
     num_chains := num_chains e; buckets := buckets e; chains := chains e; strtab := strtab e; pltgot := pltgot e |}.
Definition with_syms (e : ElfModule) (s z st got : Z) : ElfModule :=
  {| module_base_vaddr := module_base_vaddr e; module_size := module_size e; header := header e; phdrs := phdrs e;
     dynamic := dynamic e; num_dynamic := num_dynamic e; relocs := relocs e; num_relocs := num_relocs e;
     jmp_relocs := jmp_relocs e; num_jmp_relocs := num_jmp_relocs e; dynsym := s; sym_size := z;
     num_buckets := num_buckets e; num_chains := num_chains e; buckets := buckets e; chains := chains e;
     strtab := st; pltgot := got |}.
Definition with_hash (e : ElfModule) (nb nc b c : Z) : ElfModule :=
  {| module_base_vaddr := module_base_vaddr e; module_size := module_size e; header := header e; phdrs := phdrs e;
     dynamic := dynamic e; num_dynamic := num_dynamic e; relocs := relocs e; num_relocs := num_relocs e;
     jmp_relocs := jmp_relocs e; num_jmp_relocs := num_jmp_relocs e; dynsym := dynsym e; sym_size := sym_size e;
     num_buckets := nb; num_chains := nc; buckets := b; chains := c; strtab := strtab e; pltgot := pltgot e |}.

(** ** Segments *)

(** The loop over the program headers: [min_address] and [max_address]. *)
Definition extent_step (mm : Z * Z) (p : Phdr) : Z * Z :=
  let '(min_address, max_address) := mm in
  let v_base := p_vaddr p in
  let v_end := v_base +w p_memsz p in
  if v_base <? min_address then (v_base, max_address)
  else if max_address <? v_end then (min_address, v_end) else (min_address, max_address).

Definition module_extent (ps : list Phdr) : Z * Z := foldl extent_step (all_ones, 0) ps.

(** [module_size] and the pages [mapLoadableSegments] asks for. *)
Definition module_room (ps : list Phdr) : Z * Z :=
  let '(min_address, max_address) := module_extent ps in
  let size := max_address -w min_address in
  (size, (size +w 4096 -w 1) / 4096 +w 1).

(** The pages and the address [elf_exec] asks for a segment. *)
Definition segment_pages (p : Phdr) : Z * Z :=
  ((Z.land (p_vaddr p) 0xFFF +w p_filesz p +w 4096 -w 1) / 4096, Z.land (p_vaddr p) 0xFFFFF000).

(** The system calls of the loader: [read] fills the memory. *)
Class SysApi (U : Type) := {
  u_mem : U -> mem;
  u_store : mem -> U -> U;
  sys_open : Z -> U -> Z * U;
  sys_seek : Z -> Z -> U -> Z * U;
  sys_read : Z -> Z -> Z -> U -> Z * U;
  sys_alloc : Z -> U -> Z * U;
  sys_alloc_at : Z -> Z -> U -> Z * U
}.

Section loader.
Context {U : Type} `{SysApi U}.
Implicit Types (u : U) (e : ElfModule).

(** [readElfHeader]: [buf] is the address of the [header] member. *)
Definition readElfHeader (buf filehandle : Z) e u : ElfModule * U :=
  let '(_, u) := sys_read filehandle buf sizeof_Ehdr u in
  (with_headers e (read_Ehdr (u_mem u) buf) (phdrs e), u).

(** The program headers, read at [buf], an array of [MAX_PHDRS] entries: more of
    them overwrite what follows it. *)
Definition read_phdrs (buf filehandle : Z) e u : option (ElfModule * U) :=
  let '(ok, u) := sys_seek filehandle (e_phoff (header e)) u in
  if ok =? 0 then None else
  let '(_, u) := sys_read filehandle buf (sizeof_Phdr * e_phnum (header e)) u in
  if MAX_PHDRS <? e_phnum (header e) then None else
  Some (with_headers e (header e)
          (map (fun i => read_Phdr (u_mem u) (buf + sizeof_Phdr * i)) (seqZ 0 (e_phnum (header e)))), u).

(** One segment of [mapLoadableSegments]. *)
Definition load_segment (filehandle base : Z) u (p : Phdr) : U :=
  if p_type p =? PT_LOAD then
    let vaddr := base +w p_vaddr p in
    let '(_, u) := sys_seek filehandle (p_offset p) u in
    let '(_, u) := sys_read filehandle vaddr (p_filesz p) u in u
  else u.

Definition mapLoadableSegments (filehandle : Z) e u : ElfModule * U :=
  let '(size, pages) := module_room (phdrs e) in
  let '(base, u) := sys_alloc pages u in
  (with_image e base size, foldl (load_segment filehandle base) u (phdrs e)).

Definition findDynamicSection e : option ElfModule :=
  match find (fun p => p_type p =? PT_DYNAMIC) (phdrs e) with
  | Some seg =>
      let d := module_base_vaddr e +w p_vaddr seg in
      if d =? 0 then None else Some (with_dynamic e d (p_memsz seg / sizeof_Dyn))
  | None => None
  end.

(** One entry of the dynamic segment. *)
Definition dyn_entry (m : mem) e (i : Z) : ElfModule :=
  let type := rd32 m (dynamic e + sizeof_Dyn * i) in
  let val := rd32 m (dynamic e + sizeof_Dyn * i + 4) in
  let at_ := module_base_vaddr e +w val in
  if type =? DT_REL then with_rel e at_ (num_relocs e) (jmp_relocs e) (num_jmp_relocs e)
  else if type =? DT_RELSZ then with_rel e (relocs e) (val / sizeof_Rel) (jmp_relocs e) (num_jmp_relocs e)
  else if type =? DT_JMPREL then with_rel e (relocs e) (num_relocs e) at_ (num_jmp_relocs e)
  else if type =? DT_PLTRELSZ then with_rel e (relocs e) (num_relocs e) (jmp_relocs e) (val / sizeof_Rel)
  else if type =? DT_SYMTAB then with_syms e at_ (sym_size e) (strtab e) (pltgot e)
  else if type =? DT_SYMENT then with_syms e (dynsym e) val (strtab e) (pltgot e)
  else if type =? DT_STRTAB then with_syms e (dynsym e) (sym_size e) at_ (pltgot e)
  else if type =? DT_HASH then
    let nb := rd32 m at_ in
    with_hash e nb (rd32 m (at_ + 4)) (at_ + 8) (at_ + 4 * (nb + 2))
  else if type =? DT_PLTGOT then with_syms e (dynsym e) (sym_size e) (strtab e) at_
  else e.

Definition parseDynamicSegment (m : mem) e : option ElfModule :=
  if negb (dynsym e =? 0) then Some e else
  if dynamic e =? 0 then Some e else
  let e := foldl (dyn_entry m) e (seqZ 0 (num_dynamic e)) in
  if dynsym e =? 0 then None else Some e.

(** ** Symbols *)

(** The do-while loop along a hash chain. *)
Fixpoint chain_search (fuel : nat) (m : mem) e (name sym_index : Z) : option Z :=
  match fuel with
  | O => None
  | S n =>
      let st_name := rd32 m (dynsym e + sizeof_Sym * sym_index) in
      if strncmp m (strtab e +w st_name) name 0x40 =? 0 then Some sym_index else
      let sym_index := s32 (rd32 m (chains e + 4 * sym_index)) in
      if negb (sym_index =? 0) then chain_search n m e name sym_index else Some (-1)
  end.

Definition getSymbolIndex (fuel : nat) (m : mem) e (name : Z) : option Z :=
  h ← elf_Hash fuel m name;
  if num_buckets e =? 0 then None else
  chain_search fuel m e name (s32 (rd32 m (buckets e + 4 * (h mod num_buckets e)))).

(** The address of the symbol, 0 when there is none. *)
Definition getSymbol (fuel : nat) (m : mem) e (name : Z) : option Z :=
  i ← getSymbolIndex fuel m e name;
  Some (if i <? 0 then 0 else dynsym e +w sizeof_Sym * i).

Definition getFunctionPtr (fuel : nat) (m : mem) e (name : Z) : option Z :=
  sym ← getSymbol fuel m e name;
  Some (if negb (sym =? 0) then module_base_vaddr e +w rd32 m (sym + 4) else 0).

(** ** Relocations *)

Definition relocate (base_vaddr table : Z) (i : Z) (m : mem) : mem :=
  let rel := table + sizeof_Rel * i in
  let m := wr32 m rel (rd32 m rel +w base_vaddr) in
  let valptr := rd32 m rel in
  wr32 m valptr (rd32 m valptr +w base_vaddr).

Definition adjustRelocations (table num base_vaddr : Z) (m : mem) : mem :=
  if (base_vaddr =? 0) || (table =? 0) then m
  else mem_loop (Z.to_nat (s32 num)) 0 (relocate base_vaddr table) m.

Definition loadModule (hdr_buf phdr_buf filehandle : Z) u : option (ElfModule * U) :=
  let '(e, u) := readElfHeader hdr_buf filehandle empty_module u in
  '(e, u) ← read_phdrs phdr_buf filehandle e u;
  let '(e, u) := mapLoadableSegments filehandle e u in
  e ← findDynamicSection e;
  e ← parseDynamicSegment (u_mem u) e;
  let m := adjustRelocations (relocs e) (num_relocs e) (module_base_vaddr e) (u_mem u) in
  let m := adjustRelocations (jmp_relocs e) (num_jmp_relocs e) (module_base_vaddr e) m in
  Some (e, u_store m u).

(** The libraries an image needs are loaded behind [sharedLibs]. *)
Fixpoint loadNeededLibs (n : nat) (hdr_buf phdr_buf i : Z) e (sharedLibs : list ElfModule) u
    : option (list ElfModule * U) :=
  match n with
  | O => Some (sharedLibs, u)
  | S n =>
      if rd32 (u_mem u) (dynamic e + sizeof_Dyn * i) =? DT_NEEDED then
        let libname := strtab e +w rd32 (u_mem u) (dynamic e + sizeof_Dyn * i + 4) in
        let '(lib_fh, u) := sys_open libname u in
        if MAX_SHARED_LIBS <=? Z.of_nat (length sharedLibs) then None else
        '(lib, u) ← loadModule hdr_buf phdr_buf lib_fh u;
        loadNeededLibs n hdr_buf phdr_buf (i + 1) e (sharedLibs ++ [lib]) u
      else loadNeededLibs n hdr_buf phdr_buf (i + 1) e sharedLibs u
  end.

(** One segment of [elf_exec]. *)
Definition exec_segment (filehandle : Z) u (p : Phdr) : U :=
  if p_type p =? PT_LOAD then
    let '(pages, vaddr) := segment_pages p in
    let '(_, u) := sys_alloc_at pages vaddr u in
    let '(_, u) := sys_seek filehandle (p_offset p) u in
    let '(_, u) := sys_read filehandle (p_vaddr p) (p_filesz p) u in u
  else u.

(** [elf_exec(name)] up to the jump: the entry point, the image, the libraries.
    [image] and [lookup] are the addresses of [executable] and of
    [lookup_symbol_args]. *)
Definition elf_exec (hdr_buf phdr_buf image lookup name : Z) u : option (Z * ElfModule * list ElfModule * U) :=
  let '(filehandle, u) := sys_open name u in
  let '(e, u) := readElfHeader hdr_buf filehandle empty_module u in
  '(e, u) ← read_phdrs phdr_buf filehandle e u;
  let u := foldl (exec_segment filehandle) u (phdrs e) in
  e ← findDynamicSection e;
  e ← parseDynamicSegment (u_mem u) e;
  '(libs, u) ← loadNeededLibs (Z.to_nat (num_dynamic e)) hdr_buf phdr_buf 0 e [] u;
  let m := wr32 (u_mem u) (pltgot e + 4) image in
  let m := wr32 m (pltgot e + 8) lookup in
  Some (e_entry (header e), e, libs, u_store m u).

(** [lookup_symbol_args] on the offset the PLT pushed: the function, whose
    address goes to the GOT entry and to the return address. *)
Definition lookup_symbol_args (fuel : nat) (arg : Z) e (lib0 : ElfModule) (m : mem) : option (Z * mem) :=
  let sym_reloc_index := arg / sizeof_Rel in
  if num_jmp_relocs e <=? sym_reloc_index then None else
  let reloc := jmp_relocs e + sizeof_Rel * sym_reloc_index in
  let sym_index := Z.shiftr (rd32 m (reloc + 4)) 8 in
  let sym_name := strtab e +w rd32 m (dynsym e + sizeof_Sym * sym_index) in
  functionPtr ← getFunctionPtr fuel m lib0 sym_name;
  Some (functionPtr, wr32 m (rd32 m reloc) functionPtr).
End loader.


(** ** The dynamic linker adjusts its relocations *)

Section adjust.
Context (table num base : Z) (m0 : mem).

(** Where relocation [i] points once the module is at [base]. *)
Definition reloc_target (i : Z) : Z := rd32 m0 (table + sizeof_Rel * i) +w base.

(** What holds after [k] relocations. *)
Definition adjusted (k : Z) (m : mem) : Prop :=
  bytes m /\
  (forall i, 0 <= i < k -> rd32 m (table + sizeof_Rel * i) = reloc_target i /\
     rd32 m (reloc_target i) = rd32 m0 (reloc_target i) +w base) /\
  (forall x, (forall i, 0 <= i < k ->
      (x < table + sizeof_Rel * i \/ table + sizeof_Rel * i + 4 <= x) /\
      (x < reloc_target i \/ reloc_target i + 4 <= x)) -> m x = m0 x).

(** The words the relocations point to overlap neither each other nor the table. *)
Definition relocs_apart : Prop :=
  (forall i, 0 <= i < num -> reloc_target i + 4 <= table \/ table + sizeof_Rel * num <= reloc_target i) /\
  (forall i j, 0 <= i < num -> 0 <= j < num -> i <> j ->
     reloc_target i + 4 <= reloc_target j \/ reloc_target j + 4 <= reloc_target i).

Lemma adjusted_step k m :
  relocs_apart -> 0 <= k < num -> adjusted k m -> adjusted (k + 1) (relocate base table k m).
Proof.
  intros [Hta Htt] Hk (Hb & Hdone & Hrest).
  assert (forall i, 0 <= i < num -> is_u32 (reloc_target i)) as Hu by (intros; apply u32_range).
  assert (rd32 m (table + sizeof_Rel * k) +w base = reloc_target k) as Ek.
  { unfold reloc_target. do 2 f_equal. apply rd32_ext. intros j Hj. apply Hrest. intros i Hi.
    specialize (Hta i ltac:(lia)). unfold sizeof_Rel in *. lia. }
  assert (rd32 m (reloc_target k) = rd32 m0 (reloc_target k)) as Et.
  { apply rd32_ext. intros j Hj. apply Hrest. intros i Hi.
    specialize (Hta k ltac:(lia)). specialize (Htt i k ltac:(lia) ltac:(lia) ltac:(lia)).
    unfold sizeof_Rel in *. lia. }
  assert (Tk := Hta k Hk). unfold relocate. rewrite Ek.
  rewrite rd32_wr32 by (by apply Hu). rewrite (rd32_wr32_ne _ _ _ (reloc_target k)), Et by (unfold sizeof_Rel in *; lia).
  split; [by apply wr32_bytes, wr32_bytes|]. split.
  - intros i Hi. destruct (Z.eq_dec i k) as [->|Hik].
    + rewrite rd32_wr32_ne, rd32_wr32, rd32_wr32 by (done || apply u32_range || (by apply Hu) || (unfold sizeof_Rel in *; lia)). done.
    + destruct (Hdone i ltac:(lia)) as [H1 H2]. pose proof (Hta i ltac:(lia)).
      pose proof (Htt i k ltac:(lia) ltac:(lia) Hik).
      rewrite !rd32_wr32_ne by (unfold sizeof_Rel in *; lia). done.
  - intros x Hx. pose proof (Hx k ltac:(lia)).
    rewrite !wr32_ne by (unfold sizeof_Rel in *; lia). apply Hrest. intros i Hi. apply Hx. lia.
Qed.
End adjust.

(** [adjustRelocations] of a module moved to a non-null base: every table
    entry gets the address of its word, the word there is increased by the base
    (modulo 2^32), and no other byte changes, when the words overlap neither
    each other nor the table. *)
Theorem adjustRelocations_spec table num base m :
  bytes m -> base <> 0 -> table <> 0 -> 0 <= num < 2147483648 -> relocs_apart table num base m ->
  let m' := adjustRelocations table num base m in
  (forall i, 0 <= i < num ->
     let tgt := reloc_target table base m i in
     rd32 m' (table + sizeof_Rel * i) = tgt /\ rd32 m' tgt = rd32 m tgt +w base) /\
  (forall x, (forall i, 0 <= i < num ->
      (x < table + sizeof_Rel * i \/ table + sizeof_Rel * i + 4 <= x) /\
      (x < reloc_target table base m i \/ reloc_target table base m i + 4 <= x)) -> m' x = m x).
Proof.
  intros Hm Hb Ht Hn Ha m'. unfold m', adjustRelocations.
  destruct (Z.eqb_spec base 0), (Z.eqb_spec table 0); try done. cbn [orb].
  rewrite s32_small by (unfold is_s32; lia).
  pose proof (mem_loop_inv (adjusted table base m) (Z.to_nat num) 0 (relocate base table) m) as H.
  rewrite Z.add_0_l, Z2Nat.id in H by lia. destruct H as (_ & H1 & H2).
  - split; [done|]. split; [intros; lia|done].
  - intros j m1 Hj. apply (adjusted_step table num); [done|lia].
  - by split.
Qed.

(** Two relocations at 16, for the words at 64 and 68. *)
Definition two_relocs : mem := mem_of 16 [0x40; 0; 0; 0; 8; 0; 0; 0; 0x44; 0; 0; 0; 8; 0; 0; 0].

Lemma adjustRelocations_spec_witness :
  rd32 (adjustRelocations 16 2 0x1000 two_relocs) (16 + sizeof_Rel * 1) = 0x1044 /\
  rd32 (adjustRelocations 16 2 0x1000 two_relocs) 0x1044 = 0x1000.
Proof.
  refine ((fun H => proj1 H 1 _) (adjustRelocations_spec 16 2 0x1000 two_relocs
            (mem_of_bytes _ _) _ _ _ _)); [lia..|].
  assert (reloc_target 16 0x1000 two_relocs 0 = 0x1040) as E0 by reflexivity.
  assert (reloc_target 16 0x1000 two_relocs 1 = 0x1044) as E1 by reflexivity.
  split.
  - intros i Hi. assert (i = 0 \/ i = 1) as [->| ->] by lia; rewrite ?E0, ?E1; unfold sizeof_Rel; lia.
  - intros i j Hi Hj Hij. assert (i = 0 /\ j = 1 \/ i = 1 /\ j = 0) as [[-> ->]|[-> ->]] by lia;
      rewrite ?E0, ?E1; lia.
Defined.

(** ** The symbol table and its hash table *)

Definition hash_of (s : list Z) : Z := foldl hash_step 0 s.

Lemma elf_Hash_str fuel m a s h :
  str_at m a s -> (length s < fuel)%nat -> elf_Hash_from fuel m a h = Some (foldl hash_step h s).
Proof.
  revert fuel a h. induction s as [|c s IH]; intros [|fuel] a h Hs Hf; cbn in Hf; try lia; cbn [elf_Hash_from].
  - destruct Hs as [_ H0]. rewrite Z.add_0_r in H0. by rewrite H0.
  - destruct (str_at_cons _ _ _ _ Hs) as (Hc & -> & Hs'). destruct (Z.eqb_spec c 0); [done|].
    apply IH; [done|lia].
Qed.

Section hash_table.
Context (m : mem) (e : ElfModule) (names : list (list Z)).

Definition chain_link (i : Z) : Z := s32 (rd32 m (chains e + 4 * i)).

(** The chain that starts at symbol [i], up to the link 0. *)
Inductive hash_chain : Z -> list Z -> Prop :=
  | chain_last i : chain_link i = 0 -> hash_chain i [i]
  | chain_next i l : chain_link i <> 0 -> hash_chain (chain_link i) l -> hash_chain i (i :: l).

Definition bucket_of (h : Z) : Z := s32 (rd32 m (buckets e + 4 * (h mod num_buckets e))).

(** A well-formed table: symbol [i] is named [names !! i], in fewer than 64
    characters and no two alike, and the chain of its bucket leads to it. *)
Record symbols_ok : Prop := {
  ok_bytes : bytes m;
  ok_buckets : num_buckets e <> 0;
  ok_names : forall i s, names !! i = Some s -> (length s < 64)%nat /\
    str_at m (strtab e +w rd32 m (dynsym e + sizeof_Sym * Z.of_nat i)) s;
  ok_distinct : NoDup names;
  ok_chain : forall h, exists l, hash_chain (bucket_of h) l /\
    (forall x, x ∈ l -> 0 <= x < Z.of_nat (length names)) /\
    (forall i s, names !! i = Some s -> s <> [] -> hash_of s mod num_buckets e = h mod num_buckets e ->
       Z.of_nat i ∈ l)
}.

Lemma chain_search_spec fuel name s i l :
  symbols_ok -> str_at m name s -> hash_chain i l ->
  (forall x, x ∈ l -> 0 <= x < Z.of_nat (length names)) -> (length l <= fuel)%nat ->
  exists r, chain_search fuel m e name i = Some r /\
    ((exists k, names !! k = Some s /\ r = Z.of_nat k /\ r ∈ l) \/
     (r = -1 /\ forall k, names !! k = Some s -> Z.of_nat k ∉ l)).
Proof.
  intros Hok Hs Hc. revert fuel. induction Hc as [i Hl|i l Hl Hc IH]; intros [|fuel] Hin Hf; cbn in Hf; try lia;
    cbn [chain_search]; fold (chain_link i).
  all: assert (0 <= i < Z.of_nat (length names)) as Hi by (apply Hin; left);
    destruct (lookup_lt_is_Some_2 names (Z.to_nat i) ltac:(lia)) as [t Ht];
    destruct (ok_names Hok _ _ Ht) as [Hlt Hstr]; rewrite Z2Nat.id in Hstr by lia;
    pose proof (strncmp_agree m (strtab e +w rd32 m (dynsym e + sizeof_Sym * i)) name 0x40 (ok_bytes Hok) ltac:(lia)) as Hcmp;
    rewrite (str_agree_eq m _ _ t s 0x40 Hstr Hs ltac:(lia)) in Hcmp.
  all: destruct (Z.eqb_spec (strncmp m (strtab e +w rd32 m (dynsym e + sizeof_Sym * i)) name 0x40) 0) as [E|E].
  1,3: apply Hcmp in E as ->; exists i; split; [done|]; left; exists (Z.to_nat i); rewrite Z2Nat.id by lia;
    split; [done|]; split; [done|left].
  all: assert (forall k, names !! k = Some s -> Z.of_nat k <> i) as Hne
    by (intros k Hk <-; rewrite Nat2Z.id in Ht; apply E, Hcmp; congruence).
  - rewrite Hl. cbn. exists (-1). split; [done|]. right. split; [done|].
    intros k Hk ?%list_elem_of_singleton. by apply (Hne k).
  - destruct (Z.eqb_spec (chain_link i) 0); [done|]. cbn [negb].
    destruct (IH fuel) as (r & -> & Hr); [intros; apply Hin; by right|lia|].
    exists r. split; [done|]. destruct Hr as [(k & ? & ? & ?)|[-> Hr]].
    + left. exists k. split; [done|]. split; [done|by right].
    + right. split; [done|]. intros k Hk [?|?]%elem_of_cons; [by apply (Hne k)|by apply (Hr k)].
Qed.
End hash_table.

(** C21: on a well-formed symbol table [getSymbolIndex] returns, with the index
    of the symbol of that name, or -1 when no symbol has it: the hash of the
    name finds the bucket, and the loop along its chain ends. *)
Theorem getSymbolIndex_spec m e names name s :
  symbols_ok m e names -> str_at m name s -> s <> [] ->
  exists fuel0, forall fuel, (fuel0 <= fuel)%nat ->
    exists r, getSymbolIndex fuel m e name = Some r /\
      ((exists i, names !! i = Some s /\ r = Z.of_nat i) \/ (r = -1 /\ s ∉ names)).
Proof.
  intros Hok Hs Hne. destruct (ok_chain m e names Hok (hash_of s)) as (l & Hc & Hin & Hall).
  exists (length s + length l + 1)%nat. intros fuel Hf. unfold getSymbolIndex, elf_Hash.
  rewrite (elf_Hash_str _ _ _ s) by (done || lia). cbn [mbind option_bind].
  destruct (Z.eqb_spec (num_buckets e) 0); [by destruct (ok_buckets m e names Hok)|].
  destruct (chain_search_spec m e names fuel name s _ l Hok Hs Hc Hin ltac:(lia)) as (r & Hr & Hcase).
  exists r. split; [exact Hr|]. destruct Hcase as [(k & ? & ? & _)|[-> Hno]]; [left; by exists k|].
  right. split; [done|]. intros [k Hk]%list_elem_of_lookup. apply (Hno k Hk). by apply Hall with s.
Qed.

(** A table of the null symbol, "a" and "b" in one bucket, whose chain is 2, 1. *)
Definition ab_table : mem := mem_of 16
  ([0; 97; 0; 98; 0] ++ replicate 11 0
   ++ replicate 16 0 ++ (1 :: replicate 15 0) ++ (3 :: replicate 15 0)
   ++ [2; 0; 0; 0] ++ replicate 8 0 ++ [1; 0; 0; 0] ++ [98; 0]).
Definition ab_module : ElfModule := with_hash (with_syms empty_module 32 16 16 0) 1 3 80 84.

Lemma ab_table_ok : symbols_ok ab_table ab_module [[]; [97]; [98]].
Proof.
  split.
  - apply mem_of_bytes.
  - done.
  - intros i s Hi. assert (forall n c, str_at ab_table n [c] <->
      (c <> 0 /\ ab_table n = c) /\ ab_table (n + 1) = 0) as Hone.
    { intros n c. split.
      - intros [H H0]. destruct (H 0%nat c eq_refl) as [? E]. by rewrite Z.add_0_r in E.
      - intros [[? E] ?]. split; [|done]. intros [|k] d Hk; [|done]. injection Hk as <-. by rewrite Z.add_0_r. }
    destruct i as [|[|[|i]]]; cbn in Hi; simplify_eq; (split; [cbn; lia|]).
    + split; [intros k c Hk; by rewrite lookup_nil in Hk|reflexivity].
    + apply Hone. by split.
    + apply Hone. by split.
  - by apply (bool_decide_unpack _).
  - intros h. exists [2; 1]. unfold bucket_of. rewrite Z.mod_1_r. split; [|split].
    + apply chain_next; [done|]. by apply chain_last.
    + intros x Hx. cbn. repeat (apply elem_of_cons in Hx as [->|Hx]; [lia|]). by apply elem_of_nil in Hx.
    + intros [|[|[|i]]] s Hi Hne _; cbn in Hi; simplify_eq; set_solver.
Qed.

Lemma getSymbolIndex_spec_witness :
  (exists fuel0, forall fuel, (fuel0 <= fuel)%nat ->
     exists r, getSymbolIndex fuel ab_table ab_module 96 = Some r /\
       ((exists i, [[]; [97]; [98]] !! i = Some [98] /\ r = Z.of_nat i) \/ (r = -1 /\ [98] ∉ [[]; [97]; [98]]))) /\
  getSymbolIndex 10 ab_table ab_module 96 = Some 2.
Proof.
  split; [|reflexivity].
  refine (getSymbolIndex_spec ab_table ab_module [[]; [97]; [98]] 96 [98] ab_table_ok _ _); [|done].
  split; [|reflexivity]. intros [|k] c Hk; [|done]. injection Hk as <-. by split.
Defined.

(** ** The room of a module *)

Definition seg_end (p : Phdr) : Z := p_vaddr p + p_memsz p.
Definition seg_ok (p : Phdr) : Prop := 0 <= p_vaddr p /\ 0 <= p_memsz p /\ 0 < seg_end p < 4294967295.

Lemma extent_after ps lo hi lo' hi' :
  Forall (fun q => seg_ok q /\ lo <= p_vaddr q) ps -> foldl extent_step (lo, hi) ps = (lo', hi') ->
  lo' = lo /\ hi <= hi' /\ Forall (fun q => seg_end q <= hi') ps /\
  (hi' = hi \/ Exists (fun q => seg_end q = hi') ps).
Proof.
  revert hi. induction ps as [|q ps IH]; intros hi H E; cbn [foldl] in E.
  - simplify_eq. split; [done|]. split; [lia|]. split; [constructor|by left].
  - apply Forall_cons in H as [[Hq Hlo] H]. unfold extent_step at 2 in E.
    destruct Hq as (? & ? & ?). unfold seg_end in *. rewrite u32_small in E by (unfold is_u32; lia).
    destruct (Z.ltb_spec (p_vaddr q) lo); [lia|].
    destruct (Z.ltb_spec hi (p_vaddr q + p_memsz q));
      destruct (IH _ H E) as (-> & ? & ? & Hcase); (split; [done|]; split; [lia|]; split; [constructor; [lia|done]|]).
    + right. destruct Hcase as [->|?]; [by left|by right].
    + destruct Hcase as [->|?]; [by left|right; by right].
Qed.

(** Of program headers whose first one is the lowest, [mapLoadableSegments]
    takes the size from the others: it is the highest end among them less the
    base.  The first segment is never counted, so a module of one segment at 0
    gets size 0 and one page, however large the segment is. *)
Theorem module_room_ignores_first p ps :
  Forall (fun q => seg_ok q /\ p_vaddr p <= p_vaddr q) (p :: ps) ->
  let '(size, pages) := module_room (p :: ps) in
  (ps = [] -> p_vaddr p = 0 -> size = 0 /\ pages = 1) /\
  (ps <> [] ->
     Forall (fun q => seg_end q <= p_vaddr p + size) ps /\ Exists (fun q => seg_end q = p_vaddr p + size) ps /\
     (size + 4096 < 4294967296 -> size < 4096 * pages)).
Proof.
  intros [[(H1 & H2 & H3) _] H]%Forall_cons. unfold seg_end in H3.
  unfold module_room, module_extent. cbn [foldl]. unfold extent_step at 2.
  destruct (Z.ltb_spec (p_vaddr p) all_ones); [|unfold all_ones in *; lia].
  destruct (foldl extent_step (p_vaddr p, 0) ps) as [lo hi] eqn:E.
  destruct (extent_after _ _ _ _ _ H E) as (-> & Hhi & Hall & Hex). split.
  - intros -> Hz. rewrite Hz. cbn in E. simplify_eq. split; reflexivity.
  - intros Hne. destruct ps as [|q ps]; [done|].
    assert (Exists (fun q => seg_end q = hi) (q :: ps)) as Hex'.
    { destruct Hex as [->|?]; [|done]. apply Forall_cons in Hall as [Hq _].
      apply Forall_cons in H as [[(? & ? & ?) _] _]. lia. }
    assert (p_vaddr p <= hi < 4294967295) as Hr.
    { apply Exists_exists in Hex' as (x & Hx & <-). rewrite Forall_forall in H.
      destruct (H x Hx) as [(? & ? & ?) ?]. unfold seg_end in *. lia. }
    rewrite (u32_small (hi - p_vaddr p)) by (unfold is_u32; lia).
    split; [|split].
    + eapply Forall_impl; [exact Hall|]. cbn. intros. lia.
    + eapply Exists_impl; [exact Hex'|]. cbn. intros. lia.
    + intros Hs. rewrite !(u32_small (hi - p_vaddr p + 4096)), (u32_small (_ - 1)), u32_small; unfold is_u32; zdm.
Qed.

(** One segment of 1 MB at 0. *)
Definition big_segment : Phdr :=
  {| p_type := PT_LOAD; p_offset := 0; p_vaddr := 0; p_filesz := 0x100000; p_memsz := 0x100000 |}.

Lemma module_room_ignores_first_witness : module_room [big_segment] = (0, 1).
Proof.
  refine ((fun H => _) (module_room_ignores_first big_segment [] _)).
  - change (module_room [big_segment]) with (fst (module_room [big_segment]), snd (module_room [big_segment])) in H.
    destruct (proj1 H eq_refl eq_refl) as [E1 E2]. exact (f_equal2 pair E1 E2).
  - constructor; [|constructor]. unfold seg_ok, seg_end. cbn. lia.
Defined.
