(* ===== verification/Ps2.v ===== *)
(** * The PS/2 keyboard and mouse: [system/devices/ps2.cpp],
    [system/include/devices/ps2.h], the events of [include/std/events.h]

    The controller, the time stamp counter, the event queue and the screen are
    the interface [Ps2Env]; the driver's own state is [Keyboard] and [Ps2]. *)
From S2P Require Import Prelude Shapes Ata.

Definition KEYBOARD_IRQ : Z := 1.
Definition MOUSE_IRQ : Z := 12.
Definition KEYBOARD_IDT : Z := 0x20.
Definition MOUSE_IDT : Z := 0x21.
Definition CLICK_BOX : Z := 4.

(** ** Events *)

Inductive UserEvents :=
  | KEY_CHAR_DOWN | KEY_CHAR_UP
  | MOUSE_MOVE | MOUSE_LEFT_DOWN | MOUSE_LEFT_UP | MOUSE_LEFT_CLICK
  | MOUSE_LEFT_DRAG_START | MOUSE_LEFT_DRAG_END
  | MOUSE_RIGHT_DOWN | MOUSE_RIGHT_UP | MOUSE_RIGHT_CLICK
  | MOUSE_RIGHT_DRAG_START | MOUSE_RIGHT_DRAG_END.

#[export] Instance UserEvents_eq_dec : EqDecision UserEvents.
Proof. solve_decision. Defined.

Definition event_id (e : UserEvents) : Z :=
  match e with
  | KEY_CHAR_DOWN => 1 | KEY_CHAR_UP => 2 | MOUSE_MOVE => 3 | MOUSE_LEFT_DOWN => 4
  | MOUSE_LEFT_UP => 5 | MOUSE_LEFT_CLICK => 6 | MOUSE_LEFT_DRAG_START => 7
  | MOUSE_LEFT_DRAG_END => 8 | MOUSE_RIGHT_DOWN => 9 | MOUSE_RIGHT_UP => 10
  | MOUSE_RIGHT_CLICK => 11 | MOUSE_RIGHT_DRAG_START => 12 | MOUSE_RIGHT_DRAG_END => 13
  end.
Definition UserEvents_MAX : Z := 14.

(** [MouseEvent] is two signed 12-bit and two 1-bit fields in an [int]; the six
    bits of padding are taken as 0. *)
Record MouseEvent := { ev_x : Z; ev_y : Z; ev_lbutton : Z; ev_rbutton : Z }.
Definition s12 (x : Z) : Z := (x + 2048) mod 4096 - 2048.
Definition MouseEvent_int (e : MouseEvent) : Z :=
  ev_x e mod 4096 + 4096 * (ev_y e mod 4096) + 16777216 * (ev_lbutton e) + 33554432 * (ev_rbutton e).
Definition int_MouseEvent (i : Z) : MouseEvent :=
  {| ev_x := s12 i; ev_y := s12 (Z.shiftr i 12);
     ev_lbutton := Z.land (Z.shiftr i 24) 1; ev_rbutton := Z.land (Z.shiftr i 25) 1 |}.

(** ** What the driver uses *)

Class Ps2Env (D : Type) := {
  ps2_ports :: Ports D;
  rdtsc : D -> Z * D;
  new_user_event : UserEvents -> Z -> D -> D;
  fill_rect : Rect -> Z -> D -> D;
  send_eoi : D -> D;
  set_handler : Z -> D -> D;
  set_irq_vector : Z -> Z -> D -> D
}.

(** ** The keyboard *)

Definition keymap : list Z :=
  [0; 27; 49; 50; 51; 52; 53; 54; 55; 56; 57; 48; 45; 61; 8; 9;
   113; 119; 101; 114; 116; 121; 117; 105; 111; 112; 91; 93; 10; 0;
   97; 115; 100; 102; 103; 104; 106; 107; 108; 59; 39; 96; 0;
   92; 122; 120; 99; 118; 98; 110; 109; 44; 46; 47; 0; 42; 0; 32; 0; 0;
   0; 0; 0; 0; 0; 0; 0; 0; 0; 0; 0; 0; 0; 0; 45; 0; 0; 0; 43].

(** "~!@#$%^&*()_+" and its terminator *)
Definition shift_num_row : list Z := [126; 33; 64; 35; 36; 37; 94; 38; 42; 40; 41; 95; 43; 0].

Record Keyboard := { extended : bool; shift : bool }.

Definition is_shift_key (scancode : Z) : bool :=
  (scancode =? 0x2A) || (scancode =? 0x36) || (scancode =? 0xAA) || (scancode =? 0xB6) || (scancode =? 0x3A).

Definition scan_to_ascii (scancode : Z) (k : Keyboard) : option (Z * Keyboard) :=
  if scancode =? 0xE0 then Some (0, {| extended := true; shift := shift k |}) else
  if extended k then Some (s8 scancode, k) else
  let k := if is_shift_key scancode then {| extended := extended k; shift := negb (shift k) |} else k in
  ascii ← (if (0 <=? scancode) && (scancode <? Z.of_nat (length keymap)) then arr_get keymap scancode else Some 0);
  if shift k then
    if (97 <=? ascii) && (ascii <=? 122) then Some (s8 (ascii - 97 + 65), k)
    else if (96 <=? scancode) && (scancode <=? 61) then
      c ← arr_get shift_num_row (scancode - 96); Some (s8 c, k)
    else Some (s8 ascii, k)
  else Some (s8 ascii, k).

Section ps2.
Context {D : Type} `{Ps2Env D} (VGA_WIDTH VGA_HEIGHT : Z).
Implicit Types (d : D).

Definition keyboard_packet (scancode : Z) (k : Keyboard) d : option (Keyboard * D) :=
  '(ascii, k) ← scan_to_ascii scancode k;
  if negb (ascii =? 0) then
    if negb (Z.land scancode 0x80 =? 0) then Some (k, new_user_event KEY_CHAR_UP ascii d)
    else Some (k, new_user_event KEY_CHAR_DOWN ascii d)
  else Some (k, d).

(** ** The mouse *)

Record MouseState := {
  mx : Z; my : Z; old_x : Z; old_y : Z; lclick_x : Z; lclick_y : Z; lbutton : bool; ldrag : bool
}.

Definition with_pos (m : MouseState) (px py : Z) : MouseState :=
  {| mx := px; my := py; old_x := old_x m; old_y := old_y m; lclick_x := lclick_x m; lclick_y := lclick_y m;
     lbutton := lbutton m; ldrag := ldrag m |}.
Definition with_buttons (m : MouseState) (l dr : bool) : MouseState :=
  {| mx := mx m; my := my m; old_x := old_x m; old_y := old_y m; lclick_x := lclick_x m; lclick_y := lclick_y m;
     lbutton := l; ldrag := dr |}.
Definition with_click (m : MouseState) (cx cy : Z) : MouseState :=
  {| mx := mx m; my := my m; old_x := old_x m; old_y := old_y m; lclick_x := cx; lclick_y := cy;
     lbutton := lbutton m; ldrag := ldrag m |}.

(** The deltas of a packet: 9-bit two's complement, the sign bits in [b0]. *)
Definition delta_x (b0 b1 : Z) : Z := b1 - Z.land (Z.shiftl b0 4) 0x100.
Definition delta_y (b0 b2 : Z) : Z := Z.land (Z.shiftl b0 3) 0x100 - b2.

Definition move_mouse (b0 b1 b2 : Z) (m : MouseState) : MouseState :=
  let px := mx m + delta_x b0 b1 in
  let py := my m + delta_y b0 b2 in
  let px := if VGA_WIDTH <=? px then VGA_WIDTH - 1 else px in
  let px := if px <? 0 then 0 else px in
  let py := if VGA_HEIGHT <=? py then VGA_HEIGHT - 1 else py in
  let py := if py <? 0 then 0 else py in
  with_pos m px py.

(** How far the pointer is from where the button went down. *)
Definition in_click_box (m : MouseState) : bool :=
  let dx := u32 (mx m - lclick_x m) +w CLICK_BOX in
  let dy := u32 (my m - lclick_y m) +w CLICK_BOX in
  (dx <? CLICK_BOX * 2) && (dy <? CLICK_BOX * 2).

Definition left_button (b0 : Z) (ev : MouseEvent) (m : MouseState) d : MouseEvent * MouseState * D :=
  let box := {| rl := 650; rt := 0; rr := 660; rb := 10 |} in
  if negb (Z.land b0 0x01 =? 0) then
    let ev := {| ev_x := ev_x ev; ev_y := ev_y ev; ev_lbutton := 1; ev_rbutton := ev_rbutton ev |} in
    let d := fill_rect box WHITE d in
    if negb (lbutton m) then
      let d := new_user_event MOUSE_LEFT_DOWN (MouseEvent_int ev) d in
      (ev, with_click (with_buttons m true (ldrag m)) (mx m) (my m), d)
    else (ev, m, d)
  else
    let d := fill_rect box BLACK d in
    let '(m, d) := if ldrag m
                   then (with_buttons m (lbutton m) false, new_user_event MOUSE_LEFT_DRAG_END (MouseEvent_int ev) d)
                   else (m, d) in
    if lbutton m then
      let m := with_buttons m false (ldrag m) in
      let d := new_user_event MOUSE_LEFT_UP (MouseEvent_int ev) d in
      if in_click_box m then
        let ev := {| ev_x := s12 (lclick_x m); ev_y := s12 (lclick_y m);
                     ev_lbutton := ev_lbutton ev; ev_rbutton := ev_rbutton ev |} in
        (ev, m, new_user_event MOUSE_LEFT_CLICK (MouseEvent_int ev) d)
      else (ev, m, d)
    else (ev, m, d).

Definition right_button (b0 : Z) (ev : MouseEvent) d : MouseEvent * D :=
  let box := {| rl := 660; rt := 0; rr := 670; rb := 10 |} in
  if negb (Z.land b0 0x02 =? 0) then
    ({| ev_x := ev_x ev; ev_y := ev_y ev; ev_lbutton := ev_lbutton ev; ev_rbutton := 1 |}, fill_rect box WHITE d)
  else (ev, fill_rect box BLACK d).

Definition moved (ev : MouseEvent) (m : MouseState) d : MouseState * D :=
  if negb (old_x m =? mx m) || negb (old_y m =? my m) then
    let d := new_user_event MOUSE_MOVE (MouseEvent_int ev) d in
    if lbutton m && negb (ldrag m) then
      let m := with_buttons m (lbutton m) true in
      (m, if negb (in_click_box m) then new_user_event MOUSE_LEFT_DRAG_START (MouseEvent_int ev) d else d)
    else (m, d)
  else (m, d).

(** The bytes of an aligned packet. *)
Definition packet (b0 b1 b2 : Z) (m : MouseState) (old_tsc : Z) d : MouseState * Z * D :=
  let m := move_mouse b0 b1 b2 m in
  let '(tsc, d) := rdtsc d in
  let diff_tsc := (tsc - old_tsc) mod 18446744073709551616 in
  let ev := {| ev_x := s12 (mx m); ev_y := s12 (my m); ev_lbutton := 0; ev_rbutton := 0 |} in
  let '(ev, m, d) := left_button b0 ev m d in
  let '(ev, d) := right_button b0 ev d in
  if 0x04000000 <? diff_tsc then
    let '(m, d) := moved ev m d in (m, tsc, d)
  else (m, old_tsc, d).

Definition misaligned (b0 : Z) : bool := negb (Z.land b0 0xC0 =? 0) || (Z.land b0 0x08 =? 0).

Record Ps2 := {
  mouse_buffer : list Z;
  mouse_buffer_index : Z;
  num_mouse_packets : Z;
  old_tsc : Z;
  mouse : MouseState
}.

Definition mouse_packet (data : Z) (s : Ps2) d : option (Ps2 * D) :=
  buf ← arr_set (mouse_buffer s) (mouse_buffer_index s) data;
  let index := (mouse_buffer_index s + 1) mod 3 in
  let num := u32 (num_mouse_packets s + 1) in
  if 3 <=? num then
    b0 ← arr_get buf index;
    b1 ← arr_get buf ((index + 1) mod 3);
    let b2 := data in
    if misaligned b0 then
      Some ({| mouse_buffer := buf; mouse_buffer_index := index; num_mouse_packets := 2;
               old_tsc := old_tsc s; mouse := mouse s |}, d)
    else
      let '(m, tsc, d) := packet b0 b1 b2 (mouse s) (old_tsc s) d in
      Some ({| mouse_buffer := buf; mouse_buffer_index := 0; num_mouse_packets := 0;
               old_tsc := tsc; mouse := m |}, d)
  else
    Some ({| mouse_buffer := buf; mouse_buffer_index := index; num_mouse_packets := num;
             old_tsc := old_tsc s; mouse := mouse s |}, d).

(** ** The controller *)

(** The first loop of [ps2_input]: the status read last, and whether it broke. *)
Fixpoint await_input (n : nat) (ps2_status : Z) d : bool * Z * D :=
  match n with
  | O => (false, ps2_status, d)
  | S n =>
      let '(ps2_status, d) := inb 0x64 d in
      if negb (Z.land ps2_status 0x01 =? 0) then (true, ps2_status, d) else await_input n ps2_status d
  end.

Fixpoint drain_input (n : nat) (ps2_status : Z) (k : Keyboard) (s : Ps2) d : option (Keyboard * Ps2 * D) :=
  match n with
  | O => Some (k, s, d)
  | S n =>
      if Z.land ps2_status 0x01 =? 0 then Some (k, s, d) else
      let '(ps2_data, d) := inb 0x60 d in
      '(k, s, d) ← (if negb (Z.land ps2_status 0x20 =? 0)
                    then '(s, d) ← mouse_packet ps2_data s d; Some (k, s, d)
                    else '(k, d) ← keyboard_packet ps2_data k d; Some (k, s, d));
      let '(ps2_status, d) := inb 0x64 d in
      drain_input n ps2_status k s d
  end.

Definition ps2_input (k : Keyboard) (s : Ps2) d : option (Keyboard * Ps2 * D) :=
  let '(ready, ps2_status, d) := await_input 0x10 0 d in
  if negb ready then Some (k, s, d) else drain_input 0x10 ps2_status k s d.

(** Both interrupt handlers. *)
Definition ps2_interrupt (k : Keyboard) (s : Ps2) d : option (Keyboard * Ps2 * D) :=
  '(k, s, d) ← ps2_input k s d; Some (k, s, send_eoi d).

(** A status poll of [0x10000] rounds, after which the driver gives up. *)
Definition kb_poll (stop : Z -> bool) d : Z * D :=
  match iter_until (fun d => let '(st, d) := inb 0x64 d in if stop st then inr d else inl d) 0x10000 d with
  | inl d => (0, d)
  | inr d => (1, d)
  end.

Definition waitKBread d : Z * D := kb_poll (fun st => negb (Z.land st 0x01 =? 0)) d.
Definition waitKBwrite d : Z * D := kb_poll (fun st => Z.land st 0x02 =? 0) d.
Definition waitKBdata d : Z * D := kb_poll (fun st => Z.land st 0x20 =? 0) d.

Definition sendKBCmd (cmd : Z) d : Z * D :=
  let '(ok, d) := waitKBwrite d in
  if ok =? 0 then (0, d) else (1, outb 0x64 cmd d).

Definition readKB d : Z * D := inb 0x60 (snd (waitKBread d)).

Definition sendKBData (data : Z) d : Z * D :=
  let '(ok, d) := waitKBdata d in
  if ok =? 0 then (0, d) else
  let d := snd (inb 0x60 d) in
  let '(ok, d) := waitKBwrite d in
  if ok =? 0 then (0, d) else
  let d := outb 0x60 data d in
  let d := snd (waitKBwrite d) in
  (1, snd (waitKBread (snd (waitKBread (snd (waitKBread d)))))).

Definition confirmKB d : Z * D :=
  let '(response, d) := readKB d in (if negb (response =? 0xFA) then 0 else 1, d).

Definition init_ps2 (s : Ps2) d : Z * Ps2 * D :=
  let d := set_handler MOUSE_IDT (set_handler KEYBOARD_IDT d) in
  let d := set_irq_vector MOUSE_IRQ MOUSE_IDT (set_irq_vector KEYBOARD_IRQ KEYBOARD_IDT d) in
  let '(tsc, d) := rdtsc d in
  let s := {| mouse_buffer := mouse_buffer s; mouse_buffer_index := 0; num_mouse_packets := 0;
              old_tsc := tsc; mouse := mouse s |} in
  let d := snd (confirmKB (snd (sendKBData 0xF5 (snd (sendKBCmd 0xD4 d))))) in
  let d := snd (confirmKB (snd (sendKBData 0xFF (snd (sendKBCmd 0xD4 d))))) in
  let '(bac, d) := readKB d in
  if negb (bac =? 0xAA) then (0, s, d) else
  let d := snd (readKB (snd (sendKBCmd 0xA8 d))) in
  let '(cmdbyte, d) := readKB (snd (sendKBCmd 0x20 d)) in
  let cmdbyte := Z.land (Z.lor cmdbyte 0x03) 0xEF in
  let d := snd (confirmKB (snd (sendKBData cmdbyte (snd (sendKBCmd 0x60 d))))) in
  let d := snd (readKB (snd (sendKBData 0xF4 (snd (sendKBCmd 0xD4 d))))) in
  (1, s, d).
End ps2.

(** ** Talking to the controller

    Whatever the ports keep, the driver keeps: a relation of states that every
    access to a port respects, the start of the driver respects too, but for the
    handlers and the time stamp. *)

Section talking.
Context {D : Type} `{Ps2Env D} (R : D -> D -> Prop) (Hrefl : forall d, R d d) (Htrans : forall d1 d2 d3, R d1 d2 -> R d2 d3 -> R d1 d3).
Context (Hin : forall p d, R d (snd (inb p d))) (Hout : forall p v d, R d (outb p v d)).

Lemma kb_poll_keeps stop d : R d (snd (kb_poll stop d)).
Proof.
  unfold kb_poll. rewrite iter_until_unfold. generalize (Z.to_nat 0x10000) as n. intros n. revert d.
  induction n as [|n IH]; intros d; cbn [iter_until_nat]; [apply Hrefl|].
  pose proof (Hin 0x64 d) as H1. destruct (inb 0x64 d) as [st d1]. cbn [snd] in H1. destruct (stop st); cbn [and_then]; [exact H1|].
  eapply Htrans; [exact H1|apply IH].
Qed.

Lemma sendKBCmd_keeps cmd d : R d (snd (sendKBCmd cmd d)).
Proof.
  unfold sendKBCmd, waitKBwrite. pose proof (kb_poll_keeps (fun st => Z.land st 0x02 =? 0) d) as H1.
  destruct (kb_poll _ d) as [ok d1]. destruct (ok =? 0); cbn [snd] in *; [exact H1|]. eapply Htrans; [exact H1|apply Hout].
Qed.

Lemma readKB_keeps d : R d (snd (readKB d)).
Proof. unfold readKB. eapply Htrans; [apply kb_poll_keeps|apply Hin]. Qed.

Lemma confirmKB_keeps d : R d (snd (confirmKB d)).
Proof. unfold confirmKB. pose proof (readKB_keeps d) as H1. by destruct (readKB d). Qed.

Lemma sendKBData_keeps data d : R d (snd (sendKBData data d)).
Proof.
  unfold sendKBData, waitKBdata, waitKBwrite. pose proof (kb_poll_keeps (fun st => Z.land st 0x20 =? 0) d) as H1.
  destruct (kb_poll _ d) as [ok d1]. destruct (ok =? 0); cbn [snd] in *; [exact H1|].
  pose proof (Hin 0x60 d1) as H2. set (d2 := snd (inb 0x60 d1)) in *.
  pose proof (kb_poll_keeps (fun st => Z.land st 0x02 =? 0) d2) as H3. destruct (kb_poll _ d2) as [ok2 d3].
  assert (R d d3) as Hd3 by (eapply Htrans; [exact H1|eapply Htrans; [exact H2|exact H3]]).
  destruct (ok2 =? 0); cbn [snd] in *; [exact Hd3|]. unfold waitKBread.
  repeat (eapply Htrans; [|apply kb_poll_keeps]). eapply Htrans; [exact Hd3|apply Hout].
Qed.

(** [init_ps2] sets the two handlers and routes the two lines, restarts the ring
    of mouse bytes, and then only talks to the controller. *)
Lemma init_ps2_keeps s d (d1 := Ps2.set_irq_vector MOUSE_IRQ MOUSE_IDT (Ps2.set_irq_vector KEYBOARD_IRQ KEYBOARD_IDT
    (Ps2.set_handler MOUSE_IDT (Ps2.set_handler KEYBOARD_IDT d)))) :
  exists r tsc d2 d', rdtsc d1 = (tsc, d2) /\ R d2 d' /\
    init_ps2 s d = (r, {| mouse_buffer := mouse_buffer s; mouse_buffer_index := 0; num_mouse_packets := 0; old_tsc := tsc;
                          mouse := mouse s |}, d').
Proof.
  unfold init_ps2. fold d1. destruct (rdtsc d1) as [tsc d2]. cbv zeta.
  assert (forall v d3, R d2 d3 -> R d2 (snd (confirmKB (snd (sendKBData v (snd (sendKBCmd 0xD4 d3))))))) as Hdev.
  { intros v d3 Hd3. eapply Htrans; [|apply confirmKB_keeps]. eapply Htrans; [|apply sendKBData_keeps].
    eapply Htrans; [exact Hd3|apply sendKBCmd_keeps]. }
  pose proof (Hdev 0xFF _ (Hdev 0xF5 d2 (Hrefl d2))) as H3. set (d3 := snd (confirmKB (snd (sendKBData 0xFF _)))) in *.
  pose proof (Htrans _ _ _ H3 (readKB_keeps d3)) as H4. destruct (readKB d3) as [bac d4]. cbn [snd] in H4.
  destruct (negb (bac =? 0xAA)); [do 4 eexists; split; [reflexivity|]; split; [exact H4|reflexivity]|].
  assert (R d2 (snd (readKB (snd (sendKBCmd 0x20 (snd (readKB (snd (sendKBCmd 0xA8 d4))))))))) as H5.
  { eapply Htrans; [|apply readKB_keeps]. eapply Htrans; [|apply sendKBCmd_keeps]. eapply Htrans; [|apply readKB_keeps].
    eapply Htrans; [exact H4|apply sendKBCmd_keeps]. }
  destruct (readKB _) as [cmdbyte d5]. cbn [snd] in H5.
  do 4 eexists; split; [reflexivity|]. split; [|reflexivity].
  eapply Htrans; [|apply readKB_keeps]. eapply Htrans; [|apply sendKBData_keeps]. eapply Htrans; [|apply sendKBCmd_keeps].
  eapply Htrans; [|apply confirmKB_keeps]. eapply Htrans; [|apply sendKBData_keeps].
  eapply Htrans; [exact H5|apply sendKBCmd_keeps].
Qed.
End talking.

(** ** The ring of three bytes is a sliding window *)

Section stream.
Context {D : Type} `{Ps2Env D} (VGA_WIDTH VGA_HEIGHT : Z) (HW : 0 < VGA_WIDTH) (HH : 0 < VGA_HEIGHT).

(** The stream of mouse bytes as the interrupt handler feeds it. *)
Fixpoint run_bytes (bs : list Z) (s : Ps2) (d : D) : option (Ps2 * D) :=
  match bs with
  | [] => Some (s, d)
  | byte :: bs => '(s, d) ← mouse_packet VGA_WIDTH VGA_HEIGHT byte s d; run_bytes bs s d
  end.

(** The decoder it implements: [w] holds the bytes not consumed, at most two.
    Three bytes that start with an aligned one are a packet; else the oldest
    byte is dropped. *)
Definition decode_byte (w : list Z) (m : MouseState) (tsc : Z) (byte : Z) (d : D) : list Z * MouseState * Z * D :=
  match w with
  | [b0; b1] =>
      if misaligned b0 then ([b1; byte], m, tsc, d)
      else let '(m, tsc, d) := packet VGA_WIDTH VGA_HEIGHT b0 b1 byte m tsc d in ([], m, tsc, d)
  | w => (w ++ [byte], m, tsc, d)
  end.

Fixpoint decode (bs : list Z) (w : list Z) (m : MouseState) (tsc : Z) (d : D) : list Z * MouseState * Z * D :=
  match bs with
  | [] => (w, m, tsc, d)
  | byte :: bs => let '(w, m, tsc, d) := decode_byte w m tsc byte d in decode bs w m tsc d
  end.

Definition pointer_visible (m : MouseState) : Prop := 0 <= mx m < VGA_WIDTH /\ 0 <= my m < VGA_HEIGHT.

(** The ring holds the window [w], oldest byte first, before its index. *)
Definition window (s : Ps2) (w : list Z) : Prop :=
  length (mouse_buffer s) = 3%nat /\ 0 <= mouse_buffer_index s < 3 /\
  num_mouse_packets s = Z.of_nat (length w) /\ (length w <= 2)%nat /\
  forall j c, w !! j = Some c ->
    arr_get (mouse_buffer s) ((mouse_buffer_index s - Z.of_nat (length w) + Z.of_nat j) mod 3) = Some c.

Lemma window_intro buf index num tsc m w :
  length buf = 3%nat -> 0 <= index < 3 -> num = Z.of_nat (length w) -> (length w <= 2)%nat ->
  (forall j c, w !! j = Some c -> arr_get buf ((index - Z.of_nat (length w) + Z.of_nat j) mod 3) = Some c) ->
  window {| mouse_buffer := buf; mouse_buffer_index := index; num_mouse_packets := num;
            old_tsc := tsc; mouse := m |} w.
Proof. done. Qed.

Lemma move_pointer_visible b0 b1 b2 m : pointer_visible (move_mouse VGA_WIDTH VGA_HEIGHT b0 b1 b2 m).
Proof. unfold pointer_visible, move_mouse. cbn. split_ltb; lia. Qed.

Lemma left_button_pos b0 ev m d :
  let '(_, m', _) := left_button b0 ev m d in mx m' = mx m /\ my m' = my m.
Proof. unfold left_button. by repeat (case_match; simplify_eq/=). Qed.

Lemma moved_pos ev m d : let '(m', _) := moved ev m d in mx m' = mx m /\ my m' = my m.
Proof. unfold moved. by repeat (case_match; simplify_eq/=). Qed.

Lemma packet_pointer_visible b0 b1 b2 m tsc d :
  let '(m', _, _) := packet VGA_WIDTH VGA_HEIGHT b0 b1 b2 m tsc d in pointer_visible m'.
Proof.
  unfold packet. destruct (rdtsc d) as [tsc1 d1].
  pose proof (move_pointer_visible b0 b1 b2 m) as Hs. set (m1 := move_mouse _ _ _ _ _ m) in *.
  match goal with |- context [left_button b0 ?ev m1 d1] =>
    pose proof (left_button_pos b0 ev m1 d1) as Hl; destruct (left_button b0 ev m1 d1) as [[ev1 m2] d2] end.
  destruct Hl as [Hx Hy].
  destruct (right_button b0 ev1 d2) as [ev2 d3]. destruct (_ <? _).
  - pose proof (moved_pos ev2 m2 d3) as Hm. destruct (moved ev2 m2 d3) as [m3 d4]. destruct Hm as [Hx' Hy'].
    unfold pointer_visible in *. by rewrite Hx', Hy', Hx, Hy.
  - unfold pointer_visible in *. by rewrite Hx, Hy.
Qed.

Lemma mouse_packet_window s w byte d :
  window s w ->
  exists s' d', mouse_packet VGA_WIDTH VGA_HEIGHT byte s d = Some (s', d') /\
    exists w', decode_byte w (mouse s) (old_tsc s) byte d = (w', mouse s', old_tsc s', d') /\ window s' w' /\
      (pointer_visible (mouse s) -> pointer_visible (mouse s')).
Proof.
  intros (Hlen & Hi & Hn & Hw & Hget). unfold mouse_packet.
  destruct s as [buf idx num tsc m]. cbn in *. rewrite Hn.
  destruct (arr_set buf idx byte) as [buf'|] eqn:Eset; [|rewrite arr_set_Some in Eset by lia; done].
  cbn [mbind option_bind]. assert (length buf' = 3%nat) as Hlen' by (by rewrite (arr_set_length _ _ _ _ Eset)).
  assert (forall j, 0 <= j < 3 -> arr_get buf' j = if decide (idx = j) then Some byte else arr_get buf j) as Hg
    by (intros; by apply arr_get_set).
  destruct w as [|b0 [|b1 [|]]]; cbn in Hw; try lia; cbn [length] in *.
  - cbn. eexists _, _. split; [reflexivity|]. exists [byte]. split; [done|]. split; [|done].
    apply window_intro; [exact Hlen'|zdm|reflexivity|cbn; lia|]. intros [|j] c Hc; [|done]. cbn in Hc. simplify_eq.
    cbn. replace (_ mod 3) with idx by zdm. rewrite Hg by lia. by destruct (decide (idx = idx)).
  - cbn. eexists _, _. split; [reflexivity|]. exists [b0; byte]. split; [done|]. split; [|done].
    specialize (Hget 0%nat b0 eq_refl). cbn in Hget. rewrite Z.add_0_r in Hget.
    apply window_intro; [exact Hlen'|zdm|reflexivity|cbn; lia|].
    intros [|[|j]] c Hc; cbn in Hc; simplify_eq; cbn -[Z.sub Z.modulo].
    + replace (_ mod 3) with ((idx - 1) mod 3) by zdm. rewrite Hg by zdm.
      destruct (decide _); [zdm|done].
    + replace (_ mod 3) with idx by zdm. rewrite Hg by lia. by destruct (decide (idx = idx)).
  - assert (arr_get buf ((idx + 1) mod 3) = Some b0) as H0 by (rewrite <- (Hget 0%nat b0 eq_refl); f_equal; cbn [length]; zdm).
    assert (arr_get buf (((idx + 1) mod 3 + 1) mod 3) = Some b1) as H1 by (rewrite <- (Hget 1%nat b1 eq_refl); f_equal; cbn [length]; zdm).
    clear Hget. change (u32 (Z.of_nat 2 + 1)) with 3. change (3 <=? 3) with true. cbv iota zeta.
    rewrite (Hg ((idx + 1) mod 3)), (Hg (((idx + 1) mod 3 + 1) mod 3)) by zdm.
    destruct (decide (idx = (idx + 1) mod 3)); [zdm|]. destruct (decide (idx = ((idx + 1) mod 3 + 1) mod 3)); [zdm|].
    rewrite H0, H1. cbn [mbind option_bind]. unfold decode_byte. destruct (misaligned b0).
    + eexists _, _. split; [reflexivity|]. exists [b1; byte]. split; [done|]. split; [|done].
      apply window_intro; [exact Hlen'|zdm|reflexivity|cbn; lia|].
      intros [|[|j]] c Hc; cbn in Hc; simplify_eq; cbn -[Z.sub Z.modulo].
      * replace (_ mod 3) with (((idx + 1) mod 3 + 1) mod 3) by zdm. rewrite Hg by zdm.
        destruct (decide _); [zdm|done].
      * replace (_ mod 3) with idx by zdm. rewrite Hg by lia. by destruct (decide (idx = idx)).
    + pose proof (packet_pointer_visible b0 b1 byte m tsc d) as Hp.
      destruct (packet VGA_WIDTH VGA_HEIGHT b0 b1 byte m tsc d) as [[m' tsc'] d'].
      eexists _, _. split; [reflexivity|]. exists []. split; [done|]. split; [|done].
      apply window_intro; [exact Hlen'|lia|reflexivity|cbn; lia|]. intros j c Hc. by rewrite lookup_nil in Hc.
Qed.
End stream.

Lemma run_bytes_decode {D} `{Ps2Env D} VGA_WIDTH VGA_HEIGHT bs s w (d : D) :
  0 < VGA_WIDTH -> 0 < VGA_HEIGHT -> window s w ->
  exists s' d', run_bytes VGA_WIDTH VGA_HEIGHT bs s d = Some (s', d') /\
    exists w', decode VGA_WIDTH VGA_HEIGHT bs w (mouse s) (old_tsc s) d = (w', mouse s', old_tsc s', d') /\
      window s' w' /\
      (pointer_visible VGA_WIDTH VGA_HEIGHT (mouse s) -> pointer_visible VGA_WIDTH VGA_HEIGHT (mouse s')).
Proof.
  intros HW HH. revert s w d. induction bs as [|byte bs IH]; intros s w d Hw; cbn [run_bytes decode].
  { exists s, d. split; [done|]. by exists w. }
  destruct (mouse_packet_window _ _ HW HH s w byte d Hw) as (s1 & d1 & -> & w1 & E1 & Hw1 & Hs1).
  cbn [mbind option_bind]. rewrite E1.
  destruct (IH s1 w1 d1 Hw1) as (s2 & d2 & E2 & w2 & E3 & Hw2 & Hs2).
  exists s2, d2. split; [done|]. exists w2. auto.
Qed.

(** C20: on every stream of bytes the handler is defined and does what the
    sliding-window decoder does: the ring of three bytes loses and reorders
    nothing, a misaligned window costs one byte, and the pointer stays on the
    screen. *)
Theorem mouse_stream_spec {D} `{Ps2Env D} VGA_WIDTH VGA_HEIGHT bs s w (d : D) :
  0 < VGA_WIDTH -> 0 < VGA_HEIGHT -> window s w ->
  exists s' d', run_bytes VGA_WIDTH VGA_HEIGHT bs s d = Some (s', d') /\
    exists w', decode VGA_WIDTH VGA_HEIGHT bs w (mouse s) (old_tsc s) d = (w', mouse s', old_tsc s', d') /\
      window s' w' /\
      (pointer_visible VGA_WIDTH VGA_HEIGHT (mouse s) -> pointer_visible VGA_WIDTH VGA_HEIGHT (mouse s')).
Proof. apply run_bytes_decode. Qed.

(** A recording of the driver's calls: the time advances by one tick over the
    throttle at each reading, the ports read 0. *)
Definition tape : Type := Z * list (UserEvents * Z).

#[export] Instance tape_ports : Ports tape := {
  inb _ d := (0, d); inw _ d := (0, d); outb _ _ d := d
}.
#[export] Instance tape_env : Ps2Env tape := {
  rdtsc d := (fst d + 0x04000001, (fst d + 0x04000001, snd d));
  new_user_event e v d := (fst d, snd d ++ [(e, v)]);
  fill_rect _ _ d := d; send_eoi d := d; set_handler _ d := d; set_irq_vector _ _ d := d
}.

Definition mouse_at (px py : Z) : MouseState :=
  {| mx := px; my := py; old_x := px; old_y := py; lclick_x := 0; lclick_y := 0; lbutton := false; ldrag := false |}.
Definition ps2_at (px py : Z) : Ps2 :=
  {| mouse_buffer := [0; 0; 0]; mouse_buffer_index := 0; num_mouse_packets := 0; old_tsc := 0; mouse := mouse_at px py |}.

Lemma window_empty px py : window (ps2_at px py) [].
Proof. apply window_intro; [done|lia|done|cbn; lia|]. intros j c Hc. by rewrite lookup_nil in Hc. Qed.

Lemma mouse_stream_spec_witness :
  exists s' (d' : tape), run_bytes 800 600 [0x40; 0x29; 10; 5] (ps2_at 100 100) (0, []) = Some (s', d') /\
    mx (mouse s') = 110 /\ my (mouse s') = 351.
Proof.
  destruct (mouse_stream_spec 800 600 [0x40; 0x29; 10; 5] (ps2_at 100 100) [] ((0, []) : tape)
              ltac:(lia) ltac:(lia) (window_empty 100 100)) as (s' & d' & E & w' & E' & _).
  exists s', d'. split; [exact E|]. apply (f_equal (fun q => snd (fst (fst q)))) in E'.
  rewrite <- (E' : _ = mouse s'). split; reflexivity.
Defined.

(** ** The protocol of the left button *)

Inductive Phase := Up | Held (dragging : bool) | Ended.

Definition phase_step (p : Phase) (e : UserEvents) : option Phase :=
  match e, p with
  | MOUSE_LEFT_DOWN, Up => Some (Held false)
  | MOUSE_LEFT_DRAG_START, Held false => Some (Held true)
  | MOUSE_LEFT_DRAG_END, Held _ => Some Ended
  | MOUSE_LEFT_UP, (Held _ | Ended) => Some Up
  | MOUSE_LEFT_CLICK, Up => Some Up
  | MOUSE_MOVE, (Up | Held _) => Some p
  | _, _ => None
  end.

Fixpoint phases (p : Phase) (evs : list (UserEvents * Z)) : option Phase :=
  match evs with
  | [] => Some p
  | (e, _) :: evs => p ← phase_step p e; phases p evs
  end.

Lemma phases_app p evs1 evs2 : phases p (evs1 ++ evs2) = p' ← phases p evs1; phases p' evs2.
Proof.
  revert p. induction evs1 as [|[e v] evs1 IH]; intros p; cbn [phases app]; [done|].
  destruct (phase_step p e); cbn; [apply IH|done].
Qed.

Definition agrees (p : Phase) (m : MouseState) : Prop :=
  match p with
  | Up => lbutton m = false /\ ldrag m = false
  | Held f => lbutton m = true /\ (f = true -> ldrag m = true)
  | Ended => False
  end.

(** What the driver's calls record. *)
Class EventLog (D : Type) `{Ps2Env D} (log : D -> list (UserEvents * Z)) : Prop := {
  log_event e v d : log (new_user_event e v d) = log d ++ [(e, v)];
  log_rdtsc d : log (snd (rdtsc d)) = log d;
  log_fill r c d : log (fill_rect r c d) = log d
}.
#[export] Instance tape_log : EventLog tape snd.
Proof. split; reflexivity. Qed.

Section protocol.
Context {D : Type} `{Ps2Env D} (log : D -> list (UserEvents * Z)) `{!EventLog D log} (VGA_WIDTH VGA_HEIGHT : Z).

(** From [d] to [d'] the events take phase [p] to one that agrees with [m]. *)
Definition follows (p : Phase) (d d' : D) (m : MouseState) : Prop :=
  exists evs p', log d' = log d ++ evs /\ phases p evs = Some p' /\ agrees p' m.

Lemma follows_trans p d d1 d2 m1 m2 :
  follows p d d1 m1 -> (forall p1, agrees p1 m1 -> follows p1 d1 d2 m2) -> follows p d d2 m2.
Proof.
  intros (evs1 & p1 & E1 & P1 & A1) H2. destruct (H2 p1 A1) as (evs2 & p2 & E2 & P2 & A2).
  exists (evs1 ++ evs2), p2. rewrite E2, E1, <- app_assoc. split; [done|]. split; [|done].
  by rewrite phases_app, P1.
Qed.

Lemma left_button_follows p b0 ev m d :
  agrees p m -> let '(_, m', d') := left_button b0 ev m d in follows p d d' m'.
Proof.
  intros Ha. unfold left_button.
  destruct p as [|f|]; [destruct Ha as [Hl Hd]; rewrite Hd|destruct Ha as [Hl _Hd]|done]; rewrite Hl;
    destruct (negb (Z.land b0 1 =? 0)); cbn [negb]; rewrite ?Hl.
  - exists [(MOUSE_LEFT_DOWN, MouseEvent_int {| ev_x := ev_x ev; ev_y := ev_y ev; ev_lbutton := 1; ev_rbutton := ev_rbutton ev |})], (Held false).
    rewrite log_event, log_fill. split; [done|]. split; [done|]. done.
  - exists [], Up. by rewrite log_fill, app_nil_r.
  - exists [], (Held f). by rewrite log_fill, app_nil_r.
  - destruct (ldrag m) eqn:Em; cbn [with_buttons lbutton ldrag]; rewrite ?Hl; destruct (in_click_box _); cbn; unfold follows;
      rewrite ?log_event, ?log_fill, <- ?app_assoc; eexists _, Up; (split; [reflexivity|]); cbn; by rewrite ?Em.
Qed.

Lemma moved_follows p ev m d :
  agrees p m -> let '(m', d') := moved ev m d in follows p d d' m'.
Proof.
  intros Ha. unfold moved. destruct (negb _ || negb _).
  2: { exists [], p. by rewrite app_nil_r. }
  destruct p as [|f|]; [|destruct f|done]; destruct Ha as [Hl Hd]; rewrite Hl; cbn [andb].
  - unfold follows. eexists _, Up. rewrite log_event. by split.
  - rewrite Hd by done. cbn [negb andb]. unfold follows. eexists _, (Held true). rewrite log_event. split; [done|]. by split.
  - destruct (ldrag m); cbn [negb andb].
    { unfold follows. eexists _, (Held false). rewrite log_event. split; [done|]. by split. }
    unfold follows; destruct (in_click_box _); cbn [negb]; rewrite ?log_event, <- ?app_assoc;
      [eexists _, (Held false)|eexists _, (Held true)]; (split; [reflexivity|]); by split.
Qed.

Lemma packet_follows p b0 b1 b2 m tsc d :
  agrees p m -> let '(m', _, d') := packet VGA_WIDTH VGA_HEIGHT b0 b1 b2 m tsc d in follows p d d' m'.
Proof.
  intros Ha. unfold packet. pose proof (log_rdtsc d) as Er. destruct (rdtsc d) as [tsc1 d1]. cbn in Er.
  assert (agrees p (move_mouse VGA_WIDTH VGA_HEIGHT b0 b1 b2 m)) as Ha1 by (by destruct p).
  set (m1 := move_mouse _ _ _ _ _ m) in *.
  match goal with |- context [left_button b0 ?ev m1 d1] =>
    pose proof (left_button_follows p b0 ev m1 d1 Ha1) as Hl; destruct (left_button b0 ev m1 d1) as [[ev1 m2] d2] end.
  assert (log (snd (right_button b0 ev1 d2)) = log d2) as Eb
    by (unfold right_button; destruct (negb _); apply log_fill).
  destruct (right_button b0 ev1 d2) as [ev2 d3]. cbn in Eb.
  assert (follows p d d3 m2) as Hf by (destruct Hl as (evs & p' & E & ?); exists evs, p'; by rewrite Eb, E, Er).
  destruct (_ <? _); [|done].
  pose proof (fun p1 => moved_follows p1 ev2 m2 d3) as Hm. destruct (moved ev2 m2 d3) as [m3 d4].
  by apply (follows_trans _ _ _ _ _ _ Hf).
Qed.

Lemma decode_follows p bs w m tsc d :
  agrees p m -> let '(_, m', _, d') := decode VGA_WIDTH VGA_HEIGHT bs w m tsc d in follows p d d' m'.
Proof.
  revert p w m tsc d. induction bs as [|byte bs IH]; intros p w m tsc d Ha; cbn [decode].
  { exists [], p. by rewrite app_nil_r. }
  assert (let '(_, m', _, d') := decode_byte VGA_WIDTH VGA_HEIGHT w m tsc byte d in follows p d d' m') as H1.
  { assert (follows p d d m) as Hrefl by (exists [], p; by rewrite app_nil_r).
    unfold decode_byte. destruct w as [|b0 [|b1 [|]]]; try done. destruct (misaligned b0); [done|].
    pose proof (packet_follows p b0 b1 byte m tsc d Ha) as Hp. by destruct (packet _ _ _ _ _ _ _ _) as [[? ?] ?]. }
  destruct (decode_byte _ _ w m tsc byte d) as [[[w1 m1] tsc1] d1].
  pose proof (fun p1 => IH p1 w1 m1 tsc1 d1) as H2.
  destruct (decode _ _ bs w1 m1 tsc1 d1) as [[[w2 m2] tsc2] d2]. by apply (follows_trans _ _ _ _ _ _ H1).
Qed.
End protocol.


(** Press, move by 2, move by 100, release. *)
Definition slow_drag : list Z := [0x09; 0; 0; 0x09; 2; 0; 0x09; 100; 0; 0x08; 0; 0].


(** A drag that begins with a small move ends without having started:
    [mouse.ldrag] is set before the distance is looked at. *)
Lemma slow_drag_never_starts :
  option_map (fun r => map fst (snd (snd r))) (run_bytes (D:=tape) 800 600 slow_drag (ps2_at 100 100) (0, [])) =
  Some [MOUSE_LEFT_DOWN; MOUSE_MOVE; MOUSE_MOVE; MOUSE_LEFT_DRAG_END; MOUSE_LEFT_UP; MOUSE_MOVE].
Proof. vm_compute. reflexivity. Qed.

(** ** The keyboard's prefix byte *)

Section keys.
Context {D : Type} `{Ps2Env D} (log : D -> list (UserEvents * Z)) `{!EventLog D log}.

Fixpoint run_keys (cs : list Z) (k : Keyboard) (d : D) : option (Keyboard * D) :=
  match cs with
  | [] => Some (k, d)
  | c :: cs => '(k, d) ← keyboard_packet c k d; run_keys cs k d
  end.

(** Is every event of the keyboard on a byte, in a state, a key press? *)
Definition press_only (c : Z) (k : Keyboard) : bool :=
  match scan_to_ascii c k with
  | Some (ascii, k') => negb (extended k') && ((ascii =? 0) || (Z.land c 0x80 =? 0))
  | None => false
  end.

Lemma plain_key c k : is_u8 c -> c <> 0xE0 -> extended k = false -> press_only c k = true.
Proof.
  intros Hc Hn Hk. destruct k as [e s]. cbn in Hk. subst e.
  pose proof (seqZ_forallb (fun c => (c =? 0xE0) ||
    press_only c {| extended := false; shift := true |} && press_only c {| extended := false; shift := false |})
    0 256 ltac:(vm_compute; reflexivity) c ltac:(unfold is_u8 in *; lia)) as Ht.
  cbv beta in Ht. rewrite (proj2 (Z.eqb_neq c 0xE0) Hn) in Ht. cbn [orb] in Ht. apply andb_true_iff in Ht as [? ?]. by destruct s.
Qed.
End keys.

(** Until a prefix byte 0xE0 arrives, every keyboard event is a key press
    and releases are dropped; after one, [extended] stays set and every later
    byte is reported as itself, presses and releases alike. *)
Theorem keyboard_prefix_sticks {D} `{Ps2Env D} (log : D -> list (UserEvents * Z)) `{!EventLog D log} cs k (d : D) :
  Forall (fun c => is_u8 c /\ c <> 0 /\ c <> 0xE0) cs ->
  exists k' d' evs, run_keys cs k d = Some (k', d') /\ log d' = log d ++ evs /\ extended k' = extended k /\
    if extended k
    then evs = map (fun c => (if Z.land c 0x80 =? 0 then KEY_CHAR_DOWN else KEY_CHAR_UP, s8 c)) cs
    else Forall (fun e => fst e = KEY_CHAR_DOWN) evs.
Proof.
  revert k d. induction cs as [|c cs IH]; intros k d Hcs; cbn [run_keys].
  { exists k, d, []. rewrite app_nil_r. destruct (extended k); by repeat split. }
  apply Forall_cons in Hcs as [(Hu & Hz & Hn) Hcs]. destruct (extended k) eqn:Ek.
  - unfold keyboard_packet, scan_to_ascii. destruct (Z.eqb_spec c 0xE0); [done|]. rewrite Ek. cbn [mbind option_bind].
    destruct (Z.eqb_spec (s8 c) 0) as [E0|]; [exfalso; unfold is_u8, s8 in *; zdm|]. cbn [negb].
    destruct (Z.land c 0x80 =? 0) eqn:El; cbn [negb mbind option_bind];
      match goal with |- context [run_keys cs k ?d1] => destruct (IH k d1 Hcs) as (k' & d' & evs & -> & Hl & E' & Hx) end;
      rewrite Ek in E', Hx; rewrite log_event, <- app_assoc in Hl; eexists k', d', _; (split; [done|]);
      (split; [exact Hl|]); (split; [done|]); cbn [map app]; by rewrite El, Hx.
  - pose proof (plain_key c k Hu Hn Ek) as Hp. unfold press_only in Hp. unfold keyboard_packet.
    destruct (scan_to_ascii c k) as [[ascii k1]|]; [|done]. cbn [mbind option_bind].
    apply andb_true_iff in Hp as [Hp1 Hp2]. apply negb_true_iff in Hp1.
    destruct (Z.eqb_spec ascii 0) as [->|Ha]; cbn [negb].
    + destruct (IH k1 d Hcs) as (k' & d' & evs & E & Hl & E' & Hx). rewrite Hp1 in E', Hx.
      exists k', d', evs. by cbn [mbind option_bind].
    + cbn [orb] in Hp2. rewrite Hp2. cbn [negb mbind option_bind].
      destruct (IH k1 (new_user_event KEY_CHAR_DOWN ascii d) Hcs) as (k' & d' & evs & E & Hl & E' & Hx).
      rewrite Hp1 in E', Hx. rewrite log_event, <- app_assoc in Hl. eexists k', d', _. split; [exact E|].
      split; [exact Hl|]. split; [done|]. by constructor.
Qed.

Lemma keyboard_prefix_sticks_witness :
  exists k' (d' : tape) evs, run_keys [0x1E; 0x9E] {| extended := true; shift := false |} (0, []) = Some (k', d') /\
    snd d' = evs /\ evs = [(KEY_CHAR_DOWN, 30); (KEY_CHAR_UP, -98)].
Proof.
  destruct (keyboard_prefix_sticks snd [0x1E; 0x9E] {| extended := true; shift := false |} ((0, []) : tape))
    as (k' & d' & evs & E & El & _ & Ev).
  - repeat constructor; unfold is_u8; lia.
  - exists k', d', evs. split; [exact E|]. split; [exact El|]. exact Ev.
Defined.
