(* ===== verification/Objects.v ===== *)
(** * The windows a process shares with the window manager:
    [include/gui/objects.h]

    The structures of user space: windows, frames and text boxes.  The union of
    [color] and [display_data] is one word. *)
From S2P Require Import Prelude Shapes.

Inductive WindowClass := NONE | WINDOW | WINDOW_FRAME | TEXT_BOX.

#[export] Instance WindowClass_eq_dec : EqDecision WindowClass.
Proof. solve_decision. Defined.

Record Window := {
  winclass : WindowClass;
  rect : Rect;
  redraw_rect : Rect;
  display_data : Z;
  zindex : Z;
  id : Z;
  parent_id : Z;
  needs_update : bool;
  needs_redraw : bool
}.

Definition no_rect : Rect := {| rl := 0; rt := 0; rr := 0; rb := 0 |}.

(** [Window()]: an empty slot. *)
Definition empty_Window : Window :=
  {| winclass := NONE; rect := no_rect; redraw_rect := no_rect; display_data := 0; zindex := 0; id := 0;
     parent_id := -1; needs_update := false; needs_redraw := false |}.

Definition whole (newrect : Rect) : Rect :=
  {| rl := 0; rt := 0; rr := rr newrect - rl newrect; rb := rb newrect - rt newrect |}.

(** [Window(newrect)], [WindowFrame(newrect)] and [TextBox(newrect, buf)]. *)
Definition new_Window (cls : WindowClass) (newrect : Rect) (data : Z) : Window :=
  {| winclass := cls; rect := newrect; redraw_rect := whole newrect; display_data := data; zindex := 0; id := 0;
     parent_id := -1; needs_update := true; needs_redraw := true |}.

Definition with_rect (w : Window) (r : Rect) (update : bool) : Window :=
  {| winclass := winclass w; rect := r; redraw_rect := redraw_rect w; display_data := display_data w;
     zindex := zindex w; id := id w; parent_id := parent_id w; needs_update := update; needs_redraw := needs_redraw w |}.
Definition with_parent (w : Window) (p : Z) : Window :=
  {| winclass := winclass w; rect := rect w; redraw_rect := redraw_rect w; display_data := display_data w;
     zindex := zindex w; id := id w; parent_id := p; needs_update := true; needs_redraw := needs_redraw w |}.
Definition with_redraw (w : Window) (r : Rect) : Window :=
  {| winclass := winclass w; rect := rect w; redraw_rect := r; display_data := display_data w;
     zindex := zindex w; id := id w; parent_id := parent_id w; needs_update := needs_update w; needs_redraw := true |}.
Definition with_data (w : Window) (d : Z) : Window :=
  {| winclass := winclass w; rect := rect w; redraw_rect := redraw_rect w; display_data := d;
     zindex := zindex w; id := id w; parent_id := parent_id w; needs_update := needs_update w;
     needs_redraw := needs_redraw w |}.
Definition with_class (w : Window) (c : WindowClass) : Window :=
  {| winclass := c; rect := rect w; redraw_rect := redraw_rect w; display_data := display_data w;
     zindex := zindex w; id := id w; parent_id := parent_id w; needs_update := needs_update w;
     needs_redraw := needs_redraw w |}.
Definition with_flags (w : Window) (update redraw : bool) : Window :=
  {| winclass := winclass w; rect := rect w; redraw_rect := redraw_rect w; display_data := display_data w;
     zindex := zindex w; id := id w; parent_id := parent_id w; needs_update := update; needs_redraw := redraw |}.

Definition shift_rect (r : Rect) (dx dy : Z) : Rect :=
  {| rl := rl r + dx; rt := rt r + dy; rr := rr r + dx; rb := rb r + dy |}.

Definition window_move (dx dy : Z) (w : Window) : Window := with_rect w (shift_rect (rect w) dx dy) true.

(** [addChild] and [removeChild] of a frame: the frame and the child. *)
Definition frame_addChild (frame : Window) (child : option Window) : Window * option Window :=
  match child with
  | None => (frame, None)
  | Some c => (with_flags frame true (needs_redraw frame), Some (with_parent c (id frame)))
  end.
Definition frame_removeChild (frame : Window) (child : option Window) : Window * option Window :=
  match child with
  | None => (frame, None)
  | Some c => (with_flags frame true (needs_redraw frame), Some (with_parent c (-1)))
  end.

(** ** Text boxes *)

Record Buffer := {
  char_w : Z; char_h : Z;
  offset_x : Z; offset_y : Z;
  head : Z; tail : Z;
  max : Z;
  text : list Z
}.

Definition new_Buffer (w h : Z) (garbage : list Z) : Buffer :=
  {| char_w := w; char_h := h; offset_x := 0; offset_y := 0; head := 0; tail := 0; max := w * h; text := garbage |}.

Definition with_text (b : Buffer) (t : Z) (s : list Z) : Buffer :=
  {| char_w := char_w b; char_h := char_h b; offset_x := offset_x b; offset_y := offset_y b; head := head b;
     tail := t; max := max b; text := s |}.
Definition with_head (b : Buffer) (h : Z) : Buffer :=
  {| char_w := char_w b; char_h := char_h b; offset_x := offset_x b; offset_y := offset_y b; head := h;
     tail := tail b; max := max b; text := text b |}.
Definition with_offset_y (b : Buffer) (y : Z) : Buffer :=
  {| char_w := char_w b; char_h := char_h b; offset_x := offset_x b; offset_y := y; head := head b;
     tail := tail b; max := max b; text := text b |}.

(** [buf->text[i % buf->max] = c]. *)
Definition put_char (i c : Z) (b : Buffer) : option Buffer :=
  if max b =? 0 then None else
  s ← arr_set (text b) (Z.rem i (max b)) c; Some (with_text b (tail b) s).

(** [buf->text[buf->tail % buf->max] = c; buf->tail++]. *)
Definition push_char (c : Z) (b : Buffer) : option Buffer :=
  b ← put_char (tail b) c b; Some (with_text b (tail b + 1) (text b)).

Definition set_redraw_rect (old_cursor new_cursor : Z) (w : Window) (b : Buffer) : Window * Buffer :=
  if old_cursor =? new_cursor then (w, b) else
  let new_cursor_x := Z.rem new_cursor (char_w b) * CHAR_SPACING_X + offset_x b in
  let new_cursor_y := Z.quot new_cursor (char_w b) * CHAR_SPACING_Y + offset_y b in
  let rect_w := rr (rect w) - rl (rect w) in
  let rect_h := rb (rect w) - rt (rect w) in
  if new_cursor_y <? 0 then
    (with_redraw w {| rl := 0; rt := 0; rr := rect_w; rb := rect_h |}, with_offset_y b (offset_y b - new_cursor_y))
  else if rect_h <? new_cursor_y + CHAR_SPACING_Y then
    (with_redraw w {| rl := 0; rt := 0; rr := rect_w; rb := rect_h |},
     with_offset_y b (offset_y b + (rect_h - (new_cursor_y + CHAR_SPACING_Y))))
  else
    let old_cursor_x := Z.rem old_cursor (char_w b) * CHAR_SPACING_X + offset_x b in
    let old_cursor_y := Z.quot old_cursor (char_w b) * CHAR_SPACING_Y + offset_y b in
    let '(t, bt) := if old_cursor_y <? new_cursor_y then (old_cursor_y, new_cursor_y + CHAR_SPACING_Y)
                    else (new_cursor_y, old_cursor_y + CHAR_SPACING_Y) in
    let '(l, r) := if old_cursor_y =? new_cursor_y then
                     if old_cursor_x <? new_cursor_x then (old_cursor_x, new_cursor_x + CHAR_SPACING_X)
                     else (new_cursor_x, old_cursor_x + CHAR_SPACING_X)
                   else (0, rr (rect w) - rl (rect w)) in
    (with_redraw w {| rl := l; rt := t; rr := r; rb := bt |}, b).

Definition backspace (w : Window) (b : Buffer) : option (Window * Buffer) :=
  if tail b <=? head b then Some (w, b) else
  let old_tail := tail b in
  b ← put_char (tail b) 32 b;
  let b := with_text b (tail b - 1) (text b) in
  b ← put_char (tail b) 95 b;
  Some (set_redraw_rect old_tail (tail b) w b).

(** One character of [print]; a newline fills the line with blanks. *)
Definition print_char (c : Z) (b : Buffer) : option Buffer :=
  if c =? 10 then
    let line_rest := char_w b - Z.rem (tail b) (char_w b) in
    for_each (Z.to_nat line_rest) 0 (fun _ => push_char 32) b
  else push_char c b.

Fixpoint print_chars (cs : list Z) (b : Buffer) : option Buffer :=
  match cs with
  | [] => Some b
  | c :: cs => b ← print_char c b; print_chars cs b
  end.

Definition textbox_print (buffer : list Z) (w : Window) (b : Buffer) : option (Window * Buffer) :=
  if char_w b =? 0 then None else
  let len := Z.of_nat (length buffer) in
  let ptr := if max b <? len then drop (Z.to_nat (len - max b)) buffer else buffer in
  let old_tail := tail b in
  b ← print_chars ptr b;
  let b := if max b <=? tail b - head b then with_head b (head b + char_w b) else b in
  b ← (if Z.rem (tail b) (char_w b) =? 0
       then for_each (Z.to_nat (char_w b)) 0 (fun i b => put_char (tail b + i) 32 b) b else Some b);
  b ← put_char (tail b) 95 b;
  Some (set_redraw_rect old_tail (tail b) w b).
