(* ===== verification/Gui.v ===== *)
(** * The window manager: [system/gui.cpp], [system/include/gui.h]

    Windows are the entries of [heap], by address, 0 being the null pointer; the
    lists of windows are threaded through [next] and [prev].  A frame keeps the
    top of its children in the word [display_data], as the source does.  The
    virtual methods dispatch on [kind], the dynamic type.  A recursion that the
    windows drive (children, windows below) has fuel, and [None] is a null
    dereference or the end of the fuel. *)
From S2P Require Import Prelude Shapes Vga Objects.

Definition POINTER_WIDTH : Z := 16.
Definition POINTER_HEIGHT : Z := 16.
Definition MAX_WINDOWS : Z := 256.
Definition MAX_WINDOW_LEVELS : nat := 256.
Definition MAX_PROC_WINDOWS : Z := 16.
Definition GREEN : Z := 0x03E0.

Inductive Kind := GUIPlain | GUIFrame | GUITextBox | GUIDesktop.

Record GUIWindow := {
  windata : Window;
  pid : Z;
  next : Z;
  prev : Z;
  parent : Z;
  wm_root : Z;
  kind : Kind
}.

(** A window fresh from its constructor. *)
Definition new_GUIWindow (k : Kind) (w : Window) : GUIWindow :=
  {| windata := w; pid := 0; next := 0; prev := 0; parent := 0; wm_root := 0; kind := k |}.

Definition heap := Z -> GUIWindow.
Definition hset (h : heap) (p : Z) (w : GUIWindow) : heap := fun q => if q =? p then w else h q.

Definition set_windata (w : GUIWindow) (d : Window) : GUIWindow :=
  {| windata := d; pid := pid w; next := next w; prev := prev w; parent := parent w; wm_root := wm_root w; kind := kind w |}.
Definition set_pid (w : GUIWindow) (i : Z) : GUIWindow :=
  {| windata := windata w; pid := i; next := next w; prev := prev w; parent := parent w; wm_root := wm_root w; kind := kind w |}.
Definition set_next (w : GUIWindow) (n : Z) : GUIWindow :=
  {| windata := windata w; pid := pid w; next := n; prev := prev w; parent := parent w; wm_root := wm_root w; kind := kind w |}.
Definition set_prev (w : GUIWindow) (p : Z) : GUIWindow :=
  {| windata := windata w; pid := pid w; next := next w; prev := p; parent := parent w; wm_root := wm_root w; kind := kind w |}.
Definition set_parent (w : GUIWindow) (p : Z) : GUIWindow :=
  {| windata := windata w; pid := pid w; next := next w; prev := prev w; parent := p; wm_root := wm_root w; kind := kind w |}.
Definition set_root (w : GUIWindow) (r : Z) : GUIWindow :=
  {| windata := windata w; pid := pid w; next := next w; prev := prev w; parent := parent w; wm_root := r; kind := kind w |}.

(** One store through a pointer: [p->field = ...]. *)
Definition hmod (f : GUIWindow -> GUIWindow) (p : Z) (h : heap) : heap := hset h p (f (h p)).

(** ** [GUIWindowStack]: the top and the heap *)

Fixpoint insert_after (n : nat) (h : heap) (z ptr : Z) : Z :=
  match n with
  | O => ptr
  | S n =>
      if next (h ptr) =? 0 then ptr
      else if zindex (windata (h (next (h ptr)))) <? z then ptr
      else insert_after n h z (next (h ptr))
  end.

Definition stack_insert (top new_win : Z) (h : heap) : Z * heap :=
  if new_win =? 0 then (top, h) else
  if (top =? 0) || (zindex (windata (h top)) <? zindex (windata (h new_win))) then
    let h := if negb (top =? 0) then hmod (fun w => set_prev w new_win) top h else h in
    let h := hmod (fun w => set_prev w 0) new_win h in
    let h := hmod (fun w => set_next w top) new_win h in
    (new_win, h)
  else
    let ptr := insert_after MAX_WINDOW_LEVELS h (zindex (windata (h new_win))) top in
    let h := if negb (next (h ptr) =? 0) then hmod (fun w => set_prev w new_win) (next (h ptr)) h else h in
    let h := hmod (fun w => set_next w (next (h ptr))) new_win h in
    let h := hmod (fun w => set_prev w ptr) new_win h in
    let h := hmod (fun w => set_next w new_win) ptr h in
    (top, h).

Definition stack_push (top new_win : Z) (h : heap) : Z * heap :=
  if new_win =? 0 then (top, h) else
  if top =? 0 then (new_win, hmod (fun w => set_next (set_prev w 0) 0) new_win h) else
  let h := hmod (fun w => set_prev (set_next w top) 0) new_win h in
  let h := hmod (fun w => set_prev w new_win) top h in
  (new_win, h).

Definition stack_detach (top win : Z) (h : heap) : Z * heap :=
  if win =? 0 then (top, h) else
  let top := if win =? top then next (h win) else top in
  let h := if negb (next (h win) =? 0) then hmod (fun w => set_prev w (prev (h win))) (next (h win)) h else h in
  let h := if negb (prev (h win) =? 0) then hmod (fun w => set_next w (next (h win))) (prev (h win)) h else h in
  let h := hmod (fun w => set_prev (set_next w 0) 0) win h in
  (top, h).

(** ** The virtual methods *)

Definition children (h : heap) (frame : Z) : Z := display_data (windata (h frame)).
Definition set_children (top frame : Z) (h : heap) : heap :=
  hmod (fun w => set_windata w (with_data (windata w) top)) frame h.

(** The loop over the children of a frame. *)
Fixpoint each_child (n : nat) (body : Z -> heap -> option heap) (ptr : Z) (h : heap) : option heap :=
  match n with
  | O => Some h
  | S n => if ptr =? 0 then Some h else h ← body ptr h; each_child n body (next (h ptr)) h
  end.

Fixpoint win_move (fuel : nat) (dx dy this : Z) (h : heap) : option heap :=
  match fuel with
  | O => None
  | S fuel =>
      let h := hmod (fun w => set_windata w (window_move dx dy (windata w))) this h in
      match kind (h this) with
      | GUIFrame => each_child MAX_WINDOW_LEVELS (win_move fuel dx dy) (children h this) h
      | _ => Some h
      end
  end.

Fixpoint update_root (fuel : nat) (new_root this : Z) (h : heap) : option heap :=
  match fuel with
  | O => None
  | S fuel =>
      let h := hmod (fun w => set_root w new_root) this h in
      match kind (h this) with
      | GUIFrame => each_child MAX_WINDOW_LEVELS (update_root fuel new_root) (children h this) h
      | _ => Some h
      end
  end.

Definition addChild (fuel : nat) (this child : Z) (h : heap) : option heap :=
  if (child =? 0) || (child =? this) then Some h else
  let '(top, h) := stack_insert (children h this) child h in
  let h := set_children top this h in
  let h := hmod (fun w => set_parent w this) child h in
  let r := rect (windata (h this)) in
  win_move fuel (rl r) (rt r) child h.

Definition removeChild (fuel : nat) (this child : Z) (h : heap) : option heap :=
  if child =? 0 then Some h else
  if negb (parent (h child) =? this) then Some h else
  let '(top, h) := stack_detach (children h this) child h in
  let h := set_children top this h in
  let h := hmod (fun w => set_parent w 0) child h in
  let r := rect (windata (h this)) in
  win_move fuel (- rl r) (- rt r) child h.

(** ** Drawing *)

Record Screen := { pixels : framebuffer; pick_buffer : Z -> Z }.

Section draw.
Context (VGA_WIDTH VGA_HEIGHT : Z) (ASCII_MAP : Z -> Z).
(** What [display_data] points to: text buffers and the desktop's image. *)
Context (text_buffer : Z -> Buffer) (image : Z -> Z -> Z).
Implicit Types (s : Screen) (h : heap) (clip : Rect).

Definition with_pixels s (fb : framebuffer) : Screen := {| pixels := fb; pick_buffer := pick_buffer s |}.

Definition window_gid (w : GUIWindow) : Z :=
  u8 (Z.lor (Z.shiftl (Z.land (pid w) 0xF) 4) (Z.land (id (windata w)) 0xF)).

Definition update_pick_buf clip (w : GUIWindow) s : Screen :=
  {| pixels := pixels s;
     pick_buffer := for_range (rt clip) (rb clip) (fun y => for_range (rl clip) (rr clip) (fun x pick =>
       fun i => if i =? VGA_PIXEL_OFFSET VGA_WIDTH x y then window_gid w else pick i)) (pick_buffer s) |}.

(** The search of [gui_redraw_rect]: the node it stops at, and [sub_rect]. *)
Fixpoint find_window (n : nat) h clip (win_node : Z) : Z * Rect :=
  if win_node =? 0 then (0, clip) else
  match n with
  | O => (win_node, clip)
  | S n =>
      let '(ok, sub_rect) := rect_intersect (rect (windata (h win_node))) clip in
      if ok then (win_node, sub_rect) else find_window n h clip (next (h win_node))
  end.

(** The characters of a text box inside the clip rectangle. *)
Definition draw_text clip (w : GUIWindow) (buf : Buffer) s : option Screen :=
  if char_w buf =? 0 then None else
  if max buf =? 0 then None else
  let virt_x := rl (rect (windata w)) + offset_x buf in
  let virt_y := rt (rect (windata w)) + offset_y buf in
  let text_clip := {| rl := Z.quot (rl clip - virt_x) CHAR_SPACING_X; rt := Z.quot (rt clip - virt_y) CHAR_SPACING_Y;
                      rr := Z.quot (rr clip - virt_x) CHAR_SPACING_X; rb := Z.quot (rb clip - virt_y) CHAR_SPACING_Y |} in
  let text_rect := {| rl := 0; rt := Z.quot (head buf) (char_w buf); rr := char_w buf;
                      rb := Z.quot (tail buf) (char_w buf) |} in
  let '(ok, text_rect) := rect_intersect text_clip text_rect in
  if negb ok then Some s else
  fb ← for_each (Z.to_nat (rb text_rect + 1 - rt text_rect)) (rt text_rect) (fun y =>
         for_each (Z.to_nat (rr text_rect + 1 - rl text_rect)) (rl text_rect) (fun x fb =>
           c ← arr_get (text buf) (Z.rem (y * char_w buf + x) (max buf));
           Some (render_char_xy_clipped VGA_WIDTH ASCII_MAP c (virt_x + x * CHAR_SPACING_X)
                   (virt_y + y * CHAR_SPACING_Y) GREEN clip fb))) (pixels s);
  Some (with_pixels s fb).

(** [draw] of each class; [redraw] is [gui_redraw_rect]. *)
Definition draw (redraw : Rect -> Z -> Screen -> option Screen) h clip (this : Z) s : option Screen :=
  let w := h this in
  match kind w with
  | GUIPlain =>
      let color := display_data (windata w) in
      s ← (if negb (GET_ALPHA color =? 0) && negb (wm_root w =? 0) && negb (next (h (wm_root w)) =? 0)
           then redraw clip (next (h (wm_root w))) s else Some s);
      let s := with_pixels s (rect_fill VGA_WIDTH VGA_HEIGHT clip color (pixels s)) in
      Some (update_pick_buf clip w s)
  | GUIFrame => redraw clip (children h this) s
  | GUITextBox =>
      if wm_root w =? 0 then None else
      s ← redraw clip (next (h (wm_root w))) s;
      let s := update_pick_buf clip w s in
      let s := with_pixels s (rect_fill VGA_WIDTH VGA_HEIGHT clip
                 (SET_ALPHA 1 + fast_blend BLACK (fast_blend BLACK GREEN)) (pixels s)) in
      if display_data (windata w) =? 0 then Some s
      else draw_text clip w (text_buffer (display_data (windata w))) s
  | GUIDesktop =>
      let s := update_pick_buf clip w s in
      Some (with_pixels s
        (for_range (rt clip) (rb clip) (fun y => for_range (rl clip) (rr clip) (fun x =>
           SET_PIXEL VGA_WIDTH x y (image (display_data (windata w)) ((u32 y *w VGA_WIDTH) +w u32 x)))) (pixels s)))
  end.

Fixpoint gui_redraw_rect (fuel : nat) h clip (top : Z) s : option Screen :=
  match fuel with
  | O => None
  | S fuel =>
      let '(win_node, sub_rect) := find_window MAX_WINDOW_LEVELS h clip top in
      if win_node =? 0 then Some s else
      let below := next (h win_node) in
      s ← (if rt clip <? rt sub_rect
           then gui_redraw_rect fuel h {| rl := rl clip; rt := rt clip; rr := rr clip; rb := rt sub_rect |} below s
           else Some s);
      s ← (if rl clip <? rl sub_rect
           then gui_redraw_rect fuel h {| rl := rl clip; rt := rt sub_rect; rr := rl sub_rect; rb := rb sub_rect |} below s
           else Some s);
      s ← draw (gui_redraw_rect fuel h) h sub_rect win_node s;
      s ← (if rr sub_rect <? rr clip
           then gui_redraw_rect fuel h {| rl := rr sub_rect; rt := rt sub_rect; rr := rr clip; rb := rb sub_rect |} below s
           else Some s);
      if rb sub_rect <? rb clip
      then gui_redraw_rect fuel h {| rl := rl clip; rt := rb sub_rect; rr := rr clip; rb := rb clip |} below s
      else Some s
  end.
End draw.

(** ** The window manager and the processes' windows *)

Inductive DisplayMsg :=
  | REDRAW_SCREEN
  | REDRAW_MOUSE
  | REDRAW_WINDOW (redraw_win : Z)
  | REDRAW_RECT (update_rect : Rect).

Record WindowManager := {
  windows : heap;
  winstack : Z;
  desktop : Z;
  drag_window : Z;
  (** [procs[pid].env->windows] *)
  user_windows : Z -> Z -> Window
}.

Definition set_windows (m : WindowManager) (h : heap) (top : Z) : WindowManager :=
  {| windows := h; winstack := top; desktop := desktop m; drag_window := drag_window m; user_windows := user_windows m |}.
Definition set_drag (m : WindowManager) (w : Z) : WindowManager :=
  {| windows := windows m; winstack := winstack m; desktop := desktop m; drag_window := w; user_windows := user_windows m |}.
Definition set_user (m : WindowManager) (p i : Z) (w : Window) : WindowManager :=
  {| windows := windows m; winstack := winstack m; desktop := desktop m; drag_window := drag_window m;
     user_windows := fun p' i' => if (p' =? p) && (i' =? i) then w else user_windows m p' i' |}.

Section winmgr.
(** The array [win_index] and the two addresses of a process's environment. *)
Context (win_index sizeof_GUIWindow : Z) (proc_env proc_userEnv : Z -> Z).
Implicit Types (m : WindowManager).

Definition getGUIWindow (index : Z) : Z :=
  if (index <? 0) || (MAX_WINDOWS <=? index) then 0 else win_index + sizeof_GUIWindow * index.

(** The object a new class asks for; [None] for a class that has none. *)
Definition class_kind (c : WindowClass) : option Kind :=
  match c with
  | WINDOW => Some GUIPlain
  | WINDOW_FRAME => Some GUIFrame
  | TEXT_BOX => Some GUITextBox
  | NONE => None
  end.

(** One window of [gui_update_proc]: [None] as the result means an undefined
    access, [Some (false, _)] that the function returns. *)
Definition update_window (fuel : nat) (pid0 i : Z) m : option (bool * WindowManager) :=
  let user_win := user_windows m pid0 i in
  if bool_decide (winclass user_win = NONE) then Some (true, m) else
  if negb (needs_update user_win) then Some (true, m) else
  let user_win := with_flags user_win false (needs_redraw user_win) in
  let m := set_user m pid0 i user_win in
  let gw := getGUIWindow (i + Z.shiftl pid0 4) in
  if gw =? 0 then None else
  let h := windows m in
  let h := if bool_decide (winclass user_win <> winclass (windata (h gw)))
           then match class_kind (winclass user_win) with
                | Some k => hmod (fun w => set_pid (new_GUIWindow k empty_Window) pid0) gw h
                | None => h
                end
           else h in
  let h := hmod (fun w => set_windata w user_win) gw h in
  let h := if bool_decide (winclass user_win = TEXT_BOX)
           then let data_offset := display_data user_win -w proc_userEnv pid0 in
                hmod (fun w => set_windata w (with_data (windata w) (proc_env pid0 +w data_offset))) gw h
           else h in
  h ← (if negb (parent (h gw) =? 0) then removeChild fuel (parent (h gw)) gw h else Some h);
  if negb (parent_id user_win =? -1) then
    let new_parent := getGUIWindow (parent_id user_win + Z.shiftl pid0 4) in
    if new_parent =? 0 then None else
    if bool_decide (winclass (windata (h new_parent)) <> WINDOW_FRAME) then
      Some (false, set_windows m h (winstack m))
    else
      h ← addChild fuel new_parent gw h; Some (true, set_windows m h (winstack m))
  else if negb (zindex (windata (h gw)) =? zindex user_win) && negb (parent (h gw) =? 0) then
    let frame := parent (h gw) in
    h ← removeChild fuel frame gw h;
    h ← addChild fuel frame gw h;
    Some (true, set_windows m h (winstack m))
  else Some (true, set_windows m h (winstack m)).

Fixpoint update_windows (n : nat) (fuel : nat) (pid0 i : Z) m : option (bool * WindowManager) :=
  match n with
  | O => Some (true, m)
  | S n =>
      '(go, m) ← update_window fuel pid0 i m;
      if (go : bool) then update_windows n fuel pid0 (i + 1) m else Some (false, m)
  end.

(** The second loop: the roots of the process. *)
Definition update_root_of (fuel : nat) (pid0 i : Z) m : option WindowManager :=
  let gid := i + Z.shiftl pid0 4 in
  let gw := getGUIWindow gid in
  if gw =? 0 then None else
  let h := windows m in
  if bool_decide (winclass (windata (h gw)) = NONE) then Some m else
  if parent (h gw) =? 0 then
    h ← update_root fuel gw gw h;
    if negb (gid =? 0) && (next (h gw) =? 0) then
      let '(top, h) := stack_push (winstack m) (wm_root (h gw)) h in Some (set_windows m h top)
    else Some (set_windows m h (winstack m))
  else Some m.

Definition gui_update_proc (fuel : nat) (pid0 : Z) m : option WindowManager :=
  '(go, m) ← update_windows (Z.to_nat MAX_PROC_WINDOWS) fuel pid0 0 m;
  if (go : bool) then for_each (Z.to_nat MAX_PROC_WINDOWS) 0 (update_root_of fuel pid0) m else Some m.

(** [gui_redraw_proc]: the messages it sends. *)
Definition redraw_window (pid0 i : Z) (st : WindowManager * list DisplayMsg) : option (WindowManager * list DisplayMsg) :=
  let '(m, msgs) := st in
  let user_win := user_windows m pid0 i in
  if bool_decide (winclass user_win = NONE) then Some (m, msgs) else
  if negb (needs_redraw user_win) then Some (m, msgs) else
  let user_win := with_flags user_win (needs_update user_win) false in
  let m := set_user m pid0 i user_win in
  let gw := getGUIWindow (i + Z.shiftl pid0 4) in
  if gw =? 0 then None else
  let r := rect (windata (windows m gw)) in
  let u := redraw_rect user_win in
  Some (m, msgs ++ [REDRAW_RECT {| rl := rl u + rl r; rt := rt u + rt r; rr := rr u + rl r; rb := rb u + rt r |}]).

Definition gui_redraw_proc (pid0 : Z) m : option (WindowManager * list DisplayMsg) :=
  for_each (Z.to_nat MAX_PROC_WINDOWS) 0 (redraw_window pid0) (m, ([] : list DisplayMsg)).
End winmgr.

(** ** The stack of windows is a list *)

Section stack.
Implicit Types (h : heap) (ws : list Z).

(** The windows [ws] linked from [p] up to [e], the first one's [prev] being [b]. *)
Fixpoint seg h (b p : Z) ws (e : Z) : Prop :=
  match ws with
  | [] => p = e
  | w :: ws => p = w /\ w <> 0 /\ prev (h w) = b /\ seg h w (next (h w)) ws e
  end.

(** A well-formed stack holding [ws], top first. *)
Definition stack_at h (top : Z) ws : Prop := seg h 0 top ws 0 /\ NoDup ws.

(** Only links changed, and only of [ws]. *)
Definition links_of ws h h' : Prop :=
  (forall q, windata (h' q) = windata (h q) /\ pid (h' q) = pid (h q) /\ parent (h' q) = parent (h q) /\
     wm_root (h' q) = wm_root (h q) /\ kind (h' q) = kind (h q)) /\
  forall q, q ∉ ws -> h' q = h q.

Lemma hmod_eq f p h : hmod f p h p = f (h p).
Proof. unfold hmod, hset. by rewrite Z.eqb_refl. Qed.
Lemma hmod_ne f p q h : q <> p -> hmod f p h q = h q.
Proof. intros. unfold hmod, hset. by destruct (Z.eqb_spec q p). Qed.

Lemma seg_ext h h' b p ws e :
  (forall w, w ∈ ws -> next (h' w) = next (h w) /\ prev (h' w) = prev (h w)) ->
  seg h b p ws e -> seg h' b p ws e.
Proof.
  revert b p. induction ws as [|w ws IH]; intros b p Heq Hs; [done|].
  destruct Hs as (-> & Hw & Hp & Hs). destruct (Heq w) as [En Ep]; [by left|].
  split; [done|]. split; [done|]. split; [congruence|]. rewrite En. apply IH; [|done].
  intros w' Hw'. apply Heq. by right.
Qed.

Lemma seg_hmod h f p0 b p ws e : p0 ∉ ws -> seg h b p ws e -> seg (hmod f p0 h) b p ws e.
Proof. intros Hn. apply seg_ext. intros w Hw. rewrite hmod_ne by (by intros ->). done. Qed.

(** The last of [ws], [b] when there is none. *)
Definition last_or (b : Z) ws : Z := foldl (fun _ w => w) b ws.

Lemma seg_app h b p ws1 ws2 e :
  seg h b p (ws1 ++ ws2) e <-> exists q, seg h b p ws1 q /\ seg h (last_or b ws1) q ws2 e.
Proof.
  revert b p. induction ws1 as [|w ws1 IH]; intros b p; cbn [app seg last_or foldl].
  - split; [intros H; by exists p|intros (q & -> & H); done].
  - rewrite IH. split.
    + intros (-> & Hw & Hp & q & H1 & H2). by exists q.
    + intros (q & (-> & Hw & Hp & H1) & H2). split; [done|]. split; [done|]. split; [done|]. by exists q.
Qed.

Lemma last_or_snoc b ws a : last_or b (ws ++ [a]) = a.
Proof. unfold last_or. by rewrite foldl_app. Qed.

(** The three stores the operations make. *)
Lemma seg_first_prev h f b b' w ws e :
  NoDup (w :: ws) -> seg h b w (w :: ws) e -> prev (f (h w)) = b' -> next (f (h w)) = next (h w) ->
  seg (hmod f w h) b' w (w :: ws) e.
Proof.
  intros [Hn _]%NoDup_cons (_ & Hw & Hp & Hs) Eb En. cbn [seg]. rewrite hmod_eq, En.
  split; [done|]. split; [done|]. split; [done|]. by apply seg_hmod.
Qed.

Lemma seg_last_next h f b p ws a e e' :
  NoDup (ws ++ [a]) -> seg h b p (ws ++ [a]) e -> prev (f (h a)) = prev (h a) -> next (f (h a)) = e' ->
  seg (hmod f a h) b p (ws ++ [a]) e'.
Proof.
  intros Hnd Hs Ep En. apply NoDup_app in Hnd as (_ & Hd & _).
  apply seg_app in Hs as (q & Hs & -> & Ha & Hp & _). apply seg_app. exists a.
  split; [apply seg_hmod; [|done]; intros Hin; apply (Hd a Hin); by left|].
  cbn [seg]. rewrite hmod_eq, Ep, En. done.
Qed.

Lemma seg_one h b w e : w <> 0 -> prev (h w) = b -> next (h w) = e -> seg h b w [w] e.
Proof. intros. split; [done|]. split; [done|]. split; [done|]. done. Qed.

Lemma seg_cons h b w q ws e :
  w <> 0 -> prev (h w) = b -> next (h w) = q -> seg h w q ws e -> seg h b w (w :: ws) e.
Proof. intros ? ? <- ?. done. Qed.

(** A store that changes links alone. *)
Definition keeps (f : GUIWindow -> GUIWindow) : Prop := forall w,
  windata (f w) = windata w /\ pid (f w) = pid w /\ parent (f w) = parent w /\
  wm_root (f w) = wm_root w /\ kind (f w) = kind w.

Lemma links_of_refl ws h : links_of ws h h.
Proof. done. Qed.

Lemma links_of_hmod ws f p h h' : keeps f -> p ∈ ws -> links_of ws h h' -> links_of ws h (hmod f p h').
Proof.
  intros Hf Hp [H1 H2]. split; intros q.
  - unfold hmod, hset. destruct (Z.eqb_spec q p) as [->|]; [|apply H1].
    destruct (Hf (h' p)) as (-> & -> & -> & -> & ->). apply H1.
  - intros Hq. rewrite hmod_ne; [by apply H2|]. by intros ->.
Qed.

Lemma stack_push_front h top ws new :
  stack_at h top ws -> new <> 0 -> new ∉ ws ->
  let '(top', h') := stack_push top new h in stack_at h' top' (new :: ws) /\ links_of (new :: ws) h h'.
Proof.
  intros [Hs Hnd] Hn Hin. unfold stack_push. destruct (Z.eqb_spec new 0); [done|].
  destruct ws as [|w ws].
  - cbn in Hs. subst top. cbn [Z.eqb]. split; [split|].
    + apply seg_one; [done|by rewrite hmod_eq..].
    + by apply NoDup_singleton.
    + apply links_of_hmod; [done|by left|apply links_of_refl].
  - pose proof Hs as (-> & Hw & _). destruct (Z.eqb_spec w 0); [done|].
    assert (new <> w) as Hnw by set_solver. split; [split|].
    + cbn [seg]. split; [done|]. split; [done|]. rewrite (hmod_ne _ _ new), hmod_eq by done.
      split; [done|]. cbn [next set_prev set_next]. apply (seg_first_prev _ _ 0); [done| |done|done].
      by apply seg_hmod.
    + by apply NoDup_cons.
    + apply links_of_hmod; [done|set_solver|]. apply links_of_hmod; [done|by left|apply links_of_refl].
Qed.

(** The store [q->prev = b'] when there is a [q]. *)
Lemma seg_relink h b b' q ws :
  NoDup ws -> seg h b q ws 0 ->
  seg (if negb (q =? 0) then hmod (fun w => set_prev w b') q h else h) b' q ws 0.
Proof.
  intros Hnd Hs. destruct ws as [|w ws].
  - cbn in Hs. by subst q.
  - pose proof Hs as (-> & Hw & _). destruct (Z.eqb_spec w 0); [done|]. by apply (seg_first_prev _ _ b).
Qed.

Lemma if_hmod_ne (c : bool) f p q h : q <> p -> (if c then hmod f p h else h) q = h q.
Proof. intros. destruct c; [by apply hmod_ne|done]. Qed.

Lemma seg_first h b p w ws e : seg h b p (w :: ws) e -> p = w /\ p <> 0.
Proof. intros (-> & ? & _). done. Qed.

Lemma seg_nonzero h b p ws e : seg h b p ws e -> 0 ∉ ws.
Proof.
  revert b p. induction ws as [|w ws IH]; intros b p Hs Hx; [by apply elem_of_nil in Hx|].
  destruct Hs as (-> & Hw & _ & Hs). apply elem_of_cons in Hx as [<-|Hx]; [done|]. by apply (IH _ _ Hs).
Qed.

Lemma insert_middle h top ws1 a ws2 new :
  stack_at h top (ws1 ++ a :: ws2) -> new <> 0 -> new ∉ ws1 ++ a :: ws2 ->
  let q := next (h a) in
  let h1 := if negb (q =? 0) then hmod (fun w => set_prev w new) q h else h in
  let h2 := hmod (fun w => set_next w (next (h1 a))) new h1 in
  let h3 := hmod (fun w => set_prev w a) new h2 in
  let h4 := hmod (fun w => set_next w new) a h3 in
  stack_at h4 top (ws1 ++ a :: new :: ws2) /\ links_of (new :: ws1 ++ a :: ws2) h h4.
Proof.
  intros [Hs Hnd] Hn Hin q h1 h2 h3 h4.
  pose proof Hnd as Hnd'. apply NoDup_app in Hnd' as (Hnd1 & Hd & [Ha2 Hnd2]%NoDup_cons).
  apply seg_app in Hs as (q0 & Hs1 & -> & Ha & Hpa & Hs2). fold q in Hs2.
  assert (q = 0 \/ q ∈ ws2) as Hq by (destruct ws2; [by left|]; right; destruct Hs2 as (-> & _); by left).
  assert (a <> q) as Haq by (destruct Hq as [Hq|Hq]; [congruence|intros E; apply Ha2; by rewrite E]).
  assert (a <> new /\ new ∉ ws2 /\ new ∉ ws1) as (Han & Hn2 & Hn1) by set_solver.
  assert (new <> q) as Hnq by (destruct Hq as [Hq|Hq]; [congruence|intros E; apply Hn2; by rewrite E]).
  assert (h1 a = h a) as E1a by (by apply if_hmod_ne).
  assert (q ∉ ws1 ++ [a]) as Hq1.
  { intros [Hx|Hx]%elem_of_app; destruct Hq as [Hq|Hq].
    - rewrite Hq in Hx. by apply (seg_nonzero _ _ _ _ _ Hs1).
    - apply (Hd q Hx). by right.
    - apply list_elem_of_singleton in Hx. congruence.
    - apply list_elem_of_singleton in Hx. congruence. }
  split; [split|].
  - change (ws1 ++ a :: new :: ws2) with (ws1 ++ [a] ++ new :: ws2). rewrite app_assoc.
    apply seg_app. exists new. rewrite last_or_snoc. split.
    + apply (seg_last_next _ _ _ _ _ _ q); [|
        |done|done].
      { apply NoDup_app. split; [done|]. split; [|apply NoDup_singleton]. intros x Hx ->%list_elem_of_singleton.
        apply (Hd a Hx). by left. }
      unfold h3, h2. apply seg_hmod; [set_solver|]. apply seg_hmod; [set_solver|].
      assert (seg h 0 top (ws1 ++ [a]) q) as Hsa by (apply seg_app; by exists a).
      unfold h1. destruct (negb (q =? 0)); [by apply seg_hmod|done].
    + cbn [seg]. split; [done|]. split; [done|].
      assert (h4 new = set_prev (set_next (h new) q) a) as ->.
      { unfold h4, h3, h2. rewrite hmod_ne by done. rewrite hmod_eq, hmod_eq, E1a.
        unfold h1. by rewrite if_hmod_ne. }
      split; [done|]. cbn [next set_prev set_next].
      unfold h4, h3, h2. do 3 (apply seg_hmod; [done|]). by apply (seg_relink h a).
  - apply NoDup_app. split; [done|]. split; [set_solver|]. apply NoDup_cons. split; [set_solver|].
    by apply NoDup_cons.
  - unfold h4, h3, h2. apply links_of_hmod; [done|set_solver|]. do 2 (apply links_of_hmod; [done|by left|]).
    unfold h1. destruct (Z.eqb_spec q 0); [done|]. cbn [negb].
    apply links_of_hmod; [done| |done]. destruct Hq as [|Hq]; [done|set_solver].
Qed.

(** Where [insert] puts a window: before the first one with a smaller z-index. *)
Fixpoint insert_z h (new : Z) ws : list Z :=
  match ws with
  | [] => [new]
  | w :: ws' =>
      if zindex (windata (h w)) <? zindex (windata (h new)) then new :: ws else w :: insert_z h new ws'
  end.

Lemma insert_after_spec n h new b w ws :
  (length ws <= n)%nat -> seg h b w (w :: ws) 0 ->
  (zindex (windata (h w)) <? zindex (windata (h new))) = false ->
  exists ws1 ws2, let a := insert_after n h (zindex (windata (h new))) w in
    w :: ws = ws1 ++ a :: ws2 /\ insert_z h new (w :: ws) = ws1 ++ a :: new :: ws2.
Proof.
  revert b w ws. induction n as [|n IH]; intros b w ws Hl Hs Hz.
  { destruct ws; [|cbn in Hl; lia]. exists [], []. cbn. by rewrite Hz. }
  destruct Hs as (_ & Hw & _ & Hs). cbn [insert_after]. destruct ws as [|w2 ws].
  - cbn in Hs. rewrite Hs. cbn [Z.eqb]. exists [], []. cbn. by rewrite Hz.
  - pose proof Hs as (E & Hw2 & _). rewrite E. destruct (Z.eqb_spec w2 0); [done|].
    destruct (zindex (windata (h w2)) <? zindex (windata (h new))) eqn:Hz2.
    + exists [], (w2 :: ws). cbn. by rewrite Hz, Hz2.
    + rewrite E in Hs. destruct (IH w w2 ws) as (ws1 & ws2 & E1 & E2); [cbn in Hl; lia|done|done|].
      exists (w :: ws1), ws2. cbn zeta in *. split; [by rewrite E1|].
      cbn [insert_z app]. rewrite Hz. f_equal. exact E2.
Qed.

Lemma stack_insert_sorted h top ws new :
  stack_at h top ws -> new <> 0 -> new ∉ ws -> (length ws <= 257)%nat ->
  let '(top', h') := stack_insert top new h in
  stack_at h' top' (insert_z h new ws) /\ links_of (new :: ws) h h'.
Proof.
  intros Hst Hn Hin Hl. unfold stack_insert. destruct (Z.eqb_spec new 0); [done|].
  destruct ws as [|w ws].
  { destruct Hst as [Hs _]. cbn in Hs. subst top. cbn [Z.eqb orb negb]. split; [split|].
    - apply seg_one; [done|by rewrite hmod_eq, ?hmod_eq..].
    - apply NoDup_singleton.
    - do 2 (apply links_of_hmod; [done|by left|]). done. }
  pose proof Hst as [Hs Hnd]. pose proof Hs as (-> & Hw & _). destruct (Z.eqb_spec w 0); [done|]. cbn [orb negb].
  assert (new <> w) as Hnw by set_solver.
  destruct (zindex (windata (h w)) <? zindex (windata (h new))) eqn:Hz.
  - cbn [insert_z]. rewrite Hz. split; [split|].
    + apply (seg_cons _ _ _ w); [done|by rewrite !hmod_eq..|].
      do 2 (apply seg_hmod; [done|]). by apply (seg_first_prev _ _ 0).
    + by apply NoDup_cons.
    + do 2 (apply links_of_hmod; [done|by left|]). apply links_of_hmod; [done|set_solver|done].
  - destruct (insert_after_spec MAX_WINDOW_LEVELS h new 0 w ws) as (ws1 & ws2 & E1 & E2);
      [unfold MAX_WINDOW_LEVELS; cbn in Hl; lia|done|done|].
    cbn zeta in E1, E2. rewrite E2. rewrite E1 in Hst, Hin |- *.
    exact (insert_middle h w ws1 _ ws2 new Hst Hn Hin).
Qed.

Lemma stack_detach_removes h top ws1 win ws2 :
  stack_at h top (ws1 ++ win :: ws2) ->
  let '(top', h') := stack_detach top win h in
  stack_at h' top' (ws1 ++ ws2) /\ next (h' win) = 0 /\ prev (h' win) = 0 /\
  links_of (ws1 ++ win :: ws2) h h'.
Proof.
  intros [Hs Hnd]. pose proof (seg_nonzero _ _ _ _ _ Hs) as H0.
  apply seg_app in Hs as (p0 & Hs1 & -> & Hw & Hp & Hs2).
  apply NoDup_app in Hnd as (Hnd1 & Hd & [Hw2 Hnd2]%NoDup_cons).
  assert (win ∉ ws1) as Hw1 by (intros Hin; apply (Hd win Hin); by left).
  unfold stack_detach. destruct (Z.eqb_spec win 0); [done|].
  set (q := next (h win)) in *. set (b := prev (h win)) in *.
  assert (q = 0 \/ q ∈ ws2) as Hq by (destruct ws2; [by left|]; right; destruct Hs2 as (-> & _); by left).
  assert (win <> q) as Hwq by (destruct Hq as [Hq|Hq]; [congruence|intros E; apply Hw2; by rewrite E]).
  set (h1 := if negb (q =? 0) then hmod (fun w => set_prev w b) q h else h).
  assert (h1 win = h win) as E1 by (by apply if_hmod_ne). rewrite E1. fold q b.
  assert (seg h1 b q ws2 0) as Hs2' by (by apply (seg_relink h win)).
  assert (q ∉ ws1) as Hq1.
  { destruct Hq as [Hq|Hq]; [rewrite Hq; intros Hx; apply H0, elem_of_app; by left|].
    intros Hx. apply (Hd q Hx). by right. }
  assert (seg h1 0 top ws1 win) as Hs1' by (unfold h1; destruct (negb _); [by apply seg_hmod|done]).
  assert (NoDup (ws1 ++ ws2)) as Hnd12.
  { apply NoDup_app. split; [done|]. split; [|done]. intros x Hx Hx2. apply (Hd x Hx). by right. }
  assert (links_of (ws1 ++ win :: ws2) h h1) as Hl1.
  { unfold h1. destruct (Z.eqb_spec q 0); [done|]. cbn [negb]. apply links_of_hmod; [done| |done].
    destruct Hq as [|Hq]; [done|]. apply elem_of_app. right. by right. }
  destruct (decide (ws1 = [])) as [->|Hne].
  - cbn in Hp, Hs1. rewrite Hs1, Z.eqb_refl. assert (b = 0) as Eb by done. rewrite Eb in *. cbn [Z.eqb negb].
    rewrite hmod_eq. split; [split; [by apply seg_hmod|done]|]. split; [done|]. split; [done|].
    apply links_of_hmod; [done|by left|done].
  - destruct (exists_last Hne) as (ws0 & a & E). subst ws1. rewrite last_or_snoc in Hp. fold b in Hp.
    assert (a <> 0) as Ha by (intros ->; apply H0; set_solver).
    assert (a ∉ ws2) as Ha2 by (intros Hx; apply (Hd a); [set_solver|by right]).
    destruct (Z.eqb_spec win top) as [Et|]; [exfalso|].
    { rewrite <- Et in Hs1. destruct ws0; cbn in Hs1; destruct Hs1 as (E & _); set_solver. }
    rewrite Hp in *. destruct (Z.eqb_spec a 0); [done|]. cbn [negb]. rewrite hmod_eq.
    split; [split; [|done]|].
    + apply seg_hmod; [by intros [?|?]%elem_of_app|]. apply seg_app. exists q. rewrite last_or_snoc. split.
      * by apply (seg_last_next _ _ _ _ _ _ win).
      * by apply seg_hmod.
    + split; [done|]. split; [done|]. apply links_of_hmod; [done|set_solver|].
      apply links_of_hmod; [done|set_solver|done].
Qed.

(** The list without [win]. *)
Fixpoint without (win : Z) ws : list Z :=
  match ws with
  | [] => []
  | w :: ws => if w =? win then without win ws else w :: without win ws
  end.

Lemma without_notin win ws : win ∉ ws -> without win ws = ws.
Proof.
  induction ws as [|w ws IH]; intros Hn; cbn [without]; [done|].
  destruct (Z.eqb_spec w win) as [->|]; [set_solver|]. rewrite IH; [done|set_solver].
Qed.

Lemma without_middle win ws1 ws2 : NoDup (ws1 ++ win :: ws2) -> without win (ws1 ++ win :: ws2) = ws1 ++ ws2.
Proof.
  induction ws1 as [|w ws1 IH]; cbn [app without]; intros Hnd; apply NoDup_cons in Hnd as [Hn Hnd].
  - rewrite Z.eqb_refl. by apply without_notin.
  - destruct (Z.eqb_spec w win) as [->|]; [set_solver|]. by rewrite IH.
Qed.
End stack.

(** C19: the stack of windows implements a list: [push] puts a window on top,
    [insert] before the first one with a smaller z-index, [detach] takes one out
    and clears its links; the result is well-formed (both directions of the
    links agree, no window twice), and nothing but links of these windows
    changes. *)
Theorem winstack_refines_list h top ws win :
  stack_at h top ws -> win <> 0 ->
  (win ∉ ws -> let '(top', h') := stack_push top win h in
     stack_at h' top' (win :: ws) /\ links_of (win :: ws) h h') /\
  (win ∉ ws -> (length ws <= 257)%nat -> let '(top', h') := stack_insert top win h in
     stack_at h' top' (insert_z h win ws) /\ links_of (win :: ws) h h') /\
  (win ∈ ws -> let '(top', h') := stack_detach top win h in
     stack_at h' top' (without win ws) /\ next (h' win) = 0 /\ prev (h' win) = 0 /\ links_of ws h h').
Proof.
  intros Hs Hw. split; [|split].
  - by apply stack_push_front.
  - by apply stack_insert_sorted.
  - intros (ws1 & ws2 & ->)%list_elem_of_split. rewrite without_middle by (by destruct Hs).
    by apply stack_detach_removes.
Qed.

(** Two windows of z-index 2 and 0, and a third of z-index 1. *)
Definition zwin (z n p : Z) : GUIWindow :=
  set_prev (set_next (new_GUIWindow GUIPlain
    {| winclass := WINDOW; rect := no_rect; redraw_rect := no_rect; display_data := 0; zindex := z; id := 0;
       parent_id := -1; needs_update := false; needs_redraw := false |}) n) p.
Definition zheap : heap := fun q => if q =? 1 then zwin 2 2 0 else if q =? 2 then zwin 0 0 1 else zwin 1 0 0.

Lemma zheap_stack : stack_at zheap 1 [1; 2].
Proof. split; [repeat (split; [done|]); done|]. apply (bool_decide_unpack _). reflexivity. Qed.

Lemma winstack_refines_list_witness :
  let '(top', h') := stack_insert 1 3 zheap in stack_at h' top' [1; 3; 2].
Proof.
  pose proof (winstack_refines_list zheap 1 [1; 2] 3 zheap_stack ltac:(lia)) as (_ & Hi & _).
  assert (3 ∉ [1; 2]) as Hn by (apply (bool_decide_unpack _); reflexivity).
  specialize (Hi Hn ltac:(cbn; lia)). destruct (stack_insert 1 3 zheap) as [top' h']. exact (proj1 Hi).
Defined.

(** ** Picking: the window drawn last at a pixel is the one on top there *)

Definition depth : nat := 256.

(** The drawing order: what a window draws after or below itself has a smaller
    rank, so the hierarchy has no cycle; there are at most [MAX_WINDOWS]. *)
Definition link (rank : Z -> nat) (p q : Z) : Prop := q = 0 \/ q <> 0 /\ (0 < rank q < rank p)%nat.

Record draw_order (h : heap) (rank : Z -> nat) : Prop := {
  rank_small : forall p, (rank p <= depth)%nat;
  rank_next : forall p, (0 < rank p)%nat -> link rank p (next (h p));
  rank_children : forall p, (0 < rank p)%nat -> kind (h p) = GUIFrame -> link rank p (children h p);
  rank_below : forall p, (0 < rank p)%nat -> wm_root (h p) <> 0 -> link rank p (next (h (wm_root (h p))));
  text_root : forall p, (0 < rank p)%nat -> kind (h p) = GUITextBox -> wm_root (h p) <> 0
}.

(** The leaf on top at a pixel, 0 when there is none: the first window of the
    list that contains it, or the one of its children for a frame. *)
Fixpoint owner (n : nat) (h : heap) (x y p : Z) : Z :=
  match n with
  | O => 0
  | S n =>
      if p =? 0 then 0
      else if in_rect x y (rect (windata (h p))) then
        match kind (h p) with GUIFrame => owner n h x y (children h p) | _ => p end
      else owner n h x y (next (h p))
  end.

Definition buffer_ok (b : Buffer) : Prop :=
  0 < char_w b /\ 0 < max b /\ max b = Z.of_nat (length (text b)) /\ 0 <= head b /\ 0 <= tail b.

Section picking.
Context (W H : Z) (HW : 0 < W) (HH : 0 < H) (HWH : (H + 1) * W < 2147483648).
Context (ASCII_MAP : Z -> Z) (text_buffer : Z -> Buffer) (image : Z -> Z -> Z).
Context (h : heap) (rank : Z -> nat) (Hord : draw_order h rank).
Context (Htext : forall p, (0 < rank p)%nat -> kind (h p) = GUITextBox -> display_data (windata (h p)) <> 0 ->
  buffer_ok (text_buffer (display_data (windata (h p))))).
Implicit Types (s : Screen) (clip : Rect).

Definition is_top (p : Z) : Prop := p = 0 \/ p <> 0 /\ (0 < rank p)%nat.
Definition rank0 (p : Z) : nat := if p =? 0 then 0%nat else rank p.

Lemma link_top p q : link rank p q -> is_top q /\ (0 < rank p -> rank0 q < rank p)%nat.
Proof.
  unfold is_top, rank0. intros [->|[Hq Hr]]; cbn.
  - split; [by left|lia].
  - destruct (Z.eqb_spec q 0); [done|]. split; [right; lia|lia].
Qed.

(** The fuel of [owner] does not matter once it covers the rank. *)
Lemma owner_stable n m x y p : is_top p -> (rank0 p <= n)%nat -> (rank0 p <= m)%nat ->
  owner n h x y p = owner m h x y p.
Proof.
  revert m p. induction n as [|n IH]; intros m p Hp Hn Hm.
  - destruct Hp as [->|[Hp Hr]]; [by destruct m|]. unfold rank0 in Hn. destruct (Z.eqb_spec p 0); [done|lia].
  - destruct m as [|m].
    { destruct Hp as [->|[Hp Hr]]; [done|]. unfold rank0 in Hm. destruct (Z.eqb_spec p 0); [done|lia]. }
    cbn [owner]. destruct (Z.eqb_spec p 0); [done|]. destruct Hp as [|[_ Hr]]; [done|].
    unfold rank0 in Hn, Hm. destruct (Z.eqb_spec p 0); [done|].
    destruct (in_rect x y _).
    + destruct (kind (h p)) eqn:Ek; try done.
      destruct (link_top p _ (rank_children h rank Hord p Hr Ek)) as [Ht Hl]. apply IH; [done|lia..].
    + destruct (link_top p _ (rank_next h rank Hord p Hr)) as [Ht Hl]. apply IH; [done|lia..].
Qed.

Lemma owner_step x y p : p <> 0 -> (0 < rank p)%nat ->
  owner depth h x y p =
    if in_rect x y (rect (windata (h p))) then
      match kind (h p) with GUIFrame => owner depth h x y (children h p) | _ => p end
    else owner depth h x y (next (h p)).
Proof.
  intros Hp Hr. pose proof (rank_small h rank Hord p).
  assert (rank0 p = rank p) as E0 by (unfold rank0; by destruct (Z.eqb_spec p 0)).
  rewrite (owner_stable _ (S (rank p))) by (lia || (right; done)).
  cbn [owner]. destruct (Z.eqb_spec p 0); [done|].
  destruct (in_rect x y _); [destruct (kind (h p)) eqn:Ek; try done|].
  - destruct (link_top p _ (rank_children h rank Hord p Hr Ek)) as [Ht Hl]. apply owner_stable; [done|lia..].
  - destruct (link_top p _ (rank_next h rank Hord p Hr)) as [Ht Hl]. apply owner_stable; [done|lia..].
Qed.

Lemma find_window_spec n clip p : is_top p -> (rank0 p <= n)%nat ->
  let '(w, sub) := find_window n h clip p in
  if w =? 0 then forall x y, in_rect x y clip = true -> owner depth h x y p = 0
  else (0 < rank w <= rank0 p)%nat /\
    (forall x y, in_rect x y clip = true -> owner depth h x y p = owner depth h x y w) /\
    (forall x y, in_rect x y sub = in_rect x y (rect (windata (h w))) && in_rect x y clip) /\
    rl clip <= rl sub <= rr sub /\ rr sub <= rr clip /\ rt clip <= rt sub <= rb sub /\ rb sub <= rb clip.
Proof.
  revert p. induction n as [|n IH]; intros p Hp Hn; cbn [find_window].
  - destruct Hp as [->|[Hp Hr]]; [done|]. unfold rank0 in Hn. destruct (Z.eqb_spec p 0); [done|lia].
  - destruct (Z.eqb_spec p 0) as [->|Hp0]; [done|]. destruct Hp as [|[_ Hr]]; [done|].
    assert (rank0 p = rank p) as E0 by (unfold rank0; by destruct (Z.eqb_spec p 0)). rewrite E0 in *.
    pose proof (rect_intersect_spec (rect (windata (h p))) clip) as Hi.
    destruct (rect_intersect (rect (windata (h p))) clip) as [ok sub] eqn:Ei. destruct ok.
    + destruct (Z.eqb_spec p 0); [done|]. split; [lia|]. split; [done|]. split.
      { intros x y. destruct (Hi x y) as [_ Hxy]. apply eq_bool_prop_intro. rewrite !Is_true_true. tauto. }
      clear Hi. unfold rect_intersect in Ei. rewrite !MIN_spec, !MAX_spec in Ei.
      destruct (Z.ltb_spec (Z.min (rr (rect (windata (h p)))) (rr clip)) (Z.max (rl (rect (windata (h p)))) (rl clip))); [done|].
      destruct (Z.ltb_spec (Z.min (rb (rect (windata (h p)))) (rb clip)) (Z.max (rt (rect (windata (h p)))) (rt clip))); [done|].
      injection Ei as <-. cbn [rl rt rr rb]. lia.
    + destruct (link_top p _ (rank_next h rank Hord p Hr)) as [Ht Hl]. specialize (Hl Hr).
      specialize (IH (next (h p)) Ht ltac:(lia)).
      assert (forall x y, in_rect x y clip = true -> owner depth h x y p = owner depth h x y (next (h p))) as Eo.
      { intros x y Hxy. rewrite owner_step by done. destruct (Hi x y) as [_ Hb]. rewrite Hxy, andb_true_r in Hb.
        destruct (in_rect x y (rect (windata (h p)))); [|done]. by destruct (proj1 Hb eq_refl). }
      destruct (find_window n h clip (next (h p))) as [w sub']. destruct (Z.eqb_spec w 0).
      * intros x y Hxy. rewrite Eo by done. by apply IH.
      * destruct IH as (H1 & H2 & H3). split; [lia|]. split; [|done]. intros x y Hxy. rewrite Eo by done. by apply H2.
Qed.

Definition on_screen clip : Prop := 0 <= rl clip /\ rr clip <= W /\ 0 <= rt clip /\ rb clip <= H.

(** [s'] is [s] with the pixels of [clip] that a window of [p] covers given to
    the window on top there. *)
Definition picks clip (p : Z) s s' : Prop := forall x y, 0 <= x < W ->
  pick_buffer s' (y * W + x) =
    if in_rect x y clip && negb (owner depth h x y p =? 0)
    then window_gid (h (owner depth h x y p)) else pick_buffer s (y * W + x).

Lemma update_pick_spec clip w s x y : on_screen clip -> 0 <= x < W ->
  pick_buffer (update_pick_buf W clip w s) (y * W + x) =
    if in_rect x y clip then window_gid w else pick_buffer s (y * W + x).
Proof.
  intros (H1 & H2 & H3 & H4) Hx. unfold update_pick_buf. cbn [pick_buffer].
  assert (in_rect x y clip = (rt clip <=? y) && (y <? rb clip) && (rl clip <=? x) && (x <? rr clip)) as ->
    by (unfold in_rect; btauto).
  apply (nest_spec (fun (k : Z -> Z) y x => k (y * W + x)) (fun _ x => 0 <= x < W) (fun _ _ _ => window_gid w)
    (fun y x pick i => if i =? VGA_PIXEL_OFFSET W x y then window_gid w else pick i)); [|done].
  intros py px pick j i Hpy Hpx Hi. cbn beta. rewrite (offset_eq W H) by nia.
  destruct (Z.eqb_spec (j * W + i) (py * W + px)) as [E|E].
  - apply (pixel_inj W H) in E as [-> ->]; [|lia..]. by rewrite !Z.eqb_refl.
  - destruct (Z.eqb_spec j py), (Z.eqb_spec i px); subst; done.
Qed.

Lemma draw_text_defined clip w b s : buffer_ok b ->
  exists s', draw_text W ASCII_MAP clip w b s = Some s' /\ pick_buffer s' = pick_buffer s.
Proof.
  intros (Hw & Hm & Hl & Hh & Ht). unfold draw_text.
  destruct (Z.eqb_spec (char_w b) 0); [lia|]. destruct (Z.eqb_spec (max b) 0); [lia|].
  set (tc := {| rl := Z.quot _ _; rt := _; rr := _; rb := _ |}). generalize tc. clear tc. intros tc.
  unfold rect_intersect. rewrite !MIN_spec, !MAX_spec. cbn [rl rt rr rb].
  destruct (_ <? _); [by exists s|]. destruct (_ <? _); [by exists s|]. cbn [negb rl rt rr rb].
  assert (0 <= Z.quot (head b) (char_w b)) by (apply Z.quot_pos; lia).
  match goal with |- context [for_each ?n ?i ?body ?fb] =>
    destruct (for_each_inv (fun _ _ => True) n i body fb) as (fb' & -> & _); [done| |] end.
  - intros y fb Hy _. destruct (for_each_inv (fun _ _ => True)
      (Z.to_nat (Z.min (rr tc) (char_w b) + 1 - Z.max (rl tc) 0)) (Z.max (rl tc) 0)
      (fun x fb => c ← arr_get (text b) (Z.rem (y * char_w b + x) (max b));
         Some (render_char_xy_clipped W ASCII_MAP c (rl (rect (windata w)) + offset_x b + x * CHAR_SPACING_X)
                 (rt (rect (windata w)) + offset_y b + y * CHAR_SPACING_Y) GREEN clip fb)) fb) as (fb1 & -> & _);
      [done| |by exists fb1].
    intros x fb1 Hx _. assert (0 <= y) by lia.
    destruct (arr_get_Some (text b) (Z.rem (y * char_w b + x) (max b))) as [c ->]; [|by eexists].
    pose proof (Z.rem_bound_pos (y * char_w b + x) (max b)). nia.
  - by eexists.
Qed.

(** What [draw] needs of the recursive call, for tops of rank below [m]. *)
Definition redraws (R : Rect -> Z -> Screen -> option Screen) (m : nat) : Prop :=
  forall clip p s, on_screen clip -> is_top p -> (rank0 p < m)%nat -> exists s', R clip p s = Some s' /\ picks clip p s s'.

Lemma picks_leaf sub w s s1 s' : on_screen sub -> w <> 0 -> (0 < rank w)%nat -> kind (h w) <> GUIFrame ->
  (forall x y, in_rect x y sub = true -> in_rect x y (rect (windata (h w))) = true) ->
  (forall x y, 0 <= x < W -> in_rect x y sub = false -> pick_buffer s1 (y * W + x) = pick_buffer s (y * W + x)) ->
  pick_buffer s' = pick_buffer (update_pick_buf W sub (h w) s1) -> picks sub w s s'.
Proof.
  intros Hs Hw Hr Hk Hin Hout Ep x y Hx. rewrite Ep, update_pick_spec by done.
  destruct (in_rect x y sub) eqn:E; cbn [andb]; [|by apply Hout].
  rewrite owner_step, Hin by done. destruct (kind (h w)); try done; by destruct (Z.eqb_spec w 0).
Qed.

Lemma picks_outside clip p s s' x y : picks clip p s s' -> 0 <= x < W -> in_rect x y clip = false ->
  pick_buffer s' (y * W + x) = pick_buffer s (y * W + x).
Proof. intros Hp Hx E. by rewrite Hp, E. Qed.

Lemma draw_picks R sub w s :
  redraws R (rank w) -> on_screen sub -> w <> 0 -> (0 < rank w)%nat ->
  (forall x y, in_rect x y sub = true -> in_rect x y (rect (windata (h w))) = true) ->
  exists s', draw W H ASCII_MAP text_buffer image R h sub w s = Some s' /\ picks sub w s s'.
Proof.
  intros HR Hs Hw Hr Hin. unfold draw. destruct (kind (h w)) eqn:Ek.
  - assert (exists s1, (if negb (GET_ALPHA (display_data (windata (h w))) =? 0) && negb (wm_root (h w) =? 0) &&
        negb (next (h (wm_root (h w))) =? 0) then R sub (next (h (wm_root (h w)))) s else Some s) = Some s1 /\
      forall x y, 0 <= x < W -> in_rect x y sub = false -> pick_buffer s1 (y * W + x) = pick_buffer s (y * W + x))
      as (s1 & -> & Ho).
    { destruct (negb (GET_ALPHA _ =? 0)), (Z.eqb_spec (wm_root (h w)) 0), (negb (next _ =? 0));
        cbn [negb andb]; try (by exists s).
      destruct (link_top w _ (rank_below h rank Hord w Hr ltac:(done))) as [Ht Hl].
      destruct (HR sub _ s Hs Ht (Hl Hr)) as (s1 & -> & Hp). exists s1. split; [done|].
      intros. by apply (picks_outside _ _ _ _ _ _ Hp). }
    cbn [mbind option_bind]. eexists. split; [reflexivity|].
    apply (picks_leaf _ _ _ s1); [done..|by rewrite Ek|done|done|done].
  - destruct (link_top w _ (rank_children h rank Hord w Hr Ek)) as [Ht Hl].
    destruct (HR sub (children h w) s Hs Ht (Hl Hr)) as (s1 & -> & Hp). exists s1. split; [done|].
    intros x y Hx. rewrite Hp by done. destruct (in_rect x y sub) eqn:E; cbn [andb]; [|done].
    rewrite (owner_step x y w), Hin, Ek by done. done.
  - pose proof (text_root h rank Hord w Hr Ek) as Hroot. destruct (Z.eqb_spec (wm_root (h w)) 0); [done|].
    destruct (link_top w _ (rank_below h rank Hord w Hr Hroot)) as [Ht Hl].
    destruct (HR sub _ s Hs Ht (Hl Hr)) as (s1 & -> & Hp). cbn [mbind option_bind].
    assert (forall s', pick_buffer s' = pick_buffer (update_pick_buf W sub (h w) s1) -> picks sub w s s') as Hfin.
    { intros s'. apply (picks_leaf _ _ _ s1); [done..|by rewrite Ek|done|].
      intros. by apply (picks_outside _ _ _ _ _ _ Hp). }
    destruct (Z.eqb_spec (display_data (windata (h w))) 0) as [|Hd]; [eexists; split; [reflexivity|by apply Hfin]|].
    match goal with |- context [draw_text W ASCII_MAP sub (h w) ?b ?s2] =>
      destruct (draw_text_defined sub (h w) b s2 (Htext w Hr Ek Hd)) as (s3 & -> & E3) end.
    exists s3. split; [done|]. by apply Hfin.
  - eexists. split; [reflexivity|]. apply (picks_leaf _ _ _ s); [done..|by rewrite Ek|done|done|done].
Qed.

(** One of the four recursive calls. *)
Lemma redraw_part (c : bool) R m part p s :
  redraws R m -> (c = true -> on_screen part) -> is_top p -> (rank0 p < m)%nat ->
  exists s', (if c then R part p s else Some s) = Some s' /\
    forall x y, 0 <= x < W -> pick_buffer s' (y * W + x) =
      if c && in_rect x y part && negb (owner depth h x y p =? 0)
      then window_gid (h (owner depth h x y p)) else pick_buffer s (y * W + x).
Proof.
  intros HR Hs Hp Hm. destruct c; [|by exists s].
  destruct (HR part p s (Hs eq_refl) Hp Hm) as (s' & -> & Hpk). by exists s'.
Qed.

(** The parts of a clip rectangle around the inner rectangle [sub]. *)
Definition part_top clip sub : Rect := {| rl := rl clip; rt := rt clip; rr := rr clip; rb := rt sub |}.
Definition part_left clip sub : Rect := {| rl := rl clip; rt := rt sub; rr := rl sub; rb := rb sub |}.
Definition part_right clip sub : Rect := {| rl := rr sub; rt := rt sub; rr := rr clip; rb := rb sub |}.
Definition part_bottom clip sub : Rect := {| rl := rl clip; rt := rb sub; rr := rr clip; rb := rb clip |}.

Lemma parts_cover clip sub x y :
  rl clip <= rl sub <= rr sub -> rr sub <= rr clip -> rt clip <= rt sub <= rb sub -> rb sub <= rb clip ->
  let c := in_rect x y clip in
  let mid := negb (y <? rt sub) && (y <? rb sub) in
  (rt clip <? rt sub) && in_rect x y (part_top clip sub) = c && (y <? rt sub) /\
  (rl clip <? rl sub) && in_rect x y (part_left clip sub) = c && mid && (x <? rl sub) /\
  in_rect x y sub = c && mid && negb (x <? rl sub) && (x <? rr sub) /\
  (rr sub <? rr clip) && in_rect x y (part_right clip sub) = c && mid && negb (x <? rr sub) /\
  (rb sub <? rb clip) && in_rect x y (part_bottom clip sub) = c && negb (y <? rb sub).
Proof.
  intros H1 H2 H3 H4. unfold in_rect, part_top, part_left, part_right, part_bottom. cbn [rl rt rr rb].
  repeat split; split_ltb; cbn; lia || done.
Qed.

Lemma redraw_picks fuel : redraws (gui_redraw_rect W H ASCII_MAP text_buffer image fuel h) fuel.
Proof.
  induction fuel as [|fuel IH]; intros clip p s Hs Hp Hf; [lia|]. cbn [gui_redraw_rect].
  assert (rank0 p <= MAX_WINDOW_LEVELS)%nat as Hsm.
  { unfold rank0. pose proof (rank_small h rank Hord p). unfold depth in *. unfold MAX_WINDOW_LEVELS. case_match; lia. }
  pose proof (find_window_spec MAX_WINDOW_LEVELS clip p Hp Hsm) as Hfind.
  destruct (find_window MAX_WINDOW_LEVELS h clip p) as [w sub]. destruct (Z.eqb_spec w 0) as [->|Hw].
  { exists s. split; [done|]. intros x y Hx. destruct (in_rect x y clip) eqn:E; [|done].
    by rewrite Hfind by done. }
  destruct Hfind as (Hr & Ho & Hin & Hg1 & Hg2 & Hg3 & Hg4).
  destruct (link_top w _ (rank_next h rank Hord w ltac:(lia))) as [Ht Hl]. specialize (Hl ltac:(lia)).
  assert (on_screen sub) as Hsub by (unfold on_screen in *; lia).
  fold (part_top clip sub) (part_left clip sub) (part_right clip sub) (part_bottom clip sub).
  destruct (redraw_part (rt clip <? rt sub) _ fuel (part_top clip sub) (next (h w)) s IH) as (s1 & -> & P1);
    [unfold on_screen in *; cbn; intros ?%Z.ltb_lt; lia|done|lia|]. cbn [mbind option_bind].
  destruct (redraw_part (rl clip <? rl sub) _ fuel (part_left clip sub) (next (h w)) s1 IH) as (s2 & -> & P2);
    [unfold on_screen in *; cbn; intros ?%Z.ltb_lt; lia|done|lia|]. cbn [mbind option_bind].
  destruct (draw_picks (gui_redraw_rect W H ASCII_MAP text_buffer image fuel h) sub w s2) as (s3 & -> & P3);
    [intros c q s0 Hc Hq Hrq; apply IH; [done|done|lia]|done|done|lia| |].
  { intros x y Hxy. rewrite Hin in Hxy. by apply andb_true_iff in Hxy as [? _]. }
  cbn [mbind option_bind].
  destruct (redraw_part (rr sub <? rr clip) _ fuel (part_right clip sub) (next (h w)) s3 IH) as (s4 & -> & P4);
    [unfold on_screen in *; cbn; intros ?%Z.ltb_lt; lia|done|lia|]. cbn [mbind option_bind].
  destruct (redraw_part (rb sub <? rb clip) _ fuel (part_bottom clip sub) (next (h w)) s4 IH) as (s5 & E5 & P5);
    [unfold on_screen in *; cbn; intros ?%Z.ltb_lt; lia|done|lia|].
  exists s5. split; [exact E5|]. intros x y Hx.
  destruct (parts_cover clip sub x y Hg1 Hg2 Hg3 Hg4) as (C1 & C2 & C3 & C4 & C5).
  rewrite P5, P4, P3, P2, P1, C1, C2, C4, C5 by done.
  destruct (in_rect x y clip) eqn:Ec; [|by rewrite C3].
  rewrite Ho by done. pose proof (Hin x y) as Hw2. rewrite Ec, andb_true_r in Hw2.
  destruct (in_rect x y sub) eqn:Es.
  - symmetry in C3. rewrite !andb_true_iff, !negb_true_iff in C3. destruct C3 as [[[_ [-> ->]] ->] ->]. done.
  - assert (owner depth h x y w = owner depth h x y (next (h w))) as -> by (rewrite owner_step, <- Hw2 by (done || lia); done).
    clear -C3 Hg3. revert C3. generalize (owner depth h x y (next (h w))) as q. intros q.
    generalize (window_gid (h q)) as v, (pick_buffer s (y * W + x)) as v0, (q =? 0) as z. clear q. intros v v0 z.
    destruct (Z.ltb_spec y (rt sub)), (Z.ltb_spec y (rb sub)), (x <? rl sub), (x <? rr sub), z;
      cbn; intros; discriminate || reflexivity || lia.
Qed.
End picking.

(** C5: [gui_redraw_rect] returns (fuel 257 covers every hierarchy of
    [MAX_WINDOWS] windows without a cycle) and leaves in the pick buffer, for
    every pixel of the clip rectangle, the window that is on top there: the first
    of the list that contains the pixel, inside a frame the first of its
    children.  Other pixels, and those no window covers, keep their owner. *)
Theorem redraw_pick_buffer W H ASCII_MAP text_buffer image h rank fuel clip top s :
  0 < W -> 0 < H -> (H + 1) * W < 2147483648 -> draw_order h rank ->
  (forall p, (0 < rank p)%nat -> kind (h p) = GUITextBox -> display_data (windata (h p)) <> 0 ->
     buffer_ok (text_buffer (display_data (windata (h p))))) ->
  on_screen W H clip -> is_top rank top -> (257 <= fuel)%nat ->
  exists s', gui_redraw_rect W H ASCII_MAP text_buffer image fuel h clip top s = Some s' /\
    forall x y, 0 <= x < W ->
      pick_buffer s' (y * W + x) =
        if in_rect x y clip && negb (owner depth h x y top =? 0)
        then window_gid (h (owner depth h x y top)) else pick_buffer s (y * W + x).
Proof.
  intros HW HH HWH Hord Htext Hs Ht Hf.
  apply (redraw_picks W H HW HH HWH ASCII_MAP text_buffer image h rank Hord Htext fuel clip top s Hs Ht).
  unfold rank0. pose proof (rank_small h rank Hord top). unfold depth in *. case_match; lia.
Qed.

(** A transparent window of process 1 over the desktop, on a 4 by 3 screen. *)
Definition two_windows : heap := fun q =>
  if q =? 1 then set_root (set_pid (set_next (new_GUIWindow GUIPlain
    (new_Window WINDOW {| rl := 1; rt := 1; rr := 3; rb := 2 |} (SET_ALPHA 1 + RED))) 2) 1) 1
  else set_prev (new_GUIWindow GUIDesktop (new_Window WINDOW {| rl := 0; rt := 0; rr := 4; rb := 3 |} 0)) 1.
Definition two_ranks (q : Z) : nat := if q =? 1 then 2 else if q =? 2 then 1 else 0.

Lemma two_windows_order : draw_order two_windows two_ranks.
Proof.
  assert (forall p, (0 < two_ranks p)%nat -> p = 1 \/ p = 2) as Hp.
  { intros p. unfold two_ranks. destruct (Z.eqb_spec p 1), (Z.eqb_spec p 2); auto; lia. }
  split.
  - intros p. unfold two_ranks, depth. repeat case_match; lia.
  - intros p [->| ->]%Hp; cbn; [right; cbn; lia|by left].
  - intros p [->| ->]%Hp; done.
  - intros p [->| ->]%Hp; cbn; [right; cbn; lia|done].
  - intros p [->| ->]%Hp; done.
Qed.

Definition blank_screen : Screen := {| pixels := fun _ => 0; pick_buffer := fun _ => 255 |}.

Lemma redraw_pick_buffer_witness :
  exists s', gui_redraw_rect 4 3 (fun _ => 0) (fun _ => new_Buffer 1 1 [0]) (fun _ _ => 0) 257 two_windows
      {| rl := 0; rt := 0; rr := 4; rb := 3 |} 1 blank_screen = Some s' /\
    pick_buffer s' (1 * 4 + 2) = 16 /\ pick_buffer s' (2 * 4 + 2) = 0.
Proof.
  destruct (redraw_pick_buffer 4 3 (fun _ => 0) (fun _ => new_Buffer 1 1 [0]) (fun _ _ => 0) two_windows two_ranks
    257 {| rl := 0; rt := 0; rr := 4; rb := 3 |} 1 blank_screen) as (s' & E & Hp).
  1-3: lia.
  - exact two_windows_order.
  - intros p Hr Hk. exfalso. unfold two_windows in Hk. by destruct (p =? 1).
  - unfold on_screen. cbn. lia.
  - right. cbn. lia.
  - lia.
  - exists s'. split; [exact E|]. split; [exact (Hp 2 1 ltac:(lia))|exact (Hp 2 2 ltac:(lia))].
Defined.
