(* ===== verification/Windows.v ===== *)
(** * The windows of a process on the screen: [gui_update_proc] of
    [system/gui.cpp] as a whole

    A process describes its windows in an array of slots, a slot naming its
    parent; the window manager keeps them as linked lists of windows.  The first
    part is what the description means (places, roots, order of the children),
    the second that the two loops of [gui_update_proc] build exactly that. *)
From Stdlib Require Import Sorted.
From S2P Require Import Prelude Shapes Objects Gui.

Section windows.
(** The process, and its slots. *)
Context (p : Z) (u : Z -> Window).
Implicit Types (h : heap) (m : WindowManager).

(** ** What the slots describe *)

Definition slot (i : Z) : Prop := 0 <= i < MAX_PROC_WINDOWS.
Definition used (i : Z) : bool := negb (bool_decide (winclass (u i) = NONE)).
Definition is_root (i : Z) : bool := parent_id (u i) =? -1.

(** The place on the screen: a slot is relative to its parent. *)
Fixpoint place (n : nat) (i : Z) : Rect :=
  match n with
  | O => rect (u i)
  | S n => if is_root i then rect (u i)
           else let r := place n (parent_id (u i)) in shift_rect (rect (u i)) (rl r) (rt r)
  end.

Fixpoint root_from (n : nat) (i : Z) : Z :=
  match n with
  | O => i
  | S n => if is_root i then i else root_from n (parent_id (u i))
  end.

Definition placed : Z -> Rect := place 16.
Definition root : Z -> Z := root_from 16.

(** The children of a frame among the first [n] slots, top first: a later slot
    goes below those of its z-index. *)
Fixpoint zinsert (new : Z) (ws : list Z) : list Z :=
  match ws with
  | [] => [new]
  | w :: ws' => if zindex (u w) <? zindex (u new) then new :: ws else w :: zinsert new ws'
  end.

Fixpoint kids_below (n : nat) (f : Z) : list Z :=
  match n with
  | O => []
  | S n => if used (Z.of_nat n) && (parent_id (u (Z.of_nat n)) =? f) then zinsert (Z.of_nat n) (kids_below n f)
           else kids_below n f
  end.
Definition kids : Z -> list Z := kids_below 16.

(** The roots among the first [n] slots, the last one first; the window of
    number 0 is the desktop, which stays where it is. *)
Fixpoint roots_below (n : nat) : list Z :=
  match n with
  | O => []
  | S n => if used (Z.of_nat n) && is_root (Z.of_nat n) && negb (Z.of_nat n + Z.shiftl p 4 =? 0)
           then Z.of_nat n :: roots_below n else roots_below n
  end.
Definition roots : list Z := roots_below 16.

(** The window manager's copy of a slot. *)
Definition shown (i d : Z) : Window :=
  {| winclass := winclass (u i); rect := placed i; redraw_rect := redraw_rect (u i); display_data := d;
     zindex := zindex (u i); id := id (u i); parent_id := parent_id (u i); needs_update := negb (is_root i);
     needs_redraw := needs_redraw (u i) |}.

Definition kind_of (i : Z) : Kind := default GUIPlain (class_kind (winclass (u i))).

(** New slots whose parents are frames of smaller slots, and frames whose word for
    the children is null. *)
Record tree : Prop := {
  tr_update : forall i, slot i -> used i = true -> needs_update (u i) = true;
  tr_parent : forall i, slot i -> used i = true ->
    parent_id (u i) = -1 \/ 0 <= parent_id (u i) < i /\ winclass (u (parent_id (u i))) = WINDOW_FRAME;
  tr_frame : forall i, slot i -> winclass (u i) = WINDOW_FRAME -> display_data (u i) = 0
}.

(** ** Facts of the description *)

Section description.
Context (Htree : tree).

Lemma parent_slot i : slot i -> used i = true -> is_root i = false ->
  0 <= parent_id (u i) < i /\ slot (parent_id (u i)) /\ used (parent_id (u i)) = true /\
  winclass (u (parent_id (u i))) = WINDOW_FRAME.
Proof.
  intros Hi Hu Hr. destruct (tr_parent Htree i Hi Hu) as [E|[H1 H2]]; [unfold is_root in Hr; by rewrite E in Hr|].
  split; [done|]. split; [unfold slot in *; lia|]. split; [|done]. unfold used. by rewrite H2.
Qed.

Lemma place_S n i :
  place (S n) i = if is_root i then rect (u i)
    else shift_rect (rect (u i)) (rl (place n (parent_id (u i)))) (rt (place n (parent_id (u i)))).
Proof. done. Qed.

Lemma root_S n i : root_from (S n) i = if is_root i then i else root_from n (parent_id (u i)).
Proof. done. Qed.

Lemma place_stable n k i : slot i -> used i = true -> (Z.to_nat i <= n)%nat -> (Z.to_nat i <= k)%nat -> place n i = place k i.
Proof.
  revert k i. induction n as [|n IH]; intros k i Hi Hu Hn Hk; (destruct k as [|k]; cbn [place]; [try done|]);
    (destruct (is_root i) eqn:Er; [done|]); destruct (parent_slot i Hi Hu Er) as (H1 & H2 & H3 & _); try lia.
  rewrite (IH k) by (done || lia). done.
Qed.

Lemma placed_child i : slot i -> used i = true -> is_root i = false ->
  placed i = shift_rect (rect (u i)) (rl (placed (parent_id (u i)))) (rt (placed (parent_id (u i)))).
Proof.
  intros Hi Hu Hr. destruct (parent_slot i Hi Hu Hr) as (H1 & H2 & H3 & _). unfold placed. rewrite (place_S 15 i), Hr.
  rewrite (place_stable 15 16) by (done || (unfold slot, MAX_PROC_WINDOWS in *; lia)). done.
Qed.

Lemma placed_root i : is_root i = true -> placed i = rect (u i).
Proof. intros Hr. unfold placed. by rewrite (place_S 15), Hr. Qed.

Lemma root_stable n k i : slot i -> used i = true -> (Z.to_nat i <= n)%nat -> (Z.to_nat i <= k)%nat ->
  root_from n i = root_from k i.
Proof.
  revert k i. induction n as [|n IH]; intros k i Hi Hu Hn Hk; (destruct k as [|k]; cbn [root_from]; [try done|]);
    (destruct (is_root i) eqn:Er; [done|]); destruct (parent_slot i Hi Hu Er) as (H1 & H2 & H3 & _); try lia.
  apply IH; done || lia.
Qed.

Lemma root_child i : slot i -> used i = true -> is_root i = false -> root i = root (parent_id (u i)).
Proof.
  intros Hi Hu Hr. destruct (parent_slot i Hi Hu Hr) as (H1 & H2 & H3 & _).
  unfold root. rewrite (root_S 15 i), Hr.
  apply root_stable; done || (unfold slot, MAX_PROC_WINDOWS in *; lia).
Qed.

Lemma root_self i : is_root i = true -> root i = i.
Proof. intros Hr. unfold root. by rewrite root_S, Hr. Qed.

Lemma elem_of_zinsert new ws j : j ∈ zinsert new ws <-> j = new \/ j ∈ ws.
Proof.
  induction ws as [|w ws IH]; cbn [zinsert]; [by rewrite list_elem_of_singleton, elem_of_nil; tauto|].
  case_match; rewrite !elem_of_cons, ?IH; tauto.
Qed.

Lemma elem_of_kids_below n f j :
  j ∈ kids_below n f <-> 0 <= j < Z.of_nat n /\ used j = true /\ parent_id (u j) = f.
Proof.
  induction n as [|n IH]; cbn [kids_below].
  - rewrite elem_of_nil. lia.
  - destruct (used (Z.of_nat n)) eqn:Eu, (Z.eqb_spec (parent_id (u (Z.of_nat n))) f) as [Ep|Ep]; cbn [andb];
      rewrite ?elem_of_zinsert, IH; (split; [|intros (H1 & H2 & H3)]).
    + intros [->|(H1 & H2 & H3)]; split_and!; try done; lia.
    + destruct (decide (j = Z.of_nat n)); [by left|]. right. split_and!; try done; lia.
    + intros (H1 & H2 & H3). split_and!; try done; lia.
    + assert (j <> Z.of_nat n) by (intros ->; done). split_and!; try done; lia.
    + intros (H1 & H2 & H3). split_and!; try done; lia.
    + assert (j <> Z.of_nat n) by (intros ->; congruence). split_and!; try done; lia.
    + intros (H1 & H2 & H3). split_and!; try done; lia.
    + assert (j <> Z.of_nat n) by (intros ->; congruence). split_and!; try done; lia.
Qed.

(** The children of a frame are the used slots that name it. *)
Lemma elem_of_kids f j : j ∈ kids f <-> slot j /\ used j = true /\ parent_id (u j) = f.
Proof. unfold kids. by rewrite elem_of_kids_below. Qed.

(** Top first, a window never has a smaller z-index than one below it. *)
Definition by_z (a b : Z) : Prop := zindex (u b) <= zindex (u a).

Lemma zinsert_sorted new ws : StronglySorted by_z ws -> StronglySorted by_z (zinsert new ws).
Proof.
  induction 1 as [|w ws Hs IH Hf]; cbn [zinsert]; [repeat constructor|].
  destruct (Z.ltb_spec (zindex (u w)) (zindex (u new))).
  - constructor; [by constructor|]. constructor; [unfold by_z; lia|].
    eapply Forall_impl; [exact Hf|]. intros x Hx. unfold by_z in *. lia.
  - constructor; [done|]. rewrite Forall_forall in Hf |- *. intros x [->|Hx]%elem_of_zinsert; [done|by apply Hf].
Qed.

Lemma kids_sorted n f : StronglySorted by_z (kids_below n f).
Proof. induction n as [|n IH]; cbn [kids_below]; [constructor|]. case_match; [by apply zinsert_sorted|done]. Qed.

Lemma length_kids n f : (length (kids_below n f) <= n)%nat.
Proof.
  assert (forall new ws, length (zinsert new ws) = S (length ws)) as Hz.
  { intros new ws. induction ws as [|w ws IH]; cbn [zinsert]; [done|]. case_match; cbn; [done|]. by rewrite IH. }
  induction n as [|n IH]; cbn [kids_below]; [done|]. case_match; rewrite ?Hz; lia.
Qed.

Lemma elem_of_roots_below n j :
  j ∈ roots_below n <-> 0 <= j < Z.of_nat n /\ used j = true /\ is_root j = true /\ j + Z.shiftl p 4 <> 0.
Proof.
  induction n as [|n IH]; cbn [roots_below].
  - rewrite elem_of_nil. lia.
  - destruct (used (Z.of_nat n) && is_root (Z.of_nat n) && negb (Z.of_nat n + Z.shiftl p 4 =? 0)) eqn:E.
    + rewrite !andb_true_iff, negb_true_iff, Z.eqb_neq in E. destruct E as [[E1 E2] E3].
      rewrite elem_of_cons, IH. split.
      * intros [->|(H1 & H2 & H3 & H4)]; split_and!; try done; lia.
      * intros (H1 & H2 & H3 & H4). destruct (decide (j = Z.of_nat n)); [by left|]. right. split_and!; try done; lia.
    + rewrite IH. split; intros (H1 & H2 & H3 & H4); (split; [|done]); [lia|].
      assert (j <> Z.of_nat n); [|lia]. intros ->. rewrite H2, H3 in E. cbn in E.
      apply negb_false_iff in E. lia.
Qed.
End description.
#[local] Opaque placed root.

(** ** The windows of the window manager *)

Context (win_index sizeof_GUIWindow : Z) (proc_env proc_userEnv : Z -> Z).

(** The address of the window of a slot. *)
Definition gw (i : Z) : Z := getGUIWindow win_index sizeof_GUIWindow (i + Z.shiftl p 4).

(** The word [display_data] of a window that is not a frame: the text of a text
    box is in the process's environment, which the kernel sees elsewhere. *)
Definition data (i : Z) : Z :=
  if bool_decide (winclass (u i) = TEXT_BOX) then proc_env p +w (display_data (u i) -w proc_userEnv p)
  else display_data (u i).

(** ** One window put into a frame *)

(** Only the links of windows of [ws] differ. *)
Lemma win_move_one fuel dx dy q h :
  (kind (h q) = GUIFrame -> children h q = 0) ->
  win_move (S fuel) dx dy q h = Some (hmod (fun w => set_windata w (window_move dx dy (windata w))) q h).
Proof.
  intros Hc. cbn [win_move]. set (h1 := hmod _ q h).
  assert (h1 q = set_windata (h q) (window_move dx dy (windata (h q)))) as E by apply hmod_eq.
  rewrite E. cbn [kind set_windata]. destruct (kind (h q)) eqn:Ek; try done.
  unfold children. rewrite E. cbn [windata set_windata display_data window_move with_rect].
  unfold children in Hc. by rewrite Hc.
Qed.

Lemma addChild_ok fuel f k ws h :
  stack_at h (children h f) ws -> f <> 0 -> k <> 0 -> k <> f -> k ∉ ws -> f ∉ ws -> (length ws <= 257)%nat ->
  (kind (h k) = GUIFrame -> children h k = 0) ->
  exists h', addChild (S fuel) f k h = Some h' /\ stack_at h' (children h' f) (insert_z h k ws) /\
    windata (h' k) = window_move (rl (rect (windata (h f)))) (rt (rect (windata (h f)))) (windata (h k)) /\ parent (h' k) = f /\
    (exists d, windata (h' f) = with_data (windata (h f)) d) /\
    (forall q, q <> k -> q <> f -> windata (h' q) = windata (h q)) /\
    (forall q, q <> k -> parent (h' q) = parent (h q)) /\
    (forall q, pid (h' q) = pid (h q) /\ kind (h' q) = kind (h q) /\ wm_root (h' q) = wm_root (h q)) /\
    (forall q, q <> k -> q ∉ ws -> next (h' q) = next (h q) /\ prev (h' q) = prev (h q)) /\
    (forall q, q <> k -> q <> f -> q ∉ ws -> h' q = h q).
Proof.
  intros Hst Hf Hk Hkf Hkw Hfw Hl Hc. unfold addChild.
  destruct (Z.eqb_spec k 0), (Z.eqb_spec k f); try done. cbn [orb].
  pose proof (stack_insert_sorted h (children h f) ws k Hst Hk Hkw Hl) as Hs.
  destruct (stack_insert (children h f) k h) as [top h1]. destruct Hs as [Hs [Hw Hn]].
  set (h2 := set_children top f h1). set (h3 := hmod (fun w => set_parent w f) k h2).
  assert (h3 k = set_parent (h1 k) f) as E3k by (unfold h3, h2, set_children; by rewrite hmod_eq, hmod_ne).
  assert (h3 f = set_windata (h1 f) (with_data (windata (h1 f)) top)) as E3f
    by (unfold h3, h2, set_children; by rewrite hmod_ne, hmod_eq by done).
  assert (forall q, q <> k -> q <> f -> h3 q = h1 q) as E3 by (intros; unfold h3, h2, set_children; by rewrite !hmod_ne by done).
  assert (h1 f = h f) as E1f by (apply Hn; rewrite elem_of_cons; intros [?|?]; done).
  destruct (Hw k) as (Ek1 & Ek2 & Ek3 & Ek4 & Ek5).
  rewrite win_move_one by (unfold children; rewrite E3k; cbn; rewrite Ek5, Ek1; exact Hc).
  replace (rect (windata (h3 f))) with (rect (windata (h f))) by (rewrite E3f; cbn; by rewrite E1f).
  eexists. split; [reflexivity|]. set (h4 := hmod _ k h3).
  assert (h4 k = set_windata (h3 k) (window_move (rl (rect (windata (h f)))) (rt (rect (windata (h f)))) (windata (h3 k)))) as E4k
    by apply hmod_eq.
  assert (forall q, q <> k -> h4 q = h3 q) as E4 by (intros; by apply hmod_ne).
  assert (forall q, next (h4 q) = next (h1 q) /\ prev (h4 q) = prev (h1 q) /\ pid (h4 q) = pid (h1 q) /\ kind (h4 q) = kind (h1 q) /\
    wm_root (h4 q) = wm_root (h1 q)) as Hall.
  { intros q. destruct (decide (q = k)) as [->|]; [by rewrite E4k, E3k|]. rewrite E4 by done.
    destruct (decide (q = f)) as [->|]; [by rewrite E3f|]. by rewrite E3. }
  split_and!.
  - replace (children h4 f) with top by (unfold children; rewrite E4, E3f by done; done).
    destruct Hs as [Hs Hnd]. split; [|done]. eapply seg_ext; [|exact Hs]. intros w _. destruct (Hall w) as (-> & -> & _). done.
  - rewrite E4k, E3k. cbn. by rewrite Ek1.
  - rewrite E4k, E3k. done.
  - exists top. rewrite E4, E3f by done. cbn. by rewrite E1f.
  - intros q H1 H2. rewrite E4, E3 by done. apply Hw.
  - intros q H1. rewrite E4 by done. destruct (decide (q = f)) as [->|]; [rewrite E3f|rewrite E3 by done]; apply Hw.
  - intros q. destruct (Hall q) as (_ & _ & -> & -> & ->). destruct (Hw q) as (_ & ? & _ & ? & ?). done.
  - intros q H1 H2. destruct (Hall q) as (-> & -> & _). rewrite Hn; [done|]. rewrite elem_of_cons. intros [?|?]; done.
  - intros q H1 H2 H3. rewrite E4, E3 by done. apply Hn. rewrite elem_of_cons. intros [?|?]; done.
Qed.

(** ** The first loop *)

Section update.
Context (Hwin : 0 < win_index) (Hsize : 0 < sizeof_GUIWindow) (Hp : 0 <= p < 16) (Htree : tree).
Abbreviation update_window := (update_window win_index sizeof_GUIWindow proc_env proc_userEnv).
Abbreviation update_windows := (update_windows win_index sizeof_GUIWindow proc_env proc_userEnv).

Lemma gw_eq i : slot i -> gw i = win_index + sizeof_GUIWindow * (i + 16 * p).
Proof.
  intros Hi. unfold slot, MAX_PROC_WINDOWS in Hi. unfold gw, getGUIWindow. rewrite Z.shiftl_mul_pow2 by lia. change (2 ^ 4) with 16.
  unfold MAX_WINDOWS. destruct (Z.ltb_spec (i + p * 16) 0), (Z.leb_spec 256 (i + p * 16)); try lia. cbn [orb]. f_equal. f_equal. lia.
Qed.

Lemma gw_pos i : slot i -> gw i <> 0.
Proof. intros Hi. rewrite gw_eq by done. unfold slot in Hi. nia. Qed.

Lemma gw_inj i j : slot i -> slot j -> gw i = gw j -> i = j.
Proof. intros Hi Hj. rewrite !gw_eq by done. nia. Qed.

Lemma gw_kids k f j : (k <= 16)%nat -> slot j -> gw j ∈ map gw (kids_below k f) <-> j ∈ kids_below k f.
Proof.
  intros Hk Hj. rewrite list_elem_of_fmap. split; [|intros; by exists j].
  intros (i & E & Hi). pose proof (proj1 (elem_of_kids_below k f i) Hi) as (H1 & _).
  apply gw_inj in E; [by subst|done|unfold slot, MAX_PROC_WINDOWS; lia].
Qed.

(** A new object for a slot. *)
Definition fresh (i : Z) : GUIWindow :=
  {| windata := with_data (with_flags (u i) false (needs_redraw (u i))) (data i); pid := p; next := 0; prev := 0;
     parent := 0; wm_root := 0; kind := kind_of i |}.

Definition clear_flag (i : Z) m : WindowManager := set_user m p i (with_flags (u i) false (needs_redraw (u i))).

Lemma update_window_new fuel i m :
  slot i -> used i = true -> user_windows m p i = u i -> winclass (windata (windows m (gw i))) = NONE ->
  exists h, (forall q, h q = if q =? gw i then fresh i else windows m q) /\
    update_window fuel p i m =
      if is_root i then Some (true, set_windows (clear_flag i m) h (winstack m))
      else if bool_decide (winclass (windata (h (gw (parent_id (u i))))) <> WINDOW_FRAME)
        then Some (false, set_windows (clear_flag i m) h (winstack m))
        else h ← addChild fuel (gw (parent_id (u i))) (gw i) h; Some (true, set_windows (clear_flag i m) h (winstack m)).
Proof.
  intros Hi Hu Eu Ec. unfold Gui.update_window. rewrite Eu.
  pose proof Hu as Hu'. unfold used in Hu'. apply negb_true_iff in Hu'. rewrite Hu'.
  rewrite (tr_update Htree) by done. cbn [negb]. fold (gw i) (gw (parent_id (u i))). fold (clear_flag i m).
  destruct (Z.eqb_spec (gw i) 0) as [E|_]; [by apply gw_pos in E|].
  change (windows (clear_flag i m)) with (windows m). change (winstack (clear_flag i m)) with (winstack m). rewrite Ec.
  set (w := with_flags (u i) false (needs_redraw (u i))). change (winclass w) with (winclass (u i)).
  change (parent_id w) with (parent_id (u i)). change (zindex w) with (zindex (u i)).
  apply bool_decide_eq_false in Hu'. rewrite (bool_decide_eq_true_2 (winclass (u i) <> NONE)) by done.
  destruct (class_kind (winclass (u i))) as [k|] eqn:Ek; [|revert Hu' Ek; by destruct (winclass (u i))].
  set (h := if bool_decide (winclass (u i) = TEXT_BOX) then _ else _).
  assert (forall q, h q = if q =? gw i then fresh i else windows m q) as Hh.
  { intros q. unfold h, fresh, kind_of, data. rewrite Ek. destruct (Z.eqb_spec q (gw i)) as [->|].
    - case_bool_decide; rewrite !hmod_eq; cbn; rewrite ?hmod_eq; done.
    - case_bool_decide; by rewrite !hmod_ne by done. }
  exists h. split; [done|]. assert (h (gw i) = fresh i) as E by (by rewrite Hh, Z.eqb_refl).
  rewrite E. cbn [parent fresh Z.eqb negb]. cbn [mbind option_bind]. rewrite E. cbn [parent fresh Z.eqb negb].
  change (zindex (windata (fresh i))) with (zindex (u i)). rewrite Z.eqb_refl. cbn [negb andb].
  fold (is_root i). destruct (is_root i) eqn:Er; cbn [negb]; [done|].
  destruct (parent_slot Htree i Hi Hu Er) as (_ & Hs & _). fold (gw (parent_id (u i))). destruct (Z.eqb_spec (gw (parent_id (u i))) 0) as [E0|_]; [by apply gw_pos in E0|].
  done.
Qed.

(** What the loop has done after [k] slots. *)
Record synced (k : nat) (m0 m : WindowManager) : Prop := {
  sy_stack : winstack m = winstack m0;
  sy_desktop : desktop m = desktop m0;
  sy_drag : drag_window m = drag_window m0;
  sy_user : forall q i, user_windows m q i =
    if (q =? p) && (0 <=? i) && (i <? Z.of_nat k) && used i then with_flags (u i) false (needs_redraw (u i))
    else user_windows m0 q i;
  sy_other : forall q, (forall i, 0 <= i < Z.of_nat k -> used i = true -> q <> gw i) -> windows m q = windows m0 q;
  sy_win : forall i, 0 <= i < Z.of_nat k -> used i = true -> let w := windows m (gw i) in
    windata w = shown i (if bool_decide (winclass (u i) = WINDOW_FRAME) then children (windows m) (gw i) else data i) /\
    pid w = p /\ kind w = kind_of i /\ wm_root w = 0 /\ parent w = (if is_root i then 0 else gw (parent_id (u i))) /\
    (is_root i = true -> next w = 0 /\ prev w = 0);
  sy_kids : forall f, 0 <= f < Z.of_nat k -> winclass (u f) = WINDOW_FRAME ->
    stack_at (windows m) (children (windows m) (gw f)) (map gw (kids_below k f))
}.

Context (m0 : WindowManager) (Hu0 : forall i, user_windows m0 p i = u i).
Context (Hnew : forall i, slot i -> used i = true -> winclass (windata (windows m0 (gw i))) = NONE).

Lemma synced_0 : synced 0 m0 m0.
Proof.
  split; try done; try lia. intros q i. destruct (Z.leb_spec 0 i), (Z.ltb_spec i (Z.of_nat 0)); try lia;
    by rewrite ?andb_false_r.
Qed.

(** No window before slot [k] is that of slot [k]. *)
Lemma gw_before k i : slot k -> 0 <= i < k -> gw i <> gw k.
Proof. intros Hk Hi E. apply gw_inj in E; [lia|unfold slot, MAX_PROC_WINDOWS in *; lia|done]. Qed.

Lemma kids_zinsert h k l : (forall j, j ∈ k :: l -> zindex (windata (h (gw j))) = zindex (u j)) ->
  insert_z h (gw k) (map gw l) = map gw (zinsert k l).
Proof.
  induction l as [|w l IH]; intros Hz; cbn [map insert_z zinsert]; [done|].
  rewrite (Hz w), (Hz k) by (rewrite !elem_of_cons; tauto). case_match; cbn [map]; [done|]. f_equal. apply IH.
  intros j Hj. apply Hz. rewrite !elem_of_cons in *. tauto.
Qed.

Lemma kids_new k f : slot (Z.of_nat k) -> used (Z.of_nat k) = true -> Z.of_nat k <= f -> kids_below (S k) f = [].
Proof.
  intros Hk Hu Hf. assert (forall j, j ∉ kids_below (S k) f) as Hn.
  { intros j (H1 & H2 & H3)%elem_of_kids_below. unfold slot, MAX_PROC_WINDOWS in *.
    assert (slot j) as Hj by (unfold slot, MAX_PROC_WINDOWS; lia).
    destruct (is_root j) eqn:Er; [unfold is_root in Er; lia|]. destruct (parent_slot Htree j Hj H2 Er) as (? & _). lia. }
  destruct (kids_below (S k) f) as [|j l]; [done|]. destruct (Hn j). by left.
Qed.

Lemma user_step k m q i : synced k m0 m -> used (Z.of_nat k) = true ->
  user_windows (clear_flag (Z.of_nat k) m) q i =
    if (q =? p) && (0 <=? i) && (i <? Z.of_nat (S k)) && used i then with_flags (u i) false (needs_redraw (u i))
    else user_windows m0 q i.
Proof.
  intros Hs Hu. unfold clear_flag, set_user. cbn [user_windows]. rewrite (sy_user _ _ _ Hs).
  destruct (Z.eqb_spec q p) as [->|]; cbn [andb]; [|done].
  destruct (Z.eqb_spec i (Z.of_nat k)) as [->|].
  - destruct (Z.leb_spec 0 (Z.of_nat k)), (Z.ltb_spec (Z.of_nat k) (Z.of_nat (S k))); try lia. by rewrite Hu.
  - destruct (Z.ltb_spec i (Z.of_nat k)), (Z.ltb_spec i (Z.of_nat (S k))); try lia; done.
Qed.

(** The other slots, when the heap changes at the new one and the links of the
    parent's children. *)
Lemma stack_at_ext h h' top ws :
  (forall w, w ∈ ws -> next (h' w) = next (h w) /\ prev (h' w) = prev (h w)) -> stack_at h top ws -> stack_at h' top ws.
Proof. intros He [Hs Hnd]. split; [|done]. by eapply seg_ext. Qed.

Lemma kids_slot k f w : (k <= 16)%nat -> w ∈ map gw (kids_below k f) ->
  exists j, w = gw j /\ slot j /\ j < Z.of_nat k /\ used j = true /\ parent_id (u j) = f.
Proof.
  intros Hk (j & -> & (H1 & H2 & H3)%elem_of_kids_below)%list_elem_of_fmap. exists j.
  split_and!; try done; unfold slot, MAX_PROC_WINDOWS; lia.
Qed.

Lemma skip_step fuel k m : (k < 16)%nat -> used (Z.of_nat k) = false -> synced k m0 m ->
  update_window fuel p (Z.of_nat k) m = Some (true, m) /\ synced (S k) m0 m.
Proof.
  intros Hk Hu Hs. pose proof Hu as Hc. unfold used in Hc. apply negb_false_iff in Hc. split.
  - unfold Gui.update_window. rewrite (sy_user _ _ _ Hs), Hu, andb_false_r, Hu0, Hc. done.
  - assert (forall i, 0 <= i < Z.of_nat (S k) -> used i = true -> 0 <= i < Z.of_nat k) as Hi.
    { intros i H1 H2. assert (i <> Z.of_nat k) by congruence. lia. }
    destruct Hs as [S1 S2 S3 S4 S5 S6 S7]. split; try done.
    + intros q i. rewrite S4. destruct (Z.ltb_spec i (Z.of_nat k)), (Z.ltb_spec i (Z.of_nat (S k))); try lia; try done.
      assert (i = Z.of_nat k) as -> by lia. by rewrite Hu, !andb_false_r.
    + intros q Hq. apply S5. intros i H1. apply Hq. lia.
    + intros i H1 H2. apply S6; auto.
    + intros f H1 H2. cbn [kids_below]. rewrite Hu. cbn [andb]. apply S7; [|done]. apply Hi; [done|].
      unfold used. by rewrite H2.
Qed.

Lemma root_step fuel k m : (k < 16)%nat -> used (Z.of_nat k) = true -> is_root (Z.of_nat k) = true -> synced k m0 m ->
  exists m', update_window fuel p (Z.of_nat k) m = Some (true, m') /\ synced (S k) m0 m'.
Proof.
  intros Hk Hu Hr Hs. assert (slot (Z.of_nat k)) as Hsl by (unfold slot, MAX_PROC_WINDOWS; lia).
  destruct (update_window_new fuel (Z.of_nat k) m Hsl Hu) as (h & Hh & ->).
  { rewrite (sy_user _ _ _ Hs). destruct (Z.ltb_spec (Z.of_nat k) (Z.of_nat k)); [lia|]. by rewrite andb_false_r, Hu0. }
  { rewrite (sy_other _ _ _ Hs); [by apply Hnew|]. intros i Hi _ E. by apply (gw_before (Z.of_nat k) i). }
  rewrite Hr. eexists. split; [reflexivity|].
  assert (forall i, 0 <= i < Z.of_nat k -> h (gw i) = windows m (gw i)) as Hb.
  { intros i Hi. rewrite Hh. destruct (Z.eqb_spec (gw i) (gw (Z.of_nat k))) as [E|]; [|done].
    by apply gw_before in E. }
  assert (h (gw (Z.of_nat k)) = fresh (Z.of_nat k)) as Ek by (by rewrite Hh, Z.eqb_refl).
  pose proof Hs as [S1 S2 S3 S4 S5 S6 S7]. split; try done.
  - intros q i. by apply user_step.
  - intros q Hq. cbn [windows set_windows]. rewrite Hh. destruct (Z.eqb_spec q (gw (Z.of_nat k))) as [->|].
    + exfalso. apply (Hq (Z.of_nat k)); [lia|done|done].
    + apply S5. intros i Hi. apply Hq. lia.
  - intros i Hi Hui. cbn [windows set_windows]. unfold children.
    destruct (decide (i = Z.of_nat k)) as [->|]; [|rewrite Hb by lia; apply S6; [lia|done]].
    rewrite Ek, Hr. unfold fresh, shown. rewrite placed_root by done. cbn.
    split_and!; try done. case_bool_decide; by rewrite Hr.
  - intros f Hf Hc. cbn [windows set_windows]. unfold children. destruct (decide (f = Z.of_nat k)) as [->|].
    + rewrite kids_new by (done || lia). rewrite Ek. cbn. unfold data. rewrite Hc.
      rewrite (tr_frame Htree) by done. split; [done|]. constructor.
    + rewrite Hb by lia. cbn [kids_below]. unfold is_root in Hr. apply Z.eqb_eq in Hr. rewrite Hr, Hu.
      destruct (Z.eqb_spec (-1) f); [lia|]. cbn [andb]. eapply stack_at_ext; [|apply S7; [lia|done]].
      intros w (j & -> & ? & ? & _)%kids_slot; [|lia]. unfold slot in *. rewrite Hb by lia. done.
Qed.

Lemma frame_data i : slot i -> kind_of i = GUIFrame -> data i = 0.
Proof.
  intros Hi Hk. pose proof (tr_frame Htree i Hi) as Hd. revert Hk Hd. unfold data, kind_of.
  destruct (winclass (u i)); cbn; intros; by rewrite ?Hd.
Qed.

Lemma shown_moved i : slot i -> used i = true -> is_root i = false ->
  window_move (rl (placed (parent_id (u i)))) (rt (placed (parent_id (u i)))) (windata (fresh i)) = shown i (data i).
Proof. intros Hi Hu Hr. unfold shown. by rewrite (placed_child Htree i), Hr. Qed.

Lemma child_step fuel k m : (k < 16)%nat -> used (Z.of_nat k) = true -> is_root (Z.of_nat k) = false -> synced k m0 m ->
  exists m', update_window (S fuel) p (Z.of_nat k) m = Some (true, m') /\ synced (S k) m0 m'.
Proof.
  intros Hk Hu Hr Hs. set (K := Z.of_nat k) in *. assert (slot K) as Hsl by (unfold slot, MAX_PROC_WINDOWS, K; lia).
  destruct (update_window_new (S fuel) K m Hsl Hu) as (h & Hh & ->).
  { rewrite (sy_user _ _ _ Hs). fold K. destruct (Z.ltb_spec K K); [lia|]. by rewrite andb_false_r, Hu0. }
  { rewrite (sy_other _ _ _ Hs); [by apply Hnew|]. intros i Hi _ E. by apply (gw_before K i). }
  rewrite Hr. assert (forall i, 0 <= i < K -> h (gw i) = windows m (gw i)) as Hb.
  { intros i Hi. rewrite Hh. destruct (Z.eqb_spec (gw i) (gw K)) as [E|]; [by apply gw_before in E|done]. }
  assert (h (gw K) = fresh K) as Ek by (by rewrite Hh, Z.eqb_refl).
  destruct (parent_slot Htree K Hsl Hu Hr) as (Hf & Hfs & Hfu & Hfc). set (f := parent_id (u K)) in *.
  pose proof Hs as [S1 S2 S3 S4 S5 S6 S7]. fold K in S5, S6, S7.
  destruct (S6 f Hf Hfu) as (Ef & _). rewrite <- Hb in Ef by done.
  rewrite (bool_decide_eq_false_2 (winclass (windata (h (gw f))) <> WINDOW_FRAME)) by (rewrite Ef; intros Hc; by apply Hc).
  assert (forall w, w ∈ map gw (kids_below k f) -> exists j, w = gw j /\ slot j /\ j < K /\ used j = true /\ parent_id (u j) = f) as Hks
    by (intros w; apply kids_slot; lia).
  assert (forall i, slot i -> parent_id (u i) <> f -> gw i ∉ map gw (kids_below k f)) as Hnot.
  { intros i Hi Hp' (j & E & Hj & _ & _ & Ep)%Hks. apply gw_inj in E; [by subst i|done|done]. }
  assert (used f = true -> parent_id (u f) <> f) as Hpf.
  { intros _ E. destruct (tr_parent Htree f Hfs Hfu) as [?|[? _]]; lia. }
  destruct (addChild_ok fuel (gw f) (gw K) (map gw (kids_below k f)) h) as
    (h' & -> & Hst & Edk & Epk & (d & Edf) & Ed & Ep & Hsame & Hlink & Hout).
  { unfold children. rewrite Hb by done. apply (stack_at_ext (windows m)); [|by apply S7].
    intros w (j & -> & Hj & ? & _)%Hks. unfold slot in Hj. rewrite Hb by lia. done. }
  { by apply gw_pos. } { by apply gw_pos. } { intros E. symmetry in E. by apply gw_before in E. }
  { intros (j & E & Hj & ? & _)%Hks. symmetry in E. apply gw_before in E; [done|done|unfold slot in Hj; lia]. }
  { by apply Hnot, Hpf. } { rewrite length_map. pose proof (length_kids k f). lia. }
  { unfold children. rewrite Ek. by apply frame_data. }
  eexists. split; [reflexivity|]. rewrite Ef in Edf, Edk. split; try done.
  - intros q i. by apply user_step.
  - intros q Hq. cbn [windows set_windows]. rewrite Hout, Hh.
    + destruct (Z.eqb_spec q (gw K)) as [->|]; [by destruct (Hq K ltac:(lia) Hu)|]. apply S5. intros i Hi. apply Hq. lia.
    + apply Hq; [lia|done].
    + apply Hq; [lia|done].
    + intros (j & -> & Hj & ? & ? & _)%Hks. apply (Hq j); [unfold slot in Hj; lia|done|done].
  - intros i Hi Hui. cbn [windows set_windows]. destruct (decide (i = K)) as [->|].
    + destruct (Hsame (gw K)) as (-> & -> & ->). unfold children. rewrite Epk, Edk, Ek, Hr. split_and!; try done.
      cbn [rect shown]. unfold f. rewrite shown_moved by done. by destruct (bool_decide (winclass (u K) = WINDOW_FRAME)).
    + assert (0 <= i < K) as Hik by lia. destruct (S6 i Hik Hui) as (W1 & W2 & W3 & W4 & W5 & W6).
      assert (gw i <> gw K) as Hne by (by apply gw_before).
      destruct (Hsame (gw i)) as (-> & -> & ->). rewrite Ep by done. rewrite Hb by done. split_and!; try done.
      * destruct (decide (i = f)) as [->|Hnf].
        { unfold children. rewrite Edf. by rewrite (bool_decide_eq_true_2 _ Hfc). }
        unfold children. rewrite Ed; [by rewrite Hb|done|]. intros E. by apply gw_inj in E; [|unfold slot, MAX_PROC_WINDOWS in *; lia|].
      * intros Hri. unfold is_root in Hri. destruct (Hlink (gw i) Hne) as [-> ->].
        { apply Hnot; [unfold slot, MAX_PROC_WINDOWS in *; lia|]. lia. }
        rewrite Hb by done. by apply W6.
  - intros g Hg Hc. cbn [windows set_windows]. destruct (decide (g = K)) as [->|].
    { unfold K. rewrite kids_new by (done || lia). fold K. unfold children. rewrite Edk, Ek. cbn. unfold data. rewrite Hc.
      rewrite (tr_frame Htree) by done. split; [done|]. constructor. }
    assert (0 <= g < K) as Hgk by lia. cbn [kids_below]. fold K f. rewrite Hu. cbn [andb].
    destruct (Z.eqb_spec f g) as [<-|Hne].
    + rewrite <- (kids_zinsert h); [done|]. intros j [->|Hj]%elem_of_cons; [by rewrite Ek|].
      apply elem_of_kids_below in Hj as (Hj & Huj & _). rewrite Hb by done. destruct (S6 j Hj Huj) as (-> & _). done.
    + unfold children. assert (gw g <> gw K) by (by apply gw_before).
      assert (gw g <> gw f) by (intros E; apply gw_inj in E; [done|unfold slot, MAX_PROC_WINDOWS in *; lia|done]).
      rewrite Ed, Hb by done. apply (stack_at_ext (windows m)); [|by apply S7].
      intros w (j & -> & Hj & Hjk & _ & Epj)%kids_slot; [|lia]. fold K in Hjk.
      assert (0 <= j < K) as Hj' by (unfold slot in Hj; lia).
      destruct (Hlink (gw j)) as [-> ->]; [by apply gw_before|apply Hnot; [done|congruence]|]. rewrite Hb by done. done.
Qed.

Lemma update_windows_ok fuel n k m : (k + n = 16)%nat -> synced k m0 m ->
  exists m', update_windows n (S fuel) p (Z.of_nat k) m = Some (true, m') /\ synced 16 m0 m'.
Proof.
  revert k m. induction n as [|n IH]; intros k m Hkn Hs; cbn [Gui.update_windows].
  - replace k with 16%nat in Hs by lia. by exists m.
  - assert (exists m', update_window (S fuel) p (Z.of_nat k) m = Some (true, m') /\ synced (S k) m0 m') as (m' & -> & Hs').
    { destruct (used (Z.of_nat k)) eqn:Eu; [|exists m; apply skip_step; done || lia].
      destruct (is_root (Z.of_nat k)) eqn:Er; [apply root_step|apply child_step]; done || lia. }
    cbn [mbind option_bind]. replace (Z.of_nat k + 1) with (Z.of_nat (S k)) by lia. apply IH; [lia|done].
Qed.

(** ** The second loop *)

(** A window and what is below it in the hierarchy. *)
Fixpoint subtree (n : nat) (i : Z) : list Z :=
  i :: match n with O => [] | S n => concat (map (subtree n) (kids i)) end.

(** [h'] is [h] with the root [r] in the windows of the slots [l]. *)
Definition rooted h (l : list Z) (r : Z) h' : Prop :=
  forall q, h' q = if bool_decide (q ∈ map gw l) then set_root (h q) r else h q.

(** The heap holds the hierarchy. *)
Record holds h : Prop := {
  ho_kind : forall i, slot i -> used i = true -> kind (h (gw i)) = kind_of i;
  ho_kids : forall f, slot f -> winclass (u f) = WINDOW_FRAME -> stack_at h (children h (gw f)) (map gw (kids f))
}.

Lemma rooted_nil h r : rooted h [] r h.
Proof. done. Qed.

Lemma rooted_one h i r : rooted h [i] r (hmod (fun w => set_root w r) (gw i) h).
Proof.
  intros q. cbn [map]. unfold hmod, hset. destruct (Z.eqb_spec q (gw i)) as [->|].
  - by rewrite bool_decide_eq_true_2 by (by left).
  - rewrite bool_decide_eq_false_2; [done|]. by rewrite list_elem_of_singleton.
Qed.

Lemma rooted_app h l1 h1 l2 h2 r : rooted h l1 r h1 -> rooted h1 l2 r h2 -> rooted h (l1 ++ l2) r h2.
Proof.
  intros H1 H2 q. rewrite H2, !H1, map_app.
  rewrite (bool_decide_ext _ _ (elem_of_app (map gw l1) (map gw l2) q)), bool_decide_or.
  by destruct (bool_decide (q ∈ map gw l1)), (bool_decide (q ∈ map gw l2)).
Qed.

Lemma rooted_fields h l r h' q : rooted h l r h' ->
  windata (h' q) = windata (h q) /\ pid (h' q) = pid (h q) /\ next (h' q) = next (h q) /\ prev (h' q) = prev (h q) /\
  parent (h' q) = parent (h q) /\ kind (h' q) = kind (h q).
Proof. intros Hr. rewrite Hr. by case_bool_decide. Qed.

Lemma rooted_holds h l r h' : rooted h l r h' -> holds h -> holds h'.
Proof.
  intros Hr [H1 H2]. split.
  - intros i Hi Hu. destruct (rooted_fields h l r h' (gw i) Hr) as (_ & _ & _ & _ & _ & ->). auto.
  - intros f Hf Hc. unfold children. destruct (rooted_fields h l r h' (gw f) Hr) as (-> & _).
    apply (stack_at_ext h); [|by apply H2]. intros w _. by destruct (rooted_fields h l r h' w Hr) as (_ & _ & -> & -> & _).
Qed.

Lemma each_child_rooted r (T : Z -> list Z) (body : Z -> heap -> option heap) n l b q h :
  (forall c h, c ∈ l -> holds h -> exists h', body (gw c) h = Some h' /\ rooted h (T c) r h') ->
  (length l <= n)%nat -> seg h b q (map gw l) 0 -> holds h ->
  exists h', each_child n body q h = Some h' /\ rooted h (concat (map T l)) r h'.
Proof.
  intros Hb. revert n b q h. induction l as [|c l IH]; intros n b q h Hl Hs Hh; cbn [map concat].
  - cbn in Hs. subst q. exists h. split; [by destruct n|apply rooted_nil].
  - destruct n as [|n]; [cbn in Hl; lia|]. destruct Hs as (-> & Hc & _ & Hs). cbn [each_child].
    destruct (Z.eqb_spec (gw c) 0); [done|]. destruct (Hb c h ltac:(by left) Hh) as (h1 & -> & Hr). cbn [mbind option_bind].
    destruct (IH ltac:(intros; apply Hb; [by right|done]) n (gw c) (next (h1 (gw c))) h1) as (h2 & -> & Hr2).
    + cbn in Hl. lia.
    + destruct (rooted_fields _ _ _ _ (gw c) Hr) as (_ & _ & -> & _). eapply seg_ext; [|exact Hs].
      intros w _. by destruct (rooted_fields _ _ _ _ w Hr) as (_ & _ & -> & -> & _).
    + by apply (rooted_holds h (T c) r).
    + exists h2. split; [done|]. by apply (rooted_app h _ h1).
Qed.

Lemma kids_nil f : slot f -> winclass (u f) <> WINDOW_FRAME -> kids f = [].
Proof.
  intros Hf Hc. destruct (kids f) as [|j l] eqn:E; [done|]. exfalso.
  assert (j ∈ kids f) as (Hj & Hu & Ep)%elem_of_kids by (rewrite E; by left).
  destruct (is_root j) eqn:Er; [unfold is_root, slot in *; lia|].
  destruct (parent_slot Htree j Hj Hu Er) as (_ & _ & _ & Hcj). by rewrite Ep in Hcj.
Qed.

Lemma kid_after f c : slot f -> c ∈ kids f -> slot c /\ used c = true /\ f < c /\ is_root c = false.
Proof.
  intros Hf (Hc & Hu & Ep)%elem_of_kids. destruct (is_root c) eqn:Er; [unfold is_root, slot in *; lia|].
  destruct (parent_slot Htree c Hc Hu Er) as (? & _). split_and!; try done. lia.
Qed.

Lemma kind_frame i : kind_of i = GUIFrame <-> winclass (u i) = WINDOW_FRAME.
Proof. unfold kind_of. by destruct (winclass (u i)). Qed.

Lemma update_root_ok n fuel i r h :
  holds h -> slot i -> used i = true -> 16 <= i + Z.of_nat n -> (n < fuel)%nat ->
  exists h', update_root fuel r (gw i) h = Some h' /\ rooted h (subtree n i) r h'.
Proof.
  revert fuel i h. induction n as [|n IH]; intros fuel i h Hh Hi Hu Hn Hf; [unfold slot, MAX_PROC_WINDOWS in Hi; lia|].
  destruct fuel as [|fuel]; [lia|]. cbn [update_root subtree].
  pose proof (rooted_one h i r) as H1. set (h1 := hmod _ (gw i) h) in *.
  destruct (rooted_fields _ _ _ _ (gw i) H1) as (_ & _ & _ & _ & _ & Ek). rewrite Ek, (ho_kind h) by done.
  pose proof (rooted_holds _ _ _ _ H1 Hh) as Hh1.
  destruct (decide (winclass (u i) = WINDOW_FRAME)) as [Hc|Hc].
  - pose proof (proj2 (kind_frame i) Hc) as ->.
    destruct (each_child_rooted r (subtree n) (update_root fuel r) MAX_WINDOW_LEVELS (kids i) 0 (children h1 (gw i)) h1) as (h2 & -> & H2).
    + intros c hc Hcc Hhc. destruct (kid_after i c Hi Hcc) as (? & ? & ? & _). apply IH; done || lia.
    + pose proof (length_kids 16 i). unfold MAX_WINDOW_LEVELS, kids. lia.
    + by destruct (ho_kids h1 Hh1 i Hi Hc).
    + done.
    + exists h2. split; [done|]. by apply (rooted_app h [i] h1).
  - rewrite kids_nil by done. exists h1. split; [|done].
    destruct (kind_of i) eqn:E; try done. by apply kind_frame in E.
Qed.

Lemma elem_of_concat_map (T : Z -> list Z) l j : j ∈ concat (map T l) <-> exists c, c ∈ l /\ j ∈ T c.
Proof.
  induction l as [|c l IH]; cbn [map concat].
  - rewrite elem_of_nil. split; [done|]. by intros (c & []%elem_of_nil & _).
  - rewrite elem_of_app, IH. split.
    + intros [Hj|(d & Hd & Hj)]; [exists c; by split; [left|]|exists d; by split; [right|]].
    + intros (d & [->|Hd]%elem_of_cons & Hj); [by left|right; by exists d].
Qed.

Lemma root_of i : slot i -> used i = true -> slot (root i) /\ used (root i) = true /\ is_root (root i) = true.
Proof.
  intros Hi. assert (0 <= i) as H0 by (unfold slot in Hi; lia). revert i H0 Hi.
  apply (Z_lt_induction (fun i => slot i -> used i = true -> slot (root i) /\ used (root i) = true /\ is_root (root i) = true)).
  intros i IH Hi Hu. destruct (is_root i) eqn:Er; [by rewrite root_self|].
  destruct (parent_slot Htree i Hi Hu Er) as (? & ? & ? & _). rewrite (root_child Htree i) by done. by apply IH.
Qed.

(** The subtree of a root holds the slots of that root. *)
Lemma subtree_root n i j : slot i -> used i = true -> j ∈ subtree n i -> slot j /\ used j = true /\ root j = root i.
Proof.
  revert i. induction n as [|n IH]; intros i Hi Hu; cbn [subtree]; rewrite elem_of_cons.
  - intros [->|Hj]; [done|by apply elem_of_nil in Hj].
  - intros [->|Hj]; [done|]. apply elem_of_concat_map in Hj as (c & Hc & Hj).
    destruct (kid_after i c Hi Hc) as (Hcs & Hcu & _ & Hcr). destruct (IH c Hcs Hcu Hj) as (? & ? & ->).
    split_and!; try done. rewrite (root_child Htree c) by done. by apply elem_of_kids in Hc as (_ & _ & ->).
Qed.

Lemma subtree_kids n i f c : slot i -> used i = true -> 16 <= i + Z.of_nat n -> f ∈ subtree n i -> c ∈ kids f -> c ∈ subtree n i.
Proof.
  revert i. induction n as [|n IH]; intros i Hi Hu Hn; [unfold slot, MAX_PROC_WINDOWS in Hi; lia|].
  cbn [subtree]. rewrite !elem_of_cons. intros Hf Hc. right. apply elem_of_concat_map. destruct Hf as [->|Hf].
  - exists c. split; [done|]. destruct n; by left.
  - apply elem_of_concat_map in Hf as (d & Hd & Hf). exists d. split; [done|]. destruct (kid_after i d Hi Hd) as (? & ? & ? & _). apply IH; done || lia.
Qed.

Lemma elem_of_subtree r j : slot r -> used r = true -> is_root r = true ->
  j ∈ subtree 16 r <-> slot j /\ used j = true /\ root j = r.
Proof.
  intros Hr Hu Hrr. split; [intros Hj; by rewrite <- (root_self r) by done; apply (subtree_root 16)|].
  intros (Hj & Huj & E). assert (0 <= j) as H0 by (unfold slot in Hj; lia). revert j H0 Hj Huj E.
  apply (Z_lt_induction (fun j => slot j -> used j = true -> root j = r -> j ∈ subtree 16 r)).
  intros j IH Hj Huj E. destruct (is_root j) eqn:Er.
  - rewrite root_self in E by done. subst j. by left.
  - destruct (parent_slot Htree j Hj Huj Er) as (? & ? & ? & _). apply (subtree_kids 16 r (parent_id (u j))); try done.
    + unfold slot in Hr. lia.
    + apply IH; try done. by rewrite <- (root_child Htree j).
    + by apply elem_of_kids.
Qed.

Context (ws : list Z) (Hws : forall i, slot i -> used i = true -> gw i ∉ ws).
(** A window without a slot: none, or the desktop. *)
Context (Hidle : forall i, slot i -> used i = false -> winclass (windata (windows m0 (gw i))) = NONE \/
  i + Z.shiftl p 4 = 0 /\ parent (windows m0 (gw i)) = 0 /\ kind (windows m0 (gw i)) <> GUIFrame).

(** What the second loop has done after [k] slots, from [m1] of the first. *)
Record pushed (k : nat) (m1 m : WindowManager) : Prop := {
  pu_desktop : desktop m = desktop m1;
  pu_drag : drag_window m = drag_window m1;
  pu_user : user_windows m = user_windows m1;
  pu_stack : stack_at (windows m) (winstack m) (map gw (roots_below k) ++ ws);
  pu_win : forall q, windata (windows m q) = windata (windows m1 q) /\ pid (windows m q) = pid (windows m1 q) /\
    parent (windows m q) = parent (windows m1 q) /\ kind (windows m q) = kind (windows m1 q);
  pu_links : forall q, q ∉ map gw (roots_below k) ++ ws -> next (windows m q) = next (windows m1 q) /\ prev (windows m q) = prev (windows m1 q);
  pu_root : forall i, slot i -> used i = true -> wm_root (windows m (gw i)) = if root i <? Z.of_nat k then gw (root i) else 0;
  pu_idle : forall i, slot i -> used i = false -> wm_root (windows m (gw i)) =
    if (i <? Z.of_nat k) && negb (bool_decide (winclass (windata (windows m1 (gw i))) = NONE)) then gw i else wm_root (windows m1 (gw i));
  pu_other : forall q, (forall i, slot i -> q <> gw i) -> wm_root (windows m q) = wm_root (windows m1 q)
}.

Lemma synced_holds m : synced 16 m0 m -> holds (windows m).
Proof.
  intros [_ _ _ _ _ Hw Hk]. split; [|exact Hk]. intros i Hi Hu. by destruct (Hw i Hi Hu) as (_ & _ & ? & _).
Qed.

Lemma pushed_0 m : stack_at (windows m0) (winstack m0) ws -> synced 16 m0 m -> pushed 0 m m.
Proof.
  intros Hst [S1 S2 S3 S4 S5 S6 S7]. split; try done.
  - rewrite S1. apply (stack_at_ext (windows m0)); [|done]. intros w Hw. rewrite S5; [done|].
    intros i Hi Hu ->. by apply (Hws i Hi Hu).
  - intros i Hi Hu. destruct (S6 i Hi Hu) as (_ & _ & _ & -> & _). destruct (root_of i Hi Hu) as (Hr & _).
    destruct (Z.ltb_spec (root i) (Z.of_nat 0)); [unfold slot in Hr; lia|done].
  - intros i Hi Hu. destruct (Z.ltb_spec i (Z.of_nat 0)); [unfold slot in Hi; lia|done].
Qed.

(** A window outside the stack so far. *)
Lemma not_pushed k i : slot i -> used i = true -> (k <= 16)%nat -> Z.of_nat k <= i \/ is_root i = false ->
  gw i ∉ map gw (roots_below k) ++ ws.
Proof.
  intros Hi Hu Hk Hki [(j & E & (H1 & H2 & H3 & H4)%elem_of_roots_below)%list_elem_of_fmap|Hin]%elem_of_app; [|by apply (Hws i Hi Hu)].
  apply gw_inj in E; [|done|unfold slot, MAX_PROC_WINDOWS in *; lia]. subst j. destruct Hki; [lia|congruence].
Qed.

Abbreviation update_root_of := (update_root_of win_index sizeof_GUIWindow).

(** A slot that is not a root on the stack. *)
Lemma pushed_skip k m1 m : (forall i, slot i -> used i = true -> root i <> Z.of_nat k) -> (k < 16)%nat ->
  (used (Z.of_nat k) = false -> winclass (windata (windows m1 (gw (Z.of_nat k)))) = NONE) ->
  pushed k m1 m -> pushed (S k) m1 m.
Proof.
  intros Hr Hk Hi [S1 S2 S3 S4 S5 S6 S7 S8 S9]. assert (slot (Z.of_nat k)) as Hsl by (unfold slot, MAX_PROC_WINDOWS; lia).
  assert (roots_below (S k) = roots_below k) as E.
  { cbn [roots_below]. destruct (used (Z.of_nat k)) eqn:Eu, (is_root (Z.of_nat k)) eqn:Er; try done.
    exfalso. apply (Hr (Z.of_nat k)); [done|done|by apply root_self]. }
  split; rewrite ?E; try done.
  - intros i Hs Hu. rewrite S7 by done. specialize (Hr i Hs Hu).
    destruct (Z.ltb_spec (root i) (Z.of_nat k)), (Z.ltb_spec (root i) (Z.of_nat (S k))); lia || done.
  - intros i Hs Hu. rewrite S8 by done. destruct (decide (i = Z.of_nat k)) as [->|].
    + rewrite bool_decide_eq_true_2 by auto. by rewrite !andb_false_r.
    + by destruct (Z.ltb_spec i (Z.of_nat k)), (Z.ltb_spec i (Z.of_nat (S k))); try lia.
Qed.

Lemma gw_subtree r i : slot r -> used r = true -> is_root r = true -> slot i ->
  bool_decide (gw i ∈ map gw (subtree 16 r)) = bool_decide (used i = true /\ root i = r).
Proof.
  intros Hr Hu Hrr Hi. apply bool_decide_ext. rewrite list_elem_of_fmap. split.
  - intros (j & E & Hj). apply elem_of_subtree in Hj as (Hj & Huj & Ej); [|done..]. apply gw_inj in E; [by subst j|done|done].
  - intros [Hui E]. exists i. split; [done|]. by apply elem_of_subtree.
Qed.

(** The windows of root [k] have got it. *)
Lemma rooted_step k m1 m h : (k < 16)%nat -> let K := Z.of_nat k in
  used K = true -> is_root K = true -> rooted (windows m) (subtree 16 K) (gw K) h -> pushed k m1 m ->
  stack_at h (winstack m) (map gw (roots_below k) ++ ws) /\
  (forall i, slot i -> used i = true -> wm_root (h (gw i)) = if root i <? Z.of_nat (S k) then gw (root i) else 0) /\
  (forall i, slot i -> used i = false -> wm_root (h (gw i)) = 
    if (i <? Z.of_nat (S k)) && negb (bool_decide (winclass (windata (windows m1 (gw i))) = NONE)) then gw i else wm_root (windows m1 (gw i))) /\
  (forall q, (forall i, slot i -> q <> gw i) -> wm_root (h q) = wm_root (windows m1 q)).
Proof.
  intros Hk K Hu Hr Hh [S1 S2 S3 S4 S5 S6 S7 S8 S9]. assert (slot K) as Hsl by (unfold K, slot, MAX_PROC_WINDOWS; lia).
  split_and!.
  - apply (stack_at_ext (windows m)); [|done]. intros w _. by destruct (rooted_fields _ _ _ _ w Hh) as (_ & _ & -> & -> & _).
  - intros i Hi Hui. rewrite Hh, gw_subtree by done. case_bool_decide as Hc.
    + destruct Hc as [_ ->]. destruct (Z.ltb_spec K (Z.of_nat (S k))); [done|lia].
    + rewrite S7 by done. assert (root i <> K) by tauto.
      destruct (Z.ltb_spec (root i) (Z.of_nat k)), (Z.ltb_spec (root i) (Z.of_nat (S k))); lia || done.
  - intros i Hi Hui. rewrite Hh, gw_subtree by done. rewrite bool_decide_eq_false_2 by (intros [? _]; congruence).
    rewrite S8 by done. assert (i <> K) by congruence.
    by destruct (Z.ltb_spec i (Z.of_nat k)), (Z.ltb_spec i (Z.of_nat (S k))); try lia.
  - intros q Hq. rewrite Hh, bool_decide_eq_false_2; [by apply S9|].
    intros (j & -> & Hj)%list_elem_of_fmap. apply elem_of_subtree in Hj as (Hj & _); [|done..]. by apply (Hq j).
Qed.

Lemma new_root_step fuel k m1 m : (k < 16)%nat -> (16 < fuel)%nat -> let K := Z.of_nat k in
  used K = true -> is_root K = true -> synced 16 m0 m1 -> pushed k m1 m ->
  exists m', update_root_of fuel p K m = Some m' /\ pushed (S k) m1 m'.
Proof.
  intros Hk Hfuel K Hu Hr Hs Hp0. assert (slot K) as Hsl by (unfold K, slot, MAX_PROC_WINDOWS; lia).
  destruct (sy_win _ _ _ Hs K Hsl Hu) as (Ed & _ & _ & _ & Epar & Hlk). rewrite Hr in Epar. specialize (Hlk Hr) as [Hn _].
  pose proof Hp0 as [S1 S2 S3 S4 S5 S6 S7 S8 S9].
  assert (holds (windows m)) as Hh.
  { destruct (synced_holds m1 Hs) as [H1 H2]. split.
    - intros i Hi Hui. destruct (S5 (gw i)) as (_ & _ & _ & ->). auto.
    - intros f Hf Hc. unfold children. destruct (S5 (gw f)) as (-> & _). apply (stack_at_ext (windows m1)); [|by apply H2].
      intros w (j & -> & Hj & _ & Hju & Epj)%kids_slot; [|lia]. apply S6, not_pushed; [done|done|lia|].
      right. unfold is_root, slot in *. lia. }
  unfold Gui.update_root_of. fold (gw K). destruct (Z.eqb_spec (gw K) 0) as [E|_]; [by apply gw_pos in E|].
  destruct (S5 (gw K)) as (-> & _ & -> & _). rewrite Ed, Epar. cbn [winclass shown Z.eqb].
  pose proof Hu as Hc. unfold used in Hc. apply negb_true_iff in Hc. rewrite Hc.
  destruct (update_root_ok 16 fuel K (gw K) (windows m) Hh Hsl Hu) as (h & -> & Hh'); [unfold K; lia|done|].
  cbn [mbind option_bind]. destruct (rooted_step k m1 m h Hk Hu Hr Hh' Hp0) as (T1 & T2 & T3 & T4).
  assert (forall q, windata (h q) = windata (windows m1 q) /\ pid (h q) = pid (windows m1 q) /\
    parent (h q) = parent (windows m1 q) /\ kind (h q) = kind (windows m1 q)) as T5.
  { intros q. destruct (rooted_fields _ _ _ _ q Hh') as (-> & -> & _ & _ & -> & ->). apply S5. }
  assert (forall q, q ∉ map gw (roots_below k) ++ ws -> next (h q) = next (windows m1 q) /\ prev (h q) = prev (windows m1 q)) as T6.
  { intros q Hq. destruct (rooted_fields _ _ _ _ q Hh') as (_ & _ & -> & -> & _). by apply S6. }
  assert (gw K ∉ map gw (roots_below k) ++ ws) as Hnot by (apply not_pushed; [done|done|lia|left; unfold K; lia]).
  destruct (T6 _ Hnot) as [-> _]. rewrite Hn. cbn [Z.eqb]. rewrite andb_true_r.
  destruct (K + Z.shiftl p 4 =? 0) eqn:Eg; cbn [negb].
  - eexists. split; [reflexivity|].
    assert (roots_below (S k) = roots_below k) as Er by (cbn [roots_below]; fold K; by rewrite Eg, andb_false_r).
    split; rewrite ?Er; try done.
  - assert (roots_below (S k) = K :: roots_below k) as Er by (cbn [roots_below]; fold K; by rewrite Hu, Hr, Eg).
    assert (wm_root (h (gw K)) = gw K) as ->.
    { rewrite T2, root_self by done. destruct (Z.ltb_spec K (Z.of_nat (S k))); [done|unfold K in *; lia]. }
    pose proof (stack_push_front h (winstack m) _ (gw K) T1 (gw_pos K Hsl) Hnot) as Hpush.
    destruct (stack_push (winstack m) (gw K) h) as [top h']. destruct Hpush as [P1 [P2 P3]].
    eexists. split; [reflexivity|]. split; rewrite ?Er; cbn [map app windows set_windows winstack]; try done.
    + intros q. destruct (P2 q) as (-> & -> & -> & _ & ->). apply T5.
    + intros q Hq. rewrite P3 by done. apply T6. rewrite elem_of_cons in Hq. tauto.
    + intros i Hi Hui. destruct (P2 (gw i)) as (_ & _ & _ & -> & _). by apply T2.
    + intros i Hi Hui. destruct (P2 (gw i)) as (_ & _ & _ & -> & _). by apply T3.
    + intros q Hq. destruct (P2 q) as (_ & _ & _ & -> & _). by apply T4.
Qed.

(** The desktop gets itself as root. *)
Lemma idle_step fuel k m1 m : (k < 16)%nat -> (0 < fuel)%nat -> let K := Z.of_nat k in
  used K = false -> synced 16 m0 m1 -> pushed k m1 m ->
  exists m', update_root_of fuel p K m = Some m' /\ pushed (S k) m1 m'.
Proof.
  intros Hk Hfuel K Hu Hs Hp0. assert (slot K) as Hsl by (unfold K, slot, MAX_PROC_WINDOWS; lia).
  assert (forall i, slot i -> used i = true -> root i <> K) as Hnr.
  { intros i Hi Hui E. destruct (root_of i Hi Hui) as (_ & Hu' & _). rewrite E in Hu'. congruence. }
  assert (windows m1 (gw K) = windows m0 (gw K)) as E1.
  { apply (sy_other _ _ _ Hs). intros i Hi Hui E. apply gw_inj in E; [congruence|done|unfold slot, MAX_PROC_WINDOWS in *; lia]. }
  unfold Gui.update_root_of. fold (gw K). destruct (Z.eqb_spec (gw K) 0) as [E|_]; [by apply gw_pos in E|].
  destruct (pu_win _ _ _ Hp0 (gw K)) as (Ew & _ & Epar & Ekind). rewrite Ew, Epar, E1.
  case_bool_decide as Hc.
  { exists m. split; [done|]. apply pushed_skip; try done. intros _. fold K. by rewrite E1. }
  destruct (Hidle K Hsl Hu) as [|(Eg & -> & Hkd)]; [done|]. cbn [Z.eqb]. destruct fuel as [|fuel]; [lia|]. cbn [update_root].
  rewrite hmod_eq. cbn [kind set_root]. rewrite Ekind, E1.
  assert (forall (x y : option heap), (match kind (windows m0 (gw K)) with GUIFrame => x | _ => y end) = y) as ->
    by (intros; by destruct (kind (windows m0 (gw K)))).
  cbn [mbind option_bind]. rewrite Eg. cbn [Z.eqb negb andb]. eexists. split; [reflexivity|].
  pose proof (rooted_one (windows m) K (gw K)) as Hr. pose proof Hp0 as [S1 S2 S3 S4 S5 S6 S7 S8 S9].
  assert (roots_below (S k) = roots_below k) as Er by (cbn [roots_below]; fold K; by rewrite Hu).
  split; rewrite ?Er; cbn [windows set_windows winstack]; try done.
  - apply (stack_at_ext (windows m)); [|done]. intros w _. by destruct (rooted_fields _ _ _ _ w Hr) as (_ & _ & -> & -> & _).
  - intros q. destruct (rooted_fields _ _ _ _ q Hr) as (-> & -> & _ & _ & -> & ->). apply S5.
  - intros q Hq. destruct (rooted_fields _ _ _ _ q Hr) as (_ & _ & -> & -> & _). by apply S6.
  - intros i Hi Hui. rewrite hmod_ne by (intros E; apply gw_inj in E; congruence). rewrite S7 by done.
    specialize (Hnr i Hi Hui). destruct (Z.ltb_spec (root i) (Z.of_nat k)), (Z.ltb_spec (root i) (Z.of_nat (S k))); lia || done.
  - intros i Hi Hui. destruct (decide (i = K)) as [->|].
    + rewrite hmod_eq, E1. cbn [wm_root set_root]. rewrite bool_decide_eq_false_2 by done.
      destruct (Z.ltb_spec K (Z.of_nat (S k))); [done|lia].
    + rewrite hmod_ne by (intros E; by apply gw_inj in E). rewrite S8 by done.
      by destruct (Z.ltb_spec i (Z.of_nat k)), (Z.ltb_spec i (Z.of_nat (S k))); try lia.
  - intros q Hq. rewrite hmod_ne by (by apply Hq). by apply S9.
Qed.

Lemma update_roots_ok fuel n k m1 m : (k + n = 16)%nat -> (16 < fuel)%nat -> synced 16 m0 m1 -> pushed k m1 m ->
  exists m', for_each n (Z.of_nat k) (update_root_of fuel p) m = Some m' /\ pushed 16 m1 m'.
Proof.
  revert k m. induction n as [|n IH]; intros k m Hkn Hf Hs Hpu; cbn [for_each].
  { replace k with 16%nat in Hpu by lia. by exists m. }
  assert (exists m', update_root_of fuel p (Z.of_nat k) m = Some m' /\ pushed (S k) m1 m') as (m' & -> & Hp').
  { destruct (used (Z.of_nat k)) eqn:Eu; [|apply idle_step; done || lia].
    destruct (is_root (Z.of_nat k)) eqn:Er; [apply new_root_step; done || lia|].
    assert (slot (Z.of_nat k)) as Hsl by (unfold slot, MAX_PROC_WINDOWS; lia).
    exists m. split.
    - unfold Gui.update_root_of. fold (gw (Z.of_nat k)). destruct (Z.eqb_spec (gw (Z.of_nat k)) 0) as [E|_]; [by apply gw_pos in E|].
      destruct (pu_win _ _ _ Hpu (gw (Z.of_nat k))) as (-> & _ & -> & _).
      destruct (sy_win _ _ _ Hs (Z.of_nat k) Hsl Eu) as (-> & _ & _ & _ & -> & _). rewrite Er. cbn [winclass shown].
      case_bool_decide; [done|]. destruct (parent_slot Htree _ Hsl Eu Er) as (_ & Hps & _).
      destruct (Z.eqb_spec (gw (parent_id (u (Z.of_nat k)))) 0) as [E|_]; [by apply gw_pos in E|done].
    - apply pushed_skip; [|lia|congruence|done]. intros i Hi Hui E. destruct (root_of i Hi Hui) as (_ & _ & Hr). rewrite E in Hr. congruence. }
  cbn [mbind option_bind]. replace (Z.of_nat k + 1) with (Z.of_nat (S k)) by lia. apply IH; done || lia.
Qed.
End update.

(** ** Both loops *)

(** What the process's windows are once [gui_update_proc] has returned: the window
    manager was [m], with the windows [ws] on its stack, and is [m']. *)
Record displayed (m : WindowManager) (ws : list Z) (m' : WindowManager) : Prop := {
  di_stack : stack_at (windows m') (winstack m') (map gw roots ++ ws);
  di_win : forall i, slot i -> used i = true -> let w := windows m' (gw i) in
    windata w = shown i (if bool_decide (winclass (u i) = WINDOW_FRAME) then children (windows m') (gw i) else data i) /\
    pid w = p /\ kind w = kind_of i /\ wm_root w = gw (root i) /\
    parent w = (if is_root i then 0 else gw (parent_id (u i)));
  di_kids : forall f, slot f -> winclass (u f) = WINDOW_FRAME ->
    stack_at (windows m') (children (windows m') (gw f)) (map gw (kids f));
  di_other : forall q, (forall i, slot i -> used i = true -> q <> gw i) ->
    windata (windows m' q) = windata (windows m q) /\ pid (windows m' q) = pid (windows m q) /\
    parent (windows m' q) = parent (windows m q) /\ kind (windows m' q) = kind (windows m q) /\
    (q ∉ ws -> next (windows m' q) = next (windows m q) /\ prev (windows m' q) = prev (windows m q)) /\
    ((forall i, slot i -> q <> gw i) -> wm_root (windows m' q) = wm_root (windows m q));
  di_idle : forall i, slot i -> used i = false -> wm_root (windows m' (gw i)) =
    if bool_decide (winclass (windata (windows m (gw i))) = NONE) then wm_root (windows m (gw i)) else gw i;
  di_user : forall q i, user_windows m' q i =
    if (q =? p) && (0 <=? i) && (i <? MAX_PROC_WINDOWS) && used i then with_flags (u i) false (needs_redraw (u i))
    else user_windows m q i;
  di_rest : desktop m' = desktop m /\ drag_window m' = drag_window m
}.

(** Before: no window of the process is there yet, the desktop apart. *)
Record undisplayed (m : WindowManager) (ws : list Z) : Prop := {
  un_new : forall i, slot i -> used i = true -> winclass (windata (windows m (gw i))) = NONE /\ gw i ∉ ws;
  un_idle : forall i, slot i -> used i = false -> winclass (windata (windows m (gw i))) = NONE \/
    i + Z.shiftl p 4 = 0 /\ parent (windows m (gw i)) = 0 /\ kind (windows m (gw i)) <> GUIFrame
}.

Lemma gui_update_proc_ok fuel m ws :
  0 < win_index -> 0 < sizeof_GUIWindow -> 0 <= p < 16 -> (16 < fuel)%nat -> tree -> (forall i, user_windows m p i = u i) ->
  stack_at (windows m) (winstack m) ws -> undisplayed m ws ->
  exists m', gui_update_proc win_index sizeof_GUIWindow proc_env proc_userEnv fuel p m = Some m' /\ displayed m ws m'.
Proof.
  intros Hwin Hsize Hp Hfuel Htree Hu Hst [Hun Hidle].
  assert (forall i, slot i -> used i = true -> winclass (windata (windows m (gw i))) = NONE) as Hnew by (intros; by apply Hun).
  assert (forall i, slot i -> used i = true -> gw i ∉ ws) as Hws by (intros; by apply Hun).
  unfold gui_update_proc. destruct fuel as [|fuel]; [lia|]. change (Z.to_nat MAX_PROC_WINDOWS) with 16%nat.
  destruct (update_windows_ok Hwin Hsize Hp Htree m Hu Hnew fuel 16 0 m eq_refl (synced_0 m)) as (m1 & E1 & H1).
  change (Z.of_nat 0) with 0 in E1. rewrite E1. cbn [mbind option_bind].
  destruct (update_roots_ok Hwin Hsize Hp Htree m ws Hws Hidle (S fuel) 16 0 m1 m1 eq_refl Hfuel H1) as (m2 & E2 & H2);
    [by apply (pushed_0 Htree m ws Hws)|].
  change (Z.of_nat 0) with 0 in E2. exists m2. split; [exact E2|]. destruct H2 as [P1 P2 P3 P4 P5 P6 P7 P8 P9].
  assert (forall i, slot i -> used i = false -> forall j, slot j -> used j = true -> gw i <> gw j) as Hne.
  { intros i Hi Hui j Hj Huj E. apply gw_inj in E; try done. congruence. }
  split.
  - exact P4.
  - intros i Hi Hui. cbv zeta. destruct (P5 (gw i)) as (-> & -> & -> & ->). unfold children. destruct (P5 (gw i)) as (-> & _).
    destruct (sy_win _ _ _ H1 i Hi Hui) as (W1 & W2 & W3 & _ & W5 & _). split_and!; try done.
    rewrite P7 by done. destruct (root_of Htree i Hi Hui) as (Hr & _). unfold slot, MAX_PROC_WINDOWS in Hr.
    destruct (Z.ltb_spec (root i) (Z.of_nat 16)); [done|lia].
  - intros f Hf Hc. unfold children. destruct (P5 (gw f)) as (-> & _). apply (stack_at_ext (windows m1)).
    + intros w (j & -> & Hj & _ & Hju & Epj)%kids_slot; [|done]. apply P6, not_pushed; try done. right. unfold is_root, slot in *. lia.
    + by apply (sy_kids _ _ _ H1).
  - intros q Hq. assert (windows m1 q = windows m q) as E by (apply (sy_other _ _ _ H1); intros i Hi; by apply Hq).
    destruct (P5 q) as (-> & -> & -> & ->). rewrite E. split_and!; try done.
    + intros Hqw. rewrite <- E. apply P6. intros [(j & -> & (H3 & H4 & _)%elem_of_roots_below)%list_elem_of_fmap|]%elem_of_app; [|done].
      by apply (Hq j).
    + intros Ho. rewrite <- E. by apply P9.
  - intros i Hi Hui. rewrite P8 by done. assert (windows m1 (gw i) = windows m (gw i)) as ->.
    { apply (sy_other _ _ _ H1). intros j Hj Huj. by apply Hne. }
    destruct (Z.ltb_spec i (Z.of_nat 16)); [|unfold slot, MAX_PROC_WINDOWS in Hi; lia]. by case_bool_decide.
  - intros q i. rewrite P3. apply (sy_user _ _ _ H1).
  - rewrite P1, P2, (sy_desktop _ _ _ H1), (sy_drag _ _ _ H1). done.
Qed.
End windows.

(** C7: The windows a process describes are the ones on the screen.  For a
    process none of whose windows is displayed yet, whose slots name frames of
    smaller slots as parents, [gui_update_proc] returns (fuel 17 covers the
    hierarchies of 16 slots), and then
    - the roots are on top of the stack, the one of the last slot first, above the
      windows that were there;
    - every window has the class, number and z-index of its slot, the process as
      owner, its root, its parent, and the rectangle of its slot moved by those of
      all its ancestors; the text of a text box is where the kernel sees it;
    - the children of a frame are the slots that name it, in the order of their
      z-indices, a later slot below an earlier one of the same z-index, linked in
      both directions;
    - the windows of other processes keep all but the links of the stack, and no
      slot of the process needs an update. *)
Theorem gui_update_proc_spec win_index sizeof_GUIWindow proc_env proc_userEnv fuel p m ws :
  let u := user_windows m p in
  0 < win_index -> 0 < sizeof_GUIWindow -> 0 <= p < 16 -> (16 < fuel)%nat -> tree u ->
  stack_at (windows m) (winstack m) ws -> undisplayed p u win_index sizeof_GUIWindow m ws ->
  exists m', gui_update_proc win_index sizeof_GUIWindow proc_env proc_userEnv fuel p m = Some m' /\
    displayed p u win_index sizeof_GUIWindow proc_env proc_userEnv m ws m' /\
    forall f, slot f -> winclass (u f) = WINDOW_FRAME ->
      StronglySorted (by_z u) (kids u f) /\ forall j, j ∈ kids u f <-> slot j /\ used u j = true /\ parent_id (u j) = f.
Proof.
  intros u Hwin Hsize Hp Hfuel Htree Hst Hun.
  destruct (gui_update_proc_ok p u win_index sizeof_GUIWindow proc_env proc_userEnv fuel m ws) as (m' & E & Hd); try done.
  exists m'. split; [done|]. split; [done|]. intros f _ _. split; [apply kids_sorted|]. intros j. apply elem_of_kids.
Qed.

(** A frame at 10, 20 with a window of z-index 0 and a text box of z-index 2, over
    a desktop. *)
Definition three_slots (i : Z) : Window :=
  let slot cls r z par data := {| winclass := cls; rect := r; redraw_rect := no_rect; display_data := data; zindex := z; id := i;
    parent_id := par; needs_update := true; needs_redraw := true |} in
  if i =? 0 then slot WINDOW_FRAME {| rl := 10; rt := 20; rr := 100; rb := 90 |} 0 (-1) 0
  else if i =? 1 then slot WINDOW {| rl := 0; rt := 0; rr := 80; rb := 60 |} 0 0 5
  else if i =? 2 then slot TEXT_BOX {| rl := 5; rt := 5; rr := 70; rb := 50 |} 2 0 0x8040
  else empty_Window.

Definition desktop_manager : WindowManager :=
  {| windows := fun q => new_GUIWindow GUIDesktop empty_Window; winstack := 0x10000; desktop := 0x10000; drag_window := 0;
     user_windows := fun p i => if p =? 1 then three_slots i else empty_Window |}.

Lemma three_slots_used i : used three_slots i = true -> i = 0 \/ i = 1 \/ i = 2.
Proof. unfold used, three_slots. repeat case_match; try lia. done. Qed.

Lemma gui_update_proc_spec_witness :
  exists m', gui_update_proc 0x10000 100 (fun _ => 0x9000) (fun _ => 0x8000) 17 1 desktop_manager = Some m' /\
    let gw i := 0x10000 + 100 * (16 + i) in
    stack_at (windows m') (winstack m') [gw 0; 0x10000] /\
    stack_at (windows m') (children (windows m') (gw 0)) [gw 2; gw 1] /\
    rect (windata (windows m' (gw 2))) = {| rl := 15; rt := 25; rr := 80; rb := 70 |} /\
    display_data (windata (windows m' (gw 2))) = 0x9040 /\ wm_root (windows m' (gw 2)) = gw 0.
Proof.
  destruct (gui_update_proc_spec 0x10000 100 (fun _ => 0x9000) (fun _ => 0x8000) 17 1 desktop_manager [0x10000])
    as (m' & E & Hd & _); [lia|lia|lia|lia| | | |].
  - split.
    + intros i _ [->|[->| ->]]%three_slots_used; done.
    + intros i _ [->|[->| ->]]%three_slots_used; [by left|by right..].
    + intros i _ Hc. change (user_windows _ 1) with three_slots in Hc |- *.
      assert (used three_slots i = true) as [->|[->| ->]]%three_slots_used by (unfold used; by rewrite Hc); done.
  - split; [done|]. apply NoDup_singleton.
  - split; [|by left]. intros i _ Hu. split; [done|]. apply three_slots_used in Hu.
    intros Hin%list_elem_of_singleton. destruct Hu as [->|[->| ->]]; discriminate.
  - exists m'. split; [exact E|]. pose proof (di_win _ _ _ _ _ _ _ _ _ Hd 2 ltac:(unfold slot, MAX_PROC_WINDOWS; lia) eq_refl) as (W & _ & _ & Wr & _).
    split; [exact (di_stack _ _ _ _ _ _ _ _ _ Hd)|].
    split; [exact (di_kids _ _ _ _ _ _ _ _ _ Hd 0 ltac:(unfold slot, MAX_PROC_WINDOWS; lia) eq_refl)|].
    cbv zeta. change (0x10000 + 100 * (16 + 2)) with (gw 1 0x10000 100 2). rewrite W, Wr. split_and!; vm_compute; reflexivity.
Defined.
