(* ===== verification/Events.v ===== *)
(** * The kernel's event system: [system/events.cpp], [system/include/events.h]

    Three workers share a kernel thread: user events, callbacks, drawing.  Each
    drains its [SharedQueue]; the queues, the window stack, the pick buffer and
    the processes are those of the other files.  A worker runs here without
    interruption (interleavings with the producers are in [Queue]). *)
From S2P Require Import Prelude BitOps BitAlloc Queue Shapes Vga Memory Process Ata Ps2 Objects Gui.

Definition MAX_EVENTS : Z := 16.
Definition MAX_SUBSCRIPTIONS : Z := 64.

(** A slot of the display queue, [None] when its event is 0. *)
#[export, refine]
Instance DisplayMsg_Slot : Slot (option DisplayMsg) := {
  slot_mark := fun m => match m with
    | None => 0
    | Some REDRAW_SCREEN => 1
    | Some REDRAW_MOUSE => 2
    | Some (REDRAW_WINDOW _) => 3
    | Some (REDRAW_RECT _) => 4
    end;
  slot_clear := fun _ => None
}.
Proof. done. Defined.

(** A node of a subscriber list; the process by its index. *)
Record SubscriberNode := { sub_next : Z; sub_proc : Z }.

Record MousePointer := {
  bg_x : Z; bg_y : Z;
  pointer_image : Z -> Z -> Z;
  background : Z -> Z -> Z
}.

Record World := {
  kern : kernel;
  winmgr : WindowManager;
  display : Screen;
  mousePointer : MousePointer;
  mouse_state : MouseState;
  w_user : SharedQueue Message;
  w_callback : SharedQueue Message;
  w_display : SharedQueue (option DisplayMsg);
  sub_pool : PoolAllocator;
  seed : Z;
  sub_nodes : Z -> SubscriberNode;
  event_subs : Z -> Z;
  deadline : Z
}.

Definition with_kern (w : World) (k : kernel) : World :=
  {| kern := k; winmgr := winmgr w; display := display w; mousePointer := mousePointer w; mouse_state := mouse_state w;
     w_user := w_user w; w_callback := w_callback w; w_display := w_display w; sub_pool := sub_pool w; seed := seed w;
     sub_nodes := sub_nodes w; event_subs := event_subs w; deadline := deadline w |}.
Definition with_winmgr (w : World) (m : WindowManager) : World :=
  {| kern := kern w; winmgr := m; display := display w; mousePointer := mousePointer w; mouse_state := mouse_state w;
     w_user := w_user w; w_callback := w_callback w; w_display := w_display w; sub_pool := sub_pool w; seed := seed w;
     sub_nodes := sub_nodes w; event_subs := event_subs w; deadline := deadline w |}.
Definition with_display (w : World) (s : Screen) (p : MousePointer) : World :=
  {| kern := kern w; winmgr := winmgr w; display := s; mousePointer := p; mouse_state := mouse_state w;
     w_user := w_user w; w_callback := w_callback w; w_display := w_display w; sub_pool := sub_pool w; seed := seed w;
     sub_nodes := sub_nodes w; event_subs := event_subs w; deadline := deadline w |}.
Definition with_mouse (w : World) (m : MouseState) : World :=
  {| kern := kern w; winmgr := winmgr w; display := display w; mousePointer := mousePointer w; mouse_state := m;
     w_user := w_user w; w_callback := w_callback w; w_display := w_display w; sub_pool := sub_pool w; seed := seed w;
     sub_nodes := sub_nodes w; event_subs := event_subs w; deadline := deadline w |}.
Definition with_queues (w : World) (u c : SharedQueue Message) (d : SharedQueue (option DisplayMsg)) : World :=
  {| kern := kern w; winmgr := winmgr w; display := display w; mousePointer := mousePointer w; mouse_state := mouse_state w;
     w_user := u; w_callback := c; w_display := d; sub_pool := sub_pool w; seed := seed w;
     sub_nodes := sub_nodes w; event_subs := event_subs w; deadline := deadline w |}.
Definition with_subs (w : World) (p : PoolAllocator) (sd : Z) (n : Z -> SubscriberNode) (s : Z -> Z) : World :=
  {| kern := kern w; winmgr := winmgr w; display := display w; mousePointer := mousePointer w; mouse_state := mouse_state w;
     w_user := w_user w; w_callback := w_callback w; w_display := w_display w; sub_pool := p; seed := sd;
     sub_nodes := n; event_subs := s; deadline := deadline w |}.
Definition with_deadline (w : World) (t : Z) : World :=
  {| kern := kern w; winmgr := winmgr w; display := display w; mousePointer := mousePointer w; mouse_state := mouse_state w;
     w_user := w_user w; w_callback := w_callback w; w_display := w_display w; sub_pool := sub_pool w; seed := seed w;
     sub_nodes := sub_nodes w; event_subs := event_subs w; deadline := t |}.

Section events.
Context (VGA_WIDTH VGA_HEIGHT : Z) (ASCII_MAP : Z -> Z) (win_index sizeof_GUIWindow : Z).
Context (text_buffer : World -> Z -> Buffer) (image : World -> Z -> Z -> Z).
(** The function a callback message points to, and the time stamp counter. *)
Context (callback : Z -> Z -> World -> option World) (rdtsc : World -> Z).
Implicit Types (w : World).

(** [( *procs[0].msg_signal) += d] *)
Definition signal_kernel (d : Z) w : World :=
  with_kern w (write_signal (kern w) 0 MSG_MONITOR (s32 (signal (monitors (procs (kern w) 0) MSG_MONITOR) + d))).

Definition enqueue_user_event (msg_id data : Z) w : option World :=
  '(_, q) ← sq_enqueue (w_user w) {| Queue.msg_id := msg_id; msg_data := data |};
  Some (signal_kernel 1 (with_queues w q (w_callback w) (w_display w))).

Definition new_callback_event (handler data : Z) w : option World :=
  '(_, q) ← sq_enqueue (w_callback w) {| Queue.msg_id := handler; msg_data := data |};
  Some (signal_kernel 1 (with_queues w (w_user w) q (w_display w))).

Definition new_display_msg (msg : DisplayMsg) w : option World :=
  '(_, q) ← sq_enqueue (w_display w) (Some msg);
  Some (signal_kernel 1 (with_queues w (w_user w) (w_callback w) q)).

(** ** Subscriptions *)

Definition sub_proc_event (proc event : Z) w : option (Z * World) :=
  '(node, sd, pool) ← pool_alloc (seed w) (sub_pool w);
  if node =? 0 then Some (-1, with_subs w pool sd (sub_nodes w) (event_subs w)) else
  if (event <? 0) || (UserEvents_MAX <=? event) then None else
  Some (0, with_subs w pool sd
             (upd (sub_nodes w) node {| sub_next := event_subs w event; sub_proc := proc |})
             (upd (event_subs w) event node)).

(** [SubscriberList::notify(msg)]: every subscriber. *)
Fixpoint notify_loop (n : nat) (nodes : Z -> SubscriberNode) (sub : Z) (msg : Message) (k : kernel) : option kernel :=
  match n with
  | O => Some k
  | S n =>
      if sub =? 0 then Some k else
      k ← send_msg (sub_proc (nodes sub)) msg k;
      notify_loop n nodes (sub_next (nodes sub)) msg k
  end.

Definition notify_all (head : Z) (msg : Message) w : option World :=
  if head =? 0 then Some w else
  if UserEvents_MAX <=? u32 (msg_id msg) then Some w else
  k ← notify_loop (Z.to_nat MAX_PROCS) (sub_nodes w) head msg (kern w); Some (with_kern w k).

(** [SubscriberList::notify(target, msg)]: [target] alone, if it subscribes. *)
Fixpoint notify_target_loop (n : nat) (nodes : Z -> SubscriberNode) (target sub : Z) (msg : Message) (k : kernel)
    : option kernel :=
  match n with
  | O => Some k
  | S n =>
      if sub =? 0 then Some k else
      if target =? sub_proc (nodes sub) then send_msg (sub_proc (nodes sub)) msg k
      else notify_target_loop n nodes target (sub_next (nodes sub)) msg k
  end.

Definition notify_target (head target : Z) (msg : Message) w : option World :=
  if head =? 0 then Some w else
  if UserEvents_MAX <=? u32 (msg_id msg) then Some w else
  k ← notify_target_loop (Z.to_nat MAX_PROCS) (sub_nodes w) target head msg (kern w); Some (with_kern w k).

(** ** The worker of user events *)

(** The rectangles to redraw after a drag. *)
Fixpoint redraw_rects (rects : list Rect) w : option World :=
  match rects with
  | [] => Some w
  | r :: rects =>
      if (rl r =? rr r) || (rt r =? rb r) then redraw_rects rects w
      else w ← new_display_msg (REDRAW_RECT r) w; redraw_rects rects w
  end.

Definition on_mouse_move (fuel : nat) w : option World :=
  let m := mouse_state w in
  let dx := mx m - old_x m in
  let dy := my m - old_y m in
  let w := with_mouse w {| mx := mx m; my := my m; old_x := mx m; old_y := my m; lclick_x := lclick_x m;
                           lclick_y := lclick_y m; lbutton := lbutton m; ldrag := ldrag m |} in
  if (dx =? 0) && (dy =? 0) then Some w else
  let drag := drag_window (winmgr w) in
  w ← (if ldrag m && negb (drag =? 0) && negb (drag =? desktop (winmgr w)) then
         let old := rect (windata (windows (winmgr w) drag)) in
         h ← win_move fuel dx dy drag (windows (winmgr w));
         let w := with_winmgr w (set_windows (winmgr w) h (winstack (winmgr w))) in
         redraw_rects (rect_union old (rect (windata (h drag)))) w
       else Some w);
  new_display_msg REDRAW_MOUSE w.

Definition on_left_down (data : Z) w : option World :=
  let e := int_MouseEvent data in
  let win_id := pick_buffer (display w) (VGA_PIXEL_OFFSET VGA_WIDTH (ev_x e) (ev_y e)) in
  let gw := getGUIWindow win_index sizeof_GUIWindow win_id in
  if negb (gw =? 0) && negb (win_id =? 0) then
    let root := wm_root (windows (winmgr w) gw) in
    let w := with_winmgr w (set_drag (winmgr w) root) in
    if negb (root =? winstack (winmgr w)) then
      let '(top, h) := stack_detach (winstack (winmgr w)) root (windows (winmgr w)) in
      let '(top, h) := stack_push top root h in
      new_display_msg (REDRAW_WINDOW root) (with_winmgr w (set_windows (winmgr w) h top))
    else Some w
  else Some (with_winmgr w (set_drag (winmgr w) 0)).

Definition on_user_event (fuel : nat) (msg : Message) w : option World :=
  w ← (if msg_id msg =? event_id MOUSE_MOVE then on_mouse_move fuel w
       else if msg_id msg =? event_id MOUSE_LEFT_DOWN then on_left_down (msg_data msg) w
       else if msg_id msg =? event_id MOUSE_LEFT_UP then Some (with_winmgr w (set_drag (winmgr w) 0))
       else Some w);
  let topwin := winstack (winmgr w) in
  if negb (topwin =? 0) && negb (Gui.pid (windows (winmgr w) topwin) =? 0) then
    if (msg_id msg <? 0) || (UserEvents_MAX <=? msg_id msg) then None else
    notify_target (event_subs w (msg_id msg)) (Gui.pid (windows (winmgr w) topwin)) msg w
  else Some w.

(** The end of a worker's round: release, collect, lower the signal. *)
Definition finish {T} `{Slot T} (q : SharedQueue T) (qr : QueueRange) : option (SharedQueue T) :=
  q ← sq_release q qr;
  '(_, q) ← garbage_collect q; Some q.

Definition user_run (fuel : nat) w : option World :=
  '(_, q) ← gather_new_data (w_user w);
  let w := with_queues w q (w_callback w) (w_display w) in
  if sq_size q <=? 0 then Some w else
  let '(qr, q) := sq_dequeue q 10 in
  let w := with_queues w q (w_callback w) (w_display w) in
  w ← for_each (Z.to_nat (qr_tail qr - qr_head qr)) (qr_head qr)
        (fun i w => msg ← sq_get (w_user w) i; on_user_event fuel msg w) w;
  q ← finish (w_user w) qr;
  Some (signal_kernel (- (qr_tail qr - qr_head qr)) (with_queues w q (w_callback w) (w_display w))).

Definition callback_run w : option World :=
  '(_, q) ← gather_new_data (w_callback w);
  let w := with_queues w (w_user w) q (w_display w) in
  if sq_size q <=? 0 then Some w else
  let '(qr, q) := sq_dequeue q 10 in
  let w := with_queues w (w_user w) q (w_display w) in
  w ← for_each (Z.to_nat (qr_tail qr - qr_head qr)) (qr_head qr)
        (fun i w => msg ← sq_get (w_callback w) i; callback (msg_id msg) (msg_data msg) w) w;
  q ← finish (w_callback w) qr;
  Some (signal_kernel (- (qr_tail qr - qr_head qr)) (with_queues w (w_user w) q (w_display w))).

(** ** The worker of the display *)

Definition redraw (fuel : nat) (clip : Rect) (top : Z) w : option World :=
  s ← gui_redraw_rect VGA_WIDTH VGA_HEIGHT ASCII_MAP (text_buffer w) (image w) fuel (windows (winmgr w)) clip top (display w);
  Some (with_display w s (mousePointer w)).

Definition on_display_msg (fuel : nat) (msg : option DisplayMsg) w : option World :=
  let desktop_rect := rect (windata (windows (winmgr w) (desktop (winmgr w)))) in
  match msg with
  | Some REDRAW_SCREEN => redraw fuel desktop_rect (winstack (winmgr w)) w
  | Some (REDRAW_WINDOW win) =>
      if negb (win =? 0) then
        let '(ok, clip) := rect_intersect (rect (windata (windows (winmgr w) win))) desktop_rect in
        if ok then redraw fuel clip win w else Some w
      else Some w
  | Some (REDRAW_RECT r) =>
      let '(ok, clip) := rect_intersect r desktop_rect in
      if ok then redraw fuel clip (winstack (winmgr w)) w else Some w
  | _ => Some w
  end.

Definition display_run (fuel : nat) w : option World :=
  let tsc := rdtsc w in
  if tsc <? deadline w then Some w else
  let w := with_deadline w ((tsc + 0x4000000) mod 18446744073709551616) in
  '(_, q) ← gather_new_data (w_display w);
  let w := with_queues w (w_user w) (w_callback w) q in
  if sq_size q <=? 0 then Some w else
  let p := mousePointer w in
  let s := with_pixels (display w)
    (put_pixels VGA_WIDTH (bg_x p) (bg_y p) POINTER_WIDTH POINTER_HEIGHT (background p) (pixels (display w))) in
  let w := with_display w s p in
  let '(qr, q) := sq_dequeue q 10 in
  let w := with_queues w (w_user w) (w_callback w) q in
  w ← for_each (Z.to_nat (qr_tail qr - qr_head qr)) (qr_head qr)
        (fun i w => msg ← sq_get (w_display w) i; on_display_msg fuel msg w) w;
  q ← finish (w_display w) qr;
  let w := signal_kernel (- (qr_tail qr - qr_head qr)) (with_queues w (w_user w) (w_callback w) q) in
  let m := mouse_state w in
  let bg := get_pixels VGA_WIDTH (mx m) (my m) POINTER_WIDTH POINTER_HEIGHT (pixels (display w)) (background (mousePointer w)) in
  let p := {| bg_x := u32 (mx m); bg_y := u32 (my m); pointer_image := pointer_image (mousePointer w); background := bg |} in
  let s := with_pixels (display w)
    (put_pixels VGA_WIDTH (mx m) (my m) POINTER_WIDTH POINTER_HEIGHT (pointer_image p) (pixels (display w))) in
  Some (with_display w s p).

(** One round of [enter_event_loop], between the monitor and the yield. *)
Definition event_round (fuel : nat) w : option World :=
  w ← user_run fuel w; w ← callback_run w; display_run fuel w.
End events.

(** ** A click raises the window under the pointer *)

Section raise.
Implicit Types (h : heap) (ws : list Z).

(** [detach] then [push]: the window moves to the top, the others keep their order. *)
Lemma detach_push h top ws root :
  stack_at h top ws -> root ∈ ws ->
  let '(top1, h1) := stack_detach top root h in
  let '(top2, h2) := stack_push top1 root h1 in
  top2 = root /\ stack_at h2 root (root :: without root ws) /\ forall q, windata (h2 q) = windata (h q).
Proof.
  intros Hs Hin. pose proof Hs as [_ Hnd].
  assert (root <> 0) as H0 by (intros ->; by apply (seg_nonzero _ _ _ _ _ (proj1 Hs))).
  apply list_elem_of_split in Hin as (ws1 & ws2 & ->). rewrite without_middle by done.
  pose proof (stack_detach_removes h top ws1 root ws2 Hs) as Hd.
  destruct (stack_detach top root h) as [top1 h1]. destruct Hd as (Hs1 & _ & _ & [Hk1 _]).
  assert (root ∉ ws1 ++ ws2) as Hn.
  { apply NoDup_app in Hnd as (_ & Hd & [Hn2 _]%NoDup_cons). intros [Hx|Hx]%elem_of_app; [|done].
    apply (Hd root Hx). by left. }
  pose proof (stack_push_front h1 top1 (ws1 ++ ws2) root Hs1 H0 Hn) as Hp.
  destruct (stack_push top1 root h1) as [top2 h2] eqn:E. destruct Hp as [Hs2 [Hk2 _]].
  assert (top2 = root) as -> by (destruct Hs2 as [[E2 _] _]; exact E2).
  split; [done|]. split; [done|]. intros q. destruct (Hk2 q) as [-> _]. by destruct (Hk1 q) as [-> _].
Qed.

Lemma top_first h top ws : stack_at h top ws -> top ∈ ws -> top :: without top ws = ws.
Proof.
  intros [Hs Hnd] Hin. destruct ws as [|w ws]; [by apply elem_of_nil in Hin|]. destruct Hs as (-> & _).
  cbn [without]. rewrite Z.eqb_refl. f_equal. apply without_notin. by apply NoDup_cons in Hnd as [? _].
Qed.
End raise.

(** C35: a press of the left button over a window of a process makes the window's
    root the one that is dragged and puts it on top of the stack; the other
    windows keep their order and no window changes its data.  A press over the
    desktop drags nothing and leaves the stack. *)
Theorem left_down_raises W win_index size data w ws N :
  stack_at (windows (winmgr w)) (winstack (winmgr w)) ws ->
  sq_wf N (w_display w) -> is_range (q_locked (w_display w)) ->
  let e := int_MouseEvent data in
  let win_id := pick_buffer (display w) (VGA_PIXEL_OFFSET W (ev_x e) (ev_y e)) in
  let root := wm_root (windows (winmgr w) (win_index + size * win_id)) in
  0 <= win_id < MAX_WINDOWS -> win_index + size * win_id <> 0 -> root ∈ ws ->
  exists w', on_left_down W win_index size data w = Some w' /\
    (win_id = 0 -> drag_window (winmgr w') = 0 /\ windows (winmgr w') = windows (winmgr w) /\
       winstack (winmgr w') = winstack (winmgr w)) /\
    (win_id <> 0 -> drag_window (winmgr w') = root /\ winstack (winmgr w') = root /\
       stack_at (windows (winmgr w')) root (root :: without root ws) /\
       forall q, windata (windows (winmgr w') q) = windata (windows (winmgr w) q)).
Proof.
  intros Hs Hq Hr e win_id root Hid Hgw Hin. unfold on_left_down. fold e. fold win_id.
  assert (getGUIWindow win_index size win_id = win_index + size * win_id) as ->.
  { unfold getGUIWindow. unfold MAX_WINDOWS in *. split_ltb; done || lia. }
  fold root. destruct (Z.eqb_spec (win_index + size * win_id) 0); [done|]. cbn [negb andb].
  destruct (Z.eqb_spec win_id 0) as [E0|E0]; cbn [negb].
  { eexists. split; [reflexivity|]. by split. }
  cbn [winmgr with_winmgr set_drag winstack windows].
  destruct (Z.eqb_spec root (winstack (winmgr w))) as [Et|Et]; cbn [negb].
  - eexists. split; [reflexivity|]. split; [done|]. intros _. cbn [winmgr with_winmgr set_drag drag_window winstack windows].
    rewrite Et in Hin |- *. rewrite (top_first _ _ _ Hs Hin). done.
  - pose proof (detach_push _ _ _ _ Hs Hin) as Hd.
    destruct (stack_detach (winstack (winmgr w)) root (windows (winmgr w))) as [top1 h1].
    destruct (stack_push top1 root h1) as [top2 h2]. destruct Hd as (-> & Hs2 & Hw2).
    unfold new_display_msg. cbn [w_display with_winmgr].
    destruct (sq_enqueue_total N (w_display w) (Some (REDRAW_WINDOW root)) Hq Hr) as (r & q' & -> & _).
    cbn [mbind option_bind]. eexists. split; [reflexivity|]. split; [done|]. intros _.
    cbn. split; [done|]. split; [done|]. by split.
Qed.

(** Two windows of process 1, at 1 and 2; the second is on top; the pick buffer
    gives every pixel to the first. *)
Definition desk_heap : heap := fun q =>
  if q =? 1 then set_root (set_prev (new_GUIWindow GUIPlain empty_Window) 2) 1
  else set_root (set_next (new_GUIWindow GUIPlain empty_Window) 1) 2.

Definition no_kernel : kernel :=
  {| procs := fun _ => {| p_cr3 := 0; thread_index := 0; num_running_threads := 0; files := fun _ => 0;
       locks := fun _ => {| Process.owner := None; Process.next := None |};
       monitors := fun _ => {| mon_lock := {| Process.owner := None; Process.next := None |}; signal := 0 |};
       env := 0; userEnv := 0; msgQueue := new_MsgQueue 1 [{| Queue.msg_id := 0; msg_data := 0 |}] |};
     threads := fun _ => no_thread; num_procs := 2; proc_id := 0; thisThread := 0; esp0 := 0; cr3_reg := 0 |}.

Definition desk_world : World :=
  {| kern := no_kernel;
     winmgr := {| windows := desk_heap; winstack := 2; desktop := 9; drag_window := 0; user_windows := fun _ _ => empty_Window |};
     display := {| pixels := fun _ => 0; pick_buffer := fun _ => 1 |};
     mousePointer := {| bg_x := 0; bg_y := 0; pointer_image := fun _ _ => 0; background := fun _ _ => 0 |};
     mouse_state := mouse_at 0 0; w_user := small_queue 0 0; w_callback := small_queue 0 0;
     w_display := {| sq_max_size := 1; q_locked := qr_zero; q_safe := qr_zero; safe_tail_mtx := 0;
                     locked_head_mtx := 0; sq_queue := [None] |};
     sub_pool := new_PoolAllocator 64 4096 8; seed := 1; sub_nodes := fun _ => {| sub_next := 0; sub_proc := 0 |};
     event_subs := fun _ => 0; deadline := 0 |}.

Lemma left_down_raises_witness :
  exists w', on_left_down 800 0 1 0 desk_world = Some w' /\ winstack (winmgr w') = 1 /\
    stack_at (windows (winmgr w')) 1 [1; 2].
Proof.
  destruct (left_down_raises 800 0 1 0 desk_world [2; 1] 1) as (w' & E & _ & Hr).
  - split; [repeat (split; [done|]); done|]. apply (bool_decide_unpack _). reflexivity.
  - unfold sq_wf. cbn. lia.
  - unfold is_range, is_u16. cbn. lia.
  - cbn. unfold MAX_WINDOWS. lia.
  - cbn. lia.
  - cbn. right. by left.
  - exists w'. split; [exact E|]. destruct Hr as (_ & Hw & Hs & _); [done|]. split; [exact Hw|exact Hs].
Defined.
