(* ===== verification/Workers.v ===== *)
(** * The workers of the event system serve their queues in order

    A queue at rest is a list of messages, of which a prefix is already gathered.
    A producer appends to it; a round of a worker gathers, takes the ten first at
    most, reads them in order and gives their slots back.  The indices stay below
    their wrap at 65536 (past it the code fails: [Queue.sq_enqueue_wrapped]). *)
From S2P Require Import Prelude BitOps BitAlloc Queue Shapes Vga Memory Process Ata Ps2 Objects Gui Events.

(** ** A queue at rest *)

Section rest.
Context {T : Type} `{HS : Slot T}.
Implicit Types (q : SharedQueue T) (l : list T).

(** The messages [l] wait in [q]; the first of them has the index [h]. *)
Record queued N (h : Z) q l : Prop := {
  qu_wf : sq_wf N q;
  qu_room : 0 <= h /\ h + Z.of_nat (length l) < 65535 /\ Z.of_nat (length l) <= N < 65536;
  qu_locked : q_locked q = {| qr_head := h; qr_tail := h + Z.of_nat (length l) |};
  qu_safe : exists g, 0 <= g <= Z.of_nat (length l) /\ q_safe q = {| qr_head := h; qr_tail := h + g |};
  qu_mtx : safe_tail_mtx q = 0 /\ locked_head_mtx q = 0;
  qu_get : forall k x, l !! k = Some x -> sq_get q (h + Z.of_nat k) = Some x /\ slot_mark x <> 0;
  qu_free : forall k, h + Z.of_nat (length l) <= k < h + N -> slot_free q k = Some true
}.

Lemma new_queued N (memory : list T) : 0 < N < 65536 -> Z.of_nat (length memory) = N -> Forall (fun x => slot_mark x = 0) memory ->
  exists q, new_SharedQueue N memory = Some q /\ queued N 0 q [].
Proof.
  intros HN Hl Hm. eexists. split; [reflexivity|]. split; try done.
  - unfold sq_wf. cbn. lia.
  - cbn. lia.
  - exists 0. split; [cbn; lia|done].
  - intros k Hk. cbn in Hk. unfold slot_free. destruct (sq_get_total N {| sq_max_size := N; q_locked := qr_zero; q_safe := qr_zero;
      safe_tail_mtx := 0; locked_head_mtx := 0; sq_queue := memory |} k) as [x Hx]; [unfold sq_wf; cbn; lia|].
    rewrite Hx. cbn. unfold sq_get, arr_get in Hx. cbn in Hx. destruct (0 <=? _); [|done].
    rewrite Forall_lookup in Hm. by rewrite (Hm _ _ Hx).
Qed.

(** *** Producers append *)

Lemma queued_enqueue N h q l msg : queued N h q l -> h + Z.of_nat (length l) + 1 < 65535 -> slot_mark msg <> 0 ->
  if Z.of_nat (length l) =? N then sq_enqueue q msg = Some (-1, q)
  else exists q', sq_enqueue q msg = Some (h + Z.of_nat (length l), q') /\ queued N h q' (l ++ [msg]).
Proof.
  intros [Hwf (R1 & R2 & R3) Hlk (g & Hg & Hsf) Hmtx Hget Hfree] Hb Hmark.
  pose proof (sq_enqueue_spec N q msg Hwf) as He. rewrite Hlk in He. cbn [qr_head qr_tail] in He.
  specialize (He ltac:(unfold is_range, is_u16; cbn; lia) ltac:(lia)).
  destruct (Z.eqb_spec (Z.of_nat (length l)) N) as [E|E].
  { destruct (Z.ltb_spec N (h + Z.of_nat (length l) - h + 1)); [done|lia]. }
  destruct (Z.ltb_spec N (h + Z.of_nat (length l) - h + 1)); [lia|].
  destruct He as (q' & E1 & Hwf' & E2 & E3 & E4 & E5 & Hq'). exists q'. split; [exact E1|].
  assert (forall j, h <= j < h + N -> j <> h + Z.of_nat (length l) -> sq_get q' j = sq_get q j) as Hother.
  { intros j Hj Hne. rewrite Hq' by (unfold is_u32; lia). rewrite decide_False; [done|].
    intros Em. apply Hne. symmetry. apply (slots_distinct N h); lia. }
  split.
  - exact Hwf'.
  - rewrite length_app. cbn [length]. lia.
  - rewrite E5, length_app. cbn [length]. f_equal. lia.
  - exists g. rewrite length_app. split; [lia|]. by rewrite E2.
  - by rewrite E3, E4.
  - intros k x Hk. destruct (lookup_app_Some l [msg] k x) as [Ha _]. destruct (Ha Hk) as [Hx|[Hl Hx]].
    + pose proof (lookup_lt_Some _ _ _ Hx). rewrite Hother by lia. by apply Hget.
    + apply list_lookup_singleton_Some in Hx as [Hk0 <-]. assert (k = length l) as -> by lia.
      rewrite Hq' by (unfold is_u32; lia). by rewrite decide_True.
  - rewrite length_app. cbn [length]. intros k Hk. unfold slot_free. rewrite Hother by lia. apply Hfree. lia.
Qed.

(** *** The consumer's round *)

Lemma gather_all n h c g q :
  q_safe q = {| qr_head := h; qr_tail := h + g |} -> (forall k, g <= k < g + Z.of_nat n -> slot_free q (h + k) = Some false) ->
  0 <= h + g -> h + g + Z.of_nat n < 65536 ->
  iter_until_nat gather_round n (c, q) = inl (c + Z.of_nat n, with_safe q {| qr_head := h; qr_tail := h + g + Z.of_nat n |}).
Proof.
  revert c g q. induction n as [|n IH]; intros c g q Hs Hf H0 H1.
  - cbn. rewrite !Z.add_0_r, <- Hs. by destruct q.
  - cbn [iter_until_nat gather_round]. rewrite Hs. cbn [qr_tail]. rewrite Hf by lia. cbn [and_then].
    rewrite (IH (c + 1) (g + 1)).
    + f_equal. f_equal; [lia|]. unfold with_safe. cbn. f_equal. f_equal. lia.
    + unfold set_tail. cbn. f_equal. rewrite u16_small by (unfold is_u16; lia). lia.
    + intros k Hk. change (slot_free (with_safe q _) (h + k)) with (slot_free q (h + k)). apply Hf. lia.
    + lia.
    + lia.
Qed.

Lemma queued_gather N h q l : queued N h q l ->
  exists n q1, gather_new_data q = Some (n, q1) /\ queued N h q1 l /\
    q_safe q1 = {| qr_head := h; qr_tail := h + Z.of_nat (length l) |} /\ sq_size q1 = Z.of_nat (length l).
Proof.
  intros [Hwf (R1 & R2 & R3) Hlk (g & Hg & Hsf) [M1 M2] Hget Hfree]. unfold gather_new_data. rewrite M1, M2.
  change (q_locked (with_mtx q 1 0)) with (q_locked q). change (q_safe (with_mtx q 1 0)) with (q_safe q).
  rewrite Hlk, Hsf. cbn [qr_tail Z.eqb]. rewrite iter_until_unfold.
  rewrite u32_small by (unfold is_u32; lia).
  rewrite (gather_all _ h 0 g (with_mtx q 1 0)).
  2: { by rewrite <- Hsf. }
  2: { intros k Hk. change (slot_free (with_mtx q 1 0) (h + k)) with (slot_free q (h + k)).
       destruct (lookup_lt_is_Some_2 l (Z.to_nat k)) as [x Hx]; [lia|]. apply slot_free_false. exists x.
       replace (h + k) with (h + Z.of_nat (Z.to_nat k)) by lia. by apply Hget. }
  2-3: lia.
  cbn [mbind option_bind]. do 2 eexists. split; [reflexivity|].
  replace (h + g + Z.of_nat (Z.to_nat _)) with (h + Z.of_nat (length l)) by lia.
  split; [|split; [reflexivity|]].
  - split; try done. exists (Z.of_nat (length l)). split; [lia|done].
  - unfold sq_size, qr_size. cbn. rewrite u32_small by (unfold is_u32; lia). lia.
Qed.

(** [release] of the first [n] messages of the queue. *)
Lemma release_all N n h q : sq_wf N q -> 0 <= h -> h + Z.of_nat n <= h + N -> h + N < 4294967296 ->
  exists q', for_each n h free_slot q = Some q' /\ sq_wf N q' /\ q_locked q' = q_locked q /\ q_safe q' = q_safe q /\
    safe_tail_mtx q' = safe_tail_mtx q /\ locked_head_mtx q' = locked_head_mtx q /\
    (forall k, h <= k < h + Z.of_nat n -> slot_free q' k = Some true) /\
    (forall k, h + Z.of_nat n <= k < h + N -> sq_get q' k = sq_get q k).
Proof.
  intros Hwf Hh Hn HN.
  destruct (for_each_inv (fun j q' => sq_wf N q' /\ q_locked q' = q_locked q /\ q_safe q' = q_safe q /\
    safe_tail_mtx q' = safe_tail_mtx q /\ locked_head_mtx q' = locked_head_mtx q /\
    (forall k, h <= k < j -> slot_free q' k = Some true) /\ (forall k, j <= k < h + N -> sq_get q' k = sq_get q k))
    n h free_slot q) as (q' & E & Hi); [split_and!; try done; lia| |exists q'; tauto].
  intros j q1 Hj (W1 & L1 & S1 & M1 & M2 & F1 & G1).
  destruct (free_slot_spec N q1 j W1) as (q2 & E2 & W2 & L2 & S2 & M3 & M4 & F2 & G2); [unfold is_u32; lia|].
  exists q2. split; [exact E2|]. split_and!; try congruence.
  - intros k Hk. destruct (decide (k = j)) as [->|]; [done|]. unfold slot_free. rewrite G2; [apply F1; lia|unfold is_u32; lia|].
    intros Em. enough (j = k) by lia. apply (slots_distinct N h); lia.
  - intros k Hk. rewrite G2; [apply G1; lia|unfold is_u32; lia|]. intros Em. enough (j = k) by lia. apply (slots_distinct N h); lia.
Qed.

(** [garbage_collect] over released slots. *)
Lemma gc_all n h t q : q_locked q = {| qr_head := h; qr_tail := t |} -> 0 <= h -> h + Z.of_nat n < 65536 ->
  (forall k, h <= k < h + Z.of_nat n -> slot_free q k = Some true) ->
  gc_loop n q = Some (with_locked q {| qr_head := h + Z.of_nat n; qr_tail := t |}).
Proof.
  revert h q. induction n as [|n IH]; intros h q Hl H0 H1 Hf.
  - cbn. rewrite Z.add_0_r, <- Hl. by destruct q.
  - cbn [gc_loop]. rewrite Hl. cbn [qr_head]. rewrite Hf by lia. cbn [mbind option_bind negb].
    rewrite (IH (h + 1)).
    + f_equal. unfold with_locked. cbn. f_equal. f_equal. lia.
    + unfold set_head. cbn. f_equal. rewrite u16_small by (unfold is_u16; lia). lia.
    + lia.
    + lia.
    + intros k Hk. change (slot_free (with_locked q _) k) with (slot_free q k). apply Hf. lia.
Qed.

(** A slot is shared by the indices that differ by the size. *)
Lemma sq_get_wrap N q k : sq_wf N q -> is_u32 k -> is_u32 (k - N) -> sq_get q k = sq_get q (k - N).
Proof.
  intros (HN & Hm & _) Hk Hk'. unfold sq_get. rewrite Hm, !u32_small by done.
  f_equal. replace k with (k - N + 1 * N) at 1 by lia. apply Z.mod_add. lia.
Qed.

(** The end of a round over the first [n] messages. *)
Lemma finish_first N n h t q : sq_wf N q -> locked_head_mtx q = 0 -> q_locked q = {| qr_head := h; qr_tail := t |} ->
  qr_head (q_safe q) = h + Z.of_nat n -> 0 <= h -> Z.of_nat n <= N -> h + N < 4294967296 -> h + Z.of_nat n < 65536 ->
  exists q', finish q {| qr_head := h; qr_tail := h + Z.of_nat n |} = Some q' /\ sq_wf N q' /\ safe_tail_mtx q' = safe_tail_mtx q /\
    locked_head_mtx q' = 0 /\ q_locked q' = {| qr_head := h + Z.of_nat n; qr_tail := t |} /\ q_safe q' = q_safe q /\
    (forall k, h <= k < h + Z.of_nat n -> slot_free q' k = Some true) /\
    (forall k, h + Z.of_nat n <= k < h + N -> sq_get q' k = sq_get q k).
Proof.
  intros Hwf Hmtx Hlk Hsf Hh Hn HN Hb.
  destruct (release_all N n h q Hwf) as (q3 & E3 & W3 & L3 & S3 & M3 & M4 & F3 & G3); [lia..|].
  exists (with_mtx (with_locked (with_mtx q3 (safe_tail_mtx q3) 1) {| qr_head := h + Z.of_nat n; qr_tail := t |}) (safe_tail_mtx q3) 0).
  split.
  - unfold finish, sq_release. cbn [qr_tail qr_head]. replace (Z.to_nat (h + Z.of_nat n - h)) with n by lia. rewrite E3.
    cbn [mbind option_bind]. unfold garbage_collect. rewrite M4, Hmtx. cbn [Z.eqb].
    change (q_safe (with_mtx q3 _ 1)) with (q_safe q3). change (q_locked (with_mtx q3 _ 1)) with (q_locked q3).
    rewrite S3, L3, Hsf, Hlk. cbn [qr_head]. replace (Z.to_nat (h + Z.of_nat n - h)) with n by lia.
    rewrite (gc_all n h t); [reflexivity|..].
    + change (q_locked (with_mtx q3 _ 1)) with (q_locked q3). by rewrite L3.
    + lia.
    + lia.
    + intros k Hk. change (slot_free (with_mtx q3 _ 1) k) with (slot_free q3 k). by apply F3.
  - do 6 (split; [done|]). done.
Qed.

(** How many of [l] a round takes. *)
Definition batch l : nat := Nat.min 10 (length l).

(** A round: gather, take [batch l], read them, give them back. *)
Lemma queued_round N h q l : queued N h q l -> l <> [] ->
  let qr := {| qr_head := h; qr_tail := h + Z.of_nat (batch l) |} in
  exists n q1 q2 q3, gather_new_data q = Some (n, q1) /\ sq_size q1 = Z.of_nat (length l) /\ sq_dequeue q1 10 = (qr, q2) /\
    (forall k x, (k < batch l)%nat -> l !! k = Some x -> sq_get q2 (h + Z.of_nat k) = Some x) /\
    finish q2 qr = Some q3 /\ queued N (h + Z.of_nat (batch l)) q3 (drop (batch l) l).
Proof.
  intros Hq Hne qr. destruct (queued_gather N h q l Hq) as (n & q1 & E1 & Hq1 & Hs1 & Hz1).
  pose proof Hq1 as [Hwf (R1 & R2 & R3) Hlk _ [M1 M2] Hget Hfree]. set (b := batch l) in *.
  assert (0 < Z.of_nat (length l)) as Hl0 by (destruct l; [done|cbn; lia]).
  assert (Z.of_nat b <= Z.of_nat (length l)) as Hb by (unfold b, batch; lia).
  pose proof (sq_dequeue_spec q1 10) as E2. rewrite Hs1 in E2. cbn [qr_head qr_tail] in E2.
  specialize (E2 ltac:(unfold is_range, is_u16; cbn; lia) ltac:(lia) ltac:(lia)). cbv zeta in E2.
  destruct (Z.eqb_spec (h + Z.of_nat (length l)) h); [lia|].
  replace (Z.min 10 (h + Z.of_nat (length l) - h)) with (Z.of_nat b) in E2 by (unfold b, batch; lia).
  set (q2 := with_safe q1 _) in E2.
  destruct (finish_first N b h (h + Z.of_nat (length l)) q2 Hwf M2 Hlk eq_refl) as (q3 & E3 & W3 & M3 & M4 & L3 & S3 & F3 & G3); [lia..|].
  exists n, q1, q2, q3. do 3 (split; [done|]). split; [intros k x _ Hk; apply (Hget k x Hk)|]. split; [exact E3|].
  assert (length (drop b l) = (length l - b)%nat) as Ed by apply length_drop. split.
  - exact W3.
  - rewrite Ed. lia.
  - rewrite Ed, L3. f_equal. lia.
  - exists (Z.of_nat (length (drop b l))). split; [lia|]. rewrite S3, Ed. unfold q2. cbn [with_safe q_safe]. f_equal. lia.
  - by rewrite M3.
  - intros k x Hk. rewrite lookup_drop in Hk. destruct (Hget _ _ Hk) as [Hg Hm]. split; [|exact Hm]. pose proof (lookup_lt_Some _ _ _ Hk).
    rewrite G3 by lia. change (sq_get q2) with (sq_get q1). rewrite <- Hg. f_equal. lia.
  - intros k Hk. rewrite Ed in Hk. destruct (decide (k < h + N)) as [Hkn|Hkn].
    + unfold slot_free. rewrite G3 by lia. change (sq_get q2) with (sq_get q1). apply Hfree. lia.
    + unfold slot_free. rewrite (sq_get_wrap N q3 k W3) by (unfold is_u32; lia). apply F3. lia.
Qed.
End rest.

(** ** The workers *)

(** [f] on each message in order. *)
Fixpoint serve_all {T W} (f : T -> W -> option W) (l : list T) (w : W) : option W :=
  match l with
  | [] => Some w
  | x :: l => w ← f x w; serve_all f l w
  end.

Lemma serve_loop {T W} (f : T -> W -> option W) (get : W -> Z -> option T) (I : W -> Prop) h l w :
  (forall w k x, I w -> l !! k = Some x -> get w (h + Z.of_nat k) = Some x) -> (forall x w w', I w -> f x w = Some w' -> I w') -> I w ->
  for_each (length l) h (fun i w => x ← get w i; f x w) w = serve_all f l w.
Proof.
  intros Hg Hf. revert h w Hg. induction l as [|x l IH]; intros h w Hg Hw; [done|]. cbn [length for_each serve_all].
  assert (get w h = Some x) as -> by (rewrite <- (Z.add_0_r h); by apply (Hg w 0%nat)). cbn [mbind option_bind].
  destruct (f x w) as [w'|] eqn:E; [|done]. cbn [mbind option_bind]. apply IH; [|by eapply Hf].
  intros w1 k y Hw1 Hk. replace (h + 1 + Z.of_nat k) with (h + Z.of_nat (S k)) by lia. by apply Hg.
Qed.

Lemma batch_take {T} (l : list T) : length (take (batch l) l) = batch l.
Proof. rewrite length_take. unfold batch. lia. Qed.

Lemma serve_keeps {T W A} (f : T -> W -> option W) (P : W -> A) l w w' :
  (forall x w w', f x w = Some w' -> P w' = P w) -> serve_all f l w = Some w' -> P w' = P w.
Proof.
  intros Hf. revert w. induction l as [|x l IH]; intros w Hs; [by injection Hs as <-|]. cbn [serve_all] in Hs.
  destruct (f x w) as [w1|] eqn:E; [|done]. rewrite (IH w1 Hs). by apply (Hf x).
Qed.

(** What a worker's round needs of the place its queue has in the state. *)
Class QueuePlace (T : Type) `{Slot T} (W : Type) := {
  queue_of : W -> SharedQueue T;
  set_queue : SharedQueue T -> W -> W;
  queue_of_set q w : queue_of (set_queue q w) = q;
  set_queue_set q q' w : set_queue q (set_queue q' w) = set_queue q w
}.

#[export, refine] Instance user_place : QueuePlace Message World := {
  queue_of := w_user; set_queue q w := with_queues w q (w_callback w) (w_display w)
}.
Proof. done. done. Defined.

#[export, refine] Instance callback_place : QueuePlace Message World := {
  queue_of := w_callback; set_queue q w := with_queues w (w_user w) q (w_display w)
}.
Proof. done. done. Defined.

(** The round the workers of user events and of callbacks share. *)
Definition worker_round {T} `{HS : Slot T} (place : QueuePlace T World) (f : T -> World -> option World) (w : World) : option World :=
  '(_, q) ← gather_new_data (queue_of w);
  let w := set_queue q w in
  if sq_size q <=? 0 then Some w else
  let '(qr, q) := sq_dequeue q 10 in
  let w := set_queue q w in
  w ← for_each (Z.to_nat (qr_tail qr - qr_head qr)) (qr_head qr) (fun i w => msg ← sq_get (queue_of w) i; f msg w) w;
  q ← finish (queue_of w) qr;
  Some (signal_kernel (- (qr_tail qr - qr_head qr)) (set_queue q w)).

(** A round serves the first messages in order, and gives their signals back. *)
Lemma worker_round_serves {T} `{HS : Slot T} (place : QueuePlace T World) (f : T -> World -> option World) N h w l :
  queued N h (queue_of w) l -> (forall m w1 w2, f m w1 = Some w2 -> queue_of w2 = queue_of w1) ->
  match l with
  | [] => exists q, queued N h q [] /\ worker_round place f w = Some (set_queue q w)
  | _ => exists q q', queued N (h + Z.of_nat (batch l)) q' (drop (batch l) l) /\
      worker_round place f w = (w1 ← serve_all f (take (batch l) l) (set_queue q w);
        Some (signal_kernel (- Z.of_nat (batch l)) (set_queue q' w1)))
  end.
Proof.
  intros Hq Hf. destruct (decide (l = [])) as [->|Hne].
  { destruct (queued_gather N h (queue_of w) [] Hq) as (n & q1 & E & Hq1 & _ & Hz). exists q1. split; [exact Hq1|].
    unfold worker_round. rewrite E. cbn [mbind option_bind]. by rewrite Hz. }
  enough (exists q q', queued N (h + Z.of_nat (batch l)) q' (drop (batch l) l) /\
      worker_round place f w = (w1 ← serve_all f (take (batch l) l) (set_queue q w);
        Some (signal_kernel (- Z.of_nat (batch l)) (set_queue q' w1)))) by (by destruct l).
  destruct (queued_round N h (queue_of w) l Hq Hne) as (n & q1 & q2 & q3 & E1 & Hz & E2 & Hg & E3 & Hq3).
  exists q2, q3. split; [exact Hq3|]. unfold worker_round. rewrite E1. cbn [mbind option_bind]. rewrite Hz.
  destruct (Z.leb_spec (Z.of_nat (length l)) 0) as [Hl|_]; [destruct l; cbn in Hl; [done|lia]|]. rewrite E2. cbn [qr_tail qr_head].
  replace (Z.to_nat (h + Z.of_nat (batch l) - h)) with (length (take (batch l) l)) by (rewrite batch_take; lia).
  replace (h + Z.of_nat (batch l) - h) with (Z.of_nat (batch l)) by lia. rewrite set_queue_set.
  rewrite (serve_loop f (fun w i => sq_get (queue_of w) i) (fun w => queue_of w = q2)).
  - destruct (serve_all f _ _) as [w1|] eqn:Es; [|done]. cbn [mbind option_bind].
    apply (serve_keeps f queue_of _ _ _ Hf) in Es. by rewrite Es, queue_of_set, E3.
  - intros w1 k x -> Hk. assert (k < batch l)%nat by (apply lookup_lt_Some in Hk; by rewrite batch_take in Hk).
    rewrite lookup_take_lt in Hk by done. by apply Hg.
  - intros m w1 w2 Hw1 Hc. by rewrite (Hf _ _ _ Hc).
  - apply queue_of_set.
Qed.

Section workers.
Context (VGA_WIDTH VGA_HEIGHT : Z) (ASCII_MAP : Z -> Z) (win_index sizeof_GUIWindow : Z).
Context (text_buffer : World -> Z -> Buffer) (image : World -> Z -> Z -> Z).
Context (callback : Z -> Z -> World -> option World) (rdtsc : World -> Z).
Implicit Types (w : World).

Definition call (m : Message) w : option World := callback (msg_id m) (msg_data m) w.

Lemma callback_run_round w : callback_run callback w = worker_round callback_place call w.
Proof. reflexivity. Qed.

Lemma user_run_round fuel w :
  user_run VGA_WIDTH win_index sizeof_GUIWindow fuel w =
    worker_round user_place (on_user_event VGA_WIDTH win_index sizeof_GUIWindow fuel) w.
Proof. reflexivity. Qed.

(** What a user event does leaves the queue of user events alone. *)
Lemma new_display_msg_user msg w w' : new_display_msg msg w = Some w' -> w_user w' = w_user w /\ w_callback w' = w_callback w.
Proof. unfold new_display_msg. destruct (sq_enqueue _ _) as [[r q]|]; [|done]. by intros [= <-]. Qed.

Lemma redraw_rects_user rects w w' : redraw_rects rects w = Some w' -> w_user w' = w_user w /\ w_callback w' = w_callback w.
Proof.
  revert w. induction rects as [|r rects IH]; intros w; cbn [redraw_rects]; [by intros [= <-]|].
  destruct (_ || _); [apply IH|]. destruct (new_display_msg _ w) as [w1|] eqn:E; [|done]. cbn [mbind option_bind].
  intros E2. apply IH in E2 as [-> ->]. by apply new_display_msg_user in E.
Qed.

Lemma on_mouse_move_user fuel w w' : on_mouse_move fuel w = Some w' -> w_user w' = w_user w /\ w_callback w' = w_callback w.
Proof.
  unfold on_mouse_move. cbv zeta. destruct (_ && _); [by intros [= <-]|].
  set (w0 := with_mouse w _). change (w_user w) with (w_user w0). change (w_callback w) with (w_callback w0). clearbody w0.
  destruct (ldrag _ && _ && _); cbn [mbind option_bind].
  - destruct (win_move _ _ _ _ _) as [h|]; [|done]. cbn [mbind option_bind].
    destruct (redraw_rects _ _) as [w1|] eqn:E; [|done]. cbn [mbind option_bind]. intros E2.
    apply new_display_msg_user in E2 as [-> ->]. by apply redraw_rects_user in E.
  - apply new_display_msg_user.
Qed.

Lemma on_left_down_user data w w' : on_left_down VGA_WIDTH win_index sizeof_GUIWindow data w = Some w' -> w_user w' = w_user w /\ w_callback w' = w_callback w.
Proof.
  unfold on_left_down. cbv zeta. destruct (_ && _); [|by intros [= <-]]. destruct (negb _); [|by intros [= <-]].
  destruct (stack_detach _ _ _) as [top h]. destruct (stack_push _ _ _) as [top' h']. by intros [-> ->]%new_display_msg_user.
Qed.

Lemma on_user_event_user fuel msg w w' :
  on_user_event VGA_WIDTH win_index sizeof_GUIWindow fuel msg w = Some w' -> w_user w' = w_user w /\ w_callback w' = w_callback w.
Proof.
  unfold on_user_event. intros E.
  match type of E with (mbind _ ?c) = _ => destruct c as [w1|] eqn:E1; [|done] end. cbn [mbind option_bind] in E.
  assert (w_user w1 = w_user w /\ w_callback w1 = w_callback w) as [<- <-].
  { destruct (_ =? _) in E1; [by eapply on_mouse_move_user|]. destruct (_ =? _) in E1; [by eapply on_left_down_user|].
    destruct (_ =? _) in E1; by injection E1 as <-. }
  clear E1. repeat case_match; try done; [|by injection E as <-].
  unfold notify_target in E. repeat case_match; try by injection E as <-.
  destruct (notify_target_loop _ _ _ _ _ _); [|done]. by injection E as <-.
Qed.

Definition with_user (q : SharedQueue Message) w : World := with_queues w q (w_callback w) (w_display w).

(** C15: the queue of user events is a list of at most 16 messages.  A producer
    appends its message, or loses it when there are 16 already, and in both cases
    raises the kernel's signal by one.  A round of the worker serves the first ten
    messages at most, each once and in the order they came, leaves the others
    waiting and lowers the signal by the number served; it fails only when the
    service of one of them fails.  The indices are below their wrap here. *)
Theorem user_events_refine_list fuel h w (l : list Message) id data :
  queued 16 h (w_user w) l -> h + Z.of_nat (length l) + 1 < 65535 -> id <> 0 ->
  let msg := {| Queue.msg_id := id; msg_data := data |} in
  (exists q, enqueue_user_event id data w = Some (signal_kernel 1 (with_user q w)) /\
     queued 16 h q (if Z.of_nat (length l) =? 16 then l else l ++ [msg])) /\
  exists q q', queued 16 (h + Z.of_nat (batch l)) q' (drop (batch l) l) /\
    user_run VGA_WIDTH win_index sizeof_GUIWindow fuel w =
      (w1 ← serve_all (on_user_event VGA_WIDTH win_index sizeof_GUIWindow fuel) (take (batch l) l) (with_user q w);
       Some (if decide (l = []) then w1 else signal_kernel (- Z.of_nat (batch l)) (with_user q' w1))).
Proof.
  intros Hq Hb Hid msg. split.
  - pose proof (queued_enqueue 16 h (w_user w) l msg Hq Hb Hid) as He. unfold enqueue_user_event. fold msg.
    destruct (_ =? 16).
    + exists (w_user w). rewrite He. by split.
    + destruct He as (q & -> & Hq'). exists q. by split.
  - rewrite user_run_round.
    pose proof (worker_round_serves user_place (on_user_event VGA_WIDTH win_index sizeof_GUIWindow fuel) 16 h w l Hq
      (fun m w1 w2 E => proj1 (on_user_event_user fuel m w1 w2 E))) as H. destruct l as [|x l].
    + destruct H as (q & Hq' & ->). exists q, q. cbn. rewrite Z.add_0_r. by split.
    + destruct H as (q & q' & Hq' & ->). exists q, q'. split; [exact Hq'|]. by destruct (decide (x :: l = [])).
Qed.
End workers.

(** One message waits, and no window belongs to a process. *)
Definition blank_message : Message := {| Queue.msg_id := 0; msg_data := 0 |}.
Definition one_waiting (id data : Z) : SharedQueue Message :=
  {| sq_max_size := 16; q_locked := {| qr_head := 0; qr_tail := 1 |}; q_safe := qr_zero; safe_tail_mtx := 0; locked_head_mtx := 0;
     sq_queue := {| Queue.msg_id := id; msg_data := data |} :: replicate 15 blank_message |}.

Definition none_waiting : SharedQueue Message :=
  {| sq_max_size := 16; q_locked := qr_zero; q_safe := qr_zero; safe_tail_mtx := 0; locked_head_mtx := 0; sq_queue := replicate 16 blank_message |}.

Lemma none_waiting_queued : queued 16 0 none_waiting [].
Proof.
  destruct (new_queued 16 (replicate 16 blank_message)) as (q0 & E0 & Hq0); [lia|done|by apply Forall_replicate|].
  injection E0 as <-. exact Hq0.
Qed.

Lemma one_waiting_queued id data : id <> 0 -> queued 16 0 (one_waiting id data) [{| Queue.msg_id := id; msg_data := data |}].
Proof.
  intros Hid.
  destruct (queued_enqueue 16 0 _ [] {| Queue.msg_id := id; msg_data := data |} none_waiting_queued ltac:(cbn; lia) Hid) as (q & E & Hq).
  cbn in E. injection E as <-. exact Hq.
Qed.

Lemma user_events_refine_list_witness :
  let w := with_user (one_waiting 30 41) desk_world in
  exists q1 q2 w', enqueue_user_event 31 42 w = Some (signal_kernel 1 (with_user q1 w)) /\
    queued 16 0 q1 [{| Queue.msg_id := 30; msg_data := 41 |}; {| Queue.msg_id := 31; msg_data := 42 |}] /\
    user_run 800 0 1 0 w = Some w' /\ queued 16 1 q2 [] /\ w' = signal_kernel (-1) (with_user q2 w).
Proof.
  intros w.
  destruct (user_events_refine_list 800 0 1 0 0 w [{| Queue.msg_id := 30; msg_data := 41 |}] 31 42) as [(q1 & E1 & Hq1) (q & q' & Hq' & E2)].
  - by apply one_waiting_queued.
  - cbn. lia.
  - done.
  - exists q1, q'. eexists. split; [exact E1|]. split; [exact Hq1|]. split; [exact E2|]. split; [exact Hq'|]. reflexivity.
Defined.
