(* ===== verification/Loop.v ===== *)
(** * The event thread: [enter_event_loop] of [system/events.cpp]

    The thread waits on the monitor of the kernel's messages, runs the three
    workers and yields.  Between two of its steps other threads, interrupts and
    the scheduler run: a step relation on the point it is at and the world.
    The producers raise the signal without waking anybody; the timer does. *)
From S2P Require Import Prelude BitOps BitAlloc Queue Shapes Vga Memory Process Scheduler Ata Ps2 Objects Gui Events Workers.

Inductive loop_pc :=
  | LoopMonitor (pc : mon_pc)  (** in [procs[0].monitor(MSG_MONITOR, 0)] *)
  | LoopRun (i : Z)            (** at the head of the loop over the workers *)
  | LoopYield.                 (** in [yield] *)

#[export] Instance mon_pc_eq_dec : EqDecision mon_pc.
Proof. solve_decision. Defined.
#[export] Instance loop_pc_eq_dec : EqDecision loop_pc.
Proof. solve_decision. Defined.

(** [yield]: the thread is back when it is dispatched as running. *)
Definition yield_returns (k : kernel) : bool := bool_decide (runState (threads k (thisThread k)) = RUNNING).

(** [kevents->num_workers] *)
Definition num_workers : Z := 3.

Section loop.
Context (VGA_WIDTH VGA_HEIGHT : Z) (ASCII_MAP : Z -> Z) (win_index sizeof_GUIWindow : Z).
Context (text_buffer : World -> Z -> Buffer) (image : World -> Z -> Z -> Z).
Context (callback : Z -> Z -> World -> option World) (rdtsc : World -> Z) (fuel : nat).
Implicit Types (w : World) (k : kernel) (e : tref).

(** [kevents->workers[i]->run()], in the order of the constructor of [EventSystem]. *)
Definition run_worker (i : Z) w : option World :=
  if i =? 0 then user_run VGA_WIDTH win_index sizeof_GUIWindow fuel w
  else if i =? 1 then callback_run callback w
  else if i =? 2 then display_run VGA_WIDTH VGA_HEIGHT ASCII_MAP text_buffer image rdtsc fuel w
  else None.

Definition loop_step (pc : loop_pc) w : option (loop_pc * World) :=
  match pc with
  | LoopMonitor MonDone => Some (LoopRun 0, w)
  | LoopMonitor pc => '(pc, k) ← monitor_step 0 MSG_MONITOR 0 pc (kern w); Some (LoopMonitor pc, with_kern w k)
  | LoopRun i => if i <? num_workers then w ← run_worker i w; Some (LoopRun (i + 1), w) else Some (LoopYield, w)
  | LoopYield => Some (if yield_returns (kern w) then LoopMonitor MonEnter else LoopYield, w)
  end.

Fixpoint loop_steps (n : nat) (pc : loop_pc) w : option (loop_pc * World) :=
  match n with
  | O => Some (pc, w)
  | S n => '(pc, w) ← loop_step pc w; loop_steps n pc w
  end.

Lemma loop_steps_S n pc w pc' w' : loop_step pc w = Some (pc', w') -> loop_steps (S n) pc w = loop_steps n pc' w'.
Proof. intros E. cbn [loop_steps]. by rewrite E. Qed.

Lemma loop_steps_add m n pc w : loop_steps (m + n) pc w = ('(pc, w) ← loop_steps m pc w; loop_steps n pc w).
Proof.
  revert pc w. induction m as [|m IH]; intros pc w; [done|]. cbn [Nat.add loop_steps].
  destruct (loop_step pc w) as [[pc' w']|]; [|done]. cbn [mbind option_bind]. apply IH.
Qed.

Lemma run_step i w w' : 0 <= i < num_workers -> run_worker i w = Some w' -> loop_step (LoopRun i) w = Some (LoopRun (i + 1), w').
Proof. intros Hi E. cbn [loop_step]. destruct (Z.ltb_spec i num_workers); [|lia]. by rewrite E. Qed.

(** The round of [Events] is what the loop does between monitor and yield. *)
Lemma loop_event_round w w' :
  event_round VGA_WIDTH VGA_HEIGHT ASCII_MAP win_index sizeof_GUIWindow text_buffer image callback rdtsc fuel w = Some w' ->
  loop_steps 4 (LoopRun 0) w = Some (LoopYield, w').
Proof.
  unfold event_round. destruct (user_run _ _ _ _ w) as [w1|] eqn:E1; [|done]. cbn [mbind option_bind].
  destruct (callback_run _ w1) as [w2|] eqn:E2; [|done]. cbn [mbind option_bind]. intros E3.
  rewrite (loop_steps_S _ _ _ _ _ (run_step 0 w w1 ltac:(unfold num_workers; lia) E1)).
  rewrite (loop_steps_S _ _ _ _ _ (run_step 1 w1 w2 ltac:(unfold num_workers; lia) E2)).
  by rewrite (loop_steps_S _ _ _ _ _ (run_step 2 w2 w' ltac:(unfold num_workers; lia) E3)).
Qed.
End loop.

(** ** Sleeping and waking *)

Section wake.
Implicit Types (k : kernel) (e : tref).

(** The thread [e] owns the kernel's monitor, whose signal is [s]. *)
Definition owns_monitor e (s : Z) k : Prop :=
  let mon := monitors (procs k 0) MSG_MONITOR in
  Process.owner (mon_lock mon) = Some e /\ signal mon = s /\ - 2147483648 <= s < 2147483648.

Definition asleep e s k : Prop := owns_monitor e s k /\ signal_wait (threads k e) = Some (0, MSG_MONITOR) /\ runState (threads k e) = WAITING.
Definition awake e s k : Prop := owns_monitor e s k /\ signal_wait (threads k e) = None /\ runState (threads k e) = RUNNING.

Lemma get_msg_monitor : get_monitor MSG_MONITOR = Some MSG_MONITOR.
Proof. reflexivity. Qed.

(** [notify(MSG_MONITOR, 0)] on the kernel wakes the sleeper, on any process it
    leaves the thread awake. *)
Lemma notify_wakes e s k : asleep e s k -> 0 < s -> exists k', notify 0 MSG_MONITOR 0 k = Some k' /\ awake e s k'.
Proof.
  intros ((Ho & Hs & Hr) & Hw & _) Hpos. unfold notify. rewrite get_msg_monitor. cbn [mbind option_bind].
  rewrite Hs, Z.add_0_r, s32_small by (unfold is_s32; lia). destruct (Z.ltb_spec 0 s); [|lia].
  cbn. rewrite Ho. cbn. rewrite Hw, bool_decide_eq_true_2 by done. eexists. split; [reflexivity|].
  unfold awake, owns_monitor. cbn. unfold upd. rewrite !Z.eqb_refl. done.
Qed.

(** What [notify] keeps of a kernel. *)
Lemma notify_keeps_awake e s k pid : awake e s k -> exists k', notify pid MSG_MONITOR 0 k = Some k' /\ awake e s k'.
Proof.
  intros ((Ho & Hs & Hr) & Hw & Hrun). unfold notify. rewrite get_msg_monitor. cbn [mbind option_bind].
  set (k1 := write_signal k pid MSG_MONITOR _).
  assert (threads k1 = threads k) as Et by done.
  assert (owns_monitor e s k1) as H1.
  { unfold owns_monitor, k1. cbn [write_signal set_process procs]. unfold upd at 1 3. destruct (Z.eqb_spec 0 pid) as [<-|]; [|done].
    cbn [with_locks monitors]. rewrite upd_same. cbn [mon_lock signal]. rewrite Hs, Z.add_0_r, s32_small by (unfold is_s32; lia). done. }
  assert (awake e s k1) as Hk1 by (split; [exact H1|]; by rewrite Et).
  destruct (0 <? _); [|by exists k1]. destruct (Process.owner (mon_lock (monitors (procs k1 pid) MSG_MONITOR))) as [o|]; [|by exists k1].
  match goal with |- context [if bool_decide ?P then _ else _] => destruct (bool_decide_reflect P) as [Eo|] end; [|by exists k1]. eexists. split; [reflexivity|].
  assert (o <> e) as Hne by (intros ->; rewrite Et, Hw in Eo; done).
  destruct Hk1 as ((Ho1 & Hs1 & Hr1) & Hw1 & Hrun1). unfold awake, owns_monitor.
  cbn [add_running set_process set_runState set_signal_wait set_thread_at procs threads].
  assert ((e =? o) = false) as Eeo by (apply Z.eqb_neq; congruence). unfold upd. rewrite !Eeo.
  split; [|done]. destruct (Z.eqb_spec 0 pid) as [<-|]; done.
Qed.

Lemma next_proc_loop_awake e s n i k : awake e s k -> exists pid k', next_proc_loop n i k = Some (pid, k') /\ awake e s k'.
Proof.
  revert i k. induction n as [|n IH]; intros i k Hk; cbn [next_proc_loop]; [by exists 0, k|].
  destruct (notify_keeps_awake e s k (u32 (proc_id k + i) mod num_procs k) Hk) as (k1 & -> & Hk1). cbn [mbind option_bind].
  destruct (0 <? _); [by eexists _, k1|by apply IH].
Qed.

(** The rest of the timer interrupt changes no monitor and no state of a thread. *)
Lemma awake_ext e s k k' : threads k' = threads k -> (forall q, monitors (procs k' q) = monitors (procs k q)) -> awake e s k -> awake e s k'.
Proof. intros Et Em (Hh & Hw). unfold awake, owns_monitor. by rewrite Et, Em. Qed.

Lemma timer_wakes e s k : asleep e s k -> 0 < s -> exists k', timer_interrupt k = Some k' /\ awake e s k'.
Proof.
  intros Hk Hs. destruct (notify_wakes e s k Hk Hs) as (k1 & E1 & Hk1).
  unfold timer_interrupt, get_next_proc. rewrite E1. cbn [mbind option_bind].
  destruct (next_proc_loop_awake e s (Z.to_nat (num_procs k1 - 1)) 1 k1 Hk1) as (pid & k2 & -> & Hk2). cbn [mbind option_bind].
  unfold set_proc. set (k3 := {| procs := procs k2 |}).
  assert (awake e s k3) as Hk3 by (by apply (awake_ext e s k2)).
  unfold get_next_thread. destruct (next_thread_loop _ _ k3) as [i|].
  - eexists. split; [reflexivity|]. apply (awake_ext e s k3); [done| |done]. intros q. cbn. unfold upd. by destruct (Z.eqb_spec q pid) as [->|].
  - destruct (proc_id _ =? 0); (eexists; split; [reflexivity|]; apply (awake_ext e s k3); [done| |done]; intros q; cbn; unfold upd;
      destruct (Z.eqb_spec q pid) as [->|]; rewrite ?Z.eqb_refl; done).
Qed.
End wake.

(** ** A cycle of the event thread *)

Section cycle.
Context (VGA_WIDTH VGA_HEIGHT : Z) (ASCII_MAP : Z -> Z) (win_index sizeof_GUIWindow : Z).
Context (text_buffer : World -> Z -> Buffer) (image : World -> Z -> Z -> Z).
Context (callback : Z -> Z -> World -> option World) (rdtsc : World -> Z) (fuel : nat).
Implicit Types (w : World) (e : tref).

Abbreviation steps := (loop_steps VGA_WIDTH VGA_HEIGHT ASCII_MAP win_index sizeof_GUIWindow text_buffer image callback rdtsc fuel).
Abbreviation step := (loop_step VGA_WIDTH VGA_HEIGHT ASCII_MAP win_index sizeof_GUIWindow text_buffer image callback rdtsc fuel).

Lemma monitor_next pc pc' w k : pc <> MonDone -> monitor_step 0 MSG_MONITOR 0 pc (kern w) = Some (pc', k) ->
  step (LoopMonitor pc) w = Some (LoopMonitor pc', with_kern w k).
Proof. intros Hpc E. destruct pc; try done; cbn [loop_step]; by rewrite E. Qed.

(** Without a signal the owner of the monitor goes to sleep. *)
Lemma loop_sleeps e s w : thisThread (kern w) = e -> owns_monitor e s (kern w) -> s <= 0 ->
  exists k, steps 3 (LoopMonitor MonEnter) w = Some (LoopMonitor MonYield2, with_kern w k) /\ asleep e s k /\ thisThread k = e.
Proof.
  intros Hthis (Ho & Hs & Hr) Hneg. set (k := kern w) in *.
  assert (exists k1, monitor_step 0 MSG_MONITOR 0 MonEnter k = Some (MonCheck, k1) /\ owns_monitor e s k1 /\ thisThread k1 = e) as (k1 & E1 & H1 & T1).
  { unfold monitor_step. rewrite get_msg_monitor. cbn [mbind option_bind]. unfold lock_enter. cbn [read_lock]. rewrite Ho, Hthis.
    rewrite bool_decide_eq_true_2 by done. cbn [orb mbind option_bind]. eexists. split; [reflexivity|]. split; [|done].
    unfold owns_monitor. cbn. done. }
  destruct H1 as (Ho1 & Hs1 & _).
  assert (monitor_step 0 MSG_MONITOR 0 MonCheck k1 = Some (MonArm, k1)) as E2.
  { unfold monitor_step. rewrite get_msg_monitor. cbn [mbind option_bind]. rewrite Ho1, T1.
    rewrite bool_decide_eq_true_2 by done. cbn [negb]. rewrite Hs1. destruct (Z.leb_spec s 0); [done|lia]. }
  assert (exists k2, monitor_step 0 MSG_MONITOR 0 MonArm k1 = Some (MonYield2, k2) /\ asleep e s k2 /\ thisThread k2 = e) as (k2 & E3 & H2 & T2).
  { unfold monitor_step. rewrite get_msg_monitor. cbn [mbind option_bind]. rewrite T1. eexists. split; [reflexivity|].
    split; [|done]. unfold asleep, owns_monitor. cbn. unfold upd. rewrite !Z.eqb_refl. done. }
  exists k2. split; [|done].
  rewrite (loop_steps_S _ _ _ _ _ _ _ _ _ _ _ _ _ _ _ (monitor_next MonEnter MonCheck w k1 ltac:(done) E1)).
  rewrite (loop_steps_S _ _ _ _ _ _ _ _ _ _ _ _ _ _ _ (monitor_next MonCheck MonArm (with_kern w k1) k1 ltac:(done) E2)).
  by rewrite (loop_steps_S _ _ _ _ _ _ _ _ _ _ _ _ _ _ _ (monitor_next MonArm MonYield2 (with_kern w k1) k2 ltac:(done) E3)).
Qed.

(** Dispatched again, it keeps the signal for the workers and comes to them. *)
Lemma loop_resumes e s w : thisThread (kern w) = e -> awake e s (kern w) -> 0 <= s ->
  exists k, steps 3 (LoopMonitor MonYield2) w = Some (LoopRun 0, with_kern w k) /\ awake e s k /\ thisThread k = e.
Proof.
  intros Hthis ((Ho & Hs & Hr) & Hw & Hrun) Hpos. set (k := kern w) in *.
  assert (monitor_step 0 MSG_MONITOR 0 MonYield2 k = Some (MonConsume, k)) as E1.
  { unfold monitor_step. rewrite get_msg_monitor. cbn [mbind option_bind]. rewrite Hthis. by rewrite bool_decide_eq_true_2. }
  assert (exists k1, monitor_step 0 MSG_MONITOR 0 MonConsume k = Some (MonDone, k1) /\ awake e s k1 /\ thisThread k1 = e) as (k1 & E2 & H1 & T1).
  { unfold monitor_step. rewrite get_msg_monitor. cbn [mbind option_bind]. rewrite Hs, Z.sub_0_r, s32_small by (unfold is_s32; lia).
    destruct (Z.ltb_spec s 0); [lia|]. eexists. split; [reflexivity|]. split; [|done]. unfold awake, owns_monitor. cbn. done. }
  exists k1. split; [|done].
  rewrite (loop_steps_S _ _ _ _ _ _ _ _ _ _ _ _ _ _ _ (monitor_next MonYield2 MonConsume w k ltac:(done) E1)).
  rewrite (loop_steps_S _ _ _ _ _ _ _ _ _ _ _ _ _ _ _ (monitor_next MonConsume MonDone (with_kern w k) k1 ltac:(done) E2)).
  reflexivity.
Qed.

(** A producer's [signal++] wakes nobody. *)
Lemma signal_asleep e s d w : asleep e s (kern w) -> is_s32 (s + d) -> asleep e (s + d) (kern (signal_kernel d w)).
Proof.
  intros ((Ho & Hs & Hr) & Hw & Hrun) Hd. unfold asleep, owns_monitor. cbn. unfold upd. rewrite ?Z.eqb_refl. cbn.
  rewrite Hs, s32_small by exact Hd. unfold is_s32 in Hd. split_and!; done || lia.
Qed.

Lemma signal_awake e s d w : awake e s (kern w) -> is_s32 (s + d) -> awake e (s + d) (kern (signal_kernel d w)).
Proof.
  intros ((Ho & Hs & Hr) & Hw & Hrun) Hd. unfold awake, owns_monitor. cbn. unfold upd. rewrite ?Z.eqb_refl. cbn.
  rewrite Hs, s32_small by exact Hd. unfold is_s32 in Hd. split_and!; done || lia.
Qed.

Lemma awake_as_thread e s k t : awake e s k -> awake e s (as_thread k t).
Proof. done. Qed.

(** C9: the event thread [e], on the kernel's monitor with no signal, goes to
    sleep; a callback event queued meanwhile raises the signal but leaves it
    asleep; the next timer interrupt, whatever thread it goes to, wakes it; and
    dispatched again it runs the worker of user events, which finds nothing, and
    that of callbacks, which calls the handler exactly once and with its argument,
    empties the queue and lowers the signal by one.  The handler queues no
    callbacks itself, and the indices of the queues are below their wrap. *)
Theorem event_thread_serves e handler data w hu hc :
  thisThread (kern w) = e -> owns_monitor e 0 (kern w) ->
  queued 16 hu (w_user w) [] -> queued 16 hc (w_callback w) [] -> hc + 1 < 65535 -> handler <> 0 ->
  (forall id d w1 w2, callback id d w1 = Some w2 -> w_callback w2 = w_callback w1) ->
  exists k1 w2 k3, steps 3 (LoopMonitor MonEnter) w = Some (LoopMonitor MonYield2, with_kern w k1) /\ asleep e 0 k1 /\
    new_callback_event handler data (with_kern w k1) = Some w2 /\ asleep e 1 (kern w2) /\
    timer_interrupt (kern w2) = Some k3 /\ awake e 1 k3 /\
    exists w4 q, awake e 1 (kern w4) /\ queued 16 (hc + 1) q [] /\
      steps 5 (LoopMonitor MonYield2) (with_kern w2 (as_thread k3 e)) =
        (w5 ← callback handler data w4; Some (LoopRun 2, signal_kernel (-1) (with_queues w5 (w_user w5) q (w_display w5)))).
Proof.
  intros Hthis Hh Hqu Hqc Hb Hhan Hcb.
  destruct (loop_sleeps e 0 w Hthis Hh ltac:(lia)) as (k1 & E1 & Hk1 & _).
  pose proof (queued_enqueue 16 hc (w_callback w) [] {| Queue.msg_id := handler; msg_data := data |} Hqc ltac:(cbn; lia) Hhan) as He.
  cbn [length Z.of_nat Z.eqb] in He. destruct He as (qc & He & Hqc1).
  set (w2 := signal_kernel 1 (with_queues (with_kern w k1) (w_user w) qc (w_display w))).
  pose proof (signal_asleep e 0 1 (with_queues (with_kern w k1) (w_user w) qc (w_display w)) Hk1 ltac:(unfold is_s32; lia)) as Hk2.
  fold w2 in Hk2. destruct (timer_wakes e (0 + 1) (kern w2) Hk2 ltac:(lia)) as (k3 & E3 & Hk3).
  exists k1, w2, k3. split; [exact E1|]. split; [exact Hk1|].
  split; [unfold new_callback_event; cbn [w_callback with_kern]; by rewrite He|]. split; [exact Hk2|]. split; [exact E3|]. split; [exact Hk3|].
  destruct (loop_resumes e (0 + 1) (with_kern w2 (as_thread k3 e)) eq_refl Hk3 ltac:(lia)) as (k4 & E4 & Hk4 & _).
  set (wr := with_kern (with_kern w2 (as_thread k3 e)) k4) in *.
  pose proof (worker_round_serves user_place (on_user_event VGA_WIDTH win_index sizeof_GUIWindow fuel) 16 hu wr [] Hqu
      (fun m w1 w2 E => proj1 (on_user_event_user _ _ _ fuel m w1 w2 E))) as (qu & _ & Eu).
  set (wu := set_queue qu wr) in *.
  pose proof (worker_round_serves callback_place (call callback) 16 hc wu [{| Queue.msg_id := handler; msg_data := data |}] Hqc1
      (fun m w1 w2 => Hcb (msg_id m) (msg_data m) w1 w2)) as (q4 & q5 & Hq5 & Ec).
  exists (set_queue q4 wu), q5. split; [exact Hk4|]. split; [exact Hq5|].
  change 5%nat with (3 + 2)%nat. rewrite loop_steps_add, E4. cbn [mbind option_bind].
  rewrite (loop_steps_S _ _ _ _ _ _ _ _ _ _ _ _ _ _ _ (run_step _ _ _ _ _ _ _ _ _ _ 0 wr wu ltac:(unfold num_workers; lia) Eu)).
  cbn [loop_steps loop_step]. change (0 + 1 <? num_workers) with true. cbv iota.
  change (run_worker _ _ _ _ _ _ _ callback rdtsc fuel (0 + 1) wu) with (worker_round callback_place (call callback) wu).
  rewrite Ec. unfold call. cbn [take batch Nat.min length serve_all msg_id msg_data mbind option_bind].
  destruct (callback handler data (set_queue q4 wu)) as [w5|]; reflexivity.
Qed.
End cycle.

(** Thread 1 of the kernel is at its monitor, and the queues are empty. *)
Definition waiting_kernel : kernel :=
  {| procs := fun q => let p := procs no_kernel q in
       with_locks p (Process.locks p) (upd (monitors p) MSG_MONITOR
         {| mon_lock := {| Process.owner := Some 1; Process.next := None |}; signal := 0 |});
     threads := threads no_kernel; num_procs := 2; proc_id := 0; thisThread := 1; esp0 := 0; cr3_reg := 0 |}.

Definition no_text : Buffer :=
  {| char_w := 0; char_h := 0; offset_x := 0; offset_y := 0; Objects.head := 0; Objects.tail := 0; Objects.max := 0; Objects.text := [] |}.

Definition waiting_world : World := with_queues (with_kern desk_world waiting_kernel) none_waiting none_waiting (w_display desk_world).

Lemma event_thread_serves_witness :
  exists k1 w2 k3 w4 w6, new_callback_event 0x8200 3 (with_kern waiting_world k1) = Some w2 /\ asleep 1 1 (kern w2) /\
    timer_interrupt (kern w2) = Some k3 /\ awake 1 1 k3 /\ awake 1 1 (kern w4) /\
    loop_steps 800 600 (fun c => c) 0 1 (fun _ _ => no_text) (fun _ _ _ => 0) (fun id d w => Some (with_deadline w (id + d))) (fun _ => 0) 0 5
      (LoopMonitor MonYield2) (with_kern w2 (as_thread k3 1)) = Some (LoopRun 2, w6) /\ deadline w6 = 0x8203.
Proof.
  destruct (event_thread_serves 800 600 (fun c => c) 0 1 (fun _ _ => no_text) (fun _ _ _ => 0) (fun id d w => Some (with_deadline w (id + d)))
    (fun _ => 0) 0 1 0x8200 3 waiting_world 0 0) as (k1 & w2 & k3 & _ & _ & E2 & H2 & E3 & H3 & w4 & q & H4 & _ & E5).
  - reflexivity.
  - unfold owns_monitor. cbn. done.
  - exact none_waiting_queued.
  - exact none_waiting_queued.
  - lia.
  - done.
  - by intros id d w1 w2 [= <-].
  - exists k1, w2, k3, w4. eexists. split; [exact E2|]. split; [exact H2|]. split; [exact E3|]. split; [exact H3|]. split; [exact H4|].
    split; [exact E5|]. reflexivity.
Defined.
