(* ===== verification/Syscall.v ===== *)
(** * System calls: [system/syscall.cpp], [include/system.h],
    [system/api/system.cpp]

    [do_syscall] reads the stack frame of the caller through the page tables and
    dispatches on the code.  The state is that of the other files together; file
    objects are the interface [FileOps].  A call that has to wait answers where
    it stands ([SysLockWait], [SysMonitor]); the waiting itself is in [Process]. *)
From S2P Require Import Prelude BitOps BitAlloc Queue Memory Process Objects Gui Events.

(** ** [SyscallCode] *)

Inductive SyscallCode :=
  | SYSCALL_NULL | SYSCALL_ALLOC | SYSCALL_ALLOC_AT
  | SYSCALL_OPEN | SYSCALL_SEEK | SYSCALL_READ | SYSCALL_WRITE
  | SYSCALL_NEW_THREAD | SYSCALL_YIELD | SYSCALL_GET_ENV | SYSCALL_SUBSCRIBE
  | SYSCALL_LOCK | SYSCALL_UNLOCK | SYSCALL_MONITOR | SYSCALL_UNMONITOR | SYSCALL_NOTIFY
  | SYSCALL_UPDATE_GUI | SYSCALL_REDRAW_GUI.

Definition syscall_codes : list SyscallCode :=
  [SYSCALL_NULL; SYSCALL_ALLOC; SYSCALL_ALLOC_AT; SYSCALL_OPEN; SYSCALL_SEEK; SYSCALL_READ; SYSCALL_WRITE;
   SYSCALL_NEW_THREAD; SYSCALL_YIELD; SYSCALL_GET_ENV; SYSCALL_SUBSCRIBE; SYSCALL_LOCK; SYSCALL_UNLOCK;
   SYSCALL_MONITOR; SYSCALL_UNMONITOR; SYSCALL_NOTIFY; SYSCALL_UPDATE_GUI; SYSCALL_REDRAW_GUI].

Definition SyscallCode_MAX : Z := 18.

Definition code_value (c : SyscallCode) : Z :=
  match c with
  | SYSCALL_NULL => 0 | SYSCALL_ALLOC => 1 | SYSCALL_ALLOC_AT => 2 | SYSCALL_OPEN => 3 | SYSCALL_SEEK => 4
  | SYSCALL_READ => 5 | SYSCALL_WRITE => 6 | SYSCALL_NEW_THREAD => 7 | SYSCALL_YIELD => 8
  | SYSCALL_GET_ENV => 9 | SYSCALL_SUBSCRIBE => 10 | SYSCALL_LOCK => 11 | SYSCALL_UNLOCK => 12
  | SYSCALL_MONITOR => 13 | SYSCALL_UNMONITOR => 14 | SYSCALL_NOTIFY => 15
  | SYSCALL_UPDATE_GUI => 16 | SYSCALL_REDRAW_GUI => 17
  end.

(** File objects: their virtual methods, by address. *)
Class FileOps (F : Type) := {
  file_open : Z -> F -> Z * F;
  file_seek : Z -> Z -> F -> Z * F;
  file_read : Z -> Z -> Z -> F -> Z * F;
  file_write : Z -> Z -> Z -> F -> Z * F
}.

Record Sys (F : Type) := { sys_world : World; sys_machine : machine; sys_files : F }.
Arguments sys_world {F}. Arguments sys_machine {F}. Arguments sys_files {F}.

(** Where a call stands when it comes back to the dispatcher. *)
Inductive sys_result :=
  | SysReturn (retval : Z)
  | SysYield                     (** in the [yield] of [syscall_yield], then 1 *)
  | SysLockWait                  (** in the [yield] of [lock], then 1 *)
  | SysMonitor (m_h diff : Z).   (** in [monitor], then 1 *)

Section syscall.
Context {F : Type} `{FileOps F}.
Context (win_index sizeof_GUIWindow : Z) (gui_fuel : nat).
Implicit Types (s : Sys F).

Definition sys_kern s : kernel := kern (sys_world s).
Definition with_sys_kern s (k : kernel) : Sys F :=
  {| sys_world := with_kern (sys_world s) k; sys_machine := sys_machine s; sys_files := sys_files s |}.
Definition with_sys_world s (w : World) : Sys F :=
  {| sys_world := w; sys_machine := sys_machine s; sys_files := sys_files s |}.
Definition with_sys_machine s (m : machine) : Sys F :=
  {| sys_world := sys_world s; sys_machine := m; sys_files := sys_files s |}.
Definition with_sys_files s (f : F) : Sys F :=
  {| sys_world := sys_world s; sys_machine := sys_machine s; sys_files := f |}.

Definition thisProc s : Process := procs (sys_kern s) (proc_id (sys_kern s)).
Definition set_thisProc s (p : Process) : Sys F :=
  with_sys_kern s (set_process (sys_kern s) (proc_id (sys_kern s)) p).

(** A word of the caller's memory. *)
Definition user_word s (a : Z) : option Z := '(v, _) ← vload a (sys_machine s); Some v.

(** An operation on the memory. *)
Definition on_machine {A} (c : K A) s : option (A * Sys F) :=
  '(x, m) ← c (sys_machine s); Some (x, with_sys_machine s m).

Definition syscall_null (data : Z) s : option (sys_result * Sys F) := Some (SysReturn (s32 data), s).

Definition syscall_alloc (pages : Z) s : option (sys_result * Sys F) :=
  '(v, s) ← on_machine (virt_alloc_pages pages PAGE_USER_DATA) s; Some (SysReturn (s32 v), s).

Definition syscall_alloc_at (params : Z) s : option (sys_result * Sys F) :=
  pages ← user_word s params;
  vaddr ← user_word s (params + 4);
  '(v, s) ← on_machine (virt_alloc_pages_at pages vaddr PAGE_USER_DATA) s; Some (SysReturn (s32 v), s).

(** ** File handles *)

Fixpoint free_handle (n : nat) (f : Z) (files : Z -> Z) : option Z :=
  match n with
  | O => None
  | S n => if files f =? 0 then Some f else free_handle n (f + 1) files
  end.

Definition alloc_proc_filehandle (file : Z) s : Z * Sys F :=
  match free_handle (Z.to_nat MAX_PROC_FILES) 0 (files (thisProc s)) with
  | Some f => (f, set_thisProc s (with_files (thisProc s) (upd (files (thisProc s)) f file)))
  | None => (-1, s)
  end.

Definition get_file_by_handle (fh : Z) s : Z :=
  if (fh <? 0) || (MAX_PROC_FILES <=? fh) then 0 else files (thisProc s) fh.

Definition syscall_open (name : Z) s : option (sys_result * Sys F) :=
  let '(file, f) := file_open name (sys_files s) in
  let '(fh, s) := alloc_proc_filehandle file (with_sys_files s f) in
  Some (SysReturn fh, s).

Definition syscall_seek (params : Z) s : option (sys_result * Sys F) :=
  filehandle ← user_word s params;
  let file := get_file_by_handle (s32 filehandle) s in
  if file =? 0 then Some (SysReturn (-1), s) else
  offset ← user_word s (params + 4);
  let '(r, f) := file_seek file (s32 offset) (sys_files s) in
  Some (SysReturn r, with_sys_files s f).

Definition syscall_read (params : Z) s : option (sys_result * Sys F) :=
  filehandle ← user_word s params;
  let file := get_file_by_handle (s32 filehandle) s in
  if file =? 0 then Some (SysReturn (-1), s) else
  buffer ← user_word s (params + 4);
  length ← user_word s (params + 8);
  let '(r, f) := file_read file buffer length (sys_files s) in
  Some (SysReturn r, with_sys_files s f).

Definition syscall_write (params : Z) s : option (sys_result * Sys F) :=
  filehandle ← user_word s params;
  let file := get_file_by_handle (s32 filehandle) s in
  if file =? 0 then Some (SysReturn (-1), s) else
  buffer ← user_word s (params + 4);
  length ← user_word s (params + 8);
  let '(r, f) := file_write file buffer length (sys_files s) in
  Some (SysReturn r, with_sys_files s f).

(** ** Threads, the environment, events *)

Definition syscall_new_thread (params : Z) s : option (sys_result * Sys F) :=
  function ← user_word s params;
  '(thread, k, m) ← new_user_thread function 0 0 (sys_kern s) (sys_machine s);
  Some (SysReturn (match thread with Some _ => 1 | None => 0 end), with_sys_kern (with_sys_machine s m) k).

Definition syscall_yield s : option (sys_result * Sys F) := Some (SysYield, s).

Definition with_userEnv (p : Process) (e : Z) : Process :=
  {| p_cr3 := p_cr3 p; thread_index := thread_index p; num_running_threads := num_running_threads p; files := files p;
     locks := locks p; monitors := monitors p; env := env p; userEnv := e; msgQueue := msgQueue p |}.

Definition syscall_get_environment s : option (sys_result * Sys F) :=
  s ← (if userEnv (thisProc s) =? 0 then
         '(env_paddr, s) ← on_machine (get_physical (env (thisProc s))) s;
         '(e, s) ← on_machine (next_virtual_pages 1) s;
         let s := set_thisProc s (with_userEnv (thisProc s) e) in
         '(_, s) ← on_machine (map_to e env_paddr PAGE_USER_DATA) s;
         Some s
       else Some s);
  Some (SysReturn (s32 (userEnv (thisProc s))), s).

(** The array of subscriber lists is indexed with the caller's number. *)
Definition syscall_subscribe (event : Z) s : option (sys_result * Sys F) :=
  '(_, w) ← sub_proc_event (proc_id (sys_kern s)) (s32 event) (sys_world s);
  Some (SysReturn 1, with_sys_world s w).

(** ** Locks and monitors *)

Definition syscall_lock (lock_h : Z) s : option (sys_result * Sys F) :=
  l ← get_lock (proc_id (sys_kern s)) (s32 lock_h);
  '(o, k) ← lock_enter (proc_id (sys_kern s)) l (sys_kern s);
  Some (match o with Returns => SysReturn 1 | Yields => SysLockWait end, with_sys_kern s k).

Definition syscall_unlock (lock_h : Z) s : option (sys_result * Sys F) :=
  l ← get_lock (proc_id (sys_kern s)) (s32 lock_h);
  Some (SysReturn 1, with_sys_kern s (unlock l (sys_kern s))).

Definition syscall_monitor (params : Z) s : option (sys_result * Sys F) :=
  m_h ← user_word s params;
  diff ← user_word s (params + 4);
  Some (SysMonitor (s32 m_h) (s32 diff), s).

Definition syscall_unmonitor (monitor_h : Z) s : option (sys_result * Sys F) :=
  k ← unmonitor (s32 monitor_h) (sys_kern s); Some (SysReturn 1, with_sys_kern s k).

Definition syscall_notify (params : Z) s : option (sys_result * Sys F) :=
  m_h ← user_word s params;
  diff ← user_word s (params + 4);
  k ← notify (proc_id (sys_kern s)) (s32 m_h) (s32 diff) (sys_kern s);
  Some (SysReturn 1, with_sys_kern s k).

(** ** The window manager *)

Definition syscall_update_gui s : option (sys_result * Sys F) :=
  let w := sys_world s in
  m ← gui_update_proc win_index sizeof_GUIWindow (fun p => env (procs (kern w) p)) (fun p => userEnv (procs (kern w) p))
        gui_fuel (proc_id (kern w)) (winmgr w);
  Some (SysReturn 1, with_sys_world s (with_winmgr w m)).

Fixpoint send_display (msgs : list DisplayMsg) (w : World) : option World :=
  match msgs with
  | [] => Some w
  | msg :: msgs => w ← new_display_msg msg w; send_display msgs w
  end.

Definition syscall_redraw_gui s : option (sys_result * Sys F) :=
  let w := sys_world s in
  '(m, msgs) ← gui_redraw_proc win_index sizeof_GUIWindow (proc_id (kern w)) (winmgr w);
  w ← send_display msgs (with_winmgr w m);
  Some (SysReturn 1, with_sys_world s w).

(** ** The dispatcher *)

(** [syscall_table], as [init_syscall] fills it. *)
Definition syscall_table (c : SyscallCode) : Z -> Sys F -> option (sys_result * Sys F) :=
  match c with
  | SYSCALL_NULL => syscall_null
  | SYSCALL_ALLOC => syscall_alloc
  | SYSCALL_ALLOC_AT => syscall_alloc_at
  | SYSCALL_OPEN => syscall_open
  | SYSCALL_SEEK => syscall_seek
  | SYSCALL_READ => syscall_read
  | SYSCALL_WRITE => syscall_write
  | SYSCALL_NEW_THREAD => syscall_new_thread
  | SYSCALL_YIELD => fun _ => syscall_yield
  | SYSCALL_SUBSCRIBE => syscall_subscribe
  | SYSCALL_GET_ENV => fun _ => syscall_get_environment
  | SYSCALL_LOCK => syscall_lock
  | SYSCALL_UNLOCK => syscall_unlock
  | SYSCALL_MONITOR => syscall_monitor
  | SYSCALL_UNMONITOR => syscall_unmonitor
  | SYSCALL_NOTIFY => syscall_notify
  | SYSCALL_UPDATE_GUI => fun _ => syscall_update_gui
  | SYSCALL_REDRAW_GUI => fun _ => syscall_redraw_gui
  end.

Definition do_syscall (user_args : Z) s : option (sys_result * Sys F) :=
  fn_code ← user_word s (user_args + 4);
  if SyscallCode_MAX <=? fn_code then Some (SysReturn (-1), s) else
  syscall_fn ← arr_get syscall_codes fn_code;
  args ← user_word s (user_args + 8);
  syscall_table syscall_fn args s.

(** ** The library of user space *)

Inductive request :=
  | Alloc (pages : Z) | AllocAt (pages vaddr : Z)
  | Open (name : Z) | Seek (fh offset : Z) | Read (fh buf len : Z) | Write (fh buf len : Z)
  | NewThread (function : Z) | Yield | GetEnvironment | Subscribe (event : Z)
  | LockH (lock_h : Z) | UnlockH (lock_h : Z)
  | MonitorH (monitor_h diff : Z) | UnmonitorH (monitor_h : Z) | NotifyH (monitor_h diff : Z)
  | UpdateGui | RedrawGui.

(** The data word of [syscall(fn_code, data_ptr)]: a value, or the address of a
    parameter structure. *)
Inductive sys_arg := Direct (v : Z) | Params (ws : list Z).

(** What the functions of [sysapi] pass. *)
Definition sysapi (r : request) : SyscallCode * sys_arg :=
  match r with
  | Alloc pages => (SYSCALL_ALLOC, Direct pages)
  | AllocAt pages vaddr => (SYSCALL_ALLOC_AT, Params [pages; vaddr])
  | Open name => (SYSCALL_OPEN, Direct name)
  | Seek fh offset => (SYSCALL_SEEK, Params [u32 fh; u32 offset])
  | Read fh buf len => (SYSCALL_READ, Params [u32 fh; buf; len])
  | Write fh buf len => (SYSCALL_WRITE, Params [u32 fh; buf; len])
  | NewThread function => (SYSCALL_NEW_THREAD, Params [function])
  | Yield => (SYSCALL_YIELD, Direct 0)
  | GetEnvironment => (SYSCALL_GET_ENV, Direct 0)
  | Subscribe event => (SYSCALL_SUBSCRIBE, Direct (u32 event))
  | LockH lock_h => (SYSCALL_LOCK, Direct (u32 lock_h))
  | UnlockH lock_h => (SYSCALL_UNLOCK, Direct (u32 lock_h))
  | MonitorH monitor_h diff => (SYSCALL_MONITOR, Params [u32 monitor_h; u32 diff])
  | UnmonitorH monitor_h => (SYSCALL_UNMONITOR, Direct (u32 monitor_h))
  | NotifyH monitor_h diff => (SYSCALL_NOTIFY, Params [u32 monitor_h; u32 diff])
  | UpdateGui => (SYSCALL_UPDATE_GUI, Direct 0)
  | RedrawGui => (SYSCALL_REDRAW_GUI, Direct 0)
  end.

(** [sysapi::read] and [write]: a driver of user space takes the call if there
    is one ([inl]), else the kernel. *)
Definition sysapi_io (user_filetable : Z -> Z) (r : request) : option (Z + SyscallCode * sys_arg) :=
  match r with
  | Read fh _ _ | Write fh _ _ =>
      let i := Z.rem fh MAX_PROC_FILES in
      if i <? 0 then None else
      if negb (user_filetable i =? 0) then Some (inl (user_filetable i)) else Some (inr (sysapi r))
  | _ => Some (inr (sysapi r))
  end.

(** ** What the calls do, without their encoding *)

Definition with_file (fh : Z) s (op : Z -> F -> Z * F) : option (sys_result * Sys F) :=
  let file := get_file_by_handle fh s in
  if file =? 0 then Some (SysReturn (-1), s)
  else let '(r, f) := op file (sys_files s) in Some (SysReturn r, with_sys_files s f).

Definition serve (r : request) s : option (sys_result * Sys F) :=
  match r with
  | Alloc pages => syscall_alloc pages s
  | AllocAt pages vaddr =>
      '(v, s) ← on_machine (virt_alloc_pages_at pages vaddr PAGE_USER_DATA) s; Some (SysReturn (s32 v), s)
  | Open name => syscall_open name s
  | Seek fh offset => with_file fh s (fun file => file_seek file offset)
  | Read fh buf len => with_file fh s (fun file => file_read file buf len)
  | Write fh buf len => with_file fh s (fun file => file_write file buf len)
  | NewThread function =>
      '(thread, k, m) ← new_user_thread function 0 0 (sys_kern s) (sys_machine s);
      Some (SysReturn (match thread with Some _ => 1 | None => 0 end), with_sys_kern (with_sys_machine s m) k)
  | Yield => Some (SysYield, s)
  | GetEnvironment => syscall_get_environment s
  | Subscribe event =>
      '(_, w) ← sub_proc_event (proc_id (sys_kern s)) event (sys_world s); Some (SysReturn 1, with_sys_world s w)
  | LockH lock_h =>
      l ← get_lock (proc_id (sys_kern s)) lock_h;
      '(o, k) ← lock_enter (proc_id (sys_kern s)) l (sys_kern s);
      Some (match o with Returns => SysReturn 1 | Yields => SysLockWait end, with_sys_kern s k)
  | UnlockH lock_h =>
      l ← get_lock (proc_id (sys_kern s)) lock_h; Some (SysReturn 1, with_sys_kern s (unlock l (sys_kern s)))
  | MonitorH monitor_h diff => Some (SysMonitor monitor_h diff, s)
  | UnmonitorH monitor_h => k ← unmonitor monitor_h (sys_kern s); Some (SysReturn 1, with_sys_kern s k)
  | NotifyH monitor_h diff =>
      k ← notify (proc_id (sys_kern s)) monitor_h diff (sys_kern s); Some (SysReturn 1, with_sys_kern s k)
  | UpdateGui => syscall_update_gui s
  | RedrawGui => syscall_redraw_gui s
  end.

(** The [int]s of a request are in range. *)
Definition request_ok (r : request) : Prop :=
  match r with
  | Seek fh offset => is_s32 fh /\ is_s32 offset
  | Read fh _ _ | Write fh _ _ => is_s32 fh
  | Subscribe e => is_s32 e
  | LockH h | UnlockH h | UnmonitorH h => is_s32 h
  | MonitorH h d | NotifyH h d => is_s32 h /\ is_s32 d
  | _ => True
  end.

(** The caller's stack holds the frame of [syscall] for a code and an argument. *)
Definition frame_at s (user_args : Z) (call : SyscallCode * sys_arg) : Prop :=
  user_word s (user_args + 4) = Some (code_value (fst call)) /\
  match snd call with
  | Direct v => user_word s (user_args + 8) = Some v
  | Params ws => exists p, user_word s (user_args + 8) = Some p /\
      forall i w, ws !! i = Some w -> user_word s (p + 4 * Z.of_nat i) = Some w
  end.

Lemma table_of_code c : arr_get syscall_codes (code_value c) = Some c /\ (SyscallCode_MAX <=? code_value c) = false.
Proof. by destruct c. Qed.

Lemma s32_of_u32 x : is_s32 x -> s32 (u32 x) = x.
Proof. intros. by rewrite s32_u32, s32_small. Qed.

Lemma params_read s p ws : (forall i w, ws !! i = Some w -> user_word s (p + 4 * Z.of_nat i) = Some w) ->
  match ws with
  | [a] => user_word s p = Some a
  | [a; b] => user_word s p = Some a /\ user_word s (p + 4) = Some b
  | [a; b; c] => user_word s p = Some a /\ user_word s (p + 4) = Some b /\ user_word s (p + 8) = Some c
  | _ => True
  end.
Proof.
  intros Hw. destruct ws as [|a [|b [|c [|]]]]; try done.
  - rewrite <- (Hw 0%nat a eq_refl). f_equal. lia.
  - split; [rewrite <- (Hw 0%nat a eq_refl); f_equal; lia|exact (Hw 1%nat b eq_refl)].
  - split; [rewrite <- (Hw 0%nat a eq_refl); f_equal; lia|].
    split; [exact (Hw 1%nat b eq_refl)|exact (Hw 2%nat c eq_refl)].
Qed.

Lemma do_syscall_serves r user_args s :
  request_ok r -> frame_at s user_args (sysapi r) -> do_syscall user_args s = serve r s.
Proof.
  intros Hok [Hc Ha]. unfold do_syscall. rewrite Hc. cbn [mbind option_bind].
  destruct (table_of_code (fst (sysapi r))) as [-> ->]. cbn [mbind option_bind].
  destruct r; cbn [sysapi fst snd] in *; try (rewrite Ha); cbn [mbind option_bind syscall_table serve]; try done.
  all: try (destruct Ha as (p & -> & Hp); apply (fun H => params_read s p _ H) in Hp; cbn [mbind option_bind]).
  - unfold syscall_alloc_at. destruct Hp as [-> ->]. done.
  - unfold syscall_seek, with_file. destruct Hp as [-> ->], Hok. cbn [mbind option_bind]. by rewrite !s32_of_u32.
  - unfold syscall_read, with_file. destruct Hp as (-> & -> & ->). cbn [mbind option_bind]. by rewrite !s32_of_u32.
  - unfold syscall_write, with_file. destruct Hp as (-> & -> & ->). cbn [mbind option_bind]. by rewrite !s32_of_u32.
  - unfold syscall_new_thread. by rewrite Hp.
  - unfold syscall_subscribe. by rewrite s32_of_u32.
  - unfold syscall_lock. by rewrite s32_of_u32.
  - unfold syscall_unlock. by rewrite s32_of_u32.
  - unfold syscall_monitor. destruct Hp as [-> ->], Hok. cbn [mbind option_bind]. by rewrite !s32_of_u32.
  - unfold syscall_unmonitor. by rewrite s32_of_u32.
  - unfold syscall_notify. destruct Hp as [-> ->], Hok. cbn [mbind option_bind]. by rewrite !s32_of_u32.
Qed.
End syscall.

(** C18: a call of the user library reaches its handler with the arguments it was
    given: the frame and the parameter structure [sysapi] builds are decoded to
    the same request by [do_syscall]; a code beyond the table answers -1 and
    changes nothing. *)
Theorem do_syscall_spec {F} `{FileOps F} win_index size fuel r user_args (s : Sys F) :
  (request_ok r -> frame_at s user_args (sysapi r) ->
     do_syscall win_index size fuel user_args s = serve win_index size fuel r s) /\
  (forall fn_code, user_word s (user_args + 4) = Some fn_code -> SyscallCode_MAX <= fn_code ->
     do_syscall win_index size fuel user_args s = Some (SysReturn (-1), s)).
Proof.
  split; [apply do_syscall_serves|]. intros fn_code Hf Hm. unfold do_syscall. rewrite Hf. cbn [mbind option_bind].
  by destruct (Z.leb_spec SyscallCode_MAX fn_code); [|lia].
Qed.

(** Files that are plain numbers: file 7 has the name at 50, no other exists. *)
#[export] Instance no_files : FileOps unit := {
  file_open name f := (if name =? 50 then 7 else 0, f);
  file_seek _ o f := (o, f); file_read _ _ n f := (n, f); file_write _ _ n f := (n, f)
}.

(** A machine without paging: the frame at 100, the parameters at 200. *)
Definition seek_machine : machine :=
  {| phys := fun a => if a =? 104 then 4 else if a =? 108 then 200 else if a =? 200 then 3 else 9;
     cr3 := 0; paging := false; page_tables := 0; page_dir := 0; page_allocator := new_BitAllocator 32;
     Memory.seed := 1; virt_alloc_ptr := 0; static_alloc_ptr := 0; static_alloc_limit := 0; page_copy_ptr := 0 |}.
Definition seek_sys : Sys unit := {| sys_world := desk_world; sys_machine := seek_machine; sys_files := tt |}.

Lemma do_syscall_spec_witness :
  do_syscall 0 0 0 100 seek_sys = serve 0 0 0 (Seek 3 9) seek_sys /\
  do_syscall 0 0 0 100 seek_sys = Some (SysReturn (-1), seek_sys).
Proof.
  assert (do_syscall 0 0 0 100 seek_sys = serve 0 0 0 (Seek 3 9) seek_sys) as E.
  { apply (do_syscall_spec 0 0 0 (Seek 3 9) 100 seek_sys).
    - cbn. unfold is_s32. lia.
    - split; [reflexivity|]. exists 200. split; [reflexivity|].
      intros [|[|i]] w Hw; cbn in Hw; simplify_eq; reflexivity. }
  split; [exact E|]. rewrite E. reflexivity.
Defined.

Section handles.
Context {F : Type} `{FileOps F}.
Implicit Types (s : Sys F).

Lemma free_handle_spec n f files :
  match free_handle n f files with
  | Some h => f <= h < f + Z.of_nat n /\ files h = 0 /\ forall g, f <= g < h -> files g <> 0
  | None => forall g, f <= g < f + Z.of_nat n -> files g <> 0
  end.
Proof.
  revert f. induction n as [|n IH]; intros f; cbn [free_handle]; [intros; lia|].
  destruct (Z.eqb_spec (files f) 0) as [E|E]; [split; [lia|]; split; [done|intros; lia]|].
  specialize (IH (f + 1)). destruct (free_handle n (f + 1) files) as [h|].
  - destruct IH as (H1 & H2 & H3). split; [lia|]. split; [done|]. intros g Hg.
    destruct (decide (g = f)) as [->|]; [done|apply H3; lia].
  - intros g Hg. destruct (decide (g = f)) as [->|]; [done|apply IH; lia].
Qed.
End handles.

(** [open] gives the file the lowest free handle of the process and leaves
    the other handles, or answers -1 when all are taken; the handle leads to the
    file.  When the file does not exist the answer is the lowest free handle as
    well, but the handle stays free and a read from it answers -1. *)
Lemma open_handle_ok {F} `{FileOps F} name (s : Sys F) :
  let file := fst (file_open name (sys_files s)) in
  exists h s', syscall_open name s = Some (SysReturn h, s') /\ sys_files s' = snd (file_open name (sys_files s)) /\
    ((0 <= h < MAX_PROC_FILES /\ get_file_by_handle h s = 0 /\
      (forall g, 0 <= g < h -> get_file_by_handle g s <> 0) /\
      get_file_by_handle h s' = file /\
      (forall g, g <> h -> get_file_by_handle g s' = get_file_by_handle g s) /\
      (file = 0 -> forall op, with_file h s' op = Some (SysReturn (-1), s')))
     \/ (h = -1 /\ (forall g, 0 <= g < MAX_PROC_FILES -> get_file_by_handle g s <> 0) /\
         forall g, get_file_by_handle g s' = get_file_by_handle g s)).
Proof.
  cbv zeta. unfold syscall_open. destruct (file_open name (sys_files s)) as [file f] eqn:Eo. cbn [fst].
  unfold alloc_proc_filehandle. set (fs := files (thisProc (with_sys_files s f))).
  assert (forall g, get_file_by_handle g s = if (g <? 0) || (MAX_PROC_FILES <=? g) then 0 else fs g) as Eg by done.
  pose proof (free_handle_spec (Z.to_nat MAX_PROC_FILES) 0 fs) as Hf.
  rewrite Z2Nat.id, Z.add_0_l in Hf by (unfold MAX_PROC_FILES; lia).
  destruct (free_handle _ 0 fs) as [h|].
  - destruct Hf as (Hh & H0 & Hmin). eexists h, _. split; [reflexivity|]. split; [done|]. left.
    match goal with |- context [get_file_by_handle h ?s1 = file] => set (s' := s1) end.
    assert (forall g, get_file_by_handle g s' =
      if (g <? 0) || (MAX_PROC_FILES <=? g) then 0 else if g =? h then file else fs g) as Es.
    { intros g. unfold get_file_by_handle. destruct (_ || _); [done|]. unfold s', thisProc, set_thisProc, sys_kern.
      cbn [sys_world with_sys_kern kern with_kern set_process procs proc_id]. unfold upd at 1.
      rewrite Z.eqb_refl. cbn [files with_files]. unfold upd. by destruct (g =? h). }
    assert (((h <? 0) || (MAX_PROC_FILES <=? h)) = false) as Eh by (split_ltb; cbn; done || lia).
    split; [done|]. split; [by rewrite Eg, Eh|]. split.
    { intros g Hg. rewrite Eg. split_ltb; cbn; try lia. by apply Hmin. }
    split; [by rewrite Es, Eh, Z.eqb_refl|]. split.
    { intros g Hg. rewrite Es, Eg. by destruct (Z.eqb_spec g h). }
    intros -> op. unfold with_file. by rewrite Es, Eh, Z.eqb_refl.
  - eexists (-1), _. split; [reflexivity|]. split; [done|]. right. split; [done|]. split; [|done].
    intros g Hg. rewrite Eg. split_ltb; cbn; try lia. by apply Hf.
Qed.

