(* ===== verification/Files.v ===== *)
(** * The kernel's file objects: [include/std/file.h],
    [system/include/filesystem.h], and the classes that derive from them

    The instance of [FileOps] by which the system calls of [Syscall] reach the
    files of [Tar] and the terminal of [Vga].  A file is the address of an object;
    its class decides which methods it overrides, the others answer -1.  The
    terminal of [main.cpp], which draws on a window, is in [Start]. *)
From S2P Require Import Prelude Str Queue Shapes Vga Memory Process Tar Objects Gui Events Syscall.

(** ** The classes *)

(** [File] alone, [TarFile] with its index in [files], [VGATerminal]. *)
Inductive FileObject := PlainFile | TarObject (i : Z) | TerminalObject.

(** The methods of [File]. *)
Definition File_seek (offset : Z) : Z := -1.
Definition File_read (buffer length : Z) : Z := -1.
Definition File_write (buffer length : Z) : Z := -1.

(** What the objects hold; the memory is what the buffers are in. *)
Record FileStore := { fs_tar : Z -> TarFile; fs_terminal : VGATerminal; fs_mem : mem }.

Definition sizeof_TarFile : Z := 24.

Section files.
Context (disk : Z -> Z -> Z) (VGA_WIDTH VGA_HEIGHT : Z) (ASCII_MAP : Z -> Z).
(** Addresses: [TarFS::files], the null file, the terminal, the header in [open]. *)
Context (tar_base nullfile terminal hdr : Z) (fuel : nat).
Implicit Types (st : FileStore).

Definition tar_address (i : Z) : Z := tar_base + sizeof_TarFile * i.

Definition object_at (file : Z) : option FileObject :=
  if file =? nullfile then Some PlainFile else
  if file =? terminal then Some TerminalObject else
  let i := (file - tar_base) / sizeof_TarFile in
  if (0 <=? i) && (i <? max_files) && (file =? tar_address i) then Some (TarObject i) else None.

Definition with_tar st (i : Z) (f : TarFile) (m : mem) : FileStore :=
  {| fs_tar := fun j => if j =? i then f else fs_tar st j; fs_terminal := fs_terminal st; fs_mem := m |}.

(** A call on the object at an address; a state that is [None] has had an
    undefined access, or a search that does not end. *)
Definition on_object (file : Z) (f : FileObject -> FileStore -> Z * FileStore) (st : option FileStore) : Z * option FileStore :=
  match st, object_at file with
  | Some st, Some o => let '(r, st) := f o st in (r, Some st)
  | _, _ => (0, None)
  end.

Definition seek_object (offset : Z) (o : FileObject) st : Z * FileStore :=
  match o with
  | TarObject i => let '(r, f) := tar_seek offset (fs_tar st i) in (r, with_tar st i f (fs_mem st))
  | PlainFile | TerminalObject => (File_seek offset, st)
  end.

Definition read_object (buffer length : Z) (o : FileObject) st : Z * FileStore :=
  match o with
  | TarObject i => let '(r, f, m) := tar_read disk buffer length (fs_tar st i) (fs_mem st) in (s32 r, with_tar st i f m)
  | TerminalObject => (terminal_read length, st)
  | PlainFile => (File_read buffer length, st)
  end.

Definition write_object (buffer length : Z) (o : FileObject) st : Z * FileStore :=
  match o with
  | TerminalObject =>
      let '(r, t) := terminal_write VGA_WIDTH VGA_HEIGHT ASCII_MAP (Str.text (fs_mem st) buffer length) (fs_terminal st) in
      (r, {| fs_tar := fs_tar st; fs_terminal := t; fs_mem := fs_mem st |})
  | TarObject _ | PlainFile => (File_write buffer length, st)
  end.

Definition open_file (name : Z) (st : option FileStore) : Z * option FileStore :=
  match st with
  | None => (0, None)
  | Some st =>
      match tar_open disk fuel hdr name (fs_tar st) (fs_mem st) with
      | None => (0, None)
      | Some (i, files, m) =>
          (match i with Some i => tar_address i | None => 0 end,
           Some {| fs_tar := files; fs_terminal := fs_terminal st; fs_mem := m |})
      end
  end.

#[local] Instance kernel_files : FileOps (option FileStore) := {
  file_open := open_file;
  file_seek file offset := on_object file (seek_object offset);
  file_read file buffer length := on_object file (read_object buffer length);
  file_write file buffer length := on_object file (write_object buffer length)
}.

(** ** Objects and addresses *)

(** The null file and the terminal are outside the array of files. *)
Definition objects_apart : Prop :=
  0 < tar_base /\ forall a, a = nullfile \/ a = terminal -> a < tar_base \/ tar_address max_files <= a.

Lemma object_at_tar i : objects_apart -> 0 <= i < max_files -> object_at (tar_address i) = Some (TarObject i).
Proof.
  intros [Hb Ha] Hi. unfold object_at. pose proof (Ha nullfile ltac:(by left)). pose proof (Ha terminal ltac:(by right)).
  unfold tar_address, sizeof_TarFile, max_files in *.
  destruct (Z.eqb_spec (tar_base + 24 * i) nullfile); [lia|]. destruct (Z.eqb_spec (tar_base + 24 * i) terminal); [lia|].
  replace (tar_base + 24 * i - tar_base) with (i * 24) by lia. rewrite Z.div_mul by lia.
  rewrite Z.eqb_refl. split_ltb; cbn; done || lia.
Qed.

Lemma on_tar i f st r st' : objects_apart -> 0 <= i < max_files -> f (TarObject i) st = (r, st') ->
  on_object (tar_address i) f (Some st) = (r, Some st').
Proof. intros Ha Hi E. unfold on_object. by rewrite object_at_tar, E. Qed.

(** ** System calls on a file of the archive *)

Section calls.
Context (win_index size_GUIWindow : Z) (gui_fuel : nat).
Implicit Types (s : Sys (option FileStore)).
Abbreviation serve := (Syscall.serve win_index size_GUIWindow gui_fuel).

Lemma with_file_ok fh file s (op : Z -> option FileStore -> Z * option FileStore) r f :
  get_file_by_handle fh s = file -> file <> 0 -> op file (sys_files s) = (r, f) ->
  with_file fh s op = Some (SysReturn r, with_sys_files s f).
Proof. intros E Hne Eo. unfold with_file. rewrite E, Eo. by destruct (Z.eqb_spec file 0). Qed.

(** The file an [open] makes. *)
Definition opened_at (s0 : Z) : TarFile := {| header_sector := s0; current_sector := s0 + 1; cursor := 0; size := get_size (disk s0) |}.

Definition after_open st (i s0 : Z) : FileStore := with_tar st i (opened_at s0) (copy_in hdr (disk s0) 512 (fs_mem st)).

Lemma open_archive name s st headers i (s0 : Z) :
  objects_apart -> archive disk root_sector headers -> (length headers < fuel)%nat ->
  sys_files s = Some st -> find (name_matches disk hdr name (fs_mem st)) headers = Some s0 ->
  0 < s0 < 2147483648 -> 0 < get_size (disk s0) < 2147483648 -> alloc_file (fs_tar st) = Some i ->
  (exists g, 0 <= g < MAX_PROC_FILES /\ get_file_by_handle g s = 0) ->
  0 <= i < max_files /\ tar_address i <> 0 /\
  exists h s1, serve (Open name) s = Some (SysReturn h, s1) /\ 0 <= h < MAX_PROC_FILES /\ sys_files s1 = Some (after_open st i s0) /\
    get_file_by_handle h s1 = tar_address i /\ forall g, g <> h -> get_file_by_handle g s1 = get_file_by_handle g s.
Proof.
  intros Hap Har Hfuel Hst Hfind Hs0 Hsz Hal (g & Hg & Hfree).
  destruct (alloc_file_range _ _ _ _ Hal) as [Hi _]. change (0 + Z.of_nat (Z.to_nat max_files)) with max_files in Hi.
  split; [exact Hi|]. split; [destruct Hap; unfold tar_address, sizeof_TarFile; lia|].
  pose proof (tar_open_found disk fuel hdr name (fs_tar st) (fs_mem st) headers i s0 Har Hfuel Hal Hfind Hs0 Hsz) as Eo.
  assert (open_file name (Some st) = (tar_address i, Some (after_open st i s0))) as Ef by (unfold open_file; by rewrite Eo).
  destruct (open_handle_ok name s) as (h & s1 & E1 & Hfs & [(Hh & _ & _ & Hget & Hother & _)|(_ & Hno & _)]).
  2: { exfalso. by apply (Hno g). }
  rewrite Hst in Hget, Hfs. change (file_open name (Some st)) with (open_file name (Some st)) in Hget, Hfs. rewrite Ef in Hget, Hfs.
  by exists h, s1.
Qed.

(** C12: a file of the archive through the system calls.  [open] of a name, when
    some handle and some file are free, answers a handle; [seek] to an offset of
    the file answers 1; and [read] of [len] bytes from there, inside the file,
    answers [len] and stores exactly those bytes of the first file of the archive
    whose name matches, at the caller's address, changing no other byte but the
    header buffer of [open]; the other handles stay. *)
Theorem open_seek_read name s st headers i (s0 buf off len : Z) :
  objects_apart -> archive disk root_sector headers -> (length headers < fuel)%nat ->
  sys_files s = Some st -> find (name_matches disk hdr name (fs_mem st)) headers = Some s0 ->
  0 < s0 < 2147483648 -> get_size (disk s0) < 2147483648 -> alloc_file (fs_tar st) = Some i ->
  (exists g, 0 <= g < MAX_PROC_FILES /\ get_file_by_handle g s = 0) ->
  0 <= off < get_size (disk s0) -> 0 <= len -> off + len <= get_size (disk s0) ->
  exists h s1 s2 s3 st3,
    serve (Open name) s = Some (SysReturn h, s1) /\ 0 <= h < MAX_PROC_FILES /\
    serve (Seek h off) s1 = Some (SysReturn 1, s2) /\
    serve (Read h buf len) s2 = Some (SysReturn len, s3) /\ sys_files s3 = Some st3 /\
    stored disk s0 off buf len (copy_in hdr (disk s0) 512 (fs_mem st)) (fs_mem st3) /\
    forall g, g <> h -> get_file_by_handle g s3 = get_file_by_handle g s.
Proof.
  intros Hap Har Hfuel Hst Hfind Hs0 Hsz Hal Hg Hoff Hlen Hend.
  destruct (open_archive name s st headers i s0 Hap Har Hfuel Hst Hfind Hs0 ltac:(lia) Hal Hg) as (Hi & Hne & h & s1 & E1 & Hh & Hfs & Hget1 & Hother).
  pose proof (tar_seek_ok s0 (s0 + 1) 0 (get_size (disk s0)) off Hs0 Hoff Hsz) as Es. fold (opened_at s0) in Es.
  set (f1 := {| header_sector := s0; current_sector := s0 + 1 + off / 512; cursor := off; size := get_size (disk s0) |}) in *.
  set (st1 := after_open st i s0) in *.
  assert (seek_object off (TarObject i) st1 = (1, with_tar st1 i f1 (fs_mem st1))) as Eso.
  { unfold seek_object. change (fs_tar st1 i) with (if i =? i then opened_at s0 else fs_tar st i). by rewrite Z.eqb_refl, Es. }
  pose proof (on_tar i (seek_object off) st1 _ _ Hap Hi Eso) as E2.
  pose proof (tar_read_ok disk buf len f1 (fs_mem st1) eq_refl) as Hr. destruct (tar_read disk buf len f1 (fs_mem st1)) as [[r f2] m2] eqn:Er.
  destruct Hr as (-> & Hsto & _); [cbn; lia..|].
  assert (read_object buf len (TarObject i) (with_tar st1 i f1 (fs_mem st1)) = (len, with_tar (with_tar st1 i f1 (fs_mem st1)) i f2 m2)) as Ero.
  { unfold read_object. change (fs_tar (with_tar st1 i f1 (fs_mem st1)) i) with (if i =? i then f1 else fs_tar st1 i). rewrite Z.eqb_refl.
    change (fs_mem (with_tar st1 i f1 (fs_mem st1))) with (fs_mem st1). rewrite Er. f_equal. apply s32_small. unfold is_s32. lia. }
  pose proof (on_tar i (read_object buf len) _ _ _ Hap Hi Ero) as E3. set (st2 := with_tar st1 i f1 (fs_mem st1)) in *.
  exists h, s1, (with_sys_files s1 (Some st2)), (with_sys_files (with_sys_files s1 (Some st2)) (Some (with_tar st2 i f2 m2))), (with_tar st2 i f2 m2).
  split; [exact E1|]. split; [exact Hh|].
  split; [apply (with_file_ok h (tar_address i)); [exact Hget1|exact Hne|rewrite Hfs; exact E2]|].
  split; [apply (with_file_ok h (tar_address i)); [exact Hget1|exact Hne|exact E3]|].
  split; [done|]. split; [exact Hsto|]. exact Hother.
Qed.
End calls.
End files.

(** An archive of one file, "a", of the five bytes "hello". *)
Definition hello_disk (s i : Z) : Z :=
  if s =? 1 then (if i =? 0 then 97 else if i =? 124 then 53 else 0)
  else if s =? 2 then nth (Z.to_nat i) [104; 101; 108; 108; 111] 0 else 0.

Definition hello_store : FileStore :=
  {| fs_tar := fun _ => {| header_sector := 0; current_sector := 0; cursor := 0; size := 0 |};
     fs_terminal := terminal_init (fun _ => 0); fs_mem := mem_of 0x1000 [97; 0] |}.

Definition hello_sys : Sys (option FileStore) :=
  {| sys_world := desk_world; sys_machine := seek_machine; sys_files := Some hello_store |}.

Lemma open_seek_read_witness :
  let ops := kernel_files hello_disk 800 600 (fun c => c) 0x5000 0x4000 0x4100 0x2000 3 in
  exists s1 s2 s3 st3,
    @serve _ ops 0 0 0 (Open 0x1000) hello_sys = Some (SysReturn 0, s1) /\ @serve _ ops 0 0 0 (Seek 0 1) s1 = Some (SysReturn 1, s2) /\
    @serve _ ops 0 0 0 (Read 0 0x3000 3) s2 = Some (SysReturn 3, s3) /\ sys_files s3 = Some st3 /\
    Str.text (fs_mem st3) 0x3000 3 = [101; 108; 108].
Proof.
  intros ops.
  destruct (open_seek_read hello_disk 800 600 (fun c => c) 0x5000 0x4000 0x4100 0x2000 3 0 0 0 0x1000 hello_sys hello_store [1] 0 1 0x3000 1 3)
    as (h & s1 & s2 & s3 & st3 & E1 & Hh & E2 & E3 & Ef & Hst & _).
  - split; [lia|]. intros a. unfold tar_address, sizeof_TarFile, max_files. lia.
  - vm_compute. intuition congruence.
  - cbn. lia.
  - reflexivity.
  - vm_compute. reflexivity.
  - lia.
  - vm_compute. done.
  - reflexivity.
  - exists 0. by vm_compute.
  - vm_compute. intuition congruence.
  - lia.
  - vm_compute. congruence.
  - assert (h = 0) as -> by (vm_compute in E1; congruence).
    exists s1, s2, s3, st3. split; [exact E1|]. split; [exact E2|]. split; [exact E3|]. split; [exact Ef|].
    unfold Str.text. change (seqZ 0 3) with [0; 1; 2]. cbn [fmap list_fmap]. rewrite !Hst. vm_compute. reflexivity.
Defined.
