(* ===== verification/Loader.v ===== *)
(** * Loading a program from the archive

    The ELF loader of [Elf] is a client of the system calls; the interface
    [FileApi] states what it relies on, and the calls of [Syscall] on the files of
    [Files] implement it.  Here: what the loader leaves in memory. *)
From S2P Require Import Prelude Str Queue Shapes Vga Memory Process Tar Elf Objects Gui Events Syscall Files.

(** ** What the loader relies on *)

(** The bytes [data pos ..] of a file stored at [buf]. *)
Definition filled (data : Z -> Z) (pos buf len : Z) (m m' : mem) : Prop :=
  forall a, m' a = if (buf <=? a) && (a <? buf + len) then data (pos + (a - buf)) else m a.

(** [opened u fh data n pos]: the handle [fh] leads to a file of the [n] bytes
    [data], at [pos], which is unknown after a read. *)
Class FileApi (U : Type) `{SysApi U} := {
  opened : U -> Z -> (Z -> Z) -> Z -> option Z -> Prop;
  api_seek u fh data n pos off : opened u fh data n pos -> 0 <= off < n ->
    exists u', sys_seek fh off u = (1, u') /\ u_mem u' = u_mem u /\ opened u' fh data n (Some off);
  api_read u fh data n pos buf len : opened u fh data n (Some pos) -> 0 <= len -> pos + len <= n ->
    exists u', sys_read fh buf len u = (len, u') /\ filled data pos buf len (u_mem u) (u_mem u') /\ opened u' fh data n None;
  api_alloc_at u fh data n pos pages vaddr : opened u fh data n pos ->
    exists r u', sys_alloc_at pages vaddr u = (r, u') /\ opened u' fh data n pos /\
      forall a, ~ vaddr <= a < vaddr + 4096 * pages -> u_mem u' a = u_mem u a;
  api_alloc u fh data n pos pages : opened u fh data n pos ->
    exists base u', sys_alloc pages u = (base, u') /\ opened u' fh data n pos /\
      forall a, ~ base <= a < base + 4096 * pages -> u_mem u' a = u_mem u a
}.

(** ** Headers *)

Lemma filled_rd32 data pos buf len m m' k : filled data pos buf len m m' -> 0 <= k -> k + 4 <= len -> rd32 m' (buf + k) = rd32 data (pos + k).
Proof.
  intros Hf H0 H1. unfold rd32. rewrite !Hf.
  assert (forall j, 0 <= j < 4 -> ((buf <=? buf + k + j) && (buf + k + j <? buf + len)) = true) as Hin by (intros j Hj; split_ltb; cbn; done || lia).
  pose proof (Hin 0 ltac:(lia)) as E. rewrite Z.add_0_r in E. rewrite E, !Hin by lia. f_equal; [f_equal; [f_equal|]|]; f_equal; try f_equal; lia.
Qed.

Lemma filled_rd16 data pos buf len m m' k : filled data pos buf len m m' -> 0 <= k -> k + 2 <= len -> rd16 m' (buf + k) = rd16 data (pos + k).
Proof.
  intros Hf H0 H1. unfold rd16. rewrite !Hf.
  assert (forall j, 0 <= j < 2 -> ((buf <=? buf + k + j) && (buf + k + j <? buf + len)) = true) as Hin by (intros j Hj; split_ltb; cbn; done || lia).
  pose proof (Hin 0 ltac:(lia)) as E. rewrite Z.add_0_r in E. rewrite E, !Hin by lia. f_equal; f_equal; try f_equal; lia.
Qed.

(** The headers of the bytes of a file. *)
Definition file_Ehdr (data : Z -> Z) : Ehdr := read_Ehdr data 0.
Definition file_Phdrs (data : Z -> Z) : list Phdr :=
  map (fun i => read_Phdr data (e_phoff (file_Ehdr data) + sizeof_Phdr * i)) (seqZ 0 (e_phnum (file_Ehdr data))).

Lemma filled_Ehdr data buf m m' : filled data 0 buf sizeof_Ehdr m m' -> read_Ehdr m' buf = file_Ehdr data.
Proof.
  intros Hf. unfold file_Ehdr, read_Ehdr. unfold sizeof_Ehdr in *.
  rewrite !(filled_rd32 data 0 buf 52 m), (filled_rd16 data 0 buf 52 m) by (done || lia). reflexivity.
Qed.

Lemma filled_Phdr data off buf n m m' i : filled data off buf (sizeof_Phdr * n) m m' -> 0 <= i < n ->
  read_Phdr m' (buf + sizeof_Phdr * i) = read_Phdr data (off + sizeof_Phdr * i).
Proof.
  intros Hf Hi. unfold sizeof_Phdr in *. pose proof (filled_rd32 data off buf (32 * n) m m') as Hr.
  assert (forall k, 0 <= k -> k + 4 <= 32 -> rd32 m' (buf + 32 * i + k) = rd32 data (off + 32 * i + k)) as H.
  { intros k H0 H1. rewrite <- !Z.add_assoc. apply Hr; [done|lia|lia]. }
  unfold read_Phdr. pose proof (H 0 ltac:(lia) ltac:(lia)) as E. rewrite !Z.add_0_r in E. rewrite E, !H by lia. reflexivity.
Qed.

(** ** Segments *)

(** The bytes of a segment are at [dest]. *)
Definition loaded (data : Z -> Z) (dest : Phdr -> Z) (p : Phdr) (m : mem) : Prop :=
  forall k, 0 <= k < p_filesz p -> m (dest p + k) = data (p_offset p + k).

(** A loop over the segments that puts each at [dest], within a region of its own. *)
Section segments.
Context {U : Type} `{FA : FileApi U}.
Context (fh : Z) (data : Z -> Z) (n : Z) (step : U -> Phdr -> U) (dest start stop : Phdr -> Z) (good : Phdr -> Prop).

Definition step_loads : Prop := forall u pos p, opened u fh data n pos -> good p ->
  (exists pos, opened (step u p) fh data n pos) /\
  (p_type p = PT_LOAD -> start p <= dest p /\ dest p + p_filesz p <= stop p /\ loaded data dest p (u_mem (step u p))) /\
  forall a, (p_type p = PT_LOAD -> ~ start p <= a < stop p) -> u_mem (step u p) a = u_mem u a.

Definition regions_apart (p q : Phdr) : Prop := p_type p = PT_LOAD -> p_type q = PT_LOAD -> stop p <= start q \/ stop q <= start p.

Lemma segments_loaded ps u pos : step_loads -> opened u fh data n pos -> Forall good ps -> ForallOrdPairs regions_apart ps ->
  let u' := foldl step u ps in
  (exists pos, opened u' fh data n pos) /\
  (forall p, p ∈ ps -> p_type p = PT_LOAD -> loaded data dest p (u_mem u')) /\
  forall a, (forall p, p ∈ ps -> p_type p = PT_LOAD -> ~ start p <= a < stop p) -> u_mem u' a = u_mem u a.
Proof.
  intros Hstep. revert u pos. induction ps as [|p ps IH]; intros u pos Ho Hg Hap; cbn [foldl].
  { split; [by exists pos|]. split; [|done]. by intros p Hp%elem_of_nil. }
  apply Forall_cons in Hg as [Hp Hg]. inversion Hap as [|p' ps' Hfst Hap' Ep]; subst. clear Hap. rename Hap' into Hap. destruct (Hstep u pos p Ho Hp) as ((pos1 & Ho1) & Hld & Hsame).
  destruct (IH (step u p) pos1 Ho1 Hg Hap) as (Ho' & Hld' & Hsame'). split; [exact Ho'|]. split.
  - intros q Hq Hqt. apply elem_of_cons in Hq as [->|Hq]; [|by apply Hld'].
    destruct (Hld Hqt) as (H1 & H2 & H3). intros k Hk. rewrite Hsame'; [by apply H3|].
    intros q' Hq' Hqt'. rewrite Forall_forall in Hfst. destruct (Hfst q' Hq' Hqt Hqt'); lia.
  - intros a Ha. rewrite Hsame', Hsame; [done| |].
    + apply Ha. by left.
    + intros q Hq. apply Ha. by right.
Qed.
End segments.

(** ** The executable *)

Section exec.
Context {U : Type} `{FA : FileApi U}.
Implicit Types (u : U).

(** A segment inside a file of [n] bytes and below the last pages of memory. *)
Definition segment_in (n : Z) (p : Phdr) : Prop :=
  0 <= p_offset p < n /\ 0 <= p_filesz p /\ p_offset p + p_filesz p <= n /\ 0 <= p_vaddr p /\ p_vaddr p + p_filesz p < 4294959104.

(** The pages [elf_exec] gets for a segment. *)
Definition first_byte (p : Phdr) : Z := 4096 * (p_vaddr p / 4096).
Definition last_byte (p : Phdr) : Z := 4096 * ((p_vaddr p + p_filesz p + 4095) / 4096).

Lemma segment_pages_eq n p : segment_in n p -> segment_pages p = ((last_byte p - first_byte p) / 4096, first_byte p).
Proof.
  intros (_ & Hs & _ & Hv & He). unfold segment_pages, last_byte, first_byte. f_equal.
  - replace (Z.land (p_vaddr p) 0xFFF) with (p_vaddr p mod 4096) by (by rewrite (Z.land_ones _ 12)).
    pose proof (Z.mod_pos_bound (p_vaddr p) 4096 ltac:(lia)) as Hm. set (x := p_vaddr p mod 4096 + p_filesz p).
    assert (0 <= x < 4294963200) as Hx by (unfold x; lia).
    rewrite (u32_small x), (u32_small (x + 4096)), (u32_small (x + 4096 - 1)) by (unfold is_u32; lia). unfold x. zdm.
  - pose proof (page_of_eq (p_vaddr p)) as E. unfold page_of in E. apply E. unfold is_u32. lia.
Qed.

(** Seek and read: the bytes of a segment at [vaddr]. *)
Lemma seek_read u fh data n pos p vaddr : opened u fh data n pos -> 0 <= p_offset p < n -> 0 <= p_filesz p -> p_offset p + p_filesz p <= n ->
  exists u1 u2, sys_seek fh (p_offset p) u = (1, u1) /\ sys_read fh vaddr (p_filesz p) u1 = (p_filesz p, u2) /\
    filled data (p_offset p) vaddr (p_filesz p) (u_mem u) (u_mem u2) /\ opened u2 fh data n None.
Proof.
  intros Ho Hoff Hsz Hend. destruct (api_seek u fh data n pos _ Ho Hoff) as (u1 & E1 & Em & Ho1).
  destruct (api_read u1 fh data n _ vaddr _ Ho1 Hsz Hend) as (u2 & E2 & Hf & Ho2). rewrite Em in Hf. by exists u1, u2.
Qed.

Lemma filled_loaded data dest p m m' : filled data (p_offset p) (dest p) (p_filesz p) m m' -> loaded data dest p m'.
Proof.
  intros Hf k Hk. rewrite Hf. replace (p_offset p + (dest p + k - dest p)) with (p_offset p + k) by lia.
  split_ltb; cbn; done || lia.
Qed.

Lemma filled_outside data pos buf len m m' a : filled data pos buf len m m' -> ~ buf <= a < buf + len -> m' a = m a.
Proof. intros Hf Ha. rewrite Hf. split_ltb; cbn; done || lia. Qed.

Lemma exec_segment_loads fh data n : step_loads fh data n (exec_segment fh) p_vaddr first_byte last_byte (fun p => p_type p = PT_LOAD -> segment_in n p).
Proof.
  intros u pos p Ho Hp. unfold exec_segment. destruct (Z.eqb_spec (p_type p) PT_LOAD) as [Ht|Ht].
  2: { split; [by exists pos|]. split; [done|]. done. }
  specialize (Hp Ht). rewrite (segment_pages_eq n p Hp). destruct Hp as (Hoff & Hsz & Hend & Hv & Hlast).
  destruct (api_alloc_at u fh data n pos ((last_byte p - first_byte p) / 4096) (first_byte p) Ho) as (r & u1 & -> & Ho1 & Hm1).
  destruct (seek_read u1 fh data n pos p (p_vaddr p) Ho1 Hoff Hsz Hend) as (u2 & u3 & -> & -> & Hf & Ho3).
  assert (4096 * ((last_byte p - first_byte p) / 4096) = last_byte p - first_byte p) as Epages by (unfold last_byte, first_byte; zdm).
  assert (first_byte p <= p_vaddr p /\ p_vaddr p + p_filesz p <= last_byte p) as [Hfb Hlb] by (unfold last_byte, first_byte; zdm).
  split; [by exists None|]. split.
  - intros _. split; [done|]. split; [done|]. by apply (filled_loaded data p_vaddr p (u_mem u1)).
  - intros a Ha. specialize (Ha Ht). rewrite (filled_outside _ _ _ _ _ _ _ Hf) by lia. apply Hm1. rewrite Epages. lia.
Qed.

(** A file with its headers inside, and room for them in [phdrs]. *)
Record headers_in (data : Z -> Z) (n : Z) : Prop := {
  hi_header : sizeof_Ehdr <= n;
  hi_table : 0 <= e_phoff (file_Ehdr data) < n;
  hi_room : 0 <= e_phnum (file_Ehdr data) <= MAX_PHDRS;
  hi_end : e_phoff (file_Ehdr data) + sizeof_Phdr * e_phnum (file_Ehdr data) <= n
}.

Section headers.
Context (fh : Z) (data : Z -> Z) (n : Z) (hdr_buf phdr_buf : Z).

(** Outside the two members that receive the headers. *)
Definition outside_headers (a : Z) : Prop :=
  ~ hdr_buf <= a < hdr_buf + sizeof_Ehdr /\ ~ phdr_buf <= a < phdr_buf + sizeof_Phdr * MAX_PHDRS.

Lemma headers_read u : headers_in data n -> opened u fh data n (Some 0) ->
  exists e1 u1 e u', readElfHeader hdr_buf fh empty_module u = (e1, u1) /\ read_phdrs phdr_buf fh e1 u1 = Some (e, u') /\
    header e = file_Ehdr data /\ phdrs e = file_Phdrs data /\ module_base_vaddr e = 0 /\ opened u' fh data n None /\
    forall a, outside_headers a -> u_mem u' a = u_mem u a.
Proof.
  intros [H1 H2 H3 H4] Ho. unfold readElfHeader.
  destruct (api_read u fh data n 0 hdr_buf sizeof_Ehdr Ho) as (u1 & -> & Hf1 & Ho1); [unfold sizeof_Ehdr; lia|lia|].
  rewrite (filled_Ehdr data hdr_buf (u_mem u) (u_mem u1) Hf1).
  do 2 eexists. unfold read_phdrs. cbn [header with_headers].
  destruct (api_seek u1 fh data n _ (e_phoff (file_Ehdr data)) Ho1 H2) as (u2 & E2 & Em2 & Ho2).
  destruct (api_read u2 fh data n _ phdr_buf (sizeof_Phdr * e_phnum (file_Ehdr data)) Ho2) as (u3 & E3 & Hf3 & Ho3);
    [unfold sizeof_Phdr; lia|lia|].
  do 2 eexists. split; [reflexivity|]. cbn [header with_headers]. rewrite E2, E3. cbn [Z.eqb Pos.eqb].
  destruct (Z.ltb_spec MAX_PHDRS (e_phnum (file_Ehdr data))); [lia|]. split; [reflexivity|]. split; [done|]. split.
  - cbn [phdrs with_headers]. unfold file_Phdrs. apply map_ext_in. intros i Hi%list_elem_of_In. apply elem_of_seqZ in Hi.
    apply (filled_Phdr data _ _ _ _ _ _ Hf3). lia.
  - split; [done|]. split; [exact Ho3|]. intros a [Ha1 Ha2].
    rewrite (filled_outside _ _ _ _ _ _ _ Hf3), Em2, (filled_outside _ _ _ _ _ _ _ Hf1); [done|done|]. unfold sizeof_Phdr in *. lia.
Qed.
End headers.

(** The dynamic section changes neither the headers nor the place of a module. *)
Definition same_headers (e e' : ElfModule) : Prop := header e' = header e /\ phdrs e' = phdrs e /\ module_base_vaddr e' = module_base_vaddr e.

Lemma dyn_entry_headers m e i : same_headers e (dyn_entry m e i).
Proof. unfold dyn_entry. cbv zeta. repeat (match goal with |- context [if ?b then _ else _] => destruct b end; [done|]). done. Qed.

Lemma dynamic_headers m e e1 e2 : findDynamicSection e = Some e1 -> parseDynamicSegment m e1 = Some e2 -> same_headers e e2.
Proof.
  intros E1 E2. assert (same_headers e e1) as H1.
  { unfold findDynamicSection in E1. destruct (find _ _); [|done]. cbv zeta in E1. destruct (_ =? 0); [done|]. by injection E1 as <-. }
  assert (forall js e, same_headers e (foldl (dyn_entry m) e js)) as Hfold.
  { induction js as [|i js IH]; intros e'; [done|]. cbn [foldl]. destruct (dyn_entry_headers m e' i) as (A1 & A2 & A3).
    destruct (IH (dyn_entry m e' i)) as (B1 & B2 & B3). unfold same_headers. by rewrite B1, B2, B3. }
  destruct (Hfold (seqZ 0 (num_dynamic e1)) e1) as (B1 & B2 & B3). destruct H1 as (A1 & A2 & A3).
  unfold parseDynamicSegment in E2. destruct (negb _); [by injection E2 as <-|]. destruct (_ =? 0); [by injection E2 as <-|].
  cbv zeta in E2. destruct (_ =? 0); [done|]. injection E2 as <-. unfold same_headers. by rewrite B1, B2, B3.
Qed.

(** A program whose segments are inside its file and on pages of their own. *)
Record program_ok (data : Z -> Z) (n : Z) : Prop := {
  po_headers : headers_in data n;
  po_segments : Forall (fun p => p_type p = PT_LOAD -> segment_in n p) (file_Phdrs data);
  po_apart : ForallOrdPairs (regions_apart first_byte last_byte) (file_Phdrs data)
}.

(** The image of a program in memory. *)
Definition image_of (data : Z -> Z) (m : mem) : Prop :=
  forall p, p ∈ file_Phdrs data -> p_type p = PT_LOAD -> loaded data p_vaddr p m.

Definition outside_image (data : Z -> Z) (a : Z) : Prop :=
  forall p, p ∈ file_Phdrs data -> p_type p = PT_LOAD -> ~ first_byte p <= a < last_byte p.

(** What [elf_exec] does with the image once it is in memory. *)
Definition link_image (hdr_buf phdr_buf image lookup : Z) (e : ElfModule) (u : U) : option (Z * ElfModule * list ElfModule * U) :=
  e ← findDynamicSection e;
  e ← parseDynamicSegment (u_mem u) e;
  '(libs, u) ← loadNeededLibs (Z.to_nat (num_dynamic e)) hdr_buf phdr_buf 0 e [] u;
  Some (e_entry (header e), e, libs, u_store (wr32 (wr32 (u_mem u) (pltgot e + 4) image) (pltgot e + 8) lookup) u).

Lemma exec_loads hdr_buf phdr_buf image lookup name u fh u0 data n :
  sys_open name u = (fh, u0) -> opened u0 fh data n (Some 0) -> program_ok data n ->
  exists e u1, elf_exec hdr_buf phdr_buf image lookup name u = link_image hdr_buf phdr_buf image lookup e u1 /\
    header e = file_Ehdr data /\ phdrs e = file_Phdrs data /\ (exists pos, opened u1 fh data n pos) /\ image_of data (u_mem u1) /\
    forall a, outside_headers hdr_buf phdr_buf a -> outside_image data a -> u_mem u1 a = u_mem u0 a.
Proof.
  intros Eo Ho [Hh Hs Hap].
  destruct (headers_read fh data n hdr_buf phdr_buf u0 Hh Ho) as (e1 & u1 & e & u2 & E1 & E2 & Eh & Ep & Eb & Ho2 & Hm2).
  destruct (segments_loaded fh data n (exec_segment fh) p_vaddr first_byte last_byte _ (file_Phdrs data) u2 None (exec_segment_loads fh data n) Ho2 Hs Hap)
    as (Hpos & Hld & Hsame).
  exists e, (foldl (exec_segment fh) u2 (file_Phdrs data)).
  split; [unfold elf_exec; rewrite Eo, E1; cbn [mbind option_bind]; rewrite E2; cbn [mbind option_bind]; by rewrite Ep|].
  do 2 (split; [done|]). split; [exact Hpos|]. split; [exact Hld|]. intros a Ha Hout. rewrite Hsame; [by apply Hm2|exact Hout].
Qed.

(** *** Libraries: the segments at their distance from the module's base *)

Definition at_base (base : Z) (p : Phdr) : Z := base +w p_vaddr p.

Definition segment_placed (n base : Z) (p : Phdr) : Prop :=
  0 <= p_offset p < n /\ 0 <= p_filesz p /\ p_offset p + p_filesz p <= n /\ 0 <= base + p_vaddr p < 4294967296.

Lemma load_segment_loads fh data n base :
  step_loads fh data n (load_segment fh base) (at_base base) (at_base base) (fun p => at_base base p + p_filesz p)
    (fun p => p_type p = PT_LOAD -> segment_placed n base p).
Proof.
  intros u pos p Ho Hp. unfold load_segment. destruct (Z.eqb_spec (p_type p) PT_LOAD) as [Ht|Ht].
  2: { split; [by exists pos|]. split; [done|]. done. }
  destruct (Hp Ht) as (Hoff & Hsz & Hend & Hb). destruct (seek_read u fh data n pos p (at_base base p) Ho Hoff Hsz Hend) as (u1 & u2 & E1 & E2 & Hf & Ho2).
  rewrite E1. unfold at_base in E2 at 1. rewrite E2. split; [by exists None|]. split.
  - intros _. split; [lia|]. split; [lia|]. by apply (filled_loaded data (at_base base) p (u_mem u)).
  - intros a Ha. by rewrite (filled_outside _ _ _ _ _ _ _ Hf) by (by apply Ha).
Qed.

(** [mapLoadableSegments]: the image of a library at the base the kernel chose. *)
Lemma map_loads fh data n pos e u : opened u fh data n pos ->
  exists base u', mapLoadableSegments fh e u = (with_image e base (fst (module_room (phdrs e))), u') /\
    (Forall (fun p => p_type p = PT_LOAD -> segment_placed n base p) (phdrs e) ->
     ForallOrdPairs (regions_apart (at_base base) (fun p => at_base base p + p_filesz p)) (phdrs e) ->
     forall p, p ∈ phdrs e -> p_type p = PT_LOAD -> loaded data (at_base base) p (u_mem u')).
Proof.
  intros Ho. unfold mapLoadableSegments. destruct (module_room (phdrs e)) as [size pages].
  destruct (api_alloc u fh data n pos pages Ho) as (base & u1 & -> & Ho1 & _). do 2 eexists. split; [reflexivity|]. intros Hg Hap.
  apply (segments_loaded fh data n _ _ _ _ _ (phdrs e) u1 pos (load_segment_loads fh data n base) Ho1 Hg Hap).
Qed.

(** The entry point is the one of the file. *)
Lemma link_entry hdr_buf phdr_buf image lookup e u entry e' libs u' :
  link_image hdr_buf phdr_buf image lookup e u = Some (entry, e', libs, u') -> entry = e_entry (header e).
Proof.
  unfold link_image. destruct (findDynamicSection e) as [e1|] eqn:E1; [|done]. cbn [mbind option_bind].
  destruct (parseDynamicSegment _ e1) as [e2|] eqn:E2; [|done]. cbn [mbind option_bind].
  destruct (dynamic_headers _ _ _ _ E1 E2) as (Eh & _). destruct (loadNeededLibs _ _ _ _ _ _ _) as [[libs' u2]|]; [|done].
  intros [= <- _ _ _]. by rewrite Eh.
Qed.
End exec.

(** ** The kernel's system calls keep the promises *)

Section kernel.
Context (disk : Z -> Z -> Z) (VGA_WIDTH VGA_HEIGHT : Z) (ASCII_MAP : Z -> Z) (tar_base nullfile terminal hdr : Z) (fuel : nat).
Context (win_index size_GUIWindow : Z) (gui_fuel : nat) (Hap : objects_apart tar_base nullfile terminal).
Abbreviation state := (Sys (option FileStore)).
Implicit Types (s : state).

#[local] Instance archive_files : FileOps (option FileStore) :=
  kernel_files disk VGA_WIDTH VGA_HEIGHT ASCII_MAP tar_base nullfile terminal hdr fuel.

(** What a call answers; the allocation of pages is that of [Memory] and changes no
    byte here, where every page the program uses is mapped. *)
Definition answer (r : option (sys_result * state)) s : Z * state :=
  match r with
  | Some (SysReturn v, s) => (v, s)
  | _ => (0, s)
  end.

Definition call_kernel (r : request) s : Z * state := answer (serve win_index size_GUIWindow gui_fuel r s) s.

#[local] Instance kernel_api : SysApi state := {
  u_mem s := match sys_files s with Some st => fs_mem st | None => fun _ => 0 end;
  u_store m s := with_sys_files s
    (match sys_files s with Some st => Some {| fs_tar := fs_tar st; fs_terminal := fs_terminal st; fs_mem := m |} | None => None end);
  sys_open name := call_kernel (Open name);
  sys_seek fh off := call_kernel (Seek fh off);
  sys_read fh buf len := call_kernel (Read fh buf len);
  sys_alloc pages := call_kernel (Alloc pages);
  sys_alloc_at pages vaddr := call_kernel (AllocAt pages vaddr)
}.

(** A handle of an open file of the archive. *)
Record opened_file (s : state) (fh : Z) (data : Z -> Z) (n : Z) (pos : option Z) st (i : Z) : Prop := {
  of_store : sys_files s = Some st;
  of_handle : get_file_by_handle fh s = tar_address tar_base i;
  of_index : 0 <= i < max_files;
  of_size : size (fs_tar st i) = n /\ n < 2147483648;
  of_header : 0 < header_sector (fs_tar st i) < 2147483648;
  of_data k : data k = content disk (header_sector (fs_tar st i)) k;
  of_pos p : pos = Some p -> 0 <= p /\ cursor (fs_tar st i) = p /\ in_sync (fs_tar st i)
}.

Lemma handle_address s fh data n pos st i : opened_file s fh data n pos st i -> get_file_by_handle fh s <> 0.
Proof. intros Ho. rewrite (of_handle _ _ _ _ _ _ _ Ho). pose proof (of_index _ _ _ _ _ _ _ Ho). destruct Hap. unfold tar_address, sizeof_TarFile. lia. Qed.

(** A call on the object of a handle. *)
Lemma call_file s fh data n pos st i (f : FileObject -> FileStore -> Z * FileStore) r st' : opened_file s fh data n pos st i ->
  f (TarObject i) st = (r, st') ->
  with_file fh s (fun file => on_object tar_base nullfile terminal file f) = Some (SysReturn r, with_sys_files s (Some st')).
Proof.
  intros Ho E. apply (with_file_ok fh (tar_address tar_base i)).
  - apply (of_handle _ _ _ _ _ _ _ Ho).
  - rewrite <- (of_handle _ _ _ _ _ _ _ Ho). by apply (handle_address s fh data n pos st i).
  - rewrite (of_store _ _ _ _ _ _ _ Ho). apply on_tar; [done|apply (of_index _ _ _ _ _ _ _ Ho)|exact E].
Qed.

Lemma kernel_seek s fh data n pos off st i : opened_file s fh data n pos st i -> 0 <= off < n ->
  exists st', call_kernel (Seek fh off) s = (1, with_sys_files s (Some st')) /\ fs_mem st' = fs_mem st /\
    opened_file (with_sys_files s (Some st')) fh data n (Some off) st' i.
Proof.
  intros Ho Hoff. pose proof Ho as [Hst Hh Hi [Hsz Hn] Hhd Hd Hp].
  set (f := {| header_sector := header_sector (fs_tar st i); current_sector := header_sector (fs_tar st i) + 1 + off / 512; cursor := off; size := n |}).
  assert (tar_seek off (fs_tar st i) = (1, f)) as Es.
  { unfold f. rewrite <- Hsz in *. destruct (fs_tar st i) as [hs c cur sz]. by apply (tar_seek_ok hs c cur sz off). }
  exists (with_tar st i f (fs_mem st)). split; [|split; [done|]].
  - unfold call_kernel, serve. change (fun file : Z => file_seek file off) with (fun file => on_object tar_base nullfile terminal file (seek_object off)).
    rewrite (call_file s fh data n pos st i (seek_object off) 1 (with_tar st i f (fs_mem st)) Ho); [done|].
    unfold seek_object. by rewrite Es.
  - assert (fs_tar (with_tar st i f (fs_mem st)) i = f) as Ef by (cbn; by rewrite Z.eqb_refl).
    split; rewrite ?Ef; try done. intros p [= <-]. split; [lia|]. split; [done|]. done.
Qed.

Lemma kernel_read s fh data n pos buf len st i : opened_file s fh data n (Some pos) st i -> 0 <= len -> pos + len <= n ->
  exists st', call_kernel (Read fh buf len) s = (len, with_sys_files s (Some st')) /\ filled data pos buf len (fs_mem st) (fs_mem st') /\
    opened_file (with_sys_files s (Some st')) fh data n None st' i.
Proof.
  intros Ho Hlen Hend. pose proof Ho as [Hst Hh Hi [Hsz Hn] Hhd Hd Hp]. destruct (Hp pos eq_refl) as (H0 & Hc & Hsync).
  pose proof (tar_read_ok disk buf len (fs_tar st i) (fs_mem st) Hsync ltac:(lia) ltac:(lia) Hlen ltac:(lia) ltac:(lia) ltac:(lia)) as Hr.
  destruct (tar_read disk buf len (fs_tar st i) (fs_mem st)) as [[r f] m] eqn:Er. destruct Hr as (-> & Hsto & Eh & Esz & _).
  exists (with_tar st i f m). split; [|split].
  - unfold call_kernel, serve.
    change (fun file : Z => file_read file buf len) with (fun file => on_object tar_base nullfile terminal file (read_object disk buf len)).
    rewrite (call_file s fh data n (Some pos) st i (read_object disk buf len) len (with_tar st i f m) Ho); [done|].
    unfold read_object. rewrite Er, s32_small; [done|unfold is_s32; lia].
  - intros a. change (fs_mem (with_tar st i f m)) with m. rewrite (Hsto a), Hc. by rewrite Hd.
  - assert (fs_tar (with_tar st i f m) i = f) as Ef by (cbn; by rewrite Z.eqb_refl).
    split; rewrite ?Ef, ?Eh, ?Esz; done.
Qed.

(** A call that touches neither files nor handles. *)
Lemma kernel_keeps r s : (forall v s', serve win_index size_GUIWindow gui_fuel r s = Some (SysReturn v, s') ->
    sys_files s' = sys_files s /\ sys_world s' = sys_world s) ->
  exists v s', call_kernel r s = (v, s') /\ sys_files s' = sys_files s /\ sys_world s' = sys_world s.
Proof.
  intros H. unfold call_kernel. destruct (serve _ _ _ r s) as [[[v| | |] s']|]; cbn [answer]; eauto.
Qed.

Lemma opened_ext s s' fh data n pos st i : sys_files s' = sys_files s -> sys_world s' = sys_world s ->
  opened_file s fh data n pos st i -> opened_file s' fh data n pos st i.
Proof.
  intros E1 E2 [H1 H2]. split; try done; [congruence|].
  unfold get_file_by_handle, thisProc, sys_kern in *. by rewrite E2.
Qed.

Lemma on_machine_keeps {A} (c : K A) s x s' : on_machine c s = Some (x, s') -> sys_files s' = sys_files s /\ sys_world s' = sys_world s.
Proof. unfold on_machine. destruct (c _) as [[y m]|]; [|done]. by intros [= _ <-]. Qed.

#[local, refine] Instance kernel_file_api : FileApi state := {
  opened s fh data n pos := exists st i, opened_file s fh data n pos st i
}.
Proof.
  - intros s fh data n pos off (st & i & Ho) Hoff. destruct (kernel_seek s fh data n pos off st i Ho Hoff) as (st' & E & Em & Ho').
    eexists. split; [exact E|]. split; [|by exists st', i]. cbn [u_mem kernel_api sys_files with_sys_files].
    by rewrite (of_store _ _ _ _ _ _ _ Ho).
  - intros s fh data n pos buf len (st & i & Ho) Hlen Hend.
    destruct (kernel_read s fh data n pos buf len st i Ho Hlen Hend) as (st' & E & Hf & Ho').
    eexists. split; [exact E|]. split; [|by exists st', i]. cbn [u_mem kernel_api sys_files with_sys_files].
    by rewrite (of_store _ _ _ _ _ _ _ Ho).
  - intros s fh data n pos pages vaddr (st & i & Ho). destruct (kernel_keeps (AllocAt pages vaddr) s) as (v & s' & E & Ef & Ew).
    { intros v s'. cbn [serve]. destruct (on_machine _ s) as [[x s1]|] eqn:Em; [|done]. intros [= _ <-]. by apply on_machine_keeps in Em. }
    exists v, s'. split; [exact E|]. split; [exists st, i; by apply (opened_ext s)|]. intros a _. cbn [u_mem kernel_api]. by rewrite Ef.
  - intros s fh data n pos pages (st & i & Ho). destruct (kernel_keeps (Alloc pages) s) as (v & s' & E & Ef & Ew).
    { intros v s'. cbn [serve]. unfold syscall_alloc. destruct (on_machine _ s) as [[x s1]|] eqn:Em; [|done]. intros [= _ <-]. by apply on_machine_keeps in Em. }
    exists v, s'. split; [exact E|]. split; [exists st, i; by apply (opened_ext s)|]. intros a _. cbn [u_mem kernel_api]. by rewrite Ef.
Defined.

End kernel.

(** An archive of one program, "a", of one segment: the four bytes 1, 2, 3, 4 at
    0x400010, where it starts. *)
Definition small_program : list Z :=
  replicate 24 0 ++ [0x10; 0; 0x40; 0; 52; 0; 0; 0] ++ replicate 12 0 ++ [1; 0] ++ replicate 6 0 ++
  [1; 0; 0; 0; 84; 0; 0; 0; 0x10; 0; 0x40; 0; 0; 0; 0; 0; 4; 0; 0; 0; 4; 0; 0; 0] ++ replicate 8 0 ++ [1; 2; 3; 4].

Definition program_disk (s i : Z) : Z :=
  if s =? 1 then (if i =? 0 then 97 else if i =? 124 then 49 else if i =? 125 then 51 else if i =? 126 then 48 else 0)
  else if s =? 2 then nth (Z.to_nat i) small_program 0 else 0.

Lemma small_program_ok : program_ok (content program_disk 1) (get_size (program_disk 1)).
Proof.
  assert (file_Phdrs (content program_disk 1) = [{| p_type := 1; p_offset := 84; p_vaddr := 0x400010; p_filesz := 4; p_memsz := 4 |}]) as E
    by (vm_compute; reflexivity).
  split.
  - split; vm_compute; intuition congruence.
  - rewrite E. apply Forall_cons. split; [|constructor]. intros _. vm_compute. intuition congruence.
  - rewrite E. apply FOP_cons; constructor.
Qed.

