(* ===== verification/Boot.v ===== *)
(** * The start of the kernel: [_start] of [system/main.cpp]

    The steps of [_start] that set up memory, the interrupt table and the first
    process, in the order of the source, on the models of the parts they call.
    Debug output, the mask of the old interrupt controller and the load of the
    task register are left out. *)
From S2P Require Import Prelude BitOps BitAlloc Memory Paging Queue Process Spaces Interrupts Apic Ps2.

Definition VIDEO_MEMORY : Z := 0xE0000000.

(** The frame buffer, mapped to itself. *)
Definition map_video : K unit :=
  do! ensure_pte VIDEO_MEMORY PAGE_GLOBAL_DATA in
  kfor 1024 0 (fun i =>
    do! map_to (VIDEO_MEMORY + 4096 * i) (VIDEO_MEMORY + 4096 * i) PAGE_GLOBAL_DATA in kret tt).

(** The pages of the two interrupt controllers. *)
Definition map_controllers : K unit :=
  do! ensure_pte LAPIC_ADDRESS PAGE_GLOBAL_DATA in
  do! map_to LAPIC_ADDRESS LAPIC_ADDRESS PAGE_USER_DATA in
  do! ensure_pte IOAPIC_ADDRESS PAGE_GLOBAL_DATA in
  do! map_to IOAPIC_ADDRESS IOAPIC_ADDRESS PAGE_USER_DATA in
  kret tt.

(** From [initialize_memory] to [interrupt_stack], which it returns. *)
Definition boot_memory : K Z :=
  do! initialize_memory 0x100000 in
  do! map_video in
  do! map_controllers in
  let! page := static_alloc_pages 1 in
  kret (u32 (s32 page + 4096)).

(** The vectors, in the order [_start] sets them: exceptions, the page fault at
    the end of [initialize_memory], the timer, keyboard and mouse. *)
Definition boot_idt (address : exception -> Z) (page_fault timer keyboard mouse : Z) : option (IDT * IDTR) :=
  '(t, idtr) ← init_interrupts address;
  t ← idt_set 0x0E page_fault t;
  t ← idt_set TIMER_IDT timer t;
  t ← idt_set KEYBOARD_IDT keyboard t;
  t ← idt_set MOUSE_IDT mouse t;
  Some (t, idtr).

(** [spawn]: a process, current from then on, and its first thread, at
    [user_process]. *)
Definition spawn (nullfile user_process : Z) (k : kernel) (m : machine) : option (kernel * machine) :=
  '(_, k, m) ← new_user_process nullfile k m;
  '(_, k, m) ← new_user_thread user_process 0 0 k m;
  Some (k, m).

(** ** The interrupt table *)

(** The handler of each vector in the running system. *)
Definition boot_handler (address : exception -> Z) (page_fault timer keyboard mouse i : Z) : Z :=
  if i =? MOUSE_IDT then mouse else if i =? KEYBOARD_IDT then keyboard else if i =? TIMER_IDT then timer
  else if i =? 0x0E then page_fault else address (exception_at i).

(** The interrupt table of the running system is well formed: each of the 256
    vectors is a present ring-0 interrupt gate in code segment 8 whose two offset
    halves give back the address of its handler: the exceptions at 0 to 13, the
    page fault at 14, keyboard and mouse at 0x20 and 0x21, the timer at 0xE0,
    [unhandled_exception] everywhere else; and the limit that is loaded is that
    of 256 descriptors. *)
Theorem boot_idt_well_formed address page_fault timer keyboard mouse :
  (forall e, is_u32 (address e)) -> is_u32 page_fault -> is_u32 timer -> is_u32 keyboard -> is_u32 mouse ->
  exists t idtr, boot_idt address page_fault timer keyboard mouse = Some (t, idtr) /\
    limit idtr = 8 * 256 - 1 /\ idt_ok t (boot_handler address page_fault timer keyboard mouse).
Proof.
  intros Ha Hp Ht Hk Hm. unfold boot_idt.
  destruct (init_interrupts_ok address Ha) as (t & idtr & -> & Hl & H0). cbn [mbind option_bind].
  destruct (idt_set_ok t _ 0x0E page_fault H0) as (t1 & -> & H1); [lia|done|]. cbn [mbind option_bind].
  destruct (idt_set_ok t1 _ TIMER_IDT timer H1) as (t2 & -> & H2); [unfold TIMER_IDT; lia|done|]. cbn [mbind option_bind].
  destruct (idt_set_ok t2 _ KEYBOARD_IDT keyboard H2) as (t3 & -> & H3); [unfold KEYBOARD_IDT; lia|done|].
  cbn [mbind option_bind].
  destruct (idt_set_ok t3 _ MOUSE_IDT mouse H3) as (t4 & -> & H4); [unfold MOUSE_IDT; lia|done|]. cbn [mbind option_bind].
  exists t4, idtr. split; [done|]. split; [exact Hl|exact H4].
Qed.

(** Handlers at addresses whose halves differ. *)
Definition sample_address (e : exception) : Z :=
  match e with gpf_interrupt => 0x00123450 | divide_zero_interrupt => 0xC0008000 | _ => 0x00101010 end.

Lemma boot_idt_well_formed_witness :
  exists t idtr, boot_idt sample_address 0x8000 0x8100 0x8200 0x8300 = Some (t, idtr) /\
    idt_ok t (boot_handler sample_address 0x8000 0x8100 0x8200 0x8300).
Proof.
  destruct (boot_idt_well_formed sample_address 0x8000 0x8100 0x8200 0x8300) as (t & idtr & E & _ & H);
    [intros []; cbn; unfold is_u32; lia|unfold is_u32; lia..|].
  exists t, idtr. split; [exact E|exact H].
Defined.

(** ** Memory *)

Section video.
Implicit Types (m : machine).

Definition in_video (a : Z) : Prop := VIDEO_MEMORY <= a < VIDEO_MEMORY + 0x400000.

(** [map_to] of one page whose table is there. *)
Lemma map_page m va attr :
  memory_wf m -> is_u32 va -> va mod 4096 = 0 -> va / 4194304 <> 1 -> pme_present (pde m (va / 4194304)) = true ->
  0 <= attr < 4096 -> Z.testbit attr 0 = true ->
  exists m', map_to va va attr m = Some (va, m') /\ memory_wf m' /\ same_heaps m m' /\
    page_allocator m' = page_allocator m /\ (forall i, 0 <= i < 1024 -> pde m' i = pde m i) /\
    (forall a, is_u32 a -> a / 4096 = va / 4096 -> walk m' a = Some a) /\
    (forall a, is_u32 a -> a / 4194304 <> 1 -> a / 4096 <> va / 4096 -> walk m' a = walk m a /\ entry m' a = entry m a).
Proof.
  intros Hwf Hva Hvm Hn1 Hp Hattr Hodd.
  assert (entry m va <> None) as He by (rewrite entry_present; congruence).
  destruct (entry_split va attr Hva Hvm Hattr) as (S1 & S2 & S3 & _). rewrite Hodd in S2.
  pose proof (set_pte_wf m va (Z.lor va attr) Hwf Hva Hn1 He) as Hwf'.
  rewrite map_to_present by done. eexists. split; [reflexivity|]. do 3 (split; [done|]).
  split; [intros i Hi; by apply set_pte_pde|]. split.
  - intros a Ha Hap. rewrite walk_entry, set_pte_entry by (done || zdm). rewrite Hap, Z.eqb_refl. cbn.
    unfold entry_target. rewrite S2, S1. f_equal. zdm.
  - intros a Ha Ha1 Hap. assert (entry (set_word m (pte_at m va) (Z.lor va attr)) a = entry m a) as E.
    { rewrite set_pte_entry by done. by destruct (Z.eqb_spec (a / 4096) (va / 4096)). }
    split; [|done]. by rewrite !walk_entry, E.
Qed.

Lemma map_video_ok m :
  memory_wf m -> (exists b, 8192 <= b < 1048576 /\ bit_used (page_allocator m) b = false) ->
  exists m' n, map_video m = Some (tt, m') /\ memory_wf m' /\ same_heaps m m' /\
    (forall a, in_video a -> walk m' a = Some a) /\
    (forall a, is_u32 a -> a / 4194304 <> 1 -> ~ in_video a -> entry m a <> None ->
       walk m' a = walk m a /\ entry m' a <> None) /\
    (forall b, 0 <= b < 1048576 -> bit_used (page_allocator m') b = true -> bit_used (page_allocator m) b = true \/ b = n) /\
    more_used m m' /\ table_ensured m m' VIDEO_MEMORY PAGE_GLOBAL_DATA.
Proof.
  intros Hwf Hfree. unfold map_video.
  destruct (ensure_pte_ok m VIDEO_MEMORY PAGE_GLOBAL_DATA Hwf) as (m1 & n & E1 & Hwf1 & Hh1 & Hp1 & Hent1 & Hused1 & Hmore1 & Hten1);
    [unfold is_u32, VIDEO_MEMORY; lia|vm_compute; congruence|vm_compute; split; congruence|done|done|].
  rewrite (kbind_ok _ _ _ _ _ E1).
  destruct (kfor_inv (fun i m' => memory_wf m' /\ same_heaps m m' /\ page_allocator m' = page_allocator m1 /\
      (forall i, 0 <= i < 1024 -> pde m' i = pde m1 i) /\
      (forall a, VIDEO_MEMORY <= a < VIDEO_MEMORY + 4096 * i -> walk m' a = Some a) /\
      (forall a, is_u32 a -> a / 4194304 <> 1 -> ~ in_video a -> entry m a <> None ->
         walk m' a = walk m a /\ entry m' a = entry m a))
    1024 0 (fun i => do! map_to (VIDEO_MEMORY + 4096 * i) (VIDEO_MEMORY + 4096 * i) PAGE_GLOBAL_DATA in kret tt) m1)
    as (m2 & E2 & Hwf2 & Hh2 & Ha2 & Hd2 & Hv & Ho).
  - do 4 (split; [done|]). split; [lia|]. intros a Ha Ha1 Hav He.
    assert (entry m1 a = entry m a) as E by by apply Hent1. split; [|done]. by rewrite !walk_entry, E.
  - intros j m' Hj (Hwf' & Hh' & Ha' & Hp' & Hv & Ho). unfold VIDEO_MEMORY in *.
    change (0 + Z.of_nat 1024) with 1024 in Hj.
    destruct (map_page m' (0xE0000000 + 4096 * j) PAGE_GLOBAL_DATA Hwf') as (m2 & E2 & Hwf2 & Hh2 & Ha2 & Hd2 & Hw2 & Ho2);
      [unfold is_u32; lia|zdm|zdm| |vm_compute; split; congruence|done|].
    { replace ((0xE0000000 + 4096 * j) / 4194304) with (0xE0000000 / 4194304) by zdm. rewrite Hp'; [done|vm_compute; split; congruence]. }
    exists m2. rewrite (kbind_ok _ _ _ _ _ E2). split; [done|]. split; [done|].
    split; [by eapply same_heaps_trans|]. split; [congruence|]. split; [intros i Hi; rewrite Hd2 by done; by apply Hp'|]. split.
    + intros a Ha. destruct (decide (a / 4096 = (0xE0000000 + 4096 * j) / 4096)) as [E|E].
      * apply Hw2; [unfold is_u32; lia|done].
      * destruct (Ho2 a) as [-> _]; [unfold is_u32; lia|zdm|done|]. apply Hv. zdm.
    + intros a Ha Ha1 Hav He. destruct (Ho2 a Ha Ha1) as [-> ->]; [unfold in_video, VIDEO_MEMORY in Hav; zdm|]. by apply Ho.
  - exists m2, n. split; [exact E2|]. do 2 (split; [done|]). split; [exact Hv|]. split.
    + intros a Ha Ha1 Hav He. destruct (Ho a Ha Ha1 Hav He) as [-> ->]. done.
    + split; [intros b Hb; rewrite Ha2; by apply Hused1|]. split; [intros b Hb Hu; rewrite Ha2; by apply Hmore1|].
      destruct Hten1 as [T1 T2]. split; [intros i Hi Hc; rewrite Hd2 by done; by apply T1|].
      intros Hc. rewrite Hd2; [by apply T2|vm_compute; split; congruence].
Qed.
End video.

(** One controller: [ensure_pte], then [map_to] with the default attributes. *)
Lemma map_controller m va :
  memory_wf m -> is_u32 va -> va mod 4096 = 0 -> va / 4194304 <> 1 ->
  (exists b, 8192 <= b < 1048576 /\ bit_used (page_allocator m) b = false) ->
  exists m' n, (do! ensure_pte va PAGE_GLOBAL_DATA in map_to va va PAGE_USER_DATA) m = Some (va, m') /\
    memory_wf m' /\ same_heaps m m' /\
    (forall a, is_u32 a -> a / 4096 = va / 4096 -> walk m' a = Some a) /\
    (forall a, is_u32 a -> a / 4194304 <> 1 -> a / 4096 <> va / 4096 -> entry m a <> None ->
       walk m' a = walk m a /\ entry m' a <> None) /\
    (forall b, 0 <= b < 1048576 -> bit_used (page_allocator m') b = true -> bit_used (page_allocator m) b = true \/ b = n) /\
    more_used m m' /\ table_ensured m m' va PAGE_GLOBAL_DATA /\ pme_present (pde m' (va / 4194304)) = true.
Proof.
  intros Hwf Hva Hvm Hn1 Hfree.
  destruct (ensure_pte_ok m va PAGE_GLOBAL_DATA Hwf Hva Hn1) as (m1 & n & E1 & Hwf1 & Hh1 & Hp1 & Hent1 & Hused1 & Hmore1 & Hten1);
    [vm_compute; split; congruence|done|done|].
  destruct (map_page m1 va PAGE_USER_DATA Hwf1 Hva Hvm Hn1 Hp1) as (m2 & E2 & Hwf2 & Hh2 & Ha2 & Hd2 & Hw2 & Ho2);
    [vm_compute; split; congruence|done|].
  exists m2, n. rewrite (kbind_ok _ _ _ _ _ E1). split; [done|]. split; [done|]. split; [by eapply same_heaps_trans|].
  split; [done|]. split.
  - intros a Ha Ha1 Hap He. destruct (Ho2 a Ha Ha1 Hap) as [-> ->].
    rewrite Hent1 by done. split; [|done]. by rewrite !walk_entry, Hent1.
  - split; [intros b Hb; rewrite Ha2; by apply Hused1|]. split; [intros b Hb Hu; rewrite Ha2; by apply Hmore1|].
    pose proof (dir_range va Hva) as Hd. destruct Hten1 as [T1 T2]. split; [|by rewrite Hd2].
    split; [intros i Hi Hc; rewrite Hd2 by done; by apply T1|]. intros Hc. rewrite Hd2 by done. by apply T2.
Qed.

(** A frame is left after a few have been taken from a fresh allocator. *)
Lemma frame_left (used : Z -> bool) (taken : list Z) :
  (forall b, 0 <= b < 1048576 -> used b = true -> b < 1024 \/ b ∈ taken) -> (length taken < 100)%nat ->
  exists b, 8192 <= b < 1048576 /\ used b = false.
Proof.
  intros H Hl.
  assert (exists b, b ∈ seqZ 8192 100 /\ b ∉ taken) as (b & Hb & Hn).
  { destruct (decide (Forall (fun b => b ∈ taken) (seqZ 8192 100))) as [Hall|Hn].
    - exfalso. assert (length (seqZ 8192 100) <= length taken)%nat as Hle.
      { apply submseteq_length, NoDup_submseteq; [apply NoDup_seqZ|]. by rewrite <- Forall_forall. }
      rewrite length_seqZ in Hle. lia.
    - apply not_Forall_Exists in Hn; [|apply _]. apply Exists_exists in Hn. naive_solver. }
  apply elem_of_seqZ in Hb. exists b. split; [lia|]. destruct (used b) eqn:E; [|done].
  destruct (H b ltac:(lia) E); [lia|done].
Qed.

(** Both controllers: what is mapped stays, and their pages are added, in a table
    every process will share. *)
Lemma map_controllers_ok m n1 :
  memory_wf m -> pme_present (pde m 1019) = false ->
  (forall b, 0 <= b < 1048576 -> bit_used (page_allocator m) b = true -> b < 1024 \/ b ∈ [n1]) ->
  exists m' n2 n3, map_controllers m = Some (tt, m') /\ memory_wf m' /\ same_heaps m m' /\
    (forall a, LAPIC_ADDRESS <= a < LAPIC_ADDRESS + 4096 \/ IOAPIC_ADDRESS <= a < IOAPIC_ADDRESS + 4096 ->
       walk m' a = Some a) /\
    (forall a, is_u32 a -> a / 4194304 <> 1 -> a < IOAPIC_ADDRESS -> entry m a <> None -> walk m' a = walk m a) /\
    (forall b, 0 <= b < 1048576 -> bit_used (page_allocator m') b = true -> b < 1024 \/ b ∈ [n1; n2; n3]) /\
    more_used m m' /\ (forall i, 0 <= i < 1024 -> i <> 1019 -> pde m' i = pde m i) /\ Z.testbit (pde m' 1019) 8 = true.
Proof.
  intros Hwf2 Hp2 Hu2. unfold map_controllers.
  destruct (map_controller m LAPIC_ADDRESS Hwf2) as (m3 & n2 & E3 & Hwf3 & Hh3 & Hl3 & Ho3 & Hused3 & Hm3 & [T3 T3'] & Hp3);
    [unfold is_u32, LAPIC_ADDRESS; lia|reflexivity|vm_compute; congruence|apply (frame_left _ [n1]); [exact Hu2|cbn; lia]|].
  assert (forall b, 0 <= b < 1048576 -> bit_used (page_allocator m3) b = true -> b < 1024 \/ b ∈ [n1; n2]) as Hu3.
  { intros b Hb H. destruct (Hused3 b Hb H) as [H'| ->]; [|right; apply list_elem_of_further, list_elem_of_here].
    destruct (Hu2 b Hb H') as [|Hin]; [by left|right]. apply list_elem_of_singleton in Hin as ->. apply list_elem_of_here. }
  destruct (map_controller m3 IOAPIC_ADDRESS Hwf3) as (m4 & n3 & E4 & Hwf4 & Hh4 & Hi4 & Ho4 & Hused4 & Hm4 & [T4 _] & _);
    [unfold is_u32, IOAPIC_ADDRESS; lia|reflexivity|vm_compute; congruence|apply (frame_left _ [n1; n2]); [exact Hu3|cbn; lia]|].
  exists m4, n2, n3. rewrite (seq_tail2 _ _ _ _ _ _ E3), (seq_tail2 _ _ _ _ _ _ E4). split; [reflexivity|].
  split; [exact Hwf4|]. split; [exact (same_heaps_trans _ _ _ Hh3 Hh4)|].
  change (LAPIC_ADDRESS / 4194304) with 1019 in *. change (IOAPIC_ADDRESS / 4194304) with 1019 in *.
  unfold LAPIC_ADDRESS, IOAPIC_ADDRESS in *. split; [|split; [|split; [|split; [|split]]]].
  - intros a [Ha|Ha]; [|apply Hi4; [unfold is_u32; lia|zdm]].
    assert (is_u32 a) as Hau by (unfold is_u32; lia).
    assert (walk m3 a = Some a) as Hw by (apply Hl3; [done|zdm]).
    destruct (Ho4 a) as [-> _]; [done|zdm|zdm| |done]. intros He. by rewrite walk_entry, He in Hw.
  - intros a Ha Ha1 Hlt He. destruct (Ho3 a Ha Ha1) as [E He3]; [zdm|done|].
    destruct (Ho4 a Ha Ha1) as [-> _]; [zdm|done|done].
  - intros b Hb H. destruct (Hused4 b Hb H) as [H'| ->].
    + destruct (Hu3 b Hb H') as [|Hin]; [by left|right]. rewrite !elem_of_cons in *. tauto.
    + right. rewrite !elem_of_cons. tauto.
  - intros b Hb Hu. apply Hm4; [done|]. by apply Hm3.
  - intros i Hi Hne. rewrite T4, T3 by (done || by left). done.
  - rewrite T4 by (lia || by right). by apply T3'.
Qed.

(** Memory where [_start] goes on: what it has mapped, and what is left. *)
Record booted (istack : Z) (m : machine) : Prop := {
  bt_wf : memory_wf m;
  bt_identity : forall a, 0 <= a < 0x400000 \/ in_video a \/ LAPIC_ADDRESS <= a < LAPIC_ADDRESS + 4096 \/
    IOAPIC_ADDRESS <= a < IOAPIC_ADDRESS + 4096 -> walk m a = Some a /\ shared_page m a;
  bt_private : forall i, 2 <= i < 1024 -> i <> 896 -> i <> 1019 -> pme_present (pde m i) = false;
  bt_low : low_used m;
  bt_frames : frames_left m 900;
  bt_istack : istack = page_copy_ptr m + 2 * 4096 /\ static_alloc_ptr m = istack;
  bt_heaps : page_copy_ptr m = 0x122000 /\ virt_alloc_ptr m = 0x800000 /\ static_alloc_limit m = 0x400000;
  bt_cr3 : cr3 m = 0x101000
}.

Lemma boot_frames m taken :
  (forall b, 0 <= b < 1048576 -> bit_used (page_allocator m) b = true -> b < 1024 \/ b ∈ taken) -> (length taken < 50)%nat ->
  frames_left m 900.
Proof.
  intros H Hl. exists (list_difference (seqZ 8192 1000) taken). split; [apply NoDup_list_difference, NoDup_seqZ|]. split.
  - apply Forall_forall. intros b [Hb%elem_of_seqZ Hn]%list_elem_of_difference. split; [lia|].
    destruct (bit_used (page_allocator m) b) eqn:E; [|done]. destruct (H b ltac:(lia) E); [lia|done].
  - assert (length (seqZ 8192 1000) <= length (list_difference (seqZ 8192 1000) taken ++ taken))%nat as Hle.
    { apply submseteq_length, NoDup_submseteq; [apply NoDup_seqZ|]. intros b Hb. rewrite elem_of_app, list_elem_of_difference.
      destruct (decide (b ∈ taken)); tauto. }
    rewrite length_app, length_seqZ in Hle. lia.
Qed.

Lemma boot_memory_ok m :
  (forall a, is_u32 (phys m a)) -> exists istack m', boot_memory m = Some (istack, m') /\ booted istack m'.
Proof.
  intros Hu. unfold boot_memory.
  destruct (initialize_memory_ok 0x100000 m) as (m1 & E1 & Hwf1 & Hlow1 & _ & Hused1 & Hcp & Hsp & Hsl & Hvp & Hg0 & Habs & Hcr);
    [reflexivity|lia|exact Hu|]. rewrite (kbind_ok _ _ _ _ _ E1).
  destruct (map_video_ok m1 Hwf1) as (m2 & n1 & E2 & Hwf2 & Hh2 & Hv2 & Ho2 & Hused2 & Hm2 & [T2 T2']).
  { exists 8192. split; [lia|]. rewrite Hused1 by lia. reflexivity. }
  change (VIDEO_MEMORY / 4194304) with 896 in *.
  rewrite (kbind_ok _ _ _ _ _ E2).
  destruct (map_controllers_ok m2 n1 Hwf2) as (m4 & n2 & n3 & E4 & Hwf4 & Hh4 & Hdev & Hkeep & Hused4 & Hm4 & T4 & T4').
  { rewrite T2 by (lia || by left). apply Habs. lia. }
  { intros b Hb H. destruct (Hused2 b Hb H) as [H'| ->]; [left|right; apply list_elem_of_here].
    rewrite Hused1 in H' by exact Hb. by apply Z.ltb_lt. }
  rewrite (kbind_ok _ _ _ _ _ E4).
  destruct (same_heaps_trans _ _ _ Hh2 Hh4) as (Hsp4 & Hsl4 & Hvp4 & Hcp4 & Hcr4).
  rewrite Hsp in Hsp4. rewrite Hsl in Hsl4. rewrite Hvp in Hvp4. rewrite Hcp in Hcp4.
  rewrite (kbind_ok _ _ _ _ _ (static_page m4 _ Hsp4 ltac:(lia) ltac:(lia))).
  eexists _, (with_ptrs m4 _ _). split; [reflexivity|].
  assert (Z.testbit (pde m4 0) 8 = true) as G0 by (rewrite T4, T2 by (lia || by left); done).
  assert (Z.testbit (pde m4 896) 8 = true) as G1.
  { rewrite T4 by lia. rewrite T2' by (apply Habs; lia). reflexivity. }
  assert (forall a, walk m4 a = Some a -> is_u32 a -> a / 4194304 = 0 \/ a / 4194304 = 896 \/ a / 4194304 = 1019 ->
    shared_page m4 a) as Hsh.
  { intros a Hw Ha Hr. split; [intros He; by rewrite walk_entry, He in Hw|]. destruct Hr as [-> |[-> | ->]]; done. }
  split; cbn [with_ptrs page_copy_ptr static_alloc_ptr static_alloc_limit virt_alloc_ptr].
  - destruct Hwf4. split; assumption.
  - intros a Ha. change (walk (with_ptrs m4 _ _) a) with (walk m4 a). change (shared_page (with_ptrs m4 _ _) a) with (shared_page m4 a).
    assert (walk m2 a = Some a -> is_u32 a -> a / 4194304 <> 1 -> a < IOAPIC_ADDRESS -> walk m4 a = Some a) as Hm.
    { intros Hw Hau Ha1 Hlt. rewrite Hkeep; [done..|]. intros He. by rewrite walk_entry, He in Hw. }
    unfold in_video, VIDEO_MEMORY, IOAPIC_ADDRESS, LAPIC_ADDRESS in *.
    assert (walk m4 a = Some a) as Hw; [|split; [exact Hw|]; apply Hsh; [exact Hw|clear - Ha; unfold is_u32; lia|clear - Ha; zdm]].
    destruct Ha as [Ha|[Ha|Ha]]; [| |by apply Hdev].
    + destruct (Hlow1 a Ha) as [Hw Hen]. apply Hm; [|clear - Ha; unfold is_u32; lia|clear - Ha; zdm|clear - Ha; lia].
      destruct (Ho2 a) as [-> _]; [clear - Ha; unfold is_u32; lia|clear - Ha; zdm|clear - Ha; unfold not; lia|by rewrite Hen|done].
    + apply Hm; [by apply Hv2|clear - Ha; unfold is_u32; lia|clear - Ha; zdm|clear - Ha; lia].
  - intros i Hi H1 H2. change (pde (with_ptrs m4 _ _) i) with (pde m4 i). rewrite T4, T2 by (lia || by left). by apply Habs.
  - intros b Hb. cbn [with_ptrs page_allocator]. apply Hm4; [lia|]. apply Hm2; [lia|]. rewrite Hused1 by lia. apply Z.ltb_lt. lia.
  - apply (boot_frames _ [n1; n2; n3]); [exact Hused4|cbn; lia].
  - rewrite Hcp4. vm_compute. split; congruence.
  - rewrite Hcp4, Hvp4, Hsl4. vm_compute. split; [congruence|]. split; congruence.
  - cbn [with_ptrs cr3]. rewrite Hcr4. exact Hcr.
Qed.

(** C22: the address space in which the kernel goes on after [_start] has set up
    memory, whatever memory held: the low 4 MB, the 4 MB of the frame buffer and
    the pages of both interrupt controllers are mapped to themselves, at once and
    not one instead of the other, in tables that every process will share, and no
    other table is there; the memory invariant holds, frames are left; and
    [interrupt_stack], the end of a page of its own above the tables' frames and
    the copy page, is inside the static heap. *)
Theorem boot_memory_spec m :
  (forall a, is_u32 (phys m a)) ->
  exists istack m', boot_memory m = Some (istack, m') /\ booted istack m' /\ istack <= static_alloc_limit m'.
Proof.
  intros Hu. destruct (boot_memory_ok m Hu) as (istack & m' & E & Hb). exists istack, m'. split; [exact E|]. split; [exact Hb|].
  destruct (bt_istack _ _ Hb) as [-> _]. destruct (bt_heaps _ _ Hb) as (-> & _ & ->). vm_compute. congruence.
Qed.

Lemma boot_memory_spec_witness :
  exists istack m', boot_memory small_machine = Some (istack, m') /\ walk m' 0xE0012345 = Some 0xE0012345.
Proof.
  destruct (boot_memory_spec small_machine) as (istack & m' & E & Hb & _).
  - intros a. cbn [phys small_machine]. unfold is_u32. repeat case_match; lia.
  - exists istack, m'. split; [exact E|]. apply (bt_identity _ _ Hb). right. left. unfold in_video, VIDEO_MEMORY. lia.
Defined.

(** ** The first process *)

(** The new process [pid] and its thread, on the frames [fs] and [gs]: the memory
    [m'] and the processes [k'] after [spawn] in [m] and [k]. *)
Definition spawned (user_process : Z) (k : kernel) (m : machine) (pid : Z) (fs gs : list Z) (k' : kernel) (m' : machine) : Prop :=
  let v := virt_alloc_ptr m in
  memory_wf m' /\
  cr3 m' = p_cr3 (procs k' pid) /\ cr3_reg k' = cr3 m' /\
  (forall a, is_u32 a -> a / 4194304 <> 1 -> shared_page m a -> walk m' a = walk m a) /\
  maps m' (v + 4096) PAGE_USER_DATA fs /\ maps m' (v + 69632) PAGE_KERNEL_DATA gs /\
  length fs = 16%nat /\ length gs = 16%nat /\ NoDup (fs ++ gs) /\
  (forall f, f ∈ fs ++ gs -> bit_used (page_allocator m) f = false) /\
  (forall a, is_u32 a -> a / 4194304 <> 1 -> ~ shared_page m a ->
     (forall b, v + 4096 <= b < v + 135168 -> b / 4194304 <> a / 4194304) -> walk m' a = None) /\
  keeps_data m m' /\
  thread_made user_process (v + 4096) (threads k' (pid * MAX_PROC_THREADS)) /\
  (forall t, t <> pid * MAX_PROC_THREADS -> threads k' t = threads k t) /\
  (forall q, q <> pid -> procs k' q = procs k q) /\
  proc_id k' = pid /\ num_procs k' = num_procs k +w 1 /\ num_running_threads (procs k' pid) = 1 /\
  thisThread k' = thisThread k.

Lemma spawn_ok nullfile user_process k m pid :
  memory_wf m -> low_used m -> frames_left m 98 -> heap_room m 33 1 ->
  0 < pid < MAX_PROCS -> p_cr3 (procs k pid) = 0 -> (forall q, 0 <= q < pid -> p_cr3 (procs k q) <> 0) ->
  runState (threads k (pid * MAX_PROC_THREADS)) = NULL -> num_running_threads (procs k pid) = 0 ->
  exists fs gs k' m', spawn nullfile user_process k m = Some (k', m') /\ spawned user_process k m pid fs gs k' m'.
Proof.
  intros Hwf Hlow Hleft [Hlo Hvm Hhi Hpriv Hst] Hpid Hp0 Hpq Hnull Hrun. unfold spawn. set (v := virt_alloc_ptr m) in *.  fold v in Hlo, Hvm, Hhi, Hpriv.
  destruct (new_user_process_ok nullfile k m pid) as (n & k1 & m1 & -> & Hpm); try done.
  { by apply (frames_left_le m _ 98). }
  { split; try done; [fold v; lia|]. intros a Ha. apply Hpriv. fold v in Ha. lia. }
  cbn [mbind option_bind]. destruct Hpm as [Hwf1 Hlow1 (Hn & Hnf & _) Hmore Hleft1 (Hc1 & Hc2 & Hc3) Hent Hpde Hdata
    (Hv & Hs & Hl & _) (Hpi & Hnp & Hth & Htt & Hpr) (_ & _ & _ & _ & _ & Hnr)]. fold v in Hv.
  assert (forall i, 0 <= i < 1024 -> i <> 1 -> pme_present (pde m1 i) = true -> forall a, v <= a < v + 135168 -> a / 4194304 <> i) as Habsent.
  { intros i Hi Hn1 Hp a Ha <-. destruct (Hpde _ Hi Hn1 Hp) as [Hg E]. rewrite E in Hp, Hg. rewrite Hpriv in Hg; [done|lia|done]. }
  destruct (new_user_thread_ok user_process k1 m1 0) as (fs & gs & ts & k2 & m2 & -> & Hsm & Htm & Hto & Hpp & Hnp2 & Hpi2 & Htt2 & Hcr2).
  { done. } { done. } { apply Hleft1. by apply (frames_left_le m _ 98). }
  { split; rewrite ?Hv; try lia; [zdm|]. intros a Ha Hp. exfalso.
    apply (Habsent (a / 4194304)) with a; [apply dir_range; unfold is_u32; lia|zdm|done|lia|done]. }
  { unfold MAX_PROC_THREADS. lia. } { by rewrite Hth, Hpi, Z.add_0_r. } { intros q Hq. lia. }
  rewrite Hpi, Z.add_0_r, Hv in *. cbn [mbind option_bind].
  destruct Hsm as [Hwf2 Hsl Hfr Hus Hsy Hub Hkeep Hpde2 Hcr Hdata2 _].
  exists fs, gs, k2, m2. split; [done|]. unfold spawned. fold v. cbv zeta. split; [done|].
  assert (p_cr3 (procs k2 pid) = 4096 * n) as E2 by (rewrite Hpp, upd_same; done).
  split; [congruence|]. split; [congruence|].
  split; [|split; [exact Hus|split; [by replace (v + 69632) with (v + 4096 + 65536) by lia|]]].
  { intros a Ha Hn1 [He Hg]. assert (entry m1 a = entry m a) as E by by rewrite Hent, Hg.
    rewrite !walk_entry by done. assert (entry m2 a = entry m a) as ->; [|done]. rewrite <- E in He |- *.
    apply Hkeep; [done|done| |done]. intros Hr. apply (Habsent (a / 4194304) (dir_range a Ha) Hn1) with a; [|lia|done].
    destruct (pme_present (pde m1 (a / 4194304))) eqn:Hp; [done|]. by apply entry_present in Hp. }
  split; [apply Hsl|]. split; [apply Hsl|]. split; [apply Hfr|]. split.
  { intros f Hf. destruct Hfr as [_ Hfr]. destruct (Hfr f) as [Hr Hb]; [rewrite !elem_of_app in *; tauto|].
    destruct (bit_used (page_allocator m) f) eqn:E; [|done]. rewrite Hmore in Hb by (done || lia). done. }
  split.
  { intros a Ha Hn1 Hns Hout. rewrite walk_entry by done. pose proof (dir_range a Ha) as Hd.
    assert (entry m2 a = None) as ->; [|done]. apply entry_present.
    destruct (Hpde2 _ Hd) as [->|(b & Hb & Eb)]; [|by destruct (Hout b); [lia|]]. apply entry_present. rewrite Hent by done.
    destruct (Z.testbit _ _) eqn:Hg; [|done]. destruct (entry m a) eqn:He; [|done]. destruct Hns. by split; [rewrite He|]. }
  split.
  { intros a Ha Hu Hnt. rewrite Hdata2; [by apply Hdata|done|by apply Hmore; [zdm|]|].
    intros (i & Hi & Hp & Ht). destruct (decide (i = 1)) as [->|Hi1].
    - destruct (wf_self _ Hwf1) as [_ E]. rewrite E, Hc1 in Ht. assert (a / 4096 = n) as Ea by lia. congruence.
    - apply Hnt. destruct (Hpde i Hi Hi1 Hp) as [_ E]. exists i. unfold table in *. by rewrite <- E. }
  split; [exact Htm|]. split; [intros t Ht; rewrite Hto, Hth; done|]. split.
  { intros q Hq. rewrite Hpp, upd_other by done. by apply Hpr. }
  split; [done|]. split; [congruence|]. split; [|congruence]. rewrite Hpp, upd_same. cbn [with_running num_running_threads].
  rewrite Hnr, Hrun. reflexivity.
Qed.

(** C14: [spawn].  From a well-formed memory with 98 frames and 33 pages of private
    address space left, it makes the first free process and its first thread, and
    goes on in the new address space.  There every address of the kernel's shared
    tables translates as before; the thread has a stack of 64 KB that user code may
    write and one for system calls that it may not reach, on distinct frames that
    were free; outside the tables of these stacks and the directory itself nothing
    else is mapped; and no word of a frame in use changes but in page tables.  The
    thread will run at [user_process] in ring 3 on its stack, the other threads and
    processes are as they were. *)
Theorem spawn_spec nullfile user_process k m pid :
  memory_wf m -> low_used m -> frames_left m 98 -> heap_room m 33 1 ->
  0 < pid < MAX_PROCS -> p_cr3 (procs k pid) = 0 -> (forall q, 0 <= q < pid -> p_cr3 (procs k q) <> 0) ->
  runState (threads k (pid * MAX_PROC_THREADS)) = NULL -> num_running_threads (procs k pid) = 0 ->
  exists fs gs k' m', spawn nullfile user_process k m = Some (k', m') /\ spawned user_process k m pid fs gs k' m'.
Proof. apply spawn_ok. Qed.

(** The kernel's process alone, at its idle thread. *)
Definition kernel_only : kernel :=
  {| procs := fun p => if p =? 0
       then {| p_cr3 := 0x1000; thread_index := 0; num_running_threads := 2; files := fun f => if f =? 1 then 0x9000 else 0;
               locks := fun _ => {| owner := None; next := None |};
               monitors := fun _ => {| mon_lock := {| owner := None; next := None |}; signal := 0 |};
               env := 0; userEnv := 0; msgQueue := new_MsgQueue 64 [] |}
       else init_process (with_running idle_process 0);
     threads := fun t => if t <=? 1 then with_runState no_thread RUNNING else no_thread; num_procs := 1;
     proc_id := 0; thisThread := 1; esp0 := 0; cr3_reg := 0x1000 |}.

Lemma spawn_spec_witness :
  exists k' m', spawn 0xA000 0x8123 kernel_only small_machine = Some (k', m') /\ memory_wf m' /\
    intParams (threads k' 16) = {| eip := 0x8123; cs := 0x1B; eflags := 0x202; esp3 := 0x801000 + 65536 - 96; ss3 := 0x23 |} /\
    walk m' 0xC00000 = None.
Proof.
  destruct (spawn_spec 0xA000 0x8123 kernel_only small_machine 1) as
    (fs & gs & k' & m' & E & Hwf & _ & _ & _ & _ & _ & _ & _ & _ & _ & Hnone & _ & Htm & _).
  - apply small_machine_wf.
  - intros b Hb. rewrite small_machine_bits by lia. apply Z.ltb_lt. lia.
  - apply small_machine_room. lia.
  - split; cbn; try lia; [reflexivity|]. intros a Ha Hp. change (virt_alloc_ptr small_machine) with 0x800000 in Ha.
    apply small_machine_pde in Hp; zdm.
  - unfold MAX_PROCS. lia.
  - reflexivity.
  - intros q Hq. assert (q = 0) as -> by lia. discriminate.
  - reflexivity.
  - reflexivity.
  - exists k', m'. split; [exact E|]. split; [exact Hwf|]. split; [apply (tm_int _ _ _ Htm)|].
    apply Hnone; [unfold is_u32; lia|vm_compute; congruence| |].
    + intros [He _]. apply He. reflexivity.
    + change (virt_alloc_ptr small_machine) with 0x800000. intros b Hb. zdm.
Defined.
