(* ===== verification/Terminal.v ===== *)
(** * The terminal of user space: text boxes as logs, the line editor, the shell:
    [include/gui/terminal.h], [include/gui/objects.h], [user/shell.cpp]

    The operations of a text box are those of [Objects]; here they are given a
    specification: the box holds a log of characters, of which its ring buffer
    keeps the end.  A [char] is a number, [int]s do not overflow (a log of 2^31
    characters is out of reach). *)
From S2P Require Import Prelude Shapes Objects Gui.

(** ** Text boxes *)

Section box.
Implicit Types (b : Buffer) (e log : list Z) (w : Window).

(** The character of the log at index [i] in the ring. *)
Definition box_char b (i : Z) : option Z := text b !! Z.to_nat (i mod max b).

(** What [print] puts in the log: a newline is the blanks up to the end of the
    line. *)
Fixpoint expand (cw t : Z) (cs : list Z) : list Z :=
  match cs with
  | [] => []
  | c :: cs =>
      if c =? 10 then replicate (Z.to_nat (cw - t mod cw)) 32 ++ expand cw (t + (cw - t mod cw)) cs
      else c :: expand cw (t + 1) cs
  end.

Lemma put_char_ok i c b :
  buffer_ok b -> 0 <= i ->
  exists b', put_char i c b = Some b' /\ buffer_ok b' /\ char_w b' = char_w b /\ max b' = max b /\
    head b' = head b /\ tail b' = tail b /\ offset_y b' = offset_y b /\
    forall j, 0 <= j -> box_char b' j = if j mod max b =? i mod max b then Some c else box_char b j.
Proof.
  intros (Hw & Hm & Hl & Hh & Ht) Hi. unfold put_char.
  destruct (Z.eqb_spec (max b) 0); [lia|]. rewrite Z.rem_mod_nonneg by lia.
  pose proof (Z.mod_pos_bound i (max b) Hm). rewrite arr_set_Some by lia. cbn.
  eexists. split; [reflexivity|]. split.
  { unfold buffer_ok. cbn. rewrite length_insert. done. }
  do 5 (split; [done|]). intros j Hj. unfold box_char. cbn. pose proof (Z.mod_pos_bound j (max b) Hm).
  destruct (Z.eqb_spec (j mod max b) (i mod max b)) as [->|Hne].
  - apply list_lookup_insert_eq. lia.
  - apply list_lookup_insert_ne. lia.
Qed.

(** Two indices less than [max] apart have different places. *)
Lemma ring_ne b i j : 0 < max b -> i < j < i + max b -> (i mod max b =? j mod max b) = false.
Proof.
  intros Hm Hij. apply Z.eqb_neq. intros E. generalize dependent (max b). intros m Hm Hij E.
  rewrite (Z.div_mod i m), (Z.div_mod j m), E in Hij by lia.
  assert (i / m < j / m) by nia. assert (j / m < i / m + 1) by nia. lia.
Qed.

(** [b'] is [b] after the characters [e] were put at its end. *)
Definition box_pushed e b b' : Prop :=
  buffer_ok b' /\ char_w b' = char_w b /\ max b' = max b /\ head b' = head b /\ offset_y b' = offset_y b /\
  tail b' = tail b + Z.of_nat (length e) /\
  forall i, 0 <= i -> tail b' - max b <= i < tail b' ->
    box_char b' i = if i <? tail b then box_char b i else e !! Z.to_nat (i - tail b).

Lemma push_char_ok c b : buffer_ok b -> exists b', push_char c b = Some b' /\ box_pushed [c] b b'.
Proof.
  intros Hb. pose proof Hb as (Hw & Hm & Hl & Hh & Ht). unfold push_char.
  destruct (put_char_ok (tail b) c b Hb Ht) as (b1 & -> & Hb1 & E1 & E2 & E3 & E4 & E5 & Hc). cbn [mbind option_bind].
  eexists. split; [reflexivity|]. destruct Hb1 as (? & ? & ? & ? & ?).
  split; [unfold buffer_ok; cbn in *; rewrite ?E4; split_and!; try done; lia|].
  cbn. do 4 (split; [done|]). split; [cbn; lia|]. intros i Hi Hr. cbn in Hr.
  change (box_char (with_text b1 (tail b1 + 1) (text b1)) i) with (box_char b1 i). rewrite Hc by done. rewrite E4 in Hr.
  destruct (Z.ltb_spec i (tail b)) as [Hlt|Hge].
  - by rewrite ring_ne by lia.
  - assert (i = tail b) as -> by lia. by rewrite Z.eqb_refl, Z.sub_diag.
Qed.

Lemma box_pushed_nil b : buffer_ok b -> box_pushed [] b b.
Proof.
  intros Hb. split; [done|]. do 4 (split; [done|]). split; [cbn; lia|]. intros i Hi Hr.
  by destruct (Z.ltb_spec i (tail b)); [|lia].
Qed.

Lemma box_pushed_app e1 e2 b b1 b2 : box_pushed e1 b b1 -> box_pushed e2 b1 b2 -> box_pushed (e1 ++ e2) b b2.
Proof.
  intros (H1 & A1 & A2 & A3 & A4 & A5 & A6) (H2 & B1 & B2 & B3 & B4 & B5 & B6).
  split; [done|]. do 4 (split; [congruence|]). rewrite length_app. split; [lia|].
  intros i Hi Hr. rewrite B6 by (rewrite ?A2; lia). destruct (Z.ltb_spec i (tail b1)) as [Hlt|Hge].
  - rewrite A6 by lia. destruct (Z.ltb_spec i (tail b)); [done|]. rewrite lookup_app_l by lia. done.
  - destruct (Z.ltb_spec i (tail b)); [lia|]. rewrite lookup_app_r by lia. f_equal. lia.
Qed.

Lemma push_blanks n i0 b :
  buffer_ok b -> exists b', for_each n i0 (fun _ => push_char 32) b = Some b' /\ box_pushed (replicate n 32) b b'.
Proof.
  revert i0 b. induction n as [|n IH]; intros i0 b Hb; cbn [for_each replicate].
  - exists b. split; [done|by apply box_pushed_nil].
  - destruct (push_char_ok 32 b Hb) as (b1 & -> & H1). cbn [mbind option_bind].
    destruct (IH (i0 + 1) b1) as (b2 & -> & H2); [apply H1|]. exists b2. split; [done|]. by apply (box_pushed_app [32] _ b b1).
Qed.

(** The loop of [print] pushes the expanded characters. *)
Lemma print_chars_ok cs b :
  buffer_ok b -> exists b', print_chars cs b = Some b' /\ box_pushed (expand (char_w b) (tail b) cs) b b'.
Proof.
  revert b. induction cs as [|c cs IH]; intros b Hb; cbn [print_chars expand].
  - exists b. split; [done|by apply box_pushed_nil].
  - unfold print_char. pose proof Hb as (Hw & _ & _ & _ & Ht).
    assert (exists b1, (if c =? 10 then for_each (Z.to_nat (char_w b - Z.rem (tail b) (char_w b))) 0 (fun _ => push_char 32) b
      else push_char c b) = Some b1 /\ box_pushed (if c =? 10 then replicate (Z.to_nat (char_w b - tail b mod char_w b)) 32 else [c]) b b1)
      as (b1 & E & H1).
    { destruct (c =? 10); [|by apply push_char_ok]. rewrite Z.rem_mod_nonneg by lia. by apply push_blanks. }
    rewrite E. cbn [mbind option_bind]. destruct (IH b1) as (b2 & -> & H2); [apply H1|].
    exists b2. split; [done|]. pose proof H1 as (_ & E1 & _ & _ & _ & E2 & _). rewrite E1, E2 in H2.
    pose proof (Z.mod_pos_bound (tail b) (char_w b) Hw). destruct (c =? 10).
    + rewrite length_replicate in H2. rewrite Z2Nat.id in H2 by lia. by apply (box_pushed_app _ _ b b1).
    + by apply (box_pushed_app [c] _ b b1).
Qed.
(** The state of a box whose log is [log]: the ring holds it from index [lo] on.
    The rest of the ring, a line at most, is for the cursor and the blanks that
    follow it. *)
Record box_holds b log (lo : Z) : Prop := {
  bh_ok : buffer_ok b;
  bh_line : char_w b <= max b;
  bh_head : head b <= tail b;
  bh_tail : tail b = Z.of_nat (length log);
  bh_lo : 0 <= lo /\ tail b - max b + char_w b <= lo;
  bh_text i : lo <= i < tail b -> box_char b i = log !! Z.to_nat i
}.

(** Stores past the end of the log do not touch what the ring holds of it. *)
Lemma holds_put b log lo i c :
  box_holds b log lo -> tail b <= i < tail b + char_w b ->
  exists b', put_char i c b = Some b' /\ box_holds b' log lo /\ char_w b' = char_w b /\ max b' = max b /\
    head b' = head b /\ tail b' = tail b /\ offset_y b' = offset_y b /\ box_char b' i = Some c.
Proof.
  intros [Hok Hline Hhead Htail Hlo Htext] Hi. pose proof Hok as (? & Hm & _ & _ & Ht).
  destruct (put_char_ok i c b Hok ltac:(lia)) as (b' & E & Hok' & E1 & E2 & E3 & E4 & E5 & Hc).
  exists b'. split; [done|]. split; [|do 5 (split; [done|]); rewrite Hc, Z.eqb_refl by lia; done].
  split; rewrite ?E1, ?E2, ?E3, ?E4; try done.
  intros j Hj. rewrite Hc by lia. rewrite ring_ne by lia. by apply Htext.
Qed.

Lemma holds_blanks b log lo :
  box_holds b log lo ->
  exists b', for_each (Z.to_nat (char_w b)) 0 (fun i b => put_char (tail b + i) 32 b) b = Some b' /\
    box_holds b' log lo /\ char_w b' = char_w b /\ max b' = max b /\ head b' = head b /\ tail b' = tail b.
Proof.
  intros Hb. pose proof (bh_ok _ _ _ Hb) as (Hw & _).
  destruct (for_each_inv (fun _ b' => box_holds b' log lo /\ char_w b' = char_w b /\ max b' = max b /\ head b' = head b /\
      tail b' = tail b) (Z.to_nat (char_w b)) 0 (fun i b => put_char (tail b + i) 32 b) b) as (b' & E & Hb'); [done| |by exists b'].
  intros j b1 Hj (H1 & E1 & E2 & E3 & E4).
  destruct (holds_put b1 log lo (tail b1 + j) 32 H1) as (b2 & -> & H2 & F1 & F2 & F3 & F4 & _); [lia|].
  exists b2. split; [done|]. split; [done|]. split_and!; congruence.
Qed.

Lemma set_redraw_rect_text o n w b :
  let b' := snd (set_redraw_rect o n w b) in
  text b' = text b /\ char_w b' = char_w b /\ max b' = max b /\ head b' = head b /\ tail b' = tail b.
Proof. unfold set_redraw_rect. by repeat (case_match; try done). Qed.

Lemma holds_ext b b' log lo :
  text b' = text b -> char_w b' = char_w b -> max b' = max b -> head b' = head b -> tail b' = tail b ->
  box_holds b log lo -> box_holds b' log lo.
Proof.
  intros E1 E2 E3 E4 E5 [Hok Hl Hh Ht Hlo Htx].
  split; unfold buffer_ok, box_char in *; rewrite ?E1, ?E2, ?E3, ?E4, ?E5; done.
Qed.

(** Characters box_pushed at the end of a log. *)
Lemma holds_pushed e b b' log lo :
  box_holds b log lo -> box_pushed e b b' -> box_holds b' (log ++ e) (Z.max lo (tail b' - max b + char_w b)).
Proof.
  intros [Hok Hline Hhead Htail [Hlo Hlo2] Htext] (Hok' & E1 & E2 & E3 & E4 & E5 & Hc).
  pose proof Hok as (? & ? & _ & _ & ?). split; rewrite ?E1, ?E2, ?E3; try done; try lia.
  - rewrite length_app. lia.
  - intros i Hi. rewrite Hc by lia. destruct (Z.ltb_spec i (tail b)).
    + rewrite Htext, lookup_app_l by lia. done.
    + rewrite lookup_app_r by lia. f_equal. lia.
Qed.

Lemma holds_scroll b log lo :
  box_holds b log lo ->
  let b' := if max b <=? tail b - head b then with_head b (head b + char_w b) else b in
  box_holds b' log lo /\ char_w b' = char_w b /\ max b' = max b /\ tail b' = tail b /\
  head b' = if max b <=? tail b - head b then head b + char_w b else head b.
Proof.
  intros [Hok Hline Hhead Htail Hlo Htext]. pose proof Hok as (? & ? & ? & ? & ?).
  destruct (Z.leb_spec (max b) (tail b - head b)); [|done]. split; [|done].
  split; cbn; try done; [|lia]. unfold buffer_ok. cbn. split_and!; try done; lia.
Qed.

(** The operations of a box, and what they do to the log. *)
Inductive box_op := Print (cs : list Z) | Backspace.

Definition box_step (op : box_op) (st : Window * Buffer) : option (Window * Buffer) :=
  match op with
  | Print cs => textbox_print cs (fst st) (snd st)
  | Backspace => backspace (fst st) (snd st)
  end.

(** [print] keeps the last [max] characters of its argument. *)
Definition printed b (cs : list Z) : list Z :=
  expand (char_w b) (tail b) (drop (length cs - Z.to_nat (max b)) cs).

Definition log_step b (op : box_op) log : list Z :=
  match op with
  | Print cs => log ++ printed b cs
  | Backspace => if tail b <=? head b then log else take (length log - 1) log
  end.

Definition lo_step b (op : box_op) log lo : Z :=
  match op with
  | Print cs => Z.max lo (Z.of_nat (length (log_step b op log)) - max b + char_w b)
  | Backspace => lo
  end.

Lemma print_holds cs w b log lo :
  box_holds b log lo ->
  exists w' b', textbox_print cs w b = Some (w', b') /\
    box_holds b' (log_step b (Print cs) log) (lo_step b (Print cs) log lo) /\
    char_w b' = char_w b /\ max b' = max b /\ box_char b' (tail b') = Some 95.
Proof.
  intros Hb. pose proof (bh_ok _ _ _ Hb) as (Hw & Hm & _ & _ & Ht). unfold textbox_print.
  destruct (Z.eqb_spec (char_w b) 0); [lia|].
  assert ((if max b <? Z.of_nat (length cs) then drop (Z.to_nat (Z.of_nat (length cs) - max b)) cs else cs) =
    drop (length cs - Z.to_nat (max b)) cs) as ->.
  { destruct (Z.ltb_spec (max b) (Z.of_nat (length cs))); [f_equal; lia|].
    replace (length cs - Z.to_nat (max b))%nat with 0%nat by lia. done. }
  destruct (print_chars_ok (drop (length cs - Z.to_nat (max b)) cs) b (bh_ok _ _ _ Hb)) as (b1 & -> & Hp).
  fold (printed b cs) in Hp. cbn [mbind option_bind].
  pose proof (holds_pushed _ _ _ _ _ Hb Hp) as H1. destruct Hp as (_ & E1 & E2 & _ & _ & E5 & _).
  destruct (holds_scroll b1 _ _ H1) as (H2 & F1 & F2 & F3 & _).
  set (b2 := if max b1 <=? _ then _ else _) in *.
  assert (exists b3, (if Z.rem (tail b2) (char_w b2) =? 0 then
      for_each (Z.to_nat (char_w b2)) 0 (fun i b => put_char (tail b + i) 32 b) b2 else Some b2) = Some b3 /\
    box_holds b3 (log ++ printed b cs) (Z.max lo (tail b1 - max b + char_w b)) /\
    char_w b3 = char_w b2 /\ max b3 = max b2 /\ tail b3 = tail b2) as (b3 & E3 & H3 & G1 & G2 & G3).
  { destruct (_ =? 0); [|by exists b2]. destruct (holds_blanks b2 _ _ H2) as (b3 & -> & H3 & ? & ? & ? & ?). by exists b3. }
  rewrite E3. cbn [mbind option_bind].
  destruct (holds_put b3 _ _ (tail b3) 95 H3) as (b4 & -> & H4 & K1 & K2 & K3 & K4 & _ & Hcur).
  { pose proof (bh_ok _ _ _ H3) as (? & _). lia. }
  cbn [mbind option_bind]. destruct (set_redraw_rect_text (tail b) (tail b4) w b4) as (T1 & T2 & T3 & T4 & T5).
  destruct (set_redraw_rect _ _ w b4) as [w5 b5]. cbn [snd] in *. exists w5, b5. split; [done|].
  split; [|split; [congruence|split; [congruence|]]].
  - apply (holds_ext b4); try done. unfold lo_step, log_step.
    replace (Z.of_nat (length (log ++ printed b cs))) with (tail b1); [done|].
    rewrite length_app, E5, (bh_tail _ _ _ Hb). lia.
  - unfold box_char in *. by rewrite T1, T3, T5, K4.
Qed.

Lemma backspace_holds w b log lo :
  box_holds b log lo ->
  exists w' b', backspace w b = Some (w', b') /\
    box_holds b' (log_step b Backspace log) (lo_step b Backspace log lo) /\
    char_w b' = char_w b /\ max b' = max b /\ (head b < tail b -> box_char b' (tail b') = Some 95).
Proof.
  intros Hb. unfold backspace, log_step, lo_step. destruct (Z.leb_spec (tail b) (head b)).
  { exists w, b. do 4 (split; [done|]). lia. }
  pose proof (bh_ok _ _ _ Hb) as (Hw & Hm & Hl & Hh & Ht). pose proof (bh_tail _ _ _ Hb) as Htail.
  destruct (holds_put b log lo (tail b) 32 Hb) as (b1 & -> & H1 & E1 & E2 & E3 & E4 & _); [lia|]. cbn [mbind option_bind].
  set (b2 := with_text b1 (tail b1 - 1) (text b1)).
  assert (box_holds b2 (take (length log - 1) log) lo) as H2.
  { destruct H1 as [(A1 & A2 & A3 & A4 & A5) Hline Hhead Ht1 Hlo Htx]. split; cbn; try done; try lia.
    - unfold buffer_ok. cbn. split_and!; try done; lia.
    - rewrite length_take. lia.
    - intros i Hi. rewrite lookup_take_lt by lia. apply Htx. lia. }
  destruct (holds_put b2 _ _ (tail b2) 95 H2) as (b3 & -> & H3 & F1 & F2 & F3 & F4 & _ & Hcur); [cbn; lia|].
  cbn [mbind option_bind]. destruct (set_redraw_rect_text (tail b) (tail b3) w b3) as (T1 & T2 & T3 & T4 & T5).
  destruct (set_redraw_rect _ _ w b3) as [w5 b5]. cbn [snd] in *. exists w5, b5. split; [done|].
  split; [by apply (holds_ext b3)|]. cbn [b2 with_text char_w max tail] in *.
  split; [congruence|]. split; [congruence|]. intros _. unfold box_char in *. by rewrite T1, T3, T5, F4.
Qed.
End box.

(** C31: a text box is a log of characters.  Whatever is printed or erased, no
    access leaves the ring and the ring holds the end of the log: printing
    appends the last [max] characters, a newline being the blanks up to the end
    of the line; a backspace takes the last character away unless the box is
    empty.  What the ring can hold shrinks to its size less one line, which the
    cursor and the blanks after it use, and the cursor is at the end of the log. *)
Theorem textbox_holds_log op w b log lo :
  box_holds b log lo ->
  exists w' b', box_step op (w, b) = Some (w', b') /\
    box_holds b' (log_step b op log) (lo_step b op log lo) /\ char_w b' = char_w b /\ max b' = max b /\
    ((exists cs, op = Print cs) \/ head b < tail b -> box_char b' (tail b') = Some 95).
Proof.
  intros Hb. destruct op as [cs|]; cbn [box_step fst snd].
  - destruct (print_holds cs w b log lo Hb) as (w' & b' & E & H & E1 & E2 & Hc). by exists w', b'.
  - destruct (backspace_holds w b log lo Hb) as (w' & b' & E & H & E1 & E2 & Hc). exists w', b'.
    do 4 (split; [done|]). intros [[cs Hcs]|Hlt]; [done|by apply Hc].
Qed.

Lemma new_box_holds w h garbage :
  0 < w -> 0 < h -> Z.of_nat (length garbage) = w * h -> box_holds (new_Buffer w h garbage) [] 0.
Proof.
  intros Hw Hh Hg. split; cbn; try (done || nia).
  unfold buffer_ok. cbn. split_and!; try done; nia.
Qed.

Lemma textbox_holds_log_witness :
  exists w' b', box_step (Print [72; 105; 10]) (empty_Window, new_Buffer 4 3 (replicate 12 0)) = Some (w', b') /\
    box_holds b' [72; 105; 32; 32] 0.
Proof.
  destruct (textbox_holds_log (Print [72; 105; 10]) empty_Window (new_Buffer 4 3 (replicate 12 0)) [] 0)
    as (w' & b' & E & H & _); [apply new_box_holds; [lia|lia|reflexivity]|].
  exists w', b'. split; [exact E|exact H].
Defined.

(** ** The terminal *)

Definition MAX_INPUT_BUFFER : Z := 64.
Definition INPUT_MONITOR : Z := 1.

Record GUITerminal := {
  input_buf : list Z;
  input_buf_head : Z;
  input_buf_tail : Z;
  textbox_win : Window;
  textbox_buf : Buffer
}.

(** The calls of the system library, in order. *)
Inductive sys_call := SysNotify (m d : Z) | SysMonitor (m d : Z) | SysUnmonitor (m : Z) | SysRedraw.

Definition with_input (t : GUITerminal) (l : list Z) (h tl : Z) : GUITerminal :=
  {| input_buf := l; input_buf_head := h; input_buf_tail := tl; textbox_win := textbox_win t; textbox_buf := textbox_buf t |}.
Definition with_textbox (t : GUITerminal) (wb : Window * Buffer) : GUITerminal :=
  {| input_buf := input_buf t; input_buf_head := input_buf_head t; input_buf_tail := input_buf_tail t;
     textbox_win := fst wb; textbox_buf := snd wb |}.

Definition key_handler (key : Z) (t : GUITerminal) : option (GUITerminal * list sys_call) :=
  let input_buf_size := input_buf_tail t - input_buf_head t in
  if MAX_INPUT_BUFFER <=? input_buf_size then Some (t, []) else
  l ← arr_set (input_buf t) (Z.rem (input_buf_tail t) MAX_INPUT_BUFFER) key;
  Some (with_input t l (input_buf_head t) (input_buf_tail t + 1), [SysNotify INPUT_MONITOR 1]).

(** [getchar]: the index is not reduced. *)
Definition getchar (t : GUITerminal) : option (Z * GUITerminal * list sys_call) :=
  retval ← arr_get (input_buf t) (input_buf_head t);
  Some (retval, with_input t (input_buf t) (input_buf_head t + 1) (input_buf_tail t),
        [SysMonitor INPUT_MONITOR 1; SysUnmonitor INPUT_MONITOR]).

Definition gui_write (s : list Z) (t : GUITerminal) : option (Z * GUITerminal * list sys_call) :=
  wb ← textbox_print s (textbox_win t) (textbox_buf t);
  Some (1, with_textbox t wb, [SysRedraw]).

Definition gui_backspace (t : GUITerminal) : option GUITerminal :=
  wb ← backspace (textbox_win t) (textbox_buf t); Some (with_textbox t wb).

(** The two tests of [read] for a full line. *)
Definition limit_line (max : Z) (t : GUITerminal) (buffer : list Z) (len : Z) : option (GUITerminal * list Z * Z) :=
  '(t, buffer, len) ←
    (if (max -w 1) <=? u32 len then
       let len := s32 (max -w 1) in
       t ← gui_backspace t; buffer ← arr_set buffer (len - 1) 32; Some (t, buffer, len - 1)
     else Some (t, buffer, len));
  if MAX_INPUT_BUFFER - 1 <=? len then
    let len := MAX_INPUT_BUFFER - 1 in
    t ← gui_backspace t; buffer ← arr_set buffer (len - 1) 32; Some (t, buffer, len - 1)
  else Some (t, buffer, len).

(** One character of [read], once [monitor] has returned: the character, the
    caller's buffer and [len].  [len >= max-1] compares [uint]s. *)
Definition read_char (max : Z) (t : GUITerminal) (buffer : list Z) (len : Z)
    : option (Z * GUITerminal * list Z * Z * list sys_call) :=
  nextchar ← arr_get (input_buf t) (Z.rem (input_buf_head t) MAX_INPUT_BUFFER);
  let t := with_input t (input_buf t) (input_buf_head t + 1) (input_buf_tail t) in
  let calls := [SysMonitor INPUT_MONITOR 1] in
  if nextchar =? 8 then
    if 0 <? len then
      t ← gui_backspace t;
      buffer ← arr_set buffer (len - 1) 32;
      Some (nextchar, t, buffer, len - 1, calls ++ [SysRedraw])
    else Some (nextchar, t, buffer, len, calls)
  else
    '(t, buffer, len) ←
      (if negb (nextchar =? 10) then
         limit_line max t buffer len
       else Some (t, buffer, len));
    buffer ← arr_set buffer len nextchar;
    c ← arr_get buffer len;
    '(_, t, w) ← gui_write [c] t;
    Some (nextchar, t, buffer, len + 1, calls ++ w).

(** [read] over the [n] characters that have been signalled: [true] when it
    returned, [false] when it waits in [monitor] for more. *)
Fixpoint read_loop (n : nat) (max : Z) (t : GUITerminal) (buffer : list Z) (len : Z) (calls : list sys_call)
    : option (bool * GUITerminal * list Z * Z * list sys_call) :=
  match n with
  | O => Some (false, t, buffer, len, calls)
  | S n =>
      '(nextchar, t, buffer, len, c) ← read_char max t buffer len;
      if negb (nextchar =? 10) then read_loop n max t buffer len (calls ++ c)
      else Some (true, t, buffer, len, calls ++ c ++ [SysUnmonitor INPUT_MONITOR])
  end.

Definition gui_read (n : nat) (max : Z) (buffer : list Z) (t : GUITerminal)
    : option (bool * GUITerminal * list Z * Z * list sys_call) := read_loop n max t buffer 0 [].

(** ** The line editor *)

Section editor.
Implicit Types (t : GUITerminal) (ks line buffer : list Z).

(** A well-formed terminal with the keys [ks] waiting. *)
Record term_holds t ks : Prop := {
  th_buf : length (input_buf t) = 64%nat;
  th_head : 0 <= input_buf_head t;
  th_size : input_buf_tail t = input_buf_head t + Z.of_nat (length ks);
  th_full : (length ks <= 64)%nat;
  th_keys i k : ks !! i = Some k -> input_buf t !! Z.to_nat ((input_buf_head t + Z.of_nat i) mod 64) = Some k;
  th_box : exists log lo, box_holds (textbox_buf t) log lo
}.

(** The line while it is typed: a backspace erases, and at the limit a character
    replaces the last one. *)
Definition edit_key (limit : nat) line (c : Z) : list Z :=
  if c =? 8 then take (length line - 1) line
  else if (limit <=? length line)%nat then take (limit - 1) line ++ [c]
  else line ++ [c].

Definition edit_line (limit : nat) ks : list Z := foldl (edit_key limit) [] ks.

Lemma edit_key_length limit line c : (1 <= limit)%nat -> (length line <= limit)%nat -> (length (edit_key limit line c) <= limit)%nat.
Proof.
  intros Hl Hn. unfold edit_key. destruct (c =? 8); [rewrite length_take; lia|].
  destruct (Nat.leb_spec limit (length line)); rewrite length_app, ?length_take; cbn; lia.
Qed.

Lemma box_write t s :
  (exists log lo, box_holds (textbox_buf t) log lo) ->
  exists wb, gui_write s t = Some (1, with_textbox t wb, [SysRedraw]) /\ exists log lo, box_holds (snd wb) log lo.
Proof.
  intros (log & lo & Hb). unfold gui_write. destruct (print_holds s (textbox_win t) _ _ _ Hb) as (w & b & -> & H & _).
  exists (w, b). split; [done|]. by do 2 eexists.
Qed.

Lemma box_erase t :
  (exists log lo, box_holds (textbox_buf t) log lo) ->
  exists wb, gui_backspace t = Some (with_textbox t wb) /\ exists log lo, box_holds (snd wb) log lo.
Proof.
  intros (log & lo & Hb). unfold gui_backspace. destruct (backspace_holds (textbox_win t) _ _ _ Hb) as (w & b & -> & H & _).
  exists (w, b). split; [done|]. by do 2 eexists.
Qed.

Lemma term_textbox t ks wb :
  term_holds t ks -> (exists log lo, box_holds (snd wb) log lo) -> term_holds (with_textbox t wb) ks.
Proof. intros [] H. by split. Qed.

(** Taking the first waiting key. *)
Lemma term_next t k ks :
  term_holds t (k :: ks) ->
  arr_get (input_buf t) (Z.rem (input_buf_head t) MAX_INPUT_BUFFER) = Some k /\
  term_holds (with_input t (input_buf t) (input_buf_head t + 1) (input_buf_tail t)) ks.
Proof.
  intros [Hb Hh Hs Hf Hk Hx]. split.
  - unfold MAX_INPUT_BUFFER. rewrite Z.rem_mod_nonneg by lia. unfold arr_get.
    destruct (Z.leb_spec 0 (input_buf_head t mod 64)); [|zdm].
    specialize (Hk 0%nat k eq_refl). by rewrite Z.add_0_r in Hk.
  - split; cbn in *; try done; try lia. intros i k' Hi. replace (input_buf_head t + 1 + Z.of_nat i)
      with (input_buf_head t + Z.of_nat (S i)) by lia. by apply Hk.
Qed.

(** The key handler: a key is queued when there is room, otherwise lost. *)
Lemma key_handler_holds key t ks :
  term_holds t ks ->
  exists t' c, key_handler key t = Some (t', c) /\
    if (length ks <? 64)%nat then term_holds t' (ks ++ [key]) /\ c = [SysNotify INPUT_MONITOR 1] else t' = t /\ c = [].
Proof.
  intros [Hb Hh Hs Hf Hk Hx]. unfold key_handler, MAX_INPUT_BUFFER.
  destruct (Z.leb_spec 64 (input_buf_tail t - input_buf_head t)), (Nat.ltb_spec (length ks) 64); try lia.
  { by exists t, []. }
  rewrite Z.rem_mod_nonneg by lia. rewrite arr_set_Some by (rewrite Hb; zdm). cbn.
  do 2 eexists. split; [reflexivity|]. split; [|done]. split; cbn; try done.
  - by rewrite length_insert.
  - rewrite length_app. cbn. lia.
  - rewrite length_app. cbn. lia.
  - intros i k Hi. apply lookup_app_Some in Hi as [Hi|[Hge Hi]].
    + pose proof (lookup_lt_Some _ _ _ Hi). rewrite list_lookup_insert_ne; [by apply Hk|]. zdm.
    + destruct (i - length ks)%nat as [|n] eqn:E; [|by destruct n]. cbn in Hi. simplify_eq.
      replace (input_buf_head t + Z.of_nat i) with (input_buf_tail t) by lia.
      apply list_lookup_insert_eq. rewrite Hb. zdm.
Qed.

(** The line at the start of the caller's buffer. *)
Definition holds_line buffer line : Prop := take (length line) buffer = line.

Lemma holds_line_set buffer line i c :
  holds_line buffer line -> (i <= length line)%nat -> (i < length buffer)%nat ->
  holds_line (<[i := c]> buffer) (take i line ++ [c]).
Proof.
  unfold holds_line. intros H Hi Hb. rewrite length_app, length_take. cbn.
  replace (i `min` length line + 1)%nat with (S i) by lia.
  rewrite (take_S_r _ _ c) by (apply list_lookup_insert_eq; lia). f_equal.
  rewrite take_insert_ge by lia. rewrite <- H. rewrite take_take. f_equal. lia.
Qed.

Lemma holds_line_take buffer line i n c :
  holds_line buffer line -> (n <= i)%nat -> holds_line (<[i := c]> buffer) (take n line).
Proof.
  unfold holds_line. intros H Hi. rewrite length_take, take_insert_ge by lia. rewrite <- H at 2.
  by rewrite take_take.
Qed.

Definition line_limit (max : Z) : nat := Z.to_nat (Z.min (max - 1) 63).

(** One erased character: the cell gets a blank, the rest of the line stays. *)
Lemma erase_last t ks buffer line n :
  term_holds t ks -> holds_line buffer line -> (1 <= n <= length line)%nat -> (length line <= length buffer)%nat ->
  exists wb buffer', gui_backspace t = Some (with_textbox t wb) /\ term_holds (with_textbox t wb) ks /\
    arr_set buffer (Z.of_nat n - 1) 32 = Some buffer' /\ length buffer' = length buffer /\
    holds_line buffer' (take (n - 1) line).
Proof.
  intros Ht Hl Hn Hb. destruct (box_erase t (th_box _ _ Ht)) as (wb & E & Hx).
  exists wb, (<[(n - 1)%nat := 32]> buffer). split; [done|]. split; [by apply term_textbox|].
  split; [rewrite arr_set_Some by lia; f_equal; f_equal; lia|]. split; [apply length_insert|].
  by apply holds_line_take.
Qed.

(** The two tests for a full line. *)
Lemma clamp_line t ks buffer line max :
  term_holds t ks -> holds_line buffer line -> 2 <= max < 2147483648 -> max <= Z.of_nat (length buffer) ->
  (length line <= line_limit max)%nat ->
  exists t' buffer' n,
    limit_line max t buffer (Z.of_nat (length line)) = Some (t', buffer', Z.of_nat n) /\
    term_holds t' ks /\ length buffer' = length buffer /\ holds_line buffer' (take n line) /\
    n = if (line_limit max <=? length line)%nat then (line_limit max - 1)%nat else length line.
Proof.
  intros Ht Hl Hm Hb Hn. unfold limit_line, line_limit, MAX_INPUT_BUFFER in *.
  rewrite (u32_small (max - 1)), (u32_small (Z.of_nat _)) by (unfold is_u32; lia). rewrite s32_small by (unfold is_s32; lia).
  destruct (Z.leb_spec (max - 1) (Z.of_nat (length line))) as [H1|H1].
  - destruct (erase_last t ks buffer line (length line) Ht Hl) as (wb & b' & E1 & Ht' & E2 & Hlen & Hl'); [lia|lia|].
    cbv zeta. rewrite E1. cbn [mbind option_bind]. replace (max - 1 - 1) with (Z.of_nat (length line) - 1) by lia.
    rewrite E2. cbn [mbind option_bind]. destruct (Z.leb_spec (64 - 1) (Z.of_nat (length line) - 1)); [lia|].
    exists (with_textbox t wb), b', (length line - 1)%nat. split; [f_equal; f_equal; lia|]. split; [done|]. split; [done|].
    split; [done|]. destruct (Nat.leb_spec (Z.to_nat (Z.min (max - 1) 63)) (length line)); lia.
  - cbn [mbind option_bind]. destruct (Z.leb_spec (64 - 1) (Z.of_nat (length line))) as [H2|H2].
    + destruct (erase_last t ks buffer line (length line) Ht Hl) as (wb & b' & E1 & Ht' & E2 & Hlen & Hl'); [lia|lia|].
      cbv zeta. rewrite E1. cbn [mbind option_bind]. replace (64 - 1 - 1) with (Z.of_nat (length line) - 1) by lia.
      rewrite E2. cbn [mbind option_bind].
      exists (with_textbox t wb), b', (length line - 1)%nat. split; [f_equal; f_equal; lia|]. split; [done|]. split; [done|].
      split; [done|]. destruct (Nat.leb_spec (Z.to_nat (Z.min (max - 1) 63)) (length line)); lia.
    + exists t, buffer, (length line). do 3 (split; [done|]). rewrite take_ge by lia. split; [done|].
      destruct (Nat.leb_spec (Z.to_nat (Z.min (max - 1) 63)) (length line)); lia.
Qed.

(** The store of a character and its echo. *)
Lemma store_char t ks buffer line n c :
  term_holds t ks -> holds_line buffer line -> (n <= length line)%nat -> (n < length buffer)%nat ->
  exists buffer' wb, arr_set buffer (Z.of_nat n) c = Some buffer' /\ arr_get buffer' (Z.of_nat n) = Some c /\
    gui_write [c] t = Some (1, with_textbox t wb, [SysRedraw]) /\ term_holds (with_textbox t wb) ks /\
    length buffer' = length buffer /\ holds_line buffer' (take n line ++ [c]).
Proof.
  intros Ht Hl Hn Hb. destruct (box_write t [c] (th_box _ _ Ht)) as (wb & E & Hx).
  exists (<[n := c]> buffer), wb. split; [rewrite arr_set_Some by lia; f_equal; f_equal; lia|].
  split; [unfold arr_get; destruct (Z.leb_spec 0 (Z.of_nat n)); [|lia]; rewrite Nat2Z.id; by apply list_lookup_insert_eq|].
  split; [done|]. split; [by apply term_textbox|]. split; [apply length_insert|]. by apply holds_line_set.
Qed.

Lemma read_char_spec t k ks buffer line max :
  term_holds t (k :: ks) -> holds_line buffer line -> 2 <= max < 2147483648 -> max <= Z.of_nat (length buffer) ->
  (length line <= line_limit max)%nat ->
  let line' := if k =? 10 then line ++ [10] else edit_key (line_limit max) line k in
  exists t' buffer' c, read_char max t buffer (Z.of_nat (length line)) =
      Some (k, t', buffer', Z.of_nat (length line'), c) /\
    term_holds t' ks /\ length buffer' = length buffer /\ holds_line buffer' line'.
Proof.
  intros Ht Hl Hm Hb Hn line'. unfold read_char. destruct (term_next t k ks Ht) as [-> Ht1]. cbn [mbind option_bind].
  set (t1 := with_input _ _ _ _) in *. assert (line_limit max < length buffer)%nat as Hlim by (unfold line_limit; lia).
  unfold line', edit_key. destruct (Z.eqb_spec k 8) as [->|Hk8].
  - cbn [Z.eqb Pos.eqb]. destruct (Z.ltb_spec 0 (Z.of_nat (length line))).
    + destruct (erase_last t1 ks buffer line (length line) Ht1 Hl) as (wb & b' & E1 & Ht' & E2 & Hlen & Hl'); [lia|lia|].
      rewrite E1. cbn [mbind option_bind]. rewrite E2. cbn [mbind option_bind]. do 3 eexists.
      split; [|done]. rewrite length_take. repeat f_equal. lia.
    + destruct line as [|? ?]; [|cbn in *; lia]. by do 3 eexists.
  - destruct (Z.eqb_spec k 10) as [->|Hk10]; cbn [negb].
    + cbn [mbind option_bind].
      destruct (store_char t1 ks buffer line (length line) 10 Ht1 Hl) as (b' & wb & E1 & E2 & E3 & Ht' & Hlen & Hl'); [lia|lia|].
      rewrite E1. cbn [mbind option_bind]. rewrite E2. cbn [mbind option_bind]. rewrite E3. cbn [mbind option_bind].
      do 3 eexists. split; [rewrite length_app; cbn; repeat f_equal; lia|].
      rewrite take_ge in Hl' by lia. done.
    + destruct (clamp_line t1 ks buffer line max Ht1 Hl Hm Hb Hn) as (t2 & b2 & n & Ec & Ht2 & Hlen2 & Hl2 & Hnn).
      rewrite Ec. cbn [mbind option_bind].
      assert (n < length b2 /\ n <= length line)%nat as [? ?]
        by (destruct (Nat.leb_spec (line_limit max) (length line)); lia).
      destruct (store_char t2 ks b2 (take n line) n k Ht2 Hl2) as (b' & wb & E1 & E2 & E3 & Ht' & Hlen & Hl');
        [rewrite length_take; lia|lia|].
      rewrite E1. cbn [mbind option_bind]. rewrite E2. cbn [mbind option_bind]. rewrite E3. cbn [mbind option_bind].
      rewrite take_take, Nat.min_id in Hl'.
      assert ((if (line_limit max <=? length line)%nat then take (line_limit max - 1) line ++ [k] else line ++ [k]) =
        take n line ++ [k]) as ->.
      { destruct (Nat.leb_spec (line_limit max) (length line)); rewrite Hnn; [done|]. by rewrite take_ge by lia. }
      do 3 eexists. split; [rewrite length_app, length_take; cbn; repeat f_equal; lia|]. split; [done|]. split; [lia|done].
Qed.

(** ** The key handler and the reader together *)

(** The event thread presses a key; the reader, if it has not returned, takes a
    character when one has been signalled, else it waits. *)
Inductive action := Press (k : Z) | Take.

Record reader := { r_term : GUITerminal; r_buffer : list Z; r_len : Z; r_done : bool }.

Definition reader_step (max : Z) (r : reader) (a : action) : option reader :=
  match a with
  | Press k => '(t, _) ← key_handler k (r_term r);
      Some {| r_term := t; r_buffer := r_buffer r; r_len := r_len r; r_done := r_done r |}
  | Take =>
      if r_done r || (input_buf_tail (r_term r) <=? input_buf_head (r_term r)) then Some r else
      '(c, t, buffer, len, _) ← read_char max (r_term r) (r_buffer r) (r_len r);
      Some {| r_term := t; r_buffer := buffer; r_len := len; r_done := c =? 10 |}
  end.

Fixpoint reader_run (max : Z) (acts : list action) (r : reader) : option reader :=
  match acts with
  | [] => Some r
  | a :: acts => r ← reader_step max r a; reader_run max acts r
  end.

(** What they mean: the keys that wait, the line, and whether it is complete. *)
Record typing := { ty_keys : list Z; ty_line : list Z; ty_done : bool }.

Definition typing_step (max : Z) (y : typing) (a : action) : typing :=
  match a with
  | Press k => if (length (ty_keys y) <? 64)%nat
               then {| ty_keys := ty_keys y ++ [k]; ty_line := ty_line y; ty_done := ty_done y |} else y
  | Take =>
      if ty_done y then y else
      match ty_keys y with
      | [] => y
      | k :: ks => {| ty_keys := ks;
          ty_line := if k =? 10 then ty_line y ++ [10] else edit_key (line_limit max) (ty_line y) k;
          ty_done := k =? 10 |}
      end
  end.

Definition reads (max : Z) (r : reader) (y : typing) : Prop :=
  term_holds (r_term r) (ty_keys y) /\ holds_line (r_buffer r) (ty_line y) /\
  r_len r = Z.of_nat (length (ty_line y)) /\ r_done r = ty_done y /\ max <= Z.of_nat (length (r_buffer r)) /\
  (length (ty_line y) <= line_limit max + (if ty_done y then 1 else 0))%nat.

Lemma reader_step_reads max r y a :
  2 <= max < 2147483648 -> reads max r y ->
  exists r', reader_step max r a = Some r' /\ reads max r' (typing_step max y a).
Proof.
  intros Hm (Ht & Hl & Hn & Hd & Hb & Hlim). destruct a as [k|]; cbn [reader_step typing_step].
  - destruct (key_handler_holds k _ _ Ht) as (t' & c & -> & Hk). cbn [mbind option_bind].
    eexists. split; [reflexivity|]. unfold reads.
    destruct (length (ty_keys y) <? 64)%nat; [destruct Hk as [Hk _]|destruct Hk as [-> _]]; cbn; tauto.
  - rewrite <- Hd. destruct (r_done r) eqn:Ed; cbn [orb].
    { exists r. split; [done|]. rewrite <- Hd in Hlim. unfold reads. rewrite Ed, <- Hd. tauto. }
    destruct (ty_keys y) as [|k ks] eqn:Ek.
    + destruct (Z.leb_spec (input_buf_tail (r_term r)) (input_buf_head (r_term r))) as [_|Hlt].
      * exists r. split; [done|]. unfold reads. rewrite Ek, <- Hd. by rewrite <- Hd in Hlim.
      * pose proof (th_size _ _ Ht) as E. cbn in E. lia.
    + destruct (Z.leb_spec (input_buf_tail (r_term r)) (input_buf_head (r_term r))) as [Hle|_].
      { pose proof (th_size _ _ Ht) as E. cbn in E. lia. }
      rewrite <- Hd in Hlim. rewrite Nat.add_0_r in Hlim.
      destruct (read_char_spec (r_term r) k ks (r_buffer r) (ty_line y) max Ht Hl Hm Hb Hlim) as (t' & b' & c & E & Ht' & Hlb & Hl').
      rewrite Hn, E. cbn. eexists. split; [reflexivity|]. do 2 (split; [done|]). do 2 (split; [done|]). split; [cbn; lia|].
      cbn. destruct (k =? 10); [rewrite length_app; cbn; lia|]. rewrite Nat.add_0_r.
      apply edit_key_length; [unfold line_limit; lia|done].
Qed.
End editor.

(** C16: [read] of the terminal is a line editor, whatever the interleaving of keys
    and reads.  The caller's buffer holds, at its start, the line typed so far: a
    backspace erases the last character, a newline completes the line and [read]
    returns its length, and when [max - 1] or 63 characters are there a further
    one replaces the last; keys are taken in the order they came and are lost
    only when 64 wait.  No access leaves the key ring, the text box or the
    caller's buffer, whose length is at least [max >= 2]. *)
Theorem read_edits_line max acts r y :
  2 <= max < 2147483648 -> reads max r y ->
  exists r', reader_run max acts r = Some r' /\ reads max r' (foldl (typing_step max) y acts).
Proof.
  intros Hm. revert r y. induction acts as [|a acts IH]; intros r y Hr; cbn [reader_run foldl]; [by exists r|].
  destruct (reader_step_reads max r y a Hm Hr) as (r1 & -> & H1). apply IH, H1.
Qed.

Definition new_terminal : GUITerminal :=
  {| input_buf := replicate 64 0; input_buf_head := 0; input_buf_tail := 0; textbox_win := empty_Window;
     textbox_buf := new_Buffer 4 3 (replicate 12 0) |}.

Lemma read_edits_line_witness :
  exists r', reader_run 8 [Press 104; Take; Press 120; Press 8; Take; Take; Press 105; Press 10; Take; Take; Take]
      {| r_term := new_terminal; r_buffer := replicate 8 0; r_len := 0; r_done := false |} = Some r' /\
    reads 8 r' {| ty_keys := []; ty_line := [104; 105; 10]; ty_done := true |}.
Proof.
  destruct (read_edits_line 8 [Press 104; Take; Press 120; Press 8; Take; Take; Press 105; Press 10; Take; Take; Take]
    {| r_term := new_terminal; r_buffer := replicate 8 0; r_len := 0; r_done := false |}
    {| ty_keys := []; ty_line := []; ty_done := false |}) as (r' & E & H).
  - lia.
  - split; [|repeat (split; [done|]); cbn; lia].
    split; try (cbn; done); [cbn; lia|]. exists [], 0. apply new_box_holds; [lia|lia|reflexivity].
  - exists r'. split; [exact E|exact H].
Defined.
