(* ===== verification/Shell.v ===== *)
(** * The shell: [user/shell.cpp]

    Its windows, the thread that passes keys to the terminal and the command
    loop.  The addresses of string literals are chosen by the compiler: [literal]
    gives them; the windows of the process are the slots of its [Environment]. *)
From Stdlib Require Import String Ascii.
From S2P Require Import Prelude Str Queue Process Shapes Objects Gui Terminal.

(** The characters of a literal. *)
Definition codes (s : string) : list Z := map (fun c => Z.of_N (N_of_ascii c)) (list_ascii_of_string s).

Definition nl : string := String "010"%char EmptyString.

(** ** The windows of the shell *)

Definition set_slot (i : Z) (w : Window) (windows : Z -> Window) : Z -> Window := fun j => if j =? i then w else windows j.

Definition with_ids (w : Window) (wid z : Z) : Window :=
  {| winclass := winclass w; rect := rect w; redraw_rect := redraw_rect w; display_data := display_data w; zindex := z;
     id := wid; parent_id := parent_id w; needs_update := needs_update w; needs_redraw := needs_redraw w |}.

(** [GUIModel::GUIModel]: the slots and the terminal.  A frame keeps what its slot
    held in the union; [free] is the address of the text buffer, the two arrays
    keep what the memory held. *)
Definition new_GUIModel (free : Z) (text_memory input_memory : list Z) (windows : Z -> Window)
    : (Z -> Window) * GUITerminal :=
  let main := with_ids (new_Window WINDOW_FRAME {| rl := 100; rt := 100; rr := 500; rb := 400 |} (display_data (windows 0))) 0 0 in
  let border := with_ids (new_Window WINDOW {| rl := 0; rt := 0; rr := 400; rb := 300 |}
                  (fast_blend WHITE (fast_blend BLUE RED))) 1 0 in
  let bg := with_ids (new_Window WINDOW {| rl := 10; rt := 10; rr := 390; rb := 290 |}
              (SET_ALPHA 1 + fast_blend GREY (fast_blend BLUE RED))) 2 1 in
  let buf := new_Buffer 45 20 text_memory in
  let text := with_ids (new_Window TEXT_BOX {| rl := 20; rt := 20; rr := 380; rb := 280 |} free) 3 2 in
  let '(main, border) := frame_addChild main (Some border) in
  let '(main, bg) := frame_addChild main (Some bg) in
  let '(main, text) := frame_addChild main (Some text) in
  let text := default empty_Window text in
  (set_slot 3 text (set_slot 2 (default empty_Window bg) (set_slot 1 (default empty_Window border) (set_slot 0 main windows))),
   {| input_buf := input_memory; input_buf_head := 0; input_buf_tail := 0; textbox_win := text; textbox_buf := buf |}).

(** ** The event thread *)

Definition KEY_CHAR_DOWN : Z := 1.

(** [GUIModel::key_handler] takes a [char]. *)
Definition shell_message (msg : Message) (t : GUITerminal) : option (GUITerminal * list sys_call) :=
  if msg_id msg =? KEY_CHAR_DOWN then key_handler (s8 (msg_data msg)) t else Some (t, []).

(** One round of [event_thread], once [monitor] has returned. *)
Definition shell_event_round (q : MsgQueue) (t : GUITerminal) : option (MsgQueue * GUITerminal * list sys_call) :=
  let '(qr, q) := mq_dequeue q 10 in
  '(t, calls) ← for_each (Z.to_nat (qr_tail qr - qr_head qr)) (qr_head qr)
    (fun i '(t, calls) =>
       msg ← mq_get q i;
       '(t, c) ← shell_message msg t; Some (t, calls ++ c))
    (t, [SysMonitor MSG_MONITOR 10]);
  Some (mq_release q (u32 (qr_tail qr - qr_head qr)), t, calls).

(** ** The command loop *)

Section commands.
Context {F : Type} (write : F -> mem -> Z -> Z -> Z * F) (print_buffer : Z) (literal : string -> Z).

Definition println (args : list sarg) (f : F) (m : mem) : option (mem * F) :=
  '(_, m, f) ← print write f m print_buffer (args ++ [AStr (literal nl)]); Some (m, f).

Definition display_help (f : F) (m : mem) : option (mem * F) :=
  '(m, f) ← println [AStr (literal "Shell commands:")] f m;
  println [AStr (literal "help      Display this help message")] f m.

(** The body of the loop after [getline] has put [len] characters at [command]:
    [false] when the shell leaves the loop. *)
Definition shell_command (len command : Z) (f : F) (m : mem) : option (bool * mem * F) :=
  if len <=? 0 then
    '(m, f) ← println [AStr (literal "Failed to read command. Exiting")] f m; Some (false, m, f)
  else if negb (m (command + (len - 1)) =? 10) then
    '(m, f) ← println [AStr (literal "Command line overflow. Resetting")] f m; Some (true, m, f)
  else
    let m := mupd m (command + (len - 1)) 0 in
    if strncmp m command (literal "help") 4 =? 0 then
      '(m, f) ← display_help f m; Some (true, m, f)
    else
      '(m, f) ← println [AStr (literal "Unrecognized command: "); AStr command] f m; Some (true, m, f).
End commands.

(** ** The event thread against the queue and the key ring *)

(** The keys of the messages, and what the ring keeps of them. *)
Definition keys_of (l : list Message) : list Z :=
  map (fun msg => s8 (msg_data msg)) (List.filter (fun msg => msg_id msg =? KEY_CHAR_DOWN) l).

Definition type_key (ks : list Z) (k : Z) : list Z := if (length ks <? 64)%nat then ks ++ [k] else ks.

Lemma shell_message_holds msg t ks :
  term_holds t ks ->
  exists t' c, shell_message msg t = Some (t', c) /\ term_holds t' (foldl type_key ks (keys_of [msg])) /\
    textbox_buf t' = textbox_buf t.
Proof.
  intros Ht. unfold shell_message, keys_of. cbn [List.filter]. destruct (msg_id msg =? KEY_CHAR_DOWN); cbn [map foldl].
  - destruct (key_handler_holds (s8 (msg_data msg)) t ks Ht) as (t' & c & E & H). exists t', c.
    split; [done|]. unfold type_key. destruct (length ks <? 64)%nat.
    + split; [by destruct H|]. unfold key_handler in E. case_match; simplify_eq/=; [done|].
      destruct (arr_set _ _ _); simplify_eq/=. done.
    + destruct H as [-> _]. done.
  - by exists t, [].
Qed.

Lemma shell_events_holds q l i t ks calls :
  (forall j msg, l !! j = Some msg -> mq_get q (i + Z.of_nat j) = Some msg) -> term_holds t ks ->
  exists t' calls', for_each (length l) i
      (fun i '(t, calls) => msg ← mq_get q i; '(t, c) ← shell_message msg t; Some (t, calls ++ c)) (t, calls) = Some (t', calls') /\
    term_holds t' (foldl type_key ks (keys_of l)) /\ textbox_buf t' = textbox_buf t.
Proof.
  revert i t ks calls. induction l as [|msg l IH]; intros i t ks calls Hq Ht; cbn [length for_each].
  { by exists t, calls. }
  pose proof (Hq 0%nat msg eq_refl) as Hm. rewrite Z.add_0_r in Hm. rewrite Hm. cbn [mbind option_bind].
  destruct (shell_message_holds msg t ks Ht) as (t1 & c & -> & H1 & E1). cbn [mbind option_bind].
  destruct (IH (i + 1) t1 (foldl type_key ks (keys_of [msg])) (calls ++ c)) as (t' & calls' & -> & H2 & E2); [|exact H1|].
  { intros j msg' Hj. rewrite <- (Hq (S j) msg' Hj). f_equal. lia. }
  exists t', calls'. split; [done|]. split; [|congruence].
  replace (keys_of (msg :: l)) with (keys_of [msg] ++ keys_of l); [by rewrite foldl_app|].
  unfold keys_of. by rewrite <- map_app, <- List.filter_app.
Qed.

(** C32: a round of the shell's event thread takes the ten oldest messages of its
    queue, or all of them, types the characters of the [KEY_CHAR_DOWN] messages
    among them into the terminal, in order, and gives their slots back; keys are
    dropped only while 64 wait.  The text box is not touched. *)
Theorem shell_event_round_spec N q l t ks :
  mq_holds N 0 q l -> term_holds t ks ->
  exists q' t' calls, shell_event_round q t = Some (q', t', calls) /\ mq_holds N 0 q' (drop 10 l) /\
    term_holds t' (foldl type_key ks (keys_of (take 10 l))) /\ textbox_buf t' = textbox_buf t.
Proof.
  intros Hq Ht. unfold shell_event_round.
  pose proof (mq_dequeue_fifo N 0 q l Hq 10 ltac:(unfold is_u32; lia)) as Hd. cbv zeta in Hd.
  pose proof (mq_dequeue_size N 0 q l 10 Hq ltac:(unfold is_u32; lia)) as Hs.
  destruct (mq_dequeue q 10) as [qr q1]. destruct Hd as [Hr Hq1]. cbn [fst] in Hs. rewrite Hs.
  set (n := Z.min 10 (Z.of_nat (length l))) in *.
  assert (take (Z.to_nat n) l = take 10 l /\ drop (Z.to_nat n) l = drop 10 l) as [Et Ed].
  { destruct (decide (10 <= length l)%nat); [by replace (Z.to_nat n) with 10%nat by (unfold n; lia)|].
    rewrite !take_ge, !drop_ge by (unfold n; lia). done. }
  rewrite Et in Hr. rewrite Ed in Hq1.
  assert (Z.to_nat n = length (take 10 l)) as -> by (rewrite length_take; unfold n; lia).
  destruct (shell_events_holds q1 (take 10 l) (qr_head qr) t ks [SysMonitor MSG_MONITOR 10]) as (t' & calls & -> & H1 & E1); [|done|].
  { intros j msg Hj. pose proof (f_equal (fun x => x !! j) Hr) as Hj'. cbv beta in Hj'. unfold mq_read in Hj'.
    rewrite !list_lookup_fmap, Hj in Hj'. pose proof (lookup_lt_Some _ _ _ Hj) as Hlt. rewrite length_take in Hlt.
    rewrite lookup_seqZ_lt in Hj' by (unfold n in *; lia). cbn in Hj'. congruence. }
  cbn [mbind option_bind]. do 3 eexists. split; [reflexivity|]. split; [|done].
  rewrite u32_small by (unfold is_u32, n; lia). replace 0 with (0 + n - n) by lia.
  apply (mq_release_fifo _ _ _ _ Hq1). unfold n; lia.
Qed.

(** The terminal the constructor makes, with a key in its queue. *)
Definition fresh_terminal : GUITerminal := snd (new_GUIModel 0x2000 (replicate 900 0) (replicate 64 0) (fun _ => empty_Window)).

Lemma fresh_terminal_holds : term_holds fresh_terminal [].
Proof.
  split; cbn; try done; try lia. exists [], 0. by apply new_box_holds.
Qed.

Definition mq_keys : MsgQueue :=
  {| mq_max_size := 2; mq_locked := {| qr_head := 3; qr_tail := 4 |};
     mq_safe := {| qr_head := 3; qr_tail := 4 |}; mq_queue := [{| msg_id := 2; msg_data := 0 |}; {| msg_id := 1; msg_data := 104 |}] |}.

Lemma shell_event_round_spec_witness :
  exists q' t' calls, shell_event_round mq_keys fresh_terminal = Some (q', t', calls) /\ mq_holds 2 0 q' [] /\
    term_holds t' [104].
Proof.
  destruct (shell_event_round_spec 2 mq_keys [{| msg_id := 1; msg_data := 104 |}] fresh_terminal [])
    as (q' & t' & calls & E & Hq & Ht & _).
  - unfold mq_holds. split_and!; try (unfold is_range, is_u16; cbn; lia).
    intros i Hi. cbn in Hi. replace i with 0 by lia. reflexivity.
  - apply fresh_terminal_holds.
  - exists q', t', calls. split; [exact E|]. split; [exact Hq|exact Ht].
Defined.

(** ** What a command prints *)

Section printing.
Context {F : Type} (w : F -> list Z -> F) (print_buffer : Z) (literal : string -> Z).

(** A file that takes the text it is given. *)
Definition text_write (f : F) (m : mem) (buf len : Z) : Z * F := (1, w f (Str.text m buf len)).

Definition outside (m m' : mem) : Prop :=
  (bytes m -> bytes m') /\ forall x, ~ print_buffer <= x < print_buffer + MAX_PRINT_CHARS -> m' x = m x.

Lemma outside_trans m1 m2 m3 : outside m1 m2 -> outside m2 m3 -> outside m1 m3.
Proof. intros [B1 H1] [B2 H2]. split; [tauto|]. intros x Hx. rewrite H2, H1; done. Qed.

Definition readable (m : mem) (p : Z * list Z) : Prop := str_at m p.1 p.2 /\ clear_of print_buffer MAX_PRINT_CHARS p.

Lemma readable_outside m m' p : outside m m' -> readable m p -> readable m' p.
Proof.
  intros [_ Hm] [[H H0] Hc]. split; [|done]. split.
  - intros k c Hk. rewrite Hm; [by apply H|]. apply (Hc k). apply lookup_lt_Some in Hk. lia.
  - rewrite Hm; [done|]. by apply Hc.
Qed.

(** The characters of readable strings are bytes. *)
Lemma readable_bytes ss m k : bytes m -> Forall (readable m) ss -> is_u8 (nth k (concat (map snd ss)) 0).
Proof.
  intros Hb Hss. assert (Forall is_u8 (concat (map snd ss))) as H.
  { induction Hss as [|p ss [[Hp _] _] _ IH]; [constructor|]. cbn [map concat]. apply Forall_app. split; [|exact IH].
    apply Forall_lookup. intros i c Hi. destruct (Hp i c Hi) as [_ <-]. apply Hb. }
  destruct (nth_lookup_or_length (concat (map snd ss)) k 0) as [Hk|Hk].
  - rewrite Forall_lookup in H. by apply (H k).
  - rewrite nth_overflow by done. unfold is_u8. lia.
Qed.

(** [print] on strings: the text they make, if it is shorter than the buffer. *)
Lemma print_strs ss f m :
  Forall (readable m) ss ->
  let s := concat (map snd ss) in
  if (Z.of_nat (length s) <? MAX_PRINT_CHARS) then
    exists m', print text_write f m print_buffer (map (fun p => AStr p.1) ss) =
      Some (Z.of_nat (length s), m', if (0 <? Z.of_nat (length s)) then w f s else f) /\ outside m m'
  else print text_write f m print_buffer (map (fun p => AStr p.1) ss) = None.
Proof.
  intros Hss s. unfold print.
  destruct (sprint_strs ss {| o_mem := m; o_dst := print_buffer; o_len := MAX_PRINT_CHARS |}) as (m1 & -> & Hm1);
    [exact Hss|unfold MAX_PRINT_CHARS; cbn; lia|]. cbn [o_mem o_dst o_len mbind option_bind] in *. fold s in Hm1 |- *.
  destruct (Z.ltb_spec (Z.of_nat (length s)) MAX_PRINT_CHARS).
  - rewrite Z.min_r in Hm1 |- * by lia. destruct (Z.leb_spec 0 (Z.of_nat (length s))); [|lia].
    destruct (Z.ltb_spec (Z.of_nat (length s)) MAX_PRINT_CHARS); [|lia]. cbn [andb negb].
    eexists. split.
    + do 2 f_equal. destruct (0 <? Z.of_nat (length s)); [|done]. unfold text_write. cbn [snd]. f_equal. by apply (text_printed m).
    + split.
      { intros Hb x. unfold mupd. destruct (x =? _); [unfold is_u8; lia|]. rewrite Hm1.
        destruct (_ && _); [by apply (readable_bytes _ m)|apply Hb]. }
      intros x Hx. unfold mupd. rewrite Hm1.
      destruct (Z.eqb_spec x (print_buffer + Z.of_nat (length s))); [lia|].
      destruct (Z.leb_spec print_buffer x), (Z.ltb_spec x (print_buffer + Z.of_nat (length s))); cbn [andb]; lia || done.
  - rewrite Z.min_l by lia. destruct (Z.ltb_spec MAX_PRINT_CHARS MAX_PRINT_CHARS); [lia|]. by rewrite andb_false_r.
Qed.

Definition shell_literals : list string :=
  [nl; "Shell commands:"; "help      Display this help message"; "Failed to read command. Exiting";
   "Command line overflow. Resetting"; "help"; "Unrecognized command: "]%string.

Definition literals_ok (m : mem) : Prop := Forall (fun s => readable m (literal s, codes s)) shell_literals.

Lemma literals_outside m m' : outside m m' -> literals_ok m -> literals_ok m'.
Proof. intros Hm Hl. eapply Forall_impl; [exact Hl|]. intros s. by apply readable_outside. Qed.

Lemma literal_ok m s : In s shell_literals -> literals_ok m -> readable m (literal s, codes s).
Proof. intros Hs Hm. apply list_elem_of_In in Hs. unfold literals_ok in Hm. rewrite Forall_forall in Hm. by apply Hm. Qed.

Lemma println_strs ss f m :
  Forall (readable m) ss -> literals_ok m ->
  let s := concat (map snd ss) ++ [10] in
  if (Z.of_nat (length s) <? MAX_PRINT_CHARS) then
    exists m', println text_write print_buffer literal (map (fun p => AStr p.1) ss) f m = Some (m', w f s) /\ outside m m'
  else println text_write print_buffer literal (map (fun p => AStr p.1) ss) f m = None.
Proof.
  intros Hss Hl s. unfold println.
  pose proof (print_strs (ss ++ [(literal nl, codes nl)]) f m) as H. rewrite !map_app, concat_app in H. cbn [map fst snd concat] in H.
  change (codes nl ++ []) with [10] in H. cbv zeta in H. fold s in H.
  assert (Forall (readable m) (ss ++ [(literal nl, codes nl)])) as Hall.
  { apply Forall_app. split; [done|]. constructor; [|done]. apply literal_ok; [by left|done]. }
  specialize (H Hall). destruct (Z.of_nat (length s) <? MAX_PRINT_CHARS).
  - destruct H as (m' & -> & Hm). cbn [mbind option_bind]. exists m'. split; [|done].
    destruct (Z.ltb_spec 0 (Z.of_nat (length s))) as [_|Hle]; [done|]. unfold s in Hle. rewrite length_app in Hle. cbn in Hle. lia.
  - by rewrite H.
Qed.

(** A line of the characters [cs] and its newline in the array at [command],
    which lies clear of [print_buffer] and of the literals. *)
Record command_ok (m : mem) (command : Z) (cs : list Z) : Prop := {
  co_bytes : bytes m;
  co_literals : literals_ok m;
  co_apart s : In s shell_literals -> clear_of command 64 (literal s, codes s);
  co_clear : command + 64 <= print_buffer \/ print_buffer + MAX_PRINT_CHARS <= command;
  co_chars k c : cs !! k = Some c -> c <> 0 /\ m (command + Z.of_nat k) = c;
  co_newline : m (command + Z.of_nat (length cs)) = 10;
  co_room : (length cs < 64)%nat
}.

(** The newline becomes the terminator. *)
Lemma command_string m command cs :
  command_ok m command cs ->
  let m' := mupd m (command + Z.of_nat (length cs)) 0 in
  bytes m' /\ literals_ok m' /\ readable m' (command, cs).
Proof.
  intros [Hb Hl Ha Hc Hs Hn Hr] m'. split; [|split].
  - intros x. unfold m', mupd. case_match; [unfold is_u8; lia|done].
  - unfold literals_ok. rewrite Forall_forall. intros s Hin. pose proof (Forall_forall (fun s => readable m (literal s, codes s)) shell_literals) as [H _].
    specialize (H Hl s Hin). destruct H as [[H1 H0] Hcl]. cbn [fst snd] in *.
    apply list_elem_of_In in Hin. specialize (Ha s Hin). unfold clear_of in Ha. cbn [fst snd] in Ha.
    split; [split|done]; unfold m', mupd; cbn [fst snd].
    + intros k c Hk. pose proof (lookup_lt_Some _ _ _ Hk). specialize (Ha k ltac:(lia)).
      destruct (Z.eqb_spec (literal s + Z.of_nat k) (command + Z.of_nat (length cs))); [lia|]. by apply H1.
    + specialize (Ha (length (codes s)) ltac:(lia)).
      destruct (Z.eqb_spec (literal s + Z.of_nat (length (codes s))) (command + Z.of_nat (length cs))); [lia|done].
  - split; [split|]; unfold m', mupd; cbn [fst snd].
    + intros k c Hk. pose proof (lookup_lt_Some _ _ _ Hk).
      destruct (Z.eqb_spec (command + Z.of_nat k) (command + Z.of_nat (length cs))); [lia|]. by apply Hs.
    + by rewrite Z.eqb_refl.
    + intros k Hk. cbn [fst snd] in *. unfold MAX_PRINT_CHARS in *. lia.
Qed.

Definition help_text : list (list Z) :=
  [codes "Shell commands:" ++ [10]; codes "help      Display this help message" ++ [10]].

Lemma display_help_text f m :
  literals_ok m ->
  exists m', display_help text_write print_buffer literal f m = Some (m', foldl w f help_text) /\ outside m m'.
Proof.
  intros Hl. unfold display_help.
  destruct (println_strs [(literal "Shell commands:", codes "Shell commands:")] f m) as (m1 & E1 & H1);
    [constructor; [apply literal_ok; [cbn; tauto|done]|done]|done|]. cbn [map fst snd concat] in E1.
  rewrite E1. cbn [mbind option_bind]. pose proof (literals_outside m m1 H1 Hl) as Hl1.
  destruct (println_strs [(literal "help      Display this help message", codes "help      Display this help message")]
    (w f (codes "Shell commands:" ++ [10])) m1) as (m2 & E2 & H2);
    [constructor; [apply literal_ok; [cbn; tauto|done]|done]|done|]. cbn [map fst snd concat] in E2.
  exists m2. split; [exact E2|]. by apply (outside_trans m m1).
Qed.

Lemma shell_command_text f m command cs :
  command_ok m command cs ->
  let m0 := mupd m (command + Z.of_nat (length cs)) 0 in
  let r := shell_command text_write print_buffer literal (Z.of_nat (length cs) + 1) command f m in
  if decide (take 4 cs = codes "help") then
    exists m', r = Some (true, m', foldl w f help_text) /\ outside m0 m'
  else if (length cs <=? 40)%nat then
    exists m', r = Some (true, m', w f (codes "Unrecognized command: " ++ cs ++ [10])) /\ outside m0 m'
  else r = None.
Proof.
  intros Hc m0 r. destruct (command_string m command cs Hc) as (Hb & Hl & [Hr Hcl]). fold m0 in Hb, Hl, Hr.
  cbn [fst snd] in Hr. subst r. unfold shell_command. destruct (Z.leb_spec (Z.of_nat (length cs) + 1) 0); [lia|].
  rewrite Z.add_simpl_r, (co_newline _ _ _ Hc). cbn [Z.eqb Pos.eqb negb]. fold m0.
  pose proof (literal_ok m0 "help" ltac:(cbn; tauto) Hl) as [Hh _]. cbn [fst snd] in Hh.
  pose proof (strncmp_agree m0 command (literal "help") 4 Hb ltac:(lia)) as H1.
  pose proof (str_agree_prefix m0 command (literal "help") cs (codes "help") Hr Hh) as H2.
  change (Z.of_nat (length (codes "help"))) with 4 in H2. change (length (codes "help")) with 4%nat in H2.
  destruct (Z.eqb_spec (strncmp m0 command (literal "help") 4) 0) as [E|E]; destruct (decide (take 4 cs = codes "help")) as [Et|Et];
    try (exfalso; tauto).
  - destruct (display_help_text f m0 Hl) as (m' & -> & Hm'). by exists m'.
  - pose proof (println_strs [(literal "Unrecognized command: ", codes "Unrecognized command: "); (command, cs)] f m0) as H3.
    cbn [map fst snd concat] in H3. rewrite app_nil_r, <- app_assoc in H3. cbv zeta in H3.
    rewrite !length_app in H3. change (length (codes "Unrecognized command: ")) with 22%nat in H3. cbn [length] in H3.
    specialize (H3 ltac:(constructor; [apply literal_ok; [cbn; tauto|done]|constructor; [by split|done]]) Hl).
    unfold MAX_PRINT_CHARS in H3.
    destruct (Z.ltb_spec (Z.of_nat (22 + (length cs + 1))) 64), (Nat.leb_spec (length cs) 40); try lia.
    + destruct H3 as (m' & -> & Hm'). by exists m'.
    + by rewrite H3.
Qed.
End printing.

(** C33: what the shell does with a line.  When the first four characters are
    "help" it prints the help text; any other line is echoed after "Unrecognized
    command: ", in one write, and the loop goes on; memory changes only in
    [print_buffer] and at the newline.  An unknown command of 41 characters or
    more (the terminal lets 62 through) makes [print] store its terminator past
    [print_buffer]. *)
Theorem shell_command_spec {F} (w : F -> list Z -> F) print_buffer literal f m command cs :
  command_ok print_buffer literal m command cs ->
  let m0 := mupd m (command + Z.of_nat (length cs)) 0 in
  let r := shell_command (text_write w) print_buffer literal (Z.of_nat (length cs) + 1) command f m in
  if decide (take 4 cs = codes "help") then
    exists m', r = Some (true, m', foldl w f help_text) /\ outside print_buffer m0 m'
  else if (length cs <=? 40)%nat then
    exists m', r = Some (true, m', w f (codes "Unrecognized command: " ++ cs ++ [10])) /\ outside print_buffer m0 m'
  else r = None.
Proof. apply shell_command_text. Qed.

(** A memory with the literals, 64 bytes apart, and the line "hello". *)
Fixpoint position (s : string) (l : list string) : Z :=
  match l with [] => 0 | t :: l => if String.eqb s t then 0 else 1 + position s l end.

Definition literal_at (s : string) : Z := 0x1000 + 64 * position s shell_literals.

Definition shell_image : mem :=
  mem_of 0x1000 (concat (map (fun s => codes s ++ replicate (64 - length (codes s)) 0) shell_literals) ++ codes "hello" ++ [10]).

Lemma shell_image_ok : command_ok 0x2000 literal_at shell_image 0x11C0 (codes "hello").
Proof.
  assert (Forall (fun s => 0x1000 <= literal_at s /\ literal_at s + Z.of_nat (length (codes s)) < 0x11C0 /\
    str_test shell_image (literal_at s) (codes s) = true) shell_literals) as H.
  { repeat constructor; try (vm_compute; reflexivity); vm_compute; discriminate. }
  rewrite Forall_forall in H. split.
  - apply mem_of_bytes.
  - unfold literals_ok. rewrite Forall_forall. intros s Hs. destruct (H s Hs) as (H1 & H2 & H3).
    split; [by apply str_test_true|]. intros k Hk. cbn [fst snd] in *. unfold MAX_PRINT_CHARS. lia.
  - intros s Hs. apply list_elem_of_In in Hs. destruct (H s Hs) as (H1 & H2 & H3).
    intros k Hk. cbn [fst snd] in *. lia.
  - left. unfold MAX_PRINT_CHARS. lia.
  - apply chars_test. vm_compute. reflexivity.
  - vm_compute. reflexivity.
  - cbn. lia.
Qed.

Lemma shell_command_spec_witness :
  exists m', shell_command (text_write (fun log s => log ++ s)) 0x2000 literal_at 6 0x11C0 [] shell_image =
    Some (true, m', codes "Unrecognized command: hello" ++ [10]).
Proof.
  destruct (shell_command_spec (fun log s => log ++ s) 0x2000 literal_at [] shell_image 0x11C0 (codes "hello") shell_image_ok)
    as (m' & E & _).
  exists m'. exact E.
Defined.
