(* ===== verification/Session.v ===== *)
(** * A session of the shell: [_start] of [user/shell.cpp] with its terminal

    [Shell] has the command loop's body and [Terminal] the line editor; here the
    program puts them together: [_start] makes the windows, sends standard input
    and output to the terminal and loops over prompt, [getline] and command.  The
    system calls the terminal makes are in [Terminal]; here is its state. *)
From Stdlib Require Import String.
From S2P Require Import Prelude Str Queue Process Shapes Objects Gui Syscall Terminal Shell.

Definition FD_STDIN : Z := 0.
Definition FD_STDOUT : Z := 1.
Definition max_cmd_chars : Z := 64.

(** ** The text box as a sequence of operations *)

Definition box (t : GUITerminal) : Window * Buffer := (textbox_win t, textbox_buf t).

Fixpoint box_run (ops : list box_op) (wb : Window * Buffer) : option (Window * Buffer) :=
  match ops with
  | [] => Some wb
  | op :: ops => wb ← box_step op wb; box_run ops wb
  end.

Lemma box_run_app ops1 ops2 wb wb1 wb2 : box_run ops1 wb = Some wb1 -> box_run ops2 wb1 = Some wb2 -> box_run (ops1 ++ ops2) wb = Some wb2.
Proof.
  revert wb. induction ops1 as [|op ops1 IH]; intros wb; cbn [box_run app]; [by intros [= <-]|].
  destruct (box_step op wb) as [wb'|]; [|done]. cbn [mbind option_bind]. apply IH.
Qed.

(** [GUITerminal::write] on a terminal that may have failed. *)
Definition shell_write (f : option GUITerminal) (s : list Z) : option GUITerminal :=
  t ← f; '(_, t, _) ← gui_write s t; Some t.

Lemma shell_writes ss t ks :
  term_holds t ks ->
  exists t', foldl shell_write (Some t) ss = Some t' /\ term_holds t' ks /\ box_run (map Print ss) (box t) = Some (box t').
Proof.
  revert t. induction ss as [|s ss IH]; intros t Ht; [by exists t|].
  destruct (box_write t s (th_box _ _ Ht)) as (wb & E & Hb).
  destruct (IH (with_textbox t wb) (term_textbox t ks wb Ht Hb)) as (t' & E' & Ht' & Hr).
  exists t'. split; [|split; [exact Ht'|]].
  - cbn [foldl]. assert (shell_write (Some t) s = Some (with_textbox t wb)) as ->; [|exact E'].
    unfold shell_write. cbn [mbind option_bind]. by rewrite E.
  - cbn [map box_run box_step]. unfold gui_write in E. cbn [fst snd box].
    destruct (textbox_print s (textbox_win t) (textbox_buf t)) as [wb'|]; [|done]. cbn [mbind option_bind] in *.
    injection E as Ew Eb. assert (wb' = wb) as -> by (destruct wb, wb'; cbn in *; congruence).
    destruct wb; exact Hr.
Qed.

(** ** The echo of what is typed *)

Definition echo (limit : nat) (line : list Z) (k : Z) : list box_op :=
  if k =? 8 then match line with [] => [] | _ => [Backspace] end
  else if (limit <=? length line)%nat then [Backspace; Print [k]] else [Print [k]].

(** The operations for the keys [ks] after [line]. *)
Fixpoint echoes (limit : nat) (line ks : list Z) : list box_op :=
  match ks with
  | [] => []
  | k :: ks => echo limit line k ++ echoes limit (edit_key limit line k) ks
  end.

Lemma gui_backspace_box t t' : gui_backspace t = Some t' -> box_step Backspace (box t) = Some (box t').
Proof. unfold gui_backspace. cbn [box_step box fst snd]. destruct (backspace _ _) as [[w b]|]; [|done]. by intros [= <-]. Qed.

Lemma gui_write_box s t r t' c : gui_write s t = Some (r, t', c) -> box_step (Print s) (box t) = Some (box t').
Proof. unfold gui_write. cbn [box_step box fst snd]. destruct (textbox_print _ _ _) as [[w b]|]; [|done]. by intros [= _ <- _]. Qed.

Lemma limit_line_box max t buffer n t' buffer' len' :
  limit_line max t buffer (Z.of_nat n) = Some (t', buffer', len') -> 2 <= max < 2147483648 -> (n <= line_limit max)%nat ->
  box_run (if (line_limit max <=? n)%nat then [Backspace] else []) (box t) = Some (box t').
Proof.
  unfold limit_line, line_limit, MAX_INPUT_BUFFER. intros E Hm Hn.
  rewrite (u32_small (max - 1)), (u32_small (Z.of_nat _)) in E by (unfold is_u32; lia). rewrite s32_small in E by (unfold is_s32; lia).
  assert (forall b len r, (t ← gui_backspace t; buffer ← arr_set b len 32; Some (t, buffer, len)) = Some r ->
    box_run [Backspace] (box t) = Some (box r.1.1)) as Hback.
  { intros b len r. destruct (gui_backspace t) as [t1|] eqn:Et; [|done]. cbn [mbind option_bind].
    destruct (arr_set b len 32); [|done]. intros [= <-]. cbn [box_run fst]. by rewrite (gui_backspace_box _ _ Et). }
  destruct (Z.leb_spec (max - 1) (Z.of_nat n)) as [H1|H1].
  - destruct (Nat.leb_spec (Z.to_nat (Z.min (max - 1) 63)) n); [|lia]. cbv zeta in E.
    match type of E with mbind ?f ?c = _ => destruct c as [[[t1 b1] n1]|] eqn:E1; [|done] end.
    rewrite (Hback _ _ _ E1). cbn [mbind option_bind fst] in E.
    assert (n1 = max - 2) as ->.
    { destruct (gui_backspace t); [|done]. cbn [mbind option_bind] in E1. destruct (arr_set _ _ _); [|done]. injection E1. lia. }
    destruct (Z.leb_spec (64 - 1) (max - 2)); [lia|]. by injection E as <- _ _.
  - cbn [mbind option_bind] in E. destruct (Z.leb_spec (64 - 1) (Z.of_nat n)).
    + destruct (Nat.leb_spec (Z.to_nat (Z.min (max - 1) 63)) n); [|lia]. by rewrite (Hback _ _ _ E).
    + destruct (Nat.leb_spec (Z.to_nat (Z.min (max - 1) 63)) n); [lia|]. by injection E as <- _ _.
Qed.

(** What a character that is read does to the text box. *)
Lemma read_char_box max t buffer line k t' buffer' len' c :
  read_char max t buffer (Z.of_nat (length line)) = Some (k, t', buffer', len', c) -> 2 <= max < 2147483648 ->
  (length line <= line_limit max)%nat ->
  box_run (if k =? 10 then [Print [10]] else echo (line_limit max) line k) (box t) = Some (box t').
Proof.
  unfold read_char, echo. intros E Hm Hl. destruct (arr_get _ _) as [k0|]; [|done]. cbn [mbind option_bind] in E.
  set (t1 := with_input t _ _ _) in *. change (box t) with (box t1). clearbody t1.
  assert (forall t2 b n n' t3 b3, (buffer ← arr_set b n k0; c ← arr_get buffer n; '(_, t, w) ← gui_write [c] t2;
      Some (k0, t, buffer, n', [SysMonitor INPUT_MONITOR 1] ++ w)) = Some (k, t3, b3, len', c) ->
      k = k0 /\ box_run [Print [k0]] (box t2) = Some (box t3)) as Hstore.
  { intros t2 b n n' t3 b3 Es. unfold arr_set in Es. destruct (_ && _) eqn:Eb in Es; [|done]. cbn [mbind option_bind] in Es.
    unfold arr_get in Es. destruct (0 <=? n) eqn:En in Es; [|done].
    apply andb_prop in Eb as [_ Hlt]. rewrite list_lookup_insert_eq in Es by lia. cbn [mbind option_bind] in Es.
    destruct (gui_write [k0] t2) as [[[r t4] w]|] eqn:Ew; [|done]. cbn [mbind option_bind] in Es.
    injection Es as -> <- _ _ _. split; [done|]. cbn [box_run]. by rewrite (gui_write_box _ _ _ _ _ Ew). }
  destruct (Z.eqb_spec k0 8) as [->|Hk8].
  - destruct (Z.ltb_spec 0 (Z.of_nat (length line))) as [Hp|Hp].
    + destruct (gui_backspace t1) as [t2|] eqn:Et; [|done]. cbn [mbind option_bind] in E.
      destruct (arr_set _ _ _); [|done]. cbn [mbind option_bind] in E. injection E as <- <- _ _ _.
      destruct line; [done|]. cbn [box_run Z.eqb Pos.eqb]. by rewrite (gui_backspace_box _ _ Et).
    + destruct line; [|cbn in Hp; lia]. by injection E as <- <- _ _ _.
  - destruct (Z.eqb_spec k0 10) as [->|Hk10]; cbn [negb] in E.
    + cbn [mbind option_bind] in E. apply Hstore in E as [-> Hr]. exact Hr.
    + destruct (limit_line max t1 buffer _) as [[[t2 b2] n2]|] eqn:Ec; [|done]. cbn [mbind option_bind] in E.
      apply limit_line_box in Ec; [|done..]. apply Hstore in E as [-> Hr].
      destruct (Z.eqb_spec k0 10), (Z.eqb_spec k0 8); [done..|].
      change (box_run (if (line_limit max <=? length line)%nat then [Backspace] ++ [Print [k0]] else [Print [k0]]) (box t1) = Some (box t')).
      destruct (_ <=? _)%nat; [by eapply box_run_app|]. change (Some (box t1) = Some (box t2)) in Ec. assert (box t1 = box t2) as -> by congruence. exact Hr.
Qed.

(** A line whose newline waits is read to its end. *)
Lemma read_loop_line n max typed rest t buffer line calls :
  term_holds t (typed ++ 10 :: rest) -> holds_line buffer line -> 2 <= max < 2147483648 -> max <= Z.of_nat (length buffer) ->
  (length line <= line_limit max)%nat -> 10 ∉ typed -> (length typed < n)%nat ->
  let line' := foldl (edit_key (line_limit max)) line typed in
  exists t' buffer' calls', read_loop n max t buffer (Z.of_nat (length line)) calls =
      Some (true, t', buffer', Z.of_nat (length line') + 1, calls') /\
    term_holds t' rest /\ length buffer' = length buffer /\ holds_line buffer' (line' ++ [10]) /\
    (length line' <= line_limit max)%nat /\
    box_run (echoes (line_limit max) line typed ++ [Print [10]]) (box t) = Some (box t').
Proof.
  revert n t buffer line calls. induction typed as [|k typed IH]; intros n t buffer line calls Ht Hl Hm Hb Hlim Hno Hn line';
    (destruct n as [|n]; [cbn in Hn; lia|]); cbn [read_loop app] in *.
  - destruct (read_char_spec t 10 rest buffer line max Ht Hl Hm Hb Hlim) as (t' & b' & c & E & Ht' & Hlb & Hl').
    pose proof (read_char_box _ _ _ _ _ _ _ _ _ E Hm Hlim) as Hr. rewrite E. cbn [mbind option_bind Z.eqb Pos.eqb negb] in *.
    assert (Z.of_nat (length (line ++ [10])) = Z.of_nat (length line) + 1) as El by (rewrite length_app; cbn [length]; lia).
    rewrite El in *. do 3 eexists. split; [reflexivity|]. done.
  - apply not_elem_of_cons in Hno as [Hk Hno].
    destruct (read_char_spec t k (typed ++ 10 :: rest) buffer line max Ht Hl Hm Hb Hlim) as (t1 & b1 & c & E & Ht1 & Hlb & Hl1).
    pose proof (read_char_box _ _ _ _ _ _ _ _ _ E Hm Hlim) as Hr. rewrite E. cbn [mbind option_bind].
    destruct (Z.eqb_spec k 10); [congruence|]. cbn [negb].
    destruct (IH n t1 b1 (edit_key (line_limit max) line k) (calls ++ c) Ht1 Hl1 Hm ltac:(lia)) as (t' & b' & calls' & E' & Ht' & Hlb' & Hl' & Hlim' & Hr').
    + apply edit_key_length; [unfold line_limit; lia|done].
    + done.
    + cbn in Hn. lia.
    + exists t', b', calls'. split; [exact E'|]. split; [done|]. split; [congruence|]. split; [done|]. split; [done|].
      cbn [echoes]. rewrite <- app_assoc. by eapply box_run_app.
Qed.

(** ** The loop *)

(** The bytes of [l] stored at [a]. *)
Definition put_text (a : Z) (l : list Z) (m : mem) : mem := fun x =>
  if (a <=? x) && (x <? a + Z.of_nat (length l)) then u8 (nth (Z.to_nat (x - a)) l 0) else m x.

(** How a round of the loop ends: the thread waits for a key, goes on, or leaves. *)
Inductive turn := Waiting | Looping | Left.

Section loop.
Context (print_buffer : Z) (literal : string -> Z) (command : Z).

(** [getline]: [read] of the terminal, over the characters that wait; [None] when
    the thread waits for more. *)
Definition getline (max : Z) (t : GUITerminal) (m : mem) : option (option Z * GUITerminal * mem) :=
  '(done, t, buffer, len, _) ← gui_read (Z.to_nat (input_buf_tail t - input_buf_head t)) max (Str.text m command max) t;
  Some (if done : bool then Some len else None, t, put_text command buffer m).

Definition shell_round (t : GUITerminal) (m : mem) : option (turn * GUITerminal * mem) :=
  '(_, m, f) ← print (text_write shell_write) (Some t) m print_buffer [AStr (literal ">")];
  t ← f;
  '(len, t, m) ← getline (max_cmd_chars - 1) t m;
  match len with
  | None => Some (Waiting, t, m)
  | Some len =>
      '(again, m, f) ← shell_command (text_write shell_write) print_buffer literal len command (Some t) m;
      t ← f;
      Some (if again : bool then Looping else Left, t, m)
  end.

(** The keys of a line, which the event thread hands over, then a round. *)
Fixpoint press_keys (ks : list Z) (t : GUITerminal) : option GUITerminal :=
  match ks with
  | [] => Some t
  | k :: ks => '(t, _) ← Terminal.key_handler k t; press_keys ks t
  end.

Fixpoint shell_session (lines : list (list Z)) (t : GUITerminal) (m : mem) : option (turn * GUITerminal * mem) :=
  match lines with
  | [] => Some (Looping, t, m)
  | typed :: lines =>
      t ← press_keys (typed ++ [10]) t;
      '(how, t, m) ← shell_round t m;
      match how with Looping => shell_session lines t m | _ => Some (how, t, m) end
  end.

(** [_start] up to its loop: the windows and the terminal, the file table with the
    terminal at [terminal], the calls to the kernel in their order. *)
Definition shell_start (terminal event_thread free : Z) (text_memory input_memory : list Z) (windows : Z -> Window) (user_filetable : Z -> Z)
    (m : mem) : option ((Z -> Window) * (Z -> Z) * list request * GUITerminal * mem) :=
  let '(windows, t) := new_GUIModel free text_memory input_memory windows in
  let user_filetable := upd (upd user_filetable FD_STDIN terminal) FD_STDOUT terminal in
  '(m, f) ← println (text_write shell_write) print_buffer literal [AStr (literal "Shell accepting commands:")] (Some t) m;
  t ← f;
  Some (windows, user_filetable, [GetEnvironment; NewThread event_thread; UpdateGui; RedrawGui], t, m).

(** ** What the user sees *)

(** The answer to a line, each element one [write]. *)
Definition replies (line : list Z) : list (list Z) :=
  if decide (take 4 line = codes "help") then help_text else [codes "Unrecognized command: " ++ line ++ [10]].

(** A line of at most 62 characters; a command the shell does not know is at most 40. *)
Definition line_of (typed : list Z) : list Z := edit_line 62 typed.

Definition round_ops (typed : list Z) : list box_op :=
  [Print (codes ">")] ++ echoes 62 [] typed ++ [Print [10]] ++ map Print (replies (line_of typed)).

Record line_ok (typed : list Z) : Prop := {
  lo_keys : Forall (fun k => 0 < k < 128 /\ k <> 10) typed;
  lo_room : (length typed < 64)%nat;
  lo_command : take 4 (line_of typed) = codes "help" \/ (length (line_of typed) <= 40)%nat
}.

Definition session_literals : list string := (">" :: "Shell accepting commands:" :: shell_literals)%string.

(** The literals lie where nothing is written, the two arrays apart. *)
Record layout : Prop := {
  la_apart s : In s session_literals -> clear_of command 64 (literal s, codes s);
  la_clear : command + 64 <= print_buffer \/ print_buffer + MAX_PRINT_CHARS <= command
}.

Definition image_ok (m : mem) : Prop :=
  bytes m /\ Forall (fun s => readable print_buffer m (literal s, codes s)) session_literals.

Lemma image_outside m m' : outside print_buffer m m' -> image_ok m -> image_ok m'.
Proof.
  intros Ho [Hb Hl]. split; [by apply Ho|]. eapply Forall_impl; [exact Hl|]. intros s. by apply readable_outside.
Qed.

Lemma image_literals m : image_ok m -> literals_ok print_buffer literal m.
Proof. intros [_ Hl]. by apply Forall_cons in Hl as [_ [_ Hl]%Forall_cons]. Qed.

(** What is stored in the array at [command] leaves the literals alone. *)
Lemma image_stored m m' : layout -> (bytes m -> bytes m') -> (forall x, ~ command <= x < command + 64 -> m' x = m x) -> image_ok m -> image_ok m'.
Proof.
  intros Hla Hb' Hm [Hb Hl]. split; [tauto|]. rewrite Forall_forall in Hl |- *. intros s Hs.
  destruct (Hl s Hs) as [[H1 H0] Hc]. apply list_elem_of_In in Hs. pose proof (la_apart Hla s Hs) as Ha.
  unfold clear_of in Ha. cbn [fst snd] in *. split; [|exact Hc]. split; cbn [fst snd].
  - intros k c Hk. pose proof (lookup_lt_Some _ _ _ Hk). rewrite Hm by (apply Ha; lia). by apply H1.
  - rewrite Hm; [done|]. by apply Ha.
Qed.

Lemma image_put m l : layout -> (length l <= 64)%nat -> image_ok m -> image_ok (put_text command l m).
Proof.
  intros Hla Hlen. apply image_stored; [done| |].
  - intros Hb x. unfold put_text. destruct (_ && _); [apply u8_range|apply Hb].
  - intros x Hx. unfold put_text. destruct (Z.leb_spec command x), (Z.ltb_spec x (command + Z.of_nat (length l))); cbn [andb]; done || lia.
Qed.

Lemma image_terminated m i : layout -> 0 <= i < 64 -> image_ok m -> image_ok (mupd m (command + i) 0).
Proof.
  intros Hla Hi. apply image_stored; [done| |].
  - intros Hb x. unfold mupd. destruct (_ =? _); [unfold is_u8; lia|apply Hb].
  - intros x Hx. unfold mupd. destruct (Z.eqb_spec x (command + i)); [lia|done].
Qed.

(** The line editor keeps the characters that are typed. *)
Lemma edit_line_Forall (P : Z -> Prop) limit line ks : Forall P line -> Forall P ks -> Forall P (foldl (edit_key limit) line ks).
Proof.
  intros Hl Hk. revert line Hl. induction Hk as [|k ks Hk _ IH]; intros line Hl; [done|]. cbn [foldl]. apply IH.
  unfold edit_key. destruct (k =? 8); [by apply Forall_take|].
  destruct (_ <=? _)%nat; (apply Forall_app; split; [|by constructor]); [by apply Forall_take|done].
Qed.

Lemma put_text_line buffer line m k c : take (length line) buffer = line -> line !! k = Some c -> is_u8 c ->
  put_text command buffer m (command + Z.of_nat k) = c.
Proof.
  intros Hl Hk Hc. assert (buffer !! k = Some c) as Hb.
  { pose proof (lookup_lt_Some _ _ _ Hk) as Hlt. rewrite <- Hk, <- Hl. by rewrite lookup_take_lt. }
  pose proof (lookup_lt_Some _ _ _ Hb). unfold put_text. replace (command + Z.of_nat k - command) with (Z.of_nat k) by lia.
  destruct (Z.leb_spec command (command + Z.of_nat k)), (Z.ltb_spec (command + Z.of_nat k) (command + Z.of_nat (length buffer)));
    cbn [andb]; try lia. rewrite Nat2Z.id, (nth_lookup_Some _ _ _ _ Hb). by apply u8_small.
Qed.

(** The line that was read is a command. *)
Lemma command_read m buffer cs : layout -> image_ok m -> length buffer = 63%nat -> (length cs <= 62)%nat ->
  Forall (fun k => 0 < k < 128 /\ k <> 10) cs -> holds_line buffer (cs ++ [10]) ->
  image_ok (put_text command buffer m) /\ command_ok print_buffer literal (put_text command buffer m) command cs.
Proof.
  intros Hla Hi Hlb Hlen Hcs Hl. assert (image_ok (put_text command buffer m)) as Hi' by (apply image_put; [done|lia|done]).
  split; [exact Hi'|]. unfold holds_line in Hl. split.
  - apply Hi'.
  - by apply image_literals.
  - intros s Hs. apply (la_apart Hla). by do 2 right.
  - apply (la_clear Hla).
  - intros k c Hk. rewrite Forall_lookup in Hcs. pose proof (Hcs k c Hk). split; [lia|].
    apply (put_text_line buffer (cs ++ [10])); [done|by apply lookup_app_l_Some|unfold is_u8; lia].
  - apply (put_text_line buffer (cs ++ [10])); [done| |unfold is_u8; lia]. by rewrite lookup_app_r, Nat.sub_diag.
  - lia.
Qed.

Lemma shell_command_replies {F} (w : F -> list Z -> F) f m cs :
  command_ok print_buffer literal m command cs -> take 4 cs = codes "help" \/ (length cs <= 40)%nat ->
  exists m', shell_command (text_write w) print_buffer literal (Z.of_nat (length cs) + 1) command f m =
      Some (true, m', foldl w f (replies cs)) /\ outside print_buffer (mupd m (command + Z.of_nat (length cs)) 0) m'.
Proof.
  intros Hc Hok. pose proof (shell_command_text w print_buffer literal f m command cs Hc) as H. cbv zeta in H. unfold replies.
  destruct (decide _) as [|Hn]; [exact H|]. destruct (Nat.leb_spec (length cs) 40); [exact H|]. destruct Hok; [done|lia].
Qed.

(** Texts that are shorter than [print_buffer]. *)
Lemma prints p t m ks : image_ok m -> In p session_literals -> 0 < Z.of_nat (length (codes p)) < MAX_PRINT_CHARS -> term_holds t ks ->
  exists m' t', print (text_write shell_write) (Some t) m print_buffer [AStr (literal p)] = Some (Z.of_nat (length (codes p)), m', Some t') /\
    image_ok m' /\ term_holds t' ks /\ box_run [Print (codes p)] (box t) = Some (box t').
Proof.
  intros Hi Hp Hlen Ht. apply list_elem_of_In in Hp.
  assert (readable print_buffer m (literal p, codes p)) as Hr by (destruct Hi as [_ Hl]; rewrite Forall_forall in Hl; by apply (Hl p)).
  pose proof (print_strs shell_write print_buffer [(literal p, codes p)] (Some t) m ltac:(by constructor)) as H.
  cbn [map concat fst snd] in H. rewrite app_nil_r in H. cbv zeta in H.
  destruct (Z.ltb_spec (Z.of_nat (length (codes p))) MAX_PRINT_CHARS); [|lia].
  destruct (Z.ltb_spec 0 (Z.of_nat (length (codes p)))); [|lia]. destruct H as (m' & E & Ho).
  destruct (shell_writes [codes p] t ks Ht) as (t' & Et & Ht' & Hb). cbn [foldl] in Et.
  exists m', t'. split; [by rewrite E, Et|]. split; [by apply (image_outside m)|]. by split.
Qed.

Lemma getline_line typed rest t m : layout -> image_ok m -> line_ok typed -> term_holds t (typed ++ 10 :: rest) ->
  exists t' m', getline (max_cmd_chars - 1) t m = Some (Some (Z.of_nat (length (line_of typed)) + 1), t', m') /\ term_holds t' rest /\
    image_ok m' /\ command_ok print_buffer literal m' command (line_of typed) /\
    box_run (echoes 62 [] typed ++ [Print [10]]) (box t) = Some (box t').
Proof.
  intros Hla Hi [Hk Hr Hc] Ht. unfold getline, gui_read. rewrite (th_size _ _ Ht).
  destruct (read_loop_line (Z.to_nat (input_buf_head t + Z.of_nat (length (typed ++ 10 :: rest)) - input_buf_head t)) (max_cmd_chars - 1)
    typed rest t (Str.text m command (max_cmd_chars - 1)) [] []) as (t' & b' & calls & E & Ht' & Hlb & Hl & Hlim & Hb).
  - done.
  - reflexivity.
  - unfold max_cmd_chars. lia.
  - unfold Str.text. rewrite length_fmap, length_seqZ. unfold max_cmd_chars. lia.
  - cbn. lia.
  - intros Hin. rewrite Forall_forall in Hk. destruct (Hk 10 Hin) as [_ Hne]. by apply Hne.
  - rewrite length_app. cbn [length]. lia.
  - change (Z.of_nat (length (@nil Z))) with 0 in E. rewrite E. cbn [mbind option_bind].
    change (line_limit (max_cmd_chars - 1)) with 62%nat in *. fold (edit_line 62 typed) in *. fold (line_of typed) in *.
    unfold Str.text in Hlb. rewrite length_fmap, length_seqZ in Hlb.
    destruct (command_read m b' (line_of typed) Hla Hi) as [Hi' Hc'].
    + rewrite Hlb. reflexivity.
    + done.
    + by apply edit_line_Forall.
    + exact Hl.
    + do 2 eexists. split; [reflexivity|]. tauto.
Qed.

Lemma shell_round_ok typed rest t m : layout -> image_ok m -> line_ok typed -> term_holds t (typed ++ 10 :: rest) ->
  exists t' m', shell_round t m = Some (Looping, t', m') /\ term_holds t' rest /\ image_ok m' /\
    box_run (round_ops typed) (box t) = Some (box t').
Proof.
  intros Hla Hi Hok Ht. unfold shell_round.
  destruct (prints ">" t m _ Hi ltac:(by left) ltac:(cbn; unfold MAX_PRINT_CHARS; lia) Ht) as (m1 & t1 & -> & Hi1 & Ht1 & Hb1).
  cbn [mbind option_bind].
  destruct (getline_line typed rest t1 m1 Hla Hi1 Hok Ht1) as (t2 & m2 & -> & Ht2 & Hi2 & Hc & Hb2). cbn [mbind option_bind].
  destruct (shell_command_replies shell_write (Some t2) m2 (line_of typed) Hc (lo_command _ Hok)) as (m3 & -> & Ho).
  destruct (shell_writes (replies (line_of typed)) t2 rest Ht2) as (t3 & -> & Ht3 & Hb3). cbn [mbind option_bind].
  exists t3, m3. split; [reflexivity|]. split; [exact Ht3|]. split.
  - eapply image_outside; [exact Ho|]. apply image_terminated; [done| |exact Hi2]. pose proof (co_room _ _ _ _ _ Hc). lia.
  - unfold round_ops. eapply box_run_app; [exact Hb1|]. rewrite app_assoc. by eapply box_run_app.
Qed.

Lemma press_keys_holds ks t old : term_holds t old -> (length old + length ks <= 64)%nat ->
  exists t', press_keys ks t = Some t' /\ term_holds t' (old ++ ks) /\ box t' = box t.
Proof.
  revert t old. induction ks as [|k ks IH]; intros t old Ht Hlen; cbn [press_keys length] in *; [exists t; by rewrite app_nil_r|].
  destruct (key_handler_holds k t old Ht) as (t1 & c & E & H). destruct (Nat.ltb_spec (length old) 64); [|lia]. destruct H as [Ht1 _].
  assert (box t1 = box t) as Eb.
  { unfold Terminal.key_handler in E. destruct (_ <=? _); [by injection E as <- _|]. destruct (arr_set _ _ _); [|done]. by injection E as <- _. }
  rewrite E. cbn [mbind option_bind]. destruct (IH t1 (old ++ [k]) Ht1) as (t' & -> & Ht' & Eb'); [rewrite length_app; cbn; lia|].
  exists t'. split; [done|]. rewrite <- app_assoc in Ht'. split; [exact Ht'|congruence].
Qed.

Lemma session_round typed lines t m t1 t2 m2 : press_keys (typed ++ [10]) t = Some t1 -> shell_round t1 m = Some (Looping, t2, m2) ->
  shell_session (typed :: lines) t m = shell_session lines t2 m2.
Proof. intros E1 E2. cbn [shell_session]. by rewrite (bind_ok _ _ _ E1), (bind_ok _ _ _ E2). Qed.

Lemma shell_session_ok lines t m : layout -> image_ok m -> Forall line_ok lines -> term_holds t [] ->
  exists t' m', shell_session lines t m = Some (Looping, t', m') /\ term_holds t' [] /\ image_ok m' /\
    box_run (concat (map round_ops lines)) (box t) = Some (box t').
Proof.
  intros Hla Hi Hok. revert t m Hi. induction Hok as [|typed lines Hty _ IH]; intros t m Hi Ht; [by exists t, m|].
  destruct (press_keys_holds (typed ++ [10]) t [] Ht) as (t1 & E1 & Ht1 & Eb); [rewrite length_app; cbn; pose proof (lo_room _ Hty); lia|].
  destruct (shell_round_ok typed [] t1 m Hla Hi Hty Ht1) as (t2 & m2 & E2 & Ht2 & Hi2 & Hb2).
  destruct (IH t2 m2 Hi2 Ht2) as (t3 & m3 & E & Ht3 & Hi3 & Hb3). exists t3, m3.
  split; [by rewrite (session_round _ _ _ _ _ _ _ E1 E2)|]. split; [exact Ht3|]. split; [exact Hi3|].
  rewrite Eb in Hb2. exact (box_run_app _ _ _ _ _ Hb2 Hb3).
Qed.

(** ** From [_start] on *)

Definition greeting : list Z := codes "Shell accepting commands:" ++ [10].

Lemma new_terminal_holds free text_memory input_memory windows :
  length text_memory = 900%nat -> length input_memory = 64%nat -> term_holds (snd (new_GUIModel free text_memory input_memory windows)) [].
Proof. intros Hl Hi. split; cbn; try done; try lia. exists [], 0. apply new_box_holds; lia. Qed.

Lemma greets t m : image_ok m -> term_holds t [] ->
  exists m' t', println (text_write shell_write) print_buffer literal [AStr (literal "Shell accepting commands:")] (Some t) m = Some (m', Some t') /\
    image_ok m' /\ term_holds t' [] /\ box_run [Print greeting] (box t) = Some (box t').
Proof.
  intros Hi Ht. assert (readable print_buffer m (literal "Shell accepting commands:", codes "Shell accepting commands:")) as Hr
    by (destruct Hi as [_ Hl]; apply Forall_cons in Hl as [_ [Hl _]%Forall_cons]; exact Hl).
  pose proof (println_strs shell_write print_buffer literal [(literal "Shell accepting commands:", codes "Shell accepting commands:")] (Some t) m
    ltac:(by constructor) (image_literals m Hi)) as H.
  cbn [map concat fst snd] in H. rewrite app_nil_r in H. destruct H as (m' & E & Ho).
  destruct (shell_writes [greeting] t [] Ht) as (t' & Et & Ht' & Hb). cbn [foldl] in Et. fold greeting in E. rewrite Et in E.
  exists m', t'. split; [exact E|]. split; [by apply (image_outside m)|]. by split.
Qed.

(** C6: the shell as its user sees it.  [_start] makes the terminal and sends
    standard input and output to it; then, whatever lines are typed (62 characters
    at most, which backspaces may shorten, and 40 for a command it does not know),
    the shell never leaves its loop, and its text box is the one that results from
    printing the greeting and, for each line, the prompt, the echo of every key
    with its erasures, the newline and the answer to the edited line. *)
Theorem shell_transcript terminal event_thread free text_memory input_memory windows user_filetable m lines :
  layout -> image_ok m -> length text_memory = 900%nat -> length input_memory = 64%nat -> terminal <> 0 -> Forall line_ok lines ->
  exists windows' files t m1 t' m',
    shell_start terminal event_thread free text_memory input_memory windows user_filetable m =
      Some (windows', files, [GetEnvironment; NewThread event_thread; UpdateGui; RedrawGui], t, m1) /\
    (forall buf len, sysapi_io files (Read FD_STDIN buf len) = Some (inl terminal) /\ sysapi_io files (Write FD_STDOUT buf len) = Some (inl terminal)) /\
    shell_session lines t m1 = Some (Looping, t', m') /\
    box_run (Print greeting :: concat (map round_ops lines)) (box (snd (new_GUIModel free text_memory input_memory windows))) = Some (box t').
Proof.
  intros Hla Hi Hl1 Hl2 Hter Hok. unfold shell_start.
  pose proof (new_terminal_holds free text_memory input_memory windows Hl1 Hl2) as Ht0.
  destruct (new_GUIModel free text_memory input_memory windows) as [ws t0]. cbn [snd] in *.
  destruct (greets t0 m Hi Ht0) as (m1 & t1 & E1 & Hi1 & Ht1 & Hb1).
  destruct (shell_session_ok lines t1 m1 Hla Hi1 Hok Ht1) as (t2 & m2 & E2 & _ & _ & Hb2).
  eexists ws, _, t1, m1, t2, m2. split; [rewrite (bind_ok _ _ _ E1); reflexivity|]. split; [|split; [exact E2|]].
  - intros buf len. unfold sysapi_io.
    change (FD_STDIN `rem` MAX_PROC_FILES) with 0. change (FD_STDOUT `rem` MAX_PROC_FILES) with 1.
    change (upd (upd user_filetable FD_STDIN terminal) FD_STDOUT terminal 0) with terminal.
    change (upd (upd user_filetable FD_STDIN terminal) FD_STDOUT terminal 1) with terminal.
    cbn [Z.ltb Z.compare]. destruct (Z.eqb_spec terminal 0); [done|]. by split.
  - exact (box_run_app [Print greeting] _ _ _ _ Hb1 Hb2).
Qed.
End loop.

(** An image with the literals 64 bytes apart; the user types "help", mistypes and
    corrects "hi". *)
Definition session_literal (s : string) : Z := 0x1000 + 64 * position s session_literals.

Definition session_image : mem :=
  mem_of 0x1000 (concat (map (fun s => codes s ++ replicate (64 - length (codes s)) 0) session_literals)).

Lemma session_image_ok : image_ok 0x2000 session_literal session_image /\ layout 0x2000 session_literal 0x1800.
Proof.
  assert (Forall (fun s => 0x1000 <= session_literal s /\ session_literal s + Z.of_nat (length (codes s)) < 0x1800 /\
    str_test session_image (session_literal s) (codes s) = true) session_literals) as H.
  { repeat constructor; try (vm_compute; reflexivity); vm_compute; discriminate. }
  rewrite Forall_forall in H. split; split.
  - apply mem_of_bytes.
  - rewrite Forall_forall. intros s Hs. destruct (H s Hs) as (H1 & H2 & H3).
    split; [by apply str_test_true|]. intros k Hk. cbn [fst snd] in *. unfold MAX_PRINT_CHARS. lia.
  - intros s Hs. apply list_elem_of_In in Hs. destruct (H s Hs) as (H1 & H2 & H3).
    intros k Hk. cbn [fst snd] in *. lia.
  - left. unfold MAX_PRINT_CHARS. lia.
Qed.

Definition line_test (typed : list Z) : bool :=
  forallb (fun k => (0 <? k) && (k <? 128) && negb (k =? 10)) typed && (length typed <? 64)%nat &&
  (bool_decide (take 4 (line_of typed) = codes "help") || (length (line_of typed) <=? 40)%nat).

Lemma line_test_ok typed : line_test typed = true -> line_ok typed.
Proof.
  unfold line_test. intros H. apply andb_prop in H as [[H1 H2]%andb_prop H3]. split.
  - apply Forall_forall. intros k Hk. rewrite forallb_forall in H1. apply list_elem_of_In, H1 in Hk. lia.
  - apply Nat.ltb_lt in H2. lia.
  - apply orb_prop in H3 as [H3|H3]; [left; by apply bool_decide_eq_true in H3|right; by apply Nat.leb_le].
Qed.

Lemma shell_transcript_witness :
  let lines := [codes "help"; codes "ho" ++ [8] ++ codes "i"] in
  exists windows' files t m1 t' m',
    shell_start 0x2000 session_literal 0x3000 0x4000 0x5000 (replicate 900 0) (replicate 64 0) (fun _ => empty_Window) (fun _ => 0) session_image =
      Some (windows', files, [GetEnvironment; NewThread 0x4000; UpdateGui; RedrawGui], t, m1) /\
    shell_session 0x2000 session_literal 0x1800 lines t m1 = Some (Looping, t', m') /\
    round_ops (codes "ho" ++ [8] ++ codes "i") =
      map Print [codes ">"; codes "h"; codes "o"] ++ [Backspace] ++ map Print [codes "i"; [10]; codes "Unrecognized command: hi" ++ [10]].
Proof.
  intros lines. destruct session_image_ok as [Hi Hl].
  destruct (shell_transcript 0x2000 session_literal 0x1800 0x3000 0x4000 0x5000 (replicate 900 0) (replicate 64 0) (fun _ => empty_Window)
    (fun _ => 0) session_image lines Hl Hi eq_refl eq_refl) as (ws & files & t & m1 & t' & m' & E1 & _ & E2 & _).
  - lia.
  - apply Forall_cons. split; [apply line_test_ok; vm_compute; reflexivity|].
    apply Forall_cons. split; [apply line_test_ok; vm_compute; reflexivity|constructor].
  - exists ws, files, t, m1, t', m'. split; [exact E1|]. split; [exact E2|]. vm_compute. reflexivity.
Defined.
