(* ===== verification/Desktop.v ===== *)
(** * The desktop of the kernel: [system/gui.cpp] from [TGAHeader] on, and the
    [GUIModel] and [GUITerminal] of [system/main.cpp]

    The wallpaper is read from the tar file system of [Tar]; an image is a
    function from the indices of its pixels, and a store outside it is undefined
    ([None]). *)
From Stdlib Require Import String Ascii.
From S2P Require Import Prelude Str BitOps BitAlloc Queue Shapes Vga Memory Process Ps2 Tar Objects Gui Events.

(** ** The wallpaper *)

Section wallpaper.
Context (VGA_WIDTH VGA_HEIGHT : Z) (disk : Z -> Z -> Z).
(** The two local variables, and the bit 15 that [ColorRGB] leaves as it was. *)
Context (header raw_data pad : Z).
Implicit Types (img : Z -> Z) (m : mem) (f : TarFile).

(** The members of [TGAHeader] that are read. *)
Definition tga_datatypecode m : Z := s8 (m (header + 2)).
Definition tga_width m : Z := s16 (m (header + 12) + 256 * m (header + 13)).
Definition tga_height m : Z := s16 (m (header + 14) + 256 * m (header + 15)).

(** [ColorRGB] from the three bytes of a [Color24]. *)
Definition color16 (b g r : Z) : Z :=
  pad + Z.shiftr b 3 + 32 * Z.shiftr g 3 + 1024 * Z.shiftr r 3.

(** [img_data[dy * VGA_WIDTH + dx] = col16]. *)
Definition image_set (dx dy c : Z) img : option (Z -> Z) :=
  let i := u32 (dy * VGA_WIDTH + dx) in
  if i <? VGA_WIDTH * VGA_HEIGHT then Some (fun j => if j =? i then c else img j) else None.

(** A pixel of the file, scaled. *)
Definition tga_pixel (sx sy x y c : Z) img : option (Z -> Z) :=
  for_each (Z.to_nat sx) (x * sx) (fun dx => for_each (Z.to_nat sy) (y * sy) (fun dy => image_set dx dy c)) img.

(** The pixels of one read, the first of index [pi]. *)
Definition tga_pixels (width sx sy n pi : Z) m img : option (Z -> Z) :=
  for_each (Z.to_nat n) 0 (fun i img =>
    let y := Z.quot (pi + i) width in
    let x := Z.rem (pi + i) width in
    let p := raw_data + 3 * i in
    tga_pixel sx sy x y (color16 (m p) (m (p + 1)) (m (p + 2))) img) img.

(** The loop, [while (read_len)]. *)
Fixpoint tga_loop (fuel : nat) (width sx sy pi : Z) f m img : option (Z * (Z -> Z)) :=
  match fuel with
  | O => None
  | S fuel =>
      let '(read_len, f, m) := tar_read disk raw_data 1536 f m in
      img ← tga_pixels width sx sy (Z.quot read_len 3) pi m img;
      if negb (read_len =? 0) then tga_loop fuel width sx sy (pi + Z.quot read_len 3) f m img else Some (0, img)
  end.

(** [load_background_tga] on the file it has opened. *)
Definition load_background_tga (fuel : nat) f m img : option (Z * (Z -> Z)) :=
  let '(_, f, m) := tar_read disk header 18 f m in
  if negb (tga_datatypecode m =? 2) then Some (-1, img) else
  if (tga_width m =? 0) || (tga_height m =? 0) then None else
  let sx := s32 (VGA_WIDTH / u32 (tga_width m)) in
  let sy := s32 (VGA_HEIGHT / u32 (tga_height m)) in
  tga_loop fuel (tga_width m) sx sy 0 f m img.

(** ** The wallpaper's pixels *)

Context (HWH : 0 < VGA_WIDTH /\ 0 < VGA_HEIGHT /\ VGA_WIDTH * VGA_HEIGHT < 2147483648).

Lemma image_set_ok dx dy c img :
  0 <= dx < VGA_WIDTH -> 0 <= dy < VGA_HEIGHT ->
  exists img', image_set dx dy c img = Some img' /\
    forall X Y, 0 <= X < VGA_WIDTH -> 0 <= Y ->
      img' (Y * VGA_WIDTH + X) = if (X =? dx) && (Y =? dy) then c else img (Y * VGA_WIDTH + X).
Proof.
  intros Hx Hy. unfold image_set. assert (dy * VGA_WIDTH + dx < VGA_WIDTH * VGA_HEIGHT) by nia.
  rewrite u32_small by (unfold is_u32; nia). destruct (Z.ltb_spec (dy * VGA_WIDTH + dx) (VGA_WIDTH * VGA_HEIGHT)); [|lia].
  eexists. split; [done|]. intros X Y HX HY. cbv beta.
  destruct (Z.eqb_spec (Y * VGA_WIDTH + X) (dy * VGA_WIDTH + dx)), (Z.eqb_spec X dx), (Z.eqb_spec Y dy); cbn [andb]; try done; nia.
Qed.

(** The points of the square of source pixel [x], [y]. *)
Definition in_square (sx sy x y X Y : Z) : bool :=
  (x * sx <=? X) && (X <? (x + 1) * sx) && (y * sy <=? Y) && (Y <? (y + 1) * sy).

Lemma tga_pixel_ok sx sy x y c img :
  0 <= sx -> 0 <= sy -> 0 <= x -> 0 <= y -> (x + 1) * sx <= VGA_WIDTH -> (y + 1) * sy <= VGA_HEIGHT ->
  exists img', tga_pixel sx sy x y c img = Some img' /\
    forall X Y, 0 <= X < VGA_WIDTH -> 0 <= Y ->
      img' (Y * VGA_WIDTH + X) = if in_square sx sy x y X Y then c else img (Y * VGA_WIDTH + X).
Proof.
  intros Hsx Hsy Hx Hy HW HH. unfold tga_pixel.
  destruct (for_each_inv (fun dx (im : Z -> Z) => forall X Y, 0 <= X < VGA_WIDTH -> 0 <= Y ->
      im (Y * VGA_WIDTH + X) = if (x * sx <=? X) && (X <? dx) && (y * sy <=? Y) && (Y <? (y + 1) * sy) then c
        else img (Y * VGA_WIDTH + X)) (Z.to_nat sx) (x * sx)
      (fun dx => for_each (Z.to_nat sy) (y * sy) (fun dy => image_set dx dy c)) img) as (img' & -> & Hi).
  - intros X Y _ _. split_ltb; cbn; lia || done.
  - intros dx im Hdx Him.
    destruct (for_each_inv (fun dy (im' : Z -> Z) => forall X Y, 0 <= X < VGA_WIDTH -> 0 <= Y ->
        im' (Y * VGA_WIDTH + X) = if (X =? dx) && (y * sy <=? Y) && (Y <? dy) then c else im (Y * VGA_WIDTH + X))
      (Z.to_nat sy) (y * sy) (fun dy => image_set dx dy c) im) as (im' & -> & Hi').
    + intros X Y _ _. split_ltb; cbn; lia || done.
    + intros dy im1 Hdy Him1. destruct (image_set_ok dx dy c im1) as (im2 & -> & H2); [nia|nia|].
      exists im2. split; [done|]. intros X Y HX HY. rewrite H2, Him1 by done. split_ltb; cbn; lia || done.
    + exists im'. split; [done|]. intros X Y HX HY. rewrite Hi', Him by done.
      rewrite Z2Nat.id by done. replace (y * sy + sy) with ((y + 1) * sy) by lia. split_ltb; cbn; lia || done.
  - exists img'. split; [done|]. intros X Y HX HY. rewrite Hi by done. rewrite Z2Nat.id by done. unfold in_square.
    by replace (x * sx + sx) with ((x + 1) * sx) by lia.
Qed.

(** The image once the source pixels below [P] are drawn: [color] is the pixel of
    the file of an index. *)
Definition drawn (color : Z -> Z) (w sx sy P : Z) (img img' : Z -> Z) : Prop :=
  forall X Y, 0 <= X < VGA_WIDTH -> 0 <= Y -> img' (Y * VGA_WIDTH + X) =
    if (X <? w * sx) && (Y / sy * w + X / sx <? P) then color (Y / sy * w + X / sx) else img (Y * VGA_WIDTH + X).

Lemma drawn_step color w sx sy P img im :
  0 < w -> 0 < sx -> 0 < sy -> 0 <= P -> w * sx <= VGA_WIDTH -> (P / w + 1) * sy <= VGA_HEIGHT ->
  drawn color w sx sy P img im ->
  exists im', tga_pixel sx sy (P mod w) (P / w) (color P) im = Some im' /\ drawn color w sx sy (P + 1) img im'.
Proof.
  intros Hw Hsx Hsy HP HW HH Hd. pose proof (Z.mod_pos_bound P w Hw). pose proof (Z.div_pos P w HP Hw).
  destruct (tga_pixel_ok sx sy (P mod w) (P / w) (color P) im) as (im' & -> & Him'); try lia; [nia|].
  exists im'. split; [done|]. intros X Y HX HY. rewrite Him' by done. rewrite Hd by done.
  assert (in_square sx sy (P mod w) (P / w) X Y = true <-> X < w * sx /\ Y / sy * w + X / sx = P) as Hsq.
  { unfold in_square. rewrite !andb_true_iff, !Z.leb_le, !Z.ltb_lt. clear Hd Him'.
    pose proof (Z.div_mod P w ltac:(lia)). pose proof (Z.div_mod X sx ltac:(lia)). pose proof (Z.mod_pos_bound X sx Hsx).
    pose proof (Z.div_mod Y sy ltac:(lia)). pose proof (Z.mod_pos_bound Y sy Hsy).
    set (x := P mod w) in *. set (y := P / w) in *. set (qx := X / sx) in *. set (qy := Y / sy) in *.
    split.
    - intros [[[K1 K2] K3] K4]. assert (qx = x) as -> by nia. assert (qy = y) as -> by nia. nia.
    - intros [K1 K2]. assert (0 <= qx < w) by nia. assert (qy = y) as -> by nia. assert (qx = x) as -> by nia. nia. }
  destruct (in_square sx sy (P mod w) (P / w) X Y) eqn:E.
  - destruct Hsq as [Hsq _]. destruct (Hsq eq_refl) as [HX1 HX2]. rewrite HX2.
    destruct (Z.ltb_spec X (w * sx)), (Z.ltb_spec P (P + 1)); try lia. done.
  - assert (~ (X < w * sx /\ Y / sy * w + X / sx = P)) as Hne by (intros Hc; apply Hsq in Hc; congruence).
    split_ltb; cbn; lia || done.
Qed.

(** The bytes of the file, its dimensions and the pixel of an index. *)
Definition file_byte f (k : Z) : Z := content disk (header_sector f) k.
Definition file_width f : Z := s16 (file_byte f 12 + 256 * file_byte f 13).
Definition file_height f : Z := s16 (file_byte f 14 + 256 * file_byte f 15).
Definition file_color f (p : Z) : Z :=
  color16 (file_byte f (18 + 3 * p)) (file_byte f (18 + 3 * p + 1)) (file_byte f (18 + 3 * p + 2)).

Lemma tga_pixels_ok f w h sx sy n pi m img im :
  0 < w -> 0 < sx -> 0 < sy -> 0 <= pi -> 0 <= n -> pi + n <= w * h -> w * sx <= VGA_WIDTH -> h * sy <= VGA_HEIGHT ->
  (forall j, 0 <= j < 3 * n -> m (raw_data + j) = file_byte f (18 + 3 * pi + j)) ->
  drawn (file_color f) w sx sy pi img im ->
  exists im', tga_pixels w sx sy n pi m im = Some im' /\ drawn (file_color f) w sx sy (pi + n) img im'.
Proof.
  intros Hw Hsx Hsy Hpi Hn Hwh HW HH Hm Hd. unfold tga_pixels.
  destruct (for_each_inv (fun i im' => drawn (file_color f) w sx sy (pi + i) img im') (Z.to_nat n) 0
    (fun i img => tga_pixel sx sy (Z.rem (pi + i) w) (Z.quot (pi + i) w)
      (color16 (m (raw_data + 3 * i)) (m (raw_data + 3 * i + 1)) (m (raw_data + 3 * i + 2))) img) im) as (im' & E & Hi).
  - by rewrite Z.add_0_r.
  - intros i im1 Hi Him. rewrite Z.rem_mod_nonneg, Z.quot_div_nonneg by lia.
    assert (forall k, 0 <= k < 3 -> m (raw_data + 3 * i + k) = file_byte f (18 + 3 * (pi + i) + k)) as Hb.
    { intros k Hk. rewrite <- Z.add_assoc, Hm by lia. f_equal. lia. }
    pose proof (Hb 0 ltac:(lia)) as Hb0. rewrite !Z.add_0_r in Hb0.
    assert (color16 (m (raw_data + 3 * i)) (m (raw_data + 3 * i + 1)) (m (raw_data + 3 * i + 2)) = file_color f (pi + i)) as ->
      by (unfold file_color; by rewrite Hb0, !Hb by lia).
    rewrite Z.add_assoc. apply drawn_step; try done; try lia.
    assert ((pi + i) / w < h) by (apply Z.div_lt_upper_bound; lia). nia.
  - exists im'. rewrite Z.add_0_l, Z2Nat.id in Hi by done. split; [exact E|exact Hi].
Qed.

(** The number of source pixels that are read: those of the whole blocks of 1536
    bytes after the header. *)
Definition pixels_read f : Z := 512 * ((size f - 18) / 1536).

Lemma tga_loop_ok f0 w h sx sy fuel k f m img im :
  0 < w -> 0 < sx -> 0 < sy -> w * sx <= VGA_WIDTH -> h * sy <= VGA_HEIGHT -> pixels_read f0 <= w * h ->
  0 <= header_sector f0 < 2147483648 -> size f0 < 2147480000 ->
  in_sync f -> header_sector f = header_sector f0 -> size f = size f0 -> cursor f = 18 + 1536 * k -> 0 <= k ->
  k <= (size f0 - 18) / 1536 < k + Z.of_nat fuel ->
  drawn (file_color f0) w sx sy (512 * k) img im ->
  exists im', tga_loop fuel w sx sy (512 * k) f m im = Some (0, im') /\ drawn (file_color f0) w sx sy (pixels_read f0) img im'.
Proof.
  intros Hw Hsx Hsy HW HH Hwh Hh Hs. revert k f m im.
  induction fuel as [|fuel IH]; intros k f m im Hsync Ehs Esz Ec Hk Hfuel Hd; [lia|]. cbn [tga_loop].
  unfold pixels_read in *. set (q := (size f0 - 18) / 1536) in *.
  destruct (decide (k = q)) as [->|Hne].
  - rewrite tar_read_eof by (rewrite ?Ec, ?Esz; unfold q in *; zdm). exists im. split; [done|exact Hd].
  - assert (cursor f + 1536 <= size f) by (rewrite Ec, Esz; unfold q in *; zdm).
    pose proof (tar_read_ok disk raw_data 1536 f m Hsync) as Hr. rewrite Ehs, Esz in Hr.
    destruct (tar_read disk raw_data 1536 f m) as [[ret f1] m1].
    destruct Hr as (-> & Hst & E1 & E2 & E3 & E4); try lia.
    change (Z.quot 1536 3) with 512. change (negb (1536 =? 0)) with true. cbv iota.
    destruct (tga_pixels_ok f0 w h sx sy 512 (512 * k) m1 img im) as (im1 & -> & Hd1); try done; try lia.
    { intros j Hj. rewrite Hst. destruct (Z.leb_spec raw_data (raw_data + j)), (Z.ltb_spec (raw_data + j) (raw_data + 1536)); try lia.
      cbn [andb]. unfold file_byte. f_equal. lia. }
    cbn [mbind option_bind]. replace (512 * k + 512) with (512 * (k + 1)) in Hd1 |- * by lia.
    apply (IH (k + 1) f1 m1 im1); try done; try lia.
    apply E4. right. rewrite Ec. zdm.
Qed.
End wallpaper.

Lemma load_background_tga_ok W H disk header raw_data pad fuel f m img :
  let w := file_width disk f in
  let h := file_height disk f in
  0 < W -> 0 < H -> W * H < 2147483648 -> 0 < w <= W -> 0 < h <= H -> s8 (file_byte disk f 2) = 2 ->
  in_sync f -> cursor f = 0 -> 0 <= header_sector f < 2147483648 -> 18 <= size f < 2147480000 ->
  pixels_read f <= w * h -> (size f - 18) / 1536 < Z.of_nat fuel ->
  exists img', load_background_tga W H disk header raw_data pad fuel f m img = Some (0, img') /\
    drawn W (file_color disk pad f) w (W / w) (H / h) (pixels_read f) img img'.
Proof.
  intros w h HW HH HWH Hw Hh Htype Hsync Hc Hhs Hsz Hpix Hfuel. unfold load_background_tga.
  pose proof (tar_read_ok disk header 18 f m Hsync) as Hr. rewrite Hc in Hr.
  destruct (tar_read disk header 18 f m) as [[ret f1] m1]. destruct Hr as (_ & Hst & E1 & E2 & E3 & E4); try lia.
  assert (forall j, 0 <= j < 18 -> m1 (header + j) = file_byte disk f j) as Hm.
  { intros j Hj. rewrite Hst. destruct (Z.leb_spec header (header + j)), (Z.ltb_spec (header + j) (header + 18)); try lia.
    cbn [andb]. unfold file_byte. f_equal. lia. }
  assert (tga_datatypecode header m1 = 2 /\ tga_width header m1 = w /\ tga_height header m1 = h) as (-> & -> & ->).
  { unfold tga_datatypecode, tga_width, tga_height, w, h, file_width, file_height. by rewrite !Hm by lia. }
  cbn [Z.eqb Pos.eqb negb]. destruct (Z.eqb_spec w 0), (Z.eqb_spec h 0); try lia. cbn [orb].
  assert (W <= W * H /\ H <= W * H) as [? ?] by nia.
  rewrite (u32_small w), (u32_small h) by (unfold is_u32; lia).
  assert (w * (W / w) <= W /\ h * (H / h) <= H /\ 0 < W / w /\ 0 < H / h) as (? & ? & ? & ?).
  { split_and!; [apply Z.mul_div_le|apply Z.mul_div_le|apply Z.div_str_pos|apply Z.div_str_pos]; lia. }
  rewrite !s32_small by (unfold is_s32; zdm).
  apply (tga_loop_ok W H disk raw_data pad ltac:(lia) f w h _ _ fuel 0 f1 m1 img img); try done; try lia.
  - by apply E4; left.
  - zdm.
  - intros X Y HX HY. rewrite Z.mul_0_r. destruct (Z.ltb_spec (Y / (H / h) * w + X / (W / w)) 0); [|by rewrite andb_false_r].
    pose proof (Z.div_pos Y (H / h)). pose proof (Z.div_pos X (W / w)). nia.
Qed.


(** A white image of 2 by 256 pixels, at sector 1 of a disk. *)
Definition white_disk (s i : Z) : Z :=
  let k := (s - 2) * 512 + i in
  if (k =? 2) || (k =? 12) then 2 else if k =? 15 then 1 else if k <? 18 then 0 else 255.
Definition white_file : TarFile := {| header_sector := 1; current_sector := 2; cursor := 0; size := 1554 |}.


(** ** The mouse pointer *)

Section cursor.
Implicit Types (b : list (list Z)).

(** The array [buf[16][16]]. *)
Definition buf_get (i j : Z) b : option Z := row ← arr_get b i; arr_get row j.
Definition buf_set (i j v : Z) b : option (list (list Z)) := row ← arr_get b i; row ← arr_set row j v; arr_set b i row.

(** The first index of [xs] whose pixel in row [y] is not transparent. *)
Definition first_opaque (xs : list Z) (y : Z) b : option Z :=
  List.find (fun x => negb (bool_decide (buf_get x y b = Some 1))) xs.

(** [generate_cursor_image]: clear, the two edges of the arrow, its notch, and
    the inside of each row.  A row without a pixel would leave its ends
    uninitialised. *)
Definition generate_cursor_image b : option (list (list Z)) :=
  let w := 16 in
  let w2 := Z.shiftr w 1 in
  b ← for_each (Z.to_nat w) 0 (fun x => for_each (Z.to_nat w) 0 (fun y => buf_set x y 1)) b;
  '(_, b) ← for_each (Z.to_nat w) 0 (fun i '(j, b) =>
      b ← buf_set i j GREY b; b ← buf_set j i GREY b;
      Some (if negb (Z.land i 1 =? 0) then j + 1 else j, b)) (0, b);
  b ← for_each (Z.to_nat w2) 0 (fun i b => b ← buf_set (i + w2) w2 GREY b; buf_set w2 (i + w2) GREY b) b;
  for_each (Z.to_nat w) 0 (fun y b =>
    start_x ← first_opaque (seqZ 0 w) y b;
    end_x ← first_opaque (rev (seqZ 0 w)) y b;
    for_each (Z.to_nat (end_x - start_x)) start_x (fun x b =>
      v ← buf_get x y b; if v =? 1 then buf_set x y WHITE b else Some b) b) b.
End cursor.

Definition shaped (b : list (list Z)) : Prop := length b = 16%nat /\ Forall (fun row => length row = 16%nat) b.

Lemma buf_set_row b x j v r :
  0 <= x < Z.of_nat (List.length b) -> (j < List.length r)%nat ->
  buf_set x (Z.of_nat j) v (<[Z.to_nat x := r]> b) = Some (<[Z.to_nat x := <[j := v]> r]> b).
Proof.
  intros Hx Hj. unfold buf_set, arr_get. destruct (Z.leb_spec 0 x); [|lia].
  rewrite list_lookup_insert_eq by lia. cbn [mbind option_bind]. rewrite arr_set_Some by lia. cbn [mbind option_bind].
  rewrite arr_set_Some by (rewrite length_insert; lia). by rewrite list_insert_insert_eq, Nat2Z.id.
Qed.

Lemma clear_row b x :
  shaped b -> 0 <= x < 16 ->
  exists b', for_each 16 0 (fun y => buf_set x y 1) b = Some b' /\ shaped b' /\
    forall i, b' !! i = if decide (i = Z.to_nat x) then Some (replicate 16 1) else b !! i.
Proof.
  intros [Hl Hr] Hx. destruct (lookup_lt_is_Some_2 b (Z.to_nat x)) as [r Hrow]; [lia|].
  pose proof (Forall_lookup_1 _ _ _ _ Hr Hrow) as Hlen. cbv beta in Hlen.
  assert (forall n j r, length r = (j + n)%nat -> (forall i, (i < j)%nat -> r !! i = Some 1) ->
    for_each n (Z.of_nat j) (fun y => buf_set x y 1) (<[Z.to_nat x := r]> b) = Some (<[Z.to_nat x := replicate (j + n) 1]> b)) as Hn.
  { intros n. induction n as [|n IH]; intros j r1 Hl1 H1; cbn [for_each].
    - rewrite Nat.add_0_r in *. do 2 f_equal. apply list_eq_same_length with j; [|done|].
      { by rewrite length_replicate. }
      intros i u v Hi Hu Hv. rewrite H1 in Hu by done. apply lookup_replicate in Hv as [-> _]. congruence.
    - rewrite buf_set_row by lia. cbn [mbind option_bind].
      replace (Z.of_nat j + 1) with (Z.of_nat (S j)) by lia.
      replace (j + S n)%nat with (S j + n)%nat by lia. apply IH; [rewrite length_insert; lia|].
      intros i Hi. destruct (decide (i = j)) as [->|]; [apply list_lookup_insert_eq; lia|].
      rewrite list_lookup_insert_ne by done. apply H1. lia. }
  specialize (Hn 16%nat 0%nat r ltac:(lia) ltac:(lia)). rewrite list_insert_id in Hn by done. change (Z.of_nat 0) with 0 in Hn.
  eexists. split; [exact Hn|]. split; [split|].
  - by rewrite length_insert.
  - apply Forall_insert; [done|]. by rewrite length_replicate.
  - intros i. destruct (decide (i = Z.to_nat x)) as [->|]; [apply list_lookup_insert_eq; lia|by apply list_lookup_insert_ne].
Qed.

Lemma clear_image b :
  shaped b -> for_each 16 0 (fun x => for_each 16 0 (fun y => buf_set x y 1)) b = Some (replicate 16 (replicate 16 1)).
Proof.
  intros Hb. destruct (for_each_inv (fun x b' => shaped b' /\ forall i, Z.of_nat i < x -> b' !! i = Some (replicate 16 1))
    16 0 (fun x => for_each 16 0 (fun y => buf_set x y 1)) b) as (b' & E & [Hl Hr] & Hi).
  - split; [done|]. lia.
  - intros x b1 Hx [Hs H1]. destruct (clear_row b1 x Hs ltac:(lia)) as (b2 & -> & Hs2 & H2). exists b2. split; [done|]. split; [done|].
    intros i Hi. rewrite H2. case_decide; [done|]. apply H1. lia.
  - rewrite E. f_equal. apply list_eq_same_length with 16%nat; [done|done|]. intros i u v Hlt Hu Hv.
    rewrite Hi in Hu by lia. apply lookup_replicate in Hv as [-> _]. congruence.
Qed.

(** The arrow, a line per column of the screen: grey, white, transparent. *)
Definition arrow : list string :=
  ["##              ";
   "#.##            ";
   " #..##          ";
   " #....##        ";
   "  #.....##      ";
   "  #.......##    ";
   "   #........##  ";
   "   #..........##";
   "    #...########";
   "    #...#       ";
   "     #..#       ";
   "     #..#       ";
   "      #.#       ";
   "      #.#       ";
   "       ##       ";
   "       ##       "]%string.

Definition paint (c : ascii) : Z := if Ascii.eqb c "#" then GREY else if Ascii.eqb c "." then WHITE else 1.

(** Whatever the array held, the mouse pointer is the arrow; every index is
    in range and no row is empty, so the ends of a row are always set before they
    are used. *)
Theorem cursor_image_spec b :
  shaped b -> generate_cursor_image b = Some (map (fun l => map paint (list_ascii_of_string l)) arrow).
Proof.
  intros Hb. unfold generate_cursor_image. change (Z.to_nat 16) with 16%nat. rewrite (clear_image b Hb). cbn [mbind option_bind].
  vm_compute. reflexivity.
Qed.

Lemma cursor_image_spec_witness :
  shaped (replicate 16 (replicate 16 7)) /\
  generate_cursor_image (replicate 16 (replicate 16 7)) = Some (map (fun l => map paint (list_ascii_of_string l)) arrow).
Proof.
  assert (shaped (replicate 16 (replicate 16 7))) as H by (split; [reflexivity|by repeat constructor]).
  split; [exact H|]. apply (cursor_image_spec _ H).
Defined.

(** ** The window manager and the event system at the start *)

(** [WindowManager()]; the top of the stack and the desktop are not initialised. *)
Definition new_WindowManager (top0 desktop0 : Z) (users : Z -> Z -> Window) : WindowManager :=
  {| windows := fun _ => new_GUIWindow GUIPlain empty_Window; winstack := top0; desktop := desktop0; drag_window := 0;
     user_windows := users |}.

(** [init_gui]: the addresses of the window manager and of its pick buffer, the
    window manager, the pointer and the mouse.  The sizes are those of the two
    structures; [image0] and [background0] are what the memory held. *)
Definition init_gui (sizeof_WindowManager sizeof_MousePointer VGA_WIDTH VGA_HEIGHT width height : Z)
    (top0 desktop0 : Z) (users : Z -> Z -> Window) (image0 : list (list Z)) (background0 : Z -> Z -> Z)
    (mouse : MouseState) (fb : framebuffer) : K (Z * Z * WindowManager * MousePointer * MouseState) :=
  let! winmgr := static_alloc_pages (u32 (sizeof_WindowManager + 4095) / 4096) in
  let! pick := static_alloc_pages ((VGA_WIDTH *w VGA_HEIGHT +w 4095) / 4096) in
  let! _ := static_alloc_pages (u32 (sizeof_MousePointer + 4095) / 4096) in
  let mouse := with_pos mouse (Z.quot width 4) (Z.quot height 4) in
  let mouse := {| mx := mx mouse; my := my mouse; old_x := mx mouse; old_y := my mouse; lclick_x := lclick_x mouse;
                  lclick_y := lclick_y mouse; lbutton := lbutton mouse; ldrag := ldrag mouse |} in
  fun m =>
    image ← generate_cursor_image image0;
    let pointer :=
      {| bg_x := u32 (mx mouse); bg_y := u32 (my mouse);
         pointer_image := fun x y => nth (Z.to_nat y) (nth (Z.to_nat x) image []) 0;
         background := get_pixels VGA_WIDTH (mx mouse) (my mouse) POINTER_WIDTH POINTER_HEIGHT fb background0 |} in
    Some (winmgr, pick, new_WindowManager top0 desktop0 users, pointer, mouse, m).

(** [init_events], with the constructors of the event system and its workers: the
    queues keep what the memory held, [pool] and [node] are the offset and the size
    of the subscriber nodes, [tsc] the time stamp.  The event thread is the
    second thread of the kernel. *)
Definition init_events (kevent_pages pool node tsc enter_event_loop : Z) (user callback : list Message)
    (display_queue : list (option DisplayMsg)) (w : World) : K World :=
  let! kevents := static_alloc_pages kevent_pages in
  let! stack := static_alloc_pages 4 in
  fun m =>
    u ← new_SharedQueue MAX_EVENTS user;
    c ← new_SharedQueue MAX_EVENTS callback;
    d ← new_SharedQueue MAX_EVENTS display_queue;
    let w := with_queues w u c d in
    let w := with_subs w (new_PoolAllocator MAX_SUBSCRIPTIONS (kevents +w pool) node) (seed w) (sub_nodes w) (fun _ => 0) in
    let w := with_deadline w (tsc + 0x4000000) in
    let k := write_signal (kern w) 0 MSG_MONITOR 0 in
    let t := KernelThread_init (threads k 1) enter_event_loop stack (4096 * 4) in
    Some (with_kern w (set_runState (set_thread_at k 1 t) 1 RUNNING), m).

(** ** The kernel's windows *)

Section kernel_gui.
Context (VGA_WIDTH VGA_HEIGHT win_index sizeof_GUIWindow : Z) (proc_env proc_userEnv : Z -> Z).

(** The checker pattern under the wallpaper. *)
Definition checker (img : Z -> Z) : option (Z -> Z) :=
  for_each (Z.to_nat VGA_HEIGHT) 0 (fun y => for_each (Z.to_nat VGA_WIDTH) 0 (fun x =>
    image_set VGA_WIDTH VGA_HEIGHT x y
      (if negb (Z.land (Z.lxor x y) 0x20 =? 0) then fast_blend GREY (fast_blend GREY BLUE) else fast_blend GREY BLUE))) img.

(** The desktop's window: [img] is the address of its image. *)
Definition new_desktop (img : Z) (m : WindowManager) : WindowManager :=
  let gw := getGUIWindow win_index sizeof_GUIWindow 0 in
  let screen := {| rl := 0; rt := 0; rr := s32 VGA_WIDTH; rb := s32 VGA_HEIGHT |} in
  let w := set_root (new_GUIWindow GUIDesktop (new_Window WINDOW screen img)) gw in
  {| windows := hset (windows m) gw w; winstack := winstack m; desktop := gw; drag_window := drag_window m;
     user_windows := user_windows m |}.

Definition slot_with (w : Window) (wid z data : Z) : Window :=
  {| winclass := winclass w; rect := rect w; redraw_rect := redraw_rect w; display_data := data; zindex := z;
     id := wid; parent_id := parent_id w; needs_update := needs_update w; needs_redraw := needs_redraw w |}.

(** The frame, its background and the text box, in the slots 1, 2 and 3 of the
    kernel; [free] is the address of the text buffer. *)
Definition kernel_windows (free : Z) (m : WindowManager) : WindowManager :=
  let frame := new_Window WINDOW_FRAME {| rl := 200; rt := 150; rr := 600; rb := 450 |} (display_data (user_windows m 0 1)) in
  let winmain := slot_with frame 1 0 (display_data frame) in
  let bg := slot_with (new_Window WINDOW {| rl := 0; rt := 0; rr := 400; rb := 300 |} 0) 1 0
              (fast_blend GREY (fast_blend YELLOW RED)) in
  let '(winmain, bg) := frame_addChild winmain (Some bg) in
  let text := slot_with (new_Window TEXT_BOX {| rl := 20; rt := 20; rr := 380; rb := 280 |} free) 3 2 free in
  let '(winmain, text) := frame_addChild winmain (Some text) in
  let '(winmain, text) := frame_addChild winmain text in
  set_user (set_user (set_user m 0 1 winmain) 0 2 (default empty_Window bg)) 0 3 (default empty_Window text).

(** [GUIModel::GUIModel], from the window manager [init_gui] made to the update of
    the kernel's windows; the file of the wallpaper is open. *)
Definition kernel_GUIModel (fuel : nat) (img free : Z) (m : WindowManager) : option WindowManager :=
  let m := kernel_windows free (new_desktop img m) in
  let '(top, h) := stack_push (winstack m) (desktop m) (windows m) in
  gui_update_proc win_index sizeof_GUIWindow proc_env proc_userEnv fuel 0 (set_windows m h top).

(** [GUITerminal::write] of the kernel: the text box is the window of slot 3. *)
Definition kernel_write (s : list Z) (b : Buffer) (m : WindowManager) : option (Z * Buffer * WindowManager * list DisplayMsg) :=
  '(w, b) ← textbox_print s (user_windows m 0 3) b;
  '(m, msgs) ← gui_redraw_proc win_index sizeof_GUIWindow 0 (set_user m 0 3 w);
  Some (1, b, m, msgs).
End kernel_gui.

(** The windows the kernel starts with: the frame on top of the desktop, and in
    it the text box on top of the background, at their places on the screen. *)
Lemma kernel_desktop_tree :
  let m := kernel_GUIModel 800 600 0x10000 100 (fun _ => 0x8000) (fun _ => 0x8000) 4 0x700000 0x9000
    (new_WindowManager 0 0 (fun _ _ => empty_Window)) in
  let gw i := 0x10000 + 100 * i in
  match m with
  | None => False
  | Some m =>
      winstack m = gw 1 /\ next (windows m (gw 1)) = gw 0 /\ next (windows m (gw 0)) = 0 /\ desktop m = gw 0 /\
      children (windows m) (gw 1) = gw 3 /\ next (windows m (gw 3)) = gw 2 /\ next (windows m (gw 2)) = 0 /\
      map (fun i => wm_root (windows m (gw i))) [0; 1; 2; 3] = [gw 0; gw 1; gw 1; gw 1] /\
      rect (windata (windows m (gw 3))) = {| rl := 220; rt := 170; rr := 580; rb := 430 |}
  end.
Proof. vm_compute. repeat split. Qed.

(** The event system at the start: three empty queues of 16 slots, no subscriber,
    no signal, and a runnable thread at [enter_event_loop] on its own stack. *)
Lemma init_events_ok kevent_pages pool node tsc loop user callback display_queue w m :
  length user = 16%nat -> length callback = 16%nat -> length display_queue = 16%nat ->
  exists w' m', init_events kevent_pages pool node tsc loop user callback display_queue w m = Some (w', m') /\
    new_SharedQueue MAX_EVENTS callback = Some (w_callback w') /\
    sq_wf 16 (w_user w') /\ sq_wf 16 (w_callback w') /\ sq_wf 16 (w_display w') /\
    sq_size (w_user w') = 0 /\ sq_size (w_callback w') = 0 /\ sq_size (w_display w') = 0 /\
    (forall e, event_subs w' e = 0) /\ signal (monitors (procs (kern w') 0) MSG_MONITOR) = 0 /\
    runState (threads (kern w') 1) = RUNNING /\ eip (intParams (threads (kern w') 1)) = loop /\
    stack_bytes (threads (kern w') 1) = 16384.
Proof.
  intros Hu Hc Hd. unfold init_events, kbind, static_alloc_pages.
  destruct (atomic_add_limit _ _ _) as [p1 n1]. destruct (n1 =? _);
  destruct (atomic_add_limit _ _ _) as [p2 n2]; destruct (n2 =? _);
  (do 2 eexists; split; [reflexivity|]; cbn -[Z.eqb];
   split_and!; try done; unfold sq_wf, MAX_EVENTS; cbn; rewrite ?Hu, ?Hc, ?Hd; lia).
Qed.

(** A queue with one message: it is found, read once and its slot given back. *)
Definition one_message {T} `{Slot T} (q : SharedQueue T) (x : T) : Prop :=
  let qr := {| qr_head := 0; qr_tail := 1 |} in
  exists n q2 q3 q4, gather_new_data q = Some (n, q2) /\ sq_size q2 = 1 /\ sq_dequeue q2 10 = (qr, q3) /\
    sq_get q3 0 = Some x /\ finish q3 qr = Some q4 /\ sq_size q4 = 0.

(** A queue without: nothing is found. *)
Definition no_message {T} `{Slot T} (q : SharedQueue T) : Prop :=
  exists n q2, gather_new_data q = Some (n, q2) /\ sq_size q2 = 0.

Lemma queue_one_message h d (memory : list Message) (x := {| Queue.msg_id := h; msg_data := d |}) :
  length memory = 16%nat -> h <> 0 ->
  exists q0 r q1, new_SharedQueue MAX_EVENTS memory = Some q0 /\ sq_enqueue q0 x = Some (r, q1) /\ one_message q1 x.
Proof.
  intros Hl Hh. subst x. do 16 (destruct memory as [|? memory]; [done|]). destruct memory; [|done]. unfold one_message.
  destruct h as [|p|p]; [done| |]; do 3 eexists; (split; [vm_compute; reflexivity|]); (split; [vm_compute; reflexivity|]);
    do 4 eexists; repeat (split; [vm_compute; reflexivity|]); vm_compute; reflexivity.
Qed.

Lemma queue_one_redraw (memory : list (option DisplayMsg)) :
  length memory = 16%nat ->
  exists q0 r q1, new_SharedQueue MAX_EVENTS memory = Some q0 /\ sq_enqueue q0 (Some REDRAW_SCREEN) = Some (r, q1) /\
    one_message q1 (Some REDRAW_SCREEN).
Proof.
  intros Hl. do 16 (destruct memory as [|? memory]; [done|]). destruct memory; [|done]. unfold one_message.
  do 3 eexists; (split; [vm_compute; reflexivity|]); (split; [vm_compute; reflexivity|]);
    do 4 eexists; repeat (split; [vm_compute; reflexivity|]); vm_compute; reflexivity.
Qed.

Lemma queue_no_message (memory : list Message) :
  length memory = 16%nat -> exists q0, new_SharedQueue MAX_EVENTS memory = Some q0 /\ no_message q0.
Proof.
  intros Hl. do 16 (destruct memory as [|? memory]; [done|]). destruct memory; [|done]. unfold no_message.
  eexists. split; [vm_compute; reflexivity|]. do 2 eexists. split; [vm_compute; reflexivity|vm_compute; reflexivity].
Qed.

(** The worker of callbacks calls it. *)
Lemma callback_served (callback : Z -> Z -> World -> option World) handler data w :
  one_message (w_callback w) {| Queue.msg_id := handler; msg_data := data |} ->
  exists q q', sq_size q' = 0 /\ forall w1, callback handler data (with_queues w (w_user w) q (w_display w)) = Some w1 ->
    w_callback w1 = q -> callback_run callback w = Some (signal_kernel (-1) (with_queues w1 (w_user w1) q' (w_display w1))).
Proof.
  intros (n & q2 & q3 & q4 & E2 & E3 & E4 & E5 & E6 & E7). exists q3, q4. split; [exact E7|]. intros w1 Hc Hk.
  unfold callback_run. rewrite E2. cbn [mbind option_bind].
  rewrite E3. cbn [Z.leb Z.compare]. rewrite E4.
  change (Z.to_nat (qr_tail _ - qr_head _)) with 1%nat. cbn [for_each qr_head].
  change (w_callback (with_queues _ _ q3 _)) with q3. rewrite E5. cbn [mbind option_bind Queue.msg_id msg_data].
  change (callback handler data _) with (callback handler data (with_queues w (w_user w) q3 (w_display w))).
  rewrite Hc. cbn [mbind option_bind]. rewrite Hk. change (w_callback (with_queues _ _ q3 _)) with q3. by rewrite E6.
Qed.

(** A callback in a fresh queue is served by the next round of its worker. *)
Lemma first_callback handler data memory w :
  length memory = 16%nat -> handler <> 0 -> new_SharedQueue MAX_EVENTS memory = Some (w_callback w) ->
  exists q, new_callback_event handler data w = Some (signal_kernel 1 (with_queues w (w_user w) q (w_display w))) /\
    one_message q {| Queue.msg_id := handler; msg_data := data |}.
Proof.
  intros Hl Hh Hq0. destruct (queue_one_message handler data memory Hl Hh) as (q0' & r & q1 & E0 & E1 & Hone).
  rewrite E0 in Hq0. injection Hq0 as Hw. exists q1. unfold new_callback_event. rewrite <- Hw, E1. done.
Qed.

(** A machine whose static heap starts at 1 MB. *)
Definition start_machine : machine :=
  {| phys := fun _ => 0; cr3 := 0; paging := false; page_tables := 0; page_dir := 0; page_allocator := new_BitAllocator 32;
     Memory.seed := 1; virt_alloc_ptr := 0; static_alloc_ptr := 0x100000; static_alloc_limit := 0x400000; page_copy_ptr := 0 |}.

(** The kernel's first event is served.  From any memory, [init_events] makes
    an event system in which the callback [_start] enqueues ([spawn]) raises the
    signal from 0 to 1, so that the event thread does not wait, and the first
    round of the callback worker calls it, once and with its argument, in the
    state it was enqueued in; if the callback succeeds and enqueues no other, the
    round returns with the queue empty and the signal lowered by one. *)
Theorem first_event_served (callback : Z -> Z -> World -> option World) kevent_pages pool node tsc loop
    user callbacks display_queue handler data w m :
  length user = 16%nat -> length callbacks = 16%nat -> length display_queue = 16%nat -> handler <> 0 ->
  exists w0 m0 w1 w2, init_events kevent_pages pool node tsc loop user callbacks display_queue w m = Some (w0, m0) /\
    signal (monitors (procs (kern w0) 0) MSG_MONITOR) = 0 /\
    new_callback_event handler data w0 = Some w1 /\ signal (monitors (procs (kern w1) 0) MSG_MONITOR) = 1 /\
    kern w2 = kern w1 /\
    forall w3, callback handler data w2 = Some w3 -> w_callback w3 = w_callback w2 ->
      exists w4, callback_run callback w1 = Some w4 /\ kern w4 = kern (signal_kernel (-1) w3) /\ sq_size (w_callback w4) = 0.
Proof.
  intros Hu Hc Hd Hh.
  destruct (init_events_ok kevent_pages pool node tsc loop user callbacks display_queue w m Hu Hc Hd)
    as (w0 & m0 & E & Hq & _ & _ & _ & _ & _ & _ & _ & Hsig & _).
  destruct (first_callback handler data callbacks w0 Hc Hh Hq) as (q & E1 & Hone).
  set (w1 := signal_kernel 1 (with_queues w0 (w_user w0) q (w_display w0))).
  destruct (callback_served callback handler data w1 Hone) as (q1 & q2 & Hq2 & H).
  exists w0, m0, w1, (with_queues w1 (w_user w1) q1 (w_display w1)). do 2 (split; [done|]). split; [exact E1|].
  split; [cbn; by rewrite Hsig|]. split; [done|]. intros w3 Hc3 Hk. eexists. split; [by apply H|]. split; [done|exact Hq2].
Qed.

Lemma first_event_served_witness :
  let memory := replicate 16 {| Queue.msg_id := 5; msg_data := 6 |} in
  exists w0 m0 w1 w2, init_events 4 0x900 8 0 0x8100 memory memory (replicate 16 None) desk_world start_machine = Some (w0, m0) /\
    new_callback_event 0x8200 3 w0 = Some w1 /\
    exists w4, callback_run (fun _ _ w => Some w) w1 = Some w4 /\ kern w4 = kern (signal_kernel (-1) w2) /\
      sq_size (w_callback w4) = 0.
Proof.
  intros memory.
  destruct (first_event_served (fun _ _ w => Some w) 4 0x900 8 0 0x8100 memory memory (replicate 16 None) 0x8200 3
    desk_world start_machine eq_refl eq_refl eq_refl) as (w0 & m0 & w1 & w2 & E & _ & E1 & _ & _ & H); [discriminate|].
  exists w0, m0, w1, w2. split; [exact E|]. split; [exact E1|]. exact (H w2 eq_refl eq_refl).
Defined.

(** ** What the timer handler draws *)

(** [kprint_process_tag]: [p], [c], [dt] and [e] are the addresses of "P(", ":",
    ":DT=" and ")", [buf] that of [tmp_buf], [diff] the low word of the difference
    of the time stamps. *)
Definition kprint_process_tag (VGA_WIDTH VGA_HEIGHT : Z) (ASCII_MAP : Z -> Z) (p c dt e buf : Z) (proc_id thread_index diff : Z)
    (m : mem) (fb : framebuffer) : option (mem * framebuffer) :=
  '(len, o) ← sprint {| o_mem := m; o_dst := buf; o_len := 64 |}
    [AStr p; AInt proc_id; AStr c; AInt thread_index; AStr dt; AHex (s32 diff); AStr e];
  if negb (len <? 64) then None else
  let m := mupd (o_mem o) (buf + len) 0 in
  let fb := rect_fill VGA_WIDTH VGA_HEIGHT {| rl := 850; rt := 30; rr := 850 + len * CHAR_SPACING_X; rb := 30 + CHAR_SPACING_Y |} BLACK fb in
  Some (m, snd (render_text_xy VGA_WIDTH VGA_HEIGHT ASCII_MAP (Str.text m buf len) 850 30 GREY fb)).
