(* ===== verification/Start.v ===== *)
(** * The start of the kernel as a whole: [_start] of [system/main.cpp]

    The steps of [_start] in the order of the source, on one state that holds the
    machine, the interrupt table, the devices and the kernel's data: each stage
    calls the model of the part it starts.  The addresses and sizes the compiler
    and the linker choose are a record; interrupts do not come in between (the
    timer runs from the end of [start_devices] on), and debug output is left
    out. *)
From S2P Require Import Prelude Str BitOps BitAlloc Queue Shapes Vga Memory Paging Process Spaces Switch Sysenter Interrupts.
From S2P Require Import Apic Ata Ps2 Tar Objects Gui Events Syscall Boot Desktop.

(** ** What the linker knows *)

Record Image := {
  exception_address : exception -> Z;
  page_fault_address : Z; timer_address : Z; keyboard_address : Z; mouse_address : Z;
  enter_kernel_address : Z; enter_event_loop_address : Z; spawn_address : Z;
  (** Objects: the graphical terminal on the first stack. *)
  gui_terminal : Z;
  (** String literals and the buffers of the functions called. *)
  shell_name : Z; tga_name : Z; kernel_messages : Z; newline : Z;
  tar_header_buf : Z; tga_header_buf : Z; raw_data_buf : Z; print_buf : Z;
  (** Sizes and offsets of structures. *)
  sizeof_TarFile : Z; proc_pages : Z; sizeof_WindowManager : Z; offset_win_index : Z; sizeof_GUIWindow : Z;
  sizeof_MousePointer : Z; offset_free : Z; kevent_pages : Z; offset_sub_pool : Z; sizeof_SubscriberNode : Z
}.

Section start.
Context {D : Type} `{!Machine D} `{!Ports D} (time_stamp : D -> Z * D).
Context (VGA_WIDTH VGA_HEIGHT : Z) (ASCII_MAP : Z -> Z) (disk : Z -> Z -> Z) (im : Image).

(** ** The state *)

Record System := {
  dev : D;
  idt : IDT;
  mach : machine;
  sworld : World;
  sps2 : Ps2;
  smsrs : Msrs;
  tar_files : Z -> TarFile;
  text_buf : Buffer;
  smem : mem;
  desktop_img : Z -> Z;
  terminal_device : Z;
  interrupt_stack : Z;
  interrupts : bool;
  task_register : Z;
  cursor_memory : list (list Z);
  (** What the memory of the three queues holds. *)
  event_memory : list Queue.Message * list Queue.Message * list (option DisplayMsg)
}.
Implicit Types (s : System).

Definition set_dev s (d : D) (t : IDT) : System :=
  {| dev := d; idt := t; mach := mach s; sworld := sworld s; sps2 := sps2 s; smsrs := smsrs s; tar_files := tar_files s;
     text_buf := text_buf s; smem := smem s; desktop_img := desktop_img s; terminal_device := terminal_device s;
     interrupt_stack := interrupt_stack s; interrupts := interrupts s; task_register := task_register s;
     cursor_memory := cursor_memory s; event_memory := event_memory s |}.
Definition set_mach s (m : machine) : System :=
  {| dev := dev s; idt := idt s; mach := m; sworld := sworld s; sps2 := sps2 s; smsrs := smsrs s; tar_files := tar_files s;
     text_buf := text_buf s; smem := smem s; desktop_img := desktop_img s; terminal_device := terminal_device s;
     interrupt_stack := interrupt_stack s; interrupts := interrupts s; task_register := task_register s;
     cursor_memory := cursor_memory s; event_memory := event_memory s |}.
Definition set_world s (w : World) : System :=
  {| dev := dev s; idt := idt s; mach := mach s; sworld := w; sps2 := sps2 s; smsrs := smsrs s; tar_files := tar_files s;
     text_buf := text_buf s; smem := smem s; desktop_img := desktop_img s; terminal_device := terminal_device s;
     interrupt_stack := interrupt_stack s; interrupts := interrupts s; task_register := task_register s;
     cursor_memory := cursor_memory s; event_memory := event_memory s |}.
Definition set_ps2 s (p : Ps2) : System :=
  {| dev := dev s; idt := idt s; mach := mach s; sworld := with_mouse (sworld s) (mouse p); sps2 := p; smsrs := smsrs s;
     tar_files := tar_files s;
     text_buf := text_buf s; smem := smem s; desktop_img := desktop_img s; terminal_device := terminal_device s;
     interrupt_stack := interrupt_stack s; interrupts := interrupts s; task_register := task_register s;
     cursor_memory := cursor_memory s; event_memory := event_memory s |}.
Definition set_msrs s (m : Msrs) : System :=
  {| dev := dev s; idt := idt s; mach := mach s; sworld := sworld s; sps2 := sps2 s; smsrs := m; tar_files := tar_files s;
     text_buf := text_buf s; smem := smem s; desktop_img := desktop_img s; terminal_device := terminal_device s;
     interrupt_stack := interrupt_stack s; interrupts := interrupts s; task_register := task_register s;
     cursor_memory := cursor_memory s; event_memory := event_memory s |}.
Definition set_files s (f : Z -> TarFile) (m : mem) : System :=
  {| dev := dev s; idt := idt s; mach := mach s; sworld := sworld s; sps2 := sps2 s; smsrs := smsrs s; tar_files := f;
     text_buf := text_buf s; smem := m; desktop_img := desktop_img s; terminal_device := terminal_device s;
     interrupt_stack := interrupt_stack s; interrupts := interrupts s; task_register := task_register s;
     cursor_memory := cursor_memory s; event_memory := event_memory s |}.
Definition set_text s (b : Buffer) (img : Z -> Z) (term : Z) : System :=
  {| dev := dev s; idt := idt s; mach := mach s; sworld := sworld s; sps2 := sps2 s; smsrs := smsrs s; tar_files := tar_files s;
     text_buf := b; smem := smem s; desktop_img := img; terminal_device := term;
     interrupt_stack := interrupt_stack s; interrupts := interrupts s; task_register := task_register s;
     cursor_memory := cursor_memory s; event_memory := event_memory s |}.
Definition set_cpu s (stk : Z) (i : bool) (tr : Z) : System :=
  {| dev := dev s; idt := idt s; mach := mach s; sworld := sworld s; sps2 := sps2 s; smsrs := smsrs s; tar_files := tar_files s;
     text_buf := text_buf s; smem := smem s; desktop_img := desktop_img s; terminal_device := terminal_device s;
     interrupt_stack := stk; interrupts := i; task_register := tr;
     cursor_memory := cursor_memory s; event_memory := event_memory s |}.

Definition skern s : kernel := kern (sworld s).
Definition set_kern s (k : kernel) : System := set_world s (with_kern (sworld s) k).

(** A memory operation on the whole state. *)
Definition on_mach {A} (c : K A) s : option (A * System) :=
  '(x, m) ← c (mach s); Some (x, set_mach s m).

(** ** Interrupts, memory, the first stack *)

Definition start_memory s : option System :=
  let s := set_dev s (outb 0xA1 0xFF (outb 0x21 0xFF (dev s))) (idt s) in
  '(t, _) ← init_interrupts (exception_address im);
  let s := set_cpu (set_dev s (dev s) t) (interrupt_stack s) false (task_register s) in
  '(istack, s) ← on_mach boot_memory s;
  t ← idt_set 0x0E (page_fault_address im) (idt s);
  Some (set_cpu (set_dev s (dev s) t) istack true 0x28).

(** ** The file system and the process table *)

(** The constructor of [TarFS]: the files keep what the memory held but their device. *)
Definition new_TarFS (sizeof_file : Z) : K Z := static_alloc_pages ((sizeof_file *w max_files +w 4095) / 4096).

Definition start_files s : option System :=
  '(_, s) ← on_mach (new_TarFS (sizeof_TarFile im)) s;
  '(k, m) ← init_processes (proc_pages im) (skern s) (mach s);
  Some (set_kern (set_mach s m) k).

(** ** The desktop *)

(** [load_background_tga]: the file it opens, then the rest of [Desktop]; a
    missing file is a call through a null pointer. *)
Definition open_background (fuel : nat) (img : Z -> Z) s : option (Z * (Z -> Z) * System) :=
  '(i, files, m) ← tar_open disk fuel (tar_header_buf im) (tga_name im) (tar_files s) (smem s);
  match i with
  | None => None
  | Some i =>
      '(r, img) ← load_background_tga VGA_WIDTH VGA_HEIGHT disk (tga_header_buf im) (raw_data_buf im) 0 fuel (files i) m img;
      Some (r, img, set_files s files m)
  end.

(** The addresses of the windows of the window manager at [winmgr]. *)
Definition win_index_at (winmgr : Z) : Z := winmgr +w offset_win_index im.

(** [GUIModel::GUIModel] with the desktop's image, and the two lines after it. *)
Definition start_model (fuel : nat) (winmgr : Z) s : option System :=
  let desktop_img_len := s32 (VGA_WIDTH *w VGA_HEIGHT *w 2) in
  '(img_data, s) ← on_mach (static_alloc_pages (u32 (Z.quot (desktop_img_len + 4095) 4096))) s;
  img ← checker VGA_WIDTH VGA_HEIGHT (desktop_img s);
  '(_, img, s) ← open_background fuel img s;
  let k := skern s in
  let free := env (procs k 0) +w offset_free im in
  let buf := new_Buffer 45 10 (Objects.text (text_buf s)) in
  wm ← kernel_GUIModel VGA_WIDTH VGA_HEIGHT (win_index_at winmgr) (sizeof_GUIWindow im)
         (fun p => env (procs k p)) (fun p => userEnv (procs k p)) fuel img_data free (Events.winmgr (sworld s));
  let screen := {| rl := 0; rt := 0; rr := s32 VGA_WIDTH; rb := s32 VGA_HEIGHT |} in
  sc ← gui_redraw_rect VGA_WIDTH VGA_HEIGHT ASCII_MAP (fun _ => buf) (fun _ => img) fuel (windows wm) screen (winstack wm)
         (display (sworld s));
  let s := set_text (set_world s (with_display (with_winmgr (sworld s) wm) sc (mousePointer (sworld s)))) buf img (gui_terminal im) in
  let p := procs (skern s) 0 in
  Some (set_kern s (set_process (skern s) 0 (with_files p (upd (Process.files p) 1 (gui_terminal im))))).

(** [GUITerminal::write] of [main.cpp] on the state; [None] is an undefined access. *)
Definition gui_terminal_write (winmgr : Z) (st : option System) (m : mem) (buffer len : Z) : Z * option System :=
  match (
    s ← st;
    '(r, b, wm, msgs) ← kernel_write (win_index_at winmgr) (sizeof_GUIWindow im) (Str.text m buffer len) (text_buf s)
                          (Events.winmgr (sworld s));
    w ← send_display msgs (with_winmgr (sworld s) wm);
    Some (r, set_world (set_text s b (desktop_img s) (terminal_device s)) w))
  with
  | Some (r, s) => (r, Some s)
  | None => (0, None)
  end.

Definition start_gui (fuel : nat) s : option System :=
  let w := sworld s in
  '(winmgr, _, wm, pointer, ms, m) ← init_gui (sizeof_WindowManager im) (sizeof_MousePointer im) VGA_WIDTH VGA_HEIGHT
     (s32 VGA_WIDTH) (s32 VGA_HEIGHT) (winstack (Events.winmgr w)) (desktop (Events.winmgr w)) (user_windows (Events.winmgr w))
     (cursor_memory s) (background (mousePointer w)) (mouse_state w) (pixels (display w)) (mach s);
  let w := with_mouse (with_display (with_winmgr w wm) (display w) pointer) ms in
  s ← start_model fuel winmgr (set_world (set_mach s m) w);
  '(_, m, s') ← kprint (gui_terminal_write winmgr) (Some s) (smem s) (print_buf im) [AStr (kernel_messages im); AStr (newline im)];
  s ← s'; Some (set_files s (tar_files s) m).

(** ** Events and system calls *)

Definition start_events s : option System :=
  let w := sworld s in
  let '(tsc, d) := time_stamp (dev s) in
  let s := set_dev s d (idt s) in
  let '(user, callback, display_queue) := event_memory s in
  '(w, s) ← on_mach (init_events (kevent_pages im) (offset_sub_pool im) (sizeof_SubscriberNode im) tsc
                (enter_event_loop_address im) user callback display_queue w) s;
  '(ms, s) ← on_mach (init_syscall (enter_kernel_address im)) (set_world s w);
  w ← new_callback_event (spawn_address im) (shell_name im) (sworld s);
  Some (set_world (set_msrs s ms) w).

(** ** The devices of interrupts *)

(** What the PS/2 driver uses, as the kernel implements it: the ports of the
    machine, the event queue, the screen, the interrupt table and the interrupt
    controllers. *)
#[local] Instance system_ports : Ports System := {
  Ata.inb p s := let '(v, d) := Ata.inb p (dev s) in (v, set_dev s d (idt s));
  Ata.inw p s := let '(v, d) := Ata.inw p (dev s) in (v, set_dev s d (idt s));
  Ata.outb p v s := set_dev s (Ata.outb p v (dev s)) (idt s)
}.

Definition ps2_handler (vector : Z) : Z := if vector =? KEYBOARD_IDT then keyboard_address im else mouse_address im.

#[local] Instance system_env : Ps2Env System := {
  ps2_ports := system_ports;
  Ps2.rdtsc s := let '(t, d) := time_stamp (dev s) in (t, set_dev s d (idt s));
  Ps2.new_user_event e data s :=
    match enqueue_user_event (event_id e) data (sworld s) with Some w => set_world s w | None => s end;
  Ps2.fill_rect r c s :=
    let sc := display (sworld s) in
    set_world s (with_display (sworld s)
      {| pixels := rect_fill VGA_WIDTH VGA_HEIGHT r c (pixels sc); pick_buffer := pick_buffer sc |} (mousePointer (sworld s)));
  Ps2.send_eoi s := set_dev s (Apic.send_eoi (dev s)) (idt s);
  Ps2.set_handler vector s :=
    match idt_set vector (ps2_handler vector) (idt s) with Some t => set_dev s (dev s) t | None => s end;
  Ps2.set_irq_vector irq vector s := set_dev s (Apic.set_irq_vector irq vector (dev s)) (idt s)
}.

Definition start_devices s : option System :=
  let d := init_lapic (dev s) in
  '(t, d) ← init_scheduler (timer_address im) (idt s) d;
  let d := lapic_write timer_div 0x08 d in
  let d := lapic_write timer_init 0x0FFFF d in
  let s := set_dev s (init_ioapic d) t in
  let '(_, p, s) := init_ps2 {| mouse_buffer := mouse_buffer (sps2 s); mouse_buffer_index := mouse_buffer_index (sps2 s);
                                num_mouse_packets := num_mouse_packets (sps2 s); old_tsc := old_tsc (sps2 s);
                                mouse := mouse_state (sworld s) |} s in
  let s := set_ps2 s p in
  w ← new_display_msg REDRAW_SCREEN (sworld s);
  let s := set_world s w in
  Some (set_kern s (set_runState (skern s) (thisThread (skern s)) WAITING)).

(** ** [_start], up to its final [SPINHLT] *)

Definition _start (fuel : nat) s : option System :=
  s ← start_memory s;
  s ← start_files s;
  s ← start_gui fuel s;
  s ← start_events s;
  start_devices s.
End start.
