(* ===== verification/Started.v ===== *)
(** * The kernel as [_start] leaves it

    Each stage of [Start] succeeds and what it makes; together the state in which
    the event thread takes over, and the first process after its first round. *)
From Stdlib Require Import Sorted.
From S2P Require Import Prelude Str BitOps BitAlloc Queue Shapes Vga Memory Paging Process Spaces Switch Sysenter Interrupts.
From S2P Require Import Apic Ata Ps2 Tar Objects Gui Windows Events Syscall Boot Terminal Desktop Start.

(** A loop whose body is always defined. *)
Lemma for_each_total {S} n i (body : Z -> S -> option S) s :
  (forall j s, i <= j < i + Z.of_nat n -> exists s', body j s = Some s') -> exists s', for_each n i body s = Some s'.
Proof.
  intros Hb. destruct (for_each_inv (fun _ _ => True) n i body s) as (s' & E & _); [done| |by exists s'].
  intros j s1 Hj _. destruct (Hb j s1 Hj) as (s2 & E). by exists s2.
Qed.

(** ** The static heap *)

(** The machine [m] with the static heap used up to [p]. *)
Definition heap_at (m : machine) (p : Z) : machine := with_ptrs m (virt_alloc_ptr m) p.

Lemma heap_at_self m : heap_at m (static_alloc_ptr m) = m.
Proof. by destruct m. Qed.

Lemma static_pages m p n :
  0 < n -> 0 <= p -> p + 4096 * n <= static_alloc_limit m < 4294967296 ->
  static_alloc_pages n (heap_at m p) = Some (p, heap_at m (p + 4096 * n)).
Proof.
  intros Hn Hp Hl. unfold static_alloc_pages. cbn [heap_at with_ptrs static_alloc_ptr static_alloc_limit virt_alloc_ptr].
  unfold BYTES_PER_PAGE. rewrite u32_small by (unfold is_u32; lia). rewrite atomic_add_limit_spec by (unfold is_u32; lia).
  destruct (Z.leb_spec (n * 4096) (static_alloc_limit m - p)); [|lia]. unfold heap_at, with_ptrs. cbn.
  destruct (Z.eqb_spec p (static_alloc_limit m)); [lia|]. do 3 f_equal. lia.
Qed.

Lemma heap_wf m p : memory_wf m -> memory_wf (heap_at m p).
Proof. intros []. by split. Qed.

(** ** The kernel's windows *)

Section kernel_desktop.
Context (W H win_index sizeof_GUIWindow : Z) (proc_env proc_userEnv : Z -> Z).
Context (Hwin : 0 < win_index) (Hsize : 0 < sizeof_GUIWindow).

(** The slots the kernel does not use are empty, and so is the word of the frame. *)
Record fresh_slots (users : Z -> Z -> Window) : Prop := {
  fs_none : forall i, slot i -> i <> 1 -> i <> 2 -> i <> 3 -> winclass (users 0 i) = NONE;
  fs_frame : display_data (users 0 1) = 0
}.

Abbreviation gw i := (gw 0 win_index sizeof_GUIWindow i).

(** The drawing order of the four windows. *)
Definition desktop_rank (q : Z) : nat :=
  if q =? gw 1 then 4 else if q =? gw 3 then 3 else if q =? gw 2 then 2 else if q =? gw 0 then 1 else 0.

(** The desktop of the running kernel. *)
Record kernel_desktop (img free : Z) (m : WindowManager) : Prop := {
  kd_stack : stack_at (windows m) (winstack m) [gw 1; gw 0];
  kd_children : stack_at (windows m) (children (windows m) (gw 1)) [gw 3; gw 2];
  kd_kinds : kind (windows m (gw 0)) = GUIDesktop /\ kind (windows m (gw 1)) = GUIFrame /\
    kind (windows m (gw 2)) = GUIPlain /\ kind (windows m (gw 3)) = GUITextBox;
  kd_roots : wm_root (windows m (gw 0)) = gw 0 /\ wm_root (windows m (gw 1)) = gw 1 /\
    wm_root (windows m (gw 2)) = gw 1 /\ wm_root (windows m (gw 3)) = gw 1;
  kd_rects : rect (windata (windows m (gw 0))) = {| rl := 0; rt := 0; rr := s32 W; rb := s32 H |} /\
    rect (windata (windows m (gw 1))) = {| rl := 200; rt := 150; rr := 600; rb := 450 |} /\
    rect (windata (windows m (gw 2))) = {| rl := 200; rt := 150; rr := 600; rb := 450 |} /\
    rect (windata (windows m (gw 3))) = {| rl := 220; rt := 170; rr := 580; rb := 430 |};
  kd_data : display_data (windata (windows m (gw 0))) = img /\
    display_data (windata (windows m (gw 3))) = proc_env 0 +w (free -w proc_userEnv 0);
  kd_gids : window_gid (windows m (gw 0)) = 0 /\ window_gid (windows m (gw 1)) = 1 /\
    window_gid (windows m (gw 2)) = 1 /\ window_gid (windows m (gw 3)) = 3;
  kd_desktop : desktop m = gw 0
}.

Lemma kernel_gw_pos i : slot i -> gw i <> 0.
Proof. intros. by apply gw_pos. Qed.

Lemma kernel_gw_ne i j : slot i -> slot j -> i <> j -> gw i <> gw j.
Proof. intros Hi Hj Hne E. apply gw_inj in E; done. Qed.

Lemma small_slot i : 0 <= i <= 3 -> slot i.
Proof. unfold slot, MAX_PROC_WINDOWS. lia. Qed.

(** The three slots. *)
Definition frame_slot : Window :=
  {| winclass := WINDOW_FRAME; rect := {| rl := 200; rt := 150; rr := 600; rb := 450 |};
     redraw_rect := {| rl := 0; rt := 0; rr := 400; rb := 300 |}; display_data := 0; zindex := 0; id := 1; parent_id := -1;
     needs_update := true; needs_redraw := true |}.
Definition background_slot : Window :=
  {| winclass := WINDOW; rect := {| rl := 0; rt := 0; rr := 400; rb := 300 |};
     redraw_rect := {| rl := 0; rt := 0; rr := 400; rb := 300 |}; display_data := fast_blend GREY (fast_blend YELLOW RED);
     zindex := 0; id := 1; parent_id := 1; needs_update := true; needs_redraw := true |}.
Definition text_slot (free : Z) : Window :=
  {| winclass := TEXT_BOX; rect := {| rl := 20; rt := 20; rr := 380; rb := 280 |};
     redraw_rect := {| rl := 0; rt := 0; rr := 360; rb := 260 |}; display_data := free; zindex := 2; id := 3; parent_id := 1;
     needs_update := true; needs_redraw := true |}.

Section slots.
Context (u : Z -> Window) (free : Z).
Context (E1 : u 1 = frame_slot) (E2 : u 2 = background_slot) (E3 : u 3 = text_slot free).
Context (Hnone : forall i, slot i -> i <> 1 -> i <> 2 -> i <> 3 -> winclass (u i) = NONE).

Lemma slots_used i : slot i -> used u i = (1 <=? i) && (i <=? 3).
Proof.
  intros Hi. unfold used. destruct (decide (i = 1)) as [->|]; [by rewrite E1|]. destruct (decide (i = 2)) as [->|]; [by rewrite E2|].
  destruct (decide (i = 3)) as [->|]; [by rewrite E3|]. rewrite Hnone by done.
  destruct (Z.leb_spec 1 i), (Z.leb_spec i 3); lia || done.
Qed.

Lemma slots_case i : slot i -> used u i = true -> i = 1 \/ i = 2 \/ i = 3.
Proof. intros Hi. rewrite slots_used by done. destruct (Z.leb_spec 1 i), (Z.leb_spec i 3); cbn; lia || done. Qed.

Lemma slots_tree : tree u.
Proof.
  split.
  - intros i Hi [->|[->| ->]]%slots_case; [by rewrite E1|by rewrite E2|by rewrite E3|done].
  - intros i Hi [->|[->| ->]]%slots_case; [left; by rewrite E1|right; rewrite E2; cbn; by rewrite E1|right; rewrite E3; cbn; by rewrite E1|done].
  - intros i Hi Hc. destruct (used u i) eqn:Eu; [|unfold used in Eu; by rewrite Hc in Eu].
    apply slots_case in Eu as [->|[->| ->]]; [by rewrite E1|by rewrite E2 in Hc|by rewrite E3 in Hc|done].
Qed.

Lemma slots_unused n : (4 <= n < 16)%nat -> used u (Z.of_nat n) = false.
Proof.
  intros Hn. rewrite slots_used by (unfold slot, MAX_PROC_WINDOWS; lia). destruct (Z.leb_spec (Z.of_nat n) 3); [lia|].
  by rewrite andb_false_r.
Qed.

Lemma first_slots : used u 0 = false /\ used u 1 = true /\ used u 2 = true /\ used u 3 = true.
Proof. by rewrite !slots_used by (unfold slot, MAX_PROC_WINDOWS; lia). Qed.

Lemma slots_roots : roots 0 u = [1].
Proof.
  unfold roots. assert (forall n, (4 <= n <= 16)%nat -> roots_below 0 u n = [1]) as Hn; [|apply Hn; lia].
  induction n as [|n IH]; intros Hn; [lia|]. destruct (decide (n = 3%nat)) as [->|].
  - destruct first_slots as (U0 & U1 & U2 & U3). cbn [roots_below].
    change (Z.of_nat 0) with 0. change (Z.of_nat 1) with 1. change (Z.of_nat 2) with 2. change (Z.of_nat 3) with 3.
    rewrite U0, U1, U2, U3. unfold is_root. rewrite E1, E2, E3. reflexivity.
  - cbn [roots_below]. rewrite slots_unused by lia. apply IH. lia.
Qed.

Lemma slots_kids : kids u 1 = [3; 2].
Proof.
  unfold kids. assert (forall n, (4 <= n <= 16)%nat -> kids_below u n 1 = [3; 2]) as Hn; [|apply Hn; lia].
  induction n as [|n IH]; intros Hn; [lia|]. destruct (decide (n = 3%nat)) as [->|].
  - destruct first_slots as (U0 & U1 & U2 & U3). cbn [kids_below].
    change (Z.of_nat 0) with 0. change (Z.of_nat 1) with 1. change (Z.of_nat 2) with 2. change (Z.of_nat 3) with 3.
    rewrite U0, U1, U2, U3, E1, E2, E3. cbn. by rewrite E2, E3.
  - cbn [kids_below]. rewrite slots_unused by lia. apply IH. lia.
Qed.

Lemma slots_roots_are : is_root u 1 = true /\ is_root u 2 = false /\ is_root u 3 = false.
Proof. unfold is_root. by rewrite E1, E2, E3. Qed.

Lemma slots_root : root u 1 = 1 /\ root u 2 = 1 /\ root u 3 = 1.
Proof.
  destruct first_slots as (_ & _ & U2 & U3), slots_roots_are as (R1 & R2 & R3). pose proof (root_self u 1 R1) as H1.
  split; [exact H1|]. split.
  - rewrite (root_child u slots_tree 2 ltac:(apply small_slot; lia) U2 R2), E2. exact H1.
  - rewrite (root_child u slots_tree 3 ltac:(apply small_slot; lia) U3 R3), E3. exact H1.
Qed.

Lemma slots_placed : placed u 1 = {| rl := 200; rt := 150; rr := 600; rb := 450 |} /\
  placed u 2 = {| rl := 200; rt := 150; rr := 600; rb := 450 |} /\ placed u 3 = {| rl := 220; rt := 170; rr := 580; rb := 430 |}.
Proof.
  destruct first_slots as (_ & _ & U2 & U3), slots_roots_are as (R1 & R2 & R3).
  pose proof (placed_root u 1 R1) as H1. rewrite E1 in H1. split; [exact H1|]. split.
  - rewrite (placed_child u slots_tree 2 ltac:(apply small_slot; lia) U2 R2), E2. cbn [parent_id background_slot]. by rewrite H1.
  - rewrite (placed_child u slots_tree 3 ltac:(apply small_slot; lia) U3 R3), E3. cbn [parent_id text_slot]. by rewrite H1.
Qed.
End slots.

(** The window manager when [gui_update_proc] is called. *)
Lemma before_update img free desktop0 users (m := kernel_windows free (new_desktop W H win_index sizeof_GUIWindow img
    (new_WindowManager 0 desktop0 users))) :
  fresh_slots users ->
  let '(top, h) := stack_push (winstack m) (desktop m) (windows m) in
  let m1 := set_windows m h top in
  top = gw 0 /\ desktop m1 = gw 0 /\ user_windows m1 0 1 = frame_slot /\ user_windows m1 0 2 = background_slot /\ user_windows m1 0 3 = text_slot free /\
  (forall i, i <> 1 -> i <> 2 -> i <> 3 -> user_windows m1 0 i = users 0 i) /\
  stack_at h top [gw 0] /\ (forall q, q <> gw 0 -> h q = new_GUIWindow GUIPlain empty_Window) /\
  h (gw 0) = set_root (new_GUIWindow GUIDesktop (new_Window WINDOW {| rl := 0; rt := 0; rr := s32 W; rb := s32 H |} img)) (gw 0).
Proof.
  intros [_ Hd]. change (desktop m) with (gw 0). change (winstack m) with 0. unfold stack_push.
  destruct (Z.eqb_spec (gw 0) 0) as [E|_]; [by destruct (kernel_gw_pos 0 (small_slot 0 ltac:(lia)))|]. cbn [Z.eqb].
  set (h := hmod _ _ _). cbv zeta.
  assert (h (gw 0) = set_root (new_GUIWindow GUIDesktop (new_Window WINDOW {| rl := 0; rt := 0; rr := s32 W; rb := s32 H |} img)) (gw 0)) as E0.
  { unfold h. rewrite hmod_eq. subst m. cbn. unfold hset. change (getGUIWindow win_index sizeof_GUIWindow 0) with (gw 0).
    by rewrite Z.eqb_refl. }
  split_and!; try done.
  - subst m. cbn. unfold slot_with. cbn. by rewrite Hd.
  - intros i H1 H2 H3. subst m. cbn. destruct (Z.eqb_spec i 3), (Z.eqb_spec i 2), (Z.eqb_spec i 1); done.
  - split; [|apply NoDup_singleton]. apply seg_one; [apply kernel_gw_pos, small_slot; lia|by rewrite E0..].
  - intros q Hq. unfold h. rewrite hmod_ne by done. subst m. cbn. unfold hset.
    match goal with |- context [q =? ?x] => change x with (gw 0) end. by destruct (Z.eqb_spec q (gw 0)).
Qed.

Lemma kernel_GUIModel_ok fuel img free desktop0 users :
  fresh_slots users -> (16 < fuel)%nat ->
  exists m, kernel_GUIModel W H win_index sizeof_GUIWindow proc_env proc_userEnv fuel img free
      (new_WindowManager 0 desktop0 users) = Some m /\ kernel_desktop img free m.
Proof.
  intros Hf Hfuel. unfold kernel_GUIModel. pose proof (before_update img free desktop0 users Hf) as Hb. cbv zeta in Hb |- *.
  destruct (stack_push _ _ _) as [top h]. set (m := set_windows _ h top) in *.
  destruct Hb as (-> & Ed & E1 & E2 & E3 & Eo & Hst & Hh & H0).
  assert (forall i, slot i -> i <> 1 -> i <> 2 -> i <> 3 -> winclass (user_windows m 0 i) = NONE) as Hnone.
  { intros i Hi N1 N2 N3. rewrite Eo by done. by apply (fs_none _ Hf). }
  pose proof (slots_tree _ _ E1 E2 E3 Hnone) as Htree. pose proof (first_slots _ _ E1 E2 E3 Hnone) as (U0 & U1 & U2 & U3).
  pose proof (small_slot 0 ltac:(lia)) as S0. pose proof (small_slot 1 ltac:(lia)) as S1.
  pose proof (small_slot 2 ltac:(lia)) as S2. pose proof (small_slot 3 ltac:(lia)) as S3.
  destruct (gui_update_proc_ok 0 (user_windows m 0) win_index sizeof_GUIWindow proc_env proc_userEnv fuel m [gw 0])
    as (m' & E & Hd); [done|done|lia|done|exact Htree|done|exact Hst| |].
  { assert (forall i, slot i -> i <> 0 -> windows m (gw i) = new_GUIWindow GUIPlain empty_Window) as Hfresh.
    { intros i Hi Hne. apply Hh, kernel_gw_ne; done. }
    split.
    - intros i Hi Hu. apply (slots_case _ _ E1 E2 E3 Hnone) in Hu; [|done]. rewrite Hfresh by (done || lia). split; [done|].
      rewrite list_elem_of_singleton. apply kernel_gw_ne; done || lia.
    - intros i Hi Hu. destruct (decide (i = 0)) as [->|]; [right|left; by rewrite Hfresh].
      change (windows m (gw 0)) with (h (gw 0)). rewrite H0. done. }
  exists m'. split; [exact E|].
  pose proof (di_win _ _ _ _ _ _ _ _ _ Hd 1 S1 U1) as (D1 & G1 & K1 & R1 & _). pose proof (di_win _ _ _ _ _ _ _ _ _ Hd 2 S2 U2) as (D2 & G2 & K2 & R2 & _).
  pose proof (di_win _ _ _ _ _ _ _ _ _ Hd 3 S3 U3) as (D3 & G3 & K3 & R3 & _). cbv zeta in D1, D2, D3.
  pose proof (slots_root _ _ E1 E2 E3 Hnone) as (T1 & T2 & T3). pose proof (slots_placed _ _ E1 E2 E3 Hnone) as (P1 & P2 & P3).
  destruct (di_other _ _ _ _ _ _ _ _ _ Hd (gw 0)) as (D0 & G0 & _ & K0 & _).
  { intros i Hi Hu. apply kernel_gw_ne; [done|done|]. intros <-. congruence. }
  change (windows m (gw 0)) with (h (gw 0)) in D0, G0, K0. rewrite H0 in D0, G0, K0.
  split.
  - pose proof (di_stack _ _ _ _ _ _ _ _ _ Hd) as Hs. rewrite (slots_roots _ _ E1 E2 E3 Hnone) in Hs. exact Hs.
  - pose proof (di_kids _ _ _ _ _ _ _ _ _ Hd 1 S1) as Hk. rewrite (slots_kids _ _ E1 E2 E3 Hnone), E1 in Hk. by apply Hk.
  - rewrite K0, K1, K2, K3. unfold kind_of. by rewrite E1, E2, E3.
  - rewrite R1, R2, R3, T1, T2, T3. split; [|done]. rewrite (di_idle _ _ _ _ _ _ _ _ _ Hd 0 S0 U0).
    change (windows m (gw 0)) with (h (gw 0)). rewrite H0. done.
  - rewrite D0, D1, D2, D3. cbn [rect shown]. by rewrite P1, P2, P3.
  - rewrite D0, D3. split; [done|]. cbn [display_data shown]. unfold data. rewrite E3. done.
  - unfold window_gid. rewrite D0, D1, D2, D3, G0, G1, G2, G3. cbn [id shown]. rewrite E1, E2, E3. split_and!; reflexivity.
  - destruct (di_rest _ _ _ _ _ _ _ _ _ Hd) as [-> _]. exact Ed.
Qed.

(** The four windows can be drawn. *)
Lemma desktop_order img free m : kernel_desktop img free m -> draw_order (windows m) desktop_rank.
Proof.
  intros Hd. destruct (kd_stack _ _ _ Hd) as [Hs _], (kd_children _ _ _ Hd) as [Hc _].
  destruct (kd_kinds _ _ _ Hd) as (K0 & K1 & K2 & K3), (kd_roots _ _ _ Hd) as (R0 & R1 & R2 & R3).
  destruct Hs as (_ & P1 & _ & N1 & P0 & _ & N0). destruct Hc as (C1 & P3 & _ & N3 & P2 & _ & N2).
  cbn [seg] in N0, N2.
  assert (forall i j, 0 <= i <= 3 -> 0 <= j <= 3 -> (gw i =? gw j) = (i =? j)) as Hij.
  { intros i j Hi Hj. destruct (Z.eqb_spec i j) as [->|]; [apply Z.eqb_refl|]. apply Z.eqb_neq, kernel_gw_ne; [by apply small_slot..|done]. }
  assert (desktop_rank (gw 0) = 1%nat /\ desktop_rank (gw 1) = 4%nat /\ desktop_rank (gw 2) = 2%nat /\ desktop_rank (gw 3) = 3%nat) as (Q0 & Q1 & Q2 & Q3)
    by (unfold desktop_rank; rewrite !Hij by lia; done).
  assert (forall p, (0 < desktop_rank p)%nat -> p = gw 0 \/ p = gw 1 \/ p = gw 2 \/ p = gw 3) as Hp.
  { intros p. unfold desktop_rank. destruct (Z.eqb_spec p (gw 1)), (Z.eqb_spec p (gw 3)), (Z.eqb_spec p (gw 2)), (Z.eqb_spec p (gw 0)); auto. lia. }
  split.
  - intros p. unfold desktop_rank, depth. repeat case_match; lia.
  - intros p [->|[->|[->| ->]]]%Hp; unfold link; [left; exact N0|right; rewrite N1, Q0, Q1; split; [done|lia]|left; exact N2|right; rewrite N3, Q2, Q3; split; [done|lia]].
  - intros p [->|[->|[->| ->]]]%Hp Hk; rewrite ?K0, ?K2, ?K3 in Hk; try done. right. rewrite C1, Q1, Q3. split; [done|lia].
  - intros p [->|[->|[->| ->]]]%Hp _; unfold link; rewrite ?R0, ?R1, ?R2, ?R3; [left; exact N0|right; rewrite N1, Q0, ?Q1, ?Q2, ?Q3; split; [done|lia]..].
  - intros p [->|[->|[->| ->]]]%Hp Hk; rewrite ?K0, ?K1, ?K2 in Hk; try done. by rewrite R3.
Qed.
End kernel_desktop.

(** ** The stages *)

Section started.
Context {D : Type} `{!Machine D} `{!Ports D} (time_stamp : D -> Z * D).
Context (W H : Z) (ASCII_MAP : Z -> Z) (disk : Z -> Z -> Z) (im : Image).

(** What the compiler and the linker promise. *)
Definition tar_pages : Z := (sizeof_TarFile im *w max_files +w 4095) / 4096.
Definition winmgr_pages : Z := u32 (sizeof_WindowManager im + 4095) / 4096.
Definition pick_pages : Z := (W *w H +w 4095) / 4096.
Definition pointer_pages : Z := u32 (sizeof_MousePointer im + 4095) / 4096.
Definition image_pages : Z := u32 (Z.quot (s32 (W *w H *w 2) + 4095) 4096).

Record linked : Prop := {
  ln_exceptions : forall e, is_u32 (exception_address im e);
  ln_page_fault : is_u32 (page_fault_address im);
  ln_timer : is_u32 (timer_address im);
  ln_keyboard : is_u32 (keyboard_address im);
  ln_mouse : is_u32 (mouse_address im);
  ln_spawn : spawn_address im <> 0;
  ln_window : 0 < sizeof_GUIWindow im;
  ln_index : 0 <= offset_win_index im < 4096 * winmgr_pages;
  ln_pages : 0 < tar_pages /\ 0 < proc_pages im /\ 0 < winmgr_pages /\ 0 < pick_pages /\ 0 < pointer_pages /\
    0 < image_pages /\ 0 < kevent_pages im;
  (** The static heap holds everything, and one page for the first process. *)
  ln_room : tar_pages + proc_pages im + 1 + winmgr_pages + pick_pages + pointer_pages + image_pages + kevent_pages im + 8 < 732
}.
Context (Hlink : linked).
Implicit Types (s : @System D).

#[local] Opaque boot_memory init_interrupts idt_set static_alloc_pages get_physical.

Lemma on_mach_ok {A} (c : K A) s x m : c (mach s) = Some (x, m) -> on_mach c s = Some (x, set_mach s m).
Proof. intros E. unfold on_mach. by rewrite E. Qed.

Lemma start_memory_ok s : (forall a, is_u32 (phys (mach s) a)) ->
  exists d t istack m, start_memory im s = Some (set_cpu (set_dev (set_mach s m) d t) istack true 0x28) /\
    booted istack m /\
    idt_ok t (fun i => if i =? 0x0E then page_fault_address im else exception_address im (exception_at i)).
Proof.
  intros Hu. destruct (boot_memory_ok (mach s) Hu) as (istack & m & E & Hb).
  destruct (init_interrupts_ok _ (ln_exceptions Hlink)) as (t & idtr & Ei & _ & Ht).
  destruct (idt_set_ok t _ 0x0E (page_fault_address im) Ht) as (t' & Et & Ht'); [lia|apply (ln_page_fault Hlink)|].
  exists (outb 0xA1 0xFF (outb 0x21 0xFF (dev s))), t', istack, m. split; [|by split].
  unfold start_memory. clear Hb. revert E. generalize boot_memory as c. intros c E.
  rewrite Ei. cbn [mbind option_bind]. unfold on_mach. cbn [set_dev set_cpu mach]. rewrite E.
  cbn [mbind option_bind set_mach set_cpu set_dev idt]. by rewrite Et.
Qed.

(** The processes after [init_processes]: the kernel alone. *)
Definition first_kernel (k : kernel) (d e : Z) : kernel :=
  let procs0 := fun p => if (0 <=? p) && (p <? MAX_PROCS) then init_process (procs k p) else procs k p in
  let threads0 := fun t => if (0 <=? t) && (t <? MAX_PROCS * MAX_PROC_THREADS)
                           then with_runState (threads k t) NULL else threads k t in
  let p := procs0 0 in
  {| procs := upd procs0 0 {| p_cr3 := d; thread_index := 0; num_running_threads := 1; files := files p; locks := locks p;
       monitors := monitors p; env := e; userEnv := e; msgQueue := msgQueue p |};
     threads := upd threads0 0 (with_runState (threads0 0) RUNNING);
     num_procs := 1; proc_id := 0; thisThread := 0; esp0 := esp0 k; cr3_reg := cr3_reg k |}.

Lemma page_dir_physical m : memory_wf m -> get_physical (page_dir m) m = Some (cr3 m, m).
Proof.
  intros Hwf. destruct (wf_self _ Hwf) as [Hp Ht]. destruct (wf_cr3 _ Hwf) as [Hc Hm].
  assert (entry m 0x401000 = Some (pde m 1)) as He.
  { unfold entry, pte_at. change (0x401000 / 4194304) with 1. rewrite Hp, Ht. f_equal. }
  rewrite (wf_dir _ Hwf), (get_physical_ok m 0x401000 (pde m 1) Hwf ltac:(unfold is_u32; lia) He).
  by rewrite <- Ht.
Qed.

Lemma start_files_ok s m p :
  mach s = heap_at m p -> memory_wf m -> 0 <= p -> static_alloc_limit m < 4294967296 ->
  p + 4096 * (tar_pages + proc_pages im + 1) <= static_alloc_limit m ->
  start_files im s = Some (set_kern (set_mach s (heap_at m (p + 4096 * (tar_pages + proc_pages im + 1))))
    (first_kernel (skern s) (cr3 m) (p + 4096 * (tar_pages + proc_pages im)))).
Proof.
  intros Em Hwf Hp Hl Hroom. destruct (ln_pages Hlink) as (Ht & Hpp & _).
  unfold start_files, on_mach, new_TarFS. fold tar_pages. rewrite Em, (static_pages m p tar_pages) by lia.
  cbn [mbind option_bind set_mach mach]. unfold init_processes. rewrite (static_pages m _ (proc_pages im)) by lia.
  cbn [mbind option_bind]. rewrite page_dir_physical by (by apply heap_wf). cbn [mbind option_bind].
  rewrite (static_pages m _ 1) by lia. cbn [mbind option_bind]. change (cr3 (heap_at m _)) with (cr3 m).
  replace (p + 4096 * tar_pages + 4096 * proc_pages im) with (p + 4096 * (tar_pages + proc_pages im)) by lia.
  replace (p + 4096 * (tar_pages + proc_pages im) + 4096 * 1) with (p + 4096 * (tar_pages + proc_pages im + 1)) by lia.
  reflexivity.
Qed.

(** ** The wallpaper *)

(** The file the disk has for [desktop.tga]: its header's sector, the slot it is
    opened in, the index of the archive. *)
Definition file_at (sec : Z) : TarFile :=
  {| header_sector := sec; current_sector := sec + 1; cursor := 0; size := get_size (disk sec) |}.

Record wallpaper (fuel : nat) (files : Z -> TarFile) (m : mem) (i sec : Z) (headers : list Z) : Prop := {
  wp_slot : alloc_file files = Some i;
  wp_archive : archive disk root_sector headers;
  wp_fuel : (length headers < fuel)%nat /\ (size (file_at sec) - 18) / 1536 < Z.of_nat fuel;
  wp_found : find (name_matches disk (tar_header_buf im) (tga_name im) m) headers = Some sec;
  wp_sector : 0 < sec < 2147483647;
  wp_type : s8 (file_byte disk (file_at sec) 2) = 2;
  wp_width : 0 < file_width disk (file_at sec) <= W;
  wp_height : 0 < file_height disk (file_at sec) <= H;
  wp_size : 18 <= size (file_at sec) < 2147480000;
  wp_pixels : pixels_read (file_at sec) <= file_width disk (file_at sec) * file_height disk (file_at sec)
}.

Lemma tar_open_ok fuel files m i sec headers : wallpaper fuel files m i sec headers ->
  tar_open disk fuel (tar_header_buf im) (tga_name im) files m =
    Some (Some i, fun j => if j =? i then file_at sec else files j, copy_in (tar_header_buf im) (disk sec) 512 m).
Proof.
  intros [Hi Ha [Hf _] Hs Hr _ _ _ Hsz _]. cbn [size file_at] in Hsz. apply (tar_open_found disk fuel _ _ files m headers); done || lia.
Qed.

Context (Hscreen : 0 < W /\ 0 < H /\ (H + 1) * W < 2147483648).

Lemma checker_ok img : exists img', checker W H img = Some img'.
Proof.
  unfold checker. apply for_each_total. intros y im1 Hy. apply for_each_total. intros x im2 Hx.
  match goal with |- context [image_set W H x y ?c im2] => destruct (image_set_ok W H ltac:(nia) x y c im2) as (im3 & -> & _) end;
    [lia|lia|by exists im3].
Qed.

Lemma open_background_ok fuel img s i sec headers : wallpaper fuel (tar_files s) (smem s) i sec headers ->
  exists img', open_background W H disk im fuel img s =
    Some (0, img', set_files s (fun j => if j =? i then file_at sec else tar_files s j) (copy_in (tar_header_buf im) (disk sec) 512 (smem s))).
Proof.
  intros Hw. unfold open_background. rewrite (bind_ok _ _ _ (tar_open_ok _ _ _ _ _ _ Hw)). cbv beta iota.
  rewrite Z.eqb_refl. destruct Hw as [_ _ [_ Hf] _ Hr Ht Hww Hhh Hsz Hpx].
  destruct (load_background_tga_ok W H disk (tga_header_buf im) (raw_data_buf im) 0 fuel (file_at sec)
    (copy_in (tar_header_buf im) (disk sec) 512 (smem s)) img) as (img' & E & _); try assumption; try lia.
  { unfold in_sync, file_at. cbn [current_sector header_sector cursor]. by rewrite Z.add_0_r. }
  { done. } { cbn [file_at header_sector]. lia. }
  exists img'. by rewrite (bind_ok _ _ _ E).
Qed.

(** ** The desktop *)

Abbreviation desktop_of k winmgr := (kernel_desktop W H (win_index_at im winmgr) (sizeof_GUIWindow im)
  (fun p => env (procs k p)) (fun p => userEnv (procs k p))).
Definition free_of (k : kernel) : Z := env (procs k 0) +w offset_free im.

(** The state with the desktop's image, windows and screen. *)
Definition with_desktop s (m : machine) (files : Z -> TarFile) (sm : mem) (wm : WindowManager) (sc : Screen) (img : Z -> Z) : System :=
  let s1 := set_files (set_mach s m) files sm in
  let s2 := set_text (set_world s1 (with_display (with_winmgr (sworld s) wm) sc (mousePointer (sworld s))))
              (new_Buffer 45 10 (Objects.text (text_buf s))) img (gui_terminal im) in
  set_kern s2 (set_process (skern s) 0 (with_files (procs (skern s) 0) (upd (Process.files (procs (skern s) 0)) 1 (gui_terminal im)))).

Lemma start_model_ok fuel winmgr s m p desktop0 users i sec headers :
  mach s = heap_at m p -> 0 <= p -> p + 4096 * image_pages <= static_alloc_limit m < 4294967296 ->
  Events.winmgr (sworld s) = new_WindowManager 0 desktop0 users -> fresh_slots users -> 0 < win_index_at im winmgr ->
  (257 <= fuel)%nat -> wallpaper fuel (tar_files s) (smem s) i sec headers -> length (Objects.text (text_buf s)) = 450%nat ->
  exists img wm sc, start_model W H ASCII_MAP disk im fuel winmgr s =
      Some (with_desktop s (heap_at m (p + 4096 * image_pages)) (fun j => if j =? i then file_at sec else tar_files s j)
              (copy_in (tar_header_buf im) (disk sec) 512 (smem s)) wm sc img) /\
    desktop_of (skern s) winmgr p (free_of (skern s)) wm.
Proof.
  intros Em Hp Hl Ewm Hfresh Hwin Hfuel Hw Hlen. destruct (ln_pages Hlink) as (_ & _ & _ & _ & _ & Hip & _).
  assert (on_mach (static_alloc_pages (u32 (Z.quot (s32 (W *w H *w 2) + 4095) 4096))) s =
    Some (p, set_mach s (heap_at m (p + 4096 * image_pages)))) as E1.
  { apply on_mach_ok. rewrite Em. by apply static_pages. }
  destruct (checker_ok (desktop_img s)) as (img0 & E2).
  destruct (open_background_ok fuel img0 (set_mach s (heap_at m (p + 4096 * image_pages))) i sec headers Hw) as (img & E3).
  destruct (kernel_GUIModel_ok W H (win_index_at im winmgr) (sizeof_GUIWindow im) (fun p => env (procs (skern s) p))
    (fun p => userEnv (procs (skern s) p)) Hwin (ln_window Hlink) fuel p (free_of (skern s)) desktop0 users Hfresh ltac:(lia))
    as (wm & E4 & Hd).
  set (buf := new_Buffer 45 10 (Objects.text (text_buf s))).
  assert (buffer_ok buf) as Hbuf by (unfold buffer_ok, buf; cbn; rewrite Hlen; lia).
  assert (0 < H /\ W < 2147483648 /\ H < 2147483648) as (? & ? & ?) by nia.
  destruct (redraw_picks W H ltac:(lia) ltac:(lia) ltac:(lia) ASCII_MAP (fun _ => buf) (fun _ => img) (windows wm)
    (desktop_rank (win_index_at im winmgr) (sizeof_GUIWindow im)) ltac:(by eapply desktop_order; [exact (ln_window Hlink)|exact Hd]) (fun _ _ _ _ => Hbuf)
    fuel {| rl := 0; rt := 0; rr := s32 W; rb := s32 H |} (winstack wm) (display (sworld s))) as (sc & E5 & _).
  { unfold on_screen. cbn. rewrite !s32_small by (unfold is_s32; lia). lia. }
  { destruct (kd_stack _ _ _ _ _ _ _ _ _ Hd) as [(-> & Hne & _) _]. right. split; [exact Hne|]. unfold desktop_rank. rewrite Z.eqb_refl. lia. }
  { unfold rank0. case_match; [lia|]. unfold desktop_rank. repeat case_match; lia. }
  exists img, wm, sc. split; [|exact Hd]. unfold start_model. cbv zeta.
  rewrite (bind_ok _ _ _ E1). cbv beta iota. rewrite (bind_ok _ _ _ E2). cbv beta iota.
  rewrite (bind_ok _ _ _ E3). cbv beta iota. 
  cbn [set_files set_mach sworld tar_files text_buf smem skern]. rewrite Ewm.
  rewrite (bind_ok _ _ _ E4). cbv beta iota. rewrite (bind_ok _ _ _ E5). reflexivity.
Qed.

(** ** The first line of messages *)

(** Redraw messages change no more than the windows' flags. *)
Lemma gui_redraw_proc_ok win sz p m : 0 < win -> 0 < sz -> 0 <= p < 16 ->
  exists m' msgs, gui_redraw_proc win sz p m = Some (m', msgs) /\ windows m' = windows m /\ winstack m' = winstack m /\
    desktop m' = desktop m /\ drag_window m' = drag_window m.
Proof.
  intros Hwin Hsz Hp. unfold gui_redraw_proc.
  destruct (for_each_inv (fun _ st => windows (fst st) = windows m /\ winstack (fst st) = winstack m /\
    desktop (fst st) = desktop m /\ drag_window (fst st) = drag_window m) (Z.to_nat MAX_PROC_WINDOWS) 0 (redraw_window win sz p)
    (m, ([] : list DisplayMsg))) as ([m' msgs] & E & Hi); [done| |by exists m', msgs].
  intros i [m1 msgs1] Hi Hm. change (0 + Z.of_nat (Z.to_nat MAX_PROC_WINDOWS)) with 16 in Hi. unfold redraw_window.
  case_bool_decide; [by exists (m1, msgs1)|]. destruct (negb _); [by exists (m1, msgs1)|].
  fold (Windows.gw p win sz i). destruct (Z.eqb_spec (Windows.gw p win sz i) 0) as [E|_].
  { exfalso. apply (gw_pos p win sz Hwin Hsz Hp i); [unfold slot, MAX_PROC_WINDOWS; lia|done]. }
  eexists. split; [reflexivity|exact Hm].
Qed.

(** The world but for the kernel's signal and the display queue. *)
Definition signalled (w w' : World) : Prop := exists v q,
  w' = with_queues (with_kern w (write_signal (kern w) 0 MSG_MONITOR v)) (w_user w) (w_callback w) q.

(** A queue that can take messages, whatever else it holds. *)
Definition takes (q : SharedQueue (option DisplayMsg)) : Prop := exists N, sq_wf N q /\ is_range (q_locked q).

Lemma new_display_msg_ok msg w : takes (w_display w) ->
  exists v q, new_display_msg msg w =
    Some (with_kern (with_queues w (w_user w) (w_callback w) q) (write_signal (kern w) 0 MSG_MONITOR v)) /\ takes q.
Proof.
  intros (N & Hwf & Hr). unfold new_display_msg.
  destruct (sq_enqueue_total N (w_display w) (Some msg) Hwf Hr) as (r & q & -> & Hq & Hrq). do 2 eexists. split; [reflexivity|by exists N].
Qed.

(** What sending leaves of the world. *)
Record sent (w w' : World) : Prop := {
  se_winmgr : Events.winmgr w' = Events.winmgr w;
  se_display : display w' = display w;
  se_pointer : mousePointer w' = mousePointer w;
  se_mouse : mouse_state w' = mouse_state w;
  se_threads : threads (kern w') = threads (kern w);
  se_ids : num_procs (kern w') = num_procs (kern w) /\ proc_id (kern w') = proc_id (kern w) /\
    thisThread (kern w') = thisThread (kern w) /\ cr3_reg (kern w') = cr3_reg (kern w);
  se_procs : forall q, q <> 0 -> procs (kern w') q = procs (kern w) q;
  se_kernel : p_cr3 (procs (kern w') 0) = p_cr3 (procs (kern w) 0) /\ files (procs (kern w') 0) = files (procs (kern w) 0) /\
    num_running_threads (procs (kern w') 0) = num_running_threads (procs (kern w) 0)
}.

Lemma send_display_ok msgs w : takes (w_display w) -> exists w', send_display msgs w = Some w' /\ sent w w'.
Proof.
  revert w. induction msgs as [|msg msgs IH]; intros w Hq; cbn [send_display]; [by exists w|].
  destruct (new_display_msg_ok msg w Hq) as (v & q & -> & Hq'). cbn [mbind option_bind].
  set (w1 := with_kern _ _). destruct (IH w1 Hq') as (w' & -> & [S1 S2 S3 S4 S5 S6 S7 S8]). exists w'. split; [done|].
  split; [exact S1|exact S2|exact S3|exact S4|exact S5|exact S6| |exact S8].
  intros p Hp. rewrite S7 by done. cbn. unfold upd. by destruct (Z.eqb_spec p 0).
Qed.

(** The strings of the message, clear of the buffers that are written before. *)
Record messages (m : mem) (ss : list (Z * list Z)) : Prop := {
  ms_args : map fst ss = [kernel_messages im; newline im];
  ms_strings : Forall (fun q => str_at m q.1 q.2 /\ clear_of (print_buf im) MAX_PRINT_CHARS q /\ clear_of (tar_header_buf im) 512 q) ss;
  ms_length : (0 < length (concat (map snd ss)) < 64)%nat
}.

(** The log of the kernel's text box after the message. *)
Definition first_log (text : list Z) (ss : list (Z * list Z)) : list Z :=
  log_step (new_Buffer 45 10 text) (Print (concat (map snd ss))) [].

Lemma message_ok winmgr s ss : 0 < win_index_at im winmgr -> box_holds (text_buf s) [] 0 -> takes (w_display (sworld s)) ->
  Forall (fun q => str_at (smem s) q.1 q.2 /\ clear_of (print_buf im) MAX_PRINT_CHARS q) ss ->
  map fst ss = [kernel_messages im; newline im] -> (0 < length (concat (map snd ss)) < 64)%nat ->
  exists r sm b wm w lo, kprint (gui_terminal_write im winmgr) (Some s) (smem s) (print_buf im)
      [AStr (kernel_messages im); AStr (newline im)] =
    Some (r, sm, Some (set_world (set_text s b (desktop_img s) (terminal_device s)) w)) /\
    box_holds b (log_step (text_buf s) (Print (concat (map snd ss))) []) lo /\
    windows wm = windows (Events.winmgr (sworld s)) /\ winstack wm = winstack (Events.winmgr (sworld s)) /\
    desktop wm = desktop (Events.winmgr (sworld s)) /\ sent (with_winmgr (sworld s) wm) w.
Proof.
  intros Hwin Hb Hq Hss Hargs Hlen. unfold kprint. set (text := concat (map snd ss)) in *.
  assert ([AStr (kernel_messages im); AStr (newline im)] = map (fun q => AStr q.1) ss) as ->.
  { transitivity (map AStr (map fst ss)); [by rewrite Hargs|]. by rewrite map_map. }
  destruct (sprint_strs ss {| o_mem := smem s; o_dst := print_buf im; o_len := MAX_PRINT_CHARS |}) as (m1 & E & Hm1);
    [exact Hss|unfold MAX_PRINT_CHARS; cbn; lia|]. cbn [o_mem o_dst o_len] in *. fold text in E, Hm1.
  rewrite Z.min_r in E, Hm1 by (unfold MAX_PRINT_CHARS; lia). rewrite (bind_ok _ _ _ E). cbv beta iota. cbn [o_mem].
  destruct (Z.leb_spec 0 (Z.of_nat (length text))), (Z.ltb_spec (Z.of_nat (length text)) MAX_PRINT_CHARS),
    (Z.ltb_spec 0 (Z.of_nat (length text))); try (unfold MAX_PRINT_CHARS in *; lia). cbn [andb negb].
  set (sm := mupd m1 _ 0). assert (Str.text sm (print_buf im) (Z.of_nat (length text)) = text) as Et by (by apply (text_printed (smem s))).
  unfold gui_terminal_write at 1. rewrite (bind_ok (Some s) _ s eq_refl). rewrite Et.
  destruct (print_holds text (user_windows (Events.winmgr (sworld s)) 0 3) (text_buf s) [] 0 Hb) as (w1 & b & Ep & Hb' & _).
  set (wm0 := set_user (Events.winmgr (sworld s)) 0 3 w1).
  destruct (gui_redraw_proc_ok (win_index_at im winmgr) (sizeof_GUIWindow im) 0 wm0 Hwin (ln_window Hlink) ltac:(lia))
    as (wm & msgs & Er & W1 & W2 & W3 & W4).
  destruct (send_display_ok msgs (with_winmgr (sworld s) wm) Hq) as (w & Es & Hsent).
  exists 1, sm, b, wm, w. eexists. split.
  - assert (kernel_write (win_index_at im winmgr) (sizeof_GUIWindow im) text (text_buf s) (Events.winmgr (sworld s)) = Some (1, b, wm, msgs)) as Ek.
    { unfold kernel_write. rewrite (bind_ok _ _ _ Ep). cbv beta iota. fold wm0. by rewrite (bind_ok _ _ _ Er). }
    rewrite (bind_ok _ _ _ Ek). cbv beta iota. by rewrite (bind_ok _ _ _ Es).
  - split; [exact Hb'|]. split; [exact W1|]. split; [exact W2|]. split; [exact W3|exact Hsent].
Qed.

(** ** The graphical start *)

Definition gui_pages : Z := winmgr_pages + pick_pages + pointer_pages + image_pages.

(** What [start_gui] needs of the memory it starts from. *)
Record gui_memory (fuel : nat) s (i sec : Z) (headers : list Z) (ss : list (Z * list Z)) : Prop := {
  gm_stack : winstack (Events.winmgr (sworld s)) = 0;
  gm_slots : fresh_slots (user_windows (Events.winmgr (sworld s)));
  gm_cursor : shaped (cursor_memory s);
  gm_text : length (Objects.text (text_buf s)) = 450%nat;
  gm_queue : takes (w_display (sworld s));
  gm_wallpaper : wallpaper fuel (tar_files s) (smem s) i sec headers;
  gm_messages : messages (smem s) ss
}.

(** What it makes: the window manager is at [p]. *)
Record gui_started s (m : machine) (p : Z) (ss : list (Z * list Z)) s' : Prop := {
  gs_machine : mach s' = heap_at m (p + 4096 * gui_pages);
  gs_processor : dev s' = dev s /\ idt s' = idt s /\ smsrs s' = smsrs s /\ interrupt_stack s' = interrupt_stack s /\
    interrupts s' = interrupts s /\ task_register s' = task_register s /\ event_memory s' = event_memory s;
  gs_threads : threads (skern s') = threads (skern s);
  gs_ids : num_procs (skern s') = num_procs (skern s) /\ proc_id (skern s') = proc_id (skern s) /\
    thisThread (skern s') = thisThread (skern s) /\ cr3_reg (skern s') = cr3_reg (skern s);
  gs_procs : forall q, q <> 0 -> procs (skern s') q = procs (skern s) q;
  gs_kernel : p_cr3 (procs (skern s') 0) = p_cr3 (procs (skern s) 0) /\
    num_running_threads (procs (skern s') 0) = num_running_threads (procs (skern s) 0) /\
    files (procs (skern s') 0) = upd (files (procs (skern s) 0)) 1 (gui_terminal im);
  gs_desktop : desktop_of (skern s) p (p + 4096 * (winmgr_pages + pick_pages + pointer_pages)) (free_of (skern s)) (Events.winmgr (sworld s'));
  gs_log : exists lo, box_holds (text_buf s') (first_log (Objects.text (text_buf s)) ss) lo;
  gs_terminal : terminal_device s' = gui_terminal im;
  gs_mouse : mx (mouse_state (sworld s')) = W / 4 /\ my (mouse_state (sworld s')) = H / 4
}.

Lemma kernel_desktop_ext env uenv win img free m m' :
  windows m' = windows m -> winstack m' = winstack m -> desktop m' = desktop m ->
  kernel_desktop W H win (sizeof_GUIWindow im) env uenv img free m -> kernel_desktop W H win (sizeof_GUIWindow im) env uenv img free m'.
Proof. intros E1 E2 E3 []. split; rewrite ?E1, ?E2, ?E3; done. Qed.

Lemma init_gui_ok m p top0 desktop0 users image0 bg0 ms fb :
  0 <= p -> p + 4096 * (winmgr_pages + pick_pages + pointer_pages) <= static_alloc_limit m < 4294967296 -> shaped image0 ->
  exists pointer ms', init_gui (sizeof_WindowManager im) (sizeof_MousePointer im) W H (s32 W) (s32 H) top0 desktop0 users image0 bg0 ms fb (heap_at m p) =
    Some (p, p + 4096 * winmgr_pages, new_WindowManager top0 desktop0 users, pointer, ms',
          heap_at m (p + 4096 * (winmgr_pages + pick_pages + pointer_pages))) /\
    mx ms' = W / 4 /\ my ms' = H / 4.
Proof.
  intros Hp Hl Hc. destruct (ln_pages Hlink) as (_ & _ & H1 & H2 & H3 & _). unfold init_gui.
  assert (0 < W < 2147483648 /\ 0 < H < 2147483648) as [HW HH] by nia.
  fold winmgr_pages pick_pages pointer_pages.
  rewrite (kbind_ok _ _ _ _ _ (static_pages m p winmgr_pages H1 Hp ltac:(lia))).
  rewrite (kbind_ok _ _ _ _ _ (static_pages m (p + 4096 * winmgr_pages) pick_pages H2 ltac:(lia) ltac:(lia))).
  rewrite (kbind_ok _ _ _ _ _ (static_pages m (p + 4096 * winmgr_pages + 4096 * pick_pages) pointer_pages H3 ltac:(lia) ltac:(lia))).
  rewrite (bind_ok _ _ _ (cursor_image_spec image0 Hc)).
  replace (p + 4096 * winmgr_pages + 4096 * pick_pages + 4096 * pointer_pages) with
    (p + 4096 * (winmgr_pages + pick_pages + pointer_pages)) by lia.
  do 2 eexists. split; [reflexivity|]. cbn [mx my with_pos].
  rewrite !s32_small by (unfold is_s32; lia). rewrite !Z.quot_div_nonneg by lia. done.
Qed.

Lemma str_at_copy_in m dst f n a str : str_at m a str -> clear_of dst n (a, str) -> str_at (copy_in dst f n m) a str.
Proof.
  intros [Hs H0] Hc. assert (forall k, (k <= length str)%nat -> copy_in dst f n m (a + Z.of_nat k) = m (a + Z.of_nat k)) as E.
  { intros k Hk. specialize (Hc k Hk). cbn [fst snd] in Hc. unfold copy_in.
    destruct (Z.leb_spec dst (a + Z.of_nat k)), (Z.ltb_spec (a + Z.of_nat k) (dst + n)); cbn [andb]; lia || done. }
  split; [|by rewrite E].
  intros k c Hk. rewrite E by (apply lookup_lt_Some in Hk; lia). by apply Hs.
Qed.

Lemma start_gui_ok fuel s m p i sec headers ss :
  mach s = heap_at m p -> 0 < p -> p + 4096 * gui_pages <= static_alloc_limit m < 4294967296 -> (257 <= fuel)%nat ->
  gui_memory fuel s i sec headers ss ->
  exists s', start_gui W H ASCII_MAP disk im fuel s = Some s' /\ gui_started s m p ss s'.
Proof.
  intros Em Hp Hl Hfuel [Hst Hslots Hcur Htext Hq Hwp [Ha Hs Hn]]. destruct (ln_pages Hlink) as (_ & _ & H1 & H2 & H3 & H4 & _).
  unfold gui_pages in *. set (g := winmgr_pages + pick_pages + pointer_pages) in *.
  assert (0 < g /\ winmgr_pages < g) as [Hg Hg'] by (unfold g; lia). set (w := sworld s).
  destruct (init_gui_ok m p (winstack (Events.winmgr w)) (desktop (Events.winmgr w)) (user_windows (Events.winmgr w)) (cursor_memory s)
    (background (mousePointer w)) (mouse_state w) (pixels (display w)) ltac:(lia) ltac:(fold g; lia) Hcur)
    as (pointer & ms & E1 & Mx & My). rewrite <- Em in E1. fold g in E1.
  set (wm0 := new_WindowManager (winstack (Events.winmgr w)) (desktop (Events.winmgr w)) (user_windows (Events.winmgr w))) in *.
  set (w1 := with_mouse (with_display (with_winmgr w wm0) (display w) pointer) ms).
  set (s1 := set_world (set_mach s (heap_at m (p + 4096 * g))) w1).
  assert (0 < win_index_at im p) as Hwin.
  { pose proof (ln_index Hlink). unfold win_index_at. rewrite u32_small by (unfold is_u32; lia). lia. }
  assert (wm0 = new_WindowManager 0 (desktop (Events.winmgr w)) (user_windows (Events.winmgr w))) as Ewm by (unfold wm0; unfold w; by rewrite Hst).
  destruct (start_model_ok fuel p s1 m (p + 4096 * g) _ _ i sec headers eq_refl ltac:(lia) ltac:(lia) Ewm Hslots Hwin Hfuel Hwp Htext)
    as (img & wm & sc & E2 & Hd).
  set (s2 := with_desktop s1 _ _ _ wm sc img) in *.
  destruct (message_ok p s2 ss Hwin) as (r & sm & b & wm' & w2 & lo & E3 & Hb & Wa & Wb & Wc & Hsent).
  { unfold s2, with_desktop. cbn [set_kern set_world set_text text_buf]. apply new_box_holds; [lia|lia|]. cbn. rewrite Htext. lia. }
  { exact Hq. }
  { eapply Forall_impl; [exact Hs|]. intros [a str] (K1 & K2 & K3). split; [|exact K2]. by apply str_at_copy_in. }
  { exact Ha. } { exact Hn. }
  eexists. split.
  - unfold start_gui. cbv zeta. rewrite (bind_ok _ _ _ E1). cbv beta iota.
    rewrite (bind_ok _ _ _ E2). cbv beta iota. rewrite (bind_ok _ _ _ E3). cbv beta iota.
    rewrite (bind_ok (Some _) _ _ eq_refl). reflexivity.
  - destruct Hsent as [S1 S2 S3 S4 S5 S6 S7 S8]. split; try done.
    + unfold gui_pages. fold g. replace (p + 4096 * (g + image_pages)) with (p + 4096 * g + 4096 * image_pages) by lia. done.
    + intros q Hq'. cbn [skern set_files set_world sworld]. unfold skern. cbn [set_files set_world sworld]. rewrite S7 by done. cbn.
      unfold upd. by destruct (Z.eqb_spec q 0).
    + destruct S8 as (S8a & S8b & S8c). unfold skern. cbn [set_files set_world sworld]. rewrite S8a, S8b, S8c. done.
    + cbn [set_files set_world sworld]. rewrite S1. eapply kernel_desktop_ext; [exact Wa|exact Wb|exact Wc|exact Hd].
    + by exists lo.
    + cbn [set_files set_world sworld]. rewrite S4. split; [exact Mx|exact My].
Qed.

(** ** The events *)

Definition event_pages : Z := kevent_pages im + 8.

Definition fresh_queue {T} `{Slot T} (q : SharedQueue T) : Prop :=
  exists memory, length memory = 16%nat /\ new_SharedQueue MAX_EVENTS memory = Some q.

(** What [start_events] makes: queues, the event thread, the registers of the
    system calls, and [spawn] as the first event. *)
Record events_started s (m : machine) (p : Z) s' : Prop := {
  es_machine : mach s' = heap_at m (p + 4096 * event_pages);
  es_same : idt s' = idt s /\ interrupt_stack s' = interrupt_stack s /\ interrupts s' = interrupts s /\
    task_register s' = task_register s /\ text_buf s' = text_buf s /\ terminal_device s' = terminal_device s;
  es_world : Events.winmgr (sworld s') = Events.winmgr (sworld s) /\ display (sworld s') = display (sworld s) /\
    mouse_state (sworld s') = mouse_state (sworld s);
  es_msrs : smsrs s' = {| sysenter_cs := 0x08; sysenter_esp := p + 4096 * event_pages; sysenter_eip := enter_kernel_address im |};
  es_thread : let t := threads (skern s') 1 in runState t = RUNNING /\ eip (intParams t) = enter_event_loop_address im /\
    stack t = p + 4096 * kevent_pages im /\ stack_bytes t = 16384;
  es_threads : forall t, t <> 1 -> threads (skern s') t = threads (skern s) t;
  es_ids : num_procs (skern s') = num_procs (skern s) /\ proc_id (skern s') = proc_id (skern s) /\
    thisThread (skern s') = thisThread (skern s) /\ cr3_reg (skern s') = cr3_reg (skern s);
  es_procs : forall q, q <> 0 -> procs (skern s') q = procs (skern s) q;
  es_kernel : p_cr3 (procs (skern s') 0) = p_cr3 (procs (skern s) 0) /\ files (procs (skern s') 0) = files (procs (skern s) 0) /\
    num_running_threads (procs (skern s') 0) = num_running_threads (procs (skern s) 0);
  es_signal : signal (monitors (procs (skern s') 0) MSG_MONITOR) = 1;
  es_callback : one_message (w_callback (sworld s')) {| Queue.msg_id := spawn_address im; msg_data := shell_name im |};
  es_display : fresh_queue (w_display (sworld s'));
  es_user : no_message (w_user (sworld s')) /\ forall e, event_subs (sworld s') e = 0
}.

(** Room for the messages in the memory of the queues. *)
Definition queue_memory s : Prop :=
  let '(user, callback, display_queue) := event_memory s in
  length user = 16%nat /\ length callback = 16%nat /\ length display_queue = 16%nat.

Lemma start_events_ok s m p :
  mach s = heap_at m p -> 0 < p -> p + 4096 * event_pages <= static_alloc_limit m < 4294967296 -> queue_memory s ->
  exists s', start_events time_stamp im s = Some s' /\ events_started s m p s'.
Proof.
  intros Em Hp Hl Hq. destruct (ln_pages Hlink) as (_ & _ & _ & _ & _ & _ & Hk). unfold event_pages in *.
  unfold queue_memory in Hq. destruct (event_memory s) as [[user callback] disp] eqn:Eq. destruct Hq as (Hu & Hc & Hd).
  unfold start_events. destruct (time_stamp (dev s)) as [tsc d] eqn:Et. cbv zeta. change (event_memory (set_dev s d (idt s))) with (event_memory s). rewrite Eq. cbv beta iota.
  set (s1 := set_dev s d (idt s)). set (w := sworld s).
  assert (exists w1, init_events (kevent_pages im) (offset_sub_pool im) (sizeof_SubscriberNode im) tsc (enter_event_loop_address im)
      user callback disp w (mach s1) = Some (w1, heap_at m (p + 4096 * (kevent_pages im + 4))) /\
    w1 = with_kern (with_deadline (with_subs (with_queues w
        {| sq_max_size := 16; q_locked := qr_zero; q_safe := qr_zero; safe_tail_mtx := 0; locked_head_mtx := 0; sq_queue := user |}
        {| sq_max_size := 16; q_locked := qr_zero; q_safe := qr_zero; safe_tail_mtx := 0; locked_head_mtx := 0; sq_queue := callback |}
        {| sq_max_size := 16; q_locked := qr_zero; q_safe := qr_zero; safe_tail_mtx := 0; locked_head_mtx := 0; sq_queue := disp |})
        (new_PoolAllocator MAX_SUBSCRIPTIONS (p +w offset_sub_pool im) (sizeof_SubscriberNode im)) (Events.seed w) (sub_nodes w) (fun _ => 0))
        (tsc + 0x4000000))
      (set_runState (set_thread_at (write_signal (kern w) 0 MSG_MONITOR 0) 1
         (KernelThread_init (threads (kern w) 1) (enter_event_loop_address im) (p + 4096 * kevent_pages im) 16384)) 1 RUNNING))
    as (w1 & E1 & Ew1).
  { change (mach s1) with (mach s). rewrite Em. eexists. split; [|reflexivity]. unfold init_events.
    rewrite (kbind_ok _ _ _ _ _ (static_pages m p (kevent_pages im) Hk ltac:(lia) ltac:(lia))).
    rewrite (kbind_ok _ _ _ _ _ (static_pages m (p + 4096 * kevent_pages im) 4 ltac:(lia) ltac:(lia) ltac:(lia))).
    replace (p + 4096 * kevent_pages im + 4096 * 4) with (p + 4096 * (kevent_pages im + 4)) by lia. reflexivity. }
  set (s2 := set_world (set_mach s1 (heap_at m (p + 4096 * (kevent_pages im + 4)))) w1).
  assert (on_mach (init_syscall (enter_kernel_address im)) s2 =
    Some ({| sysenter_cs := 0x08; sysenter_esp := p + 4096 * (kevent_pages im + 8); sysenter_eip := enter_kernel_address im |},
          set_mach s2 (heap_at m (p + 4096 * (kevent_pages im + 8))))) as E2.
  { apply on_mach_ok. change (mach s2) with (heap_at m (p + 4096 * (kevent_pages im + 4))). unfold init_syscall.
    rewrite (kbind_ok _ _ _ _ _ (static_pages m (p + 4096 * (kevent_pages im + 4)) 4 ltac:(lia) ltac:(lia) ltac:(lia))).
    rewrite u32_small by (unfold is_u32; lia).
    replace (p + 4096 * (kevent_pages im + 4) + 4096 * 4) with (p + 4096 * (kevent_pages im + 8)) by lia. reflexivity. }
  destruct (first_callback (spawn_address im) (shell_name im) callback w1 Hc (ln_spawn Hlink)) as (q & E3 & Hone).
  { rewrite Ew1. reflexivity. }
  eexists. split.
  - rewrite (bind_ok _ _ _ (on_mach_ok _ s1 w1 _ E1)). cbv beta iota. rewrite (bind_ok _ _ _ E2). cbv beta iota.
    change (sworld (set_mach s2 _)) with w1. rewrite (bind_ok _ _ _ E3). reflexivity.
  - clear E1 E2 E3. subst w1. split; try done.
    + intros t Ht. cbn. unfold upd. destruct (Z.eqb_spec t 1); [done|]. done.
    + intros q' Hq'. cbn. unfold upd. by destruct (Z.eqb_spec q' 0).
    + exists disp. split; [exact Hd|reflexivity].
    + destruct (queue_no_message user Hu) as (q0 & E & Hno). injection E as <-. split; [exact Hno|done].
Qed.
(** ** The devices *)

(** The handlers of the running kernel. *)
Definition handlers : Z -> Z :=
  boot_handler (exception_address im) (page_fault_address im) (timer_address im) (keyboard_address im) (mouse_address im).

(** Only the devices have changed. *)
Definition devices_only s s' : Prop := exists d, s' = set_dev s d (idt s).

#[local] Instance started_ports : Ports (@System D) := system_ports.
#[local] Instance started_env : Ps2Env (@System D) := system_env time_stamp W H im.

Lemma devices_only_trans s1 s2 s3 : devices_only s1 s2 -> devices_only s2 s3 -> devices_only s1 s3.
Proof. intros [d1 ->] [d2 ->]. by exists d2. Qed.

Lemma init_ps2_ok p s f : idt_ok (idt s) f ->
  exists r tsc d t s', init_ps2 p s = (r, {| mouse_buffer := mouse_buffer p; mouse_buffer_index := 0; num_mouse_packets := 0;
      old_tsc := tsc; mouse := mouse p |}, s') /\ s' = set_dev s d t /\
    idt_ok t (fun i => if i =? MOUSE_IDT then mouse_address im else if i =? KEYBOARD_IDT then keyboard_address im else f i).
Proof.
  intros Ht. destruct (idt_set_ok _ f KEYBOARD_IDT (keyboard_address im) Ht) as (t1 & E1 & H1);
    [unfold KEYBOARD_IDT; lia|apply (ln_keyboard Hlink)|].
  destruct (idt_set_ok t1 _ MOUSE_IDT (mouse_address im) H1) as (t2 & E2 & H2); [unfold MOUSE_IDT; lia|apply (ln_mouse Hlink)|].
  destruct (init_ps2_keeps devices_only) with (s := p) (d := s) as (r & tsc & s2 & s' & Er & [d' Hd] & E).
  - intros d. exists (dev d). by destruct d.
  - apply devices_only_trans.
  - intros q d. cbn. destruct (Ata.inb q (dev d)) as [v d1]. by exists d1.
  - intros q v d. by eexists.
  - exists r, tsc, d', t2, s'. split; [exact E|]. split; [|exact H2]. subst s'.
    assert (Ps2.set_handler KEYBOARD_IDT s = set_dev s (dev s) t1) as Ek.
    { cbn. change (ps2_handler im KEYBOARD_IDT) with (keyboard_address im). by rewrite E1. }
    assert (Ps2.set_handler MOUSE_IDT (set_dev s (dev s) t1) = set_dev s (dev s) t2) as Em.
    { cbn. change (ps2_handler im MOUSE_IDT) with (mouse_address im). by rewrite E2. }
    rewrite Ek, Em in Er. cbn [Ps2.set_irq_vector Ps2.rdtsc started_env system_env] in Er.
    match type of Er with context [time_stamp ?x] => destruct (time_stamp x) as [tsc' d2] end. injection Er as _ <-. reflexivity.
Qed.
Record devices_started (f : Z -> Z) s s' : Prop := {
  dv_same : mach s' = mach s /\ smsrs s' = smsrs s /\ text_buf s' = text_buf s /\ terminal_device s' = terminal_device s /\
    interrupt_stack s' = interrupt_stack s /\ interrupts s' = interrupts s /\ task_register s' = task_register s;
  dv_idt : idt_ok (idt s') (fun i => if i =? MOUSE_IDT then mouse_address im else if i =? KEYBOARD_IDT then keyboard_address im
    else if i =? TIMER_IDT then timer_address im else f i);
  dv_mouse : mouse_buffer_index (sps2 s') = 0 /\ num_mouse_packets (sps2 s') = 0 /\ mouse (sps2 s') = mouse_state (sworld s');
  dv_kernel : skern s' = set_runState (kern (signal_kernel 1 (sworld s))) (thisThread (skern s)) WAITING;
  dv_world : exists q ms, sworld s' = with_kern (with_queues (with_mouse (sworld s) ms) (w_user (sworld s)) (w_callback (sworld s)) q) (skern s') /\
    ms = mouse_state (sworld s) /\ one_message q (Some REDRAW_SCREEN)
}.

Lemma start_devices_ok s f : idt_ok (idt s) f -> fresh_queue (w_display (sworld s)) ->
  exists s', start_devices time_stamp W H im s = Some s' /\ devices_started f s s'.
Proof.
  intros Ht (memory & Hm & Hq). destruct (idt_set_ok _ f TIMER_IDT (timer_address im) Ht) as (t1 & E1 & H1);
    [unfold TIMER_IDT; lia|apply (ln_timer Hlink)|].
  unfold start_devices. cbv zeta. unfold init_scheduler. rewrite E1. cbn [mbind option_bind].
  set (s1 := set_dev s _ t1). set (p := {| mouse_buffer := _ |}).
  destruct (init_ps2_ok p s1 _ H1) as (r & tsc & d & t & s2 & E2 & Es2 & H2). unfold started_env in E2. rewrite E2.
  destruct (queue_one_redraw memory Hm) as (q0 & r' & q & Eq & E3 & Hone). rewrite Hq in Eq. injection Eq as <-.
  set (s3 := set_ps2 s2 _). assert (w_display (sworld s3) = w_display (sworld s)) as Ed by (by subst s3 s2).
  unfold new_display_msg. rewrite Ed, E3. cbn [mbind option_bind].
  eexists. split; [reflexivity|]. subst s3 s2. split.
  - done.
  - exact H2.
  - done.
  - done.
  - exists q, (mouse p). split; [reflexivity|]. split; [reflexivity|exact Hone].
Qed.
(** ** From power-on to the event thread *)

(** Where things are, when the first page after the interrupt stack is [p]. *)
Definition env_page (p : Z) : Z := p + 4096 * (tar_pages + proc_pages im).
Definition gui_page (p : Z) : Z := env_page p + 4096.
Definition image_page (p : Z) : Z := gui_page p + 4096 * (winmgr_pages + pick_pages + pointer_pages).
Definition event_page (p : Z) : Z := gui_page p + 4096 * gui_pages.
Definition heap_end (p : Z) : Z := event_page p + 4096 * event_pages.

(** The running kernel: [m] is the memory the boot made, [p] its interrupt stack's top. *)
Record ready s (m : machine) (p : Z) (ss : list (Z * list Z)) s' : Prop := {
  rd_memory : booted p m /\ mach s' = heap_at m (heap_end p) /\ heap_end p + 4096 <= 0x400000;
  rd_cpu : interrupts s' = true /\ task_register s' = 0x28 /\ interrupt_stack s' = p;
  rd_idt : idt_ok (idt s') handlers;
  rd_msrs : smsrs s' = {| sysenter_cs := 0x08; sysenter_esp := heap_end p; sysenter_eip := enter_kernel_address im |};
  rd_desktop : kernel_desktop W H (win_index_at im (gui_page p)) (sizeof_GUIWindow im) (fun _ => env_page p) (fun _ => env_page p)
    (image_page p) (env_page p +w offset_free im) (Events.winmgr (sworld s'));
  rd_terminal : terminal_device s' = gui_terminal im /\ files (procs (skern s') 0) 1 = gui_terminal im /\
    exists lo, box_holds (text_buf s') (first_log (Objects.text (text_buf s)) ss) lo;
  rd_mouse : mx (mouse_state (sworld s')) = W / 4 /\ my (mouse_state (sworld s')) = H / 4 /\ mouse_buffer_index (sps2 s') = 0;
  rd_threads : runState (threads (skern s') 0) = WAITING /\
    (let t := threads (skern s') 1 in runState t = RUNNING /\ eip (intParams t) = enter_event_loop_address im /\
       stack t = event_page p + 4096 * kevent_pages im /\ stack_bytes t = 16384) /\
    forall t, 1 < t < MAX_PROCS * MAX_PROC_THREADS -> runState (threads (skern s') t) = NULL;
  rd_kernel : let k := skern s' in num_procs k = 1 /\ proc_id k = 0 /\ thisThread k = 0 /\
    p_cr3 (procs k 0) = 0x101000 /\ num_running_threads (procs k 0) = 1;
  rd_procs : forall q, 0 < q < MAX_PROCS -> procs (skern s') q = init_process (procs (skern s) q);
  rd_events : signal (monitors (procs (skern s') 0) MSG_MONITOR) = 2 /\ no_message (w_user (sworld s')) /\
    one_message (w_callback (sworld s')) {| Queue.msg_id := spawn_address im; msg_data := shell_name im |} /\
    one_message (w_display (sworld s')) (Some REDRAW_SCREEN)
}.

Lemma started_ok fuel s i sec headers ss :
  (forall a, is_u32 (phys (mach s) a)) -> (257 <= fuel)%nat -> gui_memory fuel s i sec headers ss -> queue_memory s ->
  exists m p s', _start time_stamp W H ASCII_MAP disk im fuel s = Some s' /\ ready s m p ss s'.
Proof.
  intros Hu Hfuel Hg Hq. pose proof (ln_room Hlink) as Hroom. destruct (ln_pages Hlink) as (P1 & P2 & P3 & P4 & P5 & P6 & P7).
  destruct (start_memory_ok s Hu) as (d1 & t1 & p & m & E1 & Hb & Ht1). set (s1 := set_cpu _ _ _ _) in *.
  destruct (bt_istack _ _ Hb) as [Ep1 Ep2], (bt_heaps _ _ Hb) as (Ep3 & _ & Elim).
  assert (p = 0x124000) as Ep by lia. assert (heap_end p + 4096 <= 0x400000) as Hend.
  { unfold heap_end, event_page, gui_page, env_page, gui_pages, event_pages. lia. }
  assert (mach s1 = heap_at m p) as Em1 by (rewrite <- Ep2; symmetry; apply heap_at_self).
  pose proof (start_files_ok s1 m p Em1 (bt_wf _ _ Hb) ltac:(lia) ltac:(lia) ltac:(lia)) as E2.
  replace (p + 4096 * (tar_pages + proc_pages im + 1)) with (gui_page p) in E2 by (unfold gui_page, env_page; lia).
  fold (env_page p) in E2. set (s2 := set_kern _ _) in *.
  assert (gui_memory fuel s2 i sec headers ss) as Hg2 by (destruct Hg; split; assumption).
  destruct (start_gui_ok fuel s2 m (gui_page p) i sec headers ss eq_refl) as (s3 & E3 & G);
    [unfold gui_page, env_page; lia|unfold gui_page, env_page, gui_pages in *; unfold heap_end, event_page, gui_page, env_page, gui_pages, event_pages in Hend; lia|done|done|].
  destruct (gs_processor _ _ _ _ _ G) as (Gd & Gi & Gm & Gs & Gn & Gt & Ge).
  destruct (start_events_ok s3 m (event_page p) (gs_machine _ _ _ _ _ G)) as (s4 & E4 & V);
    [unfold event_page, gui_page, env_page, gui_pages; lia|unfold heap_end in Hend; lia|unfold queue_memory; rewrite Ge; exact Hq|].
  destruct (es_same _ _ _ _ V) as (Vi & Vs & Vn & Vt & Vb & Vd).
  assert (idt s4 = t1) as Eidt by (rewrite Vi, Gi; reflexivity).
  destruct (start_devices_ok s4 _ ltac:(rewrite Eidt; exact Ht1) (es_display _ _ _ _ V))
    as (s5 & E5 & V5).
  exists m, p, s5. split.
  { unfold _start. rewrite (bind_ok _ _ _ E1), (bind_ok _ _ _ E2), (bind_ok _ _ _ E3), (bind_ok _ _ _ E4). exact E5. }
  destruct (dv_same _ _ _ V5) as (Dm & Dr & Db & Dt & Ds & Dn & Dk). pose proof (dv_kernel _ _ _ V5) as Ek.
  destruct (dv_world _ _ _ V5) as (q & ms & Ew & -> & Hone).
  destruct (gs_ids _ _ _ _ _ G) as (I1 & I2 & I3 & _), (es_ids _ _ _ _ V) as (J1 & J2 & J3 & _).
  destruct (gs_kernel _ _ _ _ _ G) as (K1 & K2 & K3), (es_kernel _ _ _ _ V) as (L1 & L2 & L3).
  assert (thisThread (skern s4) = 0) as Ethis by (rewrite J3, I3; reflexivity). rewrite Ethis in Ek.
  assert (forall t, t <> 1 -> threads (skern s4) t = threads (skern s2) t) as Hth.
  { intros t Hne. rewrite (es_threads _ _ _ _ V t Hne). by rewrite (gs_threads _ _ _ _ _ G). }
  split.
  - split; [exact Hb|]. split; [|exact Hend]. rewrite Dm, (es_machine _ _ _ _ V). reflexivity.
  - rewrite Dn, Dk, Ds, Vn, Vt, Vs, Gn, Gt, Gs. split; [reflexivity|split; reflexivity].
  - apply (dv_idt _ _ _ V5).
  - rewrite Dr. apply (es_msrs _ _ _ _ V).
  - rewrite Ew. cbn [with_kern with_queues with_mouse Events.winmgr]. destruct (es_world _ _ _ _ V) as (-> & _). destruct (gs_desktop _ _ _ _ _ G). by split.
  - rewrite Dt, Vd, (gs_terminal _ _ _ _ _ G). split; [done|]. split.
    + rewrite Ek. cbn. fold (skern s4). rewrite L2, K3. done.
    + rewrite Db, Vb. apply (gs_log _ _ _ _ _ G).
  - rewrite Ew. destruct (es_world _ _ _ _ V) as (_ & _ & E). destruct (dv_mouse _ _ _ V5) as (E' & _).
    cbn [with_kern with_queues with_mouse mouse_state]. rewrite E. destruct (gs_mouse _ _ _ _ _ G) as [-> ->].
    split; [reflexivity|split; [reflexivity|exact E']].
  - rewrite Ek. cbn. fold (skern s4). split; [reflexivity|]. split; [apply (es_thread _ _ _ _ V)|].
    intros t Ht. unfold upd. destruct (Z.eqb_spec t 0); [lia|]. rewrite Hth by lia. cbn.
    unfold upd. destruct (Z.eqb_spec t 0); [lia|]. destruct (Z.leb_spec 0 t), (Z.ltb_spec t (MAX_PROCS * MAX_PROC_THREADS)); lia || reflexivity.
  - rewrite Ek. cbn. fold (skern s4). rewrite J1, J2, J3, L1, L3, I1, I2, I3, K1, K2. cbn. rewrite (bt_cr3 _ _ Hb). split_and!; reflexivity.
  - intros j Hj. rewrite Ek. cbn. fold (skern s4). unfold upd at 1. destruct (Z.eqb_spec j 0); [lia|].
    rewrite (es_procs _ _ _ _ V), (gs_procs _ _ _ _ _ G) by lia. cbn. unfold upd. destruct (Z.eqb_spec j 0); [lia|].
    destruct (Z.leb_spec 0 j), (Z.ltb_spec j MAX_PROCS); lia || reflexivity.
  - split; [|split; [|split]].
    + rewrite Ek. cbn. fold (skern s4). rewrite (es_signal _ _ _ _ V). reflexivity.
    + rewrite Ew. apply (es_user _ _ _ _ V).
    + rewrite Ew. apply (es_callback _ _ _ _ V).
    + rewrite Ew. exact Hone.
Qed.
End started.

(** ** A machine to start *)

(** Devices that answer 0. *)
#[export] Instance idle_machine : Machine Z := {
  mmio_read _ d := (0, d); mmio_write _ _ d := d; rdmsr _ d := ((0, 0), d); wrmsr _ _ _ d := d
}.
#[export] Instance idle_ports : Ports Z := { inb _ d := (0, d); inw _ d := (0, d); outb _ _ d := d }.

Definition sample_image : Image :=
  {| exception_address := sample_address; page_fault_address := 0x8000; timer_address := 0x8100; keyboard_address := 0x8200;
     mouse_address := 0x8300; enter_kernel_address := 0x8400; enter_event_loop_address := 0x8500; spawn_address := 0x8600;
     gui_terminal := 0x9000; shell_name := 0x400; tga_name := 0x500; kernel_messages := 0x600; newline := 0x700;
     tar_header_buf := 0x2000; tga_header_buf := 0x4000; raw_data_buf := 0x5000; print_buf := 0x3000;
     sizeof_TarFile := 20; proc_pages := 20; sizeof_WindowManager := 30000; offset_win_index := 16; sizeof_GUIWindow := 80;
     sizeof_MousePointer := 1024; offset_free := 0x400; kevent_pages := 4; offset_sub_pool := 64; sizeof_SubscriberNode := 8 |}.

(** "desktop.tga", "Kernel messages:" and a line end. *)
Definition tga_string : list Z := [100; 101; 115; 107; 116; 111; 112; 46; 116; 103; 97].
Definition first_line : list Z := [75; 101; 114; 110; 101; 108; 32; 109; 101; 115; 115; 97; 103; 101; 115; 58].
Definition sample_smem : mem := fun a =>
  if a <? 0x600 then mem_of 0x500 tga_string a else if a <? 0x700 then mem_of 0x600 first_line a else mem_of 0x700 [10] a.

(** An archive of one file, a white image of 2 by 256 pixels. *)
Definition sample_disk (s i : Z) : Z :=
  if s =? 1 then
    if i <? 11 then mem_of 0 tga_string i else if i <? 100 then 0
    else mem_of 124 [48; 48; 48; 48; 48; 48; 48; 51; 48; 50; 50; 0] i
  else if s <? 6 then white_disk s i else 0.

Definition sample_system : @System Z :=
  {| dev := 0; idt := new_IDT; mach := start_machine;
     sworld := with_winmgr desk_world (new_WindowManager 0 0 (fun _ _ => empty_Window));
     sps2 := {| mouse_buffer := [0; 0; 0]; mouse_buffer_index := 0; num_mouse_packets := 0; old_tsc := 0; mouse := mouse_at 0 0 |};
     smsrs := {| sysenter_cs := 0; sysenter_esp := 0; sysenter_eip := 0 |};
     tar_files := fun _ => {| header_sector := 0; current_sector := 0; cursor := 0; size := 0 |};
     text_buf := new_Buffer 45 10 (replicate 450 0); smem := sample_smem; desktop_img := fun _ => 0; terminal_device := 0;
     interrupt_stack := 0; interrupts := true; task_register := 0; cursor_memory := replicate 16 (replicate 16 0);
     event_memory := (replicate 16 {| Queue.msg_id := 5; msg_data := 6 |}, replicate 16 {| Queue.msg_id := 7; msg_data := 8 |},
                      replicate 16 None) |}.

Lemma sample_linked : linked 800 600 sample_image.
Proof.
  split.
  1: intros []; cbn; unfold is_u32; lia.
  1-4: vm_compute; split; [discriminate|reflexivity].
  - discriminate.
  - reflexivity.
  - vm_compute. split; [discriminate|reflexivity].
  - vm_compute. repeat split.
  - vm_compute. reflexivity.
Qed.

Lemma sample_memory : gui_memory 800 600 sample_disk sample_image 257 sample_system 0 1 [1] [(0x600, first_line); (0x700, [10])].
Proof.
  split.
  - reflexivity.
  - split; reflexivity.
  - split; [reflexivity|]. vm_compute. repeat constructor.
  - reflexivity.
  - exists 1. vm_compute. intuition congruence.
  - split.
    + reflexivity.
    + vm_compute. intuition congruence.
    + split; [cbn; lia|]. vm_compute. reflexivity.
    + vm_compute. reflexivity.
    + lia.
    + vm_compute. reflexivity.
    + vm_compute. intuition congruence.
    + vm_compute. intuition congruence.
    + vm_compute. intuition congruence.
    + vm_compute. intuition congruence.
  - split; [reflexivity| |vm_compute; lia].
    repeat (apply Forall_cons; split); [| |constructor]; (split; [by apply str_test_true|]);
      split; intros k Hk; cbn in *; unfold MAX_PRINT_CHARS; lia.
Qed.

