(* ===== verification/Rounds.v ===== *)
(** * The first round of the event thread

    [_start] leaves three things to it: an empty queue of user events, the callback
    of [spawn] and a request to draw the screen.  Here the round of
    [enter_event_loop] on the state of [Started], with the process [spawn] makes
    and the pick buffer that is drawn. *)
From S2P Require Import Prelude Str BitOps BitAlloc Queue Shapes Vga Memory Paging Process Spaces Switch Sysenter Interrupts.
From S2P Require Import Apic Ata Ps2 Tar Objects Gui Windows Events Syscall Boot Terminal Desktop Start Started.

(** ** What the screen shows *)

(** The identity of the window under a pixel: the text box, the frame around it,
    or the desktop. *)
Definition kernel_pick (x y : Z) : Z :=
  if in_rect x y {| rl := 220; rt := 170; rr := 580; rb := 430 |} then 3
  else if in_rect x y {| rl := 200; rt := 150; rr := 600; rb := 450 |} then 1 else 0.

Section screen.
Context (W H : Z) (Hscreen : 0 < W /\ 0 < H /\ (H + 1) * W < 2147483648).
Context (ASCII_MAP : Z -> Z) (win_index sizeof_GUIWindow : Z) (proc_env proc_userEnv : Z -> Z) (img free : Z).
Context (Hwin : 0 < win_index) (Hsize : 0 < sizeof_GUIWindow).
Context (buf : Buffer) (Hbuf : buffer_ok buf) (image : Z -> Z).

Abbreviation desktop_shown := (kernel_desktop W H win_index sizeof_GUIWindow proc_env proc_userEnv img free).

Lemma in_screen x y : 0 <= x < W -> 0 <= y < H -> in_rect x y {| rl := 0; rt := 0; rr := s32 W; rb := s32 H |} = true.
Proof.
  intros Hx Hy. assert (0 < W /\ 0 < H /\ W < 2147483648 /\ H < 2147483648) as (? & ? & ? & ?) by nia. unfold in_rect. cbn [rl rt rr rb].
  rewrite !s32_small by (unfold is_s32; lia). rewrite !andb_true_iff, !Z.leb_le, !Z.ltb_lt. lia.
Qed.

Lemma desktop_owner m x y : desktop_shown m -> 0 <= x < W -> 0 <= y < H ->
  let o := owner depth (windows m) x y (winstack m) in o <> 0 /\ window_gid (windows m o) = kernel_pick x y.
Proof.
  intros Hd Hx Hy. destruct (kd_stack _ _ _ _ _ _ _ _ _ Hd) as [Hs _], (kd_children _ _ _ _ _ _ _ _ _ Hd) as [Hc _].
  destruct (kd_kinds _ _ _ _ _ _ _ _ _ Hd) as (K0 & K1 & K2 & K3), (kd_rects _ _ _ _ _ _ _ _ _ Hd) as (R0 & R1 & R2 & R3).
  destruct (kd_gids _ _ _ _ _ _ _ _ _ Hd) as (G0 & G1 & G2 & G3).
  destruct Hs as (-> & P1 & _ & N1 & P0 & _ & N0). destruct Hc as (C1 & P3 & _ & N3 & P2 & _ & N2).
  apply Z.eqb_neq in P0, P1, P2, P3.
  pose proof (in_screen x y Hx Hy) as Hin.
  cbv zeta. replace depth with (S (S (S (S 252)))) by reflexivity. generalize 252%nat as n. intros n. cbn [owner]. unfold kernel_pick.
  rewrite P1, R1, K1. destruct (in_rect x y {| rl := 200; rt := 150; rr := 600; rb := 450 |}) eqn:E1.
  - rewrite C1, P3, R3, K3. destruct (in_rect x y {| rl := 220; rt := 170; rr := 580; rb := 430 |}) eqn:E3.
    + split; [apply Z.eqb_neq; assumption|exact G3].
    + rewrite N3, P2, R2, E1, K2. split; [apply Z.eqb_neq; assumption|exact G2].
  - rewrite N1, P0, R0, Hin, K0. split; [apply Z.eqb_neq; assumption|]. rewrite G0.
    destruct (in_rect x y {| rl := 220; rt := 170; rr := 580; rb := 430 |}) eqn:E3; [|done].
    revert E1. rewrite (proj2 (in_rect_true _ _ _)); [done|]. apply in_rect_true in E3. cbn in *. lia.
Qed.

(** Drawing the screen from the desktop. *)
Lemma desktop_drawn fuel m s : desktop_shown m -> (257 <= fuel)%nat ->
  exists s', gui_redraw_rect W H ASCII_MAP (fun _ => buf) (fun _ => image) fuel (windows m)
      (rect (windata (windows m (desktop m)))) (winstack m) s = Some s' /\
    forall x y, 0 <= x < W -> 0 <= y < H -> pick_buffer s' (y * W + x) = kernel_pick x y.
Proof.
  intros Hd Hfuel. assert (0 < H /\ W < 2147483648 /\ H < 2147483648) as (? & ? & ?) by nia.
  destruct (kd_rects _ _ _ _ _ _ _ _ _ Hd) as [R0 _]. rewrite (kd_desktop _ _ _ _ _ _ _ _ _ Hd), R0.
  destruct (redraw_picks W H ltac:(lia) ltac:(lia) ltac:(lia) ASCII_MAP (fun _ => buf) (fun _ => image) (windows m)
    (desktop_rank win_index sizeof_GUIWindow) ltac:(by eapply desktop_order) (fun _ _ _ _ => Hbuf)
    fuel {| rl := 0; rt := 0; rr := s32 W; rb := s32 H |} (winstack m) s) as (s' & E & Hp).
  { unfold on_screen. cbn. rewrite !s32_small by (unfold is_s32; lia). lia. }
  { destruct (kd_stack _ _ _ _ _ _ _ _ _ Hd) as [(-> & Hne & _) _]. right. split; [exact Hne|]. unfold desktop_rank. rewrite Z.eqb_refl. lia. }
  { unfold rank0. case_match; [lia|]. unfold desktop_rank. repeat case_match; lia. }
  exists s'. split; [exact E|]. intros x y Hx Hy. rewrite Hp by done. destruct (desktop_owner m x y Hd Hx Hy) as [Hne Hg].
  apply Z.eqb_neq in Hne. rewrite Hne, Hg.
  by rewrite in_screen.
Qed.

(** ** The workers *)

Section workers.
Context (callback : Z -> Z -> World -> option World) (rdtsc : World -> Z).

Lemma user_idle fuel w : no_message (w_user w) ->
  exists q, user_run W win_index sizeof_GUIWindow fuel w = Some (with_queues w q (w_callback w) (w_display w)).
Proof.
  intros (n & q & E & Hq). exists q. unfold user_run. rewrite E. cbn [mbind option_bind]. rewrite Hq. done.
Qed.

(** The rest of the world is as it was. *)
Lemma display_served fuel w : one_message (w_display w) (Some REDRAW_SCREEN) -> desktop_shown (Events.winmgr w) ->
  (257 <= fuel)%nat -> deadline w <= rdtsc w ->
  exists w', display_run W H ASCII_MAP (fun _ _ => buf) (fun _ => fun _ => image) rdtsc fuel w = Some w' /\
    sq_size (w_display w') = 0 /\ kern w' = kern (signal_kernel (-1) w) /\ Events.winmgr w' = Events.winmgr w /\
    forall x y, 0 <= x < W -> 0 <= y < H -> pick_buffer (display w') (y * W + x) = kernel_pick x y.
Proof.
  intros (n & q2 & q3 & q4 & E1 & E2 & E3 & E4 & E5 & E6) Hd Hfuel Ht. unfold display_run.
  destruct (Z.ltb_spec (rdtsc w) (deadline w)) as [|_]; [lia|]. cbv zeta.
  change (w_display (with_deadline w _)) with (w_display w). rewrite E1. cbn [mbind option_bind].
  rewrite E2. cbn [Z.leb Z.compare]. rewrite E3. cbn [qr_tail qr_head].
  change (Z.to_nat (1 - 0)) with 1%nat. cbn [for_each].
  set (w1 := with_queues _ _ _ q3). change (w_display w1) with q3. rewrite E4. cbn [mbind option_bind on_display_msg].
  change (Events.winmgr w1) with (Events.winmgr w). unfold redraw. change (Events.winmgr w1) with (Events.winmgr w).
  destruct (desktop_drawn fuel (Events.winmgr w) (display w1) Hd Hfuel) as (s' & E & Hp). rewrite E. cbn [mbind option_bind].
  change (w_display (with_display w1 _ _)) with q3. rewrite E5. cbn [mbind option_bind].
  eexists. split; [reflexivity|]. split; [exact E6|]. split; [reflexivity|]. split; [reflexivity|exact Hp].
Qed.
End workers.
End screen.

(** ** The round *)

(** The world of [s] with thread [t] running. *)
Definition dispatched {D} (s : @System D) (t : tref) : World := with_kern (sworld s) (as_thread (skern s) t).

Section round.
Context {D : Type} `{!Machine D} `{!Ports D} (time_stamp : D -> Z * D).
Context (W H : Z) (ASCII_MAP : Z -> Z) (disk : Z -> Z -> Z) (im : Image) (Hlink : linked W H im).
Context (Hscreen : 0 < W /\ 0 < H /\ (H + 1) * W < 2147483648).
Context (nullfile user_process : Z) (rdtsc : World -> Z) (Hlate : forall w, deadline w <= rdtsc w).
Implicit Types (s : @System D).

(** The callbacks of the kernel: [spawn] is the only one. *)
Definition kernel_callback (m : machine) (handler data : Z) (w : World) : option World :=
  if handler =? spawn_address im then '(k, _) ← spawn nullfile user_process (kern w) m; Some (with_kern w k) else None.

(** The event thread's first round on the state of [s]. *)
Definition first_round (fuel : nat) (winmgr : Z) s : option World :=
  event_round W H ASCII_MAP (win_index_at im winmgr) (sizeof_GUIWindow im) (fun _ _ => text_buf s) (fun _ _ => desktop_img s)
    (kernel_callback (mach s)) rdtsc fuel (dispatched s 1).

(** After it: the kernel [k'] of [spawn], the signal consumed, the queues empty,
    the screen drawn. *)
Record round_done (k' : kernel) (w' : World) : Prop := {
  ro_procs : forall q, q <> 0 -> procs (kern w') q = procs k' q;
  ro_threads : threads (kern w') = threads k' /\ num_procs (kern w') = num_procs k' /\ proc_id (kern w') = proc_id k';
  ro_signal : signal (monitors (procs (kern w') 0) MSG_MONITOR) = 0;
  ro_display : sq_size (w_display w') = 0;
  ro_picks : forall x y, 0 <= x < W -> 0 <= y < H -> pick_buffer (display w') (y * W + x) = kernel_pick x y
}.

Lemma ready_spawn s m p ss s' : ready W H im s m p ss s' -> p_cr3 (procs (skern s) 1) = 0 ->
  exists fs gs k' m', spawn nullfile user_process (kern (dispatched s' 1)) (mach s') = Some (k', m') /\
    spawned user_process (kern (dispatched s' 1)) (mach s') 1 fs gs k' m'.
Proof.
  intros Hr H1. destruct (rd_memory _ _ _ _ _ _ _ _ Hr) as (Hb & -> & Hend).
  destruct (bt_heaps _ _ Hb) as (Hcp & Hv & Hl). destruct (bt_istack _ _ Hb) as (Hi & Hs).
  apply spawn_ok.
  - apply heap_wf, (bt_wf _ _ Hb).
  - apply (bt_low _ _ Hb).
  - apply (frames_left_le _ _ 900); [lia|apply (bt_frames _ _ Hb)].
  - split; cbn [heap_at with_ptrs virt_alloc_ptr static_alloc_ptr static_alloc_limit]; rewrite ?Hv, ?Hl; try lia.
    + reflexivity.
    + intros a Ha Hp. change (pde (heap_at m _)) with (pde m) in Hp. change (virt_alloc_ptr (heap_at m _)) with (virt_alloc_ptr m) in Ha.
      rewrite ?Hv in Ha. assert (a / 4194304 = 2) as E by (clear - Ha; zdm). rewrite E in *. by rewrite (bt_private _ _ Hb) in Hp by lia.
    + unfold heap_end, event_page, gui_page, env_page in *. destruct (ln_pages _ _ _ Hlink) as (? & ? & ? & ? & ? & ? & ?).
      unfold gui_pages, event_pages in *. lia.
  - unfold MAX_PROCS. lia.
  - change (procs (kern (dispatched s' 1)) 1) with (procs (skern s') 1). rewrite (rd_procs _ _ _ _ _ _ _ _ Hr) by (unfold MAX_PROCS; lia).
    exact H1.
  - intros q Hq. assert (q = 0) as -> by lia. change (procs (kern (dispatched s' 1)) 0) with (procs (skern s') 0).
    destruct (rd_kernel _ _ _ _ _ _ _ _ Hr) as (_ & _ & _ & -> & _). discriminate.
  - change (threads (kern (dispatched s' 1))) with (threads (skern s')). apply (rd_threads _ _ _ _ _ _ _ _ Hr).
    unfold MAX_PROCS, MAX_PROC_THREADS. lia.
  - change (procs (kern (dispatched s' 1)) 1) with (procs (skern s') 1). rewrite (rd_procs _ _ _ _ _ _ _ _ Hr) by (unfold MAX_PROCS; lia).
    reflexivity.
Qed.

Lemma round_ok fuel s m p ss s' fs gs k' m' :
  ready W H im s m p ss s' -> (257 <= fuel)%nat ->
  spawn nullfile user_process (kern (dispatched s' 1)) (mach s') = Some (k', m') ->
  spawned user_process (kern (dispatched s' 1)) (mach s') 1 fs gs k' m' ->
  exists w', first_round fuel (gui_page im p) s' = Some w' /\ round_done k' w'.
Proof.
  intros Hr Hfuel E Hsp. destruct (rd_events _ _ _ _ _ _ _ _ Hr) as (Hsig & Huser & Hcall & Hdisp).
  destruct (rd_terminal _ _ _ _ _ _ _ _ Hr) as (_ & _ & lo & Hbox).
  pose proof (rd_desktop _ _ _ _ _ _ _ _ Hr) as Hd. set (w := dispatched s' 1) in *.
  assert (procs k' 0 = procs (skern s') 0) as E0.
  { unfold spawned in Hsp. cbv zeta in Hsp. destruct Hsp as (_ & _ & _ & _ & _ & _ & _ & _ & _ & _ & _ & _ & _ & _ & Hq & _). by apply Hq. }
  unfold first_round, event_round. fold w.
  destruct (user_idle W (win_index_at im (gui_page im p)) (sizeof_GUIWindow im) fuel w Huser) as (q1 & Eu).
  rewrite (bind_ok _ _ _ Eu). set (w1 := with_queues w q1 _ _).
  destruct (callback_served (kernel_callback (mach s')) (spawn_address im) (shell_name im) w1 Hcall) as (q2 & q3 & Hq3 & Hc).
  rewrite (bind_ok _ _ _ (Hc (with_kern (with_queues w1 (w_user w1) q2 (w_display w1)) k') ltac:(
    unfold kernel_callback; rewrite Z.eqb_refl; exact (bind_ok _ _ _ E)) eq_refl)).
  set (w3 := signal_kernel (-1) _).
  destruct (display_served W H Hscreen ASCII_MAP (win_index_at im (gui_page im p)) (sizeof_GUIWindow im) (fun _ => env_page im p)
    (fun _ => env_page im p) (image_page W H im p) (env_page im p +w offset_free im)) with (buf := text_buf s') (image := desktop_img s')
    (rdtsc := rdtsc) (fuel := fuel) (w := w3) as (w4 & E4 & Hq4 & Hk4 & _ & Hp4).
  all: try done.
  - apply (ln_window _ _ _ Hlink).
  - apply (bh_ok _ _ _ Hbox).
  - exists w4. split; [exact E4|]. split.
    + intros q Hq. rewrite Hk4. cbn. unfold upd. by destruct (Z.eqb_spec q 0).
    + rewrite Hk4. split; [reflexivity|split; reflexivity].
    + rewrite Hk4. cbn. rewrite E0, Hsig. reflexivity.
    + exact Hq4.
    + exact Hp4.
Qed.

End round.

